(* ===== verification/_CoqProject ===== *)
-Q . S2P
Prelude.v
Urls.v
Chain.v
BlockStore.v
Synchronizer.v
BlockVerifier.v
Assembler.v
AssemblerSafety.v
Restart.v
Execution.v
CacheBound.v
Gas.v
Limiters.v
Transactions.v
Faucet.v
Wallet.v
MoveList.v
Authorization.v
EpochMiddleware.v
ApiState.v
Interleaving.v
Handlers.v
Router.v
Server.v
ApiExamples.v
InterleavingExamples.v
ServerExamples.v
RpcNode.v
NodeExamples.v
Startup.v
RpcTool.v
OrderedSet.v
CliTypes.v
CliExamples.v
Validator.v
StartupExamples.v
Genesis.v
GenesisExamples.v
RpcClient.v
Endpoints.v
TxOptions.v
Identity.v
Dkg.v
ClientExamples.v
EndpointsExamples.v
EndToEnd.v
EndToEndExamples.v
DkgExamples.v
Ceremony.v
CeremonyExamples.v
Export.v
ExportExamples.v
Commands.v
CommandsExamples.v
Cli.v
ShellExamples.v
