(* ===== verification/Prelude.v ===== *)
(** * Supra RPC node and command line tool: a verification development

    ** The program

    The repository holds the RPC node of the Supra layer-one chain
    ([src/rpc_node]) and its command line tool ([src/supra]).  The RPC node
    receives certified blocks from a validator, orders, verifies and executes
    them, keeps an archive of the results and serves them over a REST
    interface; it also accepts transactions, which it forwards to the
    validators, and runs a faucet.  The tool is its client: it sends
    transactions and queries, keeps profiles and the identity of a validator,
    takes part in the distributed key generation and in the genesis ceremony,
    and exports databases.  This library models both.

    ** Conventions

    A Rust function becomes a Rocq function of the same name.  [Prelude.v]
    gives the common ground: [outcome] for [Result] with panics, the monad
    [M] for methods that change their state and may fail half way (what they
    changed before the error stays changed), a weakest precondition [wp] for
    it, and 64-bit arithmetic whose overflow panics, as the release profile
    of the workspace sets it.  Code of other crates (RocksDB schemas, the
    archive, the Move virtual machine and converter, cryptography, clocks,
    HTTP) is a parameter: a type class of operations, with a second class for
    the laws where a proof needs them.  Each such class has a concrete
    instance on which the theorems with hypotheses are applied.

    ** Parts

    - [Urls.v]: the percent-encoding of the paths of requests, which the tool
      writes and the node reads.
    - [Chain.v]: blocks, the persistent chain store and the epoch states as
      interfaces with laws, and an in-memory instance.
    - [BlockStore.v] ([consensus/block_store.rs]): the cache of blocks that
      wait for execution.  The trait [TBlockStore] is a class, its contract
      [TBlockStoreSpec] is stated over the abstract [StoreModel], and
      [Impl] is proved to meet it by a simulation.
    - [Synchronizer.v] ([consensus/synchronizer.rs], [errors.rs]): the one
      pending request for a missing block.
    - [BlockVerifier.v] ([consensus/block_verifier.rs]): verification against
      the current committee, with its contract [TBlockVerifierSpec].
    - [Assembler.v] ([consensus/chain_state_assembler.rs]): every handler of
      the assembler, its loop over an arbitrary sequence of triggers, and its
      construction.  It is written against the three interfaces above.
    - [AssemblerSafety.v]: the invariant of the loop and what follows from it.
    - [Restart.v] ([cli/start_server.rs], the part that makes the assembler over
      its database): the lives of a node that stops and is started again.
    - [Execution.v]: what a run of the assembler does to its executor, as the
      sequence of the blocks it hands to it.
    - [CacheBound.v]: the cache of the block store over the lives of a node.
    - [Gas.v] ([gas/]): the circular buffer of gas prices and its statistics.
    - [Limiters.v] ([rest/rest_call_limiter.rs], [faucet_call_limiter.rs] and
      the faucet endpoint of [api/v1/wallet.rs]).
    - [Transactions.v] ([transactions/], [rpc_storage.rs]): the dispatcher,
      the storage of pending transactions and waiting for an execution.
    - [Faucet.v] ([rest/faucet/]): issuing transactions, minters and
      delegates, and the interleaving of requests with the tasks they spawn.
    - [Wallet.v]: the faucet endpoints with limiter and faucet together, and the
      sessions of a faucet that gets its minters while requests come in.
    - [MoveList.v] ([rest/move_list/], the listing endpoints).
    - [Authorization.v] ([authorization.rs]).
    - [EpochMiddleware.v] ([rpc_epoch_manager_middleware.rs],
      [rpc_epoch_change_notification_schedule.rs]).
    - [ApiState.v] ([rest/api_server_state.rs], its errors, its builder and
      [utilities.rs]): lookups, blocks, events and simulations.
    - [Interleaving.v]: the lookups as sequences of accesses to the storage, the
      storing of blocks ([rpc_storage.rs]) and the permits of the simulations as
      step relations, with other tasks between any two accesses.
    - [Handlers.v] ([error.rs], [rest/controller/], [rest/api/]): the error
      answers, the controllers, the handlers, and the submission of
      transactions with the dispatcher that [cli/start_server.rs] sets up.
    - [Router.v] ([rest/router/] and the attributes of the handlers): the
      scopes and their handlers, with the documented behaviour of the web
      framework as the laws of a parameter: how it matches a path, and that it calls
      a handler only behind the middleware of its scope.
    - [Server.v] ([rest/api/]: transactions, gas prices, simulations, chain
      identifier): the node as one state on which requests and executed blocks
      act, and its sessions.
    - [RpcNode.v]: the assembler and the service together.  The executor of the
      assembler holds the state of the service and stores the executed blocks
      in it; inputs of the assembler and requests of clients are interleaved.
    - [Startup.v] ([cli/start_server.rs]): the start of a node as the sequence
      of its calls.
    - [RpcTool.v] ([cli/mod.rs], [cli/migrate_db.rs], [main.rs]): the commands
      of the node.

    Of the command line tool ([src/supra/src]):

    - [OrderedSet.v]: the ordered maps of the standard library it uses.
    - [CliTypes.v]: requests, errors, and the state of the tool: the world
      outside and its files.  Its class [CliEnv] is shared by all tools.
    - [Genesis.v] ([genesis/generate_mainnet_accounts_config.rs]): the accounts
      and pools of the genesis, the assignment of delegators to pools and the
      command that writes the result.
    - [RpcClient.v] ([rest_utils/client/], [rpc_request_kind/], [action.rs]):
      the addresses of requests, the requests, waiting for a transaction.
    - [Endpoints.v]: the requests that the tool sends for an action, as a log,
      against the routes of the node.
    - [EndToEnd.v]: the tool and the node together: a request of the tool is
      routed to a handler of [Server.v] and the answer is read by the tool.
    - [TxOptions.v] ([rest_utils/tool_option.rs]): options, gas, sending.
    - [Identity.v] ([node/identity_rotation/], [profile/]).
    - [Dkg.v] ([nidkg/]): the distributed key generation.
    - [Ceremony.v] ([genesis/mod.rs], [generate_genesis_transaction.rs]): the
      committee, the signatures and the blob of the genesis.
    - [Export.v] ([database/]): the export of databases.
    - [Commands.v] ([move_tool/], [node/delegation_pool/], [governance/]).
    - [Validator.v] ([node/smr_node/], [config/]): the start of a validator and
      the tool for configurations.
    - [Cli.v] ([lib.rs], [main.rs], [node/mod.rs], [common/], the displays of the
      commands): dispatch to the tools, output, history of the commands.

    The files [*Examples.v] hold concrete instances of the parameters, on which
    the theorems with hypotheses are applied.

    ** What is shown

    - The assembler executes a chain: consecutive heights, each block with
      the one before as its parent and verified, whatever arrives and in
      whatever order; it meets no internal error, stops at the end of an
      epoch until the next one is announced, and goes on executing or
      requesting as long as it knows of blocks above its chain.
    - From the first start on an empty database on, over any number of restarts,
      also after a stop between the commit of a block and its execution, the
      executed blocks are one chain above the genesis block.
    - The node serves the chain that it executed: each block by its height, its
      certified block with its batches, and nothing above; apart from the
      blocks that get executed it behaves as its service alone.
    - The block store hands every block out once, returns what was persisted and
      resumes after a restart; over all lives of a node its cache holds a bounded
      number of full blocks.  The verifier accepts exactly the blocks it should; if
      the provider of the blocks is trusted it does not check their certificates, and
      what is shown of the node says so.
    - The gas statistics are those of the last prices, also though the buffer
      updates its maximum and sum incrementally; the theorem gives the bound
      under which the sum does not saturate, and another one shows that it
      drifts beyond.
    - The limiters bound what they should for requests in sequence; the
      faucet limiter does not for concurrent ones.
    - A submitted transaction is counted by the limiter, verified and stored before
      it is sent, is reported as
      pending until its block is executed and as archived afterwards; the
      lookups answer that a transaction is missing under exactly stated
      conditions; blocks, certified blocks, events and coin transactions are
      listed completely and in order.
    - In a session of requests and blocks, a transaction is visible as soon as
      it is acknowledged, the gas estimates are those of the last prices, and
      simulations are answered until too many have failed.  The tool gets the
      same answers: it sees what it submitted, and reports a success only for
      a transaction that the node has recorded as successful in a block.
    - A lookup with other tasks between its accesses answers what was true at one of
      them; while the block of the transaction is stored, or after it was pushed out of
      the backlog, it may miss the transaction, but never answers a wrong one;
      simulations exceed their limit by at most one
      less than the number of the workers.
    - Following the cursors of the paginated listing partitions it.
    - The faucet has at most one running funding per minter, apart from which only
      transactions that it gave up waiting for are unsettled, and a minter's
      transaction is ensured only by its own execution; with its limiter, for requests
      in sequence, every request is answered and no account gets more than its daily
      maximum.
    - The simulation endpoint loses a permit with every failed simulation.
    - No handler of the node is hidden by another one, data of the consensus
      needs a token and the faucet must be enabled, which is so only off the
      main net; each request that the tool sends reaches the handler it is meant
      for, but for the faucet in version 2.
    - A node or validator moves its databases away only if it does not resume,
      and only after its configuration was found valid.
    - The tool does not wait for a transaction forever, and gives up only after
      its deadline; it reports a success only if the transaction succeeded, and stores a new
      consensus key only then; proposals of multisig accounts are accepted
      exactly if they are those of the chain.
    - The assignment of delegators balances the pools, and a generator of the
      genesis satisfies the checks of its construction; a file of balances is accepted
      exactly if no two neighbours in the order of the amounts have the same address,
      which does not exclude repeated addresses; the committee of the
      ceremony lists the operators, and its signatures are accepted exactly if
      every member signed.
    - A committee key results from the shares under exactly stated conditions;
      keys are read back as they were written.
    - An export writes the selected tables, each as a JSON array of its rows, but for
      the table of the authorized committees, which it never writes.
    - A command of the tool is recorded in the history, which is only appended
      to; its result is printed, and revealed secret keys are not recorded.

    ** Bounds and fuel

    Loops over channels are functions of the list of what the channels
    deliver, so that every theorem about a run is for all such lists.  The
    retries of the faucet are bounded by the list of rounds that are
    observed; [trim_start_matches] in [Authorization.v] takes the length of
    its argument as fuel, which is enough because every step drops at least
    one character.  The loops of the tool that wait for a node take fuel, and
    a run that uses it up ends in an error of its own: for waiting for a
    transaction it is proved that one turn for each request that fails and one for
    each pause that fits into the time until the deadline are enough, the theorems
    about sending hold for every fuel.

    ** What is not modelled

    The encodings of requests and responses are parameters; the generated
    documentation of the API, log messages, metrics, the progress display, derived
    texts for debugging and the parsers of the arguments are left out.  The
    migration of databases is a call of another crate.  The middleware of the web
    framework other than the authorization is left out, and so are the static
    files it serves.  The requests of a session of [Server.v] or [Wallet.v] are
    served one at a time; what happens between the accesses of one request is
    the subject of [Interleaving.v] and of the step relation of [Faucet.v].  The
    sessions of [RpcNode.v] interleave whole steps of the assembler with whole
    requests.  The executor, the epoch manager and the pruning of the databases
    belong to other crates: the executor is a parameter of which the theorems
    use that it records what it executes, and that a block it executes is
    stored in the archive; no row of the databases is pruned.  A stop of the
    process in the middle of a write is not modelled: in [Restart.v] a node stops
    regularly or with a failed execution, which leaves the databases as a stop
    between the commit and the execution does, and the method of another crate
    that compares the last committed with the last executed block when the
    assembler is made is a parameter with that behaviour as its hypothesis.
    Tests are not modelled. *)

From stdpp Require Import base tactics option list gmap strings.
From Stdlib Require Import ZArith Lia.

Local Open Scope Z_scope.

(** ** Outcomes of Rust calls

    A call either returns [Ok], returns [Err], or panics (an [expect] on
    [None]/[Err], an index out of bounds, a checked arithmetic overflow: the
    release profile of the workspace sets [overflow-checks = true]). *)
Inductive outcome (E A : Type) : Type :=
| Ok (a : A)
| Err (e : E)
| Panic.
Arguments Ok {E A} a.
Arguments Err {E A} e.
Arguments Panic {E A}.

(** [Result::is_ok]. *)
Definition is_ok {E A} (o : outcome E A) : bool :=
  match o with Ok _ => true | _ => false end.

Definition obind {E A B} (o : outcome E A) (k : A → outcome E B) : outcome E B :=
  match o with Ok a => k a | Err e => Err e | Panic => Panic end.

Definition omap_ok {E A B} (f : A → B) (o : outcome E A) : outcome E B :=
  match o with Ok a => Ok (f a) | Err e => Err e | Panic => Panic end.

(** [Result::map_err], and the [From] conversion of the [?] operator. *)
Definition omap_err {E F A} (f : E → F) (o : outcome E A) : outcome F A :=
  match o with Ok a => Ok a | Err e => Err (f e) | Panic => Panic end.

(** [Option::ok_or]. *)
Definition ok_or {E A} (o : option A) (e : E) : outcome E A :=
  match o with Some a => Ok a | None => Err e end.

(** [Option::expect]. *)
Definition expect {E A} (o : option A) : outcome E A :=
  match o with Some a => Ok a | None => Panic end.

(** [Result::ok]. *)
Definition ok {E A} (o : outcome E A) : option A :=
  match o with Ok a => Some a | _ => None end.

(** Collecting an iterator of results stops at the first error. *)
Fixpoint otraverse {E A B} (f : A → outcome E B) (l : list A) : outcome E (list B) :=
  match l with
  | [] => Ok []
  | x :: l' => obind (f x) (λ y, omap_ok (cons y) (otraverse f l'))
  end.

Lemma otraverse_ok {E A B} (f : A → outcome E B) l ys :
  otraverse f l = Ok ys ↔ Forall2 (λ x y, f x = Ok y) l ys.
Proof.
  revert ys. induction l as [|x l IH]; intros ys; simpl.
  { split; [by intros [= <-]|]. by intros ->%Forall2_nil_inv_l. }
  split.
  - destruct (f x) as [y|e|] eqn:Hx; simpl; [|done..].
    destruct (otraverse f l) as [ys'|e|]; simpl; [|done..].
    intros [= <-]. constructor; [done|]. by apply IH.
  - intros (y & ys' & Hy & Hl & ->)%Forall2_cons_inv_l.
    rewrite Hy. simpl. by rewrite (proj2 (IH ys') Hl).
Qed.

Lemma otraverse_total {E A B} (P : A → B → Prop) (f : A → outcome E B) l :
  Forall (λ x, ∃ y, f x = Ok y ∧ P x y) l →
  ∃ ys, otraverse f l = Ok ys ∧ Forall2 P l ys.
Proof.
  induction 1 as [|x l (y & Hy & Hp) _ (ys & Hys & Hps)]; simpl; [by exists []|].
  exists (y :: ys). rewrite Hy. simpl. rewrite Hys. split; [done|]. by constructor.
Qed.

(** ** State and errors

    A method taking [&mut self] and returning [Result<A, E>]: the state
    changes made before an early return persist, so the state is returned
    next to the outcome, not inside it. *)
Definition M (S E A : Type) : Type := S → S * outcome E A.

Definition rret {S E A} (a : A) : M S E A := λ s, (s, Ok a).
Definition rfail {S E A} (e : E) : M S E A := λ s, (s, Err e).
Definition rpanic {S E A} : M S E A := λ s, (s, Panic).
Definition rlift {S E A} (o : outcome E A) : M S E A := λ s, (s, o).
Definition rgets {S E A} (f : S → A) : M S E A := λ s, (s, Ok (f s)).
Definition rmodify {S E} (f : S → S) : M S E unit := λ s, (f s, Ok tt).

Definition rthen {S E A B} (m : M S E A) (k : A → M S E B) : M S E B :=
  λ s, match m s with
       | (s', Ok a) => k a s'
       | (s', Err e) => (s', Err e)
       | (s', Panic) => (s', Panic)
       end.

(** Run a method of a field of the state, converting its error. *)
Definition rzoom {S T E F A} (get : S → T) (set : T → S → S) (conv : F → E)
    (m : M T F A) : M S E A :=
  λ s, match m (get s) with
       | (t, o) => (set t s, omap_err conv o)
       end.

(** [map_err] on the result of a method, and a [match] on it. *)
Definition rmap_err {S E F A} (f : E → F) (m : M S E A) : M S F A :=
  λ s, match m s with (s', o) => (s', omap_err f o) end.
Definition rtry {S E F A} (m : M S E A) : M S F (A + E) :=
  λ s, match m s with
       | (s', Ok a) => (s', Ok (inl a))
       | (s', Err e) => (s', Ok (inr e))
       | (s', Panic) => (s', Panic)
       end.

Declare Scope rust_scope.
Delimit Scope rust_scope with rust.
Notation "x <- c ;; k" := (rthen c (λ x, k))
  (at level 100, c at next level, right associativity) : rust_scope.
Notation "c ;; k" := (rthen c (λ _, k))
  (at level 100, right associativity) : rust_scope.
Notation "'let?' x := o 'in' k" := (obind o (λ x, k))
  (at level 10, x name, k at level 200) : rust_scope.
Notation "'let?' ' pat := o 'in' k" :=
  (obind o (λ x, match x with pat => k end))
  (at level 10, pat strict pattern, k at level 200) : rust_scope.

(** A run that succeeds, by its evaluation. *)
Lemma run_ok {S E A} (m : M S E A) s : is_ok (m s).2 = true → ∃ s' a, m s = (s', Ok a).
Proof. destruct (m s) as [s' [a|e|]]; [|done..]. by exists s', a. Qed.

(** ** Weakest preconditions

    [wp m Q s] holds when running [m] from [s] ends in an outcome and a state
    that satisfy [Q]; every call terminates, so this is total correctness. *)
Definition wp {S E A} (m : M S E A) (Q : outcome E A → S → Prop) (s : S) : Prop :=
  Q (m s).2 (m s).1.

Section wp_rules.
Context {S E : Type}.

Lemma wp_mono {A} (m : M S E A) (Q Q' : outcome E A → S → Prop) s :
  (∀ o s', Q o s' → Q' o s') → wp m Q s → wp m Q' s.
Proof. unfold wp; auto. Qed.

Lemma wp_ret {A} (a : A) (Q : outcome E A → S → Prop) s :
  Q (Ok a) s → wp (rret a) Q s.
Proof. done. Qed.

Lemma wp_fail {A} (e : E) (Q : outcome E A → S → Prop) s :
  Q (Err e) s → wp (rfail e) Q s.
Proof. done. Qed.

Lemma wp_lift {A} (o : outcome E A) (Q : outcome E A → S → Prop) s :
  Q o s → wp (rlift o) Q s.
Proof. done. Qed.

Lemma wp_gets {A} (f : S → A) (Q : outcome E A → S → Prop) s :
  Q (Ok (f s)) s → wp (rgets f) Q s.
Proof. done. Qed.

Lemma wp_modify (f : S → S) (Q : outcome E unit → S → Prop) s :
  Q (Ok tt) (f s) → wp (rmodify f) Q s.
Proof. done. Qed.

Lemma wp_then {A B} (m : M S E A) (k : A → M S E B) Q s :
  wp m (λ o s', match o with
                | Ok a => wp (k a) Q s'
                | Err e => Q (Err e) s'
                | Panic => Q Panic s'
                end) s →
  wp (rthen m k) Q s.
Proof. unfold wp, rthen. destruct (m s) as [s' [a|e|]]; auto. Qed.

Lemma wp_zoom {T F A} (get : S → T) (set : T → S → S) (conv : F → E)
    (m : M T F A) Q s :
  wp m (λ o t, Q (omap_err conv o) (set t s)) (get s) →
  wp (rzoom get set conv m) Q s.
Proof. unfold wp, rzoom. destruct (m (get s)) as [t o]; auto. Qed.

Lemma wp_map_err {F A} (f : F → E) (m : M S F A) Q s :
  wp m (λ o s', Q (omap_err f o) s') s → wp (rmap_err f m) Q s.
Proof. unfold wp, rmap_err. by destruct (m s). Qed.

Lemma wp_try {F A} (m : M S F A) (Q : outcome E (A + F) → S → Prop) s :
  wp m (λ o s', match o with
                | Ok a => Q (Ok (inl a)) s'
                | Err e => Q (Ok (inr e)) s'
                | Panic => Q Panic s'
                end) s →
  wp (rtry m) Q s.
Proof. unfold wp, rtry. by destruct (m s) as [? []]. Qed.
End wp_rules.

Create HintDb rust discriminated.
#[export] Hint Resolve wp_ret wp_fail wp_lift wp_gets wp_modify : rust.

(** Step through a monadic body, leaving the pure side goals. *)
Ltac wp_step :=
  lazymatch goal with
  | |- wp (rthen _ _) _ _ => apply wp_then
  | |- wp (rret _) _ _ => apply wp_ret
  | |- wp (rfail _) _ _ => apply wp_fail
  | |- wp (rlift _) _ _ => apply wp_lift
  | |- wp (rgets _) _ _ => apply wp_gets
  | |- wp (rmodify _) _ _ => apply wp_modify
  | |- wp (rzoom _ _ _ _) _ _ => apply wp_zoom
  | |- wp (rmap_err _ _) _ _ => apply wp_map_err
  | |- wp (rtry _) _ _ => apply wp_try
  end; cbn beta iota.
Ltac wp_steps := repeat wp_step.

(** ** Machine integers

    [u64] and (on the supported 64-bit targets) [usize] values are integers in
    [[0, 2^64)]; checked operations panic outside the range. *)
Definition U64_MAX : Z := 2 ^ 64 - 1.
Definition u64_range (x : Z) : Prop := 0 ≤ x ≤ U64_MAX.

Definition checked_u64 {E} (x : Z) : outcome E Z :=
  if (0 <=? x) && (x <=? U64_MAX) then Ok x else Panic.
Definition add64 {E} (a b : Z) : outcome E Z := checked_u64 (a + b).
Definition sub64 {E} (a b : Z) : outcome E Z := checked_u64 (a - b).
Definition mul64 {E} (a b : Z) : outcome E Z := checked_u64 (a * b).

(** [saturating_add] and [saturating_sub] on [u64]. *)
Definition saturating_add (a b : Z) : Z := Z.min (a + b) U64_MAX.
Definition saturating_sub (a b : Z) : Z := Z.max (a - b) 0.

Lemma checked_u64_ok {E} x : u64_range x → checked_u64 (E:=E) x = Ok x.
Proof.
  intros [H1 H2]. unfold checked_u64.
  by rewrite (proj2 (Z.leb_le _ _) H1), (proj2 (Z.leb_le _ _) H2).
Qed.

Lemma checked_u64_inv {E} x y : checked_u64 (E:=E) x = Ok y → y = x ∧ u64_range x.
Proof.
  unfold checked_u64, u64_range.
  destruct (0 <=? x) eqn:H1, (x <=? U64_MAX) eqn:H2; simpl; try done.
  intros [= <-]. split; [done|]. lia.
Qed.

Lemma checked_u64_not_err {E} x (e : E) : checked_u64 x ≠ Err e.
Proof. unfold checked_u64. by destruct (_ && _). Qed.

Lemma add64_ok {E} a b : 0 ≤ a → 0 ≤ b → a + b ≤ U64_MAX → add64 (E:=E) a b = Ok (a + b).
Proof. intros. apply checked_u64_ok. unfold u64_range. lia. Qed.

Lemma add64_inv {E} a b c : add64 (E:=E) a b = Ok c → c = a + b ∧ u64_range c.
Proof. intros H. apply checked_u64_inv in H as [-> ?]. auto. Qed.

Lemma sub64_ok {E} a b : b ≤ a → 0 ≤ b → a ≤ U64_MAX → sub64 (E:=E) a b = Ok (a - b).
Proof. intros. apply checked_u64_ok. unfold u64_range. lia. Qed.

#[export] Hint Resolve checked_u64_ok add64_ok sub64_ok : rust.

(** ** Sums *)
Definition sumZ (l : list Z) : Z := foldr Z.add 0 l.

Lemma sumZ_perm l l' : l ≡ₚ l' → sumZ l = sumZ l'.
Proof. induction 1; simpl; lia. Qed.

Lemma sumZ_insert l i v x :
  l !! i = Some x → sumZ (<[i := v]> l) = sumZ l + v - x.
Proof.
  revert i. induction l as [|y l IH]; intros [|i]; simpl; [done..| |].
  - intros [= ->]. lia.
  - intros Hx. rewrite (IH _ Hx). lia.
Qed.

Lemma sumZ_bound B l :
  Forall (λ v, 0 ≤ v ≤ B) l → 0 ≤ sumZ l ≤ B * Z.of_nat (length l).
Proof. induction 1; simpl; lia. Qed.

Lemma sumZ_app l l' : sumZ (l ++ l') = sumZ l + sumZ l'.
Proof. induction l as [|x l IH]; simpl; lia. Qed.

Lemma sumZ_elem l x : Forall (λ v, 0 ≤ v) l → x ∈ l → x ≤ sumZ l.
Proof.
  induction 1 as [|y l Hy Hl IH]; [by intros ?%not_elem_of_nil|].
  assert (0 ≤ sumZ l) by (clear IH; induction Hl; simpl; lia).
  intros [->|Hx]%elem_of_cons; simpl; [lia|]. apply IH in Hx. lia.
Qed.

(** ** Strings *)
Lemma string_app_nil_r s : s +:+ "" = s.
Proof. induction s as [|c s IH]; [done|]. exact (f_equal (String c) IH). Qed.
Lemma string_app_assoc s t u : s +:+ (t +:+ u) = (s +:+ t) +:+ u.
Proof. induction s as [|c s IH]; [done|]. exact (f_equal (String c) IH). Qed.

Lemma string_app_length s t : String.length (s +:+ t) = (String.length s + String.length t)%nat.
Proof. induction s as [|c s IH]; [done|]. exact (f_equal S IH). Qed.
Lemma string_app_inj_r s t u : s +:+ u = t +:+ u → s = t.
Proof.
  revert t. induction s as [|c s IH]; intros [|d t]; [done|..].
  - intros Heq%(f_equal String.length). rewrite !string_app_length in Heq. simpl in Heq. lia.
  - intros Heq%(f_equal String.length). rewrite !string_app_length in Heq. simpl in Heq. lia.
  - change (String c (s +:+ u) = String d (t +:+ u) → String c s = String d t).
    intros [= -> Heq]. by rewrite (IH t Heq).
Qed.

(** ** Composition of steps *)
Lemma then_ret {S E} (m : M S E unit) s : rthen m (λ _, rret tt) s = m s.
Proof. unfold rthen, rret. by destruct (m s) as [s' [[]|e|]]. Qed.
Lemma then_ext {S E A B} (m : M S E A) (k k' : A → M S E B) s :
  (∀ a s', k a s' = k' a s') → rthen m k s = rthen m k' s.
Proof. intros Hk. unfold rthen. by destruct (m s) as [s' [a|e|]]. Qed.

Lemma forallb_elem {A} (f : A → bool) l x : forallb f l = true → x ∈ l → f x = true.
Proof. intros Hf Hx. rewrite forallb_forall in Hf. by apply Hf, list_elem_of_In. Qed.
