(* ===== verification/Urls.v ===== *)
(** * Segments of addresses

    The percent-encoding of the paths of requests: what the tool writes into an
    address and what the node reads from it. *)

From S2P Require Import Prelude.
From stdpp Require Import base tactics option list strings.
From Stdlib Require Import ZArith Lia Ascii.

Module Urls.

(** The characters that a path has as they are. *)
Definition is_pchar (c : ascii) : bool :=
  let n := nat_of_ascii c in
  ((48 <=? n) && (n <=? 57) || (65 <=? n) && (n <=? 90) || (97 <=? n) && (n <=? 122))%nat
  || existsb (Ascii.eqb c) (String.list_ascii_of_string "-._~!$&'()*+,;=:@").

Definition hex_digit (c : ascii) : option nat :=
  let n := nat_of_ascii c in
  if ((48 <=? n) && (n <=? 57))%nat then Some (n - 48)%nat
  else if ((65 <=? n) && (n <=? 70))%nat then Some (n - 55)%nat
  else if ((97 <=? n) && (n <=? 102))%nat then Some (n - 87)%nat
  else None.

Definition hex_char (n : nat) : ascii := ascii_of_nat (if n <? 10 then n + 48 else n + 55)%nat.

Fixpoint encode (s : string) : string :=
  match s with
  | EmptyString => ""
  | String c s' =>
      if is_pchar c then String c (encode s')
      else String "%"%char (String (hex_char (nat_of_ascii c / 16))
             (String (hex_char (nat_of_ascii c mod 16)) (encode s')))
  end.

(** A percent sign that is not followed by two digits stands for itself. *)
Fixpoint decode (s : string) : string :=
  match s with
  | EmptyString => ""
  | String c s' =>
      match s' with
      | String h (String l s'') =>
          if Ascii.eqb c "%"%char
          then match hex_digit h, hex_digit l with
               | Some x, Some y => String (ascii_of_nat (16 * x + y)) (decode s'')
               | _, _ => String c (decode s')
               end
          else String c (decode s')
      | _ => String c (decode s')
      end
  end.

Definition all_chars (f : ascii → bool) (s : string) : bool :=
  forallb f (String.list_ascii_of_string s).

Definition dot_segment (s : string) : bool := String.eqb s "." || String.eqb s "..".

(** A segment of a path as it is sent. *)
Definition raw_segment (s : string) : bool :=
  negb (String.eqb s "") && negb (dot_segment s)
  && all_chars (λ c, is_pchar c || Ascii.eqb c "%"%char) s.

Fixpoint ends_in_space (s : string) : bool :=
  match s with
  | EmptyString => false
  | String c EmptyString => Ascii.eqb c " "%char
  | String _ s' => ends_in_space s'
  end.

(** A text that becomes a segment of its own when it is put into an address: no
    separator, no percent sign and no space at its ends. *)
Definition joinable (s : string) : bool :=
  negb (String.eqb s "") && negb (dot_segment s)
  && all_chars (λ c, is_pchar c
                     || existsb (Ascii.eqb c) (String.list_ascii_of_string " <>`{}")) s
  && negb (String.prefix " " s) && negb (ends_in_space s).

(** *** Encoding and decoding *)
Lemma decode_pchar c s : is_pchar c = true → decode (String c s) = String c (decode s).
Proof.
  intros Hc. assert (Ascii.eqb c "%"%char = false) as He.
  { destruct (Ascii.eqb_spec c "%"%char) as [->|]; [|done]. vm_compute in Hc. done. }
  destruct s as [|h [|l s]]; [done|done|]. cbn [decode]. by rewrite He.
Qed.

Lemma decode_escaped c s :
  decode (String "%"%char (String (hex_char (nat_of_ascii c / 16))
            (String (hex_char (nat_of_ascii c mod 16)) s))) = String c (decode s).
Proof. by destruct c as [[] [] [] [] [] [] [] []]. Qed.

(** Decoding reads back what was encoded. *)
Lemma decode_encode s : decode (encode s) = s.
Proof.
  induction s as [|c s IH]; [done|]. cbn [encode]. destruct (is_pchar c) eqn:Hc.
  - by rewrite decode_pchar, IH.
  - by rewrite decode_escaped, IH.
Qed.

Lemma decode_encode_list (l : list string) : decode <$> (encode <$> l) = l.
Proof. induction l as [|s l IH]; csimpl; [done|]. by rewrite decode_encode, IH. Qed.

Lemma hex_char_pchar n : (n < 16)%nat → is_pchar (hex_char n) = true.
Proof. intros Hn. by do 16 (destruct n as [|n]; [done|]); lia. Qed.

Lemma encode_chars s : all_chars (λ c, is_pchar c || Ascii.eqb c "%"%char) (encode s) = true.
Proof.
  unfold all_chars. induction s as [|c s IH]; [done|]. cbn [encode].
  pose proof (nat_ascii_bounded c) as Hb. destruct (is_pchar c) eqn:Hc;
    cbn [String.list_ascii_of_string forallb]; rewrite IH; [by rewrite Hc|].
  rewrite !hex_char_pchar; [by vm_compute| |].
  - apply Nat.mod_upper_bound. lia.
  - apply Nat.Div0.div_lt_upper_bound. lia.
Qed.

Lemma encode_nonempty s : s ≠ "" → encode s ≠ "".
Proof. destruct s as [|c s]; [done|]. cbn [encode]. by destruct (is_pchar c). Qed.

Lemma encode_raw s : joinable s = true → raw_segment (encode s) = true.
Proof.
  unfold joinable, raw_segment. rewrite encode_chars, andb_true_r, !andb_true_iff.
  intros [[[[Hne Hdot] _] _] _].
  assert (∀ d, decode d = d → String.eqb s d = false → String.eqb (encode s) d = false) as Heq.
  { intros d Hd Hs. destruct (String.eqb_spec (encode s) d) as [He|]; [|done].
    apply (f_equal decode) in He. rewrite decode_encode, Hd in He. by rewrite He, String.eqb_refl in Hs. }
  unfold dot_segment in *. rewrite negb_true_iff in Hne. rewrite negb_orb, andb_true_iff, !negb_true_iff in Hdot.
  by rewrite !Heq by (done || apply Hdot).
Qed.

Lemma pchar_joinable s :
  s ≠ "" → dot_segment s = false → all_chars is_pchar s = true → joinable s = true.
Proof.
  intros Hne Hdot Hall. unfold joinable. rewrite (proj2 (String.eqb_neq s "") Hne), Hdot.
  assert (ends_in_space s = false) as Hend.
  { clear -Hall. induction s as [|c s IH]; [done|]. apply andb_prop in Hall as [Hc Hs].
    destruct s as [|d s]; [|by apply IH]. cbn [ends_in_space].
    destruct (Ascii.eqb_spec c " "%char) as [->|]; [|done]. vm_compute in Hc. done. }
  assert (String.prefix " " s = false) as Hstart.
  { destruct s as [|c s]; [done|]. apply andb_prop in Hall as [Hc _]. simpl.
    case_match; subst; [vm_compute in Hc; done|done]. }
  rewrite Hend, Hstart, !andb_true_r. simpl. unfold all_chars in *. apply forallb_forall.
  intros c Hc. rewrite forallb_forall in Hall. by rewrite (Hall c Hc).
Qed.

Lemma encode_raw_list (l : list string) : forallb joinable l = true → forallb raw_segment (encode <$> l) = true.
Proof.
  induction l as [|s l IH]; csimpl; [done|]. intros [Hs Hl]%andb_prop.
  by rewrite encode_raw, IH.
Qed.
End Urls.
