(* ===== verification/Chain.v ===== *)
(** * Interfaces of the crates the consensus module of the RPC node calls

    The crates [committees], [lifecycle], [lifecycle_types], [rocksstore],
    [rpc], [execution] and [types] are not part of the repository.  The types
    and methods of them that [src/rpc_node/src/consensus/] uses are the fields
    of the classes below; what the node relies on is stated in the [...Laws]
    classes, one law per documented fact, and nothing else is assumed.
    A concrete instance of every class is at the end of the file. *)

From S2P Require Import Prelude.
From stdpp Require Import base tactics option list gmap strings.
From Stdlib Require Import ZArith Lia.
Local Open Scope Z_scope.

(** ** Blocks ([committees], [types::executed_block]) *)
Class ChainTypes : Type := {
  Hash : Type;
  #[global] Hash_dec :: EqDecision Hash;
  QC : Type;
  CertifiedBlock : Type;
  #[global] CertifiedBlock_dec :: EqDecision CertifiedBlock;
  cb_height : CertifiedBlock → Z;
  cb_epoch : CertifiedBlock → Z;
  cb_hash : CertifiedBlock → Hash;
  cb_parent : CertifiedBlock → Hash;
  cb_qc : CertifiedBlock → QC;
  (** [CertifiedBlock::is_commit_certified]. *)
  is_commit_certified : CertifiedBlock → bool;
  (** [block.block().correctly_extends(qc).is_ok()]. *)
  correctly_extends : CertifiedBlock → QC → bool;
  BlockInfo : Type;
  (** [BlockInfo::from(block.block())]. *)
  block_info : CertifiedBlock → BlockInfo;
  bi_height : BlockInfo → Z;
  bi_hash : BlockInfo → Hash;
  ExecutedBlock : Type;
  eb_certified_block : ExecutedBlock → CertifiedBlock;
  (** [ExecutedBlock::new(genesis, vec![], vec![], BlockMetadata::genesis(genesis)).finalize()]. *)
  genesis_executed_block : CertifiedBlock → option ExecutedBlock;
  BatchKey : Type;
  Bytes : Type;
  (** The keys of the batches in the payload of the block. *)
  cb_items : CertifiedBlock → list BatchKey;
}.

(** A [BlockInfo] carries the header and the digest of its block, heights are
    [u64], and an [ExecutedBlock] holds the certified block it was made from. *)
Class ChainTypesLaws `{ChainTypes} : Prop := {
  block_info_height b : bi_height (block_info b) = cb_height b;
  block_info_hash b : bi_hash (block_info b) = cb_hash b;
  cb_height_range b : u64_range (cb_height b);
  bi_height_range i : u64_range (bi_height i);
  genesis_executed_certified b eb :
    genesis_executed_block b = Some eb → eb_certified_block eb = b;
}.

(** [types::batches::batch::PackedSmrBatch] and [rpc::FullBlock], as the
    source destructures them. *)
Record PackedSmrBatch `{ChainTypes} := { psb_key : BatchKey; psb_batch : Bytes }.
Record FullBlock `{ChainTypes} := { base : CertifiedBlock; batches : list PackedSmrBatch }.

(** Every batch of the payload comes with the block. *)
Definition batches_complete `{ChainTypes} (fb : FullBlock) : Prop :=
  cb_items (base fb) ⊆ psb_key <$> batches fb.

(** [rpc::messages::RpcServerMessage], the variants the node sends. *)
Inductive RpcServerMessage (Txn : Type) : Type :=
| RSM_Block (height : Z)
| RSM_Authorization (epoch : Z)
| RSM_SendTxn (txn : Txn).
Arguments RSM_Block {Txn} height.
Arguments RSM_Authorization {Txn} epoch.
Arguments RSM_SendTxn {Txn} txn.

(** ** The persistent store ([rocksstore::chain_storage]) *)
Inductive LastStateItemKey : Type :=
| Key_ExecutedBlock
| Key_CommittedBlock
| Key_EpochBoundaryBlockQC.

Inductive LastStateItemValue `{ChainTypes} : Type :=
| LSV_ExecutedBlock (b : ExecutedBlock)
| LSV_CommittedBlock (b : CertifiedBlock)
| LSV_EpochBoundaryBlockQC (qc : QC).

Class ChainStoreOps `{ChainTypes} : Type := {
  ChainStore : Type;
  StoreError : Type;
  (** Rows of the [certified_block] table, before [hydrate]. *)
  StoredBlock : Type;
  batch_write_bytes : BatchKey → Bytes → M ChainStore StoreError unit;
  batch_read_bytes : ChainStore → BatchKey → outcome StoreError (option Bytes);
  put_certified_block : CertifiedBlock → M ChainStore StoreError unit;
  certified_block_read : ChainStore → Z → outcome StoreError (option StoredBlock);
  hydrate : StoredBlock → ChainStore → outcome StoreError CertifiedBlock;
  as_key : LastStateItemValue → LastStateItemKey;
  encoded : LastStateItemValue → Bytes;
  last_state_write_bytes : LastStateItemKey → Bytes → M ChainStore StoreError unit;
  last_state_read : ChainStore → LastStateItemKey → outcome StoreError (option LastStateItemValue);
  into_last_executed_block : LastStateItemValue → option ExecutedBlock;
  into_last_committed_block : LastStateItemValue → option CertifiedBlock;
}.

Section store_laws.
Context `{ChainStoreOps}.

(** The row of [b] is not lost: whenever the reads succeed, they give [b]
    back.  A read may still fail. *)
Definition retained (st : ChainStore) (b : CertifiedBlock) : Prop :=
  ∀ o, certified_block_read st (cb_height b) = Ok o →
       ∃ sb, o = Some sb ∧ ∀ c, hydrate sb st = Ok c → c = b.

(** The row of a batch is not lost. *)
Definition batch_kept (st : ChainStore) (k : BatchKey) : Prop :=
  ∀ o, batch_read_bytes st k = Ok o → is_Some o.

(** The block with all of its batches. *)
Definition block_kept (st : ChainStore) (b : CertifiedBlock) : Prop :=
  retained st b ∧ ∀ k, k ∈ cb_items b → batch_kept st k.

(** The reads of the last-state table after a successful write of [v]. *)
Definition last_state_is (st : ChainStore) (v : LastStateItemValue) : Prop :=
  last_state_read st (as_key v) = Ok (Some v).
End store_laws.

Class ChainStoreLaws `{ChainStoreOps} : Prop := {
  put_certified_block_retained b st st' :
    put_certified_block b st = (st', Ok tt) → retained st' b;
  put_certified_block_other b c st st' :
    put_certified_block b st = (st', Ok tt) →
    cb_height b ≠ cb_height c → retained st c → retained st' c;
  batch_write_retained k v st st' c :
    batch_write_bytes k v st = (st', Ok tt) → retained st c → retained st' c;
  last_state_write_retained k v st st' c :
    last_state_write_bytes k v st = (st', Ok tt) → retained st c → retained st' c;
  batch_write_last_state k v k' st st' :
    batch_write_bytes k v st = (st', Ok tt) → last_state_read st' k' = last_state_read st k';
  put_certified_block_last_state b k st st' :
    put_certified_block b st = (st', Ok tt) → last_state_read st' k = last_state_read st k;
  batch_write_kept k v st st' :
    batch_write_bytes k v st = (st', Ok tt) → batch_kept st' k;
  batch_write_other k v k' st st' :
    batch_write_bytes k v st = (st', Ok tt) → batch_kept st k' → batch_kept st' k';
  put_certified_block_batches b k st st' :
    put_certified_block b st = (st', Ok tt) → batch_kept st k → batch_kept st' k;
  last_state_write_batches k v k' st st' :
    last_state_write_bytes k v st = (st', Ok tt) → batch_kept st k' → batch_kept st' k';
  last_state_write_read v st st' :
    last_state_write_bytes (as_key v) (encoded v) st = (st', Ok tt) → last_state_is st' v;
  last_state_write_other v k st st' :
    last_state_write_bytes (as_key v) (encoded v) st = (st', Ok tt) →
    k ≠ as_key v → last_state_read st' k = last_state_read st k;
  as_key_executed b : as_key (LSV_ExecutedBlock b) = Key_ExecutedBlock;
  as_key_committed b : as_key (LSV_CommittedBlock b) = Key_CommittedBlock;
  as_key_boundary qc : as_key (LSV_EpochBoundaryBlockQC qc) = Key_EpochBoundaryBlockQC;
  into_last_executed_spec b : into_last_executed_block (LSV_ExecutedBlock b) = Some b;
  into_last_committed_spec b : into_last_committed_block (LSV_CommittedBlock b) = Some b;
}.

(** ** Epochs ([lifecycle], [lifecycle_types], [committees::Committee]) *)
Class EpochOps `{ChainTypes} : Type := {
  EpochState : Type;
  EpochStates : Type;
  Committee : Type;
  VerifyError : Type;
  (** [TEpochStates::current_epoch_state]. *)
  current_epoch_state : EpochStates → EpochState;
  (** [EpochStates::insert]. *)
  epoch_states_insert : EpochState → EpochStates → EpochStates;
  (** [epoch_states.current_mut().end_epoch()]. *)
  end_epoch : EpochStates → EpochStates;
  is_epoch_over : EpochState → bool;
  (** [new.extends(current)]. *)
  extends : EpochState → EpochState → bool;
  (** [epoch_state.epoch_info().start_height()]. *)
  start_height : EpochState → Z;
  current_committee : EpochStates → Committee;
  current_validator_committee : EpochStates → Committee;
  committee_epoch : Committee → Z;
  (** [Result] values of calls that do not touch any state: [inl] is [Err]. *)
  committee_verify : Committee → CertifiedBlock → VerifyError + unit;
  (** [FullBlock::check_consistency]. *)
  check_consistency : FullBlock → string + unit;
}.

(** Ending the current epoch is observable through [is_epoch_over], an
    inserted state which extends the current one becomes the current one, and a
    full block that is consistent comes with the batches of its payload. *)
Class EpochLaws `{EpochOps} : Prop := {
  end_epoch_over es : is_epoch_over (current_epoch_state (end_epoch es)) = true;
  insert_current e es :
    extends e (current_epoch_state es) = true →
    current_epoch_state (epoch_states_insert e es) = e;
  check_consistency_complete fb : check_consistency fb = inr tt → batches_complete fb;
}.

(** ** An in-memory instance

    The smallest implementation of the interfaces above: it shows that the
    laws can hold together and evaluates in examples.  A store never fails. *)
Module Mem.
Record block := Block {
  mb_height : Z; mb_epoch : Z; mb_hash : Z; mb_parent : Z; mb_commit : bool;
  mb_items : list Z }.

#[export] Instance block_dec : EqDecision block.
Proof. solve_decision. Defined.

Definition clamp (x : Z) : Z := Z.max 0 (Z.min x U64_MAX).

#[export] Instance types : ChainTypes := {
  Hash := Z;
  QC := Z;
  CertifiedBlock := block;
  cb_height b := clamp (mb_height b);
  cb_epoch := mb_epoch;
  cb_hash := mb_hash;
  cb_parent := mb_parent;
  cb_qc := mb_hash;
  is_commit_certified := mb_commit;
  correctly_extends b qc := mb_parent b =? qc;
  BlockInfo := block;
  block_info b := b;
  bi_height b := clamp (mb_height b);
  bi_hash := mb_hash;
  ExecutedBlock := block;
  eb_certified_block b := b;
  genesis_executed_block b := Some b;
  BatchKey := Z;
  Bytes := list Z;
  cb_items := mb_items;
}.

#[export] Instance types_laws : ChainTypesLaws.
Proof.
  split; try done; simpl.
  - intros b. unfold u64_range, clamp, U64_MAX. lia.
  - intros b. unfold u64_range, clamp, U64_MAX. lia.
  - by intros b eb [= ->].
Qed.

Definition block_bytes (b : block) : list Z :=
  [mb_height b; mb_epoch b; mb_hash b; mb_parent b; if mb_commit b then 1 else 0] ++ mb_items b.
Definition block_of_bytes (l : list Z) : option block :=
  match l with
  | h :: e :: d :: p :: c :: items => Some (Block h e d p (c =? 1) items)
  | _ => None
  end.

Record db := Db {
  db_blocks : gmap Z block;
  db_executed : option block;
  db_committed : option block;
  db_boundary : option Z;
  db_batches : gmap Z (list Z) }.

Definition empty_db : db := Db ∅ None None None ∅.

#[export] Instance store_ops : ChainStoreOps := {
  ChainStore := db;
  StoreError := Empty_set;
  StoredBlock := block;
  batch_write_bytes k v :=
    rmodify (λ d, Db (db_blocks d) (db_executed d) (db_committed d) (db_boundary d)
                     (<[k := v]> (db_batches d)));
  batch_read_bytes d k := Ok (db_batches d !! k);
  put_certified_block b :=
    rmodify (λ d, Db (<[clamp (mb_height b) := b]> (db_blocks d)) (db_executed d)
                     (db_committed d) (db_boundary d) (db_batches d));
  certified_block_read d h := Ok (db_blocks d !! h);
  hydrate b _ := Ok b;
  as_key v := match v with
              | LSV_ExecutedBlock _ => Key_ExecutedBlock
              | LSV_CommittedBlock _ => Key_CommittedBlock
              | LSV_EpochBoundaryBlockQC _ => Key_EpochBoundaryBlockQC
              end;
  encoded v := match v with
               | LSV_ExecutedBlock b | LSV_CommittedBlock b => block_bytes b
               | LSV_EpochBoundaryBlockQC q => [q]
               end;
  last_state_write_bytes k v :=
    rmodify (λ d, match k with
                  | Key_ExecutedBlock =>
                      Db (db_blocks d) (block_of_bytes v) (db_committed d) (db_boundary d) (db_batches d)
                  | Key_CommittedBlock =>
                      Db (db_blocks d) (db_executed d) (block_of_bytes v) (db_boundary d) (db_batches d)
                  | Key_EpochBoundaryBlockQC =>
                      Db (db_blocks d) (db_executed d) (db_committed d) (head v) (db_batches d)
                  end);
  last_state_read d k :=
    Ok (match k with
        | Key_ExecutedBlock => LSV_ExecutedBlock <$> db_executed d
        | Key_CommittedBlock => LSV_CommittedBlock <$> db_committed d
        | Key_EpochBoundaryBlockQC => LSV_EpochBoundaryBlockQC <$> db_boundary d
        end);
  into_last_executed_block v := match v with LSV_ExecutedBlock b => Some b | _ => None end;
  into_last_committed_block v := match v with LSV_CommittedBlock b => Some b | _ => None end;
}.

#[export] Instance store_laws : ChainStoreLaws.
Proof.
  split; try done.
  - intros b st st' [= <-] o [= <-]. simpl. rewrite lookup_insert_eq.
    exists b. split; [done|]. by intros c [= ->].
  - intros b c st st' [= <-] Hne Hr o [= <-]. simpl in *.
    rewrite lookup_insert_ne by done. by apply Hr.
  - by intros k v st st' c [= <-].
  - by intros [] v st st' c [= <-].
  - by intros k v [] st st' [= <-].
  - by intros b [] st st' [= <-].
  - intros k v st st' [= <-] o [= <-]. simpl. by rewrite lookup_insert_eq.
  - intros k v k' st st' [= <-] Hk o [= <-]. simpl.
    destruct (decide (k = k')) as [->|Hne]; [by rewrite lookup_insert_eq|].
    rewrite lookup_insert_ne by done. by apply Hk.
  - by intros b k st st' [= <-].
  - by intros [] v k' st st' [= <-].
  - by intros [[? ? ? ? [] ?]|[? ? ? ? [] ?]|q] st st' [= <-].
  - by intros [] [] st st' [= <-].
Qed.

Record epoch := Epoch { ep_id : Z; ep_start : Z; ep_over : bool }.

#[export] Instance epoch_ops : EpochOps := {
  EpochState := epoch;
  EpochStates := epoch;
  Committee := Z;
  VerifyError := unit;
  current_epoch_state e := e;
  epoch_states_insert e _ := e;
  end_epoch e := Epoch (ep_id e) (ep_start e) true;
  is_epoch_over := ep_over;
  extends n c := ep_id n =? ep_id c + 1;
  start_height := ep_start;
  current_committee := ep_id;
  current_validator_committee := ep_id;
  committee_epoch c := c;
  committee_verify c b := if mb_epoch b =? c then inr tt else inl tt;
  check_consistency fb :=
    if decide (cb_items (base fb) ⊆ psb_key <$> batches fb) then inr tt
    else inl "the batches do not match the payload"%string;
}.

#[export] Instance epoch_laws : EpochLaws.
Proof. split; [done..|]. intros fb. simpl. by case_decide. Qed.
End Mem.
