(* ===== verification/BlockStore.v ===== *)
(** * The block store ([src/rpc_node/src/consensus/block_store.rs])

    [TBlockStore] is the trait the assembler is written against, with an
    abstract model of what it promises ([StoreModel], [TBlockStoreSpec]);
    [BlockStore] is the implementation over the persistent [ChainStore] and
    the in-memory cache of blocks pending execution.  The theorems show that
    the implementation simulates the model, how each operation changes the
    window of full blocks ([CacheBound] bounds it), and what [initialize] accepts. *)

From S2P Require Import Prelude Chain.
From stdpp Require Import base tactics option list gmap strings.
From Stdlib Require Import ZArith Lia.
Local Open Scope Z_scope.

(** ** Errors *)
Inductive InvalidOperationMsg : Type :=
| CacheNotAboveCommitted (height last_committed : Z)
| CacheAlreadyScheduled (height : Z).

Inductive InvalidStateMsg : Type :=
| EntryWithoutData (height : Z)
| MemoWithoutBlock (height : Z).

Inductive StoreFatalMsg `{ChainTypes} : Type :=
| GenesisNotFinalized
| CommittedDoesNotExtendExecuted (committed executed : CertifiedBlock)
| LastBlocksInconsistent (committed : option CertifiedBlock) (executed : option ExecutedBlock).

Inductive BlockStoreError `{ChainStoreOps} : Type :=
| PersistentStore (e : StoreError)
| StorageWriter
| InvalidOperation (m : InvalidOperationMsg)
| InvalidState (m : InvalidStateMsg)
| StoreFatal (m : StoreFatalMsg).

(** ** The trait *)
Class TBlockStore `{ChainStoreOps} (S : Type) : Type := {
  bs_initialize : CertifiedBlock → M S BlockStoreError unit;
  bs_persist : FullBlock → M S BlockStoreError unit;
  bs_cache : CertifiedBlock → M S BlockStoreError unit;
  bs_take_next_ready_block_by_height : Z → M S BlockStoreError (option CertifiedBlock);
  bs_retain : Z → S → S;
  bs_last_executed_block : S → outcome BlockStoreError (option ExecutedBlock);
  bs_last_committed_block : S → outcome BlockStoreError (option CertifiedBlock);
  bs_update_last_committed_block_info : CertifiedBlock → M S BlockStoreError unit;
  bs_update_epoch_boundary_block_info : CertifiedBlock → M S BlockStoreError unit;
  bs_has_entry : S → Z → bool;
}.

(** ** The abstract model of a block store

    The height of the last committed block and, per height above it, the
    block waiting for its turn or the mark that it was already handed out. *)
Inductive PendingEntry `{ChainTypes} : Type :=
| Waiting (b : CertifiedBlock)
| HandedOut.

Record StoreModel `{ChainTypes} := {
  sm_committed : Z;
  sm_pending : gmap Z PendingEntry;
}.

Section store_model.
Context `{ChainTypes}.

Definition sm_set_committed (h : Z) (m : StoreModel) : StoreModel :=
  {| sm_committed := h; sm_pending := sm_pending m |}.
Definition sm_put (h : Z) (e : PendingEntry) (m : StoreModel) : StoreModel :=
  {| sm_committed := sm_committed m; sm_pending := <[h := e]> (sm_pending m) |}.
Definition sm_retain (lower_bound : Z) (m : StoreModel) : StoreModel :=
  {| sm_committed := sm_committed m;
     sm_pending := filter (λ he, lower_bound < he.1) (sm_pending m) |}.

Lemma sm_retain_lookup lb m h :
  sm_pending (sm_retain lb m) !! h
  = if decide (lb < h) then sm_pending m !! h else None.
Proof.
  apply option_eq; intros e. simpl. rewrite map_lookup_filter_Some.
  case_decide; split; intros Hl; [destruct Hl| |destruct Hl|]; done || split; done.
Qed.
End store_model.

(** Errors after which the assembler stops. *)
Definition fatal_store_error `{ChainStoreOps} (e : BlockStoreError) : Prop :=
  match e with
  | PersistentStore _ | StorageWriter | StoreFatal _ => True
  | InvalidOperation _ | InvalidState _ => False
  end.

(** What an implementation of [TBlockStore] promises to its clients: it simulates the
    model, a block that was persisted with its batches stays so until another
    block of the same height is persisted, and the last committed block is read back. *)
Class TBlockStoreSpec `{ChainStoreOps} (S : Type) {ops : TBlockStore S} : Type := {
  sim : S → StoreModel → Prop;
  persisted : S → CertifiedBlock → Prop;
  sim_has_entry s m h :
    sim s m →
    bs_has_entry s h = (h <=? sm_committed m) || bool_decide (is_Some (sm_pending m !! h));
  sim_persist fb s m :
    sim s m → sm_pending m !! cb_height (base fb) = None →
    wp (bs_persist fb)
       (λ o s', match o with
                | Ok _ => sim s' m ∧ (batches_complete fb → persisted s' (base fb)) ∧
                          (∀ c, cb_height c ≠ cb_height (base fb) → persisted s c → persisted s' c) ∧
                          bs_last_committed_block s' = bs_last_committed_block s
                | Err e => fatal_store_error e
                | Panic => True
                end) s;
  sim_cache b s m :
    sim s m → persisted s b →
    sm_committed m < cb_height b → sm_pending m !! cb_height b = None →
    wp (bs_cache b)
       (λ o s', match o with
                | Ok _ => sim s' (sm_put (cb_height b) (Waiting b) m) ∧
                          (∀ c, persisted s c → persisted s' c) ∧
                          bs_last_committed_block s' = bs_last_committed_block s
                | Err _ => False
                | Panic => True
                end) s;
  sim_take h s m :
    sim s m →
    wp (bs_take_next_ready_block_by_height h)
       (λ o s', match o with
                | Ok r =>
                    match sm_pending m !! h with
                    | Some (Waiting b) => r = Some b ∧ sim s' (sm_put h HandedOut m)
                    | _ => r = None ∧ sim s' m
                    end ∧
                    (∀ c, persisted s c → persisted s' c) ∧
                    bs_last_committed_block s' = bs_last_committed_block s
                | Err e => fatal_store_error e
                | Panic => True
                end) s;
  sim_retain h s m : sim s m → sim (bs_retain h s) (sm_retain h m);
  retain_persisted h s c : persisted s c → persisted (bs_retain h s) c;
  retain_committed h s : bs_last_committed_block (bs_retain h s) = bs_last_committed_block s;
  sim_update_committed b s m :
    sim s m →
    wp (bs_update_last_committed_block_info b)
       (λ o s', match o with
                | Ok _ => sim s' (sm_set_committed (cb_height b) m) ∧
                          (∀ c, persisted s c → persisted s' c) ∧
                          bs_last_committed_block s' = Ok (Some b)
                | Err e => fatal_store_error e
                | Panic => True
                end) s;
  sim_update_epoch_boundary b s m :
    sim s m →
    wp (bs_update_epoch_boundary_block_info b)
       (λ o s', match o with
                | Ok _ => sim s' m ∧ (∀ c, persisted s c → persisted s' c) ∧
                          bs_last_committed_block s' = bs_last_committed_block s
                | Err e => fatal_store_error e
                | Panic => True
                end) s;
}.

(** ** The implementation *)
Inductive BlockReference `{ChainTypes} : Type :=
| RefBlock (b : CertifiedBlock)
| RefMemo (i : BlockInfo)
| RefScheduled (i : BlockInfo).

(** [TBlockHeader for BlockReference]: the height of the referenced block. *)
Definition ref_height `{ChainTypes} (r : BlockReference) : Z :=
  match r with
  | RefBlock b => cb_height b
  | RefMemo i | RefScheduled i => bi_height i
  end.

Record BlockStore `{ChainStoreOps} := {
  store : ChainStore;
  pending_execution : gmap Z (option BlockReference);
  certified_block_cache_bucket_size : Z;
  last_committed_block_height : Z;
}.

Module Impl.
Section block_store.
Context `{ChainStoreOps}.
Local Open Scope rust_scope.

Definition set_store (c : ChainStore) (s : BlockStore) : BlockStore :=
  {| store := c; pending_execution := pending_execution s;
     certified_block_cache_bucket_size := certified_block_cache_bucket_size s;
     last_committed_block_height := last_committed_block_height s |}.
Definition set_pending (p : gmap Z (option BlockReference)) (s : BlockStore) : BlockStore :=
  {| store := store s; pending_execution := p;
     certified_block_cache_bucket_size := certified_block_cache_bucket_size s;
     last_committed_block_height := last_committed_block_height s |}.
Definition set_committed (h : Z) (s : BlockStore) : BlockStore :=
  {| store := store s; pending_execution := pending_execution s;
     certified_block_cache_bucket_size := certified_block_cache_bucket_size s;
     last_committed_block_height := h |}.

Definition on_store {A} (m : M ChainStore StoreError A) : M BlockStore BlockStoreError A :=
  rzoom store set_store PersistentStore m.

Definition new (c : ChainStore) (bucket_size : Z) : BlockStore :=
  {| store := c; pending_execution := ∅;
     certified_block_cache_bucket_size := bucket_size;
     last_committed_block_height := 0 |}.

(** A clone shares the persistent store and starts with an empty cache. *)
Definition clone (s : BlockStore) : BlockStore :=
  {| store := store s; pending_execution := ∅;
     certified_block_cache_bucket_size := certified_block_cache_bucket_size s;
     last_committed_block_height := last_committed_block_height s |}.

Definition ensure_can_be_cached (height : Z) (s : BlockStore) : outcome BlockStoreError unit :=
  if height <=? last_committed_block_height s
  then Err (InvalidOperation (CacheNotAboveCommitted height (last_committed_block_height s)))
  else match pending_execution s !! height with
       | Some (Some (RefScheduled _)) => Err (InvalidOperation (CacheAlreadyScheduled height))
       | Some _ => Ok tt
       | None => Ok tt
       end.

Definition last_executed_block (s : BlockStore) : outcome BlockStoreError (option ExecutedBlock) :=
  let? o := omap_err PersistentStore (last_state_read (store s) Key_ExecutedBlock) in
  Ok (o ≫= into_last_executed_block).

Definition last_committed_block (s : BlockStore) : outcome BlockStoreError (option CertifiedBlock) :=
  let? o := omap_err PersistentStore (last_state_read (store s) Key_CommittedBlock) in
  Ok (o ≫= into_last_committed_block).

Definition update_last_committed_block_info (b : CertifiedBlock) : M BlockStore BlockStoreError unit :=
  rmodify (set_committed (cb_height b)) ;;
  on_store (last_state_write_bytes (as_key (LSV_CommittedBlock b)) (encoded (LSV_CommittedBlock b))).

Definition update_epoch_boundary_block_info (b : CertifiedBlock) : M BlockStore BlockStoreError unit :=
  let v := LSV_EpochBoundaryBlockQC (cb_qc b) in
  on_store (last_state_write_bytes (as_key v) (encoded v)).

Definition initialize (genesis_block : CertifiedBlock) : M BlockStore BlockStoreError unit :=
  s <- rgets id ;;
  maybe_committed <- rlift (last_committed_block s) ;;
  maybe_executed <- rlift (last_executed_block s) ;;
  match maybe_committed, maybe_executed with
  | None, None =>
      update_last_committed_block_info genesis_block ;;
      eb <- rlift (ok_or (genesis_executed_block genesis_block) (StoreFatal GenesisNotFinalized)) ;;
      on_store (last_state_write_bytes (as_key (LSV_ExecutedBlock eb)) (encoded (LSV_ExecutedBlock eb)))
  | Some committed, Some executed =>
      let executed_block := eb_certified_block executed in
      if bool_decide (committed ≠ executed_block)
         && negb (correctly_extends committed (cb_qc executed_block))
      then rfail (StoreFatal (CommittedDoesNotExtendExecuted committed executed_block))
      else rmodify (set_committed (cb_height committed))
  | _, _ => rfail (StoreFatal (LastBlocksInconsistent maybe_committed maybe_executed))
  end.

Fixpoint persist_batches (bs : list PackedSmrBatch) : M BlockStore BlockStoreError unit :=
  match bs with
  | [] => rret tt
  | b :: bs' => on_store (batch_write_bytes (psb_key b) (psb_batch b)) ;; persist_batches bs'
  end.

Definition persist (full_block : FullBlock) : M BlockStore BlockStoreError unit :=
  persist_batches (batches full_block) ;;
  on_store (put_certified_block (base full_block)).

Definition cache (b : CertifiedBlock) : M BlockStore BlockStoreError unit :=
  let height := cb_height b in
  s <- rgets id ;;
  rlift (ensure_can_be_cached height s) ;;
  limit <- rlift (add64 (last_committed_block_height s) (certified_block_cache_bucket_size s)) ;;
  let block_ref := if height <=? limit then RefBlock b else RefMemo (block_info b) in
  rmodify (λ s, set_pending (<[height := Some block_ref]> (pending_execution s)) s).

(** The entry is emptied first ([entry.take()]) and refilled at the end; an
    early return through [?] leaves it empty, the two explicit error
    branches remove it. *)
Definition take_next_ready_block_by_height (height : Z)
    : M BlockStore BlockStoreError (option CertifiedBlock) :=
  λ s, match pending_execution s !! height with
       | None => (s, Ok None)
       | Some block_ref =>
           let taken := set_pending (<[height := None]> (pending_execution s)) s in
           let refill r := set_pending (<[height := Some r]> (pending_execution s)) s in
           let removed := set_pending (delete height (pending_execution s)) s in
           match block_ref with
           | None => (removed, Err (InvalidState (EntryWithoutData height)))
           | Some (RefBlock b) => (refill (RefScheduled (block_info b)), Ok (Some b))
           | Some (RefMemo memo) =>
               match certified_block_read (store s) (bi_height memo) with
               | Ok None => (removed, Err (InvalidState (MemoWithoutBlock height)))
               | Ok (Some stored) =>
                   match hydrate stored (store s) with
                   | Ok b => (refill (RefScheduled memo), Ok (Some b))
                   | Err e => (taken, Err (PersistentStore e))
                   | Panic => (taken, Panic)
                   end
               | Err e => (taken, Err (PersistentStore e))
               | Panic => (taken, Panic)
               end
           | Some (RefScheduled memo) => (refill (RefScheduled memo), Ok None)
           end
       end.

Definition retain (lower_bound : Z) (s : BlockStore) : BlockStore :=
  set_pending (filter (λ he, lower_bound < he.1) (pending_execution s)) s.

Definition has_entry (s : BlockStore) (height : Z) : bool :=
  (height <=? last_committed_block_height s)
  || bool_decide (is_Some (pending_execution s !! height)).

#[global] Instance block_store_ops : TBlockStore BlockStore := {
  bs_initialize := initialize;
  bs_persist := persist;
  bs_cache := cache;
  bs_take_next_ready_block_by_height := take_next_ready_block_by_height;
  bs_retain := retain;
  bs_last_executed_block := last_executed_block;
  bs_last_committed_block := last_committed_block;
  bs_update_last_committed_block_info := update_last_committed_block_info;
  bs_update_epoch_boundary_block_info := update_epoch_boundary_block_info;
  bs_has_entry := has_entry;
}.
End block_store.

(** ** The implementation refines the model *)
Section refinement.
Context `{ChainStoreOps} {laws : ChainStoreLaws} {tlaws : ChainTypesLaws}.

Inductive entry_sim (c : ChainStore) (h : Z)
    : option (option BlockReference) → option PendingEntry → Prop :=
| es_none : entry_sim c h None None
| es_block b : cb_height b = h → entry_sim c h (Some (Some (RefBlock b))) (Some (Waiting b))
| es_memo b : cb_height b = h → retained c b →
    entry_sim c h (Some (Some (RefMemo (block_info b)))) (Some (Waiting b))
| es_scheduled i : entry_sim c h (Some (Some (RefScheduled i))) (Some HandedOut).

Definition block_sim (s : BlockStore) (m : StoreModel) : Prop :=
  last_committed_block_height s = sm_committed m ∧
  ∀ h, entry_sim (store s) h (pending_execution s !! h) (sm_pending m !! h).

Lemma entry_sim_store c c' h r e :
  (∀ b, cb_height b = h → retained c b → retained c' b) →
  entry_sim c h r e → entry_sim c' h r e.
Proof. intros Hc He. destruct He; constructor; auto. Qed.

Lemma entry_sim_is_Some c h r e :
  entry_sim c h r e → bool_decide (is_Some r) = bool_decide (is_Some e).
Proof. by intros []. Qed.

(** Updating one entry on both sides. *)
Lemma block_sim_insert s m h r e :
  block_sim s m → entry_sim (store s) h (Some r) (Some e) →
  block_sim (set_pending (<[h := r]> (pending_execution s)) s) (sm_put h e m).
Proof.
  intros [Hc Hp] He. split; [done|]. intros h'. simpl.
  destruct (decide (h = h')) as [->|Hne]; simplify_map_eq; [done|].
  apply Hp.
Qed.

Lemma block_sim_refill s m h r :
  block_sim s m → pending_execution s !! h = Some r →
  block_sim (set_pending (<[h := r]> (pending_execution s)) s) m.
Proof.
  intros [Hc Hp] He. split; [done|]. intros h'. simpl.
  by rewrite insert_id.
Qed.

Lemma block_sim_store s m c :
  block_sim s m → (∀ b, cb_height b ∈ dom (sm_pending m) → retained (store s) b → retained c b) →
  block_sim (set_store c s) m.
Proof.
  intros [Hc Hp] Hr. split; [done|]. intros h. simpl. specialize (Hp h).
  destruct (sm_pending m !! h) as [e|] eqn:Hm; [|by inversion Hp; constructor].
  eapply entry_sim_store; [|done]. intros b <-. apply Hr. by apply elem_of_dom_2 in Hm.
Qed.

Lemma on_store_sim {A} (w : M ChainStore StoreError A) s m (P : A → ChainStore → Prop) :
  block_sim s m →
  (∀ c a, w (store s) = (c, Ok a) →
     P a c ∧ ∀ b, cb_height b ∈ dom (sm_pending m) → retained (store s) b → retained c b) →
  wp (on_store w)
     (λ o s', match o with
              | Ok a => block_sim s' m ∧ P a (store s')
              | Err e => fatal_store_error e
              | Panic => True
              end) s.
Proof.
  intros Hs Hw. unfold on_store. apply wp_zoom. unfold wp.
  destruct (w (store s)) as [c [a|e|]] eqn:Hr; simpl; [|done..].
  destruct (Hw c a eq_refl) as [HP Hret]. split; [|done]. by apply block_sim_store.
Qed.

Lemma persist_batches_sim bs s m :
  block_sim s m →
  wp (persist_batches bs)
     (λ o s', match o with
              | Ok _ => block_sim s' m ∧
                        (∀ k, k ∈ psb_key <$> bs ∨ batch_kept (store s) k → batch_kept (store s') k) ∧
                        (∀ c, retained (store s) c → retained (store s') c) ∧
                        ∀ k, last_state_read (store s') k = last_state_read (store s) k
              | Err e => fatal_store_error e
              | Panic => True
              end) s.
Proof.
  revert s. induction bs as [|b bs IH]; intros s Hs; simpl.
  { apply wp_ret. split_and!; [done| |done..]. by intros k [[]%not_elem_of_nil|]. }
  apply wp_then.
  eapply wp_mono; [|apply (on_store_sim _ s m (λ _ c,
    (∀ k, k = psb_key b ∨ batch_kept (store s) k → batch_kept c k) ∧
    (∀ d, retained (store s) d → retained c d) ∧
    ∀ k, last_state_read c k = last_state_read (store s) k) Hs)].
  - intros [[]|e|] s'; [|done..]. intros (Hs' & Hk & Hr & Hl).
    eapply wp_mono; [|by apply IH]. intros [[]|e|] s''; [|done..]. intros (Hs'' & Hk' & Hr' & Hl').
    split_and!; [done| |auto|congruence]. intros k [[->|Hin]%elem_of_cons|Hin]; auto.
  - intros c [] Hw. split; [split_and!|intros d _; by eapply batch_write_retained].
    + intros k [->|Hk]; [by eapply batch_write_kept|by eapply batch_write_other].
    + intros d. by eapply batch_write_retained.
    + intros k. by eapply batch_write_last_state.
Qed.

Lemma persist_sim fb s m :
  block_sim s m → sm_pending m !! cb_height (base fb) = None →
  wp (persist fb)
     (λ o s', match o with
              | Ok _ => block_sim s' m ∧ retained (store s') (base fb) ∧
                        (batches_complete fb → block_kept (store s') (base fb)) ∧
                        (∀ c, cb_height c ≠ cb_height (base fb) →
                              block_kept (store s) c → block_kept (store s') c) ∧
                        last_committed_block s' = last_committed_block s
              | Err e => fatal_store_error e
              | Panic => True
              end) s.
Proof.
  intros Hs Hn. unfold persist. apply wp_then.
  eapply wp_mono; [|apply (persist_batches_sim _ s m Hs)].
  intros [[]|e|] s'; [|done..]. intros (Hs' & Hk & Hr & Hl).
  eapply wp_mono; [|apply (on_store_sim _ s' m (λ _ c, retained c (base fb) ∧
    (∀ k, batch_kept (store s') k → batch_kept c k) ∧
    (∀ d, cb_height d ≠ cb_height (base fb) → retained (store s') d → retained c d) ∧
    ∀ k, last_state_read c k = last_state_read (store s') k) Hs')].
  { intros [[]|e|] s''; [|done..]. intros (Hs'' & Hr' & Hk' & Ho & Hl'). split_and!; [done..| | |].
    - intros Hc. split; [done|]. intros k ?%Hc. auto.
    - intros c Hne [Hret Hb]. split; auto.
    - unfold last_committed_block. by rewrite Hl', Hl. }
  intros c [] Hw. split_and!; [by eapply put_certified_block_retained| | | |].
  - intros k. by eapply put_certified_block_batches.
  - intros d Hne. by eapply put_certified_block_other.
  - intros k. by eapply put_certified_block_last_state.
  - intros b Hb. eapply put_certified_block_other; [done|].
    intros Heq. apply elem_of_dom in Hb as [? Hb]. congruence.
Qed.

Lemma cache_sim b s m :
  block_sim s m → retained (store s) b →
  sm_committed m < cb_height b → sm_pending m !! cb_height b = None →
  wp (cache b)
     (λ o s', match o with
              | Ok _ => block_sim s' (sm_put (cb_height b) (Waiting b) m) ∧ store s' = store s
              | Err _ => False
              | Panic => True
              end) s.
Proof.
  intros Hs Hr Hlt Hn. pose proof Hs as [Hc Hp]. unfold cache. wp_steps.
  assert (pending_execution s !! cb_height b = None) as Hnone.
  { specialize (Hp (cb_height b)). rewrite Hn in Hp. by inversion Hp. }
  unfold ensure_can_be_cached. simpl. rewrite Hnone.
  rewrite (proj2 (Z.leb_gt _ _)) by lia. wp_steps. cbv beta iota. unfold add64.
  destruct (checked_u64 _) as [limit|e|] eqn:Hl; [|by apply checked_u64_not_err in Hl|done].
  wp_steps. split; [|done]. apply block_sim_insert; [done|]. case_match; by constructor.
Qed.

Lemma take_sim h s m :
  block_sim s m →
  wp (take_next_ready_block_by_height h)
     (λ o s', match o with
              | Ok r =>
                  match sm_pending m !! h with
                  | Some (Waiting b) => r = Some b ∧ block_sim s' (sm_put h HandedOut m)
                  | _ => r = None ∧ block_sim s' m
                  end ∧ store s' = store s
              | Err e => fatal_store_error e
              | Panic => True
              end) s.
Proof.
  intros Hs. pose proof Hs as [Hc Hp]. unfold wp, take_next_ready_block_by_height.
  specialize (Hp h).
  destruct (pending_execution s !! h) as [r|] eqn:Hr; inversion Hp as [|b|b Hb Hret|i]; subst; simpl.
  - split; [|done]. split; [done|]. apply block_sim_insert; [done|constructor].
  - rewrite block_info_height.
    destruct (certified_block_read (store s) (cb_height b)) as [o|e|] eqn:Hread; [|done..].
    destruct (Hret _ Hread) as (sb & -> & Hh).
    destruct (hydrate sb (store s)) as [c|e|] eqn:Hhy; [|done..].
    rewrite (Hh _ eq_refl). split; [|done]. split; [done|].
    apply block_sim_insert; [done|constructor].
  - split; [|done]. split; [done|]. by apply block_sim_refill.
  - done.
Qed.

Lemma retain_sim h s m : block_sim s m → block_sim (retain h s) (sm_retain h m).
Proof.
  intros [Hc Hp]. split; [done|]. intros h'. rewrite sm_retain_lookup.
  replace (pending_execution (retain h s) !! h')
    with (if decide (h < h') then pending_execution s !! h' else None).
  { case_decide; [apply Hp|constructor]. }
  apply option_eq; intros e. unfold retain. simpl. rewrite map_lookup_filter_Some. simpl.
  case_decide; split; [by intros|by intros []|done|by intros []].
Qed.

(** A write to the table of the last state. *)
Lemma last_state_write_sim v s m :
  block_sim s m →
  wp (on_store (last_state_write_bytes (as_key v) (encoded v)))
     (λ o s', match o with
              | Ok _ => block_sim s' m ∧ (∀ c, block_kept (store s) c → block_kept (store s') c) ∧
                        last_state_is (store s') v ∧
                        ∀ k, k ≠ as_key v → last_state_read (store s') k = last_state_read (store s) k
              | Err e => fatal_store_error e
              | Panic => True
              end) s.
Proof.
  intros Hs. apply (on_store_sim _ s m (λ _ c, (∀ d, block_kept (store s) d → block_kept c d) ∧
    last_state_is c v ∧ ∀ k, k ≠ as_key v → last_state_read c k = last_state_read (store s) k) Hs).
  intros c [] Hw. split; [|intros b _; by eapply last_state_write_retained]. split_and!.
  - intros d [Hr Hk]. split; [by eapply last_state_write_retained|].
    intros k' ?%Hk. by eapply last_state_write_batches.
  - by eapply last_state_write_read.
  - intros k. by eapply last_state_write_other.
Qed.

Lemma update_committed_sim b s m :
  block_sim s m →
  wp (update_last_committed_block_info b)
     (λ o s', match o with
              | Ok _ => block_sim s' (sm_set_committed (cb_height b) m) ∧
                        (∀ c, block_kept (store s) c → block_kept (store s') c) ∧
                        last_committed_block s' = Ok (Some b)
              | Err e => fatal_store_error e
              | Panic => True
              end) s.
Proof.
  intros [Hc Hp]. unfold update_last_committed_block_info. wp_step. wp_step.
  eapply wp_mono; [|apply (last_state_write_sim _ (set_committed (cb_height b) s)
    (sm_set_committed (cb_height b) m)); by split].
  intros [[]|e|] s'; [|done..]. intros (Hs & Hk & Hl & _). split_and!; [done..|].
  unfold last_state_is in Hl. rewrite as_key_committed in Hl. unfold last_committed_block.
  rewrite Hl. simpl. by rewrite into_last_committed_spec.
Qed.

Lemma update_boundary_sim b s m :
  block_sim s m →
  wp (update_epoch_boundary_block_info b)
     (λ o s', match o with
              | Ok _ => block_sim s' m ∧ (∀ c, block_kept (store s) c → block_kept (store s') c) ∧
                        last_committed_block s' = last_committed_block s
              | Err e => fatal_store_error e
              | Panic => True
              end) s.
Proof.
  intros Hs. eapply wp_mono; [|by apply (last_state_write_sim _ s m)].
  intros [[]|e|] s'; [|done..]. intros (Hs' & Hk & _ & Hl). split_and!; [done..|].
  unfold last_committed_block. by rewrite Hl by by rewrite as_key_boundary.
Qed.

Lemma has_entry_sim s m h :
  block_sim s m →
  has_entry s h = (h <=? sm_committed m) || bool_decide (is_Some (sm_pending m !! h)).
Proof.
  intros [Hc Hp]. unfold has_entry. rewrite Hc. f_equal. by eapply entry_sim_is_Some.
Qed.

#[global] Instance block_store_spec : TBlockStoreSpec BlockStore.
Proof.
  refine {| sim := block_sim; persisted s b := block_kept (store s) b;
            sim_has_entry := has_entry_sim; sim_retain := retain_sim;
            sim_update_committed := update_committed_sim;
            sim_update_epoch_boundary := update_boundary_sim |}.
  - intros fb s m Hs Hn. eapply wp_mono; [|by apply (persist_sim fb s m)].
    intros [[]|e|] s'; [|done..]. by intros (? & _ & ?).
  - intros b s m Hs [Hr _] Hlt Hn. eapply wp_mono; [|by apply (cache_sim b s m)].
    intros [[]|e|] s'; [|done..]. intros [? Hst]. unfold bs_last_committed_block; simpl.
    unfold last_committed_block. by rewrite Hst.
  - intros h s m Hs. eapply wp_mono; [|by apply (take_sim h s m)].
    intros [r|e|] s'; [|done..]. intros [? Hst]. unfold bs_last_committed_block; simpl.
    unfold last_committed_block. by rewrite Hst.
  - done.
  - done.
Defined.

Lemma block_sim_new c bucket :
  block_sim (new c bucket) {| sm_committed := 0; sm_pending := ∅ |}.
Proof. split; [done|]. intros h. simpl. rewrite !lookup_empty. constructor. Qed.
End refinement.
End Impl.

(** ** Properties *)
Section properties.
Context `{ChainStoreOps} {laws : ChainStoreLaws} {tlaws : ChainTypesLaws}.
Import Impl.
Local Open Scope rust_scope.

(** Persisting a block, caching it and asking for its height gives the
    very same block back, whether the cache kept the full block or only a
    memo that is resolved through the persistent store; the only errors are
    those of the persistent store. *)
Theorem persist_cache_take fb s m :
  block_sim s m →
  sm_committed m < cb_height (base fb) →
  sm_pending m !! cb_height (base fb) = None →
  wp (persist fb ;; cache (base fb) ;;
      take_next_ready_block_by_height (cb_height (base fb)))
     (λ o s', match o with
              | Ok r => r = Some (base fb) ∧
                        block_sim s' (sm_put (cb_height (base fb)) HandedOut m)
              | Err e => fatal_store_error e
              | Panic => True
              end) s.
Proof.
  intros Hs Hlt Hn. apply wp_then.
  eapply wp_mono; [|by apply (persist_sim fb s m)].
  intros [[]|e|] s1; [|done..]. intros (Hs1 & Hr & _). apply wp_then.
  eapply wp_mono; [|by apply (cache_sim _ s1 m)].
  intros [[]|e|] s2; [|done..]. intros [Hs2 _].
  eapply wp_mono; [|by apply (take_sim (cb_height (base fb)) s2 _ Hs2)].
  intros [r|e|] s3; [|done..]. simpl. rewrite lookup_insert_eq.
  unfold sm_put; simpl. rewrite insert_insert_eq. by intros [? _].
Qed.

(** A block is handed out once: after a successful take at a height, a
    second take at that height yields nothing, whatever was cached there. *)
Theorem take_hands_out_once h s m s1 r1 :
  block_sim s m →
  take_next_ready_block_by_height h s = (s1, Ok r1) →
  (take_next_ready_block_by_height h s1).2 = Ok None.
Proof.
  intros Hs Ht. pose proof (take_sim h s m Hs) as Hw. unfold wp in Hw.
  rewrite Ht in Hw. simpl in Hw.
  assert (∃ m1, block_sim s1 m1 ∧
                (sm_pending m1 !! h = None ∨ sm_pending m1 !! h = Some HandedOut))
    as (m1 & [Hc Hp] & Hm).
  { destruct (sm_pending m !! h) as [[b|]|] eqn:Hm; destruct Hw as [[_ Hs1] _];
      eexists; split; try done; simpl; rewrite ?lookup_insert_eq; auto. }
  unfold take_next_ready_block_by_height. specialize (Hp h).
  by destruct Hm as [Hm|Hm]; rewrite Hm in Hp; inversion Hp.
Qed.

(** *** The bucket of full blocks *)
Definition is_full (r : option BlockReference) : bool :=
  match r with Some (RefBlock _) => true | _ => false end.

Definition full_blocks (s : BlockStore) : gmap Z (option BlockReference) :=
  filter (λ he, is_full he.2 = true) (pending_execution s).

Definition bucket_inv (s : BlockStore) : Prop :=
  ∀ h b, pending_execution s !! h = Some (Some (RefBlock b)) →
         last_committed_block_height s < h
         ≤ last_committed_block_height s + certified_block_cache_bucket_size s.

(** What every operation but a commit leaves alone. *)
Definition same_bounds (s s' : BlockStore) : Prop :=
  last_committed_block_height s' = last_committed_block_height s ∧
  certified_block_cache_bucket_size s' = certified_block_cache_bucket_size s.

Definition keeps_bucket {A} (op : M BlockStore BlockStoreError A) : Prop :=
  ∀ s, bucket_inv s → bucket_inv (op s).1 ∧ same_bounds s (op s).1.

Lemma on_store_cache {A} (w : M ChainStore StoreError A) s :
  ∃ c, (on_store w s).1 = set_store c s.
Proof. unfold on_store, rzoom. destruct (w (store s)) as [c o]. by exists c. Qed.

Lemma persist_batches_cache bs s : ∃ c, (persist_batches bs s).1 = set_store c s.
Proof.
  revert s. induction bs as [|b bs IH]; intros s; simpl; [by exists (store s); destruct s|].
  unfold rthen. destruct (on_store_cache (batch_write_bytes (psb_key b) (psb_batch b)) s) as [c Hc].
  destruct (on_store _ s) as [s1 [a|e|]]; simpl in *; subst; try by exists c.
  destruct (IH (set_store c s)) as [c' ->]. by exists c'.
Qed.

Lemma persist_cache_unchanged fb s : ∃ c, (persist fb s).1 = set_store c s.
Proof.
  unfold persist, rthen. destruct (persist_batches_cache (batches fb) s) as [c Hc].
  destruct (persist_batches _ s) as [s1 [a|e|]]; simpl in *; subst; try by exists c.
  destruct (on_store_cache (put_certified_block (base fb)) (set_store c s)) as [c' ->].
  by exists c'.
Qed.

Lemma persist_bucket fb : keeps_bucket (persist fb).
Proof. intros s Hi. by destruct (persist_cache_unchanged fb s) as [c ->]. Qed.

Lemma on_store_bucket {A} (w : M ChainStore StoreError A) : keeps_bucket (on_store w).
Proof. intros s Hi. by destruct (on_store_cache w s) as [c ->]. Qed.

Lemma cache_bucket b : keeps_bucket (cache b).
Proof.
  intros s Hw. change (wp (cache b) (λ _ s', bucket_inv s' ∧ same_bounds s s') s).
  unfold cache. wp_steps.
  destruct (ensure_can_be_cached _ _) as [[]|e|] eqn:He; [|done..]. wp_steps.
  unfold add64. destruct (checked_u64 _) as [limit|e|] eqn:Hl; [|done..].
  apply checked_u64_inv in Hl as [-> _]. wp_steps. split; [|done]. intros h c. simpl.
  unfold ensure_can_be_cached in He. destruct (_ <=? _) eqn:Hle in He; [done|].
  destruct (decide (cb_height b = h)) as [<-|Hne]; simplify_map_eq; [|apply Hw].
  clear He. case_match; [|done]. simpl in *. lia.
Qed.

Lemma take_bucket h : keeps_bucket (take_next_ready_block_by_height h).
Proof.
  intros s Hw.
  assert (∀ r, is_full r = false →
    bucket_inv (set_pending (<[h := r]> (pending_execution s)) s)) as Hput.
  { intros r Hr h' c. simpl.
    destruct (decide (h = h')) as [<-|Hne]; simplify_map_eq; [|apply Hw].
    intros [= ->]. done. }
  assert (bucket_inv (set_pending (delete h (pending_execution s)) s)) as Hdel.
  { intros h' c. simpl. rewrite lookup_delete_Some. intros [_ ?]. by eapply Hw. }
  unfold take_next_ready_block_by_height. repeat case_match; simpl; (split; [by auto|by split]).
Qed.

Lemma retain_bucket lb s : bucket_inv s → bucket_inv (retain lb s).
Proof. intros Hw h c. simpl. rewrite map_lookup_filter_Some. intros [Hl _]. by eapply Hw. Qed.

(** A map whose keys lie in a window is no larger than the window. *)
Lemma size_window {A} (m : gmap Z A) lo n :
  (∀ h x, m !! h = Some x → lo < h ≤ lo + n) → Z.of_nat (size m) ≤ Z.max 0 n.
Proof.
  intros Hm. rewrite <- (size_dom (D:=gset Z)).
  trans (Z.of_nat (size (list_to_set (C:=gset Z) (seqZ (lo + 1) n)))).
  - apply Nat2Z.inj_le, subseteq_size. intros h [x Hx]%elem_of_dom.
    apply elem_of_list_to_set, elem_of_seqZ. apply Hm in Hx. lia.
  - rewrite size_list_to_set by apply NoDup_seqZ. rewrite length_seqZ. lia.
Qed.

(** Full blocks whose heights lie in a window of the size of the bucket. *)
Definition in_window (lo : Z) (s : BlockStore) : Prop :=
  ∀ h b, pending_execution s !! h = Some (Some (RefBlock b)) →
         lo < h ≤ lo + certified_block_cache_bucket_size s.

Lemma full_blocks_window lo s :
  0 ≤ certified_block_cache_bucket_size s → in_window lo s →
  Z.of_nat (size (full_blocks s)) ≤ certified_block_cache_bucket_size s.
Proof.
  intros Hb Hw. trans (Z.max 0 (certified_block_cache_bucket_size s)); [|lia].
  eapply size_window. intros h r. unfold full_blocks. rewrite map_lookup_filter_Some.
  intros [Hl Hf]. destruct r as [[]|]; simpl in Hf; [|done..]. by apply Hw in Hl.
Qed.

(** *** Start and restart *)
Lemma on_store_inv {A} (w : M ChainStore StoreError A) s s' a :
  on_store w s = (s', Ok a) → ∃ c, s' = set_store c s ∧ w (store s) = (c, Ok a).
Proof.
  unfold on_store, rzoom. destruct (w (store s)) as [c [x|e|]]; simpl; [|done..].
  intros [= <- <-]. by exists c.
Qed.

(** Initializing an empty database makes the genesis block the last
    committed and the last executed block, and a node restarted on the
    resulting database, whatever genesis block it is then given, resumes from
    it and leaves the database as it is. *)
Theorem initialize_then_restart g g' c bucket bucket' s :
  last_state_read c Key_CommittedBlock = Ok None →
  last_state_read c Key_ExecutedBlock = Ok None →
  initialize g (new c bucket) = (s, Ok tt) →
  last_committed_block_height s = cb_height g ∧
  last_committed_block s = Ok (Some g) ∧
  (∃ eb, last_executed_block s = Ok (Some eb) ∧ eb_certified_block eb = g) ∧
  initialize g' (new (store s) bucket')
  = (set_committed (cb_height g) (new (store s) bucket'), Ok tt).
Proof.
  intros Hc He Hi.
  unfold initialize, rthen, rgets, rlift in Hi. unfold last_committed_block, last_executed_block in Hi.
  simpl in Hi. rewrite Hc, He in Hi. simpl in Hi.
  unfold update_last_committed_block_info, rthen, rmodify in Hi. simpl in Hi.
  destruct (on_store _ _) as [s1 [[]|e|]] eqn:H1 in Hi; [|done..].
  apply on_store_inv in H1 as (c1 & -> & Hw1). simpl in Hw1.
  destruct (genesis_executed_block g) as [eb|] eqn:Hg; [|done]. simpl in Hi.
  apply on_store_inv in Hi as (c2 & -> & Hw2). simpl in Hw2.
  pose proof (last_state_write_read _ _ _ Hw2) as Hr2. unfold last_state_is in Hr2.
  pose proof (last_state_write_read _ _ _ Hw1) as Hr1. unfold last_state_is in Hr1.
  rewrite as_key_executed in Hr2. rewrite as_key_committed in Hr1.
  pose proof (last_state_write_other _ Key_CommittedBlock _ _ Hw2) as Ho.
  rewrite as_key_executed in Ho. rewrite Hr1 in Ho. specialize (Ho ltac:(done)).
  apply genesis_executed_certified in Hg.
  assert (last_committed_block (new c2 bucket') = Ok (Some g)) as Hlc.
  { unfold last_committed_block. simpl. rewrite Ho. simpl. by rewrite into_last_committed_spec. }
  assert (last_executed_block (new c2 bucket') = Ok (Some eb)) as Hle.
  { unfold last_executed_block. simpl. rewrite Hr2. simpl. by rewrite into_last_executed_spec. }
  repeat split; [done|exists eb; by split|].
  unfold initialize, rthen, rgets, rlift. simpl. rewrite Hlc, Hle. simpl.
  by rewrite Hg, bool_decide_eq_false_2 by (intros Hn; by apply Hn).
Qed.
End properties.

(** ** The properties at a concrete store *)
Module Examples.
Import Impl Mem.
Local Open Scope rust_scope.

Definition ex_genesis : CertifiedBlock := Block 0 0 100 0 true [].
Definition ex_block5 : FullBlock :=
  {| base := Block 5 0 105 104 true [1];
     batches := [{| psb_key := 1; psb_batch := [7; 8] |}] |}.

Definition ex_db : ChainStore := empty_db.
Definition ex_store (bucket : Z) : BlockStore := new ex_db bucket.

(** Height 5 is beyond a bucket of 2: the block is kept as a memo. *)
Lemma persist_cache_take_witness :
  wp (persist ex_block5 ;; cache (base ex_block5) ;; take_next_ready_block_by_height 5)
     (λ o _, o = Ok (Some (base ex_block5))) (ex_store 2).
Proof.
  pose proof (persist_cache_take ex_block5 (ex_store 2) _ (block_sim_new _ _)
                ltac:(reflexivity) ltac:(reflexivity)) as Hw.
  assert (wp (persist ex_block5 ;; cache (base ex_block5) ;; take_next_ready_block_by_height 5)
            (λ o _, is_ok o = true) (ex_store 2)) as Hok by (vm_compute; reflexivity).
  unfold wp in *. change (cb_height (base ex_block5)) with 5 in Hw.
  destruct (rthen _ _ _) as [s' [r|e|]]; [|discriminate Hok..].
  simpl in Hw |- *. destruct Hw as [-> _]. reflexivity.
Defined.

Definition ex_waiting : BlockStore :=
  set_pending {[5 := Some (RefBlock (base ex_block5))]} (ex_store 9).

Lemma take_hands_out_once_witness :
  (take_next_ready_block_by_height 5
     (take_next_ready_block_by_height 5 ex_waiting).1).2 = Ok None.
Proof.
  eapply (take_hands_out_once 5 ex_waiting
            {| sm_committed := 0; sm_pending := {[5 := Waiting (base ex_block5)]} |}).
  - split; [reflexivity|]. intros h. destruct (decide (h = 5)) as [->|Hne].
    + simpl. rewrite !lookup_singleton_eq. by constructor.
    + simpl. rewrite !lookup_singleton_ne by done. constructor.
  - unfold take_next_ready_block_by_height. simpl. rewrite lookup_singleton_eq. reflexivity.
Defined.

Lemma initialize_then_restart_witness :
  last_committed_block (initialize ex_genesis (ex_store 2)).1 = Ok (Some ex_genesis).
Proof.
  eapply (initialize_then_restart ex_genesis ex_genesis ex_db 2 2); reflexivity.
Defined.
End Examples.
