(* ===== verification/Synchronizer.v ===== *)
(** * Errors and synchronization context of the assembler

    [src/rpc_node/src/consensus/errors.rs] and [synchronizer.rs].  The context
    remembers at most one pending request for a missing block; posting a
    request for another height while one is pending is the error the assembler
    must never run into.  Timer ticks are inputs of the assembler, so the
    timer itself has no state here. *)

From S2P Require Import Prelude Chain BlockStore.
From stdpp Require Import base tactics option list gmap strings.
From Stdlib Require Import ZArith Lia.
Local Open Scope Z_scope.

(** ** Errors ([errors.rs]) *)

(** Error types of the crates [rpc] and [execution]. *)
Class NodeErrors : Type := {
  RpcLayerError : Type;
  ExecutionError : Type;
}.

(** [consistency_warranter::StateConsistencyWarranterError], the variants the
    source builds; the texts are dropped. *)
Inductive StateConsistencyWarranterError `{NodeErrors} : Type :=
| WarranterExecutionError (e : ExecutionError)
| FailedToRestoreConsistency
| NoCommittedBlock
| NoExecutedBlock.

(** The [format!]-ed texts of the source, as the facts they report. *)
Inductive FatalMsg `{ChainStoreOps} `{NodeErrors} : Type :=
| FatalPersistentStore (e : StoreError)
| FatalStorageWriter
| FatalStore (m : StoreFatalMsg)
| FatalWarranter (e : StateConsistencyWarranterError)
| FatalSyncConflict (ongoing requested : Z)
| FatalEpochNotOver
| FatalInvalidEpochState
| FatalInvalidBlock (reason : string) (b : FullBlock)
| FatalParentMismatch (expected : BlockInfo) (b : CertifiedBlock)
| FatalFeedbackChannel (b : CertifiedBlock).

Inductive StoreStateMsg : Type :=
| StoreStateInvalid (m : InvalidStateMsg)
| MissingExecutedBlock.

Inductive RegressionMsg `{ChainTypes} : Type :=
| RegressionHeight (height last_executed : Z)
| RegressionEpochOver (b : CertifiedBlock)
| RegressionDoesNotFollow (last_executed height : Z).

Inductive AssemblerError `{ChainStoreOps} `{NodeErrors} : Type :=
| RpcInternalError (e : RpcLayerError)
| Fatal (m : FatalMsg)
| BlockVerification (m : string)
| InvalidBlockStoreState (m : StoreStateMsg)
| InvalidBlockStoreOperation (m : InvalidOperationMsg)
| Regression (m : RegressionMsg)
| ExecutionFailed (e : ExecutionError).

(** [impl From<BlockStoreError> for AssemblerError]. *)
Definition from_block_store_error `{ChainStoreOps} `{NodeErrors}
    (value : BlockStoreError) : AssemblerError :=
  match value with
  | InvalidOperation m => InvalidBlockStoreOperation m
  | InvalidState m => InvalidBlockStoreState (StoreStateInvalid m)
  | PersistentStore e => Fatal (FatalPersistentStore e)
  | StoreFatal m => Fatal (FatalStore m)
  | StorageWriter => Fatal FatalStorageWriter
  end.

(** [impl From<StateConsistencyWarranterError> for AssemblerError]. *)
Definition from_warranter_error `{ChainStoreOps} `{NodeErrors}
    (value : StateConsistencyWarranterError) : AssemblerError :=
  Fatal (FatalWarranter value).

(** ** The synchronization context ([synchronizer.rs]) *)

(** [rpc::clients::SyncRequestApi]. *)
Class SyncRequestApi `{NodeErrors} (SyncApi : Type) : Type := {
  Txn : Type;
  sync_send : RpcServerMessage Txn → M SyncApi RpcLayerError unit;
}.

Record SynchronizationContext (SyncApi : Type) := {
  request_sender : SyncApi;
  pending_sync_request : option Z;
}.
Arguments request_sender {SyncApi}.
Arguments pending_sync_request {SyncApi}.

Module Sync.
Section synchronizer.
Context `{ChainStoreOps} `{NodeErrors} {SyncApi : Type} `{!SyncRequestApi SyncApi}.
Local Open Scope rust_scope.

Definition set_sender (a : SyncApi) (s : SynchronizationContext SyncApi)
    : SynchronizationContext SyncApi :=
  {| request_sender := a; pending_sync_request := pending_sync_request s |}.
Definition set_request (p : option Z) (s : SynchronizationContext SyncApi)
    : SynchronizationContext SyncApi :=
  {| request_sender := request_sender s; pending_sync_request := p |}.

Definition new (sender : SyncApi) : SynchronizationContext SyncApi :=
  {| request_sender := sender; pending_sync_request := None |}.

Definition post_sync_request (block_height : Z)
    : M (SynchronizationContext SyncApi) AssemblerError unit :=
  rzoom request_sender set_sender RpcInternalError (sync_send (RSM_Block block_height)).

Definition retry : M (SynchronizationContext SyncApi) AssemblerError unit :=
  pending <- rgets pending_sync_request ;;
  match pending with
  | Some block_height => post_sync_request block_height
  | None => rret tt
  end.

Definition try_post_sync_request (height : Z)
    : M (SynchronizationContext SyncApi) AssemblerError unit :=
  pending <- rgets pending_sync_request ;;
  match pending with
  | None => rmodify (set_request (Some height)) ;; post_sync_request height
  | Some ongoing_sync_height =>
      if ongoing_sync_height =? height then rret tt
      else rfail (Fatal (FatalSyncConflict ongoing_sync_height height))
  end.

Definition clear (height : Z) (s : SynchronizationContext SyncApi)
    : SynchronizationContext SyncApi :=
  if bool_decide (Some height = pending_sync_request s) then set_request None s else s.

(** Errors of the synchronizer come from the request channel alone. *)
Definition only_rpc_error (o : outcome AssemblerError unit) : Prop :=
  match o with Err (RpcInternalError _) | Ok _ | Panic => True | _ => False end.

Lemma post_sync_request_pending h s :
  wp (post_sync_request h)
     (λ o s', only_rpc_error o ∧ pending_sync_request s' = pending_sync_request s) s.
Proof.
  unfold post_sync_request. apply wp_zoom. unfold wp.
  by destruct (sync_send _ _) as [a [[]|e|]].
Qed.

Lemma retry_pending s :
  wp retry
     (λ o s', only_rpc_error o ∧ pending_sync_request s' = pending_sync_request s) s.
Proof.
  unfold retry. wp_steps. destruct (pending_sync_request s) as [h|] eqn:Hp.
  - eapply wp_mono; [|apply post_sync_request_pending]. by rewrite Hp.
  - by wp_steps.
Qed.

(** With no request or the same request pending, the request is pending
    afterwards, also when the message could not be sent. *)
Lemma try_post_pending h s :
  pending_sync_request s = None ∨ pending_sync_request s = Some h →
  wp (try_post_sync_request h)
     (λ o s', only_rpc_error o ∧ pending_sync_request s' = Some h) s.
Proof.
  intros Hp. unfold try_post_sync_request. wp_steps. destruct Hp as [->| Hp].
  - wp_steps. eapply wp_mono; [|apply post_sync_request_pending]. done.
  - rewrite Hp, Z.eqb_refl. by wp_steps.
Qed.

Lemma clear_pending h s :
  pending_sync_request (clear h s)
  = if decide (pending_sync_request s = Some h) then None else pending_sync_request s.
Proof. unfold clear. case_bool_decide; case_decide; simpl; congruence. Qed.

Lemma clear_same h s :
  pending_sync_request s = None ∨ pending_sync_request s = Some h →
  pending_sync_request (clear h s) = None.
Proof. rewrite clear_pending. case_decide; intuition. Qed.
End synchronizer.
End Sync.
