(* ===== verification/BlockVerifier.v ===== *)
(** * The block verifier ([src/rpc_node/src/consensus/block_verifier.rs])

    [TBlockVerifier] is the trait, [TBlockVerifierSpec] what the assembler
    relies on, [BlockVerifier] the implementation. *)

From S2P Require Import Prelude Chain.
From stdpp Require Import base tactics option list gmap strings.
From Stdlib Require Import ZArith Lia.
Local Open Scope Z_scope.

Inductive VerificationResult `{ChainTypes} : Type :=
| Success
| OldEpochBlock
| FutureEpochBlock
| InvalidBlock (reason : string) (b : FullBlock).

(** [VerificationResult::report_byzantine_behaviour]: the text names the
    reason and the block. *)
Definition report_byzantine_behaviour `{ChainTypes} (msg : string) (full_block : FullBlock)
    : VerificationResult :=
  InvalidBlock msg full_block.

(** [TBlockVerifier], with the [TEpochStates]/[TEpochStatesWrite] accessors it
    extends. *)
Class TBlockVerifier `{EpochOps} (V : Type) : Type := {
  verify : V → FullBlock → VerificationResult;
  epoch_states : V → EpochStates;
  set_epoch_states : EpochStates → V → V;
  (** [epoch_states_mut] is the mutable view of [epoch_states]. *)
  epoch_states_set es v : epoch_states (set_epoch_states es v) = es;
}.

Section provided.
Context `{EpochOps} {V : Type} `{!TBlockVerifier V}.

(** The provided methods [update] and [end_current_epoch]. *)
Definition update (new_epoch_state : EpochState) (v : V) : V :=
  set_epoch_states (epoch_states_insert new_epoch_state (epoch_states v)) v.

Definition end_current_epoch (v : V) : V :=
  set_epoch_states (end_epoch (epoch_states v)) v.

Definition epoch_over (v : V) : bool := is_epoch_over (current_epoch_state (epoch_states v)).

Context {laws : EpochLaws}.

Lemma end_current_epoch_over v : epoch_over (end_current_epoch v) = true.
Proof. unfold epoch_over, end_current_epoch. rewrite epoch_states_set. apply end_epoch_over. Qed.

Lemma update_over e v :
  extends e (current_epoch_state (epoch_states v)) = true →
  epoch_over (update e v) = is_epoch_over e.
Proof.
  intros He. unfold epoch_over, update. by rewrite epoch_states_set, insert_current.
Qed.
End provided.

(** What the assembler relies on: a predicate of blocks that every accepted
    block satisfies, for verifiers in a state that epoch changes preserve. *)
Class TBlockVerifierSpec `{EpochOps} (V : Type) {ops : TBlockVerifier V} : Type := {
  verifier_ok : V → Prop;
  accepted : CertifiedBlock → Prop;
  verifier_ok_set es v : verifier_ok v → verifier_ok (set_epoch_states es v);
  verify_accepted v fb : verifier_ok v → verify v fb = Success → accepted (base fb);
  verify_complete v fb : verify v fb = Success → batches_complete fb;
}.

Record BlockVerifier `{EpochOps} := {
  bv_epoch_states : EpochStates;
  skip_qc_verification : bool;
}.

Module Verifier.
Section verifier.
Context `{EpochOps}.

Definition EPOCHS_TO_RETAIN : Z := 1.

(** [get_epoch_states] is the answer of the epoch manager. *)
Definition new (get_epoch_states : Z → EpochStates) (skip_block_verification : bool)
    : BlockVerifier :=
  {| bv_epoch_states := get_epoch_states EPOCHS_TO_RETAIN;
     skip_qc_verification := skip_block_verification |}.

Definition verify_block (v : BlockVerifier) (full_block : FullBlock) : VerificationResult :=
  if cb_height (base full_block) =? 0
  then report_byzantine_behaviour "Received root block" full_block
  else if negb (is_commit_certified (base full_block))
  then report_byzantine_behaviour
         "The block provider sent a block that is not commit-certified" full_block
  else
    let committee := current_committee (bv_epoch_states v) in
    let check_certificate :=
      match committee_verify committee (base full_block) with
      | inr _ => Success
      | inl _ => report_byzantine_behaviour
               "Safety Failure: Received a block with an invalid Commit Certificate." full_block
      end in
    match cb_epoch (base full_block) ?= committee_epoch committee with
    | Lt => OldEpochBlock
    | Gt => FutureEpochBlock
    | Eq =>
        match check_consistency full_block with
        | inl msg => report_byzantine_behaviour msg full_block
        | inr _ => if skip_qc_verification v then Success else check_certificate
        end
    end.

#[global] Instance block_verifier_ops : TBlockVerifier BlockVerifier := {
  verify := verify_block;
  epoch_states := bv_epoch_states;
  set_epoch_states es v :=
    {| bv_epoch_states := es; skip_qc_verification := skip_qc_verification v |};
  epoch_states_set es v := eq_refl;
}.

(** A commit-certified block of the epoch of a committee; the certificate is valid
    under this committee unless the provider of the blocks is trusted. *)
Definition certified_in_epoch (trusted : bool) (b : CertifiedBlock) : Prop :=
  0 < cb_height b ∧ is_commit_certified b = true ∧
  ∃ c, committee_epoch c = cb_epoch b ∧ (trusted = false → committee_verify c b = inr tt).

Lemma verify_block_cases v fb :
  let b := base fb in
  let c := current_committee (bv_epoch_states v) in
  match verify_block v fb with
  | Success =>
      cb_height b ≠ 0 ∧ is_commit_certified b = true ∧ cb_epoch b = committee_epoch c ∧
      check_consistency fb = inr tt ∧
      (skip_qc_verification v = true ∨ committee_verify c b = inr tt)
  | OldEpochBlock =>
      cb_height b ≠ 0 ∧ is_commit_certified b = true ∧ cb_epoch b < committee_epoch c
  | FutureEpochBlock =>
      cb_height b ≠ 0 ∧ is_commit_certified b = true ∧ committee_epoch c < cb_epoch b
  | InvalidBlock _ fb' =>
      fb' = fb ∧
      (cb_height b = 0 ∨ is_commit_certified b = false ∨
       cb_epoch b = committee_epoch c ∧
       ((∃ m, check_consistency fb = inl m) ∨
        skip_qc_verification v = false ∧ ∃ e, committee_verify c b = inl e))
  end.
Proof.
  simpl. unfold verify_block, report_byzantine_behaviour.
  destruct (Z.eqb_spec (cb_height (base fb)) 0) as [|Hh]; [by auto|].
  destruct (is_commit_certified (base fb)) eqn:Hc; simpl; [|by auto].
  destruct (Z.compare_spec (cb_epoch (base fb))
              (committee_epoch (current_committee (bv_epoch_states v)))); [|done..].
  destruct (check_consistency fb) as [m|[]] eqn:Hk; [by eauto 10|].
  destruct (skip_qc_verification v); [by auto 10|].
  destruct (committee_verify _ _) as [e|[]] eqn:Hv; eauto 10.
Qed.

(** The verifier accepts a block exactly when it is not the root block,
    is commit-certified, belongs to the current epoch, is consistent with its
    batches, and, unless certificate checks are disabled, its certificate
    verifies under the current committee. *)
Theorem verify_success_iff v fb :
  verify_block v fb = Success ↔
  cb_height (base fb) ≠ 0 ∧ is_commit_certified (base fb) = true ∧
  cb_epoch (base fb) = committee_epoch (current_committee (bv_epoch_states v)) ∧
  check_consistency fb = inr tt ∧
  (skip_qc_verification v = true ∨
   committee_verify (current_committee (bv_epoch_states v)) (base fb) = inr tt).
Proof.
  split.
  - intros Hs. pose proof (verify_block_cases v fb) as Hv. simpl in Hv. by rewrite Hs in Hv.
  - intros (Hh & Hc & He & Hk & Hor). unfold verify_block.
    rewrite (proj2 (Z.eqb_neq _ _) Hh), Hc, He, Z.compare_refl, Hk. simpl.
    destruct Hor as [->| ->]; [done|]. by destruct (skip_qc_verification v).
Qed.

Context {laws : ChainTypesLaws} {elaws : EpochLaws}.

Lemma verify_block_accepted v fb :
  verify_block v fb = Success → certified_in_epoch (skip_qc_verification v) (base fb).
Proof.
  intros Hs. pose proof (verify_block_cases v fb) as Hv. simpl in Hv.
  rewrite Hs in Hv. destruct Hv as (Hh & Hc & He & _ & Hv).
  pose proof (cb_height_range (base fb)) as [? _]. split; [lia|]. split; [done|].
  exists (current_committee (bv_epoch_states v)). split; [done|].
  intros Hskip. destruct Hv; [congruence|done].
Qed.

Lemma verify_block_complete v fb : verify_block v fb = Success → batches_complete fb.
Proof. intros (_ & _ & _ & Hc & _)%verify_success_iff. by apply check_consistency_complete. Qed.

(** The contract of a verifier, for each of the two settings of
    [block_provider_is_trusted]. *)
Definition block_verifier_spec (trusted : bool) : TBlockVerifierSpec BlockVerifier.
Proof.
  refine {| verifier_ok v := skip_qc_verification v = trusted;
            accepted := certified_in_epoch trusted;
            verifier_ok_set es v Hv := Hv;
            verify_complete := verify_block_complete |}.
  intros v fb <-. apply verify_block_accepted.
Defined.
End verifier.
End Verifier.
