(* ===== verification/Assembler.v ===== *)
(** * The chain state assembler ([src/rpc_node/src/consensus/chain_state_assembler.rs])

    The assembler receives blocks in any order, verifies them, executes those
    that continue the chain and caches the others.  It is written against the
    interfaces of the store ([TBlockStore]), the verifier ([TBlockVerifier]),
    the executor ([TBlockExecutor]) and the request channel
    ([SyncRequestApi]); the theorems use their specifications only.

    The input channels of [do_step] are the constructors of [Trigger]; [run]
    consumes a list of triggers, one per iteration of the loop of the source.
    The internal feedback channel, of capacity
    [INTERNAL_FEEDBACK_CHANNEL_SIZE], is a field of the state. *)

From S2P Require Import Prelude Chain BlockStore Synchronizer BlockVerifier.
From stdpp Require Import base tactics option list gmap strings.
From Stdlib Require Import ZArith Lia.
Local Open Scope Z_scope.

(** [execution::traits::TBlockExecutor]: the flag tells whether the block
    ended the epoch. *)
Class TBlockExecutor `{EpochOps} `{NodeErrors} (X : Type) : Type := {
  executor_execute_block : CertifiedBlock → Committee → M X ExecutionError bool;
}.

(** An executor records the blocks it executed, newest first; a failed
    execution records nothing. *)
Class TBlockExecutorSpec `{EpochOps} `{NodeErrors} (X : Type) {ops : TBlockExecutor X} : Type := {
  executed : X → list CertifiedBlock;
  execute_block_executed b c x :
    executed (executor_execute_block b c x).1
    = match (executor_execute_block b c x).2 with
      | Ok _ => b :: executed x
      | _ => executed x
      end;
}.

(** Any executor can be observed by recording what it executes. *)
Section recorder.
Context `{EpochOps} `{NodeErrors} {X : Type} `{!TBlockExecutor X}.

#[global] Instance recording_executor : TBlockExecutor (X * list CertifiedBlock) := {
  executor_execute_block b c xl :=
    let (x', o) := executor_execute_block b c xl.1 in
    ((x', match o with Ok _ => b :: xl.2 | _ => xl.2 end), o);
}.

Lemma recording_executor_executed b c (xl : X * list CertifiedBlock) :
  (executor_execute_block b c xl).1.2
  = match (executor_execute_block b c xl).2 with
    | Ok _ => b :: xl.2
    | _ => xl.2
    end.
Proof.
  destruct xl as [x l]. simpl. by destruct (executor_execute_block b c x) as [x' []].
Qed.

#[global] Instance recording_executor_spec : TBlockExecutorSpec (X * list CertifiedBlock) := {
  executed := snd;
  execute_block_executed := recording_executor_executed;
}.
End recorder.

Definition INTERNAL_FEEDBACK_CHANNEL_SIZE : Z := 1.

(** [epoch_manager::Notification]. *)
Inductive Notification `{EpochOps} : Type :=
| EndEpoch
| NewEpoch (e : EpochState).

Record ChainStateAssembler `{ChainTypes} (Storage Verifier Executor SyncApi : Type) := {
  executor : Executor;
  last_executed_block_info : BlockInfo;
  last_observed_highest_block : option BlockInfo;
  synchronizer : SynchronizationContext SyncApi;
  store : Storage;
  block_verifier : Verifier;
  (** The contents of the feedback channel made by [run]. *)
  ready_to_execute : list CertifiedBlock;
}.
Arguments executor {_ _ _ _ _}.
Arguments last_executed_block_info {_ _ _ _ _}.
Arguments last_observed_highest_block {_ _ _ _ _}.
Arguments synchronizer {_ _ _ _ _}.
Arguments store {_ _ _ _ _}.
Arguments block_verifier {_ _ _ _ _}.
Arguments ready_to_execute {_ _ _ _ _}.

(** What a branch of [select!] in [do_step] received; [None] is a closed
    channel.  [acked] tells whether the receiver of the acknowledgement is
    still there. *)
Inductive Trigger `{EpochOps} : Type :=
| T_epoch (n : option (Notification * bool))
| T_shutdown
| T_block (msg : option FullBlock)
| T_ready
| T_window.

Module Asm.
Section assembler.
Context `{ChainStoreOps} `{!EpochOps} `{NodeErrors}.
Context {Storage Verifier Executor SyncApi : Type}.
Context `{!TBlockStore Storage} `{!TBlockVerifier Verifier}.
Context `{!TBlockExecutor Executor} `{!SyncRequestApi SyncApi}.
Local Open Scope rust_scope.

Notation Assembler := (ChainStateAssembler Storage Verifier Executor SyncApi).
Notation MA := (M Assembler AssemblerError).

(** Field updates. *)
Definition set_executor (x : Executor) (s : Assembler) : Assembler :=
  Build_ChainStateAssembler _ _ _ _ _ x (last_executed_block_info s) (last_observed_highest_block s)
    (synchronizer s) (store s) (block_verifier s) (ready_to_execute s).
Definition set_last_executed (i : BlockInfo) (s : Assembler) : Assembler :=
  Build_ChainStateAssembler _ _ _ _ _ (executor s) i (last_observed_highest_block s)
    (synchronizer s) (store s) (block_verifier s) (ready_to_execute s).
Definition set_observed (i : option BlockInfo) (s : Assembler) : Assembler :=
  Build_ChainStateAssembler _ _ _ _ _ (executor s) (last_executed_block_info s) i
    (synchronizer s) (store s) (block_verifier s) (ready_to_execute s).
Definition set_synchronizer (c : SynchronizationContext SyncApi) (s : Assembler) : Assembler :=
  Build_ChainStateAssembler _ _ _ _ _ (executor s) (last_executed_block_info s)
    (last_observed_highest_block s) c (store s) (block_verifier s) (ready_to_execute s).
Definition set_asm_store (st : Storage) (s : Assembler) : Assembler :=
  Build_ChainStateAssembler _ _ _ _ _ (executor s) (last_executed_block_info s)
    (last_observed_highest_block s) (synchronizer s) st (block_verifier s) (ready_to_execute s).
Definition set_verifier (v : Verifier) (s : Assembler) : Assembler :=
  Build_ChainStateAssembler _ _ _ _ _ (executor s) (last_executed_block_info s)
    (last_observed_highest_block s) (synchronizer s) (store s) v (ready_to_execute s).
Definition set_ready (l : list CertifiedBlock) (s : Assembler) : Assembler :=
  Build_ChainStateAssembler _ _ _ _ _ (executor s) (last_executed_block_info s)
    (last_observed_highest_block s) (synchronizer s) (store s) (block_verifier s) l.

Definition on_block_store {A} (m : M Storage BlockStoreError A) : MA A :=
  rzoom store set_asm_store from_block_store_error m.
Definition on_synchronizer {A} (m : M (SynchronizationContext SyncApi) AssemblerError A) : MA A :=
  rzoom synchronizer set_synchronizer id m.
Definition on_executor {A} (m : M Executor ExecutionError A) : MA A :=
  rzoom executor set_executor ExecutionFailed m.

Definition next_block_height (s : Assembler) : outcome AssemblerError Z :=
  add64 (bi_height (last_executed_block_info s)) 1.

Definition is_current_epoch_over (s : Assembler) : bool := epoch_over (block_verifier s).

Definition handle_epoch_change (epoch_changed : bool) : MA unit :=
  if epoch_changed
  then rmodify (λ s, set_verifier (end_current_epoch (block_verifier s)) s)
  else rret tt.

Definition execute_block (certified_block : CertifiedBlock) : MA unit :=
  on_block_store (bs_update_last_committed_block_info certified_block) ;;
  committee <- rgets (λ s, current_validator_committee (epoch_states (block_verifier s))) ;;
  epoch_changed <- on_executor (executor_execute_block certified_block committee) ;;
  handle_epoch_change epoch_changed ;;
  rmodify (set_last_executed (block_info certified_block)) ;;
  rmodify (λ s, set_asm_store (bs_retain (cb_height certified_block) (store s)) s).

Definition try_to_sync_skipped_blocks : MA unit :=
  observed <- rgets last_observed_highest_block ;;
  match observed with
  | None => rret tt
  | Some last_observed_block =>
      s <- rgets id ;;
      next <- rlift (next_block_height s) ;;
      if (next <=? bi_height last_observed_block) && negb (bs_has_entry (store s) next)
      then on_synchronizer (Sync.try_post_sync_request next)
      else rret tt
  end.

(** [ready_to_execute_tx.try_send]. *)
Definition try_send_ready (b : CertifiedBlock) : MA unit :=
  pending <- rgets ready_to_execute ;;
  if Z.of_nat (length pending) <? INTERNAL_FEEDBACK_CHANNEL_SIZE
  then rmodify (set_ready (pending ++ [b]))
  else rfail (Fatal (FatalFeedbackChannel b)).

Definition try_execute_block_chain (certified_block : CertifiedBlock) : MA unit :=
  execute_block certified_block ;;
  s <- rgets id ;;
  if is_current_epoch_over s
  then on_block_store (bs_update_epoch_boundary_block_info certified_block)
  else
    next <- rlift (next_block_height s) ;;
    maybe_next <- on_block_store (bs_take_next_ready_block_by_height next) ;;
    match maybe_next with
    | Some next_ready_block => try_send_ready next_ready_block
    | None => try_to_sync_skipped_blocks
    end.

Definition does_follow_chain (s : Assembler) (block : CertifiedBlock)
    : outcome AssemblerError bool :=
  let? next := next_block_height s in
  if cb_height block =? next
  then if bool_decide (cb_parent block = bi_hash (last_executed_block_info s))
       then Ok true
       else Err (Fatal (FatalParentMismatch (last_executed_block_info s) block))
  else Ok false.

Definition handle_scheduled_block (certified_block : CertifiedBlock) : MA unit :=
  rmodify (λ s, set_synchronizer (Sync.clear (cb_height certified_block) (synchronizer s)) s) ;;
  s <- rgets id ;;
  if is_current_epoch_over s
  then rfail (Regression (RegressionEpochOver certified_block))
  else
    follows <- rlift (does_follow_chain s certified_block) ;;
    if (follows : bool)
    then try_execute_block_chain certified_block
    else
      rmodify (λ s, set_asm_store (bs_retain (cb_height certified_block) (store s)) s) ;;
      rfail (Regression (RegressionDoesNotFollow
                           (bi_height (last_executed_block_info s)) (cb_height certified_block))).

Definition handle_full_block (new_block : FullBlock) : MA unit :=
  s <- rgets id ;;
  let block := base new_block in
  if cb_height block <=? bi_height (last_executed_block_info s)
  then rfail (Regression (RegressionHeight (cb_height block)
                            (bi_height (last_executed_block_info s))))
  else
    on_block_store (bs_persist new_block) ;;
    follows <- (s <- rgets id ;; rlift (does_follow_chain s block)) ;;
    rmodify (λ s, set_synchronizer (Sync.clear (cb_height block) (synchronizer s)) s) ;;
    if (follows : bool)
    then try_execute_block_chain block
    else on_block_store (bs_cache block) ;; try_to_sync_skipped_blocks.

Definition should_be_skipped (s : Assembler) (block : CertifiedBlock) : bool :=
  if is_current_epoch_over s then true
  else if cb_height block <=? bi_height (last_executed_block_info s) then true
  else bs_has_entry (store s) (cb_height block).

Definition observe_block (certified_block : CertifiedBlock) (s : Assembler) : Assembler :=
  let highest :=
    match last_observed_highest_block s with Some i => bi_height i | None => 0 end in
  if highest <? cb_height certified_block
  then set_observed (Some (block_info certified_block)) s
  else s.

Definition handle_incoming_block (full_block : FullBlock) : MA unit :=
  rmodify (observe_block (base full_block)) ;;
  s <- rgets id ;;
  if should_be_skipped s (base full_block) then rret tt
  else match verify (block_verifier s) full_block with
       | Success => handle_full_block full_block
       | OldEpochBlock => rret tt
       | FutureEpochBlock => try_to_sync_skipped_blocks
       | InvalidBlock e b => rfail (Fatal (FatalInvalidBlock e b))
       end.

(** [ack_sender.send(Ack).expect(..)]. *)
Definition send_ack (acked : bool) : MA unit := if acked then rret tt else rpanic.

Definition handle_epoch_manager_notification (n : Notification * bool) : MA unit :=
  let (notification, acked) := n in
  s <- rgets id ;;
  if negb (is_current_epoch_over s) then rfail (Fatal FatalEpochNotOver)
  else
    match notification with
    | EndEpoch => send_ack acked
    | NewEpoch new_epoch_state =>
        if is_epoch_over new_epoch_state
           || negb (extends new_epoch_state
                      (current_epoch_state (epoch_states (block_verifier s))))
        then rfail (Fatal FatalInvalidEpochState)
        else
          rmodify (λ s, set_asm_store (bs_retain (start_height new_epoch_state) (store s)) s) ;;
          rmodify (λ s, set_verifier (update new_epoch_state (block_verifier s)) s) ;;
          (* the result is kept while the acknowledgement is sent *)
          (λ s, match try_to_sync_skipped_blocks s with
                | (s', Panic) => (s', Panic)
                | (s', result) => (send_ack acked ;; rlift result) s'
                end)
    end.

(** [do_step]; [true] means that the loop goes on.  [T_ready] stands for the
    branch of the feedback channel, which is ready only when the channel is
    not empty: the channel is never closed while [run] holds both ends. *)
Definition do_step (t : Trigger) : MA bool :=
  match t with
  | T_epoch (Some n) => handle_epoch_manager_notification n ;; rret true
  | T_epoch None => rret false
  | T_shutdown => rret false
  | T_block (Some full_block) => handle_incoming_block full_block ;; rret true
  | T_block None => rret false
  | T_ready =>
      pending <- rgets ready_to_execute ;;
      match pending with
      | b :: rest => rmodify (set_ready rest) ;; handle_scheduled_block b ;; rret true
      | [] => rret true
      end
  | T_window => on_synchronizer Sync.retry ;; rret true
  end.

(** [run]: the loop stops when a step says so, on a fatal error and on a
    failed execution; other errors are logged.  The list holds the triggers
    in the order [select!] delivers them; [Ok false] is a run whose triggers
    are used up while the loop is still going. *)
Fixpoint run (ts : list Trigger) : MA bool :=
  match ts with
  | [] => rret false
  | t :: ts' =>
      λ s, match do_step t s with
           | (s', Ok true) => run ts' s'
           | (s', Ok false) => (s', Ok true)
           | (s', Err (Fatal m)) => (s', Err (Fatal m))
           | (s', Err (ExecutionFailed e)) => (s', Err (ExecutionFailed e))
           | (s', Err _) => run ts' s'
           | (s', Panic) => (s', Panic)
           end
  end.

(** [impl TStateConsistencyWarranter]. *)
Definition warranter_execute (block : CertifiedBlock)
    : M Assembler StateConsistencyWarranterError unit :=
  λ s, match execute_block block s with
       | (s', Ok _) => (s', Ok tt)
       | (s', Err (ExecutionFailed err)) => (s', Err (WarranterExecutionError err))
       | (s', Err _) => (s', Err FailedToRestoreConsistency)
       | (s', Panic) => (s', Panic)
       end.

Definition warranter_last_committed_block (s : Assembler)
    : outcome StateConsistencyWarranterError CertifiedBlock :=
  let? o := omap_err (λ _, NoCommittedBlock) (bs_last_committed_block (store s)) in
  ok_or o NoCommittedBlock.

Definition warranter_last_executed_block (s : Assembler)
    : outcome StateConsistencyWarranterError ExecutedBlock :=
  let? o := omap_err (λ _, NoExecutedBlock) (bs_last_executed_block (store s)) in
  ok_or o NoExecutedBlock.

(** [new]; the provided method of [TStateConsistencyWarranter] that
    re-executes the last committed block when the Move store lags behind is a
    parameter. *)
Definition new
    (ensure_blockchain_and_move_stores_are_consistent :
       M Assembler StateConsistencyWarranterError unit)
    (st : Storage) (v : Verifier) (x : Executor) (sync_api : SyncApi)
    : outcome AssemblerError Assembler :=
  let? maybe_executed := omap_err from_block_store_error (bs_last_executed_block st) in
  let? eb := ok_or maybe_executed (InvalidBlockStoreState MissingExecutedBlock) in
  let assembler :=
    Build_ChainStateAssembler _ _ _ _ _ x (block_info (eb_certified_block eb)) None
      (Sync.new sync_api) st v [] in
  match ensure_blockchain_and_move_stores_are_consistent assembler with
  | (assembler', Ok _) => Ok assembler'
  | (_, Err e) => Err (from_warranter_error e)
  | (_, Panic) => Panic
  end.
End assembler.
End Asm.
