(* ===== verification/AssemblerSafety.v ===== *)
(** * Correctness of the chain state assembler

    The executed blocks form a chain whatever the block provider sends
    ([assembler_refines_chain]), the internal errors of the assembler cannot
    occur ([do_step_no_internal_error]), it stops only for external reasons,
    a node that is behind is always executing or asking for the next block
    ([assembler_makes_progress]), and a cached chain is drained.  All of them
    follow from one invariant of [do_step]. *)

From S2P Require Import Prelude Chain BlockStore Synchronizer BlockVerifier Assembler.
From stdpp Require Import base tactics option list gmap strings.
From Stdlib Require Import ZArith Lia.
Local Open Scope Z_scope.
Import Asm.

(** ** The abstract chain

    What the assembler promises: the list of executed blocks, newest first,
    grows one block at a time, and each block is an accepted direct successor
    of the one before; [i0] describes the block below the list. *)
Section chain_spec.
Context `{ChainTypes} (accepted : CertifiedBlock → Prop).

Definition tip (i0 : BlockInfo) (l : list CertifiedBlock) : BlockInfo :=
  match l with [] => i0 | b :: _ => block_info b end.

Inductive chain_step (i0 : BlockInfo) : list CertifiedBlock → list CertifiedBlock → Prop :=
| chain_extend b l :
    cb_height b = bi_height (tip i0 l) + 1 →
    cb_parent b = bi_hash (tip i0 l) →
    accepted b →
    chain_step i0 l (b :: l).
End chain_spec.

Section safety.
Context `{ChainStoreOps} `{!EpochOps} `{NodeErrors}.
Context {Storage Verifier Executor SyncApi : Type}.
Context `{!TBlockStore Storage} `{!TBlockVerifier Verifier}.
Context `{!TBlockExecutor Executor} `{!SyncRequestApi SyncApi}.
Context `{!TBlockStoreSpec Storage} `{!TBlockVerifierSpec Verifier}.
Context `{!TBlockExecutorSpec Executor}.
Context {types_laws : ChainTypesLaws} {epoch_laws : EpochLaws}.

Notation Assembler := (ChainStateAssembler Storage Verifier Executor SyncApi).
Notation MA := (M Assembler AssemblerError).

(** Errors a step may end with: the store, the executor, the request
    channel, the epoch manager or the block provider failed. *)
Definition external_error (e : AssemblerError) : Prop :=
  match e with
  | RpcInternalError _ | ExecutionFailed _ => True
  | Fatal m =>
      match m with
      | FatalPersistentStore _ | FatalStorageWriter | FatalStore _
      | FatalEpochNotOver | FatalInvalidEpochState
      | FatalInvalidBlock _ _ | FatalParentMismatch _ _ => True
      | FatalWarranter _ | FatalSyncConflict _ _ | FatalFeedbackChannel _ => False
      end
  | BlockVerification _ | InvalidBlockStoreState _ | InvalidBlockStoreOperation _
  | Regression _ => False
  end.

(** Errors after which [run] goes on. *)
Definition recoverable (e : AssemblerError) : Prop :=
  match e with Fatal _ | ExecutionFailed _ => False | _ => True end.

Definition execution_failed (e : AssemblerError) : Prop :=
  match e with ExecutionFailed _ => True | _ => False end.

Lemma store_error_external e :
  fatal_store_error e →
  external_error (from_block_store_error e) ∧ ¬ recoverable (from_block_store_error e) ∧
  ¬ execution_failed (from_block_store_error e).
Proof. by destruct e; simpl; try tauto. Qed.

(** What every operation of the store but a commit keeps. *)
Definition store_kept (st st' : Storage) : Prop :=
  (∀ c, persisted st c → persisted st' c) ∧
  bs_last_committed_block st' = bs_last_committed_block st.

Local Definition le (s : Assembler) : Z := bi_height (last_executed_block_info s).

Definition observed_up_to (s : Assembler) (h : Z) : Prop :=
  ∃ i, last_observed_highest_block s = Some i ∧ h ≤ bi_height i.

(** Heights along the abstract chain. *)
Lemma chain_heights i0 l l' :
  rtc (chain_step accepted i0) l l' →
  ∃ k, l' = k ++ l ∧
    bi_height (tip i0 l') = bi_height (tip i0 l) + Z.of_nat (length k) ∧
    reverse (cb_height <$> k)
    = seqZ (bi_height (tip i0 l) + 1) (Z.of_nat (length k)).
Proof.
  revert l'. apply rtc_ind_r; [exists []; split_and!; [done|simpl; lia|done]|].
  intros l1 l2 _ Hr2 (k & -> & Ht & Hk). inversion Hr2 as [b ? Hh Hp Ha]; subst.
  exists (b :: k). split_and!; [done|simpl; rewrite block_info_height; lia|].
  rewrite fmap_cons, reverse_cons, Hk. simpl length. rewrite seqZ_S. repeat f_equal. lia.
Qed.

Lemma chain_height_le i0 l l' k b :
  rtc (chain_step accepted i0) l l' → l' = k ++ l → b ∈ k → cb_height b ≤ bi_height (tip i0 l').
Proof.
  intros (k' & -> & Ht & Hk)%chain_heights ->%app_inv_tail Hin.
  assert (cb_height b ∈ reverse (cb_height <$> k)) as Hb
    by by apply elem_of_reverse, list_elem_of_fmap_2.
  rewrite Hk in Hb. apply elem_of_seqZ in Hb. lia.
Qed.

Section invariant.
(** The chain at the start, and whether progress is tracked. *)
Context (i0 : BlockInfo) (l0 : list CertifiedBlock) (live : bool).

Definition grown (s : Assembler) : Prop :=
  rtc (chain_step accepted i0) l0 (executed (executor s)).

Record base_inv (m : StoreModel) (s : Assembler) : Prop := {
  inv_sim : sim (store s) m;
  inv_committed : sm_committed m = le s;
  inv_pending h e : sm_pending m !! h = Some e → le s < h ∧ observed_up_to s h;
  inv_waiting h b :
    sm_pending m !! h = Some (Waiting b) →
    cb_height b = h ∧ accepted b ∧ persisted (store s) b;
  inv_handed h : sm_pending m !! h = Some HandedOut → h = le s + 1;
  inv_verifier : verifier_ok (block_verifier s);
  inv_grown : grown s;
  inv_tip : last_executed_block_info s = tip i0 (executed (executor s));
  inv_kept : ∃ k, executed (executor s) = k ++ l0 ∧ Forall (persisted (store s)) k;
  inv_last : ∃ b, bs_last_committed_block (store s) = Ok (Some b) ∧ cb_height b = le s;
}.

(** A block is committed and not executed yet. *)
Definition behind (s : Assembler) : Prop :=
  ∃ b, bs_last_committed_block (store s) = Ok (Some b) ∧ cb_height b = le s + 1 ∧
       cb_parent b = bi_hash (last_executed_block_info s) ∧ accepted b ∧
       last_executed_block_info s = tip i0 (executed (executor s)).

Definition sync_inv (s : Assembler) : Prop :=
  pending_sync_request (synchronizer s) = None ∨
  pending_sync_request (synchronizer s) = Some (le s + 1).

Definition ready_inv (m : StoreModel) (s : Assembler) : Prop :=
  match ready_to_execute s with
  | [] => sm_pending m !! (le s + 1) ≠ Some HandedOut
  | [b] => cb_height b = le s + 1 ∧ sm_pending m !! (le s + 1) = Some HandedOut ∧
           is_current_epoch_over s = false ∧ accepted b ∧ persisted (store s) b
  | _ => False
  end.

(** Behind means that a block above the last executed one was observed. *)
Definition active (s : Assembler) : Prop :=
  is_current_epoch_over s = false → observed_up_to s (le s + 1) →
  ready_to_execute s ≠ [] ∨ pending_sync_request (synchronizer s) = Some (le s + 1).

Definition no_stale (m : StoreModel) (s : Assembler) : Prop :=
  is_current_epoch_over s = false →
  ∀ b, sm_pending m !! (le s + 1) ≠ Some (Waiting b).

Definition live_inv (m : StoreModel) (s : Assembler) : Prop :=
  live = true → no_stale m s ∧ active s.

Definition good (m : StoreModel) (s : Assembler) : Prop :=
  base_inv m s ∧ sync_inv s ∧ ready_inv m s ∧ live_inv m s.

(** The inputs for which progress is claimed: no commit-certified block of
    an old epoch above the executed chain, and no block left over from the
    old epoch right above it when the new one starts. *)
Definition orderly (t : Trigger) (s : Assembler) : Prop :=
  match t with
  | T_block (Some fb) => verify (block_verifier s) fb ≠ OldEpochBlock
  | T_epoch (Some (NewEpoch e, _)) =>
      bs_has_entry (store s) (le s + 1) = true → le s + 1 ≤ start_height e
  | _ => True
  end.

(** After a step that lets the loop go on, the state is good and [Q]
    holds; after a failed execution the block is committed; in any case the
    chain has only grown. *)
Definition step_post (Q : StoreModel → Assembler → Prop) {A}
    (o : outcome AssemblerError A) (s : Assembler) : Prop :=
  grown s ∧
  match o with
  | Ok _ => ∃ m, good m s ∧ Q m s
  | Err e => external_error e ∧ (recoverable e → ∃ m, good m s ∧ Q m s) ∧
             (execution_failed e → behind s)
  | Panic => True
  end.

Lemma step_post_mono (Q Q' : StoreModel → Assembler → Prop) {A}
    (o : outcome AssemblerError A) s :
  (∀ m s, Q m s → Q' m s) → step_post Q o s → step_post Q' o s.
Proof.
  intros HQ [Hg Ho]. split; [done|]. destruct o as [a|e|]; [|destruct Ho as (He & Ho & Hx)|done].
  - destruct Ho as (m & Hm & Hq). eauto.
  - split_and!; [done| |done]. intros Hr. destruct (Ho Hr) as (m & Hm & Hq). eauto.
Qed.

Lemma next_block_height_inv (s : Assembler) n : next_block_height s = Ok n → n = le s + 1.
Proof. intros Hn. by apply add64_inv in Hn as [-> _]. Qed.

Lemma next_block_height_not_err (s : Assembler) e : next_block_height s ≠ Err e.
Proof. apply checked_u64_not_err. Qed.

Lemma has_entry_next m s :
  base_inv m s →
  bs_has_entry (store s) (le s + 1) = bool_decide (is_Some (sm_pending m !! (le s + 1))).
Proof.
  intros Hb. rewrite (sim_has_entry _ _ _ (inv_sim _ _ Hb)), (inv_committed _ _ Hb).
  rewrite (proj2 (Z.leb_gt _ _)) by lia. done.
Qed.

(** A call of the synchronizer that keeps the pending request consistent. *)
Lemma base_inv_sync m s c : base_inv m s → base_inv m (set_synchronizer c s).
Proof. intros []. by split. Qed.

Lemma base_inv_ready m s l : base_inv m s → base_inv m (set_ready l s).
Proof. intros []. by split. Qed.

Lemma base_inv_store m s st :
  base_inv m s → sim st m → store_kept (store s) st → base_inv m (set_asm_store st s).
Proof.
  intros [Hsim Hcm Hp Hw Hh Hv Hg Ht (k & Hk & Hf) Hl] Hst [Hkept Hlc]. split; try done; simpl.
  - intros h b (? & ? & ?)%Hw. auto.
  - exists k. split; [done|]. eapply Forall_impl; [done|auto].
  - by rewrite Hlc.
Qed.

(** An executed block is above the ones before and not above the tip. *)
Lemma executed_below m s b :
  base_inv m s → ∀ k, executed (executor s) = k ++ l0 → b ∈ k → cb_height b ≤ le s.
Proof.
  intros Hb k Hk Hin. unfold le. rewrite (inv_tip _ _ Hb).
  by eapply chain_height_le; [apply (inv_grown _ _ Hb)|..].
Qed.

Lemma try_to_sync_good m s :
  base_inv m s → sync_inv s → ready_inv m s → (live = true → no_stale m s) →
  wp try_to_sync_skipped_blocks
     (step_post (λ m' s', m' = m ∧ ∃ c, s' = set_synchronizer c s)) s.
Proof.
  intros Hb Hs Hr Hl. unfold try_to_sync_skipped_blocks. wp_steps.
  destruct (last_observed_highest_block s) as [i|] eqn:Ho; wp_steps.
  2: { split; [by apply Hb|]. exists m.
       split; [split_and!; try done|by split; [|exists (synchronizer s); destruct s]].
       intros Hlive. split; [by apply Hl|]. intros _ (i & Hi & _). congruence. }
  simpl. destruct (next_block_height s) as [n|e|] eqn:Hn;
    [|by apply next_block_height_not_err in Hn|split; [by apply Hb|done]].
  apply next_block_height_inv in Hn as ->.
  destruct (_ && _) eqn:Hc.
  - unfold on_synchronizer. wp_step.
    eapply wp_mono; [|by apply Sync.try_post_pending].
    intros o c [Ho' Hp].
    assert (good m (set_synchronizer c s)) as Hg.
    { split_and!; [by apply base_inv_sync|by right|done|].
      intros Hlive. split; [by apply Hl|]. intros _ _. by right. }
    split; [by apply Hb|]. destruct o as [[]|[]|]; simpl; split_and?; try done; eauto 10.
  - wp_steps. split; [by apply Hb|]. exists m.
    split; [split_and!; try done|by split; [|exists (synchronizer s); destruct s]].
    intros Hlive. split; [by apply Hl|]. intros Hover (j & Hj & Hle).
    rewrite Ho in Hj. injection Hj as <-. rewrite (has_entry_next _ _ Hb) in Hc.
    apply andb_false_iff in Hc as [Hc|Hc]; [lia|].
    apply negb_false_iff, bool_decide_eq_true in Hc as [e He].
    left. intros Hnil. unfold ready_inv in Hr. rewrite Hnil in Hr.
    destruct e as [b|]; [by destruct (Hl Hlive Hover b)|done].
Qed.

(** A store call whose specification allows fatal errors only. *)
Lemma on_block_store_wp {A} (op : M Storage BlockStoreError A)
    (R : A → Storage → Prop) (Q : outcome AssemblerError A → Assembler → Prop) s :
  wp op (λ o st, match o with
                 | Ok a => R a st
                 | Err e => fatal_store_error e
                 | Panic => True
                 end) (store s) →
  (∀ a st, R a st → Q (Ok a) (set_asm_store st s)) →
  (∀ e st, external_error e → ¬ recoverable e → ¬ execution_failed e →
           Q (Err e) (set_asm_store st s)) →
  (∀ st, Q Panic (set_asm_store st s)) →
  wp (on_block_store op) Q s.
Proof.
  intros Hop Hok Herr Hp. apply wp_zoom. eapply wp_mono; [|exact Hop].
  intros [a|e|] st Ho; simpl; [by apply Hok| |by apply Hp].
  apply store_error_external in Ho as (? & ? & ?). by apply Herr.
Qed.

Lemma base_inv_over m s v :
  base_inv m s → verifier_ok v → base_inv m (set_verifier v s).
Proof. intros [] Hv. by split. Qed.

(** The model after the execution of [b]. *)
Definition executed_model (b : CertifiedBlock) (m : StoreModel) : StoreModel :=
  sm_retain (cb_height b) (sm_set_committed (cb_height b) m).

Lemma executed_model_lookup b m h e :
  sm_pending (executed_model b m) !! h = Some e →
  cb_height b < h ∧ sm_pending m !! h = Some e.
Proof. unfold executed_model. rewrite sm_retain_lookup. by case_decide. Qed.

(** The rest of the state an execution leaves alone. *)
Definition same_inputs (s s' : Assembler) : Prop :=
  synchronizer s' = synchronizer s ∧ ready_to_execute s' = ready_to_execute s ∧
  last_observed_highest_block s' = last_observed_highest_block s.

Lemma base_inv_executed m s b x v st :
  base_inv m s →
  cb_height b = le s + 1 → cb_parent b = bi_hash (last_executed_block_info s) →
  accepted b → persisted (store s) b → executed x = b :: executed (executor s) →
  verifier_ok v → sim st (executed_model b m) →
  (∀ c, persisted (store s) c → persisted st c) →
  bs_last_committed_block st = Ok (Some b) →
  base_inv (executed_model b m)
    (Build_ChainStateAssembler _ _ _ _ _ x (block_info b) (last_observed_highest_block s)
       (synchronizer s) st v (ready_to_execute s)).
Proof.
  intros [Hsim Hc Hp Hw Hh Hv Hg Ht (k & Hk & Hf) Hl] Hhb Hpar Hacc Hper Hx Hv' Hst Hkept Hlc.
  assert (le (Build_ChainStateAssembler _ _ _ _ _ x (block_info b)
                (last_observed_highest_block s) (synchronizer s) st v (ready_to_execute s))
          = cb_height b) as Hle by apply block_info_height.
  split; simpl; try done.
  - intros h e [Hlt He]%executed_model_lookup. rewrite Hle. split; [done|]. by apply Hp in He as [_ ?].
  - intros h c [_ (? & ? & ?)%Hw]%executed_model_lookup. auto.
  - intros h [Hlt He]%executed_model_lookup. apply Hh in He. lia.
  - unfold grown. simpl. rewrite Hx. eapply rtc_r; [exact Hg|].
    constructor; rewrite <- ?Ht; done.
  - by rewrite Hx.
  - exists (b :: k). rewrite Hx, Hk. split; [done|].
    constructor; [auto|]. eapply Forall_impl; [done|auto].
  - by exists b.
Qed.

Lemma execute_block_good m s b :
  base_inv m s →
  cb_height b = le s + 1 → cb_parent b = bi_hash (last_executed_block_info s) →
  accepted b → persisted (store s) b →
  wp (execute_block b)
     (λ o s', grown s' ∧
              match o with
              | Ok _ => base_inv (executed_model b m) s' ∧ le s' = cb_height b ∧ same_inputs s s'
              | Err e => external_error e ∧ ¬ recoverable e ∧ (execution_failed e → behind s')
              | Panic => True
              end) s.
Proof.
  intros Hb Hh Hpar Hacc Hper. unfold execute_block. wp_step.
  eapply on_block_store_wp; [by apply sim_update_committed, (inv_sim _ _ Hb)|..];
    [|by split; [apply Hb|]..].
  intros [] st (Hst & Hkept & Hlc). wp_steps. unfold on_executor. wp_steps. unfold wp at 1.
  pose proof (execute_block_executed b
    (current_validator_committee (epoch_states (block_verifier s))) (executor s)) as Hx.
  simpl. destruct (executor_execute_block _ _ _) as [x [changed|e|]]; simpl in Hx |- *;
    [|split; [unfold grown; simpl; rewrite Hx; apply Hb|]..]; [|split_and!; [done|tauto|]|done].
  2: { intros _. exists b. simpl. rewrite Hx. split_and!; try done. apply Hb. }
  assert (∀ v, verifier_ok v →
    base_inv (executed_model b m)
      (Build_ChainStateAssembler _ _ _ _ _ x (block_info b) (last_observed_highest_block s)
         (synchronizer s) (bs_retain (cb_height b) st) v (ready_to_execute s))) as Hpost.
  { intros v Hv. apply base_inv_executed; try done; [by apply sim_retain| |by rewrite retain_committed].
    intros c ?. by apply retain_persisted, Hkept. }
  unfold handle_epoch_change. destruct changed; wp_steps.
  - pose proof (Hpost (end_current_epoch (block_verifier s))) as Hpost'.
    pose proof (verifier_ok_set (end_epoch (epoch_states (block_verifier s))) _ (inv_verifier _ _ Hb)).
    split; [apply Hpost'; done|]. split; [by apply Hpost'|]. split; [apply block_info_height|done].
  - pose proof (Hpost _ (inv_verifier _ _ Hb)) as Hpost'.
    split; [apply Hpost'|]. split; [apply Hpost'|]. split; [apply block_info_height|done].
Qed.

(** What is left of the cache of [m] after the execution of [b], unless the
    epoch ended: the direct successor is scheduled, the others wait. *)
Definition successors_kept (b : CertifiedBlock) (m m' : StoreModel) (s' : Assembler) : Prop :=
  le s' = cb_height b ∧
  (is_current_epoch_over s' = true ∨
   (∀ c, sm_pending m !! (cb_height b + 1) = Some (Waiting c) → ready_to_execute s' = [c]) ∧
   ∀ h c, cb_height b + 1 < h → sm_pending m !! h = Some (Waiting c) →
          sm_pending m' !! h = Some (Waiting c)).

Lemma executed_model_waiting b m h c :
  cb_height b < h → sm_pending m !! h = Some (Waiting c) →
  sm_pending (executed_model b m) !! h = Some (Waiting c).
Proof. intros Hlt Hm. unfold executed_model. rewrite sm_retain_lookup. by case_decide. Qed.

(** Scheduling the waiting successor of the last executed block. *)
Lemma scheduled_good m s c st :
  base_inv m s →
  sm_pending m !! (le s + 1) = Some (Waiting c) →
  sync_inv s → is_current_epoch_over s = false →
  sim st (sm_put (le s + 1) HandedOut m) →
  store_kept (store s) st →
  good (sm_put (le s + 1) HandedOut m) (set_ready [c] (set_asm_store st s)).
Proof.
  intros Hb Hc Hs Hover Hst [Hkept Hlc]. destruct (inv_waiting _ _ Hb _ _ Hc) as (Hhc & Hac & Hper).
  pose proof (inv_pending _ _ Hb _ _ Hc) as [_ Hobs].
  split_and!; [|done| |].
  - destruct Hb as [Hsim Hcm Hp Hw Hh Hv Hg Ht (k & Hk & Hf) Hl]. split; try done; simpl.
    + intros h e. destruct (decide (h = le s + 1)) as [->|Hne].
      * intros _. split; [unfold le; simpl; lia|done].
      * rewrite lookup_insert_ne by done. apply Hp.
    + intros h d. destruct (decide (h = le s + 1)) as [->|Hne];
        [by rewrite lookup_insert_eq|]. rewrite lookup_insert_ne by done.
      intros (? & ? & ?)%Hw. auto.
    + intros h. destruct (decide (h = le s + 1)) as [->|Hne]; [done|].
      rewrite lookup_insert_ne by done. apply Hh.
    + exists k. split; [done|]. eapply Forall_impl; [done|auto].
    + by rewrite Hlc.
  - unfold ready_inv. simpl. split_and!; try done; [apply lookup_insert_eq|auto].
  - intros _. split; [|by intros _ _; left]. intros _ d. simpl.
    unfold le. simpl. fold (le s). by rewrite lookup_insert_eq.
Qed.

(** Recording the boundary block when the epoch ended. *)
Lemma epoch_ended_good m s b :
  base_inv m s → pending_sync_request (synchronizer s) = None → ready_to_execute s = [] →
  (∀ h, sm_pending m !! h ≠ Some HandedOut) → is_current_epoch_over s = true →
  wp (on_block_store (bs_update_epoch_boundary_block_info b))
     (step_post (λ _ s', le s' = le s ∧ is_current_epoch_over s' = true)) s.
Proof.
  intros Hb Hsync Hr Hnh Hover.
  eapply on_block_store_wp; [by apply sim_update_epoch_boundary, (inv_sim _ _ Hb)|..];
    [|by intros; split; [apply Hb|split]|by split; [apply Hb|]].
  intros [] st [Hst Hkept]. split; [apply Hb|]. exists m. split; [split_and!|done].
  - by apply base_inv_store.
  - by left.
  - unfold ready_inv. simpl. by rewrite Hr.
  - intros _. split; intros Hf; unfold is_current_epoch_over in *; simpl in Hf; congruence.
Qed.

Lemma try_execute_block_chain_good m s b :
  base_inv m s →
  cb_height b = le s + 1 → cb_parent b = bi_hash (last_executed_block_info s) →
  accepted b → persisted (store s) b →
  pending_sync_request (synchronizer s) = None → ready_to_execute s = [] →
  wp (try_execute_block_chain b) (step_post (successors_kept b m)) s.
Proof.
  intros Hb Hh Hpar Hacc Hper Hsync Hready. unfold try_execute_block_chain. wp_step.
  eapply wp_mono; [|by apply (execute_block_good m)].
  intros [[]|e|] s1; [|by intros (? & ? & ? & ?); split_and!|by intros []].
  intros (Hg1 & Hb1 & Hle1 & Hs1 & Hr1 & Ho1). rewrite Hready in Hr1. rewrite <- Hs1 in Hsync.
  assert (∀ h, sm_pending (executed_model b m) !! h ≠ Some HandedOut) as Hnh.
  { intros h [Hlt Hm]%executed_model_lookup. apply (inv_handed _ _ Hb) in Hm. lia. }
  wp_steps. simpl. destruct (is_current_epoch_over s1) eqn:Hover.
  - (* the epoch ended: only the boundary block is recorded *)
    eapply wp_mono; [|by apply (epoch_ended_good (executed_model b m))].
    intros o s2. apply step_post_mono. intros m' s' [? ?]. split; [congruence|by left].
  - wp_steps. destruct (next_block_height s1) as [n|e|] eqn:Hn;
      [|by apply next_block_height_not_err in Hn|split; [by apply Hb1|done]].
    apply next_block_height_inv in Hn as ->. wp_step.
    eapply on_block_store_wp; [by apply sim_take, (inv_sim _ _ Hb1)|..];
      [|by intros; split; [apply Hb1|split]|by split; [apply Hb1|]].
    intros r st. cbn beta. rewrite Hle1. intros [Htake Hkept]. revert Htake.
    destruct (sm_pending (executed_model b m) !! (cb_height b + 1)) as [[c|]|] eqn:Hc;
      [|by destruct (Hnh _ Hc)|].
    + intros [-> Hst]. simpl.
      unfold try_send_ready. wp_steps. simpl. rewrite Hr1. wp_steps.
      pose proof Hc as [_ Hcm]%executed_model_lookup.
      split; [apply Hb1|]. exists (sm_put (cb_height b + 1) HandedOut (executed_model b m)).
      split; [|split; [done|right; split]].
      * rewrite <- Hle1 in Hc, Hst |- *. by apply scheduled_good; [..|left| | |].
      * intros c'. rewrite Hcm. by intros [= ->].
      * intros h d Hlt Hd. simpl. rewrite lookup_insert_ne by lia.
        apply executed_model_waiting; [lia|done].
    + intros [-> Hst]. simpl.
      eapply wp_mono; [|apply (try_to_sync_good (executed_model b m))].
      * intros o s2. apply step_post_mono. intros m' s' [-> [c' ->]]. split; [done|]. right.
        split; [|intros h d ? ?; apply executed_model_waiting; [lia|done]].
        intros c Hcm. apply (executed_model_waiting b) in Hcm; [congruence|lia].
      * by apply base_inv_store.
      * by left.
      * unfold ready_inv. simpl. by rewrite Hr1.
      * intros _ _ c. change (le (set_asm_store st s1)) with (le s1). by rewrite Hle1, Hc.
Qed.

Lemma does_follow_chain_cases (s : Assembler) b :
  match does_follow_chain s b with
  | Ok true => cb_height b = le s + 1 ∧ cb_parent b = bi_hash (last_executed_block_info s)
  | Ok false => cb_height b ≠ le s + 1
  | Err e => external_error e ∧ ¬ recoverable e ∧ ¬ execution_failed e
  | Panic => True
  end.
Proof.
  unfold does_follow_chain. destruct (next_block_height s) as [n|e|] eqn:Hn; simpl;
    [|by apply next_block_height_not_err in Hn|done].
  apply next_block_height_inv in Hn as ->.
  destruct (Z.eqb_spec (cb_height b) (le s + 1)); [|done]. case_bool_decide; simpl; tauto.
Qed.

(** The request for the next block is cleared when that block is there. *)
Lemma clear_next (s : Assembler) h :
  sync_inv s → h = le s + 1 →
  pending_sync_request (Sync.clear h (synchronizer s)) = None.
Proof. intros Hs ->. by apply Sync.clear_same. Qed.

Lemma sync_inv_clear (s : Assembler) h st :
  sync_inv s →
  sync_inv (set_asm_store st (set_synchronizer (Sync.clear h (synchronizer s)) s)).
Proof.
  intros Hs. unfold sync_inv. simpl. rewrite Sync.clear_pending. case_decide; [by left|done].
Qed.

Lemma handle_scheduled_block_good m s b :
  base_inv m s → sync_inv s → ready_to_execute s = [] →
  cb_height b = le s + 1 → is_current_epoch_over s = false →
  accepted b → persisted (store s) b →
  wp (handle_scheduled_block b) (step_post (successors_kept b m)) s.
Proof.
  intros Hb Hs Hr Hh Hover Hacc Hper. unfold handle_scheduled_block. wp_steps. simpl.
  set (s1 := set_synchronizer _ s).
  assert (base_inv m s1) as Hb1 by by apply base_inv_sync.
  change (is_current_epoch_over s1) with (is_current_epoch_over s). rewrite Hover. wp_steps.
  pose proof (does_follow_chain_cases s1 b) as Hf.
  destruct (does_follow_chain s1 b) as [[]|e|].
  - destruct Hf as [_ Hpar]. apply try_execute_block_chain_good; try done. by apply clear_next.
  - done.
  - destruct Hf as (He & Hne & Hnx). split; [apply Hb1|]. by split.
  - split; [apply Hb1|done].
Qed.

Lemma cached_base m s b st :
  base_inv m s → le s < cb_height b → observed_up_to s (cb_height b) → accepted b →
  persisted (store s) b → sim st (sm_put (cb_height b) (Waiting b) m) →
  store_kept (store s) st →
  base_inv (sm_put (cb_height b) (Waiting b) m) (set_asm_store st s).
Proof.
  intros [Hsim Hcm Hp Hw Hh Hv Hg Ht (k & Hk & Hf) Hl] Hlt Hobs Hacc Hper Hst [Hkept Hlc].
  split; try done; simpl.
  - intros h e. destruct (decide (h = cb_height b)) as [->|Hne]; [done|].
    rewrite lookup_insert_ne by done. apply Hp.
  - intros h d. destruct (decide (h = cb_height b)) as [->|Hne].
    + rewrite lookup_insert_eq. intros [= <-]. auto.
    + rewrite lookup_insert_ne by done. intros (? & ? & ?)%Hw. auto.
  - intros h. destruct (decide (h = cb_height b)) as [->|Hne];
      [by rewrite lookup_insert_eq|]. rewrite lookup_insert_ne by done. apply Hh.
  - exists k. split; [done|]. eapply Forall_impl; [done|auto].
  - by rewrite Hlc.
Qed.

(** Persisting a block keeps what was persisted at the other heights: those of the
    executed, the scheduled and the waiting blocks. *)
Lemma persisted_base m s b st :
  base_inv m s → le s < cb_height b → sm_pending m !! cb_height b = None → sim st m →
  (∀ c, cb_height c ≠ cb_height b → persisted (store s) c → persisted st c) →
  bs_last_committed_block st = bs_last_committed_block (store s) →
  base_inv m (set_asm_store st s).
Proof.
  intros Hb Hlt Hn Hst Hkept Hlc. pose proof (λ c, executed_below m s c Hb) as Hbelow.
  destruct Hb as [Hsim Hcm Hp Hw Hh Hv Hg Ht (k & Hk & Hf) Hl].
  split; try done; simpl.
  - intros h c Hc. pose proof (Hw _ _ Hc) as (Hhc & ? & ?). split_and!; [done..|].
    apply Hkept; [|done]. intros Heq. congruence.
  - exists k. split; [done|]. rewrite Forall_forall in Hf |- *. intros c Hin.
    apply Hkept; [|by apply Hf]. intros Heq.
    assert (cb_height c ≤ le s); [|lia]. by eapply Hbelow.
  - by rewrite Hlc.
Qed.

Lemma persisted_ready m s b st :
  ready_inv m s → sm_pending m !! cb_height b = None →
  (∀ c, cb_height c ≠ cb_height b → persisted (store s) c → persisted st c) →
  ready_inv m (set_asm_store st s).
Proof.
  unfold ready_inv. simpl. destruct (ready_to_execute s) as [|c []]; [done| |done].
  intros (Hh & Hm & Hover & Hacc & Hper) Hn Hkept. split_and!; try done.
  apply Hkept; [|done]. intros Heq. change (le _) with (le s) in Hm. congruence.
Qed.

Lemma handle_full_block_good m s fb :
  let b := base fb in
  base_inv m s → sync_inv s → ready_inv m s → (live = true → no_stale m s) →
  le s < cb_height b → sm_pending m !! cb_height b = None →
  observed_up_to s (cb_height b) → accepted b → batches_complete fb →
  wp (handle_full_block fb) (step_post (λ _ _, True)) s.
Proof.
  intros b Hb Hs Hr Hl Hlt Hn Hobs Hacc Hcomp. unfold handle_full_block. wp_steps. simpl. fold b.
  rewrite (proj2 (Z.leb_gt _ _)) by done. wp_step.
  eapply on_block_store_wp; [by apply sim_persist; [apply (inv_sim _ _ Hb)|]|..];
    [|by intros; split; [apply Hb|split]|by split; [apply Hb|]].
  intros [] st (Hst & Hper & Hother & Hlc). specialize (Hper Hcomp). fold b in Hper, Hother.
  wp_steps. simpl. set (s1 := set_asm_store st s).
  assert (base_inv m s1) as Hb1 by by apply (persisted_base m s b).
  pose proof (persisted_ready m s b st Hr Hn Hother) as Hr1. fold s1 in Hr1.
  pose proof (does_follow_chain_cases s1 b) as Hf.
  destruct (does_follow_chain s1 b) as [[]|e|]; wp_steps.
  - destruct Hf as [Hh Hpar]. eapply wp_mono; [intros o s'; by apply step_post_mono|].
    apply try_execute_block_chain_good; try done;
      [by apply base_inv_sync|by apply clear_next|].
    unfold ready_inv in Hr. simpl. change (le s1) with (le s) in Hh. rewrite <- Hh, Hn in Hr.
    destruct (ready_to_execute s) as [|? []]; [done|by destruct Hr as (_ & ? & _)|done].
  - eapply (on_block_store_wp _ (λ _ st', sim st' (sm_put (cb_height b) (Waiting b) m) ∧
      store_kept st st'));
      [|intros [] st' [Hst' Hkept]|by intros; split; [apply Hb1|split]|by split; [apply Hb1|]].
    + eapply wp_mono; [|apply (sim_cache b st m); try done; rewrite (inv_committed _ _ Hb); done].
      by intros [] ?.
    + change (le s1) with (le s) in Hf.
      eapply wp_mono; [intros o s'; by apply step_post_mono|].
      apply (try_to_sync_good (sm_put (cb_height b) (Waiting b) m)).
      * apply cached_base; try done. by apply base_inv_sync.
      * by apply sync_inv_clear.
      * unfold ready_inv in Hr1 |- *. simpl in Hr1 |- *. rewrite lookup_insert_ne by done.
        destruct (ready_to_execute s) as [|c []]; [done| |done].
        destruct Hr1 as (? & ? & ? & ? & ?). split_and!; try done. by apply Hkept.
      * intros Hlive Hover c. simpl. rewrite lookup_insert_ne by done. by apply (Hl Hlive).
  - destruct Hf as (He & Hne & Hnx). split; [apply Hb1|]. by split.
  - split; [apply Hb1|done].
Qed.

Lemma observe_block_cases b (s : Assembler) :
  observe_block b s = s ∧ (0 < cb_height b → observed_up_to s (cb_height b)) ∨
  observe_block b s = set_observed (Some (block_info b)) s ∧
  ∀ h, observed_up_to s h → 0 < h → h < cb_height b.
Proof.
  unfold observe_block, observed_up_to.
  destruct (last_observed_highest_block s) as [i|] eqn:Hi.
  - destruct (Z.ltb_spec (bi_height i) (cb_height b)).
    + right. split; [done|]. intros h (j & [= <-] & ?) _. lia.
    + left. split; [done|]. eauto.
  - destruct (Z.ltb_spec 0 (cb_height b)).
    + right. split; [done|]. by intros h (j & ? & _).
    + left. split; [done|]. lia.
Qed.

Lemma observe_block_base m s b : base_inv m s → base_inv m (observe_block b s).
Proof.
  intros Hb. pose proof (inv_committed _ _ Hb) as Hc.
  destruct (observe_block_cases b s) as [[-> _]|[-> Hlt]]; [done|].
  destruct Hb as [Hsim _ Hp Hw Hh Hv Hg Ht Hk Hl]. split; try done. simpl.
  intros h e He. destruct (Hp _ _ He) as [Hle Hobs]. split; [done|].
  exists (block_info b). split; [done|]. rewrite block_info_height.
  destruct (decide (0 < h)) as [Hpos|Hpos]; [pose proof (Hlt h Hobs Hpos); lia|].
  pose proof (cb_height_range b) as [? _]. lia.
Qed.

Lemma observe_block_observed (s : Assembler) b :
  0 < cb_height b → observed_up_to (observe_block b s) (cb_height b).
Proof.
  intros Hpos. destruct (observe_block_cases b s) as [[-> Ho]|[-> Ho]]; [by apply Ho|].
  exists (block_info b). split; [done|]. rewrite block_info_height. lia.
Qed.

Lemma observe_block_same b (s : Assembler) : ∃ o, observe_block b s = set_observed o s.
Proof.
  destruct (observe_block_cases b s) as [[-> _]|[-> _]]; [|by eexists].
  exists (last_observed_highest_block s). by destruct s.
Qed.

Lemma le_nonneg (s : Assembler) : 0 ≤ le s.
Proof. apply bi_height_range. Qed.

(** A skipped block leaves the state good: it is below the chain, or was
    observed before. *)
Lemma skipped_good m s b :
  good m s → should_be_skipped (observe_block b s) b = true →
  good m (observe_block b s).
Proof.
  intros (Hb & Hs & Hr & Hl) Hskip. pose proof (le_nonneg s).
  destruct (observe_block_cases b s) as [[-> _]|[Heq Hlt]]; [by split_and!|].
  pose proof (observe_block_base _ _ b Hb) as Hb'. rewrite Heq in *.
  split_and!; try done. intros Hlive. destruct (Hl Hlive) as [Hst Hact]. split; [done|].
  intros Hover [i [[= <-] Hi]]. change (le _) with (le s) in *.
  change (is_current_epoch_over _) with (is_current_epoch_over s) in Hover.
  rewrite block_info_height in Hi.
  unfold should_be_skipped in Hskip. simpl in Hskip.
  change (is_current_epoch_over _) with (is_current_epoch_over s) in Hskip.
  rewrite Hover in Hskip. fold (le s) in Hskip. rewrite (proj2 (Z.leb_gt _ _)) in Hskip by lia.
  rewrite (sim_has_entry _ _ _ (inv_sim _ _ Hb)), (inv_committed _ _ Hb) in Hskip.
  rewrite (proj2 (Z.leb_gt _ _)) in Hskip by lia.
  apply bool_decide_eq_true in Hskip as [e He].
  destruct (inv_pending _ _ Hb _ _ He) as [_ Hobs]. pose proof (Hlt _ Hobs). lia.
Qed.

Lemma handle_incoming_block_good m s fb :
  good m s → (live = true → orderly (T_block (Some fb)) s) →
  wp (handle_incoming_block fb) (step_post (λ _ _, True)) s.
Proof.
  intros Hgood Hord. pose proof Hgood as (Hb & Hs & Hr & Hl).
  unfold handle_incoming_block. wp_steps. simpl.
  destruct (should_be_skipped _ _) eqn:Hskip; wp_steps.
  { apply skipped_good with (m:=m) in Hskip; [|done]. split; [apply Hskip|]. by exists m. }
  pose proof (observe_block_base _ _ (base fb) Hb) as Hb1.
  pose proof (le_nonneg s).
  pose proof (observe_block_observed s (base fb)) as Hobs.
  destruct (observe_block_same (base fb) s) as [o Heq]. rewrite Heq in *.
  unfold should_be_skipped in Hskip. simpl in Hskip. fold (le s) in Hskip.
  destruct (is_current_epoch_over _); [done|].
  destruct (Z.leb_spec (cb_height (base fb)) (le s)); [done|].
  rewrite (sim_has_entry _ _ _ (inv_sim _ _ Hb)), (inv_committed _ _ Hb) in Hskip.
  rewrite (proj2 (Z.leb_gt _ _)) in Hskip by lia.
  apply bool_decide_eq_false, eq_None_not_Some in Hskip.
  simpl. simpl in Hord. destruct (verify (block_verifier s) fb) eqn:Hv; wp_steps.
  - apply (handle_full_block_good m); try done.
    + intros Hlive. by apply Hl.
    + apply Hobs. lia.
    + by eapply verify_accepted; [apply (inv_verifier _ _ Hb)|].
    + by eapply verify_complete.
  - split; [apply Hb1|]. exists m. split; [|done]. split_and!; try done.
    intros Hlive. by destruct (Hord Hlive).
  - eapply wp_mono; [intros ? s'; by apply step_post_mono|].
    apply (try_to_sync_good m); try done. intros Hlive. by apply Hl.
  - split; [apply Hb1|]. by split.
Qed.

Lemma retained_lookup lb m h e :
  sm_pending (sm_retain lb m) !! h = Some e → lb < h ∧ sm_pending m !! h = Some e.
Proof. rewrite sm_retain_lookup. by case_decide. Qed.

Lemma retain_base m s lb :
  base_inv m s → base_inv (sm_retain lb m) (set_asm_store (bs_retain lb (store s)) s).
Proof.
  intros [Hsim Hcm Hp Hw Hh Hv Hg Ht (k & Hk & Hf) Hl]. split; try done; simpl.
  - by apply sim_retain.
  - intros h e [_ ?]%retained_lookup. by eapply Hp.
  - intros h b [_ (? & ? & ?)%Hw]%retained_lookup. auto using retain_persisted.
  - intros h [_ ?]%retained_lookup. by eapply Hh.
  - exists k. split; [done|]. eapply Forall_impl; [done|]. intros c. apply retain_persisted.
  - by rewrite retain_committed.
Qed.

(** While the epoch is over nothing is scheduled. *)
Lemma over_not_ready m s :
  ready_inv m s → is_current_epoch_over s = true → ready_to_execute s = [].
Proof.
  unfold ready_inv. destruct (ready_to_execute s) as [|b []]; [done| |done].
  intros (_ & _ & ? & _). congruence.
Qed.

Lemma send_ack_post Q {A} acked (o : outcome AssemblerError A) s :
  step_post Q o s → wp (rthen (send_ack acked) (λ _, rlift o)) (step_post Q) s.
Proof. intros Ho. destruct acked; unfold send_ack; wp_steps; [done|]. split; [apply Ho|done]. Qed.

Lemma handle_epoch_good m s n acked :
  good m s → (live = true → orderly (T_epoch (Some (n, acked))) s) →
  wp (handle_epoch_manager_notification (n, acked)) (step_post (λ _ _, True)) s.
Proof.
  intros Hgood Hord. pose proof Hgood as (Hb & Hs & Hr & Hl).
  unfold handle_epoch_manager_notification. wp_steps. simpl.
  destruct (is_current_epoch_over s) eqn:Hover; simpl; wp_steps.
  2: { split; [apply Hb|]. by split. }
  pose proof (over_not_ready _ _ Hr Hover) as Hnil.
  destruct n as [|e].
  { destruct acked; unfold send_ack; wp_steps; split; try apply Hb; [by exists m|done]. }
  destruct (is_epoch_over e || _) eqn:He; wp_steps; [split; [apply Hb|by split]|].
  apply orb_false_iff in He as [Hnew Hext]. apply negb_false_iff in Hext.
  set (s1 := set_verifier _ _).
  assert (base_inv (sm_retain (start_height e) m) s1) as Hb1.
  { apply base_inv_over; [by apply retain_base|]. simpl.
    apply verifier_ok_set, (inv_verifier _ _ Hb). }
  assert (wp try_to_sync_skipped_blocks (step_post (λ _ _, True)) s1) as Hsync.
  { eapply wp_mono; [intros ? s'; by apply step_post_mono|].
    apply (try_to_sync_good (sm_retain (start_height e) m)); try done.
    - unfold ready_inv in *. simpl. rewrite Hnil in *. change (le s1) with (le s).
      intros [_ Hm]%retained_lookup. done.
    - intros Hlive _ b. change (le s1) with (le s). intros [Hlt Hm]%retained_lookup.
      specialize (Hord Hlive). simpl in Hord. rewrite (has_entry_next _ _ Hb), Hm in Hord.
      specialize (Hord eq_refl). lia. }
  unfold wp in Hsync |- *. simpl.
  destruct (try_to_sync_skipped_blocks s1) as [s' o]. simpl in Hsync.
  pose proof (send_ack_post (λ _ _, True) acked o s' Hsync) as Hack. unfold wp in Hack.
  destruct o; [exact Hack|exact Hack|done].
Qed.

(** The invariant of the loop. *)
Lemma do_step_good m s t :
  good m s → (live = true → orderly t s) →
  wp (do_step t) (step_post (λ _ _, True)) s.
Proof.
  intros Hgood Hord. pose proof Hgood as (Hb & Hs & Hr & Hl).
  assert (∀ (c : MA ()) s0, wp c (step_post (λ _ _, True)) s0 →
    wp (rthen c (λ _, rret true)) (step_post (λ _ _, True)) s0) as Hret.
  { intros c s0 Hc. wp_step. eapply wp_mono; [|exact Hc]. by intros [[]|e|] s'. }
  assert (∀ b : bool, wp (rret b) (step_post (λ _ _, True)) s) as Hstop.
  { intros b. wp_steps. split; [apply Hb|]. by exists m. }
  destruct t as [[[n acked]|]| |[fb|]| |]; unfold do_step; try apply Hstop.
  - by apply Hret, (handle_epoch_good m).
  - by apply Hret, (handle_incoming_block_good m).
  - wp_steps. destruct (ready_to_execute s) as [|b l] eqn:Hre; [by apply Hstop|].
    unfold ready_inv in Hr. rewrite Hre in Hr. destruct l; [|done].
    destruct Hr as (Hh & Hm & Hover & Hacc & Hper). wp_step. wp_step. apply Hret.
    eapply wp_mono; [|apply (handle_scheduled_block_good m); try done; by apply base_inv_ready].
    intros o s'. by apply step_post_mono.
  - apply Hret. unfold on_synchronizer. wp_step.
    eapply wp_mono; [|apply Sync.retry_pending]. intros o c [Ho Hp].
    split; [apply Hb|].
    assert (good m (set_synchronizer c s)) as Hg.
    { split_and!; [by apply base_inv_sync|unfold sync_inv; simpl; by rewrite Hp|done|].
      intros Hlive. destruct (Hl Hlive) as [Hst Hact]. split; [done|].
      unfold active. simpl. by rewrite Hp. }
    destruct o as [[]|[]|]; simpl; split_and?; try done; eauto.
Qed.

(** Every input of a run is orderly at the state it meets. *)
Fixpoint orderly_run (ts : list Trigger) (s : Assembler) : Prop :=
  match ts with
  | [] => True
  | t :: ts' => orderly t s ∧ orderly_run ts' (do_step t s).1
  end.

Lemma run_good ts m s :
  good m s → (live = true → orderly_run ts s) →
  wp (run ts) (step_post (λ _ _, True)) s.
Proof.
  revert m s. induction ts as [|t ts IH]; intros m s Hgood Hord; simpl.
  { wp_steps. split; [apply Hgood|]. by exists m. }
  pose proof (do_step_good m s t Hgood (λ Hl, proj1 (Hord Hl))) as Hw.
  assert (live = true → orderly_run ts (do_step t s).1) as Hord' by (intros Hl; apply (Hord Hl)).
  unfold wp in *. destruct (do_step t s) as [s' [[]|e|]]; simpl in *.
  - destruct Hw as (_ & m' & Hg' & _). by apply (IH m').
  - done.
  - destruct Hw as (Hgr & He & Hrec & Hx).
    destruct e; try (by split); destruct (Hrec I) as (m' & Hg' & _); by apply (IH m').
  - done.
Qed.

Lemma run_app ts ts' (s s' : Assembler) :
  run ts s = (s', Ok false) → run (ts ++ ts') s = run ts' s'.
Proof.
  revert s. induction ts as [|t ts IH]; intros s; simpl; [by intros [= ->]|].
  destruct (do_step t s) as [s1 [[]|[]|]]; try done; apply IH.
Qed.

Lemma run_going_good ts m s s' :
  good m s → (live = true → orderly_run ts s) →
  run ts s = (s', Ok false) → ∃ m', good m' s'.
Proof.
  intros Hg Ho Hr. pose proof (run_good ts m s Hg Ho) as Hw. unfold wp in Hw.
  rewrite Hr in Hw. destruct Hw as (_ & m' & Hm' & _). eauto.
Qed.
End invariant.

(** A freshly created assembler: nothing cached, observed, requested or
    scheduled, and the last committed block is the last executed one. *)
Definition initial (s : Assembler) : Prop :=
  sim (store s) {| sm_committed := le s; sm_pending := ∅ |} ∧
  verifier_ok (block_verifier s) ∧
  last_observed_highest_block s = None ∧
  pending_sync_request (synchronizer s) = None ∧
  ready_to_execute s = [] ∧
  last_executed_block_info s = tip (last_executed_block_info s) (executed (executor s)) ∧
  ∃ b, bs_last_committed_block (store s) = Ok (Some b) ∧ cb_height b = le s.

Lemma initial_good live s :
  initial s →
  good (last_executed_block_info s) (executed (executor s)) live
    {| sm_committed := le s; sm_pending := ∅ |} s.
Proof.
  intros (Hsim & Hv & Ho & Hp & Hr & Ht & Hl). split_and!.
  - split; try done; simpl; try by (intros; rewrite lookup_empty in *).
    + apply rtc_refl.
    + by exists [].
  - by left.
  - unfold ready_inv. rewrite Hr. simpl. by rewrite lookup_empty.
  - intros _. split.
    + intros _ b. simpl. by rewrite lookup_empty.
    + intros _ (i & Hi & _). congruence.
Qed.

(** C1 Whatever triggers arrive in whatever order, from a fresh assembler the
    executed blocks refine the abstract chain: each one has the height after
    and names as parent the hash of the block executed before it, and passed
    verification. *)
Theorem assembler_refines_chain s ts :
  initial s →
  rtc (chain_step accepted (last_executed_block_info s))
      (executed (executor s)) (executed (executor (run ts s).1)).
Proof.
  intros Hi. pose proof (run_good _ _ false ts _ s (initial_good false s Hi) ltac:(done)) as Hw.
  by apply Hw.
Qed.

(** Every block that a run has executed is persisted with its batches, and the row of
    its height is not overwritten as long as the loop goes on or ends regularly. *)
Lemma executed_kept s ts s' stopped :
  initial s → run ts s = (s', Ok stopped) →
  ∃ k, executed (executor s') = k ++ executed (executor s) ∧ Forall (persisted (store s')) k.
Proof.
  intros Hi Hr. pose proof (run_good _ _ false ts _ s (initial_good false s Hi) ltac:(done)) as Hw.
  unfold wp in Hw. rewrite Hr in Hw. destruct Hw as (_ & m & (Hb & _) & _). apply Hb.
Qed.

(** A run executes consecutive heights, each of them once, starting right
    above the last executed block. *)
Theorem executed_heights_consecutive s ts :
  initial s →
  ∃ k, executed (executor (run ts s).1) = k ++ executed (executor s) ∧
       reverse (cb_height <$> k)
       = seqZ (bi_height (last_executed_block_info s) + 1) (Z.of_nat (length k)).
Proof.
  intros Hi. pose proof (run_good _ _ false ts _ s (initial_good false s Hi)) as Hw.
  destruct (chain_heights _ _ _ (proj1 (Hw ltac:(done)))) as (k & Hk & _ & Hh).
  exists k. split; [done|]. destruct Hi as (_ & _ & _ & _ & _ & -> & _). exact Hh.
Qed.

(** C28 No step of a run ends in an internal error: the store is never
    misused or found in an invalid state, no block is scheduled out of turn,
    no two heights are requested at once and the feedback channel is never
    full.  The errors left come from the store, the executor, the request
    channel, the epoch manager or the block provider. *)
Theorem do_step_no_internal_error s ts s' t e :
  initial s → run ts s = (s', Ok false) → (do_step t s').2 = Err e → external_error e.
Proof.
  intros Hi Hr He.
  destruct (run_going_good _ _ false ts _ s s' (initial_good false s Hi)
              ltac:(done) Hr) as [m' Hg].
  pose proof (do_step_good _ _ false m' s' t Hg ltac:(done)) as Hw.
  unfold wp in Hw. rewrite He in Hw. by destruct Hw as (_ & ? & _).
Qed.

(** Steps that touch neither the executor nor the epoch. *)
Definition frozen (s s' : Assembler) : Prop :=
  executor s' = executor s ∧ is_current_epoch_over s' = is_current_epoch_over s.

Lemma on_synchronizer_frozen (m : M (SynchronizationContext SyncApi) AssemblerError ()) s :
  frozen s (on_synchronizer m s).1.
Proof. unfold on_synchronizer, rzoom. by destruct (m (synchronizer s)). Qed.

Lemma try_to_sync_frozen s : frozen s (try_to_sync_skipped_blocks s).1.
Proof.
  unfold try_to_sync_skipped_blocks, rthen, rgets, rlift.
  destruct (last_observed_highest_block s); [|done]. simpl.
  destruct (next_block_height s); [|done..]. case_match; [apply on_synchronizer_frozen|done].
Qed.

Lemma rthen_ret_state {A B} (m : MA A) (b : B) s : (rthen m (λ _, rret b) s).1 = (m s).1.
Proof. unfold rthen. by destruct (m s) as [s' []]. Qed.

Lemma send_ack_state acked {A} (o : outcome AssemblerError A) (s : Assembler) :
  (rthen (send_ack acked) (λ _, rlift o) s).1 = s.
Proof. by destruct acked. Qed.

Lemma over_step (s : Assembler) t :
  is_current_epoch_over s = true → ready_to_execute s = [] →
  executor (do_step t s).1 = executor s ∧
  (is_current_epoch_over (do_step t s).1 = true ∨
   ∃ e acked, t = T_epoch (Some (NewEpoch e, acked))).
Proof.
  intros Hover Hnil.
  assert (∀ s', frozen s s' → executor s' = executor s ∧
    (is_current_epoch_over s' = true ∨ ∃ e acked, t = T_epoch (Some (NewEpoch e, acked)))) as Hf.
  { intros s' [-> ->]. auto. }
  destruct t as [[[[|e] acked]|]| |[fb|]| |]; simpl; rewrite ?rthen_ret_state; try by apply Hf.
  - apply Hf. unfold rthen, rgets. simpl. rewrite Hover. simpl. by destruct acked.
  - split; [|right; by eauto]. unfold rthen at 1, rgets. simpl. rewrite Hover. simpl.
    case_match; [done|]. unfold rthen at 1, rmodify at 1. unfold rthen at 1, rmodify at 1. simpl.
    set (s1 := set_verifier _ _). destruct (try_to_sync_frozen s1) as [Hx _].
    destruct (try_to_sync_skipped_blocks s1) as [s' [[]|?|]]; rewrite ?send_ack_state; done.
  - apply Hf. unfold handle_incoming_block, rthen, rmodify, rgets. simpl.
    destruct (observe_block_same (base fb) s) as [o ->]. unfold should_be_skipped.
    change (is_current_epoch_over (set_observed o s)) with (is_current_epoch_over s).
    by rewrite Hover.
  - apply Hf. unfold rthen, rgets. simpl. by rewrite Hnil.
  - apply Hf, on_synchronizer_frozen.
Qed.

(** C29 Once the executed blocks end the epoch, no trigger makes the assembler
    execute anything; only a [NewEpoch] notification ends this halt. *)
Theorem halted_until_new_epoch s ts s' t :
  initial s → run ts s = (s', Ok false) → is_current_epoch_over s' = true →
  executor (do_step t s').1 = executor s' ∧
  (is_current_epoch_over (do_step t s').1 = true ∨
   ∃ e acked, t = T_epoch (Some (NewEpoch e, acked))).
Proof.
  intros Hi Hr Hover.
  destruct (run_going_good _ _ false ts _ s s' (initial_good false s Hi)
              ltac:(done) Hr) as (m' & _ & _ & Hready & _).
  by apply over_step, (over_not_ready m').
Qed.

(** C27 As long as the inputs are orderly, a node that knows of a block above
    its chain is never idle: the next block is scheduled for execution or
    requested from the provider. *)
Theorem assembler_makes_progress s ts s' :
  initial s → orderly_run ts s → run ts s = (s', Ok false) →
  is_current_epoch_over s' = false → observed_up_to s' (le s' + 1) →
  ready_to_execute s' ≠ [] ∨ pending_sync_request (synchronizer s') = Some (le s' + 1).
Proof.
  intros Hi Ho Hr. 
  destruct (run_going_good _ _ true ts _ s s' (initial_good true s Hi) (λ _, Ho) Hr)
    as (m' & _ & _ & _ & Hl).
  by destruct (Hl eq_refl) as [_ Hact].
Qed.

(** The heights above the scheduled block up to [le s + k] wait in the cache. *)
Definition chain_cached (k : nat) (m : StoreModel) (s : Assembler) : Prop :=
  ready_to_execute s ≠ [] ∧
  ∀ h, le s + 1 < h ≤ le s + Z.of_nat k → ∃ c, sm_pending m !! h = Some (Waiting c).

Lemma ready_step_good i0 l0 m s b :
  good i0 l0 false m s → ready_to_execute s = [b] →
  cb_height b = le s + 1 ∧
  wp (do_step T_ready) (step_post i0 l0 false (successors_kept b m)) s.
Proof.
  intros (Hb & Hs & Hr & _) Hre. unfold ready_inv in Hr. rewrite Hre in Hr.
  destruct Hr as (Hh & Hm & Hover & Hacc & Hper). split; [done|].
  unfold do_step. wp_steps. rewrite Hre. wp_steps.
  eapply wp_mono;
    [|apply (handle_scheduled_block_good i0 l0 false m); try done; by apply base_inv_ready].
  by intros [[]|e|] s'.
Qed.

Lemma drain_step i0 l0 m s k :
  good i0 l0 false m s → chain_cached (S k) m s →
  wp (do_step T_ready)
     (step_post i0 l0 false (λ m' s',
        le s' = le s + 1 ∧
        (is_current_epoch_over s' = true ∨ k = O ∨ chain_cached k m' s'))) s.
Proof.
  intros Hg [Hne Hw]. pose proof Hg as (_ & _ & Hr & _). unfold ready_inv in Hr.
  destruct (ready_to_execute s) as [|b []] eqn:Hre; [done| |done]. clear Hr.
  destruct (ready_step_good _ _ _ _ _ Hg Hre) as [Hh Hstep].
  eapply wp_mono; [|exact Hstep]. intros o s'. apply step_post_mono. clear o s' Hstep.
  intros m' s' [Hle Hk]. rewrite Hle, Hh. split; [done|].
  destruct Hk as [?|[Hnext Hrest]]; [by left|right].
  destruct k as [|k]; [by left|right]. split.
  - destruct (Hw (le s + 1 + 1)) as [c Hc]; [lia|].
    rewrite <- Hh in Hc. by rewrite (Hnext _ Hc).
  - intros h Hrange. rewrite Hle, Hh in Hrange. destruct (Hw h) as [c Hc]; [lia|].
    exists c. apply Hrest; [lia|done].
Qed.

Lemma run_ready_over s k :
  is_current_epoch_over s = true → ready_to_execute s = [] →
  run (replicate k T_ready) s = (s, Ok false).
Proof.
  intros Hover Hnil. induction k as [|k IH]; [done|]. simpl.
  unfold rthen, rgets, rret. simpl. by rewrite Hnil.
Qed.

Lemma run_cons t ts (s : Assembler) :
  run (t :: ts) s
  = match do_step t s with
    | (s', Ok true) => run ts s'
    | (s', Ok false) => (s', Ok true)
    | (s', Err (Fatal m)) => (s', Err (Fatal m))
    | (s', Err (ExecutionFailed e)) => (s', Err (ExecutionFailed e))
    | (s', Err _) => run ts s'
    | (s', Panic) => (s', Panic)
    end.
Proof. done. Qed.

Lemma ready_goes_on (s : Assembler) : (do_step T_ready s).2 ≠ Ok false.
Proof.
  unfold do_step, rthen, rgets. destruct (ready_to_execute s); [done|]. simpl.
  by destruct (handle_scheduled_block _ _) as [s' []].
Qed.

Lemma drain_run i0 l0 m s k :
  good i0 l0 false m s →
  is_current_epoch_over s = true ∨ k = O ∨ chain_cached k m s →
  wp (run (replicate k T_ready))
     (λ o s', match o with
              | Ok stopped => stopped = false ∧
                  (le s' = le s + Z.of_nat k ∨ is_current_epoch_over s' = true)
              | Err e => external_error e ∧ ¬ recoverable e
              | Panic => True
              end) s.
Proof.
  revert m s. induction k as [|k IH]; intros m s Hg Hc; [by split; [|left; simpl; lia]|].
  destruct Hc as [Hover|[?|Hc]]; [|done|].
  { unfold wp. rewrite run_ready_over; [by split; [|right]|done|].
    destruct Hg as (_ & _ & Hr & _). by eapply over_not_ready. }
  pose proof (drain_step _ _ _ _ _ Hg Hc) as Hw. unfold wp in *.
  change (replicate (S k) T_ready) with (T_ready :: replicate k T_ready). rewrite run_cons.
  assert (∀ s', (∃ m', good i0 l0 false m' s' ∧ le s' = le s + 1 ∧
    (is_current_epoch_over s' = true ∨ k = O ∨ chain_cached k m' s')) →
    match (run (replicate k T_ready) s').2 with
    | Ok stopped => stopped = false ∧
        (le (run (replicate k T_ready) s').1 = le s + Z.of_nat (S k) ∨
         is_current_epoch_over (run (replicate k T_ready) s').1 = true)
    | Err e => external_error e ∧ ¬ recoverable e
    | Panic => True
    end) as Hgo.
  { intros s' (m' & Hg' & Hle & Hk). specialize (IH m' s' Hg' Hk).
    replace (le s + Z.of_nat (S k)) with (le s' + Z.of_nat k) by lia. exact IH. }
  pose proof (ready_goes_on s) as Hne.
  destruct (do_step T_ready s) as [s' [[]|e|]]; simpl in Hw, Hne; [|done| |done].
  - apply Hgo. apply Hw.
  - destruct Hw as (_ & He & Hrec & _). destruct e; try (by simpl; split; [|tauto]); by apply Hgo, Hrec.
Qed.

(** C26 With a block scheduled and the next [k - 1] heights cached, [k] turns of
    the feedback channel execute all of them, unless a block on the way ends
    the epoch or an external error stops the loop. *)
Theorem cached_chain_drains i0 l0 m s k :
  good i0 l0 false m s → chain_cached k m s →
  wp (run (replicate k T_ready))
     (λ o s', match o with
              | Ok stopped => stopped = false ∧
                  (le s' = le s + Z.of_nat k ∨ is_current_epoch_over s' = true)
              | Err e => external_error e ∧ ¬ recoverable e
              | Panic => True
              end) s.
Proof.
  intros Hg Hc. apply (drain_run i0 l0 m); [done|]. auto.
Qed.

(** *** Construction *)
Lemma sm_retain_empty lb c :
  sm_retain lb {| sm_committed := c; sm_pending := ∅ |} = {| sm_committed := c; sm_pending := ∅ |}.
Proof. unfold sm_retain. simpl. by rewrite map_filter_empty. Qed.

Lemma execute_block_initial b s c :
  sim (store s) {| sm_committed := c; sm_pending := ∅ |} →
  verifier_ok (block_verifier s) →
  last_observed_highest_block s = None →
  pending_sync_request (synchronizer s) = None → ready_to_execute s = [] →
  wp (execute_block b)
     (λ o s', is_ok o = true →
              initial s' ∧ last_executed_block_info s' = block_info b ∧
              executed (executor s') = b :: executed (executor s)) s.
Proof.
  intros Hs Hv Ho Hp Hr. unfold execute_block. wp_step.
  eapply on_block_store_wp; [by apply sim_update_committed|..]; [|done..].
  intros [] st (Hst & _ & Hlc). wp_steps. unfold on_executor. wp_steps. unfold wp at 1.
  pose proof (execute_block_executed b
    (current_validator_committee (epoch_states (block_verifier s))) (executor s)) as Hx.
  simpl. destruct (executor_execute_block _ _ _) as [x [changed|e|]]; simpl in Hx |- *; [|done..].
  assert (∀ v, verifier_ok v →
    initial (Build_ChainStateAssembler _ _ _ _ _ x (block_info b)
      (last_observed_highest_block s) (synchronizer s) (bs_retain (cb_height b) st) v
      (ready_to_execute s))) as Hi.
  { intros v Hv'. unfold initial, le. simpl. rewrite Hx, block_info_height, retain_committed.
    split_and!; try done; [|by exists b].
    apply (sim_retain (cb_height b)) in Hst. unfold sm_set_committed in Hst. simpl in Hst.
    by rewrite sm_retain_empty in Hst. }
  unfold handle_epoch_change.
  destruct changed; wp_steps; intros _; (split; [apply Hi|by split]); [|done].
  by apply verifier_ok_set.
Qed.

(** [ensure_blockchain_and_move_stores_are_consistent] executes the last committed
    block when it is not the last executed one, and does nothing otherwise. *)
Definition restores (ensure : M Assembler StateConsistencyWarranterError ()) : Prop :=
  ∀ a a', ensure a = (a', Ok tt) →
    ∃ c, warranter_last_committed_block a = Ok c ∧
         (cb_height c = le a ∧ a' = a ∨ cb_height c ≠ le a ∧ warranter_execute c a = (a', Ok tt)).

Definition restore : M Assembler StateConsistencyWarranterError () :=
  λ a, match warranter_last_committed_block a with
       | Ok c => if cb_height c =? le a then (a, Ok tt) else warranter_execute c a
       | Err e => (a, Err e)
       | Panic => (a, Panic)
       end.

Lemma restore_restores : restores restore.
Proof.
  intros a a'. unfold restore.
  destruct (warranter_last_committed_block a) as [c|e|]; [|done..].
  destruct (Z.eqb_spec (cb_height c) (le a)); [intros [= <-]|intros ?]; exists c; auto.
Qed.

(** A successful construction gives a fresh assembler, also when the last
    committed block has to be executed again because the node stopped
    between committing and executing it. *)
Theorem new_initial (ensure : M Assembler StateConsistencyWarranterError ()) st v x sync_api b eb s :
  restores ensure →
  sim st {| sm_committed := cb_height b; sm_pending := ∅ |} →
  bs_last_committed_block st = Ok (Some b) →
  bs_last_executed_block st = Ok (Some eb) →
  let i := block_info (eb_certified_block eb) in
  verifier_ok v → tip i (executed x) = i →
  new ensure st v x sync_api = Ok s →
  initial s ∧
  (cb_height b = bi_height i ∧ last_executed_block_info s = i ∧ executed (executor s) = executed x ∨
   cb_height b ≠ bi_height i ∧ last_executed_block_info s = block_info b ∧
   executed (executor s) = b :: executed x).
Proof.
  intros Hens Hsim Hlc Hlx i Hv Hx. unfold new. rewrite Hlx. simpl. fold i.
  set (a := Build_ChainStateAssembler _ _ _ _ _ _ _ _ _ _ _ _).
  destruct (ensure a) as [a' [[]|e|]] eqn:He; [|done..]. intros [= <-].
  destruct (Hens _ _ He) as (c & Hc & Hor).
  assert (c = b) as ->.
  { unfold warranter_last_committed_block in Hc. simpl in Hc. rewrite Hlc in Hc. by injection Hc. }
  destruct Hor as [[Hle ->]|[Hle Hex]]; unfold le in Hle; simpl in Hle.
  - split; [|by left]. unfold initial, le. simpl. rewrite Hx. split_and!; try done; [|by exists b].
    by rewrite <- Hle.
  - unfold warranter_execute in Hex.
    pose proof (execute_block_initial b a (cb_height b) Hsim Hv eq_refl eq_refl eq_refl) as Hw.
    unfold wp in Hw. destruct (execute_block b a) as [a1 [[]|[]|]]; try done.
    injection Hex as <-. destruct (Hw eq_refl) as (? & ? & ?). by split; [|right].
Qed.
End safety.

(** ** The properties at a concrete node

    An in-memory node over [Mem]: blocks named by their hash, the block with
    hash 999 ends the epoch, sent requests are recorded. *)
Module MemNode.
Import Mem.

#[export] Instance node_errors : NodeErrors := {
  RpcLayerError := unit;
  ExecutionError := unit;
}.

#[export] Instance mem_verifier_spec : TBlockVerifierSpec BlockVerifier :=
  Verifier.block_verifier_spec false.

#[export] Instance mem_executor : TBlockExecutor unit := {
  executor_execute_block b _ := rret (mb_hash b =? 999);
}.

#[export] Instance mem_sync_api : SyncRequestApi (list (RpcServerMessage unit)) := {
  Txn := unit;
  sync_send m := rmodify (λ l, m :: l);
}.

Definition node : Type :=
  ChainStateAssembler BlockStore BlockVerifier (unit * list CertifiedBlock)
    (list (RpcServerMessage unit)).

Definition root_block : CertifiedBlock := Block 0 1 100 0 true [].
Definition full (h hash parent : Z) : FullBlock :=
  {| base := Block h 1 hash parent true []; batches := [] |}.

Definition fresh_verifier : BlockVerifier :=
  {| bv_epoch_states := Epoch 1 0 false; skip_qc_verification := false |}.

(** A node that executed the root block, with a bucket of one full block. *)
Definition initialized : BlockStore := (Impl.initialize root_block (Impl.new empty_db 1)).1.

Definition fresh : node :=
  Build_ChainStateAssembler _ _ _ _ _ (tt, []) (block_info root_block) None
    (Sync.new []) initialized fresh_verifier [].

Lemma initialized_sim : sim initialized {| sm_committed := 0; sm_pending := ∅ |}.
Proof. split; [reflexivity|]. intros h. simpl. rewrite !lookup_empty. constructor. Qed.

Lemma fresh_initial : initial fresh.
Proof.
  split_and!; try reflexivity; [exact initialized_sim|]. exists root_block. by split.
Qed.

(** Blocks 3, 2, 1 arrive in the wrong order and are executed in the right one. *)
Definition shuffled : list Trigger :=
  [T_block (Some (full 3 103 102)); T_block (Some (full 2 102 101));
   T_block (Some (full 1 101 100)); T_ready; T_ready].

Lemma assembler_refines_chain_witness :
  (mb_hash <$> executed (executor (run shuffled fresh).1)) = [103; 102; 101] ∧
  rtc (chain_step accepted (last_executed_block_info fresh)) []
      (executed (executor (run shuffled fresh).1)).
Proof.
  split; [vm_compute; reflexivity|].
  exact (assembler_refines_chain fresh shuffled fresh_initial).
Defined.

Lemma executed_heights_consecutive_witness :
  ∃ k, executed (executor (run shuffled fresh).1) = k ++ [] ∧
       reverse (cb_height <$> k)
       = seqZ (bi_height (last_executed_block_info fresh) + 1) (Z.of_nat (length k)).
Proof. exact (executed_heights_consecutive fresh shuffled fresh_initial). Defined.

(** Closed runs are decided by evaluation. *)
Definition going {E} (o : outcome E bool) : bool :=
  match o with Ok false => true | _ => false end.

Lemma run_going ts (s : node) :
  going (run ts s).2 = true → run ts s = ((run ts s).1, Ok false).
Proof. by destruct (run ts s) as [s' [[]|e|]]. Qed.

(** A premature end of the epoch is an error, an external one. *)
Definition premature : Trigger := T_epoch (Some (EndEpoch, true)).

Lemma do_step_no_internal_error_witness :
  match (do_step premature (run shuffled fresh).1).2 with
  | Err e => external_error e
  | _ => False
  end.
Proof.
  assert (match (do_step premature (run shuffled fresh).1).2 with
          | Err _ => true | _ => false end = true) as Herr by (vm_compute; reflexivity).
  destruct (do_step premature (run shuffled fresh).1).2 as [b|e|] eqn:He;
    [discriminate Herr| |discriminate Herr].
  apply (do_step_no_internal_error fresh shuffled (run shuffled fresh).1 premature e
           fresh_initial); [|exact He].
  apply run_going. vm_compute. reflexivity.
Defined.

(** The block that ends the epoch, and one more that must not be executed. *)
Definition epoch_end : list Trigger := [T_block (Some (full 1 999 100))].

Lemma halted_until_new_epoch_witness :
  executor (do_step (T_block (Some (full 2 102 999))) (run epoch_end fresh).1).1
  = executor (run epoch_end fresh).1.
Proof.
  refine (proj1 (halted_until_new_epoch fresh epoch_end (run epoch_end fresh).1 _
                   fresh_initial _ _)).
  - apply run_going. vm_compute. reflexivity.
  - vm_compute. reflexivity.
Defined.

(** Block 1 is missing: it is requested. *)
Definition gap : list Trigger := [T_block (Some (full 2 102 101))].

Lemma gap_observed :
  bool_decide (last_observed_highest_block (run gap fresh).1 = Some (base (full 2 102 101))) = true.
Proof. vm_compute. reflexivity. Qed.

Lemma assembler_makes_progress_witness :
  ready_to_execute (run gap fresh).1 ≠ [] ∨
  pending_sync_request (synchronizer (run gap fresh).1)
  = Some (bi_height (last_executed_block_info (run gap fresh).1) + 1).
Proof.
  apply (assembler_makes_progress fresh gap (run gap fresh).1 fresh_initial).
  - split; [|exact I]. intros Hv.
    assert (match verify (block_verifier fresh) (full 2 102 101) with
            | OldEpochBlock => true | _ => false end = false) as Hf by (vm_compute; reflexivity).
    rewrite Hv in Hf. discriminate Hf.
  - apply run_going. vm_compute. reflexivity.
  - vm_compute. reflexivity.
  - exists (base (full 2 102 101)). split; [exact (bool_decide_eq_true_1 _ gap_observed)|].
    apply Z.leb_le. vm_compute. reflexivity.
Defined.

(** Blocks 3 and 2 are cached, block 1 was executed and 2 is scheduled. *)
Definition backlog : node := (run (take 3 shuffled) fresh).1.

Lemma backlog_height : bi_height (last_executed_block_info backlog) = 1.
Proof. vm_compute. reflexivity. Qed.

Lemma backlog_ready : length (ready_to_execute backlog) = 1%nat.
Proof. vm_compute. reflexivity. Qed.

Lemma backlog_entry : bs_has_entry (store backlog) 3 = true.
Proof. vm_compute. reflexivity. Qed.

Lemma backlog_going : going (run (take 3 shuffled) fresh).2 = true.
Proof. vm_compute. reflexivity. Qed.

Lemma backlog_cached :
  ∃ m, good (block_info root_block) [] false m backlog ∧ chain_cached 2 m backlog.
Proof.
  destruct (run_going_good (block_info root_block) [] false (take 3 shuffled) _ fresh backlog
    (initial_good false fresh fresh_initial) ltac:(discriminate)
    (run_going (take 3 shuffled) fresh backlog_going)) as [m Hg].
  exists m. split; [done|]. destruct Hg as (Hb & _).
  split; [intros Hnil; pose proof backlog_ready as Hr; by rewrite Hnil in Hr|].
  intros h Hh. pose proof backlog_height as Hle.
  assert (h = 3) as -> by (unfold le in Hh; rewrite Hle in Hh; simpl in Hh; lia).
  pose proof (sim_has_entry _ _ 3 (inv_sim _ _ _ _ Hb)) as He.
  rewrite (inv_committed _ _ _ _ Hb), backlog_entry in He. unfold le in He.
  rewrite Hle in He. simpl in He.
  destruct (sm_pending m !! 3) as [[c|]|] eqn:Hm; [by eauto| |done].
  apply (inv_handed _ _ _ _ Hb) in Hm. unfold le in Hm. by rewrite Hle in Hm.
Qed.

Lemma cached_chain_drains_witness :
  ∃ m, chain_cached 2 m backlog ∧
    wp (run (replicate 2 T_ready))
       (λ o s', match o with
                | Ok stopped => stopped = false ∧
                    (bi_height (last_executed_block_info s')
                     = bi_height (last_executed_block_info backlog) + Z.of_nat 2 ∨
                     is_current_epoch_over s' = true)
                | Err e => external_error e ∧ ¬ recoverable e
                | Panic => True
                end) backlog.
Proof.
  destruct backlog_cached as (m & Hg & Hc). exists m. split; [exact Hc|].
  exact (cached_chain_drains _ _ m backlog 2 Hg Hc).
Defined.

Definition created : outcome AssemblerError node :=
  new restore initialized fresh_verifier (tt, []) [].

Lemma new_initial_witness :
  match created with
  | Ok s => initial s ∧ executed (executor s) = []
  | _ => False
  end.
Proof.
  assert (is_ok created = true) as Hok by (vm_compute; reflexivity).
  destruct created as [s|e|] eqn:Hn; [|discriminate Hok..].
  destruct (new_initial restore initialized fresh_verifier (tt, []) [] root_block root_block s)
    as [Hi [(_ & _ & Hx)|[[] _]]]; try reflexivity; try done.
  - apply restore_restores.
  - exact initialized_sim.
Defined.
End MemNode.
