(* ===== verification/Restart.v ===== *)
(** * The chain over restarts of the node

    A node stops and is started again on its databases
    ([src/rpc_node/src/cli/start_server.rs]).  The assembler commits a block
    before it executes it, so it may stop with a committed block that is not
    executed; the start executes it.  Over any number of restarts the executed
    blocks form one chain: no block is lost, executed twice or replaced
    ([chain_survives_restarts]). *)

From S2P Require Import Prelude Chain BlockStore Synchronizer BlockVerifier Assembler AssemblerSafety.
From stdpp Require Import base tactics option list gmap relations.
From Stdlib Require Import ZArith Lia.
Local Open Scope Z_scope.
Import Asm.

(** The step of the chain depends on the block below the list only when the list
    is empty. *)
Lemma chain_step_tip `{ChainTypes} accepted i i' l :
  tip i l = tip i' l → ∀ l', rtc (chain_step accepted i) l l' → rtc (chain_step accepted i') l l'.
Proof.
  intros Ht l' Hr. revert l Hr Ht. apply (rtc_ind_l (λ l, tip i l = tip i' l → _)); [done|].
  intros l l1 Hs _ IH Ht. eapply rtc_l; [|apply IH; by destruct Hs].
  destruct Hs as [b l Hh Hp Ha]. rewrite Ht in Hh, Hp. by constructor.
Qed.

Section restart.
Context `{ChainTypesLaws} `{!ChainStoreOps} `{!ChainStoreLaws} `{!EpochOps} `{!EpochLaws} `{NodeErrors}.
Context {Verifier Executor SyncApi : Type}.
Context `{!TBlockVerifier Verifier} `{!TBlockExecutor Executor} `{!SyncRequestApi SyncApi}.
Context `{!TBlockVerifierSpec Verifier} `{!TBlockExecutorSpec Executor}.

Notation Assembler := (ChainStateAssembler BlockStore Verifier Executor SyncApi).

Context (ensure : M Assembler StateConsistencyWarranterError ()).

(** The part of [start_rpc_node] that makes the assembler over a database. *)
Definition start (db : ChainStore) (bucket : Z) (genesis : CertifiedBlock)
    (v : Verifier) (x : Executor) (sync_api : SyncApi) : outcome AssemblerError Assembler :=
  match Impl.initialize genesis (Impl.new db bucket) with
  | (st, Ok _) => new ensure st v x sync_api
  | (_, Err e) => Err (from_block_store_error e)
  | (_, Panic) => Panic
  end.

(** The database after the node stopped: the last committed block is the one the
    store wrote, and the executor wrote the last block it executed. *)
Definition left_behind (s : Assembler) (db : ChainStore) : Prop :=
  last_state_read db Key_CommittedBlock
  = last_state_read (BlockStore.store (store s)) Key_CommittedBlock ∧
  ∃ eb, last_state_read db Key_ExecutedBlock = Ok (Some (LSV_ExecutedBlock eb)) ∧
        block_info (eb_certified_block eb) = last_executed_block_info s.

(** A regular stop, or one between the commit of a block and its execution. *)
Definition stops (o : outcome AssemblerError bool) : Prop :=
  match o with Ok _ => True | Err e => execution_failed e | Panic => False end.

(** The lives of a node: it runs, or it runs until it stops and goes on in another
    process, which finds the database, the executed blocks and a verifier. *)
Inductive lives : Assembler → Assembler → Prop :=
| lives_run s ts : lives s (run ts s).1
| lives_restart s ts s1 o db bucket genesis v x sync_api s2 s3 :
    run ts s = (s1, o) → stops o →
    left_behind s1 db → verifier_ok v → executed x = executed (executor s1) →
    start db bucket genesis v x sync_api = Ok s2 →
    lives s2 s3 →
    lives s s3.

(** What a node that stopped leaves: its last committed block is the tip of its
    chain, or the accepted direct successor of the tip. *)
Definition at_rest (i0 : BlockInfo) (s : Assembler) : Prop :=
  last_executed_block_info s = tip i0 (executed (executor s)) ∧
  ∃ b, bs_last_committed_block (store s) = Ok (Some b) ∧
       (cb_height b = bi_height (last_executed_block_info s) ∨
        cb_height b = bi_height (last_executed_block_info s) + 1 ∧
        cb_parent b = bi_hash (last_executed_block_info s) ∧ accepted b).

Lemma run_at_rest s ts s1 o :
  initial s → run ts s = (s1, o) → stops o → at_rest (last_executed_block_info s) s1.
Proof.
  intros Hi Hr Ho. pose proof (run_good _ _ false ts _ s (initial_good false s Hi) ltac:(done)) as Hw.
  unfold wp in Hw. rewrite Hr in Hw. destruct Hw as [_ Hw]. destruct o as [stopped|e|]; [| |done].
  - destruct Hw as (m & (Hb & _) & _). split; [apply Hb|].
    destruct (inv_last _ _ _ _ Hb) as (b & Hlc & Hh). exists b. auto.
  - destruct Hw as (_ & _ & Hx). destruct (Hx Ho) as (b & Hlc & Hh & Hp & Ha & Ht).
    split; [done|]. exists b. auto.
Qed.

Lemma initialize_reopened genesis db bucket b eb st :
  Impl.last_committed_block (Impl.new db bucket) = Ok (Some b) →
  Impl.last_executed_block (Impl.new db bucket) = Ok (Some eb) →
  Impl.initialize genesis (Impl.new db bucket) = (st, Ok tt) →
  st = Impl.set_committed (cb_height b) (Impl.new db bucket).
Proof.
  intros Hb He. unfold Impl.initialize, rthen, rgets, rlift. simpl. rewrite Hb, He.
  case_match; [done|]. by intros [= <-].
Qed.

Context (ensure_restores : restores ensure).

(** The start on the database that a node left goes on where the node stopped: the
    committed block is executed if it was not. *)
Lemma start_resumes i0 s1 db bucket genesis v x sync_api s2 :
  at_rest i0 s1 → left_behind s1 db → verifier_ok v → executed x = executed (executor s1) →
  start db bucket genesis v x sync_api = Ok s2 →
  initial s2 ∧ last_executed_block_info s2 = tip i0 (executed (executor s2)) ∧
  rtc (chain_step accepted i0) (executed (executor s1)) (executed (executor s2)) ∧
  ∃ b, bs_last_committed_block (store s1) = Ok (Some b) ∧
       cb_height b = bi_height (last_executed_block_info s2).
Proof.
  intros (Ht & b & Hlc & Hb) (Hdb & eb & Hex & Heb) Hv Hx. unfold start.
  assert (Impl.last_committed_block (Impl.new db bucket) = Ok (Some b)) as Hlc'.
  { unfold Impl.last_committed_block. simpl. by rewrite Hdb. }
  assert (Impl.last_executed_block (Impl.new db bucket) = Ok (Some eb)) as Hle.
  { unfold Impl.last_executed_block. simpl. rewrite Hex. simpl. by rewrite into_last_executed_spec. }
  destruct (Impl.initialize _ _) as [st [[]|e|]] eqn:Hi; [|done..].
  apply (initialize_reopened _ _ _ b eb) in Hi as ->; [|done..]. intros Hn.
  apply (new_initial _ _ _ _ _ b eb) in Hn as [Hini Hor]; try done.
  - split; [done|]. rewrite Heb, Hx in Hor. destruct Hor as [(Hh & Hle2 & ->)|(Hh & Hle2 & ->)].
    + rewrite Hle2. split_and!; [done|done|]. by exists b.
    + rewrite Hle2. destruct Hb as [?|(Hh' & Hp & Ha)]; [done|]. rewrite Ht in Hh', Hp.
      split_and!; [done|by apply rtc_once; constructor|].
      exists b. by rewrite block_info_height.
  - split; [done|]. intros h. simpl. rewrite !lookup_empty. constructor.
  - rewrite Heb, Hx, Ht. by destruct (executed (executor s1)).
Qed.

(** The first start, on an empty database, begins above the genesis block. *)
Lemma initialize_empty_sim genesis db bucket st :
  last_state_read db Key_CommittedBlock = Ok None →
  last_state_read db Key_ExecutedBlock = Ok None →
  Impl.initialize genesis (Impl.new db bucket) = (st, Ok tt) →
  sim st {| sm_committed := cb_height genesis; sm_pending := ∅ |}.
Proof.
  intros Hc Hx. unfold Impl.initialize, rthen, rgets, rlift, Impl.last_committed_block,
    Impl.last_executed_block. simpl. rewrite Hc, Hx. simpl.
  unfold Impl.update_last_committed_block_info, rthen, rmodify.
  destruct (Impl.on_store _ _) as [s1 [[]|e|]] eqn:Hw; [|done..].
  apply on_store_inv in Hw as (c1 & -> & _).
  destruct (genesis_executed_block genesis) as [eb|]; [|done]. simpl.
  intros (c2 & -> & _)%on_store_inv. split; [done|].
  intros h. simpl. rewrite !lookup_empty. constructor.
Qed.

Lemma start_empty genesis db bucket v x sync_api s :
  last_state_read db Key_CommittedBlock = Ok None →
  last_state_read db Key_ExecutedBlock = Ok None →
  verifier_ok v → executed x = [] → start db bucket genesis v x sync_api = Ok s →
  initial s ∧ last_executed_block_info s = block_info genesis ∧ executed (executor s) = [].
Proof.
  intros Hc He Hv Hx. unfold start.
  destruct (Impl.initialize _ _) as [st [[]|e|]] eqn:Hi; [|done..]. intros Hn.
  pose proof (initialize_empty_sim _ _ _ _ Hc He Hi) as Hsim.
  apply initialize_then_restart with (g':=genesis) (bucket':=bucket) in Hi
    as (_ & Hlc & (eb & Hle & Heb) & _); [|done..].
  apply (new_initial _ _ _ _ _ genesis eb) in Hn as [Hini Hor]; try done.
  - split; [done|]. rewrite Hx, Heb in Hor.
    destruct Hor as [(_ & ? & ?)|[[] _]]; [done|]. by rewrite block_info_height.
  - by rewrite Hx.
Qed.

(** What a node executes in its lives is one chain above where it started. *)
Lemma lives_chain s s' :
  lives s s' → initial s →
  rtc (chain_step accepted (last_executed_block_info s))
      (executed (executor s)) (executed (executor s')).
Proof.
  intros Hl. induction Hl as [s ts|s ts s1 o db bucket genesis v x api s2 s3
    Hr Ho Hdb Hv Hx Hs _ IH]; intros Hi;
    pose proof (run_good _ _ false ts _ s (initial_good false s Hi) ltac:(done)) as [Hg _]; [done|].
  rewrite Hr in Hg. pose proof (run_at_rest _ _ _ _ Hi Hr Ho) as Hrest.
  destruct (start_resumes _ _ _ _ _ _ _ _ _ Hrest Hdb Hv Hx Hs) as (Hi2 & Ht2 & Hc2 & _).
  etrans; [exact Hg|]. etrans; [exact Hc2|].
  apply (chain_step_tip _ (last_executed_block_info s2)); [|by apply IH].
  rewrite <- Ht2. by destruct Hi2 as (_ & _ & _ & _ & _ & <- & _).
Qed.

(** C4 From the first start on an empty database on, however often the node stops
    and is started again, also between the commit of a block and its
    execution: the blocks it executed over all its lives form one chain above
    the genesis block, each of them the accepted direct successor of the one
    before. *)
Theorem chain_survives_restarts genesis db bucket v x sync_api s s' :
  last_state_read db Key_CommittedBlock = Ok None →
  last_state_read db Key_ExecutedBlock = Ok None →
  verifier_ok v → executed x = [] → start db bucket genesis v x sync_api = Ok s →
  lives s s' →
  rtc (chain_step accepted (block_info genesis)) [] (executed (executor s')).
Proof.
  intros Hc He Hv Hx Hs Hl.
  destruct (start_empty _ _ _ _ _ _ _ Hc He Hv Hx Hs) as (Hi & <- & <-). by apply lives_chain.
Qed.
End restart.

(** ** A node that stops between the commit and the execution of a block *)
Module RestartExamples.
Import Mem MemNode.

(** The executor of a process, which may be unable to execute block 102. *)
#[export] Instance faulty_executor : TBlockExecutor bool := {
  executor_execute_block b _ :=
    λ faulty, if faulty && (mb_hash b =? 102) then (faulty, Err tt) else (faulty, Ok false);
}.

Definition rs_node : Type :=
  ChainStateAssembler BlockStore BlockVerifier (bool * list CertifiedBlock)
    (list (RpcServerMessage unit)).

Definition rs_restore : M rs_node StateConsistencyWarranterError () := restore.

Definition faulty : bool * list CertifiedBlock := (true, []).

Definition first_life : outcome AssemblerError rs_node :=
  start rs_restore empty_db 1 root_block fresh_verifier faulty [].

(** Block 1 is executed; block 2 is committed, and its execution fails. *)
Definition two_blocks : list Trigger :=
  [T_block (Some (full 1 101 100)); T_block (Some (full 2 102 101))].

Definition started : rs_node :=
  Build_ChainStateAssembler _ _ _ _ _ faulty (block_info root_block) None
    (Sync.new []) initialized fresh_verifier [].

Definition stopped : rs_node := (run two_blocks started).1.

(** The database with the row of the last executed block. *)
Definition reopened : ChainStore :=
  let v := LSV_ExecutedBlock (base (full 1 101 100)) in
  (last_state_write_bytes (as_key v) (encoded v) (BlockStore.store (store stopped))).1.

Definition second_life : outcome AssemblerError rs_node :=
  start rs_restore reopened 1 root_block fresh_verifier (false, executed (executor stopped)) [].

Definition third_block (s : rs_node) : rs_node := (run [T_block (Some (full 3 103 102))] s).1.

Lemma first_life_started : first_life = Ok started.
Proof. reflexivity. Qed.

Definition failed_execution (o : outcome AssemblerError bool) : bool :=
  match o with Err (ExecutionFailed _) => true | _ => false end.

Lemma started_fails : failed_execution (run two_blocks started).2 = true.
Proof. vm_compute. reflexivity. Qed.

Lemma started_stops : stops (run two_blocks started).2.
Proof.
  pose proof started_fails as Hf. destruct (run two_blocks started).2 as [|[]|]; done.
Qed.

Lemma stopped_tip :
  bool_decide (base (full 1 101 100) = last_executed_block_info stopped) = true.
Proof. vm_compute. reflexivity. Qed.

Lemma reopened_left : left_behind stopped reopened.
Proof.
  unfold left_behind, reopened. generalize (BlockStore.store (store stopped)). intros db.
  split; [reflexivity|]. exists (base (full 1 101 100)). split; [reflexivity|].
  exact (bool_decide_eq_true_1 _ stopped_tip).
Qed.

Lemma chain_survives_restarts_witness :
  match second_life with
  | Ok s2 =>
      mb_hash <$> executed (executor (third_block s2)) = [103; 102; 101] ∧
      rtc (chain_step accepted (block_info root_block)) []
          (executed (executor (third_block s2)))
  | _ => False
  end.
Proof.
  assert (match second_life with
          | Ok s2 => bool_decide (mb_hash <$> executed (executor (third_block s2)) = [103; 102; 101])
          | _ => false
          end = true) as Hok by (vm_compute; reflexivity).
  destruct second_life as [s2|e|] eqn:H2; [|discriminate Hok..].
  split; [by apply bool_decide_eq_true in Hok|].
  refine (chain_survives_restarts rs_restore restore_restores root_block empty_db 1 fresh_verifier
            faulty [] started (third_block s2) eq_refl eq_refl _ eq_refl first_life_started _).
  { done. }
  refine (lives_restart rs_restore _ two_blocks stopped _ reopened 1 root_block fresh_verifier
            (false, executed (executor stopped)) [] s2 _ (surjective_pairing _) started_stops
            reopened_left _ eq_refl H2 _).
  - done.
  - apply lives_run.
Defined.
End RestartExamples.
