(* ===== verification/Execution.v ===== *)
(** * What a step of the assembler does with the executor

    A handler of [Assembler] changes the executor only by executing blocks.  [executes]
    says so of a computation; it is closed under the constructs the handlers are
    made of, and the hints of the database [executes] derive it for each handler. *)

From S2P Require Import Prelude Chain BlockStore Synchronizer BlockVerifier Assembler AssemblerSafety.
From stdpp Require Import base tactics option list.
From Stdlib Require Import ZArith.
Import Asm.
Local Open Scope Z_scope.

Section execution.
Context `{ChainStoreOps} `{!EpochOps} `{NodeErrors}.
Context {Storage Verifier Executor SyncApi : Type}.
Context `{!TBlockStore Storage} `{!TBlockVerifier Verifier}.
Context `{!TBlockExecutor Executor} `{!SyncRequestApi SyncApi}.

Notation Assembler := (ChainStateAssembler Storage Verifier Executor SyncApi).
Notation MA := (M Assembler AssemblerError).

(** Successful executions of blocks, the newest first. *)
Inductive executions : list CertifiedBlock → Executor → Executor → Prop :=
| executions_nil x : executions [] x x
| executions_cons b bs c changed x x1 x2 :
    executions bs x x1 → executor_execute_block b c x1 = (x2, Ok changed) →
    executions (b :: bs) x x2.

Lemma executions_app bs bs' x x1 x2 :
  executions bs x x1 → executions bs' x1 x2 → executions (bs' ++ bs) x x2.
Proof. intros He. induction 1; [done|]. simpl. econstructor; eauto. Qed.

Lemma executions_executed `{!TBlockExecutorSpec Executor} bs x x' :
  executions bs x x' → executed x' = bs ++ executed x.
Proof.
  induction 1 as [|b bs c changed x x1 x2 _ IH Hx]; [done|].
  pose proof (execute_block_executed b c x1) as He. rewrite Hx in He. simpl in He.
  by rewrite He, IH.
Qed.

(** The loop goes on after this result of a step. *)
Definition going {A} (o : outcome AssemblerError A) : Prop :=
  match o with Ok _ => True | Err e => recoverable e | Panic => False end.

Definition executes {A} (m : MA A) : Prop :=
  ∀ s, wp m (λ o s', going o → ∃ bs, executions bs (executor s) (executor s')) s.

(** ** The constructs *)
Lemma executes_keeps {A} (m : MA A) :
  (∀ s, executor (m s).1 = executor s) → executes m.
Proof. intros Hm s _. rewrite Hm. exists []. constructor. Qed.

Lemma executes_ret {A} (a : A) : executes (rret a).
Proof. by apply executes_keeps. Qed.
Lemma executes_fail {A} e : executes (rfail e : MA A).
Proof. by apply executes_keeps. Qed.
Lemma executes_lift {A} (o : outcome AssemblerError A) : executes (rlift o).
Proof. by apply executes_keeps. Qed.
Lemma executes_gets {A} (f : Assembler → A) : executes (rgets f).
Proof. by apply executes_keeps. Qed.
Lemma executes_modify (f : Assembler → Assembler) :
  (∀ s, executor (f s) = executor s) → executes (rmodify f).
Proof. intros Hf. by apply executes_keeps. Qed.

Lemma executes_then {A B} (m : MA A) (k : A → MA B) :
  executes m → (∀ a, executes (k a)) → executes (rthen m k).
Proof.
  intros Hm Hk s. apply wp_then. eapply wp_mono; [|apply Hm].
  intros [a|e|] s1 He; [|done..]. destruct (He I) as [bs Hbs].
  eapply wp_mono; [|apply Hk]. intros o s2 Ho Hg. destruct (Ho Hg) as [bs' Hbs'].
  exists (bs' ++ bs). by eapply executions_app.
Qed.

Lemma executes_block_store {A} (m : M Storage BlockStoreError A) : executes (on_block_store m).
Proof. apply executes_keeps. intros s. unfold on_block_store, rzoom. by destruct (m (store s)). Qed.

Lemma executes_synchronizer {A} (m : M (SynchronizationContext SyncApi) AssemblerError A) :
  executes (on_synchronizer m).
Proof.
  apply executes_keeps. intros s. unfold on_synchronizer, rzoom. by destruct (m (synchronizer s)).
Qed.

(** A failed execution ends the loop. *)
Lemma executes_executor b c : executes (on_executor (executor_execute_block b c)).
Proof.
  intros s. apply wp_zoom. unfold wp.
  destruct (executor_execute_block b c (executor s)) as [x [changed|e|]] eqn:Hx; simpl; [|done..].
  intros _. exists [b]. by econstructor; [constructor|].
Qed.

Create HintDb executes.
#[local] Hint Resolve executes_ret executes_fail executes_lift executes_gets executes_then
  executes_block_store executes_synchronizer executes_executor : executes.
#[local] Hint Extern 1 (executes (rmodify _)) => apply executes_modify; intros ?; done : executes.
#[local] Hint Extern 2 (executes (if ?b then _ else _)) => destruct b : executes.
#[local] Hint Extern 2 (executes (match ?x with _ => _ end)) => destruct x : executes.

(** ** The handlers *)
Lemma executes_epoch_change changed : executes (handle_epoch_change changed).
Proof. unfold handle_epoch_change. auto with executes. Qed.
#[local] Hint Resolve executes_epoch_change : executes.

Lemma executes_execute_block b : executes (execute_block b).
Proof. unfold execute_block. auto 10 with executes. Qed.

Lemma executes_try_to_sync : executes try_to_sync_skipped_blocks.
Proof. unfold try_to_sync_skipped_blocks. auto 10 with executes. Qed.

Lemma executes_try_send b : executes (try_send_ready b).
Proof. unfold try_send_ready. auto 10 with executes. Qed.
#[local] Hint Resolve executes_execute_block executes_try_to_sync executes_try_send : executes.

Lemma executes_chain b : executes (try_execute_block_chain b).
Proof. unfold try_execute_block_chain. auto 10 with executes. Qed.
#[local] Hint Resolve executes_chain : executes.

Lemma executes_scheduled b : executes (handle_scheduled_block b).
Proof. unfold handle_scheduled_block. auto 10 with executes. Qed.

Lemma executes_full fb : executes (handle_full_block fb).
Proof. unfold handle_full_block. auto 12 with executes. Qed.
#[local] Hint Resolve executes_scheduled executes_full : executes.

Lemma executes_observe b : executes (rmodify (observe_block b)).
Proof. apply executes_modify. intros s. unfold observe_block. by case_match. Qed.
#[local] Hint Resolve executes_observe : executes.

Lemma executes_incoming fb : executes (handle_incoming_block fb).
Proof. unfold handle_incoming_block. auto 10 with executes. Qed.

Lemma executes_ack acked : executes (send_ack acked).
Proof. destruct acked; [apply executes_ret|by apply executes_keeps]. Qed.
#[local] Hint Resolve executes_incoming executes_ack : executes.

Lemma executes_epoch n : executes (handle_epoch_manager_notification n).
Proof.
  destruct n as [n acked]. unfold handle_epoch_manager_notification.
  apply executes_then; [auto with executes|]. intros s0. destruct (negb _); [auto with executes|].
  destruct n as [|e]; [auto with executes|]. destruct (_ || _); [auto with executes|].
  apply executes_then; [auto with executes|]. intros _.
  apply executes_then; [auto with executes|]. intros _ s. unfold wp.
  pose proof (executes_try_to_sync s) as Hs. unfold wp in Hs.
  destruct (try_to_sync_skipped_blocks s) as [s' o]. simpl in Hs.
  destruct acked; [|by destruct o]. by destruct o.
Qed.
#[local] Hint Resolve executes_epoch : executes.

Lemma executes_step t : executes (do_step t).
Proof. destruct t as [[]| |[]| |]; unfold do_step; auto 10 with executes. Qed.

(** A step after which the loop goes on. *)
Lemma step_going t s s' : run [t] s = (s', Ok false) → going (do_step t s).2 ∧ s' = (do_step t s).1.
Proof. simpl. destruct (do_step t s) as [s1 [[]|[]|]]; by intros [= <-]. Qed.

Lemma step_executes t s s' :
  run [t] s = (s', Ok false) → ∃ bs, executions bs (executor s) (executor s').
Proof. intros [Hg ->]%step_going. by apply (executes_step t). Qed.
End execution.
