(* ===== verification/CacheBound.v ===== *)
(** * The bound of the cache of full blocks

    However the node is started, run, stopped and started again, the cache of the
    block store holds at most as many full blocks as the configured bucket
    ([full_blocks_bounded]); the other pending blocks are memos and marks.  The
    bound holds for the states that the assembler reaches, also those in which
    it stops with an error between two operations of the store. *)

From S2P Require Import Prelude Chain BlockStore Synchronizer BlockVerifier Assembler AssemblerSafety Restart Execution.
From stdpp Require Import base tactics option list gmap.
From Stdlib Require Import ZArith Lia.
Local Open Scope Z_scope.
Import Asm.

Section bound.
Context `{ChainStoreOps} `{!EpochOps} `{NodeErrors}.
Context {Verifier Executor SyncApi : Type}.
Context `{!TBlockVerifier Verifier} `{!TBlockExecutor Executor} `{!SyncRequestApi SyncApi}.
Context `{!ChainTypesLaws}.

Notation Assembler := (ChainStateAssembler BlockStore Verifier Executor SyncApi).
Notation MA := (M Assembler AssemblerError).

(** Between two steps the full blocks lie right above the last executed block; when
    the loop stops, in a window of the same size. *)
Definition tight (s : Assembler) : Prop :=
  bucket_inv (store s) ∧
  last_committed_block_height (store s) = bi_height (last_executed_block_info s).

Definition loose (s : Assembler) : Prop := ∃ lo, in_window lo (store s).

Definition bounded {A} (o : outcome AssemblerError A) (s : Assembler) : Prop :=
  loose s ∧ (going o → tight s).

Lemma tight_loose s : tight s → loose s.
Proof. intros [Hb _]. by eexists. Qed.

Lemma tight_bounded {A} (o : outcome AssemblerError A) s : tight s → bounded o s.
Proof. intros Ht. split; [by apply tight_loose|done]. Qed.

(** ** The constructs *)
Lemma bounded_then {A B} (m : MA A) (k : A → MA B) s :
  wp m bounded s → (∀ a s', tight s' → wp (k a) bounded s') → wp (rthen m k) bounded s.
Proof.
  intros Hm Hk. apply wp_then. eapply wp_mono; [|exact Hm].
  intros [a|e|] s' [Hl Ht]; [by apply Hk, Ht|by split..].
Qed.

(** Operations of the store that keep the bucket. *)
Lemma bounded_store {A} (op : M BlockStore BlockStoreError A) s :
  keeps_bucket op → tight s → wp (on_block_store op) bounded s.
Proof.
  intros Hop [Hb Hc]. apply wp_zoom. destruct (Hop _ Hb) as [Hb' [Hc' _]].
  unfold wp. apply tight_bounded. split; [done|]. simpl. by rewrite Hc'.
Qed.

Lemma bounded_state {A} (m : MA A) s :
  (∀ s, tight s → tight (m s).1) → tight s → wp m bounded s.
Proof. intros Hm Ht. unfold wp. by apply tight_bounded, Hm. Qed.

Lemma tight_retain h s :
  tight s → tight (set_asm_store (bs_retain h (store s)) s).
Proof. intros [Hb Hc]. split; [by apply retain_bucket|done]. Qed.

Lemma tight_synchronizer {A} (m : M (SynchronizationContext SyncApi) AssemblerError A) s :
  tight s → tight (on_synchronizer m s).1.
Proof. unfold on_synchronizer, rzoom. by destruct (m (synchronizer s)). Qed.

Lemma tight_sync s : tight s → tight (try_to_sync_skipped_blocks s).1.
Proof.
  intros Ht. unfold try_to_sync_skipped_blocks, rthen, rgets, rlift.
  destruct (last_observed_highest_block s); [|done]. simpl.
  destruct (next_block_height s); [|done..]. case_match; [by apply tight_synchronizer|done].
Qed.

(** ** The handlers *)
(** Committing moves the bound up, and the entries below it stay until the block was
    executed; the loop ends if it fails to be. *)
Lemma commit_loose b s :
  tight s → cb_height b = bi_height (last_executed_block_info s) + 1 →
  wp (on_block_store (bs_update_last_committed_block_info b))
     (λ o s', loose s' ∧ last_executed_block_info s' = last_executed_block_info s ∧
              match o with
              | Ok _ => last_committed_block_height (store s') = cb_height b ∧
                        in_window (cb_height b - 1) (store s')
              | Err e => ¬ recoverable e
              | Panic => True
              end) s.
Proof.
  intros [Hb Hc] Hh. apply wp_zoom. simpl. unfold Impl.update_last_committed_block_info.
  apply wp_then, wp_modify. unfold Impl.on_store. apply wp_zoom. unfold wp. simpl.
  unfold bucket_inv in Hb. rewrite Hc in Hb. assert (bi_height (last_executed_block_info s) = cb_height b - 1) as Hle by lia.
  rewrite Hle in Hb.
  destruct (last_state_write_bytes _ _ _) as [c [[]|e|]]; simpl;
    (split; [by exists (cb_height b - 1)|]); (split; [done|]); [by split|by intros []|done].
Qed.

Lemma bounded_execute_block b s :
  tight s → cb_height b = bi_height (last_executed_block_info s) + 1 →
  wp (execute_block b) bounded s.
Proof.
  intros Ht Hh. unfold execute_block. apply wp_then.
  eapply wp_mono; [|by apply commit_loose]. intros [[]|e|] s1; [|by intros (? & ? & ?)..].
  intros (Hl & Hle & Hc & Hw). wp_steps. unfold on_executor. wp_steps. unfold wp at 1. simpl.
  destruct (executor_execute_block _ _ _) as [x [changed|e|]]; simpl; [|by split..].
  unfold handle_epoch_change.
  destruct changed; wp_steps; apply tight_bounded; (split; [|simpl; by rewrite block_info_height]);
    intros h d; simpl; rewrite map_lookup_filter_Some; intros [Hd Hlt];
    specialize (Hw h d Hd); simpl in *; lia.
Qed.

Lemma bounded_chain b s :
  tight s → cb_height b = bi_height (last_executed_block_info s) + 1 →
  wp (try_execute_block_chain b) bounded s.
Proof.
  intros Ht Hh. unfold try_execute_block_chain.
  apply bounded_then; [by apply bounded_execute_block|]. intros _ s1 Ht1. wp_steps.
  destruct (is_current_epoch_over _); [apply bounded_store; [apply on_store_bucket|done]|].
  wp_steps. simpl. destruct (next_block_height s1) as [n|e|]; [|by apply tight_bounded..].
  apply bounded_then; [apply bounded_store; [apply take_bucket|done]|].
  intros [c|] s2 Ht2; [|by apply bounded_state; [apply tight_sync|]].
  unfold try_send_ready. wp_steps. case_match; wp_steps; by apply tight_bounded.
Qed.

Lemma follows_height (s : Assembler) b :
  does_follow_chain s b = Ok true → cb_height b = bi_height (last_executed_block_info s) + 1.
Proof.
  intros Hf. pose proof (does_follow_chain_cases s b) as Hc. rewrite Hf in Hc. apply Hc.
Qed.

Lemma bounded_scheduled b s : tight s → wp (handle_scheduled_block b) bounded s.
Proof.
  intros Ht. unfold handle_scheduled_block. wp_steps. simpl.
  destruct (is_current_epoch_over _); wp_steps; [by apply tight_bounded|].
  destruct (does_follow_chain _ b) as [[]|e|] eqn:Hf; [| |by apply tight_bounded..].
  - apply bounded_chain; [done|]. by apply follows_height in Hf.
  - wp_steps. by apply tight_bounded, tight_retain.
Qed.

Lemma bounded_full fb s : tight s → wp (handle_full_block fb) bounded s.
Proof.
  intros Ht. unfold handle_full_block. wp_steps. case_match; [by apply tight_bounded|].
  apply bounded_then; [apply bounded_store; [apply persist_bucket|done]|]. intros _ s1 Ht1.
  wp_steps. simpl.
  destruct (does_follow_chain s1 _) as [[]|e|] eqn:Hf; [| |by apply tight_bounded..];
    apply wp_then, wp_modify.
  - apply bounded_chain; [done|]. by apply follows_height in Hf.
  - apply bounded_then; [apply bounded_store; [apply cache_bucket|done]|].
    intros _ s2. apply bounded_state, tight_sync.
Qed.

Lemma bounded_incoming fb s : tight s → wp (handle_incoming_block fb) bounded s.
Proof.
  intros Ht. unfold handle_incoming_block. wp_steps.
  destruct (observe_block_same (base fb) s) as [o ->]. set (s1 := set_observed o s).
  assert (tight s1) as Ht1 by done. simpl.
  destruct (should_be_skipped _ _); wp_steps; [by apply tight_bounded|].
  destruct (verify _ _); wp_steps;
    [by apply bounded_full|by apply tight_bounded| |by apply tight_bounded].
  by apply bounded_state; [apply tight_sync|].
Qed.

Lemma bounded_epoch n s : tight s → wp (handle_epoch_manager_notification n) bounded s.
Proof.
  intros Ht. destruct n as [n acked]. unfold handle_epoch_manager_notification. wp_steps.
  case_match; wp_steps; [by apply tight_bounded|]. destruct n as [|e].
  { destruct acked; by apply tight_bounded. }
  case_match; wp_steps; [by apply tight_bounded|]. set (s1 := set_verifier _ _).
  assert (tight s1) as Ht1 by (by apply (tight_retain (start_height e) s)).
  pose proof (tight_sync s1 Ht1) as Hs. unfold wp.
  destruct (try_to_sync_skipped_blocks s1) as [s2 o].
  destruct acked, o; by apply tight_bounded.
Qed.

Lemma bounded_step t s : tight s → wp (do_step t) bounded s.
Proof.
  intros Ht. assert (∀ (c : MA ()) s0, wp c bounded s0 →
    wp (rthen c (λ _, rret true)) bounded s0) as Hret.
  { intros c s0 Hc. apply bounded_then; [done|]. intros _ s1 Ht1. by apply tight_bounded. }
  destruct t as [[n|]| |[fb|]| |]; unfold do_step; try by apply tight_bounded.
  - by apply Hret, bounded_epoch.
  - by apply Hret, bounded_incoming.
  - wp_steps. destruct (ready_to_execute s) as [|b l]; [by apply tight_bounded|].
    wp_step. wp_step. by apply Hret, bounded_scheduled.
  - apply Hret, bounded_state; [apply tight_synchronizer|done].
Qed.

Lemma run_loose ts s : tight s → loose (run ts s).1.
Proof.
  revert s. induction ts as [|t ts IH]; intros s Ht; [by apply tight_loose|]. rewrite run_cons.
  destruct (bounded_step t s Ht) as [Hl Hg].
  destruct (do_step t s) as [s1 [[]|[]|]]; simpl in *; auto.
Qed.

(** ** The lives of a node *)
Context `{!ChainStoreLaws} `{!EpochLaws} `{!TBlockVerifierSpec Verifier} `{!TBlockExecutorSpec Executor}.
Context (ensure : M Assembler StateConsistencyWarranterError ()) (ensure_restores : restores ensure).

Lemma initial_tight s : initial s → tight s.
Proof.
  intros ([Hc Hp] & _). split; [|done]. intros h b Hb. specialize (Hp h). rewrite Hb in Hp.
  simpl in Hp. rewrite lookup_empty in Hp. inversion Hp.
Qed.

Lemma lives_loose s s' : lives ensure s s' → initial s → loose s'.
Proof.
  induction 1 as [s ts|s ts s1 o db bucket genesis v x api s2 s3 Hr Ho Hdb Hv Hx Hs _ IH];
    intros Hi; [by apply run_loose, initial_tight|].
  apply IH. eapply start_resumes; [done|by eapply run_at_rest|done..].
Qed.

(** C30 From the first start on an empty database on, whatever the node receives while it
    runs, stops, regularly or with a failed execution, and is started again, the
    cache of the block store holds at most as many full blocks as the size of its
    bucket. *)
Theorem full_blocks_bounded genesis db bucket v x sync_api s s' :
  last_state_read db Key_CommittedBlock = Ok None →
  last_state_read db Key_ExecutedBlock = Ok None →
  verifier_ok v → executed x = [] → start ensure db bucket genesis v x sync_api = Ok s →
  lives ensure s s' →
  0 ≤ certified_block_cache_bucket_size (store s') →
  Z.of_nat (size (full_blocks (store s'))) ≤ certified_block_cache_bucket_size (store s').
Proof.
  intros Hc He Hv Hx Hs Hl Hb.
  destruct (start_empty _ ensure_restores _ _ _ _ _ _ _ Hc He Hv Hx Hs) as (Hi & _ & _).
  destruct (lives_loose s s' Hl Hi) as [lo Hw]. by eapply full_blocks_window.
Qed.
End bound.

(** ** A node that caches blocks in advance *)
Module CacheBoundExamples.
Import Mem MemNode RestartExamples.

(** Blocks 3 and 2 arrive before block 1; the bucket has room for one. *)
Definition cached : rs_node :=
  (run [T_block (Some (full 3 103 102)); T_block (Some (full 2 102 101))] started).1.

Lemma cached_bucket : certified_block_cache_bucket_size (store cached) = 1.
Proof. vm_compute. reflexivity. Qed.

Lemma full_blocks_bounded_witness : Z.of_nat (size (full_blocks (store cached))) ≤ 1.
Proof.
  rewrite <-cached_bucket.
  refine (full_blocks_bounded rs_restore restore_restores root_block empty_db 1 fresh_verifier
            faulty [] started cached eq_refl eq_refl _ eq_refl first_life_started _ _).
  - done.
  - apply lives_run.
  - rewrite cached_bucket. discriminate.
Defined.
End CacheBoundExamples.
