(* ===== verification/Gas.v ===== *)
(** * Gas price statistics ([src/rpc_node/src/gas/])

    [MaxCircularBuffer] keeps the last [capacity] values with their running
    sum, the index of their maximum and their median; [OnlineMean] and the
    aggregated writer and reader publish them per kind of transaction.

    The reference definition is the sliding window of the last [capacity]
    values.  The buffer is shown to represent it after any sequence of pushes:
    the incremental maximum is the maximum of the window, the median the middle
    of its sorted values, and the running sum its sum as long as the saturating
    addition does not saturate.  No operation panics.  Indices and lengths are
    natural numbers: they are bounded by the length of a vector in memory. *)

From S2P Require Import Prelude.
From stdpp Require Import base tactics option list gmap sorting.
From Stdlib Require Import ZArith Lia.
Local Open Scope Z_scope.

(** ** The circular buffer ([circular_buf.rs]) *)
Record MaxCircularBuffer := {
  inner : list Z;
  index : nat;
  max_index : nat;
  curr_sum : Z;
  capacity : nat;
  median_ : Z;
}.

Module Buf.
Section buffer.
Context {E : Type}.
Local Open Scope rust_scope.

(** Indexing a vector panics out of bounds. *)
Definition vec_get (l : list Z) (i : nat) : outcome E Z := expect (l !! i).
Definition vec_set (l : list Z) (i : nat) (v : Z) : outcome E (list Z) :=
  if (i <? length l)%nat then Ok (<[i := v]> l) else Panic.

Definition new (c : nat) : MaxCircularBuffer :=
  {| inner := replicate c 0; index := 0; max_index := 0; curr_sum := 0;
     capacity := c; median_ := 0 |}.

Definition len (b : MaxCircularBuffer) : nat := length (inner b).

Definition set_sum (s : Z) (b : MaxCircularBuffer) : MaxCircularBuffer :=
  {| inner := inner b; index := index b; max_index := max_index b; curr_sum := s;
     capacity := capacity b; median_ := median_ b |}.
Definition set_max_index (i : nat) (b : MaxCircularBuffer) : MaxCircularBuffer :=
  {| inner := inner b; index := index b; max_index := i; curr_sum := curr_sum b;
     capacity := capacity b; median_ := median_ b |}.
Definition set_inner (l : list Z) (i : nat) (b : MaxCircularBuffer) : MaxCircularBuffer :=
  {| inner := l; index := i; max_index := max_index b; curr_sum := curr_sum b;
     capacity := capacity b; median_ := median_ b |}.
Definition set_median (m : Z) (b : MaxCircularBuffer) : MaxCircularBuffer :=
  {| inner := inner b; index := index b; max_index := max_index b; curr_sum := curr_sum b;
     capacity := capacity b; median_ := m |}.

Definition update_current_sum (b : MaxCircularBuffer) : MaxCircularBuffer :=
  set_sum (foldl saturating_add 0 (inner b)) b.

Definition update_median (b : MaxCircularBuffer) : outcome E MaxCircularBuffer :=
  match inner b with
  | [] => Ok (set_median 0 b)
  | _ =>
      let sorted := merge_sort Z.le (inner b) in
      let? m := vec_get sorted (length sorted / 2) in
      Ok (set_median m b)
  end.

(** [iter().enumerate().max_by_key(|(_, v)| *v)]: the last of the largest. *)
Fixpoint max_by_key (i : nat) (best : nat * Z) (l : list Z) : nat :=
  match l with
  | [] => best.1
  | v :: l' => max_by_key (S i) (if best.2 <=? v then (i, v) else best) l'
  end.

Definition update_max_index (b : MaxCircularBuffer) : MaxCircularBuffer :=
  set_max_index (match inner b with [] => O | v :: l => max_by_key 1 (O, v) l end) b.

Definition max (b : MaxCircularBuffer) : outcome E Z := vec_get (inner b) (max_index b).
Definition sum (b : MaxCircularBuffer) : Z := curr_sum b.
Definition median (b : MaxCircularBuffer) : Z := median_ b.

Definition insert (val : Z) (b : MaxCircularBuffer) : outcome E MaxCircularBuffer :=
  let? old_val := vec_get (inner b) (index b) in
  let b1 := set_sum (saturating_sub (saturating_add (curr_sum b) val) old_val) b in
  let? m := max b1 in
  let b2 := if m <=? val then set_max_index (index b1) b1 else b1 in
  let? l := vec_set (inner b2) (index b2) val in
  Ok (set_inner l ((index b2 + 1) mod capacity b2) b2).

Fixpoint insert_all (values : list Z) (b : MaxCircularBuffer) : outcome E MaxCircularBuffer :=
  match values with
  | [] => Ok b
  | v :: vs => let? b' := insert v b in insert_all vs b'
  end.

(** [max_index] lies in the range of indices that [n] insertions overwrite. *)
Definition updating_max (n : nat) (b : MaxCircularBuffer) : bool :=
  ((index b <=? max_index b)%nat && (max_index b <? index b + n)%nat)
  || ((max_index b <? index b)%nat && (max_index b <? (index b + n) mod capacity b)%nat).

(** [clone_from_slice] panics when the lengths differ. *)
Definition clone_from_slice (src dst : list Z) : outcome E (list Z) :=
  if (length src =? length dst)%nat then Ok src else Panic.

Definition push (values : list Z) (b : MaxCircularBuffer) : outcome E MaxCircularBuffer :=
  match values with
  | [] => Ok b
  | _ =>
      let? b' :=
        (if (length values <? capacity b)%nat
         then
           let? b1 := insert_all values b in
           Ok (if updating_max (length values) b then update_max_index b1 else b1)
         else
           let start := (length values - capacity b)%nat in
           let? l := clone_from_slice (drop start values) (inner b) in
           Ok (update_max_index (update_current_sum (set_inner l 0 b)))) in
      update_median b'
  end.
End buffer.
End Buf.

(** ** The mean ([online_mean.rs]) *)
Definition MAX_GAS_HISTORY : nat := 1000.

Record OnlineMean := { cur_mean : Z; history : MaxCircularBuffer }.

Module Mean.
Section mean.
Context {E : Type}.
Local Open Scope rust_scope.

Definition push (values : list Z) (m : OnlineMean) : outcome E OnlineMean :=
  let? h := Buf.push values (history m) in
  let len := Z.of_nat (Buf.len h) in
  if len =? 0 then Panic
  else Ok {| cur_mean := saturating_add (Buf.sum h) (len / 2) / len; history := h |}.

Definition new (start_value : Z) : outcome E OnlineMean :=
  push (replicate MAX_GAS_HISTORY start_value)
       {| cur_mean := 0; history := Buf.new MAX_GAS_HISTORY |}.

Definition max (m : OnlineMean) : outcome E Z := Buf.max (history m).
Definition mean (m : OnlineMean) : Z := cur_mean m.
Definition median (m : OnlineMean) : Z := Buf.median (history m).
End mean.
End Mean.

(** ** The aggregated writer and reader ([mod.rs]) *)
Record GasPriceStatistics := { gs_mean : Z; gs_max : Z; gs_median : Z }.

Definition MVM_MIN_GAS_UNIT_PRICE : Z := 100.
Definition MVM_MIN_AMOUNT_GAS_UNIT : Z := 2.

Definition mvm_new : GasPriceStatistics :=
  {| gs_mean := MVM_MIN_GAS_UNIT_PRICE; gs_max := MVM_MIN_GAS_UNIT_PRICE;
     gs_median := MVM_MIN_GAS_UNIT_PRICE |}.

(** The responses [api::v1::GasPriceRes] and [api::v2::GasPriceResV2]. *)
Record GasPriceRes := { mean_gas_price : Z; max_gas_price : Z }.
Record GasPriceResV2 := { mean_gas_price2 : Z; max_gas_price2 : Z; median_gas_price2 : Z }.

Definition gas_price_res (v : GasPriceStatistics) : GasPriceRes :=
  {| mean_gas_price := gs_mean v; max_gas_price := gs_max v |}.
Definition gas_price_res_v2 (v : GasPriceStatistics) : GasPriceResV2 :=
  {| mean_gas_price2 := gs_mean v; max_gas_price2 := gs_max v; median_gas_price2 := gs_median v |}.

(** The writer owns a mean per kind; the two ends of each [watch] channel see
    the same cell, so the cells are one map shared by writer and reader. *)
Record GasMonitor (Kind : Type) `{Countable Kind} := {
  gas_writers : gmap Kind OnlineMean;
  gas_cells : gmap Kind GasPriceStatistics;
}.
Arguments gas_writers {Kind _ _}.
Arguments gas_cells {Kind _ _}.

Module Monitor.
Section monitor.
(** [transactions::TransactionKind]. *)
Context {E Kind : Type} `{Countable Kind} (MoveVm : Kind).
Local Open Scope rust_scope.

Definition push_gas_price (tx_kind : Kind) (gas_prices : list Z) (g : GasMonitor Kind)
    : outcome E (GasMonitor Kind) :=
  match gas_writers g !! tx_kind with
  | None => Ok g
  | Some w =>
      let? w' := Mean.push gas_prices w in
      let mean := Mean.mean w' in
      let? max := Mean.max w' in
      let median := Mean.median w' in
      Ok {| gas_writers := <[tx_kind := w']> (gas_writers g);
            gas_cells := <[tx_kind := {| gs_mean := mean; gs_max := max; gs_median := median |}]>
                           (gas_cells g) |}
  end.

Definition mean (tx_kind : Kind) (g : GasMonitor Kind) : option Z :=
  gs_mean <$> gas_cells g !! tx_kind.
Definition max (tx_kind : Kind) (g : GasMonitor Kind) : option Z :=
  gs_max <$> gas_cells g !! tx_kind.
Definition median (tx_kind : Kind) (g : GasMonitor Kind) : option Z :=
  gs_median <$> gas_cells g !! tx_kind.
Definition statistics (tx_kind : Kind) (g : GasMonitor Kind) : option GasPriceStatistics :=
  match gas_cells g !! tx_kind with
  | None => None
  | Some reader => Some {| gs_mean := gs_mean reader; gs_max := gs_max reader;
                           gs_median := gs_median reader |}
  end.

Definition gas_monitor : outcome E (GasMonitor Kind) :=
  let? m := Mean.new MVM_MIN_GAS_UNIT_PRICE in
  Ok {| gas_writers := {[MoveVm := m]}; gas_cells := {[MoveVm := mvm_new]} |}.
End monitor.
End Monitor.

(** ** The reference: a sliding window *)

(** The window after [values] went through a window [w]. *)
Definition slide (w values : list Z) : list Z := drop (length values) (w ++ values).

(** The buffer read from its oldest element on. *)
Definition rot (i : nat) (l : list Z) : list Z := drop i l ++ take i l.

(** [l] is largest at index [i]. *)
Definition is_max (l : list Z) (i : nat) : Prop :=
  ∃ v, l !! i = Some v ∧ ∀ u, u ∈ l → u ≤ v.

Definition middle (l : list Z) : Z := default 0 (merge_sort Z.le l !! (length l / 2)%nat).

Lemma rot_perm i l : rot i l ≡ₚ l.
Proof. unfold rot. rewrite (Permutation_app_comm _ _). by rewrite take_drop. Qed.

Lemma slide_length w vs : length (slide w vs) = length w.
Proof. unfold slide. rewrite length_drop, length_app. lia. Qed.

Lemma slide_cons x w v vs : slide (x :: w) (v :: vs) = slide (w ++ [v]) vs.
Proof. unfold slide. simpl. by rewrite <- app_assoc. Qed.

Lemma slide_slide w vs vs' : slide (slide w vs) vs' = slide w (vs ++ vs').
Proof.
  unfold slide. rewrite length_app, <- drop_drop, app_assoc, (drop_app_le (w ++ vs)).
  - done.
  - rewrite length_app. lia.
Qed.

Lemma slide_all w vs : (length w ≤ length vs)%nat → slide w vs = drop (length vs - length w) vs.
Proof. intros Hl. unfold slide. rewrite drop_app, drop_ge by done. done. Qed.

(** Overwriting the oldest element slides the window by one. *)
Lemma rot_insert i l v :
  (i < length l)%nat →
  rot ((i + 1) mod length l) (<[i := v]> l) = slide (rot i l) [v].
Proof.
  intros Hi. destruct (lookup_lt_is_Some_2 l i Hi) as [x Hx].
  assert (take (S i) (<[i := v]> l) = take i l ++ [v]) as Htake.
  { rewrite (take_S_r _ i v) by by apply list_lookup_insert_eq. by rewrite take_insert_ge. }
  unfold rot, slide. rewrite (drop_S l x i Hx). simpl.
  destruct (decide (i + 1 = length l)%nat) as [Heq|Hne].
  - rewrite Heq, Nat.Div0.mod_same. simpl. rewrite app_nil_r.
    rewrite (drop_ge l (S i)) by lia. simpl.
    rewrite <- (take_ge (<[i := v]> l) (S i)) by (rewrite length_insert; lia). done.
  - rewrite Nat.mod_small by lia. rewrite Nat.add_1_r, Htake, drop_insert_lt by lia.
    by rewrite app_assoc.
Qed.

Lemma elem_of_insert_inv (l : list Z) i v u : u ∈ <[i := v]> l → u = v ∨ u ∈ l.
Proof.
  rewrite !list_elem_of_lookup. intros [j Hj]. destruct (decide (i = j)) as [->|Hne].
  - apply list_lookup_insert_Some in Hj as [(_ & <- & _)|[? _]]; [by left|done].
  - rewrite list_lookup_insert_ne in Hj by done. right. by exists j.
Qed.

Lemma is_max_lt l i : is_max l i → (i < length l)%nat.
Proof. intros (v & Hv & _). by apply lookup_lt_Some in Hv. Qed.

(** [max_by_key] finds an index of the maximum. *)
Lemma max_by_key_spec pre l best :
  pre !! best.1 = Some best.2 → (∀ u, u ∈ pre → u ≤ best.2) →
  is_max (pre ++ l) (Buf.max_by_key (length pre) best l).
Proof.
  revert pre best. induction l as [|v l IH]; intros pre best Hb Hmax; simpl.
  - exists best.2. rewrite app_nil_r. done.
  - rewrite (cons_middle v pre l), app_assoc.
    replace (S (length pre)) with (length (pre ++ [v])) by (rewrite length_app; simpl; lia).
    apply IH.
    + destruct (_ <=? _); simpl; [by apply list_lookup_middle|by apply lookup_app_l_Some].
    + intros u [Hu| ->%list_elem_of_singleton]%elem_of_app.
      * specialize (Hmax _ Hu). destruct (Z.leb_spec best.2 v); simpl; lia.
      * destruct (Z.leb_spec best.2 v); simpl; lia.
Qed.

Lemma update_max_index_spec b :
  inner b ≠ [] → is_max (inner b) (max_index (Buf.update_max_index b)).
Proof.
  unfold Buf.update_max_index. destruct (inner b) as [|v l]; [done|]. intros _. simpl.
  apply (max_by_key_spec [v] l); [done|]. by intros u ->%list_elem_of_singleton.
Qed.

Lemma foldl_saturating l acc :
  0 ≤ acc → Forall (λ v, 0 ≤ v) l → acc + sumZ l ≤ U64_MAX →
  foldl saturating_add acc l = acc + sumZ l.
Proof.
  revert acc. induction l as [|v l IH]; intros acc Ha Hl Hs; simpl in *; [lia|].
  inversion Hl as [|? ? Hv Hl']; subst.
  assert (0 ≤ sumZ l) by (clear -Hl'; induction Hl'; simpl; lia).
  unfold saturating_add at 2. rewrite Z.min_l by lia. rewrite IH; [lia|lia|done|lia].
Qed.

(** ** The buffer represents the window *)
Section buffer_correct.
Context {E : Type}.
Implicit Types (b : MaxCircularBuffer) (w l : list Z) (c r : nat).

(** Shape of a buffer of capacity [c] whose window is [w]. *)
Definition shape c w b : Prop :=
  capacity b = c ∧ length (inner b) = c ∧ (index b < c)%nat ∧ (max_index b < c)%nat ∧
  rot (index b) (inner b) = w.

Definition buf_inv c w b : Prop :=
  shape c w b ∧ is_max (inner b) (max_index b) ∧ median_ b = middle (inner b).

(** The running sum is exact for values up to [B]. *)
Definition sum_inv (B : Z) b : Prop :=
  Forall (λ v, 0 ≤ v ≤ B) (inner b) ∧ curr_sum b = sumZ (inner b).

(** The next [r] insertions leave [max_index] alone. *)
Definition max_safe r b : Prop :=
  is_max (inner b) (max_index b) ∧
  ∀ k, (k < r)%nat → ((index b + k) mod capacity b)%nat ≠ max_index b.

Lemma insert_eq c w b v :
  shape c w b →
  ∃ m x, inner b !! max_index b = Some m ∧ inner b !! index b = Some x ∧
    Buf.insert (E:=E) v b
    = Ok {| inner := <[index b := v]> (inner b);
            index := ((index b + 1) mod c)%nat;
            max_index := if m <=? v then index b else max_index b;
            curr_sum := saturating_sub (saturating_add (curr_sum b) v) x;
            capacity := c; median_ := median_ b |}.
Proof.
  intros (Hc & Hl & Hi & Hm & _).
  destruct (lookup_lt_is_Some_2 (inner b) (max_index b)) as [m Hmv]; [lia|].
  destruct (lookup_lt_is_Some_2 (inner b) (index b)) as [x Hx]; [lia|].
  exists m, x. split_and!; [done..|].
  unfold Buf.insert, Buf.vec_get, Buf.max, Buf.vec_get, Buf.vec_set. simpl.
  rewrite Hx. simpl. rewrite Hmv. simpl.
  destruct (m <=? v); simpl; rewrite (proj2 (Nat.ltb_lt _ _)) by lia; simpl;
    unfold Buf.set_inner; simpl; by rewrite Hc.
Qed.

Lemma insert_shape c w b v :
  shape c w b →
  ∃ b', Buf.insert (E:=E) v b = Ok b' ∧ shape c (slide w [v]) b' ∧
        median_ b' = median_ b ∧
        index b' = ((index b + 1) mod c)%nat ∧
        (∀ r, (S r < c)%nat → max_safe (S r) b → max_safe r b').
Proof.
  intros Hs. destruct (insert_eq c w b v Hs) as (m & x & Hmv & Hx & ->).
  destruct Hs as (Hc & Hl & Hi & Hm & Hr).
  eexists; split; [reflexivity|]. split_and!; try done.
  - split_and!; simpl; try done.
    + by rewrite length_insert.
    + apply Nat.mod_upper_bound. lia.
    + destruct (m <=? v); lia.
    + rewrite <- Hl, rot_insert by lia. by rewrite Hr.
  - intros r Hlt [(m' & Hm' & Hmax) Hk]. assert (m' = m) as -> by congruence.
    split; simpl.
    + destruct (Z.leb_spec m v).
      * exists v. rewrite list_lookup_insert_eq by lia. split; [done|].
        intros u [->|Hu]%elem_of_insert_inv; [done|]. specialize (Hmax _ Hu). lia.
      * exists m. rewrite list_lookup_insert_ne.
        -- split; [done|]. intros u [->|Hu]%elem_of_insert_inv; [lia|by apply Hmax].
        -- specialize (Hk O ltac:(lia)). rewrite Nat.add_0_r, Nat.mod_small in Hk by lia. done.
    + intros k Hkr. rewrite Hc in Hk. rewrite Nat.Div0.add_mod_idemp_l.
      destruct (m <=? v).
      * intros Heq. rewrite <- Nat.add_assoc in Heq.
        destruct (decide (index b + (1 + k) < c)%nat).
        -- rewrite Nat.mod_small in Heq by lia. lia.
        -- replace (index b + (1 + k))%nat
             with (index b + (1 + k) - c + 1 * c)%nat in Heq by lia.
           rewrite Nat.Div0.mod_add, Nat.mod_small in Heq by lia. lia.
      * rewrite <- Nat.add_assoc. apply Hk. lia.
Qed.

Lemma insert_sum c w b v b' B :
  shape c w b → Buf.insert (E:=E) v b = Ok b' →
  0 ≤ v ≤ B → B * (Z.of_nat c + 1) ≤ U64_MAX → sum_inv B b → sum_inv B b'.
Proof.
  intros Hs Hins Hv HB [Hall Hsum]. destruct (insert_eq c w b v Hs) as (m & x & _ & Hx & Heq).
  rewrite Heq in Hins. injection Hins as <-. destruct Hs as (_ & Hl & _).
  pose proof (sumZ_bound _ _ Hall) as Hb. rewrite Hl in Hb.
  split; simpl.
  - by apply Forall_insert.
  - rewrite (sumZ_insert _ _ _ _ Hx), Hsum.
    assert (0 ≤ sumZ (inner b) + v - x).
    { rewrite <- (sumZ_insert _ _ v _ Hx).
      apply (sumZ_bound B). by apply Forall_insert. }
    unfold saturating_add, saturating_sub. rewrite Z.min_l, Z.max_l by lia. done.
Qed.

Lemma insert_all_shape c w b vs :
  shape c w b → (length vs < c)%nat →
  ∃ b', Buf.insert_all (E:=E) vs b = Ok b' ∧ shape c (slide w vs) b' ∧
        median_ b' = median_ b ∧
        (max_safe (length vs) b → is_max (inner b') (max_index b')) ∧
        (∀ B, Forall (λ v, 0 ≤ v ≤ B) vs → B * (Z.of_nat c + 1) ≤ U64_MAX →
              sum_inv B b → sum_inv B b').
Proof.
  revert w b. induction vs as [|v vs IH]; intros w b Hs Hlen; simpl.
  - exists b. split_and!; try done.
    + unfold slide. simpl. by rewrite app_nil_r.
    + by intros [? _].
  - destruct (insert_shape c w b v Hs) as (b1 & Hins & Hs1 & Hmed & Hix & Hsafe).
    simpl in Hlen. destruct (IH _ b1 Hs1) as (b' & Hall & Hs' & Hmed' & Hmax' & Hsum'); [lia|].
    exists b'. rewrite Hins. simpl. split_and!; try done.
    + by rewrite slide_slide in Hs'.
    + congruence.
    + intros Hm. apply Hmax', Hsafe; [lia|done].
    + intros B Hvs HB Hb. inversion Hvs as [|? ? Hv Hvs']; subst.
      apply Hsum'; [done..|]. by apply (insert_sum c w b v b1 B).
Qed.

(** If the maximum is not overwritten, [updating_max] may say so. *)
Lemma not_updating_max_safe c w b r :
  shape c w b → (r < c)%nat → is_max (inner b) (max_index b) →
  Buf.updating_max r b = false → max_safe r b.
Proof.
  intros (Hc & Hl & Hi & Hm & _) Hr Hmax Hu. split; [done|]. rewrite Hc. intros k Hk Heq.
  unfold Buf.updating_max in Hu. rewrite Hc in Hu.
  apply orb_false_iff in Hu as [H1 H2].
  destruct (decide (index b + k < c)%nat) as [Hlt|Hge].
  - rewrite Nat.mod_small in Heq by done.
    rewrite (proj2 (Nat.leb_le _ _)), (proj2 (Nat.ltb_lt _ _)) in H1 by lia. done.
  - replace (index b + k)%nat with (index b + k - c + 1 * c)%nat in Heq by lia.
    rewrite Nat.Div0.mod_add, Nat.mod_small in Heq by lia.
    replace (index b + r)%nat with (index b + r - c + 1 * c)%nat in H2 by lia.
    rewrite Nat.Div0.mod_add, (Nat.mod_small (index b + r - c)) in H2 by lia.
    rewrite !(proj2 (Nat.ltb_lt _ _)) in H2 by lia. done.
Qed.

Lemma update_median_eq b :
  Buf.update_median (E:=E) b = Ok (Buf.set_median (middle (inner b)) b).
Proof.
  unfold Buf.update_median, middle, Buf.vec_get.
  destruct (inner b) as [|v l] eqn:Hl; [done|].
  pose proof (merge_sort_Permutation Z.le (v :: l)) as Hp.
  apply Permutation_length in Hp. rewrite Hp.
  destruct (lookup_lt_is_Some_2 (merge_sort Z.le (v :: l)) (length (v :: l) / 2)) as [m Hm].
  { rewrite Hp. apply Nat.div_lt; simpl; lia. }
  by rewrite Hm.
Qed.

Lemma shape_nonempty c w b : (0 < c)%nat → shape c w b → inner b ≠ [].
Proof. intros Hc (_ & Hl & _) Hn. rewrite Hn in Hl. simpl in Hl. lia. Qed.

Lemma push_correct c w b vs :
  (0 < c)%nat → buf_inv c w b →
  ∃ b', Buf.push (E:=E) vs b = Ok b' ∧ buf_inv c (slide w vs) b' ∧
    (∀ B, Forall (λ v, 0 ≤ v ≤ B) vs → B * (Z.of_nat c + 1) ≤ U64_MAX →
          sum_inv B b → sum_inv B b').
Proof.
  intros Hc (Hs & Hmax & Hmed). unfold Buf.push.
  destruct vs as [|v vs].
  { exists b. split_and!; try done. unfold slide. simpl. by rewrite app_nil_r. }
  set (values := v :: vs) in *. assert (length values ≠ O) as Hne by done.
  pose proof Hs as (Hcap & Hl & Hi & Hm & Hrot). rewrite Hcap.
  destruct (Nat.ltb_spec (length values) c) as [Hlt|Hge].
  - destruct (insert_all_shape c w b values Hs Hlt) as (b1 & -> & Hs1 & Hmed1 & Hmax1 & Hsum1).
    cbn [obind]. destruct (Buf.updating_max (length values) b) eqn:Hu; rewrite update_median_eq;
      (eexists; split; [reflexivity|split; [split_and!|]]); try done.
    + pose proof (shape_nonempty _ _ _ Hc Hs1) as Hne1.
      destruct Hs1 as (? & Hl1 & ? & ? & ?). split_and!; try done. simpl.
      rewrite <- Hl1. by apply is_max_lt, update_max_index_spec.
    + apply (update_max_index_spec b1). by eapply shape_nonempty.
    + apply Hmax1. by eapply not_updating_max_safe.
  - unfold Buf.clone_from_slice. rewrite length_drop, Hl.
    replace (length values - (length values - c))%nat with c by lia. rewrite Nat.eqb_refl. simpl.
    rewrite update_median_eq. eexists; split; [reflexivity|].
    set (l := drop (length values - c) values).
    assert (length l = c) as Hll by (unfold l; rewrite length_drop; lia).
    assert (l ≠ []) as Hlne by (destruct l; [simpl in Hll; lia|done]).
    pose proof (update_max_index_spec (Buf.update_current_sum (Buf.set_inner l 0 b)) Hlne) as Hm2.
    pose proof (is_max_lt _ _ Hm2) as Hlt2.
    split; [split_and!|].
    + split_and!; try done.
      * change (inner (Buf.update_current_sum (Buf.set_inner l 0 b))) with l in Hlt2.
        eapply Nat.lt_le_trans; [exact Hlt2|by rewrite Hll].
      * simpl. unfold rot. simpl. rewrite app_nil_r. subst w.
        rewrite slide_all; [|rewrite (Permutation_length (rot_perm _ _)); lia].
        by rewrite (Permutation_length (rot_perm _ _)), Hl.
    + exact Hm2.
    + done.
    + simpl. intros B HB Hbound _. assert (Forall (λ v, 0 ≤ v ≤ B) l) as Hall by by apply Forall_drop.
      split; [done|]. simpl. rewrite foldl_saturating; [done|done| |].
      * eapply Forall_impl; [exact Hall|]. simpl. lia.
      * pose proof (sumZ_bound _ _ Hall) as Hb. rewrite Hll in Hb.
        assert (0 ≤ B) by (destruct Hall; [done|lia]).
        change (drop _ values) with l. lia.
Qed.

(** A sequence of pushes. *)
Definition pushes c (vss : list (list Z)) : outcome E MaxCircularBuffer :=
  foldl (λ o vs, obind o (Buf.push vs)) (Ok (Buf.new c)) vss.

Lemma middle_replicate c : middle (replicate c 0) = 0.
Proof.
  unfold middle. destruct (_ !! _) as [x|] eqn:Hx; [|done]. simpl.
  apply list_elem_of_lookup_2 in Hx. rewrite merge_sort_Permutation in Hx.
  by apply elem_of_replicate in Hx as [-> _].
Qed.

Lemma new_correct c :
  (0 < c)%nat → buf_inv c (replicate c 0) (Buf.new c) ∧ ∀ B, 0 ≤ B → sum_inv B (Buf.new c).
Proof.
  intros Hc. split; [split_and!|].
  - split_and!; simpl; try done; [by rewrite length_replicate|].
    unfold rot. simpl. by rewrite app_nil_r.
  - exists 0. simpl. rewrite lookup_replicate_2 by done. split; [done|].
    by intros u [-> _]%elem_of_replicate.
  - simpl. by rewrite middle_replicate.
  - intros B HB. split; simpl; [by apply Forall_replicate|].
    clear. induction c; simpl; [done|]. rewrite <- IHc. done.
Qed.

Lemma pushes_correct c vss :
  (0 < c)%nat →
  ∃ b, pushes c vss = Ok b ∧ buf_inv c (slide (replicate c 0) (concat vss)) b ∧
    (∀ B, 0 ≤ B → Forall (λ v, 0 ≤ v ≤ B) (concat vss) → B * (Z.of_nat c + 1) ≤ U64_MAX →
          sum_inv B b).
Proof.
  intros Hc. induction vss as [|vs vss IH] using rev_ind.
  - destruct (new_correct c Hc) as [Hn Hs]. exists (Buf.new c). split_and!; [done| |auto].
    unfold slide. simpl. by rewrite app_nil_r.
  - destruct IH as (b & Hb & Hinv & Hsum). unfold pushes in *. rewrite foldl_app, Hb. simpl.
    destruct (push_correct c _ b vs Hc Hinv) as (b' & -> & Hinv' & Hsum').
    exists b'. rewrite concat_app. simpl. rewrite app_nil_r. split_and!; [done| |].
    + by rewrite slide_slide in Hinv'.
    + intros B HB [Hall1 Hall2]%Forall_app Hbound. eauto.
Qed.
End buffer_correct.

Lemma middle_perm l l' : l ≡ₚ l' → middle l = middle l'.
Proof.
  intros Hp. unfold middle. rewrite (Permutation_length Hp).
  replace (merge_sort Z.le l') with (merge_sort Z.le l); [done|].
  apply (StronglySorted_unique Z.le).
  - apply (StronglySorted_merge_sort Z.le).
  - apply (StronglySorted_merge_sort Z.le).
  - by rewrite !merge_sort_Permutation.
Qed.

(** C8 After any sequence of pushes the circular buffer represents the sliding
    window of the last [capacity] values: it never panics, its maximum is the
    maximum of the window although it is only recomputed when overwritten, its
    median is the middle of the sorted window, and its running sum is the sum
    of the window for values small enough not to saturate. *)
Theorem circular_buffer_refines_window {E} c vss :
  (0 < c)%nat →
  let w := slide (replicate c 0) (concat vss) in
  ∃ b m, pushes (E:=E) c vss = Ok b ∧
    rot (index b) (inner b) = w ∧
    Buf.max (E:=E) b = Ok m ∧ m ∈ w ∧ (∀ u, u ∈ w → u ≤ m) ∧
    Buf.median b = middle w ∧
    (∀ B, 0 ≤ B → Forall (λ v, 0 ≤ v ≤ B) (concat vss) → B * (Z.of_nat c + 1) ≤ U64_MAX →
          Buf.sum b = sumZ w).
Proof.
  intros Hc w. destruct (pushes_correct (E:=E) c vss Hc) as (b & Hb & (Hs & Hmax & Hmed) & Hsum).
  destruct Hs as (_ & _ & _ & _ & Hrot). destruct Hmax as (m & Hm & Hge).
  pose proof (rot_perm (index b) (inner b)) as Hp. fold w in Hrot. rewrite Hrot in Hp.
  exists b, m. split_and!; try done.
  - unfold Buf.max, Buf.vec_get. by rewrite Hm.
  - rewrite Hp. by eapply list_elem_of_lookup_2.
  - intros u. rewrite Hp. apply Hge.
  - unfold Buf.median. rewrite Hmed. symmetry. by apply middle_perm.
  - intros B HB Hall Hbound. destruct (Hsum B HB Hall Hbound) as [_ Hsb].
    unfold Buf.sum. rewrite Hsb. symmetry. by apply sumZ_perm.
Qed.

(** ** The published statistics *)
Section monitor_correct.
Context {E Kind : Type} `{Countable Kind} (MoveVm : Kind).

(** The statistics of a window; the mean is rounded to the nearest integer. *)
Definition stats_of (w : list Z) (s : GasPriceStatistics) : Prop :=
  let n := Z.of_nat (length w) in
  gs_mean s = (sumZ w + n / 2) / n ∧
  (gs_max s ∈ w ∧ ∀ u, u ∈ w → u ≤ gs_max s) ∧
  gs_median s = middle w.

(** Large enough for every price, small enough for the sum of a window. *)
Definition price_bound (c : nat) (B : Z) : Prop :=
  0 ≤ B ∧ B * (Z.of_nat c + 1) + Z.of_nat c ≤ U64_MAX.

Lemma mean_push_correct c w B m vs :
  (0 < c)%nat → price_bound c B →
  buf_inv c w (history m) → sum_inv B (history m) → Forall (λ v, 0 ≤ v ≤ B) vs →
  ∃ m' x, Mean.push (E:=E) vs m = Ok m' ∧
    buf_inv c (slide w vs) (history m') ∧ sum_inv B (history m') ∧
    Mean.max (E:=E) m' = Ok x ∧
    stats_of (slide w vs)
      {| gs_mean := Mean.mean m'; gs_max := x; gs_median := Mean.median m' |}.
Proof.
  intros Hc [HB Hbound] Hinv Hsum Hvs.
  destruct (push_correct (E:=E) c w (history m) vs Hc Hinv) as (b & Hb & Hinv' & Hs).
  assert (sum_inv B b) as Hsb by (apply Hs; [done|lia|done]).
  pose proof Hinv' as ((_ & Hl & _ & _ & Hrot) & (x & Hx & Hge) & Hmed).
  pose proof (rot_perm (index b) (inner b)) as Hp. rewrite Hrot in Hp.
  pose proof (sumZ_bound _ _ (proj1 Hsb)) as Hbd. rewrite Hl in Hbd.
  unfold Mean.push. rewrite Hb. simpl. unfold Buf.len. rewrite Hl.
  rewrite (proj2 (Z.eqb_neq _ _)) by lia.
  eexists _, x. split; [reflexivity|]. split; [done|]. split; [done|]. split.
  { unfold Mean.max, Buf.max, Buf.vec_get. simpl. by rewrite Hx. }
  unfold stats_of. cbn [gs_mean gs_max gs_median]. split_and!.
  - rewrite (Permutation_length Hp), Hl, (sumZ_perm _ _ Hp).
    unfold Mean.mean, Buf.sum. simpl. rewrite (proj2 Hsb). unfold saturating_add.
    rewrite Z.min_l; [done|]. assert (Z.of_nat c / 2 ≤ Z.of_nat c) by (apply Z.div_le_upper_bound; lia).
    lia.
  - rewrite Hp. by eapply list_elem_of_lookup_2.
  - intros u. rewrite Hp. apply Hge.
  - unfold Mean.median, Buf.median. simpl. rewrite Hmed. symmetry. by apply middle_perm.
Qed.

Definition monitor_inv (c : nat) (w : list Z) (B : Z) (g : GasMonitor Kind) : Prop :=
  ∃ m s, gas_writers g = {[MoveVm := m]} ∧ gas_cells g = {[MoveVm := s]} ∧
    buf_inv c w (history m) ∧ sum_inv B (history m) ∧ stats_of w s.

Lemma push_gas_price_correct c w B g vs :
  (0 < c)%nat → price_bound c B → monitor_inv c w B g → Forall (λ v, 0 ≤ v ≤ B) vs →
  ∃ g', Monitor.push_gas_price (E:=E) MoveVm vs g = Ok g' ∧ monitor_inv c (slide w vs) B g'.
Proof.
  intros Hc HB (m & s & Hw & Hcell & Hinv & Hsum & _) Hvs.
  destruct (mean_push_correct c w B m vs Hc HB Hinv Hsum Hvs) as (m' & x & Hm & Hi & Hs & Hx & Hst).
  unfold Monitor.push_gas_price. rewrite Hw, lookup_singleton_eq, Hm. simpl. rewrite Hx. simpl.
  eexists. split; [reflexivity|]. exists m'. eexists. simpl. rewrite Hcell, !insert_singleton_eq.
  done.
Qed.

Definition price_history (vss : list (list Z)) : outcome E (GasMonitor Kind) :=
  foldl (λ o vs, obind o (Monitor.push_gas_price MoveVm vs)) (Monitor.gas_monitor MoveVm) vss.

Lemma slide_replicate c x y : slide (replicate c x) (replicate c y) = replicate c y.
Proof.
  unfold slide. rewrite length_replicate, drop_app_length' by by rewrite length_replicate. done.
Qed.

Lemma sumZ_replicate c x : sumZ (replicate c x) = Z.of_nat c * x.
Proof.
  induction c as [|c IH]; [done|].
  change (sumZ (replicate (S c) x)) with (x + sumZ (replicate c x)). rewrite IH. lia.
Qed.

Lemma middle_all c x : (0 < c)%nat → middle (replicate c x) = x.
Proof.
  intros Hc. unfold middle. destruct (_ !! _) as [y|] eqn:Hy; simpl.
  - apply list_elem_of_lookup_2 in Hy. rewrite merge_sort_Permutation in Hy.
    by apply elem_of_replicate in Hy as [-> _].
  - apply lookup_ge_None in Hy. rewrite (Permutation_length (merge_sort_Permutation _ _)) in Hy.
    rewrite length_replicate in Hy. pose proof (Nat.div_lt c 2). lia.
Qed.

Lemma stats_of_constant c x :
  (0 < c)%nat → stats_of (replicate c x) {| gs_mean := x; gs_max := x; gs_median := x |}.
Proof.
  intros Hc. unfold stats_of. simpl. rewrite length_replicate, sumZ_replicate. split_and!.
  - assert (0 ≤ Z.of_nat c / 2 < Z.of_nat c)
      by (split; [apply Z.div_pos; lia|apply Z.div_lt; lia]).
    rewrite Z.mul_comm, Z.div_add_l, Z.div_small by lia. lia.
  - by apply elem_of_replicate; split; [|lia].
  - by intros u [-> _]%elem_of_replicate.
  - by rewrite middle_all.
Qed.

Lemma gas_monitor_correct B :
  price_bound MAX_GAS_HISTORY B → MVM_MIN_GAS_UNIT_PRICE ≤ B →
  ∃ g, Monitor.gas_monitor (E:=E) MoveVm = Ok g ∧
       monitor_inv MAX_GAS_HISTORY (replicate MAX_GAS_HISTORY MVM_MIN_GAS_UNIT_PRICE) B g.
Proof.
  intros HB Hmin. assert (0 < MAX_GAS_HISTORY)%nat as Hc by (apply Nat.ltb_lt; reflexivity).
  unfold Monitor.gas_monitor, Mean.new. revert HB Hc.
  generalize MAX_GAS_HISTORY as c. intros c HB Hc.
  destruct (new_correct c Hc) as [Hn Hs].
  edestruct (mean_push_correct c (replicate c 0) B {| cur_mean := 0; history := Buf.new c |}
    (replicate c MVM_MIN_GAS_UNIT_PRICE) Hc HB Hn) as (m & x & Hm & Hi & Hsum & _ & _).
  { apply Hs, HB. }
  { apply Forall_replicate. split; [by compute|done]. }
  rewrite Hm. simpl. eexists. split; [reflexivity|]. rewrite slide_replicate in Hi.
  exists m, mvm_new. split_and!; try done. by apply stats_of_constant.
Qed.

(** At any time the reader sees the mean rounded to the nearest integer,
    the maximum and the median of the last 1000 Move gas prices, of which
    those before the first ones are the minimum price; other kinds of
    transactions have no statistics. *)
Theorem gas_statistics_correct B vss :
  price_bound MAX_GAS_HISTORY B → MVM_MIN_GAS_UNIT_PRICE ≤ B →
  Forall (λ v, 0 ≤ v ≤ B) (concat vss) →
  ∃ g s, price_history vss = Ok g ∧
    Monitor.statistics MoveVm g = Some s ∧
    stats_of (slide (replicate MAX_GAS_HISTORY MVM_MIN_GAS_UNIT_PRICE) (concat vss)) s ∧
    ∀ k, k ≠ MoveVm → Monitor.statistics k g = None.
Proof.
  intros HB Hmin Hall.
  assert (∃ g, price_history vss = Ok g ∧
    monitor_inv MAX_GAS_HISTORY
      (slide (replicate MAX_GAS_HISTORY MVM_MIN_GAS_UNIT_PRICE) (concat vss)) B g)
    as (g & Hg & m & s & _ & Hcell & _ & _ & Hst).
  { induction vss as [|vs vss IH] using rev_ind.
    - destruct (gas_monitor_correct B HB Hmin) as (g & Hg & Hi). exists g.
      split; [done|]. unfold slide. cbn [concat length drop]. by rewrite app_nil_r.
    - rewrite concat_app, Forall_app in Hall. destruct Hall as [Hall1 Hall2].
      destruct (IH Hall1) as (g & Hg & Hi). cbn [concat] in *. rewrite app_nil_r in Hall2.
      assert (0 < MAX_GAS_HISTORY)%nat as Hc by (apply Nat.ltb_lt; reflexivity).
      destruct (push_gas_price_correct _ _ B g vs Hc HB Hi Hall2) as (g' & Hg' & Hi').
      exists g'. unfold price_history in *. rewrite foldl_app, Hg. split; [done|].
      rewrite concat_app. cbn [concat]. rewrite app_nil_r. by rewrite slide_slide in Hi'. }
  exists g, s. unfold Monitor.statistics. rewrite Hcell, lookup_singleton_eq.
  split_and!; [done|by destruct s|done|]. intros k Hk. by rewrite lookup_singleton_ne.
Qed.
End monitor_correct.

(** ** Examples *)
Lemma circular_buffer_refines_window_witness :
  (0 < 3)%nat ∧
  ∃ b m, pushes (E:=Empty_set) 3 [[5; 9]; [4; 1]] = Ok b ∧
    rot (index b) (inner b) = [9; 4; 1] ∧ Buf.max (E:=Empty_set) b = Ok m ∧ m ∈ [9; 4; 1].
Proof.
  split; [lia|].
  destruct (circular_buffer_refines_window (E:=Empty_set) 3 [[5; 9]; [4; 1]])
    as (b & m & Hb & Hr & Hm & Hin & _); [lia|].
  exists b, m. exact (conj Hb (conj Hr (conj Hm Hin))).
Defined.

Lemma gas_statistics_correct_witness :
  ∃ (g : GasMonitor bool) s, price_history (E:=Empty_set) true [[250; 100]; [7]] = Ok g ∧
    Monitor.statistics true g = Some s ∧ Monitor.statistics false g = None.
Proof.
  destruct (gas_statistics_correct (E:=Empty_set) true 1000 [[250; 100]; [7]])
    as (g & s & Hg & Hs & _ & Hother).
  - split; [lia|apply Z.leb_le; vm_compute; reflexivity].
  - apply Z.leb_le; vm_compute; reflexivity.
  - simpl. repeat constructor; lia.
  - exists g, s. exact (conj Hg (conj Hs (Hother false ltac:(discriminate)))).
Defined.

(** Outside the bound of the sum the running sum is not the sum of the
    window: once the saturating addition has saturated, the later subtraction
    takes off more than was added, and the error stays after the large values
    have left the window. *)
Theorem running_sum_drifts :
  ∃ b, pushes (E:=Empty_set) 2 [[U64_MAX]; [U64_MAX]; [0]; [5]] = Ok b ∧
       rot (index b) (inner b) = [0; 5] ∧ Buf.sum b = 0.
Proof. eexists. split; [vm_compute; reflexivity|]. split; vm_compute; reflexivity. Qed.
