(* ===== verification/Limiters.v ===== *)
(** * Request limiters

    [src/rpc_node/src/rest/rest_call_limiter.rs] and
    [src/rpc_node/src/rest/faucet_call_limiter.rs].  Every reading of a clock is
    an argument.  The first limiter remembers when a requester was last
    allowed; the faucet limiter bounds the grants per account and day and the
    time between them. *)

From S2P Require Import Prelude.
From stdpp Require Import base tactics option list gmap.
From Stdlib Require Import ZArith Lia.
Local Open Scope Z_scope.

(** ** [RestCallLimiter] *)

(** [lru::LruCache]: a lookup promotes the key, an insertion may evict another
    one. *)
Class LruCache (K V C : Type) : Type := {
  lru_new : Z → C;
  lru_get : K → C → option V * C;
  lru_put : K → V → C → C;
}.

Class LruLaws (K V C : Type) `{LruCache K V C} : Prop := {
  lru_get_put k v c : (lru_get k (lru_put k v c)).1 = Some v;
  lru_get_promotes k k' c : (lru_get k (lru_get k' c).2).1 = (lru_get k c).1;
}.

Record RestCallLimiter (C Strategy : Type) := {
  rl_cache : C;
  limiting_strategy : Strategy;
}.
Arguments rl_cache {C Strategy}.
Arguments limiting_strategy {C Strategy}.

(** [types::limiting_strategy::LimitInstance]. *)
Inductive LimitInstance (Account PublicKey Byte : Type) : Type :=
| LI_Account (a : Account)
| LI_PublicKey (k : PublicKey)
| LI_Bytes (b : list Byte).
Arguments LI_Account {Account PublicKey Byte} a.
Arguments LI_PublicKey {Account PublicKey Byte} k.
Arguments LI_Bytes {Account PublicKey Byte} b.

Module Rest.
Section rest.
Context {Account PublicKey Byte Instant Duration C Strategy : Type}.
Notation Instance_ := (LimitInstance Account PublicKey Byte).
Context `{LruCache Instance_ Instant C}.
(** [TLimitingStrategy::should_allow]: the time to wait when it declines. *)
Context (should_allow : Strategy → Instance_ → option Instant → Duration + unit).

Definition CACHE_SIZE : Z := 10000.

Definition new (s : Strategy) : RestCallLimiter C Strategy :=
  {| rl_cache := lru_new CACHE_SIZE; limiting_strategy := s |}.

Definition set_cache (c : C) (l : RestCallLimiter C Strategy) : RestCallLimiter C Strategy :=
  {| rl_cache := c; limiting_strategy := limiting_strategy l |}.

(** [now1] and [now2] are the readings of [Instant::now]; the error is
    [Error::TooManyRequests]. *)
Definition register (instance : Instance_) (now1 now2 : Instant)
    : M (RestCallLimiter C Strategy) Duration unit :=
  λ l,
    let (last_seen, c) := lru_get instance (rl_cache l) in
    let first_occurrence := match last_seen with None => true | Some _ => false end in
    let c1 := if first_occurrence then lru_put instance now1 c else c in
    match should_allow (limiting_strategy l) instance last_seen with
    | inr _ =>
        let c2 := if negb first_occurrence then lru_put instance now2 c1 else c1 in
        (set_cache c2 l, Ok tt)
    | inl allow_in => (set_cache c1 l, Err allow_in)
    end.

Definition register_account (a : Account) := register (LI_Account a).
Definition register_public_key (k : PublicKey) := register (LI_PublicKey k).
Definition register_bytes (b : list Byte) := register (LI_Bytes b).

Context `{!LruLaws Instance_ Instant C}.

(** The limiter decides by the instant of the last allowed request and keeps
    it exact: a first request and an allowed one record their own instant, a
    declined one leaves the recorded instant alone, so that declined
    requests do not prolong the wait. *)
Theorem register_records_last_allowed i now1 now2 l :
  let last := (lru_get i (rl_cache l)).1 in
  let '(l', o) := register i now1 now2 l in
  o = match should_allow (limiting_strategy l) i last with
      | inr _ => Ok tt
      | inl d => Err d
      end ∧
  (lru_get i (rl_cache l')).1
  = Some match last with
         | None => now1
         | Some old => if is_ok o then now2 else old
         end.
Proof.
  simpl. unfold register. pose proof (lru_get_promotes i i (rl_cache l)) as Hp.
  destruct (lru_get i (rl_cache l)) as [last c]. simpl in *.
  destruct (should_allow _ _ _); destruct last; simpl; rewrite ?lru_get_put; done.
Qed.
End rest.
End Rest.

(** ** [FaucetCallLimiter] *)
Record FaucetLimiterValue := { count_of_usage : Z; last_used_time : Z }.

Definition default_value : FaucetLimiterValue := {| count_of_usage := 0; last_used_time := 0 |}.

Record FaucetCallLimiter (Account : Type) `{Countable Account} := {
  fl_cache : gmap Account FaucetLimiterValue;
  max_daily_request : Z;
  cooldown_period_secs : Z;
  last_reset_secs : Z;
}.
Arguments fl_cache {Account _ _}.
Arguments max_daily_request {Account _ _}.
Arguments cooldown_period_secs {Account _ _}.
Arguments last_reset_secs {Account _ _}.

Inductive FaucetLimiterError (Account : Type) : Type :=
| Cooldown (account : Account) (period : Z)
| DailyLimitExceeded (account_address : Account) (daily_request_limit : Z)
    (retry_in : Z * Z * Z).
Arguments Cooldown {Account}.
Arguments DailyLimitExceeded {Account}.

Module FaucetLimiter.
Section faucet_limiter.
Context {Account : Type} `{Countable Account}.
Notation Limiter := (FaucetCallLimiter Account).
Local Open Scope rust_scope.
(** [types::settings::constants::SECONDS_IN_A_DAY]. *)
Context (SECONDS_IN_A_DAY : Z).

Definition set_values (c : gmap Account FaucetLimiterValue) (l : Limiter) : Limiter :=
  {| fl_cache := c; max_daily_request := max_daily_request l;
     cooldown_period_secs := cooldown_period_secs l; last_reset_secs := last_reset_secs l |}.

Definition new (max_daily cooldown now : Z) : Limiter :=
  {| fl_cache := ∅; max_daily_request := max_daily;
     cooldown_period_secs := cooldown; last_reset_secs := now |}.

(** Hours, minutes and seconds of the text shown to the user. *)
Definition time_left_for_the_day (now : Z) : Z * Z * Z :=
  let seconds_left := SECONDS_IN_A_DAY - now mod SECONDS_IN_A_DAY in
  (seconds_left / 3600, (seconds_left mod 3600) / 60, seconds_left mod 60).

Definition reset_cache_if_needed (now : Z) (l : Limiter) : Limiter :=
  let current_day := now / SECONDS_IN_A_DAY in
  if last_reset_secs l / SECONDS_IN_A_DAY <? current_day
  then {| fl_cache := ∅; max_daily_request := max_daily_request l;
          cooldown_period_secs := cooldown_period_secs l; last_reset_secs := now |}
  else l.

(** [cache.entry(account).or_default()]. *)
Definition entry_or_default (account : Account) (l : Limiter) : FaucetLimiterValue * Limiter :=
  match fl_cache l !! account with
  | Some v => (v, l)
  | None => (default_value, set_values (<[account := default_value]> (fl_cache l)) l)
  end.

(** The clock is read by the reset, by the check and for the error text. *)
Definition register_account (account : Account) (t_reset now t_left : Z)
    : M Limiter (FaucetLimiterError Account) unit :=
  rmodify (reset_cache_if_needed t_reset) ;;
  cache_item <- (λ l, let (v, l') := entry_or_default account l in (l', Ok v)) ;;
  l <- rgets id ;;
  if count_of_usage cache_item <? max_daily_request l
  then
    ready <- rlift (add64 (last_used_time cache_item) (cooldown_period_secs l)) ;;
    if ready <=? now then rret tt
    else
      period <- rlift (sub64 ready now) ;;
      rfail (Cooldown account period)
  else
    rfail (DailyLimitExceeded account (max_daily_request l) (time_left_for_the_day t_left)).

Definition increment_account_use_counter_if_under_limit (account : Account) (now : Z)
    : M Limiter (FaucetLimiterError Account) unit :=
  cache_item <- (λ l, let (v, l') := entry_or_default account l in (l', Ok v)) ;;
  l <- rgets id ;;
  if count_of_usage cache_item <? max_daily_request l
  then
    ready <- rlift (add64 (last_used_time cache_item) (cooldown_period_secs l)) ;;
    if ready <=? now
    then
      count <- rlift (add64 (count_of_usage cache_item) 1) ;;
      rmodify (λ l, set_values (<[account := {| count_of_usage := count;
                                               last_used_time := now |}]> (fl_cache l)) l)
    else rret tt
  else rret tt.

(** ** The faucet endpoint ([src/rpc_node/src/rest/api/v1/wallet.rs], [faucet])

    [F] is the state of the faucet and [try_fund] its answer to the request. *)
Inductive FaucetStatus (Hash : Type) : Type :=
| Accepted (h : Hash)
| TryLater.
Arguments Accepted {Hash}.
Arguments TryLater {Hash}.

Inductive FaucetRequestError : Type :=
| FaucetNotEnabled
| LimiterError (e : FaucetLimiterError Account).

Record FaucetRequest (F Hash : Type) := {
  rq_account : Account;
  rq_try_fund : F → F * option Hash;
  (** Readings of the clock, in the order they are taken. *)
  rq_reset : Z; rq_now : Z; rq_left : Z; rq_inc : Z;
}.
Arguments rq_account {F Hash}.
Arguments rq_try_fund {F Hash}.
Arguments rq_reset {F Hash}.
Arguments rq_now {F Hash}.
Arguments rq_left {F Hash}.
Arguments rq_inc {F Hash}.

Definition faucet {F Hash} (r : FaucetRequest F Hash)
    : M (option (Limiter * F)) FaucetRequestError (FaucetStatus Hash) :=
  λ st,
    match st with
    | None => (None, Err FaucetNotEnabled)
    | Some (l, f) =>
        let account := rq_account r in
        match register_account account (rq_reset r) (rq_now r) (rq_left r) l with
        | (l1, Ok _) =>
            let (f', h) := rq_try_fund r f in
            match h with
            | Some tx_hash =>
                match increment_account_use_counter_if_under_limit account (rq_inc r) l1 with
                | (l2, Ok _) => (Some (l2, f'), Ok (Accepted tx_hash))
                | (l2, Err e) => (Some (l2, f'), Err (LimiterError e))
                | (l2, Panic) => (Some (l2, f'), Panic)
                end
            | None => (Some (l1, f'), Ok TryLater)
            end
        | (l1, Err e) => (Some (l1, f), Err (LimiterError e))
        | (l1, Panic) => (Some (l1, f), Panic)
        end
    end.

(** *** Requests served one after the other *)
Record grant := { g_account : Account; g_day : Z; g_time : Z }.

Definition day (t : Z) : Z := t / SECONDS_IN_A_DAY.

(** The grants of a sequence of requests, newest first. *)
Fixpoint serve_all {F Hash} (rs : list (FaucetRequest F Hash))
    (st : option (Limiter * F)) (gs : list grant) : outcome unit (list grant) :=
  match rs with
  | [] => Ok gs
  | r :: rs' =>
      match faucet r st with
      | (st', Ok (Accepted _)) =>
          serve_all rs' st' ({| g_account := rq_account r; g_day := day (rq_reset r);
                                g_time := rq_inc r |} :: gs)
      | (st', Panic) => Panic
      | (st', _) => serve_all rs' st' gs
      end
  end.

Fixpoint ordered {F Hash} (t T : Z) (rs : list (FaucetRequest F Hash)) : Prop :=
  match rs with
  | [] => t ≤ T
  | r :: rs' => t ≤ rq_reset r ≤ rq_now r ∧ rq_now r ≤ rq_inc r ∧ ordered (rq_inc r) T rs'
  end.

(** Times of the grants to [a] on day [d]. *)
Definition times (a : Account) (d : Z) (gs : list grant) : list Z :=
  g_time <$> filter (λ g, g_account g = a ∧ g_day g = d) gs.

Fixpoint spaced (c : Z) (l : list Z) : Prop :=
  match l with
  | x :: ((y :: _) as l') => y + c ≤ x ∧ spaced c l'
  | _ => True
  end.

Definition value (a : Account) (l : Limiter) : FaucetLimiterValue :=
  default default_value (fl_cache l !! a).

Record limiter_inv (max cool t : Z) (l : Limiter) (gs : list grant) : Prop := {
  li_max : max_daily_request l = max;
  li_cool : cooldown_period_secs l = cool;
  li_reset : 0 ≤ last_reset_secs l ≤ t;
  li_days g : g ∈ gs → g_day g ≤ day (last_reset_secs l);
  li_count a : count_of_usage (value a l)
               = Z.of_nat (length (times a (day (last_reset_secs l)) gs));
  li_last a : last_used_time (value a l)
              = default 0 (head (times a (day (last_reset_secs l)) gs));
  li_range a : 0 ≤ last_used_time (value a l) ≤ t;
  li_bound a d : Z.of_nat (length (times a d gs)) ≤ max ∧ spaced cool (times a d gs);
}.

Context (day_pos : 0 < SECONDS_IN_A_DAY).

Lemma day_mono t t' : t ≤ t' → day t ≤ day t'.
Proof. intros. by apply Z.div_le_mono. Qed.

Lemma times_cons a d g gs :
  times a d (g :: gs)
  = if decide (g_account g = a ∧ g_day g = d) then g_time g :: times a d gs else times a d gs.
Proof. unfold times. rewrite filter_cons. by case_decide. Qed.

Lemma times_future a d gs : (∀ g, g ∈ gs → g_day g < d) → times a d gs = [].
Proof.
  intros Hg. induction gs as [|g gs IH]; [done|]. rewrite times_cons.
  case_decide as Hd; [|apply IH; intros; apply Hg; by right].
  specialize (Hg g ltac:(by left)). lia.
Qed.

(** The invariant depends on the values of the accounts only. *)
Lemma limiter_inv_ext max cool t t' l l' gs :
  limiter_inv max cool t l gs → t ≤ t' →
  (∀ a, value a l' = value a l) → max_daily_request l' = max_daily_request l →
  cooldown_period_secs l' = cooldown_period_secs l → last_reset_secs l' = last_reset_secs l →
  limiter_inv max cool t' l' gs.
Proof.
  intros [Hm Hc Hr Hd Hcnt Hl Hrg Hb] Ht Hv Hm' Hc' Hr'.
  split; rewrite ?Hm', ?Hc', ?Hr'; try done; try lia; intros a; rewrite ?Hv; try done.
  specialize (Hrg a). lia.
Qed.

Lemma entry_or_default_spec a l :
  let (v, l') := entry_or_default a l in
  v = value a l ∧ (∀ b, value b l' = value b l) ∧
  max_daily_request l' = max_daily_request l ∧
  cooldown_period_secs l' = cooldown_period_secs l ∧ last_reset_secs l' = last_reset_secs l.
Proof.
  unfold entry_or_default, value. destruct (fl_cache l !! a) as [v|] eqn:Ha; [done|].
  split_and!; try done. intros b. simpl. destruct (decide (a = b)) as [<-|Hne].
  - by rewrite lookup_insert_eq, Ha.
  - by rewrite lookup_insert_ne.
Qed.

Lemma reset_inv max cool t t' l gs :
  limiter_inv max cool t l gs → t ≤ t' →
  limiter_inv max cool t' (reset_cache_if_needed t' l) gs ∧
  day (last_reset_secs (reset_cache_if_needed t' l)) = day t'.
Proof.
  intros Hinv Ht. pose proof Hinv as [Hm Hc Hr Hd Hcnt Hl Hrg Hb]. unfold reset_cache_if_needed.
  fold (day (last_reset_secs l)) (day t').
  destruct (Z.ltb_spec (day (last_reset_secs l)) (day t')) as [Hlt|Hge]; simpl.
  - assert (∀ a, times a (day t') gs = []) as Hnil.
    { intros a. apply times_future. intros g Hg. specialize (Hd _ Hg). lia. }
    split; [|done]. split; simpl; try done; try lia; intros; rewrite ?Hnil;
      unfold value; simpl; rewrite ?lookup_empty; try done.
    + specialize (Hd _ ltac:(done)). lia.
    + simpl. lia.
  - split; [by eapply limiter_inv_ext|]. pose proof (day_mono (last_reset_secs l) t'). lia.
Qed.

Definition small (max cool T : Z) : Prop :=
  0 ≤ max ≤ U64_MAX ∧ 0 ≤ cool ∧ T + cool ≤ U64_MAX.

Lemma register_account_spec max cool t T a t_reset now t_left l gs :
  small max cool T → limiter_inv max cool t l gs → t ≤ t_reset ≤ now → now ≤ T →
  wp (register_account a t_reset now t_left)
     (λ o l', limiter_inv max cool now l' gs ∧ day (last_reset_secs l') = day t_reset ∧
              match o with
              | Ok _ => count_of_usage (value a l') < max ∧
                        last_used_time (value a l') + cool ≤ now
              | Err _ => True
              | Panic => False
              end) l.
Proof.
  intros (Hmax & Hcool & Hsmall) Hinv Ht HT. unfold register_account. wp_step. wp_step.
  destruct (reset_inv _ _ _ t_reset _ _ Hinv) as [Hinv1 Hday]; [lia|].
  set (l1 := reset_cache_if_needed t_reset l) in *. wp_step. unfold wp at 1.
  pose proof (entry_or_default_spec a l1) as He.
  destruct (entry_or_default a l1) as [v l2]. destruct He as (-> & Hv & Hm & Hc & Hr).
  simpl. wp_steps. simpl.
  assert (limiter_inv max cool now l2 gs) as Hinv2 by (eapply limiter_inv_ext; [done|lia|done..]).
  rewrite <- Hr in Hday. rewrite <- (Hv a). pose proof (li_range _ _ _ _ _ Hinv2 a) as Hrg.
  rewrite (li_max _ _ _ _ _ Hinv2), (li_cool _ _ _ _ _ Hinv2).
  destruct (Z.ltb_spec (count_of_usage (value a l2)) max) as [Hlt|Hge]; [|done].
  wp_steps. rewrite add64_ok by lia. destruct (Z.leb_spec (last_used_time (value a l2) + cool) now).
  - done.
  - wp_steps. rewrite sub64_ok by lia. done.
Qed.

Lemma increment_spec max cool t T a now l gs :
  small max cool T → limiter_inv max cool t l gs → t ≤ now → now ≤ T →
  count_of_usage (value a l) < max → last_used_time (value a l) + cool ≤ now →
  wp (increment_account_use_counter_if_under_limit a now)
     (λ o l', o = Ok tt ∧
        limiter_inv max cool now l'
          ({| g_account := a; g_day := day (last_reset_secs l); g_time := now |} :: gs)) l.
Proof.
  intros (Hmax & Hcool & Hsmall) Hinv Ht HT Hcnt Hlast.
  unfold increment_account_use_counter_if_under_limit. wp_step. unfold wp at 1.
  pose proof (entry_or_default_spec a l) as He.
  destruct (entry_or_default a l) as [v l2]. destruct He as (-> & Hv & Hm & Hc & Hr).
  simpl. wp_steps. simpl. rewrite Hm, Hc, (li_max _ _ _ _ _ Hinv), (li_cool _ _ _ _ _ Hinv).
  pose proof (li_range _ _ _ _ _ Hinv a) as Hrg. pose proof (li_count _ _ _ _ _ Hinv a) as Hca.
  rewrite (proj2 (Z.ltb_lt _ _)) by done. wp_steps. rewrite add64_ok by lia.
  rewrite (proj2 (Z.leb_le _ _)) by done. wp_steps. rewrite add64_ok by lia. wp_steps.
  split; [done|]. destruct Hinv as [Hm' Hc' Hrs Hd Hct Hl Hrange Hb].
  assert (∀ b, value b (set_values (<[a := {| count_of_usage := count_of_usage (value a l) + 1;
      last_used_time := now |}]> (fl_cache l2)) l2)
    = if decide (b = a) then {| count_of_usage := count_of_usage (value a l) + 1;
                                last_used_time := now |} else value b l) as Hval.
  { intros b. unfold value at 1. simpl. case_decide as Hba.
    - subst. by rewrite lookup_insert_eq.
    - rewrite lookup_insert_ne by done. apply Hv. }
  split; simpl; rewrite ?Hr, ?Hm, ?Hc; try done; try lia.
  - intros g [->|Hg]%elem_of_cons; [simpl; lia|by apply Hd].
  - intros b. rewrite Hval, times_cons. simpl. destruct (decide (b = a)) as [->|Hne].
    + rewrite decide_True by done. simpl. rewrite Hca. lia.
    + rewrite decide_False by (intros [? _]; done). done.
  - intros b. rewrite Hval, times_cons. simpl. destruct (decide (b = a)) as [->|Hne].
    + by rewrite decide_True.
    + rewrite decide_False by (intros [? _]; done). done.
  - intros b. rewrite Hval. case_decide; simpl; [lia|]. specialize (Hrange b). lia.
  - intros b d. rewrite times_cons. case_decide as Hbd; [|apply Hb]. simpl in Hbd.
    destruct Hbd as [<- <-]. destruct (Hb a (day (last_reset_secs l))) as [Hlen Hsp].
    specialize (Hl a). split; [simpl; lia|].
    destruct (times a (day (last_reset_secs l)) gs) as [|y ys]; [done|]. simpl in Hl.
    split; [simpl; lia|done].
Qed.

Lemma ordered_le {F Hash} t T (rs : list (FaucetRequest F Hash)) : ordered t T rs → t ≤ T.
Proof.
  revert t. induction rs as [|r rs IH]; intros t; simpl; [done|].
  intros (? & ? & ?%IH). lia.
Qed.

(** One request: the limiter keeps count of the grants, and the faucet is asked only
    if the limiter allows it. *)
Lemma faucet_request_spec {F Hash} max cool t T (r : FaucetRequest F Hash) l f gs :
  small max cool T → limiter_inv max cool t l gs →
  t ≤ rq_reset r ≤ rq_now r → rq_now r ≤ rq_inc r → rq_inc r ≤ T →
  ∃ l' f' o, faucet r (Some (l, f)) = (Some (l', f'), o) ∧
    match o with
    | Ok (Accepted h) =>
        rq_try_fund r f = (f', Some h) ∧
        limiter_inv max cool (rq_inc r) l'
          ({| g_account := rq_account r; g_day := day (rq_reset r); g_time := rq_inc r |} :: gs)
    | Ok TryLater => rq_try_fund r f = (f', None) ∧ limiter_inv max cool (rq_inc r) l' gs
    | Err _ => f' = f ∧ limiter_inv max cool (rq_inc r) l' gs
    | Panic => False
    end.
Proof.
  intros Hs Hinv Ht Hinc HT. unfold faucet.
  pose proof (register_account_spec max cool t T (rq_account r) (rq_reset r) (rq_now r)
    (rq_left r) l gs Hs Hinv Ht ltac:(lia)) as Hw. unfold wp in Hw.
  assert (∀ l1, limiter_inv max cool (rq_now r) l1 gs → limiter_inv max cool (rq_inc r) l1 gs)
    as Hlater by (intros; eapply limiter_inv_ext; [done|lia|done..]).
  destruct (register_account _ _ _ _ l) as [l1 [[]|e|]]; destruct Hw as (Hinv1 & Hday & Hok);
    simpl in *; [| |done].
  - destruct (rq_try_fund r f) as [f' [h|]]; [|eexists _, _, _; split; [reflexivity|]; simpl; auto].
    destruct Hok as [Hcnt Hlast].
    pose proof (increment_spec max cool (rq_now r) T (rq_account r) (rq_inc r) l1 gs Hs Hinv1
      ltac:(lia) ltac:(lia) Hcnt ltac:(lia)) as Hw. unfold wp in Hw.
    destruct (increment_account_use_counter_if_under_limit _ _ l1) as [l2 o].
    simpl in Hw. destruct Hw as [-> Hinv2]. rewrite Hday in Hinv2.
    by eexists _, _, _; split; [reflexivity|].
  - eexists _, _, _; split; [reflexivity|]; simpl; auto.
Qed.

#[local] Arguments faucet : simpl never.

Lemma serve_all_spec {F Hash} max cool t T (rs : list (FaucetRequest F Hash)) l f gs :
  small max cool T → limiter_inv max cool t l gs → ordered t T rs →
  ∃ gs', serve_all rs (Some (l, f)) gs = Ok gs' ∧
         ∀ a d, Z.of_nat (length (times a d gs')) ≤ max ∧ spaced cool (times a d gs').
Proof.
  intros Hs. revert t l f gs. induction rs as [|r rs IH]; intros t l f gs Hinv Ho; simpl.
  { exists gs. split; [done|]. apply Hinv. }
  destruct Ho as (Ht & Hinc & Ho). pose proof (ordered_le _ _ _ Ho).
  destruct (faucet_request_spec max cool t T r l f gs Hs Hinv Ht Hinc ltac:(lia))
    as (l' & f' & o & -> & Hpost).
  destruct o as [[h|]|e|]; [|..|done]; destruct Hpost as [_ Hinv']; by eapply IH.
Qed.

Lemma new_inv max cool t T : small max cool T → 0 ≤ t → limiter_inv max cool t (new max cool t) [].
Proof.
  intros Hs Ht. split; simpl; try done; try lia.
  - intros g Hg. by apply not_elem_of_nil in Hg.
  - intros a d. simpl. destruct Hs as ((? & ?) & _). done.
Qed.

(** For requests served one after the other, whatever the faucet answers,
    every account gets at most [max_daily_request] grants per day, and two
    grants to an account on a day are at least the cooldown apart.  No
    request panics. *)
Theorem faucet_limits_grants {F Hash} max cool t0 T (rs : list (FaucetRequest F Hash)) f :
  small max cool T → 0 ≤ t0 → ordered t0 T rs →
  ∃ gs, serve_all rs (Some (new max cool t0, f)) [] = Ok gs ∧
        ∀ a d, Z.of_nat (length (times a d gs)) ≤ max ∧ spaced cool (times a d gs).
Proof.
  intros Hs Ht Ho. eapply serve_all_spec; [done|by eapply new_inv|done].
Qed.

(** The check and the count of a request are two critical sections.  When
    two requests for an account are served concurrently, both checks may come
    before both counts: then both are granted on the same day although the
    limit is one, and only one of them is counted. *)
Theorem concurrent_requests_exceed_limit a (t : Z) (l : Limiter) :
  0 ≤ t ≤ U64_MAX →
  l = new 1 0 t →
  let check := register_account a t t t in
  let count := increment_account_use_counter_if_under_limit a t in
  let l1 := (check l).1 in
  let l2 := (check l1).1 in
  let l3 := (count l2).1 in
  let l4 := (count l3).1 in
  (check l).2 = Ok tt ∧ (check l1).2 = Ok tt ∧
  (count l2).2 = Ok tt ∧ (count l3).2 = Ok tt ∧
  count_of_usage (value a l4) = max_daily_request l4.
Proof.
  intros Ht ->. cbv zeta.
  assert (register_account a t t t (new 1 0 t)
          = (set_values {[a := default_value]} (new 1 0 t), Ok tt)) as H1.
  { unfold register_account, rthen, rmodify, rgets, rlift, reset_cache_if_needed. simpl.
    rewrite Z.ltb_irrefl. unfold entry_or_default. simpl. rewrite lookup_empty. simpl.
    rewrite (proj2 (Z.leb_le _ _)) by lia. by rewrite insert_empty. }
  set (l1 := set_values {[a := default_value]} (new 1 0 t)) in *.
  assert (register_account a t t t l1 = (l1, Ok tt)) as H2.
  { unfold register_account, rthen, rmodify, rgets, rlift, reset_cache_if_needed. simpl.
    rewrite Z.ltb_irrefl. unfold entry_or_default. simpl. rewrite lookup_singleton_eq. simpl.
    by rewrite (proj2 (Z.leb_le _ _)) by lia. }
  set (l3 := set_values {[a := {| count_of_usage := 1; last_used_time := t |}]} (new 1 0 t)).
  assert (increment_account_use_counter_if_under_limit a t l1 = (l3, Ok tt)) as H3.
  { unfold increment_account_use_counter_if_under_limit, rthen, rmodify, rgets, rlift.
    unfold entry_or_default. simpl. rewrite lookup_singleton_eq. simpl.
    rewrite (proj2 (Z.leb_le _ _)) by lia. unfold set_values. simpl.
    by rewrite insert_singleton_eq. }
  assert (increment_account_use_counter_if_under_limit a t l3 = (l3, Ok tt)) as H4.
  { unfold increment_account_use_counter_if_under_limit, rthen, rmodify, rgets, rlift.
    unfold entry_or_default. simpl. by rewrite lookup_singleton_eq. }
  rewrite H1. cbn [fst snd]. rewrite H2. cbn [fst snd]. rewrite H3. cbn [fst snd].
  rewrite H4. cbn [fst snd].
  split_and!; try done. unfold value. simpl. by rewrite lookup_singleton_eq.
Qed.
End faucet_limiter.
End FaucetLimiter.

(** ** Examples *)
Module LimiterExamples.
Import FaucetLimiter.

(** A cache that keeps the last entry only. *)
#[local] Instance one_entry_cache
    : LruCache (LimitInstance Z Z Z) Z (option (LimitInstance Z Z Z * Z)) := {
  lru_new _ := None;
  lru_get k c := (match c with
                  | Some (k', v) =>
                      match k, k' with
                      | LI_Account a, LI_Account a' => if a =? a' then Some v else None
                      | LI_PublicKey a, LI_PublicKey a' => if a =? a' then Some v else None
                      | LI_Bytes b, LI_Bytes b' => if bool_decide (b = b') then Some v else None
                      | _, _ => None
                      end
                  | None => None
                  end, c);
  lru_put k v c := Some (k, v);
}.

#[local] Instance one_entry_laws
    : LruLaws (LimitInstance Z Z Z) Z (option (LimitInstance Z Z Z * Z)).
Proof.
  split; [|done]. intros [a|a|b] v c; simpl; rewrite ?Z.eqb_refl; [done..|].
  by rewrite bool_decide_eq_true_2.
Qed.

(** A minimal distance of 10 between requests, at time 107 after one at 100. *)
Definition ex_strategy (d : Z) (_ : LimitInstance Z Z Z) (last : option Z) : Z + unit :=
  match last with
  | Some t => if t + d <=? 107 then inr tt else inl (t + d - 107)
  | None => inr tt
  end.
Definition ex_limiter : RestCallLimiter (option (LimitInstance Z Z Z * Z)) Z :=
  {| rl_cache := Some (LI_Account 1, 100); limiting_strategy := 10 |}.

Lemma register_records_last_allowed_witness :
  let '(l', o) := Rest.register ex_strategy (LI_Account 1) 107 107 ex_limiter in
  o = Err 3 ∧ (lru_get (LI_Account 1) (rl_cache l')).1 = Some 100.
Proof. exact (Rest.register_records_last_allowed ex_strategy (LI_Account 1) 107 107 ex_limiter). Defined.

Definition ex_request (a t : Z) : FaucetRequest (Account:=Z) unit Z :=
  {| rq_account := a; rq_try_fund := λ f, (f, Some 7);
     rq_reset := t; rq_now := t; rq_left := t; rq_inc := t |}.

(** The third request of a day is declined, the first one of the next is not. *)
Lemma faucet_limits_grants_witness :
  ∃ gs, serve_all 86400 [ex_request 1 10; ex_request 1 70; ex_request 1 200; ex_request 1 86410]
          (Some (new 2 50 5, tt)) [] = Ok gs ∧
        ∀ a d, Z.of_nat (length (times a d gs)) ≤ 2 ∧ spaced 50 (times a d gs).
Proof.
  apply (faucet_limits_grants 86400 ltac:(lia) 2 50 5 90000).
  - repeat split; try lia; apply Z.leb_le; vm_compute; reflexivity.
  - lia.
  - simpl. lia.
Defined.

Lemma concurrent_requests_exceed_limit_witness :
  count_of_usage (value 1
    (increment_account_use_counter_if_under_limit 1 9
      (increment_account_use_counter_if_under_limit 1 9
        (register_account 86400 1 9 9 9 (register_account 86400 1 9 9 9 (new 1 0 9)).1).1).1).1)
  = 1.
Proof.
  refine (proj2 (proj2 (proj2 (proj2
    (concurrent_requests_exceed_limit 86400 1 9 (new 1 0 9) _ eq_refl))))).
  split; apply Z.leb_le; vm_compute; reflexivity.
Defined.
End LimiterExamples.
