(* ===== verification/Transactions.v ===== *)
(** * Transaction dispatch and transient storage

    [src/rpc_node/src/transactions/dispatcher.rs],
    [src/rpc_node/src/transactions/tx_execution_notification.rs] and
    [src/rpc_node/src/rpc_storage.rs].  A submitted transaction goes through the
    registered consumers in order; one of them is the storage of the node,
    which keeps it as pending until the block that contains it is executed. *)

From S2P Require Import Prelude.
From stdpp Require Import base tactics option list.
From Stdlib Require Import ZArith Lia.
Local Open Scope Z_scope.

(** [transactions::TxExecutionStatus]. *)
Inductive TxExecutionStatus : Type :=
| St_Success
| St_Fail
| St_Invalid
| St_Pending
| St_PendingAfterExecution.

#[export] Instance TxExecutionStatus_eq_dec : EqDecision TxExecutionStatus.
Proof. solve_decision. Defined.

Inductive TransactionDispatchError (Cause : Type) : Type :=
| ConsumptionError (c : Cause)
| DispatchFatal (c : Cause).
Arguments ConsumptionError {Cause}.
Arguments DispatchFatal {Cause}.

(** ** The dispatcher

    A consumer is a method on the state [W] of the node and its peers. *)
Module Dispatcher.
Section dispatcher.
Context {W Txn Hash Cause : Type} (digest : Txn → Hash).
Local Open Scope rust_scope.

Definition Consumer : Type := Txn → M W (TransactionDispatchError Cause) unit.

Record TransactionDispatcher := { consumers : list Consumer }.

Definition register_consumer (delegate : Consumer) (d : TransactionDispatcher)
    : TransactionDispatcher :=
  {| consumers := consumers d ++ [delegate] |}.

Fixpoint consume_all (cs : list Consumer) (txn : Txn)
    : M W (TransactionDispatchError Cause) unit :=
  match cs with
  | [] => rret tt
  | c :: cs' => c txn ;; consume_all cs' txn
  end.

Definition send (d : TransactionDispatcher) (txn : Txn)
    : M W (TransactionDispatchError Cause) Hash :=
  let hash := digest txn in
  consume_all (consumers d) txn ;; rret hash.

(** [impl TTransactionConsumer for RpcClient]: what the client answered. *)
Inductive RpcClientError : Type :=
| WsNotConnected
| WsOther
| RestError.

Definition consume_rpc_client (rpc_send : Txn → M W RpcClientError unit)
    (cause : RpcClientError → Cause) : Consumer :=
  λ txn w,
    match rpc_send txn w with
    | (w', Ok u) => (w', Ok u)
    | (w', Err e) =>
        (w', Err match e with
                 | WsNotConnected => DispatchFatal (cause e)
                 | WsOther | RestError => ConsumptionError (cause e)
                 end)
    | (w', Panic) => (w', Panic)
    end.

(** States the consumers go through, in order, up to the first that fails. *)
Inductive consumed (txn : Txn) : list Consumer → W → W → Prop :=
| consumed_nil w : consumed txn [] w w
| consumed_cons c cs w w1 w2 :
    c txn w = (w1, Ok tt) → consumed txn cs w1 w2 → consumed txn (c :: cs) w w2.

(** A transaction is dispatched to the consumers in the order they were
    registered: it is acknowledged with its digest exactly when every one of
    them accepted it, and otherwise the consumers after the first one that
    fails never see it. *)
Theorem send_in_order cs txn w :
  let d := foldl (λ d c, register_consumer c d) {| consumers := [] |} cs in
  match send d txn w with
  | (w', Ok h) => h = digest txn ∧ consumed txn cs w w'
  | (w', o) =>
      ∃ before c after w1, cs = before ++ c :: after ∧ consumed txn before w w1 ∧
        (c txn w1).1 = w' ∧
        match o with Err e => (c txn w1).2 = Err e | _ => (c txn w1).2 = Panic end
  end.
Proof.
  assert (∀ l, consumers (foldl (λ d c, register_consumer c d) {| consumers := l |} cs) = l ++ cs)
    as Hcs.
  { induction cs as [|c cs IH]; intros l; simpl; [by rewrite app_nil_r|].
    change (register_consumer c {| consumers := l |}) with {| consumers := l ++ [c] |}.
    rewrite IH. by rewrite <- app_assoc. }
  cbv zeta. unfold send. rewrite Hcs. simpl. clear Hcs.
  unfold rthen at 1. revert w. induction cs as [|c cs IH]; intros w; simpl.
  { split; [done|constructor]. }
  unfold rthen. destruct (c txn w) as [w1 [[]|e|]] eqn:Hc; simpl.
  - specialize (IH w1). destruct (consume_all cs txn w1) as [w2 [[]|e|]]; simpl in *.
    + destruct IH as [_ Hc']. split; [done|]. by econstructor.
    + destruct IH as (b & c' & a & w0 & -> & Hb & Hw & He).
      exists (c :: b), c', a, w0. split_and!; try done. by econstructor.
    + destruct IH as (b & c' & a & w0 & -> & Hb & Hw & He).
      exists (c :: b), c', a, w0. split_and!; try done. by econstructor.
  - exists [], c, cs, w. rewrite Hc. split_and!; try done. constructor.
  - exists [], c, cs, w. rewrite Hc. split_and!; try done. constructor.
Qed.
End dispatcher.
Arguments TransactionDispatcher : clear implicits.
Arguments Consumer : clear implicits.
End Dispatcher.

(** ** The storage *)

(** [mempool::Backlog] with its hash index, and [archive::ArchiveDb]. *)
Class StorageOps (Txn Hash : Type) : Type := {
  tx_digest : Txn → Hash;
  tx_expiration : Txn → Z;
  Backlog : Type;
  BacklogError : Type;
  backlog_insert : Txn → Backlog → Backlog * outcome BacklogError unit;
  backlog_get : Hash → Backlog → option Txn;
  backlog_expire : Z → Backlog → Backlog;
  backlog_finalize : Txn → Backlog → Backlog;
  max_backlog_transaction_time_to_live_seconds : Backlog → Z;
  Archive : Type;
  ArchiveError : Type;
  Block : Type;
  block_timestamp : Block → Z;
  block_transactions : Block → list Txn;
  AutomationTask : Type;
  archive_get_transaction : Hash → Archive → outcome ArchiveError (option Txn);
  archive_get_status : Hash → Archive → outcome ArchiveError (option TxExecutionStatus);
  archive_insert_block : Block → Archive → Archive;
  archive_insert_tasks : list AutomationTask → Archive → Archive * outcome ArchiveError unit;
}.

(** The backlog is keyed by the digest: an accepted transaction is found, a
    finalized one is not, and neither expiry nor finalization adds anything. *)
Class StorageLaws (Txn Hash : Type) `{StorageOps Txn Hash} : Prop := {
  backlog_insert_get t b b' : backlog_insert t b = (b', Ok tt) → backlog_get (tx_digest t) b' = Some t;
  backlog_finalize_get t b : backlog_get (tx_digest t) (backlog_finalize t b) = None;
  backlog_finalize_shrinks t h b :
    backlog_get h (backlog_finalize t b) = None ∨
    backlog_get h (backlog_finalize t b) = backlog_get h b;
  backlog_expire_shrinks ts h b :
    backlog_get h (backlog_expire ts b) = None ∨
    backlog_get h (backlog_expire ts b) = backlog_get h b;
}.

Module Storage.
Section storage.
Context {Txn Hash : Type} `{StorageOps Txn Hash}.

Record RpcStorage := { archive : Archive; backlog : Backlog }.

(** [BacklogEntry for RpcBacklogEntry]: the node keeps the transaction, hands
    nothing to a scheduler and expires it at its own expiration time. *)
Definition schedule (tx : Txn) (expected_sequence_number : Z) : Txn * option Txn := (tx, None).
Definition take_transaction (tx : Txn) : Txn * option Txn := (tx, None).
Definition entry_timestamp (tx : Txn) : Z := tx_expiration tx.

Definition get_transaction_by_hash (s : RpcStorage) (hash : Hash)
    : outcome ArchiveError (option Txn) :=
  match backlog_get hash (backlog s) with
  | Some tx => Ok (Some tx)
  | None => archive_get_transaction hash (archive s)
  end.

Definition get_transaction_status (s : RpcStorage) (hash : Hash)
    : outcome ArchiveError (option TxExecutionStatus) :=
  match backlog_get hash (backlog s) with
  | Some _ => Ok (Some St_Pending)
  | None => archive_get_status hash (archive s)
  end.

Definition expire (timestamp : Z) (s : RpcStorage) : RpcStorage :=
  {| archive := archive s; backlog := backlog_expire timestamp (backlog s) |}.

Definition get_max_tx_ttl_secs (s : RpcStorage) : Z :=
  max_backlog_transaction_time_to_live_seconds (backlog s).

(** [ArchiveWrite]. *)
Definition insert_executed_block (block : Block) (s : RpcStorage) : RpcStorage :=
  let s1 := expire (block_timestamp block) s in
  let b := foldl (λ b tx, backlog_finalize tx b) (backlog s1) (block_transactions block) in
  {| archive := archive_insert_block block (archive s1); backlog := b |}.

Definition insert_automation_task_data (tasks : list AutomationTask)
    : M RpcStorage ArchiveError unit :=
  λ s, let (a, o) := archive_insert_tasks tasks (archive s) in
       ({| archive := a; backlog := backlog s |}, o).

(** [TTransactionConsumer]. *)
Definition consume (txn : Txn) : M RpcStorage (TransactionDispatchError BacklogError) unit :=
  λ s, let (b, o) := backlog_insert txn (backlog s) in
       ({| archive := archive s; backlog := b |}, omap_err ConsumptionError o).

Context {laws : StorageLaws Txn Hash}.

Lemma finalize_all_get h l b :
  backlog_get h (foldl (λ b tx, backlog_finalize tx b) b l) = None ∨
  backlog_get h (foldl (λ b tx, backlog_finalize tx b) b l) = backlog_get h b.
Proof.
  revert b. induction l as [|t l IH]; intros b; simpl; [by right|].
  destruct (IH (backlog_finalize t b)) as [?|Heq]; [by left|]. rewrite Heq.
  destruct (backlog_finalize_shrinks t h b); auto.
Qed.

Lemma finalize_all_removes t l b :
  t ∈ l → backlog_get (tx_digest t) (foldl (λ b tx, backlog_finalize tx b) b l) = None.
Proof.
  revert b. induction l as [|t' l IH]; intros b; [by intros ?%not_elem_of_nil|].
  intros [->|Hin]%elem_of_cons; simpl; [|by apply IH].
  destruct (finalize_all_get (tx_digest t') l (backlog_finalize t' b)) as [?|Heq]; [done|].
  rewrite Heq. apply backlog_finalize_get.
Qed.

(** A transaction accepted by the storage is found by its hash and reported
    as pending. *)
Theorem consumed_is_pending t s s' :
  consume t s = (s', Ok tt) →
  get_transaction_by_hash s' (tx_digest t) = Ok (Some t) ∧
  get_transaction_status s' (tx_digest t) = Ok (Some St_Pending).
Proof.
  unfold consume, get_transaction_by_hash, get_transaction_status.
  destruct (backlog_insert t (backlog s)) as [b [[]|e|]] eqn:Hb; simpl; [|done..].
  intros [= <-]. simpl. by rewrite (backlog_insert_get _ _ _ Hb).
Qed.

(** After the block that contains it is executed, a transaction is never
    reported from the backlog again: its data and status are those of the
    archive that stored the block.  A block adds nothing to the backlog. *)
Theorem executed_is_archived block t s :
  let s' := insert_executed_block block s in
  (t ∈ block_transactions block →
   get_transaction_status s' (tx_digest t)
     = archive_get_status (tx_digest t) (archive_insert_block block (archive s)) ∧
   get_transaction_by_hash s' (tx_digest t)
     = archive_get_transaction (tx_digest t) (archive_insert_block block (archive s))) ∧
  ∀ h, backlog_get h (backlog s) = None → backlog_get h (backlog s') = None.
Proof.
  simpl. split.
  - intros Hin. unfold get_transaction_status, get_transaction_by_hash. simpl.
    by rewrite finalize_all_removes.
  - intros h Hn.
    destruct (finalize_all_get h (block_transactions block)
                (backlog_expire (block_timestamp block) (backlog s))) as [?|Heq]; [done|].
    rewrite Heq. destruct (backlog_expire_shrinks (block_timestamp block) h (backlog s));
      congruence.
Qed.
End storage.
Arguments RpcStorage Txn Hash {_}.
End Storage.

(** ** Waiting for the execution of a transaction *)
Module Notification.
Section notification.
Context {ArchiveError : Type}.

(** [wait]: the answers of the archive at the successive ticks; [None] means
    that the call is still waiting after them. *)
Fixpoint wait (polls : list (outcome ArchiveError (option TxExecutionStatus)))
    : option (outcome ArchiveError TxExecutionStatus) :=
  match polls with
  | [] => None
  | p :: polls' =>
      match p with
      | Ok (Some (St_Pending | St_PendingAfterExecution)) => wait polls'
      | Ok None => wait polls'
      | Ok (Some status) => Some (Ok status)
      | Err e => Some (Err e)
      | Panic => Some Panic
      end
  end.

Definition is_pending (p : outcome ArchiveError (option TxExecutionStatus)) : bool :=
  match p with
  | Ok (Some (St_Pending | St_PendingAfterExecution)) | Ok None => true
  | _ => false
  end.

(** Waiting skips every answer that says the transaction is not final yet,
    and returns the first other one: a final status, never a pending one, or
    the error of the archive. *)
Theorem wait_first_final polls o :
  wait polls = Some o ↔
  ∃ before p after, polls = before ++ p :: after ∧
    Forall (λ q, is_pending q = true) before ∧ is_pending p = false ∧
    match o with
    | Ok st => p = Ok (Some st) ∧ st ≠ St_Pending ∧ st ≠ St_PendingAfterExecution
    | Err e => p = Err e
    | Panic => p = Panic
    end.
Proof.
  split.
  - induction polls as [|p polls IH]; simpl; [done|].
    destruct p as [[[]|]|e|]; intros Hw;
      try (destruct (IH Hw) as (b & q & a & -> & Hb & Hq & Ho);
           eexists (_ :: b), q, a; split_and!; [done|by constructor|done|done]);
      simplify_eq; eexists [], _, polls; split_and!; done.
  - intros (before & p & after & -> & Hb & Hp & Ho).
    induction Hb as [|q before Hq Hb IH]; simpl.
    + destruct o as [st|e|]; [destruct Ho as (-> & ? & ?)|subst..]; [|done..]. by destruct st.
    + destruct q as [[[]|]|e|]; simpl in Hq; try done.
Qed.
End notification.
End Notification.

(** ** Examples *)
Module TransactionExamples.
Import Dispatcher.

(** A storage that keeps one transaction. *)
#[export] Instance one_tx_storage : StorageOps Z Z := {
  tx_digest t := t;
  tx_expiration t := t;
  Backlog := option Z;
  BacklogError := unit;
  backlog_insert t b := (Some t, Ok tt);
  backlog_get h b := match b with Some t => if t =? h then Some t else None | None => None end;
  backlog_expire ts b := match b with Some t => if t <? ts then None else b | None => None end;
  backlog_finalize t b := match b with Some t' => if t' =? t then None else b | None => None end;
  max_backlog_transaction_time_to_live_seconds _ := 60;
  Archive := list Z;
  ArchiveError := unit;
  Block := list Z;
  block_timestamp _ := 0;
  block_transactions l := l;
  AutomationTask := unit;
  archive_get_transaction h a := Ok (if bool_decide (h ∈ a) then Some h else None);
  archive_get_status h a := Ok (if bool_decide (h ∈ a) then Some St_Success else None);
  archive_insert_block l a := l ++ a;
  archive_insert_tasks _ a := (a, Ok tt);
}.

#[export] Instance one_tx_laws : StorageLaws Z Z.
Proof.
  split; simpl.
  - intros t b b' [= <-]. by rewrite Z.eqb_refl.
  - intros t [t'|]; [|done]. destruct (Z.eqb_spec t' t) as [|Hne]; [done|].
    by rewrite (proj2 (Z.eqb_neq _ _) Hne).
  - intros t h [t'|]; [|by left]. destruct (t' =? t); auto.
  - intros ts h [t'|]; [|by left]. destruct (t' <? ts); auto.
Qed.

Definition ex_storage : Storage.RpcStorage Z Z :=
  {| Storage.archive := ([] : Archive); Storage.backlog := (None : Backlog) |}.

Lemma consumed_is_pending_witness :
  Storage.get_transaction_status (Storage.consume 5 ex_storage).1 5 = Ok (Some St_Pending).
Proof.
  exact (proj2 (Storage.consumed_is_pending 5 ex_storage (Storage.consume 5 ex_storage).1 eq_refl)).
Defined.

Lemma executed_is_archived_witness :
  Storage.get_transaction_status
    (Storage.insert_executed_block ([5; 6] : Block) (Storage.consume 5 ex_storage).1) 5
  = Ok (Some St_Success).
Proof.
  exact (proj1 (proj1 (Storage.executed_is_archived ([5; 6] : Block) 5
    (Storage.consume 5 ex_storage).1) (list_elem_of_here 5 [6]))).
Defined.
End TransactionExamples.
