(* ===== verification/Faucet.v ===== *)
(** * The faucet

    [src/rpc_node/src/rest/faucet/mod.rs], [minter_account.rs] and
    [faucet_impl.rs].  Funding transactions are built with the sequence number
    of the minter, dispatched, and awaited; a delegate is busy from the moment
    it picks up a request until its transaction is settled or its task gives up.

    The executable definitions run a request to its answer; the tasks they
    spawn, and the requests served at the same time, are the steps of
    [faucet_step], whose atomic updates of a delegate are the same functions. *)

From S2P Require Import Prelude Transactions.
From stdpp Require Import base tactics option list relations.
From Stdlib Require Import ZArith Lia.
Local Open Scope Z_scope.

Definition FAUCET_MAX_GAS : Z := 500000.
Definition FAUCET_GAS_UNIT_PRICE : Z := 100.
Definition FAUCET_TRANSACTION_EXPIRY_SECONDS : Z := 60.

(** [aptos_types::transaction::RawTransaction::new]. *)
Record RawTransaction (Account Payload ChainId : Type) := {
  raw_sender : Account;
  raw_sequence_number : Z;
  raw_payload : Payload;
  raw_max_gas : Z;
  raw_gas_unit_price : Z;
  raw_expiration : Z;
  raw_chain_id : ChainId;
}.
Arguments raw_sender {Account Payload ChainId}.
Arguments raw_sequence_number {Account Payload ChainId}.
Arguments raw_payload {Account Payload ChainId}.

(** What the faucet uses of the Move store, the signing library and the
    standard library of transactions; [W] is the state of the world. *)
Class FaucetEnv (W : Type) : Type := {
  Account : Type;
  Key : Type;
  Payload : Type;
  ChainId : Type;
  FTxn : Type;
  FHash : Type;
  Cause : Type;
  FArchiveError : Type;
  AnyHow : Type;
  f_digest : FTxn → FHash;
  (** [read_resource::<AccountResource>(account)] and its sequence number. *)
  account_sequence_number : W → Account → option Z;
  store_chain_id : W → option ChainId;
  no_chain_id : Cause;
  (** [raw.sign(key, key.public_key())], then [into_inner().into()]. *)
  sign : RawTransaction Account Payload ChainId → Key → option FTxn;
  dispatcher : Dispatcher.TransactionDispatcher W FTxn Cause;
  (** Payloads of [aptos_stdlib] and of [MINTER_SCRIPT]. *)
  supra_account_transfer : Account → Z → Payload;
  supra_coin_delegate_mint_capability : Account → Payload;
  supra_coin_claim_mint_capability : Payload;
  minter_script : Account → Z → Payload;
  root_account : Account;
  root_key : Key;
}.

Section errors.
Context `{FaucetEnv}.

Inductive IssuingError : Type :=
| BadTransaction (tx_hash : FHash) (status : TxExecutionStatus)
| IssuingArchiveError (e : FArchiveError).

Inductive MinterAccountError : Type :=
| MA_Issuing (inner : IssuingError) (account : Account)
| MA_Join
| MA_WaitBudgetExhausted
| MA_TxStatusError (e : TransactionDispatchError Cause)
| MA_AnyHow (e : AnyHow).

Record MinterAccount := { ma_address : Account; ma_secret_key : Key }.

Inductive Delegate : Type :=
| Busy (minter : MinterAccount) (target_account : Account)
| Free (minter : MinterAccount).
End errors.

(** ** Issuing transactions ([mod.rs]) *)
Module Issue.
Section issue.
Context {W : Type} `{FaucetEnv W}.
Local Open Scope rust_scope.

(** [now] is the reading of [SmrTimestamp::now] in seconds. *)
Definition make_smr_move_tx {E} (tx_payload : Payload) (sequence_number : Z)
    (chain_id : ChainId) (sender_account : Account) (sender_key : Key) (now : Z)
    : outcome E FTxn :=
  let? expiration := add64 now FAUCET_TRANSACTION_EXPIRY_SECONDS in
  expect (sign {| raw_sender := sender_account; raw_sequence_number := sequence_number;
                  raw_payload := tx_payload; raw_max_gas := FAUCET_MAX_GAS;
                  raw_gas_unit_price := FAUCET_GAS_UNIT_PRICE;
                  raw_expiration := expiration; raw_chain_id := chain_id |} sender_key).

(** The sequence number and the hash; the spawned task is [issue_handle]. *)
Definition issue_tx (tx_payload : Payload) (sender_account : Account) (sender_key : Key)
    (now : Z) : M W (TransactionDispatchError Cause) (Z * FHash) :=
  sequence_number <- (λ w, (w, expect (account_sequence_number w sender_account))) ;;
  chain_id <- (λ w, (w, ok_or (store_chain_id w) (DispatchFatal no_chain_id))) ;;
  tx <- rlift (make_smr_move_tx tx_payload sequence_number chain_id sender_account sender_key now) ;;
  tx_hash <- Dispatcher.send f_digest dispatcher tx ;;
  rret (sequence_number, tx_hash).

(** [polls] are the answers of the archive; [None]: not settled after them. *)
Definition issue_handle (tx_hash : FHash)
    (polls : list (outcome FArchiveError (option TxExecutionStatus)))
    : option (outcome IssuingError FHash) :=
  match Notification.wait polls with
  | None => None
  | Some (Ok St_Success) => Some (Ok tx_hash)
  | Some (Ok ((St_Fail | St_Invalid) as status)) => Some (Err (BadTransaction tx_hash status))
  | Some (Ok (St_Pending | St_PendingAfterExecution)) => Some Panic
  | Some (Err e) => Some (Err (IssuingArchiveError e))
  | Some Panic => Some Panic
  end.

(** One turn of the loop of [ensure_tx]: the clock, what the rest of the world
    did before, and the answers of the archive. *)
Record Round := {
  rd_now : Z;
  rd_world : W → W;
  rd_polls : list (outcome FArchiveError (option TxExecutionStatus));
}.

(** [ensure_tx]: the rounds that fit into [max_wait_time]; a panic of the
    awaited task is a [JoinError]. *)
Fixpoint ensure_tx (tx_payload : Payload) (sender_account : Account) (sender_key : Key)
    (rounds : list Round) : M W MinterAccountError FHash :=
  match rounds with
  | [] => rfail MA_WaitBudgetExhausted
  | r :: rounds' =>
      rmodify (rd_world r) ;;
      sh <- (λ w, let (w', o) := issue_tx tx_payload sender_account sender_key (rd_now r) w in
                  (w', omap_err MA_TxStatusError o)) ;;
      match issue_handle sh.2 (rd_polls r) with
      | None => rfail MA_WaitBudgetExhausted
      | Some (Ok tx_hash) => rret tx_hash
      | Some (Err (BadTransaction _ _)) => ensure_tx tx_payload sender_account sender_key rounds'
      | Some (Err err) => rfail (MA_Issuing err sender_account)
      | Some Panic => rfail MA_Join
      end
  end.

(** A transaction is ensured only by its own execution: when [ensure_tx]
    returns a hash, the transaction with that hash was built in the last
    round from the sequence number the sender then had, dispatched, and its
    final status is success; every earlier round ended in a transaction with
    a bad final status. *)
Theorem ensure_tx_executed payload sender key rounds w w' h :
  ensure_tx payload sender key rounds w = (w', Ok h) →
  ∃ before r after w1 seq,
    rounds = before ++ r :: after ∧
    issue_tx payload sender key (rd_now r) (rd_world r w1) = (w', Ok (seq, h)) ∧
    account_sequence_number (rd_world r w1) sender = Some seq ∧
    Notification.wait (rd_polls r) = Some (Ok St_Success) ∧
    Forall (λ q, ∃ st, Notification.wait (rd_polls q) = Some (Ok st) ∧
                       (st = St_Fail ∨ st = St_Invalid)) before.
Proof.
  revert w. induction rounds as [|r rounds IH]; intros w; simpl; [done|].
  unfold rthen at 1, rmodify. unfold rthen.
  destruct (issue_tx payload sender key (rd_now r) (rd_world r w)) as [w1 [[seq th]|e|]] eqn:Hi;
    simpl; [|done..].
  unfold issue_handle. destruct (Notification.wait (rd_polls r)) as [[st|e|]|] eqn:Hw; [|done..].
  destruct st; [| | |done|done].
  - intros [= <- <-]. exists [], r, rounds, w, seq. split_and!; try done.
    unfold issue_tx, rthen in Hi.
    destruct (account_sequence_number (rd_world r w) sender) as [n|]; simpl in Hi; [|done].
    destruct (store_chain_id (rd_world r w)) as [c|]; simpl in Hi; [|done].
    unfold rlift in Hi. destruct (make_smr_move_tx _ _ _ _ _ _) as [tx| |]; [|done..].
    destruct (Dispatcher.send _ _ _ _) as [w2 [hh| |]]; [|done..]. by injection Hi as _ <- _.
  - intros Hrest. destruct (IH _ Hrest) as (b & q & a & w2 & n & -> & Hiq & Hseq & Hwq & Hb).
    exists (r :: b), q, a, w2, n. split_and!; try done. constructor; [|done]. eauto.
  - intros Hrest. destruct (IH _ Hrest) as (b & q & a & w2 & n & -> & Hiq & Hseq & Hwq & Hb).
    exists (r :: b), q, a, w2, n. split_and!; try done. constructor; [|done]. eauto.
Qed.
End issue.
End Issue.

(** ** Minters ([minter_account.rs]) *)
Module Minter.
Section minter.
Context {W : Type} `{FaucetEnv W}.
Import Issue.
Local Open Scope rust_scope.

Definition INITIAL_BALANCE : Z := 10 * 1000000000.

(** [profile] is the freshly generated key material; the rounds are those of
    the three calls of [ensure_tx]. *)
Definition generate (profile : outcome AnyHow MinterAccount)
    (rounds1 rounds2 rounds3 : list Round) : M W MinterAccountError MinterAccount :=
  minter <- rlift (omap_err MA_AnyHow profile) ;;
  ensure_tx (supra_account_transfer (ma_address minter) INITIAL_BALANCE)
    root_account root_key rounds1 ;;
  ensure_tx (supra_coin_delegate_mint_capability (ma_address minter))
    root_account root_key rounds2 ;;
  ensure_tx supra_coin_claim_mint_capability
    (ma_address minter) (ma_secret_key minter) rounds3 ;;
  rret minter.

(** [MinterAccount::try_fund]: the hash; the spawned task is [fund_handle]. *)
Definition try_fund (minter : MinterAccount) (account_address : Account) (amount now : Z)
    : M W (TransactionDispatchError Cause) FHash :=
  sh <- issue_tx (minter_script account_address amount)
          (ma_address minter) (ma_secret_key minter) now ;;
  rret sh.2.

(** The task is bounded in time: unsettled answers exhaust the budget. *)
Definition fund_handle (minter : MinterAccount) (tx_hash : FHash)
    (polls : list (outcome FArchiveError (option TxExecutionStatus)))
    : outcome MinterAccountError FHash :=
  match issue_handle tx_hash polls with
  | None => Err MA_WaitBudgetExhausted
  | Some (Ok h) => Ok h
  | Some (Err e) => Err (MA_Issuing e (ma_address minter))
  | Some Panic => Err MA_Join
  end.
End minter.
End Minter.

(** ** The faucet and its delegates ([faucet_impl.rs]) *)
Module FaucetImpl.
Section faucet.
Context {W : Type} `{FaucetEnv W}.
Local Open Scope rust_scope.

Definition delegate_is_free (d : Delegate) : bool :=
  match d with Free _ => true | Busy _ _ => false end.

(** The contents of the mutex of a [DelegateState]. *)
Definition Cell : Type := option Delegate.

Record Faucet := { delegates : list Cell; quants_granted_per_request : Z }.

Definition new_delegate_state (minter : MinterAccount) : Cell := Some (Free minter).

Definition new_with_no_delegates (coins_granted_per_request : Z) : Faucet :=
  {| delegates := []; quants_granted_per_request := coins_granted_per_request |}.

Definition new (minter_accounts : list MinterAccount) (quants : Z) : Faucet :=
  {| delegates := new_delegate_state <$> minter_accounts;
     quants_granted_per_request := quants |}.

(** [prepare]: minters that cannot be generated are left out. *)
Fixpoint prepare (attempts : list (M W MinterAccountError MinterAccount))
    : M W MinterAccountError (list MinterAccount) :=
  match attempts with
  | [] => rret []
  | a :: attempts' =>
      λ w, match a w with
           | (w', Ok minter) => (rest <- prepare attempts' ;; rret (minter :: rest)) w'
           | (w', Err _) => prepare attempts' w'
           | (w', Panic) => (w', Panic)
           end
  end.

Definition is_free {E} (c : Cell) : outcome E bool :=
  let? d := expect c in Ok (delegate_is_free d).

(** The critical section at the start of [DelegateState::try_fund]. *)
Definition claim {E} (account_address : Account) (c : Cell)
    : outcome E (option MinterAccount * Cell) :=
  let? d := expect c in
  match d with
  | Busy _ _ => Ok (None, c)
  | Free minter => Ok (Some minter, Some (Busy minter account_address))
  end.

(** The critical sections that give the delegate back. *)
Definition release (minter : MinterAccount) : Cell := Some (Free minter).

(** [DelegateState::try_fund], for the minter's [fund]: the new contents of
    the cell and the answer; on success the spawned task keeps the delegate
    busy. *)
Definition delegate_try_fund (fund : MinterAccount → M W (TransactionDispatchError Cause) FHash)
    (account_address : Account) (c : Cell) (w : W)
    : (W * Cell) * outcome unit (option (outcome (TransactionDispatchError Cause) FHash)) :=
  match claim account_address c with
  | Ok (None, c') => ((w, c'), Ok None)
  | Ok (Some minter, c') =>
      match fund minter w with
      | (w', Ok tx_hash) => ((w', c'), Ok (Some (Ok tx_hash)))
      | (w', Err err) => ((w', release minter), Ok (Some (Err err)))
      | (w', Panic) => ((w', c'), Panic)
      end
  | Err e => ((w, c), Err e)
  | Panic => ((w, c), Panic)
  end.

(** The loop of [Faucet::try_fund] over the delegates not tried yet. *)
Fixpoint try_delegates (fund : MinterAccount → M W (TransactionDispatchError Cause) FHash)
    (account : Account) (ds : list Cell) (w : W)
    : (W * list Cell) * outcome unit (option FHash) :=
  match ds with
  | [] => ((w, []), Ok None)
  | c :: ds' =>
      match delegate_try_fund fund account c w with
      | ((w', c'), Ok (Some (Ok tx_hash))) => ((w', c' :: ds'), Ok (Some tx_hash))
      | ((w', c'), Ok (Some (Err _))) | ((w', c'), Ok None) =>
          match try_delegates fund account ds' w' with
          | ((w'', ds''), o) => ((w'', c' :: ds''), o)
          end
      | ((w', c'), Ok (Some Panic)) | ((w', c'), Panic) => ((w', c' :: ds'), Panic)
      | ((w', c'), Err e) => ((w', c' :: ds'), Err e)
      end
  end.

Definition count_free (ds : list Cell) : outcome unit nat :=
  omap_ok (λ bs, length (filter (λ b, b = true) bs)) (otraverse is_free ds).

Definition try_fund (now : Z) (account : Account) (f : Faucet) (w : W)
    : (W * Faucet) * outcome unit (option FHash) :=
  match count_free (delegates f) with
  | Ok O => ((w, f), Ok None)
  | Ok _ =>
      match try_delegates
              (λ m, Minter.try_fund m account (quants_granted_per_request f) now)
              account (delegates f) w with
      | ((w', ds'), o) =>
          ((w', {| delegates := ds'; quants_granted_per_request := quants_granted_per_request f |}), o)
      end
  | Err e => ((w, f), Err e)
  | Panic => ((w, f), Panic)
  end.

(** *** One request *)
Definition all_present (ds : list Cell) : Prop := Forall (λ c, is_Some c) ds.

Definition answers (fund : MinterAccount → M W (TransactionDispatchError Cause) FHash) : Prop :=
  ∀ m w, (fund m w).2 ≠ Panic.

Lemma try_delegates_spec fund account ds w :
  all_present ds → answers fund →
  match try_delegates fund account ds w with
  | ((w', ds'), Ok (Some h)) =>
      ∃ i m w1, ds !! i = Some (Some (Free m)) ∧ fund m w1 = (w', Ok h) ∧
                ds' = <[i := Some (Busy m account)]> ds
  | ((w', ds'), Ok None) => ds' = ds
  | _ => False
  end.
Proof.
  intros Hd Hf. revert w. induction Hd as [|c ds [d ->] Hd IH]; intros w; simpl; [done|].
  unfold delegate_try_fund, claim. simpl. destruct d as [m t|m]; simpl.
  - specialize (IH w). destruct (try_delegates fund account ds w) as [[w' ds'] [[h|]|e|]]; [| |done..].
    + destruct IH as (i & m' & w1 & Hi & Hfund & ->). by exists (S i), m', w1.
    + by subst.
  - specialize (Hf m w). destruct (fund m w) as [w1 [h|e|]] eqn:Hm; [| |done].
    + by exists O, m, w.
    + specialize (IH w1). unfold release.
      destruct (try_delegates fund account ds w1) as [[w' ds'] [[h|]|e'|]]; [| |done..].
      * destruct IH as (i & m' & w2 & Hi & Hfund & ->). by exists (S i), m', w2.
      * by subst.
Qed.

Lemma count_free_total ds : all_present ds → ∃ n, count_free ds = Ok n.
Proof.
  intros Hd. unfold count_free.
  assert (∃ bs, otraverse (E:=unit) is_free ds = Ok bs) as [bs ->]; [|by eexists].
  induction Hd as [|c ds [d ->] Hd [bs IH]]; [by exists []|]. simpl. rewrite IH. by eexists.
Qed.

(** A funding request that is accepted was dispatched by exactly one free
    delegate, which is busy afterwards with this request; every other
    delegate is as before, those whose dispatch failed included.  A request
    that is not accepted changes no delegate.  The faucet itself never
    panics. *)
Theorem try_fund_one_delegate now account f w :
  all_present (delegates f) →
  answers (λ m, Minter.try_fund m account (quants_granted_per_request f) now) →
  match try_fund now account f w with
  | ((w', f'), Ok (Some h)) =>
      ∃ i m w1, delegates f !! i = Some (Some (Free m)) ∧
        Minter.try_fund m account (quants_granted_per_request f) now w1 = (w', Ok h) ∧
        delegates f' = <[i := Some (Busy m account)]> (delegates f)
  | ((w', f'), Ok None) => delegates f' = delegates f
  | _ => False
  end.
Proof.
  intros Hd Hf. unfold try_fund. destruct (count_free_total _ Hd) as [n ->].
  destruct n as [|n]; [done|].
  pose proof (try_delegates_spec _ account (delegates f) w Hd Hf) as Hs.
  destruct (try_delegates _ account (delegates f) w) as [[w' ds'] [[h|]|e|]]; [|done..].
  destruct Hs as (i & m & w1 & ? & ? & ?). by exists i, m, w1.
Qed.

(** *** Concurrent requests and spawned tasks *)
Inductive Phase : Type := Submitting | Settling (tx_hash : FHash).

(** A running funding: its delegate, its minter and how far it is. *)
Record Flight := { fl_index : nat; fl_minter : MinterAccount; fl_phase : Phase }.

(** [given_up]: the accepted transactions, by delegate, whose task ended without
    having seen their final status. *)
Record FaucetState := {
  cells : list Cell;
  flights : list Flight;
  given_up : list (nat * FHash);
}.

(** The task saw the final status of the transaction; otherwise the time was over, the
    archive failed or the awaited task panicked. *)
Definition settles (o : outcome MinterAccountError FHash) : bool :=
  match o with
  | Ok _ | Err (MA_Issuing (BadTransaction _ _) _) => true
  | _ => false
  end.

(** [step_lost]: the request panics or is dropped before the transaction is accepted,
    and the delegate stays busy; [step_shutdown]: the task is cancelled. *)
Inductive faucet_step : FaucetState → FaucetState → Prop :=
| step_claim cs fs gs i a c m c' :
    cs !! i = Some c → claim (E:=unit) a c = Ok (Some m, c') →
    faucet_step {| cells := cs; flights := fs; given_up := gs |}
      {| cells := <[i := c']> cs;
         flights := {| fl_index := i; fl_minter := m; fl_phase := Submitting |} :: fs;
         given_up := gs |}
| step_submitted cs fs1 fs2 gs i m tx_hash :
    faucet_step
      {| cells := cs; flights := fs1 ++ {| fl_index := i; fl_minter := m;
                                          fl_phase := Submitting |} :: fs2; given_up := gs |}
      {| cells := cs; flights := fs1 ++ {| fl_index := i; fl_minter := m;
                                          fl_phase := Settling tx_hash |} :: fs2; given_up := gs |}
| step_rejected cs fs1 fs2 gs i m :
    faucet_step
      {| cells := cs; flights := fs1 ++ {| fl_index := i; fl_minter := m;
                                          fl_phase := Submitting |} :: fs2; given_up := gs |}
      {| cells := <[i := release m]> cs; flights := fs1 ++ fs2; given_up := gs |}
| step_lost cs fs1 fs2 gs i m :
    faucet_step
      {| cells := cs; flights := fs1 ++ {| fl_index := i; fl_minter := m;
                                          fl_phase := Submitting |} :: fs2; given_up := gs |}
      {| cells := cs; flights := fs1 ++ fs2; given_up := gs |}
| step_ended cs fs1 fs2 gs i m tx_hash polls :
    faucet_step
      {| cells := cs; flights := fs1 ++ {| fl_index := i; fl_minter := m;
                                          fl_phase := Settling tx_hash |} :: fs2; given_up := gs |}
      {| cells := <[i := release m]> cs; flights := fs1 ++ fs2;
         given_up := if settles (Minter.fund_handle m tx_hash polls) then gs else (i, tx_hash) :: gs |}
| step_shutdown cs fs1 fs2 gs i m tx_hash :
    faucet_step
      {| cells := cs; flights := fs1 ++ {| fl_index := i; fl_minter := m;
                                          fl_phase := Settling tx_hash |} :: fs2; given_up := gs |}
      {| cells := cs; flights := fs1 ++ fs2; given_up := (i, tx_hash) :: gs |}.

(** The transactions of a delegate that were accepted and not seen settled: those of
    its running fundings and those given up. *)
Definition running (i : nat) (s : FaucetState) : list FHash :=
  omap (λ f, match fl_phase f with
             | Settling h => if decide (fl_index f = i) then Some h else None
             | Submitting => None
             end) (flights s).
Definition given_up_of (i : nat) (s : FaucetState) : list FHash :=
  (filter (λ g, g.1 = i) (given_up s)).*2.
Definition unsettled (i : nat) (s : FaucetState) : list FHash := running i s ++ given_up_of i s.

Definition owns (c : Cell) (m : MinterAccount) : Prop :=
  c = Some (Free m) ∨ ∃ a, c = Some (Busy m a).

Record faucet_inv (minters : list MinterAccount) (s : FaucetState) : Prop := {
  fi_cells : Forall2 owns (cells s) minters;
  fi_nodup : NoDup (fl_index <$> flights s);
  fi_busy f : f ∈ flights s →
    minters !! fl_index f = Some (fl_minter f) ∧
    ∃ a, cells s !! fl_index f = Some (Some (Busy (fl_minter f) a));
}.

Lemma owns_release m : owns (release m) m.
Proof. by left. Qed.

(** Dropping a flight, and giving its delegate back or not. *)
Lemma drop_flight_inv minters cs fs1 fs2 gs gs' i m p (c : Cell) :
  faucet_inv minters {| cells := cs; flights := fs1 ++ {| fl_index := i; fl_minter := m;
                                                         fl_phase := p |} :: fs2; given_up := gs |} →
  cs !! i = Some c ∨ c = release m →
  faucet_inv minters {| cells := <[i := c]> cs; flights := fs1 ++ fs2; given_up := gs' |}.
Proof.
  intros [Hc Hn Hb] Hor. simpl in *.
  assert (minters !! i = Some m ∧ ∃ a, cs !! i = Some (Some (Busy m a))) as [Hmi [a Ha]].
  { apply (Hb {| fl_index := i; fl_minter := m; fl_phase := p |}). apply elem_of_app. right. by left. }
  rewrite fmap_app, fmap_cons in Hn. simpl in Hn.
  apply NoDup_app in Hn as (Hn1 & Hdis & Hn2). apply NoDup_cons in Hn2 as [Hni Hn2].
  split; simpl.
  - destruct Hor as [Hor| ->]; [by rewrite list_insert_id|].
    rewrite <- (list_insert_id minters i m Hmi). apply Forall2_insert; [done|apply owns_release].
  - rewrite fmap_app. apply NoDup_app. split_and!; try done.
    intros x Hx Hx2. apply (Hdis x Hx). by right.
  - intros f Hf. assert (fl_index f ≠ i) as Hne.
    { intros Heq. apply elem_of_app in Hf as [Hf|Hf].
      - apply (Hdis i); [|by left]. rewrite <- Heq. by apply list_elem_of_fmap_2.
      - apply Hni. rewrite <- Heq. by apply list_elem_of_fmap_2. }
    rewrite list_lookup_insert_ne by done. apply Hb.
    apply elem_of_app. apply elem_of_app in Hf as [Hf|Hf]; [by left|right; by right].
Qed.

Lemma forget_flight_inv minters cs fs1 fs2 gs gs' i m p :
  faucet_inv minters {| cells := cs; flights := fs1 ++ {| fl_index := i; fl_minter := m;
                                                         fl_phase := p |} :: fs2; given_up := gs |} →
  faucet_inv minters {| cells := cs; flights := fs1 ++ fs2; given_up := gs' |}.
Proof.
  intros Hinv. destruct (fi_busy _ _ Hinv {| fl_index := i; fl_minter := m; fl_phase := p |})
    as [_ [a Ha]]; [apply elem_of_app; right; by left|]. simpl in Ha.
  pose proof (drop_flight_inv _ _ _ _ _ gs' _ _ _ _ Hinv (or_introl Ha)) as Hd.
  by rewrite list_insert_id in Hd.
Qed.

Lemma faucet_step_inv minters s s' :
  faucet_step s s' → faucet_inv minters s → faucet_inv minters s'.
Proof.
  intros [cs fs gs i a c m c' Hi Hcl|cs fs1 fs2 gs i m h|cs fs1 fs2 gs i m|cs fs1 fs2 gs i m
         |cs fs1 fs2 gs i m h polls|cs fs1 fs2 gs i m h] Hinv.
  - destruct Hinv as [Hc Hn Hb]. simpl in *. unfold claim in Hcl.
    destruct c as [[]|]; simpl in Hcl; try done. injection Hcl as -> <-.
    destruct (Forall2_lookup_l _ _ _ _ _ Hc Hi) as (m' & Hmi & Ho).
    assert (m' = m) as -> by (destruct Ho as [[= ->]|[? [=]]]; done).
    assert (i ∉ fl_index <$> fs) as Hnew.
    { intros (f & -> & Hf)%list_elem_of_fmap. destruct (Hb f Hf) as [_ [? Hcell]].
      pose proof (eq_trans (eq_sym Hi) Hcell) as Hx. discriminate Hx. }
    split; simpl.
    + rewrite <- (list_insert_id minters i m Hmi). apply Forall2_insert; [done|right; by eexists].
    + by constructor.
    + intros f [->|Hf]%elem_of_cons; simpl.
      * split; [done|]. rewrite list_lookup_insert_eq by by eapply lookup_lt_Some. by eexists.
      * rewrite list_lookup_insert_ne; [by apply Hb|].
        intros Heq. apply Hnew. rewrite Heq. by apply list_elem_of_fmap_2.
  - destruct Hinv as [Hc Hn Hb]. simpl in *. rewrite fmap_app, fmap_cons in Hn.
    split; simpl; [done|by rewrite fmap_app, fmap_cons|].
    intros f Hf. apply elem_of_app in Hf as [Hf|[->|Hf]%elem_of_cons].
    + apply Hb. apply elem_of_app. by left.
    + apply (Hb {| fl_index := i; fl_minter := m; fl_phase := Submitting |}).
      apply elem_of_app. right. by left.
    + apply Hb. apply elem_of_app. right. by right.
  - eapply drop_flight_inv; [done|by right].
  - by eapply forget_flight_inv.
  - eapply drop_flight_inv; [done|by right].
  - by eapply forget_flight_inv.
Qed.

Lemma running_none i fs gs cs :
  i ∉ fl_index <$> fs → running i {| cells := cs; flights := fs; given_up := gs |} = [].
Proof.
  unfold running. simpl. induction fs as [|f fs IH]; simpl; [done|].
  intros [Hne Hin]%not_elem_of_cons. destruct (fl_phase f); [by apply IH|].
  rewrite decide_False by done. by apply IH.
Qed.

Lemma running_bound i s : NoDup (fl_index <$> flights s) → (length (running i s) ≤ 1)%nat.
Proof.
  destruct s as [cs fs gs]. unfold running. simpl. induction fs as [|f fs IH]; simpl; [lia|].
  intros [Hni Hn]%NoDup_cons. specialize (IH Hn). destruct (fl_phase f); [done|].
  case_decide as Heq; [|done]. subst i. apply le_n_S.
  change (length (running (fl_index f) {| cells := cs; flights := fs; given_up := gs |}) ≤ 0)%nat.
  by rewrite running_none.
Qed.

Lemma flights_nodup minters (fs : list Flight) :
  NoDup (fl_index <$> fs) → (∀ f, f ∈ fs → minters !! fl_index f = Some (fl_minter f)) →
  NoDup (ma_address <$> minters) → NoDup ((λ f, ma_address (fl_minter f)) <$> fs).
Proof.
  intros Hn Hm Hd. induction fs as [|f fs IH]; simpl; [constructor|].
  apply NoDup_cons in Hn as [Hni Hn]. constructor; [|apply IH; [done|]; intros; apply Hm; by right].
  intros (g & Heq & Hg)%list_elem_of_fmap. apply Hni. apply list_elem_of_fmap. exists g. split; [|done].
  eapply (NoDup_lookup (ma_address <$> minters)); [done|..]; rewrite list_lookup_fmap, Hm;
    [reflexivity|by left|simpl; by rewrite Heq|by right].
Qed.

(** C13 However requests and tasks interleave, no delegate is ever left without
    contents (so that no [expect] on it fails), every running funding belongs to a
    delegate marked busy with the minter that delegate was made for, and no two running
    fundings share a delegate, nor an account if the minters have different ones.  The
    accepted transactions of a delegate whose final status was not seen are at most one
    and those its tasks gave up: after the time budget, on an error of the archive or at
    the shutdown. *)
Theorem one_funding_per_minter minters quants s :
  rtc faucet_step {| cells := delegates (new minters quants); flights := []; given_up := [] |} s →
  Forall (λ c, is_Some c) (cells s) ∧
  NoDup (fl_index <$> flights s) ∧
  (∀ f, f ∈ flights s →
     minters !! fl_index f = Some (fl_minter f) ∧
     ∃ a, cells s !! fl_index f = Some (Some (Busy (fl_minter f) a))) ∧
  (NoDup (ma_address <$> minters) → NoDup ((λ f, ma_address (fl_minter f)) <$> flights s)) ∧
  ∀ i, (length (unsettled i s) ≤ 1 + length (given_up_of i s))%nat.
Proof.
  intros Hr. assert (faucet_inv minters s) as [Hc Hn Hb].
  { eapply (rtc_ind_r (faucet_inv minters)); [|by intros; eapply faucet_step_inv|exact Hr].
    split; simpl; [|constructor|by intros f ?%not_elem_of_nil].
    clear Hr. induction minters as [|m ms IH]; simpl; constructor; [by left|done]. }
  split_and!; [|done|done| |].
  - clear -Hc. induction Hc as [|c m cs ms Ho Hc IH]; constructor; [|done].
    destruct Ho as [->|[a ->]]; by eexists.
  - apply (flights_nodup minters); [done|]. intros f Hf. by apply Hb.
  - intros i. unfold unsettled. rewrite length_app. pose proof (running_bound i s Hn). lia.
Qed.
End faucet.
End FaucetImpl.

(** ** Examples *)
Module FaucetExamples.
Import Issue FaucetImpl.

(** A world that is the list of dispatched transactions; account 9 cannot
    dispatch. *)
#[export] Instance ex_env : FaucetEnv (list Z) := {
  Account := Z; Key := unit; Payload := Z; ChainId := unit; FTxn := Z; FHash := Z;
  Cause := unit; FArchiveError := unit; AnyHow := unit;
  f_digest t := t;
  account_sequence_number w _ := Some (Z.of_nat (length w));
  store_chain_id _ := Some tt;
  no_chain_id := tt;
  sign raw _ := Some (1000 * raw_sender raw + raw_sequence_number raw);
  dispatcher := {| Dispatcher.consumers :=
    [λ t w, if t / 1000 =? 9 then (w, Err (ConsumptionError tt)) else (t :: w, Ok tt)] |};
  supra_account_transfer a _ := a;
  supra_coin_delegate_mint_capability a := a;
  supra_coin_claim_mint_capability := 0;
  minter_script a _ := a;
  root_account := 1;
  root_key := tt;
}.

Definition ex_account (a : Z) : Account (W:=list Z) := a.
Definition ex_payload (a : Z) : Payload (W:=list Z) := a.
Definition ex_key : Key (W:=list Z) := tt.
Definition ex_hash (h : Z) : FHash (W:=list Z) := h.
Definition ex_minter (a : Z) : MinterAccount (W:=list Z) :=
  {| ma_address := ex_account a; ma_secret_key := ex_key |}.

(** The first transaction fails, the second one succeeds. *)
Definition ex_rounds : list (Round (W:=list Z)) :=
  [{| rd_now := 100; rd_world := id; rd_polls := [Ok None; Ok (Some St_Fail)] |};
   {| rd_now := 105; rd_world := id; rd_polls := [Ok (Some St_Pending); Ok (Some St_Success)] |}].

Lemma ensure_tx_executed_witness :
  ensure_tx (W:=list Z) (ex_payload 7) (ex_account 2) ex_key ex_rounds []
  = ([2001; 2000], Ok (ex_hash 2001)) ∧
  ∃ r, r ∈ ex_rounds ∧ Notification.wait (rd_polls r) = Some (Ok St_Success).
Proof.
  split; [reflexivity|].
  destruct (ensure_tx_executed (W:=list Z) (ex_payload 7) (ex_account 2) ex_key ex_rounds []
    [2001; 2000] (ex_hash 2001) eq_refl) as (b & r & a & w1 & n & Hr & _ & _ & Hw & _).
  exists r. split; [|exact Hw]. rewrite Hr. apply elem_of_app. right. left.
Defined.

(** The delegate of account 9 fails, the one of account 3 takes the request. *)
Definition ex_faucet : Faucet (W:=list Z) := new [ex_minter 9; ex_minter 3] 50.

Lemma try_fund_one_delegate_witness :
  match try_fund 100 (ex_account 5) ex_faucet [] with
  | ((w', f'), Ok (Some h)) => h = ex_hash 3000
  | _ => False
  end ∧
  match try_fund 100 (ex_account 5) ex_faucet [] with
  | ((w', f'), Ok (Some h)) =>
      ∃ i m w1, delegates ex_faucet !! i = Some (Some (Free m)) ∧
        Minter.try_fund m (ex_account 5) 50 100 w1 = (w', Ok h) ∧
        delegates f' = <[i := Some (Busy m (ex_account 5))]> (delegates ex_faucet)
  | ((w', f'), Ok None) => delegates f' = delegates ex_faucet
  | _ => False
  end.
Proof.
  split; [reflexivity|].
  apply (try_fund_one_delegate 100 (ex_account 5) ex_faucet []).
  - repeat constructor; by eexists.
  - intros [a []] w. unfold Minter.try_fund, issue_tx, rthen. simpl.
    unfold Dispatcher.send, rthen. simpl. unfold rthen. by destruct (_ =? 9).
Defined.

(** A delegate whose task has waited in vain takes the next request: two of its
    transactions are unsettled. *)
Definition ex_flight (p : Phase (W:=list Z)) : Flight (W:=list Z) :=
  {| fl_index := 1; fl_minter := ex_minter 3; fl_phase := p |}.

Lemma one_funding_per_minter_witness :
  ∃ s, rtc faucet_step {| cells := delegates ex_faucet; flights := []; given_up := [] |} s ∧
       unsettled 1 s = [ex_hash 3001; ex_hash 3000] ∧
       NoDup ((λ f, ma_address (fl_minter f)) <$> flights s) ∧
       (length (unsettled 1 s) ≤ 1 + length (given_up_of 1 s))%nat.
Proof.
  set (busy := Some (Busy (ex_minter 3) (ex_account 5))).
  set (cs := <[1%nat := busy]> (delegates ex_faucet)).
  assert (rtc faucet_step {| cells := delegates ex_faucet; flights := []; given_up := [] |}
    {| cells := cs; flights := [ex_flight (Settling (ex_hash 3001))]; given_up := [(1%nat, ex_hash 3000)] |})
    as Hr.
  { eapply rtc_l; [eapply (step_claim _ _ _ 1 (ex_account 5)); reflexivity|].
    eapply rtc_l; [apply (step_submitted _ [] [] _ _ _ (ex_hash 3000))|].
    eapply rtc_l; [apply (step_ended _ [] [] _ _ _ _ [Ok None; Ok (Some St_Pending)])|].
    eapply rtc_l; [eapply (step_claim _ _ _ 1 (ex_account 5)); reflexivity|].
    apply rtc_once. apply (step_submitted cs [] [] [(1%nat, ex_hash 3000)] _ _ (ex_hash 3001)). }
  eexists. split; [exact Hr|]. split; [reflexivity|].
  destruct (one_funding_per_minter [ex_minter 9; ex_minter 3] 50 _ Hr) as (_ & _ & _ & Hd & Hu).
  split; [|apply Hu]. apply Hd. apply NoDup_cons. split; [|apply NoDup_singleton].
  intros Hx%list_elem_of_singleton. discriminate Hx.
Defined.
End FaucetExamples.
