(* ===== verification/Wallet.v ===== *)
(** * The wallet service

    [FaucetState] of [src/rpc_node/src/rest/api_server_state.rs] and the handler
    [faucet] of [src/rpc_node/src/rest/api/v1/wallet.rs]: the limiter of [Limiters]
    in front of the faucet of [Faucet].  The node starts with a faucet that has no
    delegates, and a task replaces it when the minters are prepared
    ([src/rpc_node/src/cli/start_server.rs]). *)

From S2P Require Import Prelude Limiters Transactions Faucet.
From stdpp Require Import base tactics option list gmap.
From Stdlib Require Import ZArith Lia.
Import FaucetLimiter FaucetImpl.
Local Open Scope Z_scope.
#[local] Arguments Accepted {Hash}.
#[local] Arguments TryLater {Hash}.

Module Wallet.
Section wallet.
Context {W : Type} `{FaucetEnv W} `{!EqDecision Account} `{!Countable Account}.
Context (SECONDS_IN_A_DAY : Z).
Local Open Scope rust_scope.
Notation Limiter := (FaucetCallLimiter Account).
Notation Status := (FaucetStatus FHash).

(** [FaucetState]: what its two locks hold. *)
Record FaucetState := { faucet_of : Faucet; faucet_call_limiter : Limiter }.

Definition new (f : Faucet) (l : Limiter) : FaucetState :=
  {| faucet_of := f; faucet_call_limiter := l |}.

Definition empty (faucet_per_request : Z) (l : Limiter) : FaucetState :=
  {| faucet_of := new_with_no_delegates faucet_per_request; faucet_call_limiter := l |}.

Definition set_faucet (f : Faucet) (s : FaucetState) : FaucetState :=
  {| faucet_of := f; faucet_call_limiter := faucet_call_limiter s |}.

(** A request with the readings of the clock, in the order they are taken. *)
Record Request := {
  wr_account : Account;
  wr_reset : Z; wr_now : Z; wr_left : Z; wr_fund : Z; wr_inc : Z;
}.

(** The handler: a node without a faucet refuses, then the limiter is asked, then the
    delegates, and a grant is counted. *)
Definition faucet (r : Request)
    : M (option FaucetState * W) (FaucetRequestError (Account:=Account)) Status :=
  λ '(state, w),
    match state with
    | None => ((None, w), Err FaucetNotEnabled)
    | Some s =>
        let account := wr_account r in
        match register_account SECONDS_IN_A_DAY account (wr_reset r) (wr_now r) (wr_left r)
                (faucet_call_limiter s) with
        | (l1, Ok _) =>
            match try_fund (wr_fund r) account (faucet_of s) w with
            | ((w', f'), Ok (Some tx_hash)) =>
                match increment_account_use_counter_if_under_limit account (wr_inc r) l1 with
                | (l2, Ok _) => ((Some (new f' l2), w'), Ok (Accepted tx_hash))
                | (l2, Err e) => ((Some (new f' l2), w'), Err (LimiterError e))
                | (l2, Panic) => ((Some (new f' l2), w'), Panic)
                end
            | ((w', f'), Ok None) => ((Some (new f' l1), w'), Ok TryLater)
            | ((w', f'), _) => ((Some (new f' l1), w'), Panic)
            end
        | (l1, Err e) => ((Some (new (faucet_of s) l1), w), Err (LimiterError e))
        | (l1, Panic) => ((Some (new (faucet_of s) l1), w), Panic)
        end
    end.

#[local] Arguments faucet : simpl never.

(** What happens to the faucet: a request, or the task of a delegate ends and gives
    the delegate back, because the transaction is returned or because the task has
    waited long enough. *)
Inductive Event : Type :=
| Requested (r : Request)
| Returned (i : nat).

Definition give_back (i : nat) (f : Faucet) : Faucet :=
  {| delegates := alter (λ c, match c with
                              | Some (Busy minter _) => release minter
                              | _ => c
                              end) i (delegates f);
     quants_granted_per_request := quants_granted_per_request f |}.

Definition grant_of (r : Request) : grant (Account:=Account) :=
  {| g_account := wr_account r; g_day := day SECONDS_IN_A_DAY (wr_reset r); g_time := wr_inc r |}.

(** The grants of a session, newest first, and the state it leaves. *)
Fixpoint session (es : list Event) (s : FaucetState) (w : W) (gs : list grant)
    : outcome unit (list grant * FaucetState * W) :=
  match es with
  | [] => Ok (gs, s, w)
  | Returned i :: es' => session es' (set_faucet (give_back i (faucet_of s)) s) w gs
  | Requested r :: es' =>
      match faucet r (Some s, w) with
      | ((Some s', w'), Ok (Accepted _)) => session es' s' w' (grant_of r :: gs)
      | ((Some s', w'), Ok TryLater) | ((Some s', w'), Err _) => session es' s' w' gs
      | _ => Panic
      end
  end.

(** The clock does not go back, from [t] on until [T]. *)
Fixpoint ordered_events (t T : Z) (es : list Event) : Prop :=
  match es with
  | [] => t ≤ T
  | Returned _ :: es' => ordered_events t T es'
  | Requested r :: es' =>
      t ≤ wr_reset r ≤ wr_now r ∧ wr_now r ≤ wr_fund r ≤ wr_inc r ∧ ordered_events (wr_inc r) T es'
  end.

Fixpoint last_time (t : Z) (es : list Event) : Z :=
  match es with
  | [] => t
  | Returned _ :: es' => last_time t es'
  | Requested r :: es' => last_time (wr_inc r) es'
  end.

Definition returned (es : list Event) : nat :=
  length (List.filter (λ e, match e with Returned _ => true | _ => false end) es).

Definition is_busy (c : Cell) : bool := match c with Some (Busy _ _) => true | _ => false end.
Definition busy (f : Faucet) : nat := length (List.filter is_busy (delegates f)).

Context (day_pos : 0 < SECONDS_IN_A_DAY).

(** A minter answers until the time [T], after which the time of expiry overflows. *)
Definition funds (T : Z) : Prop :=
  ∀ account quants now, 0 ≤ now ≤ T → answers (λ m, Minter.try_fund m account quants now).

(** *** Lemmas *)

(** On a faucet whose delegates are there, the handler is the one of [Limiters]. *)
Definition request_of (r : Request) : FaucetRequest (Account:=Account) (W * Faucet) FHash := {|
  rq_account := wr_account r;
  rq_try_fund := λ '(w, f),
    match try_fund (wr_fund r) (wr_account r) f w with
    | (wf, Ok h) => (wf, h)
    | (wf, _) => (wf, None)
    end;
  rq_reset := wr_reset r; rq_now := wr_now r; rq_left := wr_left r; rq_inc := wr_inc r;
|}.

Lemma try_fund_total T now account f w :
  funds T → 0 ≤ now ≤ T → all_present (delegates f) →
  match try_fund now account f w with
  | ((w', f'), Ok (Some h)) =>
      ∃ i m, delegates f !! i = Some (Some (Free m)) ∧
        delegates f' = <[i := Some (Busy m account)]> (delegates f)
  | ((w', f'), Ok None) => delegates f' = delegates f
  | _ => False
  end.
Proof.
  intros Hf Hnow Hd. unfold try_fund. destruct (count_free_total _ Hd) as [n ->].
  destruct n as [|n]; [done|].
  pose proof (try_delegates_spec _ account (delegates f) w Hd
    (Hf account (quants_granted_per_request f) now Hnow)) as Hs.
  destruct (try_delegates _ account (delegates f) w) as [[w' ds'] [[h|]|e|]]; [|done..].
  destruct Hs as (i & m & w1 & ? & ? & ?). by exists i, m.
Qed.

Lemma faucet_request T r s w :
  funds T → 0 ≤ wr_fund r ≤ T → all_present (delegates (faucet_of s)) →
  faucet r (Some s, w) =
  let '(st, o) := FaucetLimiter.faucet SECONDS_IN_A_DAY (request_of r)
                    (Some (faucet_call_limiter s, (w, faucet_of s))) in
  match st with
  | Some (l, (w', f')) => ((Some (new f' l), w'), o)
  | None => ((None, w), o)
  end.
Proof.
  intros Hf Hnow Hd. unfold faucet, FaucetLimiter.faucet. simpl.
  destruct (register_account _ _ _ _ _ _) as [l1 [[]|e|]]; [|done..].
  pose proof (try_fund_total T (wr_fund r) (wr_account r) (faucet_of s) w Hf Hnow Hd) as Ht.
  destruct (try_fund _ _ _ w) as [[w' f'] [[h|]|e|]]; simpl; [|done..].
  by destruct (increment_account_use_counter_if_under_limit _ _ l1) as [l2 [[]|e|]].
Qed.

Lemma busy_insert f f' i m a :
  delegates f !! i = Some (Some (Free m)) →
  delegates f' = <[i := Some (Busy m a)]> (delegates f) → busy f' = S (busy f).
Proof.
  unfold busy. intros Hi ->. revert i Hi. induction (delegates f) as [|c ds IH]; intros [|i] Hi;
    simplify_eq/=; [done|]. specialize (IH i Hi). destruct (is_busy c); simpl; [f_equal|]; exact IH.
Qed.

Lemma busy_give_back i f : (busy f ≤ S (busy (give_back i f)))%nat.
Proof.
  unfold busy, give_back. simpl. revert i.
  induction (delegates f) as [|c ds IH]; intros [|i]; simpl; [lia..| |].
  - destruct c as [[]|]; simpl; lia.
  - specialize (IH i). unfold alter in IH. destruct (is_busy c); simpl; lia.
Qed.

Lemma give_back_present i f : all_present (delegates f) → all_present (delegates (give_back i f)).
Proof.
  unfold all_present, give_back. simpl. intros Hd. apply Forall_alter; [done|].
  intros c _ [d ->]. destruct d; by eexists.
Qed.

Lemma busy_bound f : (busy f ≤ length (delegates f))%nat.
Proof. unfold busy. apply filter_length_le. Qed.

(** What a session keeps: the limits, the delegates, and a grant for each delegate
    that became busy. *)
Record wallet_inv (max cool t : Z) (n d : nat) (s : FaucetState) (gs : list grant) : Prop := {
  wi_limiter : limiter_inv SECONDS_IN_A_DAY max cool t (faucet_call_limiter s) gs;
  wi_present : all_present (delegates (faucet_of s));
  wi_count : length (delegates (faucet_of s)) = d;
  wi_busy : (length gs ≤ busy (faucet_of s) + n)%nat;
}.

Lemma ordered_events_le t T es : ordered_events t T es → t ≤ T.
Proof.
  revert t. induction es as [|[r|i] es IH]; intros t; simpl; [done| |apply IH].
  intros (? & ? & ?%IH). lia.
Qed.

Lemma faucet_session_inv max cool T es t n d s w gs :
  small max cool T → funds T → 0 ≤ t → wallet_inv max cool t n d s gs → ordered_events t T es →
  ∃ gs' s' w', session es s w gs = Ok (gs', s', w') ∧
    wallet_inv max cool (last_time t es) (n + returned es) d s' gs'.
Proof.
  intros Hs Hfunds. revert t n s w gs.
  induction es as [|[r|i] es IH]; intros t n s w gs Ht0 Hinv Ho; simpl.
  - exists gs, s, w. by rewrite Nat.add_0_r.
  - destruct Ho as (Ht & Hinc & Ho).
    pose proof (ordered_events_le _ _ _ Ho) as HT.
    destruct Hinv as [Hl Hp Hd Hb]. rewrite (faucet_request T) by (done || lia).
    destruct (faucet_request_spec SECONDS_IN_A_DAY day_pos max cool t T (request_of r)
      (faucet_call_limiter s) (w, faucet_of s) gs Hs Hl Ht ltac:(simpl; lia) HT) as (l' & [w' f'] & o & -> & Hpost).
    pose proof (try_fund_total T (wr_fund r) (wr_account r) (faucet_of s) w Hfunds ltac:(lia) Hp) as Htf.
    destruct o as [[h|]|e|]; [|..|done]; destruct Hpost as [Hf Hinv']; apply (IH _ n); [lia| |done|lia| |done|lia| |done].
    + simpl in Hf. destruct (try_fund _ _ _ w) as [[w1 f1] [[h1|]|e|]]; simplify_eq/=; try done.
      destruct Htf as (i & m & Hi & Hds). split; simpl; [exact Hinv'|..].
      * rewrite Hds. apply Forall_insert; [done|by eexists].
      * by rewrite Hds, length_insert.
      * rewrite (busy_insert _ _ _ _ _ Hi Hds). lia.
    + simpl in Hf. destruct (try_fund _ _ _ w) as [[w1 f1] [[h1|]|e|]]; simplify_eq/=; try done.
      split; simpl; unfold busy; rewrite ?Htf; done.
    + simplify_eq/=. by split.
  - destruct (IH t (S n) (set_faucet (give_back i (faucet_of s)) s) w gs) as (gs' & s' & w' & Hr & Hi).
    + done.
    + destruct Hinv as [Hl Hp Hd Hb]. split; simpl; [done|by apply give_back_present| |].
      * by rewrite length_alter.
      * pose proof (busy_give_back i (faucet_of s)). lia.
    + done.
    + exists gs', s', w'. split; [done|]. replace (n + returned (Returned i :: es))%nat with (S n + returned es)%nat; [done|].
      unfold returned. simpl. lia.
Qed.

Lemma ordered_events_app t T es1 es2 :
  ordered_events t T (es1 ++ es2) → ordered_events t T es1 ∧ ordered_events (last_time t es1) T es2.
Proof.
  revert t. induction es1 as [|[r|i] es1 IH]; intros t; simpl; [|naive_solver|apply IH].
  intros Ho. by split; [eapply ordered_events_le|].
Qed.

Lemma last_time_pos t T es : 0 ≤ t → ordered_events t T es → 0 ≤ last_time t es.
Proof.
  revert t. induction es as [|[r|i] es IH]; intros t Ht; simpl; [done| |by apply IH].
  intros (? & ? & ?). apply IH; [lia|done].
Qed.

(** Without delegates nothing is granted. *)
Lemma session_empty es s w gs gs' s' w' :
  delegates (faucet_of s) = [] → session es s w gs = Ok (gs', s', w') →
  gs' = gs ∧ delegates (faucet_of s') = [].
Proof.
  revert s w. induction es as [|[r|i] es IH]; intros s w Hd; simpl.
  - by intros [= -> -> ->].
  - assert (∀ now a, try_fund now a (faucet_of s) w = ((w, faucet_of s), Ok None)) as Hn
      by (intros; unfold try_fund; by rewrite Hd).
    unfold faucet. destruct (register_account _ _ _ _ _ _) as [l1 [[]|e|]]; [rewrite Hn|..]; simpl;
      intros Hr; [|..|done]; (eapply IH; [|exact Hr]; exact Hd).
  - intros Hr. eapply IH; [|exact Hr]. simpl. by rewrite Hd.
Qed.

End wallet.
End Wallet.

(** ** Examples *)
Module WalletExamples.
Import FaucetExamples Wallet.

#[local] Instance ex_account_dec : EqDecision (Account (W:=list Z)) := Z.eq_dec.
#[local] Instance ex_account_countable : Countable (Account (W:=list Z)) := Z_countable.

Definition ex_request (a t : Z) : Request (W:=list Z) :=
  {| wr_account := ex_account a; wr_reset := t; wr_now := t; wr_left := t; wr_fund := t; wr_inc := t |}.

(** The minter of account 9 cannot send: the two requests while the other one is busy
    and the one within the cooldown are not granted, the one after the delegate is given back is. *)
Definition ex_early : list (Event (W:=list Z)) := [Requested (ex_request 5 100)].
Definition ex_late : list (Event (W:=list Z)) :=
  [Requested (ex_request 5 200); Requested (ex_request 6 210); Returned 1;
   Requested (ex_request 5 220); Requested (ex_request 6 230)].

Lemma ex_funds : funds (W:=list Z) 100000.
Proof.
  intros account quants now Hnow [a []] w. unfold Minter.try_fund, Issue.issue_tx, rthen. simpl.
  unfold Issue.make_smr_move_tx, FAUCET_TRANSACTION_EXPIRY_SECONDS.
  rewrite add64_ok by (unfold U64_MAX; lia). simpl.
  unfold Dispatcher.send, rthen. simpl. unfold rthen. by destruct (_ =? 9).
Qed.

End WalletExamples.
