(* ===== verification/MoveList.v ===== *)
(** * Paginated listing of Move resources and modules

    [src/rpc_node/src/rest/move_list/v3.rs], [mod.rs].  A page lists at most
    the requested number of items of an account from a cursor on and returns
    the cursor of the next page; a page may end inside a resource group.

    The column family is the list of the encoded keys of the account in the
    order of the database.  Decoding, resource groups and the encoding of the
    cursor are parameters. *)

From S2P Require Import Prelude.
From Stdlib Require Import ZArith Lia Sorted.
From stdpp Require Import base tactics option list sorting numbers.
Local Open Scope Z_scope.

(** [aptos_types::access_path::Path]. *)
Inductive Path (ModuleId StructTag : Type) : Type :=
| Code (m : ModuleId)
| Resource (s : StructTag)
| ResourceGroup (s : StructTag).
Arguments Code {ModuleId StructTag}.
Arguments Resource {ModuleId StructTag}.
Arguments ResourceGroup {ModuleId StructTag}.

Class MoveListEnv : Type := {
  ModuleId : Type;
  StructTag : Type;
  StateKey : Type;
  #[global] StateKey_dec :: EqDecision StateKey;
  KeyBytes : Type;
  (** The order of the database. *)
  bytes_lt : KeyBytes → KeyBytes → bool;
  to_bytes : StateKey → KeyBytes;
  (** [StateKey::decode]; [inl] is an error. *)
  DecodeErr : Type;
  decode : KeyBytes → DecodeErr + StateKey;
  (** The path of [StateKeyInner::AccessPath], [None] for other keys. *)
  path : StateKey → option (Path ModuleId StructTag);
  GroupItem : Type;
  (** [read_resource_group(account, tag)], for the account at hand. *)
  read_resource_group : StructTag → option (list (StructTag * GroupItem));
  CursorBytes : Type;
  BcsError : Type;
}.

Record PaginationCursor `{MoveListEnv} := {
  state_key : StateKey;
  resource_group_item_index : option nat;
}.

Inductive MoveListError `{MoveListEnv} : Type :=
| MissingResourceGroupData (s : StructTag)
| StateKeyDecode (e : DecodeErr)
| Bcs (e : BcsError).

Inductive MoveListV3 `{MoveListEnv} : Type :=
| ResourceList (resources : list StructTag)
| ModuleList (modules : list ModuleId).

(** [types::api::v1::MoveListQuery]. *)
Inductive MoveListQuery : Type := Modules | Resources.

Module List3.
Section move_list.
Context `{MoveListEnv}.
(** [bcs::from_bytes] and [bcs::to_bytes] on cursors. *)
Context (from_bcs_bytes : CursorBytes → BcsError + PaginationCursor).
Context (to_bcs_bytes : PaginationCursor → option CursorBytes).
Local Open Scope rust_scope.

Definition new (query_kind : MoveListQuery) : MoveListV3 :=
  match query_kind with
  | Modules => ModuleList []
  | Resources => ResourceList []
  end.

Definition len (l : MoveListV3) : nat :=
  match l with ResourceList r => length r | ModuleList m => length m end.

Definition is_empty (l : MoveListV3) : bool := (len l =? 0)%nat.

(** [group_items[start..end]]. *)
Definition slice {A} (l : list A) (start_index end_index : nat) : list A :=
  take (end_index - start_index) (drop start_index l).

Definition maybe_append_resource (resources : list StructTag) (cursor : PaginationCursor)
    (max_resources_to_append : nat) : outcome MoveListError (list StructTag * PaginationCursor) :=
  if (max_resources_to_append =? 0)%nat then Ok (resources, cursor)
  else match path (state_key cursor) with
       | Some (Code _) => Ok (resources, cursor)
       | Some (Resource struct_tag) => Ok (resources ++ [struct_tag], cursor)
       | Some (ResourceGroup struct_tag) =>
           let? group_items :=
             ok_or (read_resource_group struct_tag) (MissingResourceGroupData struct_tag) in
           let start_index := default O (resource_group_item_index cursor) in
           if (length group_items <=? start_index)%nat then Ok (resources, cursor)
           else
             let end_index := Nat.min (start_index + max_resources_to_append) (length group_items) in
             Ok (resources ++ (fst <$> slice group_items start_index end_index),
                 {| state_key := state_key cursor; resource_group_item_index := Some end_index |})
       | None => Ok (resources, cursor)
       end.

Definition maybe_append_module (modules : list ModuleId) (k : StateKey) : list ModuleId :=
  match path k with
  | Some (Code module_id) => modules ++ [module_id]
  | Some (Resource _) | Some (ResourceGroup _) | None => modules
  end.

Definition append_entry (l : MoveListV3) (cursor : PaginationCursor) (max_items_to_return : nat)
    : outcome MoveListError (MoveListV3 * PaginationCursor) :=
  match l with
  | ResourceList resource_list =>
      let? ' (r, c) := maybe_append_resource resource_list cursor max_items_to_return in
      Ok (ResourceList r, c)
  | ModuleList module_list => Ok (ModuleList (maybe_append_module module_list (state_key cursor)), cursor)
  end.

(** [iterator_cf_opt(.., IteratorMode::From(start, Forward))]. *)
Fixpoint seek (start : KeyBytes) (entries : list KeyBytes) : list KeyBytes :=
  match entries with
  | [] => []
  | e :: entries' => if bytes_lt e start then seek start entries' else entries
  end.

(** The loop of [build_move_list]. *)
Fixpoint build_loop (entries : list KeyBytes) (max_items_to_return : nat) (l : MoveListV3)
    (cursor : option PaginationCursor)
    : outcome MoveListError (MoveListV3 * option PaginationCursor) :=
  match entries with
  | [] => Ok (l, cursor)
  | key :: entries' =>
      if (max_items_to_return =? 0)%nat then Ok (l, cursor)
      else
        let? k := match decode key with inl e => Err (StateKeyDecode e) | inr k => Ok k end in
        let index :=
          match cursor with
          | Some c => if bool_decide (state_key c = k) then resource_group_item_index c else None
          | None => None
          end in
        let current := {| state_key := k; resource_group_item_index := index |} in
        let list_size_before_append := len l in
        let? ' (l', current') := append_entry l current max_items_to_return in
        build_loop entries' (max_items_to_return - (len l' - list_size_before_append)) l'
          (Some current')
  end.

(** [MoveListBuilder::new] and [build_move_list]; [address_prefix] is the
    encoding of the account, [entries] the range with this prefix. *)
Definition build_move_list (entries : list KeyBytes) (address_prefix : KeyBytes)
    (query_kind : MoveListQuery) (cursor : option CursorBytes) (max_items_to_return : nat)
    : outcome MoveListError (MoveListV3 * option CursorBytes) :=
  let? pagination_cursor :=
    match cursor with
    | None => Ok None
    | Some c => match from_bcs_bytes c with inl e => Err (Bcs e) | inr c' => Ok (Some c') end
    end in
  let move_list := new query_kind in
  if (max_items_to_return =? 0)%nat then Ok (move_list, pagination_cursor ≫= to_bcs_bytes)
  else
    let start_key :=
      match pagination_cursor with
      | Some c => to_bytes (state_key c)
      | None => address_prefix
      end in
    let iter := seek start_key entries in
    let iter :=
      match pagination_cursor with
      | Some c => match resource_group_item_index c with None => tail iter | Some _ => iter end
      | None => iter
      end in
    let? ' (l, c) := build_loop iter max_items_to_return move_list pagination_cursor in
    Ok (l, c ≫= to_bcs_bytes).

(** ** The whole listing *)
Definition group_tags (s : StructTag) : list StructTag :=
  match read_resource_group s with Some l => fst <$> l | None => [] end.

Definition key_resources (k : StateKey) : list StructTag :=
  match path k with
  | Some (Resource s) => [s]
  | Some (ResourceGroup s) => group_tags s
  | _ => []
  end.
Definition key_modules (k : StateKey) : list ModuleId :=
  match path k with Some (Code m) => [m] | _ => [] end.

(** Items of a key for a query, as one type. *)
Definition key_items (q : MoveListQuery) (k : StateKey) : list (StructTag + ModuleId) :=
  match q with
  | Resources => inl <$> key_resources k
  | Modules => inr <$> key_modules k
  end.
Definition all_items (q : MoveListQuery) (ks : list StateKey) : list (StructTag + ModuleId) :=
  concat (key_items q <$> ks).
Definition items (l : MoveListV3) : list (StructTag + ModuleId) :=
  match l with ResourceList r => inl <$> r | ModuleList m => inr <$> m end.
Definition kind_of (l : MoveListV3) : MoveListQuery :=
  match l with ResourceList _ => Resources | ModuleList _ => Modules end.

Lemma items_length l : length (items l) = len l.
Proof. by destruct l; simpl; rewrite length_fmap. Qed.

(** ** Pages follow each other

    [ks] are the keys of the account in the order of the database. *)
Section pages.
Context (ks : list StateKey).
Context (Hsorted : StronglySorted (λ a b, bytes_lt (to_bytes a) (to_bytes b) = true) ks).
Context (Hirrefl : ∀ k, bytes_lt (to_bytes k) (to_bytes k) = false).
Context (Hdecode : ∀ k, k ∈ ks → decode (to_bytes k) = inr k).
Context (Hgroups : ∀ k s, k ∈ ks → path k = Some (ResourceGroup s) →
                          is_Some (read_resource_group s)).

(** What is left to list after a cursor. *)
Definition rest (q : MoveListQuery) (c : option PaginationCursor)
    (r : list (StructTag + ModuleId)) : Prop :=
  match c with
  | None => r = all_items q ks
  | Some c =>
      ∃ pre post, ks = pre ++ state_key c :: post ∧
        match resource_group_item_index c with
        | None => r = all_items q post
        | Some i =>
            q = Resources ∧ (∃ s, path (state_key c) = Some (ResourceGroup s)) ∧
            r = drop i (key_items q (state_key c)) ++ all_items q post
        end
  end.

(** What the loop lists when it starts at the keys [l]. *)
Definition ahead (q : MoveListQuery) (c : option PaginationCursor) (l : list StateKey)
    : list (StructTag + ModuleId) :=
  match l with
  | [] => []
  | k :: l' =>
      drop (match c with
            | Some c => if bool_decide (state_key c = k)
                        then default O (resource_group_item_index c) else O
            | None => O
            end) (key_items q k) ++ all_items q l'
  end.

Lemma slice_min {A} (l : list A) i n :
  slice l i (Nat.min (i + n) (length l)) = take n (drop i l).
Proof.
  unfold slice. destruct (decide (i + n ≤ length l)%nat).
  - rewrite Nat.min_l by done. f_equal. lia.
  - rewrite Nat.min_r by lia. rewrite (take_ge (drop i l) n) by (rewrite length_drop; lia).
    rewrite take_ge; [done|]. rewrite length_drop. lia.
Qed.

(** One entry appends what fits of its items and moves the cursor behind it. *)
Lemma append_entry_spec l k idx n pre post :
  ks = pre ++ k :: post → (0 < n)%nat →
  (∀ i, idx = Some i → kind_of l = Resources ∧ ∃ s, path k = Some (ResourceGroup s)) →
  ∃ l' c', append_entry l {| state_key := k; resource_group_item_index := idx |} n = Ok (l', c') ∧
    kind_of l' = kind_of l ∧
    items l' = items l ++ take n (drop (default O idx) (key_items (kind_of l) k)) ∧
    state_key c' = k ∧
    rest (kind_of l) (Some c')
      (drop n (drop (default O idx) (key_items (kind_of l) k)) ++ all_items (kind_of l) post).
Proof.
  intros Hks Hn Hidx. unfold append_entry, rest.
  destruct l as [r|m]; simpl in *.
  - unfold maybe_append_resource. simpl. rewrite (proj2 (Nat.eqb_neq n 0)) by lia.
    unfold key_resources. destruct (path k) as [[m|s|s]|] eqn:Hp; simpl.
    + destruct idx as [i|]; [by destruct (Hidx i eq_refl) as [_ [? [=]]]|].
      eexists _, _. split; [done|]. simpl. rewrite take_nil, drop_nil, app_nil_r.
      split_and!; try done. by exists pre, post.
    + destruct idx as [i|]; [by destruct (Hidx i eq_refl) as [_ [? [=]]]|].
      eexists _, _. split; [done|]. simpl. rewrite fmap_app. destruct n as [|n]; [lia|].
      simpl. rewrite take_nil, drop_nil. split_and!; try done. by exists pre, post.
    + destruct (Hgroups k s) as [g Hg]; [rewrite Hks; apply elem_of_app; right; by left|done|].
      unfold group_tags. rewrite Hg. simpl.
      destruct (Nat.leb_spec (length g) (default O idx)) as [Hge|Hlt].
      * eexists _, _. split; [done|]. simpl.
        rewrite (drop_ge (inl <$> _)) by (rewrite !length_fmap; lia).
        rewrite take_nil, drop_nil, app_nil_r. split_and!; try done.
        exists pre, post. split; [done|]. destruct idx as [i|]; [|done].
        split_and!; [done|by eexists|]. unfold key_items, key_resources. simpl.
        rewrite Hp. unfold group_tags. rewrite Hg. simpl in Hge.
        by rewrite drop_ge by (rewrite !length_fmap; lia).
      * eexists _, _. split; [done|]. simpl. rewrite fmap_app, slice_min.
        rewrite fmap_take, fmap_drop, fmap_take, fmap_drop. split_and!; try done.
        exists pre, post. split_and!; [done|done|by eexists|].
        unfold key_items, key_resources. simpl. rewrite Hp. unfold group_tags. rewrite Hg.
        rewrite drop_drop. destruct (decide (default O idx + n ≤ length g)%nat).
        -- by rewrite Nat.min_l.
        -- rewrite Nat.min_r by lia. rewrite !drop_ge by (rewrite !length_fmap; lia). done.
    + destruct idx as [i|]; [by destruct (Hidx i eq_refl) as [_ [? [=]]]|].
      eexists _, _. split; [done|]. simpl. rewrite take_nil, drop_nil, app_nil_r.
      split_and!; try done. by exists pre, post.
  - destruct idx as [i|]; [by destruct (Hidx i eq_refl) as [[=] _]|].
    unfold maybe_append_module, key_modules. simpl. eexists _, _. split; [done|]. simpl.
    destruct (path k) as [[x|s|s]|]; simpl; rewrite ?take_nil, ?drop_nil, ?app_nil_r;
      [destruct n as [|n]; [lia|]; simpl; rewrite fmap_app, take_nil, drop_nil|..];
      split_and!; try done; by exists pre, post.
Qed.

Lemma split_sorted pre k post :
  ks = pre ++ k :: post →
  Forall (λ a, bytes_lt (to_bytes a) (to_bytes k) = true) pre ∧ k ∉ post.
Proof.
  intros Hks. rewrite Hks in Hsorted. clear Hks. induction pre as [|a pre IH].
  - split; [constructor|]. intros Hin. apply StronglySorted_inv in Hsorted as [_ Hall].
    apply list_elem_of_lookup in Hin as [i Hi].
    pose proof (Forall_lookup_1 _ _ _ _ Hall Hi) as Hk. simpl in Hk. by rewrite Hirrefl in Hk.
  - simpl in Hsorted. apply StronglySorted_inv in Hsorted as [Hs Hall].
    destruct (IH Hs) as [Hpre Hpost]. split; [|done]. constructor; [|done].
    apply Forall_app in Hall as [_ Hall]. by inversion Hall.
Qed.

Lemma seek_key pre k post :
  ks = pre ++ k :: post → seek (to_bytes k) (to_bytes <$> ks) = to_bytes <$> k :: post.
Proof.
  intros Hks. destruct (split_sorted _ _ _ Hks) as [Hpre _]. rewrite Hks. clear Hks.
  induction Hpre as [|a pre Ha Hpre IH]; simpl; [by rewrite Hirrefl|]. by rewrite Ha.
Qed.

Definition fresh (c : option PaginationCursor) (l : list StateKey) : Prop :=
  ∀ c0, c = Some c0 → state_key c0 ∉ l.

Lemma ahead_fresh q c l : fresh c l → ahead q c l = all_items q l.
Proof.
  intros Hf. destruct l as [|k l]; [done|]. simpl. destruct c as [c|]; [|done].
  rewrite bool_decide_eq_false_2; [done|]. intros Heq. apply (Hf c eq_refl). rewrite Heq. by left.
Qed.

(** The cursor may only point into the first key, and then into a group. *)
Definition resumes (q : MoveListQuery) (c : option PaginationCursor) (l : list StateKey) : Prop :=
  fresh c l ∨
  ∃ c0 l' i s, c = Some c0 ∧ l = state_key c0 :: l' ∧ resource_group_item_index c0 = Some i ∧
               q = Resources ∧ path (state_key c0) = Some (ResourceGroup s).

Lemma build_loop_done l L c : build_loop (to_bytes <$> l) 0 L c = Ok (L, c).
Proof. by destruct l. Qed.

Lemma build_loop_spec pre l n L c :
  ks = pre ++ l → resumes (kind_of L) c l → rest (kind_of L) c (ahead (kind_of L) c l) →
  ∃ L' c', build_loop (to_bytes <$> l) n L c = Ok (L', c') ∧
    items L' = items L ++ take n (ahead (kind_of L) c l) ∧
    rest (kind_of L) c' (drop n (ahead (kind_of L) c l)).
Proof.
  revert pre n L c. induction l as [|k l IH]; intros pre n L c Hks Hres Hrest.
  { exists L, c. simpl in *. by rewrite take_nil, drop_nil, app_nil_r. }
  destruct (decide (n = O)) as [->|Hn].
  { exists L, c. by rewrite build_loop_done, take_0, drop_0, app_nil_r. }
  set (idx := match c with
              | Some c0 => if bool_decide (state_key c0 = k)
                           then resource_group_item_index c0 else None
              | None => None
              end).
  assert (ahead (kind_of L) c (k :: l)
          = drop (default O idx) (key_items (kind_of L) k) ++ all_items (kind_of L) l) as Hahead.
  { unfold idx. simpl. destruct c as [c0|]; [|done]. by case_bool_decide. }
  rewrite Hahead, fmap_cons. simpl build_loop. rewrite (proj2 (Nat.eqb_neq n 0)) by done.
  rewrite Hdecode by (rewrite Hks; apply elem_of_app; right; by left). cbn [obind]. fold idx.
  destruct (append_entry_spec L k idx n pre l Hks) as (L1 & c1 & -> & Hkind & Hitems & Hkey & Hr1).
  { lia. }
  { intros i Hi. unfold idx in Hi. destruct Hres as [Hf|(c0 & l' & j & s & -> & [= -> ->] & Hj & Hq & Hp)].
    - destruct c as [c0|]; [|done]. case_bool_decide as Hk; [|done].
      exfalso. apply (Hf c0 eq_refl). rewrite Hk. by left.
    - by split; [|eexists]. }
  set (D := drop (default O idx) (key_items (kind_of L) k)) in *. cbn [obind].
  rewrite <- !items_length, Hitems, length_app.
  replace (length (items L) + length (take n D) - length (items L))%nat
    with (length (take n D)) by lia.
  rewrite length_take. destruct (decide (n ≤ length D)%nat) as [Hle|Hgt].
  - replace (n - Nat.min n (length D))%nat with O by lia. rewrite build_loop_done.
    exists L1, (Some c1). rewrite take_app_le, drop_app_le by done. done.
  - assert (fresh (Some c1) l) as Hf.
    { intros c0 [= <-]. rewrite Hkey. by apply (split_sorted pre k l). }
    rewrite (drop_ge D) in Hr1 by lia. simpl in Hr1.
    destruct (IH (pre ++ [k]) (n - Nat.min n (length D))%nat L1 (Some c1))
      as (L' & c' & HL & Hit & Hr').
    { by rewrite <- app_assoc. }
    { by left. }
    { rewrite Hkind, ahead_fresh by done. exact Hr1. }
    rewrite HL. exists L', c'. rewrite Hkind in Hr'. rewrite ahead_fresh in Hit, Hr' by done.
    rewrite Hkind in Hit. rewrite Nat.min_r in Hit, Hr' by lia.
    rewrite take_app, drop_app, (drop_ge D), (take_ge D) in * by lia. simpl.
    split_and!; [done| |done]. rewrite Hit, Hitems, <- app_assoc. done.
Qed.

Context (prefix : KeyBytes).
Context (Hprefix : Forall (λ k, bytes_lt (to_bytes k) prefix = false) ks).
Context (Hbcs : ∀ c, ∃ b, to_bcs_bytes c = Some b ∧ from_bcs_bytes b = inr c).

Definition denotes (b : option CursorBytes) (c : option PaginationCursor) : Prop :=
  match b, c with
  | None, None => True
  | Some b, Some c => from_bcs_bytes b = inr c
  | _, _ => False
  end.

Lemma denotes_encoded c : denotes (c ≫= to_bcs_bytes) c.
Proof. destruct c as [c|]; [|done]. simpl. by destruct (Hbcs c) as (b & -> & Hb). Qed.

Lemma build_move_list_spec q b c n r :
  denotes b c → rest q c r →
  ∃ L b' c', build_move_list (to_bytes <$> ks) prefix q b n = Ok (L, b') ∧
    denotes b' c' ∧ items L = take n r ∧ rest q c' (drop n r).
Proof.
  intros Hd Hr. unfold build_move_list.
  replace (match b with
           | Some c => match from_bcs_bytes c with
                       | inl e => Err (Bcs e) | inr c' => Ok (Some c') end
           | None => Ok None end) with (Ok (E:=MoveListError) c).
  2: { destruct b as [b|], c as [c|]; simpl in Hd; try done. by rewrite Hd. }
  simpl. destruct (Nat.eqb_spec n 0) as [->|Hn].
  { exists (new q), (c ≫= to_bcs_bytes), c. split; [done|].
    split; [apply denotes_encoded|]. by destruct q. }
  assert (kind_of (new q) = q) as Hq by by destruct q.
  assert (items (new q) = []) as Hnil by by destruct q.
  destruct c as [c|].
  - pose proof Hr as (pre & post & Hks & Hi). rewrite (seek_key pre _ post Hks).
    destruct (split_sorted _ _ _ Hks) as [_ Hpost].
    destruct (resource_group_item_index c) as [i|] eqn:Hidx.
    + destruct Hi as (-> & [s Hs] & Hri).
      assert (ahead Resources (Some c) (state_key c :: post) = r) as Ha.
      { simpl. rewrite bool_decide_eq_true_2, Hidx by done. by rewrite Hri. }
      destruct (build_loop_spec pre (state_key c :: post) n (new Resources) (Some c))
        as (L & c' & HL & Hit & Hr'); [done|right; by exists c, post, i, s|by rewrite Hq, Ha|].
      rewrite HL. simpl. exists L, (c' ≫= to_bcs_bytes), c'. rewrite Hq, Ha in Hit, Hr'.
      split_and!; [done|apply denotes_encoded|by rewrite Hit, Hnil|done].
    + assert (fresh (Some c) post) as Hf by by intros ? [= <-].
      destruct (build_loop_spec (pre ++ [state_key c]) post n (new q) (Some c))
        as (L & c' & HL & Hit & Hr'); [by rewrite <- app_assoc|by left| |].
      { rewrite Hq, ahead_fresh by done. exists pre, post. by rewrite Hidx. }
      change (tail (to_bytes <$> state_key c :: post)) with (to_bytes <$> post).
      rewrite HL. simpl. exists L, (c' ≫= to_bcs_bytes), c'.
      rewrite Hq, ahead_fresh in Hit, Hr' by done. subst r.
      split_and!; [done|apply denotes_encoded|by rewrite Hit, Hnil|done].
  - simpl in Hr. subst r.
    assert (seek prefix (to_bytes <$> ks) = to_bytes <$> ks) as ->.
    { destruct Hprefix as [|k l Hk _]; [done|]. simpl. by rewrite Hk. }
    assert (fresh None ks) as Hf by done.
    destruct (build_loop_spec [] ks n (new q) None) as (L & c' & HL & Hit & Hr');
      [done|by left|by rewrite Hq, ahead_fresh|].
    rewrite HL. simpl. exists L, (c' ≫= to_bcs_bytes), c'.
    rewrite Hq, ahead_fresh in Hit, Hr' by done.
    split_and!; [done|apply denotes_encoded|by rewrite Hit, Hnil|done].
Qed.

(** A client that follows the cursors, with the page sizes it asks for. *)
Fixpoint follow (q : MoveListQuery) (sizes : list nat) (b : option CursorBytes)
    : outcome MoveListError (list (list (StructTag + ModuleId))) :=
  match sizes with
  | [] => Ok []
  | n :: sizes' =>
      let? ' (L, b') := build_move_list (to_bytes <$> ks) prefix q b n in
      omap_ok (cons (items L)) (follow q sizes' b')
  end.

(** C12 Following the cursors, whatever page sizes are asked for, lists the
    resources (or modules) of the account without gaps and repetitions:
    the pages concatenate to a prefix of the whole listing as long as the
    sizes add up to, and every page but those at its end is full.  No
    request fails. *)
Theorem pages_partition_listing q sizes :
  ∃ pages, follow q sizes None = Ok pages ∧
    concat pages = take (sum_list sizes) (all_items q ks) ∧
    Forall2 (λ n p, (length p ≤ n)%nat) sizes pages.
Proof.
  assert (∀ b c r, denotes b c → rest q c r →
    ∃ pages, follow q sizes b = Ok pages ∧ concat pages = take (sum_list sizes) r ∧
             Forall2 (λ n p, (length p ≤ n)%nat) sizes pages) as Hgen.
  { induction sizes as [|n sizes IH]; intros b c r Hd Hr; simpl.
    - exists []. by rewrite take_0.
    - destruct (build_move_list_spec q b c n r Hd Hr) as (L & b' & c' & -> & Hd' & Hit & Hr').
      simpl. destruct (IH b' c' _ Hd' Hr') as (pages & -> & Hcat & Hall). simpl.
      exists (items L :: pages). split; [done|]. split.
      + simpl. rewrite Hcat, Hit, take_take_drop. done.
      + constructor; [|done]. rewrite Hit, length_take. lia. }
  by apply (Hgen None None).
Qed.
End pages.
End move_list.
End List3.

(** ** The endpoints that list resources and modules

    [src/rpc_node/src/rest/api/v1/accounts.rs], [v2] and [v3]. *)
Module Endpoints.
Section endpoints.
Context `{MoveListEnv}.
Context (from_bcs_bytes : CursorBytes → BcsError + PaginationCursor).
Context (to_bcs_bytes : PaginationCursor → option CursorBytes).
(** Constants of the crate [types]. *)
Context (DEFAULT_SIZE_OF_PAGE MAX_NUM_OF_TRANSACTIONS_TO_RETURN : nat).
Context {Text MoveResource Bytecode OtherError : Type}.
Local Open Scope rust_scope.

Inductive EndpointError : Type :=
| EP_MoveList (e : MoveListError)
| EP_TakeVariant
| EP_InformationNotAvailable
| EP_Other (e : OtherError).

Definition page_size (count : option nat) : nat :=
  match count with
  | None => DEFAULT_SIZE_OF_PAGE
  | Some c => Nat.min c MAX_NUM_OF_TRANSACTIONS_TO_RETURN
  end.

(** [ApiServerState::get_move_list]. *)
Definition get_move_list (entries : list KeyBytes) (address_prefix : KeyBytes)
    (cursor : option CursorBytes) (count : nat) (query_kind : MoveListQuery)
    : outcome EndpointError (MoveListV3 * option CursorBytes) :=
  omap_err EP_MoveList
    (List3.build_move_list from_bcs_bytes to_bcs_bytes entries address_prefix query_kind cursor count).

(** The accessors derived by [TakeVariant]. *)
Definition take_resourcelist (l : MoveListV3) : outcome EndpointError (list StructTag) :=
  match l with ResourceList r => Ok r | ModuleList _ => Err EP_TakeVariant end.
Definition take_modulelist (l : MoveListV3) : outcome EndpointError (list ModuleId) :=
  match l with ModuleList m => Ok m | ResourceList _ => Err EP_TakeVariant end.

Definition get_account_resources_v1 (canonical : StructTag → Text) (entries : list KeyBytes)
    (address_prefix : KeyBytes) (start : option CursorBytes) (count : option nat)
    : outcome EndpointError (list (Text * StructTag) * option CursorBytes) :=
  let? ' (l, cursor) :=
    get_move_list entries address_prefix start (page_size count) Resources in
  let? r := take_resourcelist l in
  Ok ((λ t, (canonical t, t)) <$> r, cursor).

Definition get_account_modules_v1 (display : ModuleId → Text) (entries : list KeyBytes)
    (address_prefix : KeyBytes) (start : option CursorBytes) (count : option nat)
    : outcome EndpointError (list (Text * ModuleId) * option CursorBytes) :=
  let? ' (l, cursor) :=
    get_move_list entries address_prefix start (page_size count) Modules in
  let? m := take_modulelist l in
  Ok ((λ t, (display t, t)) <$> m, cursor).

(** Versions 2 and 3 read every listed resource; a missing one is a 404. *)
Definition get_account_resources_v2
    (get_move_resource : StructTag → outcome OtherError (option MoveResource))
    (entries : list KeyBytes) (address_prefix : KeyBytes)
    (start : option CursorBytes) (count : option nat)
    : outcome EndpointError (list MoveResource * option CursorBytes) :=
  let? ' (l, cursor) :=
    get_move_list entries address_prefix start (page_size count) Resources in
  let? tags := take_resourcelist l in
  let? resources :=
    otraverse (λ tag, let? maybe := omap_err EP_Other (get_move_resource tag) in
                      ok_or maybe EP_InformationNotAvailable) tags in
  Ok (resources, cursor).

(** Modules whose code cannot be read are left out. *)
Definition get_account_modules_v2
    (get_module_byte_code : ModuleId → outcome OtherError (option Bytecode))
    (entries : list KeyBytes) (address_prefix : KeyBytes)
    (start : option CursorBytes) (count : option nat)
    : outcome EndpointError (list Bytecode * option CursorBytes) :=
  let? ' (l, cursor) :=
    get_move_list entries address_prefix start (page_size count) Modules in
  let? modules := take_modulelist l in
  Ok (omap (λ m, match get_module_byte_code m with Ok o => o | _ => None end) modules, cursor).

(** The third version sends the cursor in a header, empty when there is none. *)
Definition cursor_header (hex_encode : CursorBytes → Text) (empty : Text)
    (cursor : option CursorBytes) : Text :=
  match cursor with Some c => hex_encode c | None => empty end.

Definition get_account_resources_v3 (hex_encode : CursorBytes → Text) (empty : Text)
    (get_move_resource : StructTag → outcome OtherError (option MoveResource))
    (entries : list KeyBytes) (address_prefix : KeyBytes)
    (start : option CursorBytes) (count : option nat)
    : outcome EndpointError (list MoveResource * Text) :=
  let? ' (resources, cursor) :=
    get_account_resources_v2 get_move_resource entries address_prefix start count in
  Ok (resources, cursor_header hex_encode empty cursor).

Definition get_account_modules_v3 (hex_encode : CursorBytes → Text) (empty : Text)
    (get_module_byte_code : ModuleId → outcome OtherError (option Bytecode))
    (entries : list KeyBytes) (address_prefix : KeyBytes)
    (start : option CursorBytes) (count : option nat)
    : outcome EndpointError (list Bytecode * Text) :=
  let? ' (modules, cursor) :=
    get_account_modules_v2 get_module_byte_code entries address_prefix start count in
  Ok (modules, cursor_header hex_encode empty cursor).

Lemma append_entry_kind l c n l' c' :
  List3.append_entry l c n = Ok (l', c') → List3.kind_of l' = List3.kind_of l.
Proof.
  unfold List3.append_entry. destruct l as [r|m]; simpl; [|by intros [= <- <-]].
  destruct (List3.maybe_append_resource r c n) as [[r' c1]|e|]; simpl; [|done..].
  by intros [= <- <-].
Qed.

Lemma append_entry_bound l c n l' c' :
  List3.append_entry l c n = Ok (l', c') → (0 < n)%nat →
  (List3.len l ≤ List3.len l' ≤ List3.len l + n)%nat.
Proof.
  unfold List3.append_entry. destruct l as [r|m]; simpl.
  - unfold List3.maybe_append_resource. case_match; simpl; [intros [= <- <-]; simpl; lia|].
    destruct (path (state_key c)) as [[x|s|s]|]; simpl; try (intros [= <- <-]; simpl; lia).
    + intros [= <- <-]. simpl. rewrite length_app. simpl. lia.
    + destruct (read_resource_group s) as [g|]; simpl; [|done].
      case_match; simpl; intros [= <- <-]; simpl; [lia|].
      rewrite length_app, length_fmap. unfold List3.slice. rewrite length_take, length_drop. lia.
  - intros [= <- <-]. simpl. unfold List3.maybe_append_module.
    destruct (path (state_key c)) as [[]|]; rewrite ?length_app; simpl; lia.
Qed.

Lemma build_loop_kind entries n l c l' c' :
  List3.build_loop entries n l c = Ok (l', c') →
  List3.kind_of l' = List3.kind_of l ∧
  (List3.len l ≤ List3.len l' ≤ List3.len l + n)%nat.
Proof.
  revert n l c. induction entries as [|k entries IH]; intros n l c; simpl;
    [intros [= <- <-]; split; [done|lia]|].
  destruct (Nat.eqb_spec n 0) as [->|Hn]; [intros [= <- <-]; split; [done|lia]|].
  destruct (decode k) as [e|key]; simpl; [done|].
  destruct (List3.append_entry l _ n) as [[l1 c1]|e|] eqn:Ha; simpl; [|done..].
  intros Hl. destruct (IH _ _ _ Hl) as [Hk Hlen].
  pose proof (append_entry_kind _ _ _ _ _ Ha). pose proof (append_entry_bound _ _ _ _ _ Ha).
  split; [congruence|lia].
Qed.

Lemma get_move_list_kind entries prefix cursor n q l c :
  get_move_list entries prefix cursor n q = Ok (l, c) →
  List3.kind_of l = q ∧ (List3.len l ≤ n)%nat.
Proof.
  unfold get_move_list, List3.build_move_list.
  assert (List3.kind_of (List3.new q) = q ∧ List3.len (List3.new q) = O) as [Hq Hlen]
    by by destruct q.
  set (pc := match cursor with Some _ => _ | None => _ end).
  destruct pc as [pc'|e|]; simpl; [|done..].
  destruct (Nat.eqb_spec n 0) as [->|Hn]; simpl; [intros [= <- <-]; split; [done|lia]|].
  destruct (List3.build_loop _ n _ pc') as [[l1 c1]|e|] eqn:Hl; simpl; [|done..].
  intros [= <- <-]. apply build_loop_kind in Hl as [? ?]. split; [congruence|lia].
Qed.

(** For any database and cursor, a resource page has at most as many entries
    as asked for and never more than the larger of the default and the
    maximal page size, and the list the query returns is always of the kind
    asked for, so that taking its variant cannot fail. *)
Theorem endpoint_pages_bounded canonical display entries prefix start count :
  match get_account_resources_v1 canonical entries prefix start count with
  | Ok (l, _) => (length l ≤ page_size count)%nat
  | Err e => e ≠ EP_TakeVariant
  | Panic => True
  end ∧
  match get_account_modules_v1 display entries prefix start count with
  | Ok (l, _) => (length l ≤ page_size count)%nat
  | Err e => e ≠ EP_TakeVariant
  | Panic => True
  end ∧
  (page_size count ≤ Nat.max DEFAULT_SIZE_OF_PAGE MAX_NUM_OF_TRANSACTIONS_TO_RETURN)%nat.
Proof.
  assert (∀ q, match get_move_list entries prefix start (page_size count) q with
               | Err e => e ≠ EP_TakeVariant | _ => True end) as Herr.
  { intros q. unfold get_move_list. by destruct (List3.build_move_list _ _ _ _ _ _ _). }
  split_and!.
  - unfold get_account_resources_v1. specialize (Herr Resources).
    destruct (get_move_list _ _ _ _ _) as [[l c]|e|] eqn:Hl; simpl; [|done..].
    apply get_move_list_kind in Hl as [Hk Hlen]. destruct l; [|done]. simpl in *.
    by rewrite length_fmap.
  - unfold get_account_modules_v1. specialize (Herr Modules).
    destruct (get_move_list _ _ _ _ _) as [[l c]|e|] eqn:Hl; simpl; [|done..].
    apply get_move_list_kind in Hl as [Hk Hlen]. destruct l; [done|]. simpl in *.
    by rewrite length_fmap.
  - destruct count; simpl; lia.
Qed.
End endpoints.
End Endpoints.

(** ** Example

    Three keys: a module, a group of three resources, a resource. *)
Module MoveListExamples.
#[export] Instance ex_env : MoveListEnv := {
  ModuleId := Z; StructTag := Z; StateKey := Z; KeyBytes := Z;
  bytes_lt a b := a <? b;
  to_bytes k := k;
  DecodeErr := unit;
  decode b := inr b;
  path k := if k =? 10 then Some (Code 1) else
            if k =? 20 then Some (ResourceGroup 2) else
            if k =? 30 then Some (Resource 3) else None;
  GroupItem := unit;
  read_resource_group s := if s =? 2 then Some [(21, tt); (22, tt); (23, tt)] else None;
  CursorBytes := Z * option nat;
  BcsError := unit;
}.

Definition ex_keys : list StateKey := [10; 20; 30].
Definition ex_from (b : CursorBytes) : BcsError + PaginationCursor :=
  inr {| state_key := (b.1 : StateKey); resource_group_item_index := b.2 |}.
Definition ex_to (c : PaginationCursor) : option CursorBytes :=
  Some (state_key c, resource_group_item_index c).

Definition ex_prefix : KeyBytes := 0.

(** Pages of two: the first ends inside the group. *)
Lemma pages_partition_listing_witness :
  ∃ pages, List3.follow ex_from ex_to ex_keys ex_prefix Resources [2; 2; 2]%nat None = Ok pages ∧
    concat pages = inl <$> [21; 22; 23; 3].
Proof.
  assert (StronglySorted (λ a b, bytes_lt (to_bytes a) (to_bytes b) = true) ex_keys) as Hs
    by (repeat (constructor; try reflexivity)).
  assert (Forall (λ k, bytes_lt (to_bytes k) ex_prefix = false) ex_keys) as Hp
    by (repeat (constructor; try reflexivity)).
  destruct (List3.pages_partition_listing ex_from ex_to ex_keys Hs Z.ltb_irrefl)
    with (prefix := ex_prefix) (q := Resources) (sizes := [2; 2; 2]%nat)
    as (pages & Hf & Hc & _); [done| |exact Hp| |].
  - intros k s _ Hk. simpl in *.
    destruct (k =? 10), (k =? 20), (k =? 30); simplify_eq; by eexists.
  - intros [k i]. by exists (k, i).
  - exists pages. split; [exact Hf|]. rewrite Hc. reflexivity.
Defined.
End MoveListExamples.
