(* ===== verification/Authorization.v ===== *)
(** * Authorization of synchronization endpoints ([src/rpc_node/src/authorization.rs])

    A request is forwarded when its header carries a token whose hash is known
    and whose source is the one the token was issued for. *)

From S2P Require Import Prelude.
From stdpp Require Import base tactics option list strings.
From Stdlib Require Import ZArith Lia Ascii String.
Local Open Scope Z_scope.
Local Open Scope string_scope.

(** ** The string operations the source uses *)
Definition starts_with (p s : string) : bool := String.prefix p s.

Fixpoint string_drop (n : nat) (s : string) : string :=
  match n, s with
  | O, _ => s
  | S n', String _ s' => string_drop n' s'
  | S _, EmptyString => EmptyString
  end.

(** [trim_start_matches(p)] strips [p] as long as it is a prefix; every turn
    shortens the string, so its length is enough fuel. *)
Fixpoint trim_start_matches_fuel (fuel : nat) (p s : string) : string :=
  match fuel with
  | O => s
  | S fuel' => if starts_with p s
               then trim_start_matches_fuel fuel' p (string_drop (String.length p) s)
               else s
  end.
Definition trim_start_matches (p s : string) : string :=
  trim_start_matches_fuel (String.length s) p s.

(** White space of a header value, which is ASCII. *)
Definition is_whitespace (c : ascii) : bool :=
  let n := nat_of_ascii c in ((9 <=? n) && (n <=? 13) || (n =? 32))%nat.

Fixpoint trim_start (s : string) : string :=
  match s with
  | String c s' => if is_whitespace c then trim_start s' else s
  | EmptyString => EmptyString
  end.

Fixpoint trim_end (s : string) : string :=
  match s with
  | EmptyString => EmptyString
  | String c s' =>
      match trim_end s' with
      | EmptyString => if is_whitespace c then EmptyString else String c EmptyString
      | r => String c r
      end
  end.

Definition trim (s : string) : string := trim_end (trim_start s).

Fixpoint split (sep : ascii) (s : string) : list string :=
  match s with
  | EmptyString => [EmptyString]
  | String c s' =>
      if Ascii.eqb c sep then EmptyString :: split sep s'
      else match split sep s' with
           | part :: parts => String c part :: parts
           | [] => [String c EmptyString]
           end
  end.

(** ** The middleware *)
Inductive AuthorizedSource (IpAddr : Type) : Type :=
| SourceHost (host : string)
| SourceIpAddr (ip : IpAddr).
Arguments SourceHost {IpAddr}.
Arguments SourceIpAddr {IpAddr}.

Record KycToken (Digest IpAddr : Type) := {
  token_hash : Digest;
  authorized_source : AuthorizedSource IpAddr;
}.
Arguments token_hash {Digest IpAddr}.
Arguments authorized_source {Digest IpAddr}.

(** What the middleware reads of a request.  [Some None] is a header whose bytes
    are not visible ASCII. *)
Record WebRequest (IpAddr : Type) := {
  authorization_header : option (option string);
  host : string;
  peer_ip : option IpAddr;
}.
Arguments authorization_header {IpAddr}.
Arguments host {IpAddr}.
Arguments peer_ip {IpAddr}.

Inductive StatusCode : Type :=
| BAD_REQUEST
| NOT_ACCEPTABLE
| UNAUTHORIZED.

Inductive AuthOutcome : Type :=
| Refused (status : StatusCode)
| Forwarded.

Module Auth.
Section auth.
Context {Digest IpAddr : Type} `{EqDecision Digest} `{EqDecision IpAddr}.
(** The digest of the bytes of a token. *)
Context (digest : string → Digest).

Definition extract_token (auth_str : string) : string :=
  trim (trim_start_matches "Bearer" auth_str).

Definition source_matches (source : AuthorizedSource IpAddr) (req : WebRequest IpAddr) : bool :=
  match source with
  | SourceHost h => existsb (λ part, String.eqb part h) (split ":"%char (host req))
  | SourceIpAddr ip => match peer_ip req with
                       | Some peer => bool_decide (peer = ip)
                       | None => false
                       end
  end.

Definition token_authorizes (hash : Digest) (req : WebRequest IpAddr)
    (kyc_token : KycToken Digest IpAddr) : bool :=
  if bool_decide (token_hash kyc_token ≠ hash) then false
  else source_matches (authorized_source kyc_token) req.

Definition call (kyc_tokens : list (KycToken Digest IpAddr)) (req : WebRequest IpAddr)
    : AuthOutcome :=
  match authorization_header req with
  | None => Refused BAD_REQUEST
  | Some None => Refused BAD_REQUEST
  | Some (Some auth_str) =>
      if starts_with "Bearer" auth_str
      then
        let hash := digest (extract_token auth_str) in
        let is_authorized := existsb (token_authorizes hash req) kyc_tokens in
        if negb is_authorized then Refused UNAUTHORIZED else Forwarded
      else Refused NOT_ACCEPTABLE
  end.

(** C31 A request is forwarded exactly when its header is readable, uses the
    bearer scheme, and there is a known token with the hash of the submitted
    one whose source is the peer's address or one of the parts of the host. *)
Theorem call_forwarded_iff tokens req :
  call tokens req = Forwarded ↔
  ∃ auth_str t, authorization_header req = Some (Some auth_str) ∧
    starts_with "Bearer" auth_str = true ∧ t ∈ tokens ∧
    token_hash t = digest (extract_token auth_str) ∧
    match authorized_source t with
    | SourceHost h => h ∈ split ":"%char (host req)
    | SourceIpAddr ip => peer_ip req = Some ip
    end.
Proof.
  unfold call. destruct (authorization_header req) as [[s|]|]; [|split; [done|by intros (? & ? & [=] & _)]..].
  assert (∀ t, token_authorizes (digest (extract_token s)) req t = true ↔
    token_hash t = digest (extract_token s) ∧
    match authorized_source t with
    | SourceHost h => h ∈ split ":"%char (host req)
    | SourceIpAddr ip => peer_ip req = Some ip
    end) as Ht.
  { intros t. unfold token_authorizes. case_bool_decide as Hh; [by split; [|intros [? _]]|].
    unfold source_matches. destruct (authorized_source t) as [h|ip].
    - rewrite existsb_exists. setoid_rewrite String.eqb_eq. split.
      + intros (x & Hx & ->). split; [done|]. by apply list_elem_of_In.
      + intros [_ Hx]. exists h. split; [by apply list_elem_of_In|done].
    - destruct (peer_ip req) as [p|]; [|by split; [|intros [_ [=]]]].
      rewrite bool_decide_eq_true. split; [by intros ->|by intros [_ [= ->]]]. }
  destruct (starts_with "Bearer" s) eqn:Hs.
  - destruct (existsb _ tokens) eqn:He; simpl; split; try done.
    + intros _. apply existsb_exists in He as (t & Hin & Hta). apply Ht in Hta as [? ?].
      exists s, t. split_and!; try done. by apply list_elem_of_In.
    + intros (s' & t & [= <-] & _ & Hin & Hta).
      assert (existsb (token_authorizes (digest (extract_token s)) req) tokens = true) as Hx.
      { apply existsb_exists. exists t. split; [by apply list_elem_of_In|by apply Ht]. }
      by rewrite Hx in He.
  - split; [done|]. intros (s' & t & [= <-] & Hs' & _). congruence.
Qed.
End auth.

(** The token of a header in the documented form, [Bearer] and a space before
    a token without outer white space, is read back unchanged, also when the
    token itself begins with [Bearer]. *)
Theorem extract_token_roundtrip tok :
  trim tok = tok →
  extract_token ("Bearer " +:+ tok) = tok ∧ starts_with "Bearer" ("Bearer " +:+ tok) = true.
Proof.
  intros Ht. unfold extract_token, trim_start_matches. simpl. split; [|by destruct tok].
  replace (starts_with "" (String " " tok)) with true by by destruct tok. simpl.
  exact Ht.
Qed.

Lemma extract_token_roundtrip_witness :
  trim "Bearer-42" = "Bearer-42" ∧ extract_token "Bearer Bearer-42" = "Bearer-42".
Proof.
  split; [reflexivity|].
  exact (proj1 (extract_token_roundtrip "Bearer-42" eq_refl)).
Defined.
End Auth.
