(* ===== verification/EpochMiddleware.v ===== *)
(** * Epoch manager middleware

    [src/rpc_node/src/rpc_epoch_manager_middleware.rs] and
    [src/rpc_node/src/rpc_epoch_change_notification_schedule.rs].  The sender
    turns certifier messages into requests for committee authorizations, the
    receiver feeds received authorizations back to the certifier. *)

From S2P Require Import Prelude Chain.
From stdpp Require Import base tactics option list.
From Stdlib Require Import ZArith Lia.
Local Open Scope Z_scope.

(** [certifier::AsynchronousCertifierNetworkMessage], with the epoch of the data
    a proposal or vote is about. *)
Inductive CertifierMessage (Cert : Type) : Type :=
| CM_Certificate (c : Cert)
| CM_Proposal (epoch : Z)
| CM_Vote (epoch : Z).
Arguments CM_Certificate {Cert}.
Arguments CM_Proposal {Cert}.
Arguments CM_Vote {Cert}.

(** [epoch_manager::EpochManagerMessage]. *)
Inductive EpochManagerMessage (Cert : Type) : Type :=
| EM_CommitteeCertifierMessage (m : CertifierMessage Cert)
| EM_Other.
Arguments EM_CommitteeCertifierMessage {Cert}.
Arguments EM_Other {Cert}.

Module Middleware.
Section middleware.
Context {Cert MsgBytes Client ClientError Txn : Type}.
(** [EpochManagerMessage::try_from_bytes], and the RPC client. *)
Context (try_from_bytes : MsgBytes → option (EpochManagerMessage Cert)).
Context (client_send : RpcServerMessage Txn → M Client ClientError unit).
Local Open Scope rust_scope.

(** ** The sender *)
Definition broadcast (message : MsgBytes) : M Client ClientError unit :=
  match try_from_bytes message with
  | None => rret tt
  | Some (EM_CommitteeCertifierMessage m) =>
      let request epoch : M Client ClientError unit :=
        λ c, match client_send (RSM_Authorization epoch) c with
             | (c', Ok _) => (c', Ok tt)
             | (c', Err _) => (c', Ok tt)
             | (c', Panic) => (c', Panic)
             end in
      match m with
      | CM_Certificate _ => rret tt
      | CM_Proposal epoch => request epoch
      | CM_Vote epoch => request epoch
      end
  | Some EM_Other => rret tt
  end.

Definition multicast {Identity} (receivers : list Identity) (message : MsgBytes)
    : M Client ClientError unit := broadcast message.

(** The request a message asks for. *)
Definition requested_epoch (message : MsgBytes) : option Z :=
  match try_from_bytes message with
  | Some (EM_CommitteeCertifierMessage (CM_Proposal e | CM_Vote e)) => Some e
  | _ => None
  end.

(** Sending a message through the middleware never reports an error, and
    touches the client at most once: with a request for the authorization of
    the epoch the proposal or vote is about, and not at all for certificates
    and messages it cannot read. *)
Theorem broadcast_requests_epoch message c :
  match requested_epoch message with
  | Some e => (broadcast message c).1 = (client_send (RSM_Authorization e) c).1
  | None => (broadcast message c).1 = c
  end ∧
  ∀ e, (broadcast message c).2 ≠ Err e.
Proof.
  unfold broadcast, requested_epoch.
  destruct (try_from_bytes message) as [[[]|]|]; try done;
    by destruct (client_send _ c) as [c' []].
Qed.

(** ** The receiver *)

(** The bounded channel to the certifier, closed once its receiver is gone. *)
Record Channel := { queue : list (CertifierMessage Cert); capacity : nat; closed : bool }.

Definition handle_committee_authorization (certificate : Cert)
    : M Channel (CertifierMessage Cert) unit :=
  λ ch,
    let m := CM_Certificate certificate in
    if closed ch then (ch, Panic)
    else if (length (queue ch) <? capacity ch)%nat
    then ({| queue := queue ch ++ [m]; capacity := capacity ch; closed := false |}, Ok tt)
    else (ch, Ok tt).

(** [run]: [None] is the shutdown notification. *)
Fixpoint run (events : list (option Cert)) : M Channel (CertifierMessage Cert) unit :=
  match events with
  | [] => rret tt
  | None :: _ => rret tt
  | Some c :: events' =>
      λ ch, match handle_committee_authorization c ch with
            | (ch', Ok _) => run events' ch'
            | (ch', Err _) => run events' ch'
            | (ch', Panic) => (ch', Panic)
            end
  end.

(** Authorizations received before the shutdown. *)
Fixpoint received (events : list (option Cert)) : list Cert :=
  match events with Some c :: es => c :: received es | _ => [] end.

(** As long as the certifier is there, the loop forwards the certificates in
    the order they arrive until the channel is full, drops the others, and
    ends without an error. *)
Theorem run_forwards_in_order events ch :
  closed ch = false → (length (queue ch) ≤ capacity ch)%nat →
  run events ch
  = ({| queue := queue ch ++ take (capacity ch - length (queue ch))
                                  (CM_Certificate <$> received events);
        capacity := capacity ch; closed := false |}, Ok tt).
Proof.
  revert ch. induction events as [|[c|] events IH]; intros ch Hc Hl; simpl.
  - rewrite take_nil, app_nil_r. destruct ch; simpl in *. by subst.
  - unfold handle_committee_authorization. rewrite Hc.
    destruct (Nat.ltb_spec (length (queue ch)) (capacity ch)) as [Hlt|Hge].
    + rewrite IH; simpl; [|done|rewrite length_app; simpl; lia].
      rewrite length_app, <- app_assoc. simpl. do 3 f_equal.
      replace (capacity ch - length (queue ch))%nat
        with (S (capacity ch - (length (queue ch) + 1)))%nat by lia. done.
    + rewrite IH by done. by replace (capacity ch - length (queue ch))%nat with O by lia.
  - rewrite take_nil, app_nil_r. destruct ch; simpl in *. by subst.
Qed.
End middleware.
Arguments Channel : clear implicits.

Lemma run_forwards_in_order_witness :
  run (Cert:=Z) [Some 1; Some 2; Some 3; None; Some 4]
    {| queue := []; capacity := 2; closed := false |}
  = ({| queue := [CM_Certificate 1; CM_Certificate 2]; capacity := 2; closed := false |}, Ok tt).
Proof.
  apply (run_forwards_in_order (Cert:=Z) [Some 1; Some 2; Some 3; None; Some 4]
    {| queue := []; capacity := 2; closed := false |}); [reflexivity|simpl; lia].
Defined.
End Middleware.

(** ** The order of epoch notifications *)
Inductive RpcEpochChangeNotificationSchedule : Type := Sched_ChainStateAssembler | Sched_Pruner.

Inductive SubscriptionCategory (S : Type) : Type :=
| Mandatory (s : S)
| Optional (s : S).
Arguments Mandatory {S}.
Arguments Optional {S}.

Definition get_schedule {N} (_ : N)
    : list (SubscriptionCategory RpcEpochChangeNotificationSchedule) :=
  [Mandatory Sched_ChainStateAssembler; Optional Sched_Pruner].
