(* ===== verification/ApiState.v ===== *)
(** * State shared by the REST handlers

    [src/rpc_node/src/rest/api_server_state.rs], [api_server_error.rs],
    [api_server_state_builder.rs] and [utilities.rs]: lookups of transactions,
    blocks, certified blocks and events, and the simulation of transactions.

    The archive, the Move store, the chain store and the Move converter belong
    to other crates: they are parameters.  The transient storage is the one of
    [Transactions.v]. *)

From S2P Require Import Prelude Transactions.
From stdpp Require Import base tactics option list strings pretty.
From Stdlib Require Import ZArith Lia.
Local Open Scope Z_scope.

(** ** Types of the other crates *)
Class ApiTypes : Type := {
  Hash : Type;
  AccountAddress : Type;
  ChainId : Type;
  AnyhowError : Type;
  StoreError : Type;
  SmrError : Type;
  BcsError : Type;
  MoveListErr : Type;
  (** Transactions as the chain stores them. *)
  SmrMoveTransaction : Type;
  SmrSupraTransaction : Type;
  SmrTransactionHeader : Type;
  MoveTransactionPayload : Type;
  EntryFunction : Type;
  MoveAuthenticator : Type;
  SignerData : Type;
  DkgPayload : Type;
  OraclePayload : Type;
  AutomatedTransactionMeta : Type;
  (** Outputs of execution. *)
  SerializedOutput : Type;
  MoveTransactionOutput : Type;
  ErrorCode : Type;
  KeptStatus : Type;
  AuxiliaryData : Type;
  ContractEvent : Type;
  (** Types of the API. *)
  ApiMovePayload : Type;
  ApiEvent : Type;
  MoveResource : Type;
  BlockHeaderInfo : Type;
  NativeBlockStats : Type;
  ExecutedBlockStats : Type;
  TransactionV3 : Type;
  (** Move store. *)
  MoveStore : Type;
  StructTag : Type;
  TypeTag : Type;
  Bytes : Type;
  ResourceGroup : Type;
  (** Chain store. *)
  ChainStore : Type;
  SchemaError : Type;
  StoredCertifiedBlock : Type;
  CertifiedBlock : Type;
  AuthorizedCommittee : Type;
  CommitteeAuthorization : Type;
  (** Mutable services of the node. *)
  TxSender : Type;
  GasPriceReader : Type;
  RestLimiter : Type;
  FaucetServices : Type;
}.

Section data.
Context `{ApiTypes}.

(** [transactions::SmrTransaction]. *)
Inductive SmrTransaction : Type :=
| Smr_Move (inner : SmrMoveTransaction)
| Smr_Supra (inner : SmrSupraTransaction).

Inductive SmrTransactionPayload : Type :=
| SmrPayload_Dkg (p : DkgPayload)
| SmrPayload_Oracle (p : OraclePayload).

(** [aptos_types::transaction::TransactionStatus]. *)
Inductive TransactionStatus : Type :=
| Discard (error_code : ErrorCode)
| Keep (kept_status : KeptStatus)
| Retry.

(** [types::api]. *)
Inductive TransactionType : Type := Auto | User | Meta.

Inductive TransactionAuthenticator : Type :=
| Auth_Move (a : MoveAuthenticator)
| Auth_Dkg (s : SignerData)
| Auth_Oracle (s : SignerData)
| Auth_Automation (registration : Hash).

Inductive TransactionPayload : Type :=
| Payload_Move (p : ApiMovePayload)
| Payload_Dkg (p : DkgPayload)
| Payload_Oracle (p : OraclePayload).

Definition is_move (p : TransactionPayload) : bool :=
  match p with Payload_Move _ => true | _ => false end.

Record ApiMoveTransactionOutput := {
  out_events : list ApiEvent;
  out_gas_used : Z;
  out_vm_status : string;
}.

Inductive TransactionOutput : Type :=
| Output_Move (o : ApiMoveTransactionOutput)
| Output_Dkg (st : TxExecutionStatus)
| Output_Oracle (st : TxExecutionStatus).

Record TransactionInfoV2 := {
  info_authenticator : TransactionAuthenticator;
  info_block : option BlockHeaderInfo;
  info_hash : Hash;
  info_header : SmrTransactionHeader;
  info_payload : TransactionPayload;
  info_output : option TransactionOutput;
  info_status : TxExecutionStatus;
}.

Record BlockMetadataInfo := {
  meta_hash : Hash;
  meta_block : option BlockHeaderInfo;
  meta_output : TransactionOutput;
  meta_status : TxExecutionStatus;
}.

Record ApiBlock := {
  block_header : BlockHeaderInfo;
  block_txns : option (list TransactionInfoV2);
}.

(** [archive::schemas::coin_transactions::TaggedTransactionHash]. *)
Inductive TaggedTransactionHash : Type :=
| Tag_BlockMetadata (h : Hash)
| Tag_User (h : Hash)
| Tag_Automated (h : Hash).

Definition into_user_txn_hash (t : TaggedTransactionHash) : option Hash :=
  match t with Tag_User h => Some h | _ => None end.

Record PackedSmrBatch := { batch_hash : Hash; batch_bytes : Bytes }.
Record ConsensusBlock := {
  cb_block : CertifiedBlock;
  cb_batches : option (list PackedSmrBatch);
}.

Record EventWithContext := {
  ev_event : ApiEvent;
  ev_block_height : Z;
  ev_transaction_hash : Hash;
}.
End data.

(** ** Operations of the other crates *)
Class ApiOps `{ApiTypes} `{StorageOps SmrTransaction Hash} : Type := {
  anyhow : string → AnyhowError;
  show_hash : Hash → string;
  show_account : AccountAddress → string;
  show_error_code : ErrorCode → string;
  (** Accessors of transactions. *)
  move_payload : SmrMoveTransaction → MoveTransactionPayload;
  move_authenticator : SmrMoveTransaction → MoveAuthenticator;
  move_header : SmrMoveTransaction → SmrTransactionHeader;
  entry_function : EntryFunction → MoveTransactionPayload;
  supra_signer_data : SmrSupraTransaction → SignerData;
  supra_header : SmrSupraTransaction → SmrTransactionHeader;
  supra_payload : SmrSupraTransaction → SmrTransactionPayload;
  (** Task index, sender, gas unit price, block height and hash. *)
  meta_into_inner : AutomatedTransactionMeta → Z * AccountAddress * Z * Z * Hash;
  header_new : AccountAddress → Z → Z → Z → Z → ChainId → SmrTransactionHeader;
  task_max_gas_amount : AutomationTask → Z;
  task_expiry_time : AutomationTask → Z;
  task_payload : AutomationTask → EntryFunction;
  task_tx_hash : AutomationTask → Hash;
  header_hash : BlockHeaderInfo → Hash;
  header_height : BlockHeaderInfo → Z;
  (** Outputs: [as_move] is the [Move] variant. *)
  as_move : SerializedOutput → option MoveTransactionOutput;
  execution_status : SerializedOutput → TxExecutionStatus;
  mto_events : MoveTransactionOutput → list ContractEvent;
  mto_gas_used : MoveTransactionOutput → Z;
  mto_transaction_status : MoveTransactionOutput → TransactionStatus;
  mto_auxiliary_data : MoveTransactionOutput → AuxiliaryData;
  stats_from : NativeBlockStats → ExecutedBlockStats;
  txn_from_info : TransactionInfoV2 → TransactionV3;
  txn_from_meta : BlockMetadataInfo → TransactionV3;
  (** The Move converter, which reads the Move store. *)
  try_into_transaction_payload :
    MoveStore → MoveTransactionPayload → outcome AnyhowError ApiMovePayload;
  try_into_events : MoveStore → list ContractEvent → outcome AnyhowError (list ApiEvent);
  explain_vm_status : MoveStore → KeptStatus → option AuxiliaryData → string;
  find_resource : MoveStore → AccountAddress → StructTag → outcome AnyhowError (option Bytes);
  try_into_resource : MoveStore → StructTag → Bytes → outcome AnyhowError MoveResource;
  get_resource_group_bytes :
    MoveStore → AccountAddress → StructTag → outcome AnyhowError (option Bytes);
  bcs_resource_group : Bytes → outcome BcsError ResourceGroup;
  resource_group_items : ResourceGroup → list (StructTag * Bytes);
  (** [ArchiveReader]. *)
  get_txn_output : Archive → Hash → outcome ArchiveError (option SerializedOutput);
  get_block_hash_by_txn_hash : Archive → Hash → outcome ArchiveError (option Hash);
  get_block_header_info : Archive → Hash → outcome ArchiveError (option BlockHeaderInfo);
  get_block_header_info_by_height : Archive → Z → outcome ArchiveError (option BlockHeaderInfo);
  get_latest_block_header_info : Archive → outcome ArchiveError (option BlockHeaderInfo);
  get_txs_by_block_height : Archive → Z → outcome ArchiveError (list Hash);
  get_automated_txs_by_block_height : Archive → Z → outcome ArchiveError (list Hash);
  get_automated_transaction_data :
    Archive → Hash → outcome ArchiveError (option (AutomatedTransactionMeta * AutomationTask));
  is_block_metadata_hash : Archive → Hash → outcome ArchiveError bool;
  get_block_metadata_hash_by_block_height : Archive → Z → outcome ArchiveError (option Hash);
  get_block_stats_by_block_height : Archive → Z → outcome ArchiveError (option NativeBlockStats);
  get_transaction_hashes_by_account :
    Archive → AccountAddress → option Z → nat → outcome ArchiveError (list Hash);
  get_coin_transaction_hashes_by_account :
    Archive → AccountAddress → option Z → nat →
    outcome ArchiveError (list TaggedTransactionHash * Z);
  get_automated_transaction_hashes_by_account :
    Archive → AccountAddress → option Z → option Bytes → bool → nat →
    outcome ArchiveError (list Hash * option Bytes);
  archive_get_events_by_type : Archive → TypeTag → Z → Z → outcome ArchiveError (list ContractEvent);
  get_events_by_type_with_limit_and_context :
    Archive → TypeTag → Z → Z → nat → option Bytes →
    outcome ArchiveError (list (ContractEvent * (Z * Hash)) * option Bytes);
  (** [ChainStore]: the certified blocks from the last one down, one block,
      the batches and the authorized committees. *)
  certified_block_iter_end : ChainStore → list (outcome SchemaError StoredCertifiedBlock);
  certified_block_read : ChainStore → Z → outcome StoreError (option StoredCertifiedBlock);
  schema_error : SchemaError → StoreError;
  hydrate : ChainStore → StoredCertifiedBlock → outcome StoreError CertifiedBlock;
  certified_height : CertifiedBlock → Z;
  certified_items : CertifiedBlock → list Hash;
  batch_read_bytes : ChainStore → Hash → outcome StoreError (option Bytes);
  epoch_authorized_committee_read :
    ChainStore → Z → outcome StoreError (option AuthorizedCommittee);
  committee_authorization : AuthorizedCommittee → CommitteeAuthorization;
}.

(** ** Errors *)
Module ApiErr.
Section api_err.
Context `{ApiTypes} {Txn : Type} `{StorageOps Txn Hash}.

Inductive ApiServerError : Type :=
| InconsistentArchiveState (msg : string)
| MissingAccountTransaction (h : Hash) (a : AccountAddress)
| MissingAccountAutomatedTransaction (h : Hash) (a : AccountAddress)
| MissingBlockTransaction (h block : Hash)
| MissingBlockTransactionOutput (h block : Hash)
| MissingBlockAutomatedTransaction (h block : Hash)
| MissingAutomatedTransactionOutput (h : Hash)
| MissingBlockMetadataOutput (h : Hash)
| MissingTransactionStatus (h : Hash)
| TransactionNotFound (h : Hash)
| InconsistentStoreState (msg : string)
| TooManyConcurrentSimulations
| InvalidSimulationTransaction
| AE_MoveListError (e : MoveListErr)
| AE_ArchiveError (e : ArchiveError)
| AE_Other (e : AnyhowError)
| AE_StoreError (e : StoreError)
| AE_Smr (e : SmrError)
| AE_Bcs (e : BcsError).

(** [PublicApiServerError], a wrapper. *)
Record PublicApiServerError := { public_inner : ApiServerError }.

(** HTTP codes. *)
Definition BAD_REQUEST : Z := 400.
Definition NOT_FOUND : Z := 404.
Definition TOO_MANY_REQUESTS : Z := 429.
Definition INTERNAL_SERVER_ERROR : Z := 500.

Definition public_status_code (e : PublicApiServerError) : Z :=
  match public_inner e with
  | TooManyConcurrentSimulations => TOO_MANY_REQUESTS
  | TransactionNotFound _ => NOT_FOUND
  | _ => BAD_REQUEST
  end.
End api_err.
End ApiErr.

(** ** The state *)
Module Api.
Import ApiErr.
Section api.
Context `{ApiOps}.
Local Open Scope rust_scope.

Notation Res := (outcome (ApiServerError (Txn:=SmrTransaction))).
Notation PubRes := (outcome (PublicApiServerError (Txn:=SmrTransaction))).

Record ApiServerState := {
  storage : Storage.RpcStorage SmrTransaction Hash;
  move_store : MoveStore;
  store : ChainStore;
  tx_sender : TxSender;
  gas_price_reader : GasPriceReader;
  rest_call_limiter : option RestLimiter;
  faucet_state : option FaucetServices;
  chain_id : ChainId;
}.

(** [ApiServerStateBuilder] and its [build], which panics on what is unset.
    [chain_id_of] reads the chain identifier from the Move store. *)
Record ApiServerStateBuilder := {
  b_storage : option (Storage.RpcStorage SmrTransaction Hash);
  b_move_store : option MoveStore;
  b_store : option ChainStore;
  b_tx_sender : option TxSender;
  b_gas_price_reader : option GasPriceReader;
  b_rest_call_limiter : option RestLimiter;
  b_faucet : option FaucetServices;
}.

Definition build {E} (chain_id_of : MoveStore → option ChainId) (b : ApiServerStateBuilder)
    : outcome E ApiServerState :=
  let? ms := expect (b_move_store b) in
  let? id := expect (chain_id_of ms) in
  let? st := expect (b_storage b) in
  let? cs := expect (b_store b) in
  let? tx := expect (b_tx_sender b) in
  let? gas := expect (b_gas_price_reader b) in
  Ok {| storage := st; move_store := ms; store := cs; tx_sender := tx;
        gas_price_reader := gas; rest_call_limiter := b_rest_call_limiter b;
        faucet_state := b_faucet b; chain_id := id |}.

Definition is_faucet_enabled (s : ApiServerState) : bool :=
  match faucet_state s with Some _ => true | None => false end.

Definition reader (s : ApiServerState) : Archive := Storage.archive (storage s).

(** The [?] operator on the results of the archive, and [From] into the public error. *)
Definition archived {A} (o : outcome ArchiveError A) : Res A := omap_err AE_ArchiveError o.
Definition public {A} (o : Res A) : PubRes A := omap_err Build_PublicApiServerError o.

(** *** Building the descriptions of transactions *)

(** [Converter::convert_to_api_move_transaction_output]. *)
Definition convert_to_api_move_transaction_output (ms : MoveStore) (o : MoveTransactionOutput)
    : Res ApiMoveTransactionOutput :=
  let? events := omap_err AE_Other (try_into_events ms (mto_events o)) in
  let status_message :=
    match mto_transaction_status o with
    | Discard error_code => "Discarded with error code: " +:+ show_error_code error_code
    | Keep kept_status => explain_vm_status ms kept_status (Some (mto_auxiliary_data o))
    | Retry => "Retry"
    end in
  Ok {| out_events := events; out_gas_used := mto_gas_used o; out_vm_status := status_message |}.

Definition api_move_transaction_output (ms : MoveStore) (maybe_output : option SerializedOutput)
    : Res (option TransactionOutput) :=
  match maybe_output with
  | Some output =>
      match as_move output with
      | Some move_output =>
          let? o := convert_to_api_move_transaction_output ms move_output in
          Ok (Some (Output_Move o))
      | None => Err (InconsistentArchiveState "Move transaction has non-move output.")
      end
  | None => Ok None
  end.

Definition move_transaction_info (ms : MoveStore) (hash : Hash) (t : SmrMoveTransaction)
    (maybe_block_data : option BlockHeaderInfo) (maybe_output : option SerializedOutput)
    (status : TxExecutionStatus) : Res TransactionInfoV2 :=
  let? payload := omap_err AE_Other (try_into_transaction_payload ms (move_payload t)) in
  let? output := api_move_transaction_output ms maybe_output in
  Ok {| info_authenticator := Auth_Move (move_authenticator t);
        info_block := maybe_block_data; info_hash := hash; info_header := move_header t;
        info_payload := Payload_Move payload; info_output := output; info_status := status |}.

Definition create_transaction_info (s : ApiServerState) (hash : Hash) (t : SmrTransaction)
    (maybe_output : option SerializedOutput) (status : TxExecutionStatus)
    (maybe_block_data : option BlockHeaderInfo) : Res TransactionInfoV2 :=
  match t with
  | Smr_Move t => move_transaction_info (move_store s) hash t maybe_block_data maybe_output status
  | Smr_Supra t =>
      let signature_data := supra_signer_data t in
      let header := supra_header t in
      Ok match supra_payload t with
         | SmrPayload_Dkg p =>
             {| info_authenticator := Auth_Dkg signature_data;
                info_block := maybe_block_data; info_hash := hash; info_header := header;
                info_payload := Payload_Dkg p;
                info_output := (λ o, Output_Dkg (execution_status o)) <$> maybe_output;
                info_status := status |}
         | SmrPayload_Oracle p =>
             {| info_authenticator := Auth_Oracle signature_data;
                info_block := maybe_block_data; info_hash := hash; info_header := header;
                info_payload := Payload_Oracle p;
                info_output := (λ o, Output_Oracle (execution_status o)) <$> maybe_output;
                info_status := status |}
         end
  end.

Definition create_automated_transaction_info (s : ApiServerState)
    (txn_meta : AutomatedTransactionMeta) (ref_task : AutomationTask)
    (output : option SerializedOutput) (status : TxExecutionStatus)
    (maybe_block_data : option BlockHeaderInfo) : Res TransactionInfoV2 :=
  let '(task_idx, sender, gas_unit_price, _, hash) := meta_into_inner txn_meta in
  let header := header_new sender task_idx gas_unit_price (task_max_gas_amount ref_task)
                  (task_expiry_time ref_task) (chain_id s) in
  let? payload := omap_err AE_Other
    (try_into_transaction_payload (move_store s) (entry_function (task_payload ref_task))) in
  let? api_output := api_move_transaction_output (move_store s) output in
  Ok {| info_authenticator := Auth_Automation (task_tx_hash ref_task);
        info_block := maybe_block_data; info_hash := hash; info_header := header;
        info_payload := Payload_Move payload; info_output := api_output;
        info_status := status |}.

Definition check_move_payload_type (info : TransactionInfoV2) (error_msg : string) : Res unit :=
  if negb (is_move (info_payload info)) then Err (InconsistentArchiveState error_msg) else Ok tt.

(** *** Lookups by hash *)

(** The header is read from the archive whether it is asked for or not:
    [then_some] takes its argument by value. *)
Definition get_finalized_transaction_output_and_block_info (s : ApiServerState) (txn_hash : Hash)
    (with_block_data : bool) : Res (option SerializedOutput * option BlockHeaderInfo) :=
  let? output := archived (get_txn_output (reader s) txn_hash) in
  let? maybe_block_hash := archived (get_block_hash_by_txn_hash (reader s) txn_hash) in
  let? block_hash := ok_or maybe_block_hash (TransactionNotFound txn_hash) in
  let? header := archived (get_block_header_info (reader s) block_hash) in
  Ok (output, if with_block_data then header else None).

Definition get_transient_transaction_by_hash_internal (s : ApiServerState) (txn_hash : Hash)
    (with_block_data : bool) : Res (option TransactionInfoV2) :=
  let? maybe := archived (Storage.get_transaction_by_hash (storage s) txn_hash) in
  let? transaction := ok_or maybe (TransactionNotFound txn_hash) in
  let? maybe_status := archived (Storage.get_transaction_status (storage s) txn_hash) in
  let? status := ok_or maybe_status (MissingTransactionStatus txn_hash) in
  let? ' (output, block_info) :=
    match status with
    | St_Pending | St_PendingAfterExecution => Ok (None, None)
    | _ => get_finalized_transaction_output_and_block_info s txn_hash with_block_data
    end in
  omap_ok Some (create_transaction_info s txn_hash transaction output status block_info).

Definition get_executed_transaction_by_hash_internal (s : ApiServerState) (txn_hash : Hash)
    (with_block_data : bool) : Res (option TransactionInfoV2) :=
  let? maybe := archived (archive_get_transaction txn_hash (reader s)) in
  let? transaction := ok_or maybe (TransactionNotFound txn_hash) in
  let? maybe_status := archived (archive_get_status txn_hash (reader s)) in
  let? status := ok_or maybe_status (MissingTransactionStatus txn_hash) in
  let? ' (output, block_info) :=
    get_finalized_transaction_output_and_block_info s txn_hash with_block_data in
  omap_ok Some (create_transaction_info s txn_hash transaction output status block_info).

Definition get_automated_transaction_by_hash_internal (s : ApiServerState) (hash : Hash)
    (with_block_data : bool) : Res (option TransactionInfoV2) :=
  let? maybe := archived (get_automated_transaction_data (reader s) hash) in
  let? ' (txn_meta, ref_task) := ok_or maybe (TransactionNotFound hash) in
  let? maybe_status := archived (archive_get_status hash (reader s)) in
  let? status := ok_or maybe_status (MissingTransactionStatus hash) in
  let? ' (output, block_info) :=
    get_finalized_transaction_output_and_block_info s hash with_block_data in
  match output with
  | None => Err (MissingAutomatedTransactionOutput hash)
  | Some _ =>
      omap_ok Some (create_automated_transaction_info s txn_meta ref_task output status block_info)
  end.

Definition get_user_transaction_by_hash_internal (s : ApiServerState) (txn_hash : Hash)
    (ongoing : bool) : Res (option TransactionInfoV2) :=
  if ongoing then get_transient_transaction_by_hash_internal s txn_hash true
  else get_executed_transaction_by_hash_internal s txn_hash true.

Definition get_transaction_by_hash_internal (s : ApiServerState) (hash : Hash) (ongoing : bool)
    : Res (option TransactionInfoV2) :=
  match get_user_transaction_by_hash_internal s hash ongoing with
  | Ok (Some txn) => Ok (Some txn)
  | Ok None => Err (AE_Other (anyhow "Invalid internal state"))
  | Err (TransactionNotFound _) => get_automated_transaction_by_hash_internal s hash ongoing
  | Err err => Err err
  | Panic => Panic
  end.

Definition get_transaction_by_hash (s : ApiServerState) (hash : Hash) (ongoing : bool)
    : PubRes (option TransactionInfoV2) :=
  public (get_transaction_by_hash_internal s hash ongoing).

Definition get_user_transaction_by_hash (s : ApiServerState) (hash : Hash) (ongoing : bool)
    : PubRes (option TransactionInfoV2) :=
  public (get_user_transaction_by_hash_internal s hash ongoing).

Definition get_automated_transaction_by_hash (s : ApiServerState) (hash : Hash)
    : PubRes (option TransactionInfoV2) :=
  public (get_automated_transaction_by_hash_internal s hash true).

(** *** Block metadata transactions *)
Definition get_block_metadata_by_hash_internal (s : ApiServerState) (hash : Hash)
    (with_block_info : bool) : Res (option BlockMetadataInfo) :=
  let? maybe_status := archived (archive_get_status hash (reader s)) in
  let? status := ok_or maybe_status (MissingTransactionStatus hash) in
  let? ' (output, block_info) :=
    get_finalized_transaction_output_and_block_info s hash with_block_info in
  let? maybe_output := api_move_transaction_output (move_store s) output in
  match maybe_output with
  | Some api_output =>
      Ok (Some {| meta_hash := hash; meta_block := block_info; meta_output := api_output;
                  meta_status := status |})
  | None => Err (MissingBlockMetadataOutput hash)
  end.

Definition get_block_metadata_by_block_height_internal (s : ApiServerState) (height : Z)
    : Res (option BlockMetadataInfo) :=
  let? maybe_hash := archived (get_block_metadata_hash_by_block_height (reader s) height) in
  match maybe_hash with
  | None => Ok None
  | Some hash => get_block_metadata_by_hash_internal s hash false
  end.

Definition get_block_metadata_by_block_height (s : ApiServerState) (height : Z)
    : PubRes (option BlockMetadataInfo) :=
  public (get_block_metadata_by_block_height_internal s height).

Definition get_block_metadata_by_hash (s : ApiServerState) (hash : Hash)
    : PubRes (option BlockMetadataInfo) :=
  let? known := public (archived (is_block_metadata_hash (reader s) hash)) in
  if negb known then public (Err (TransactionNotFound hash))
  else public (get_block_metadata_by_hash_internal s hash true).

Definition get_block_execution_statistics_by_height (s : ApiServerState) (height : Z)
    : PubRes (option ExecutedBlockStats) :=
  let? native_stats := public (archived (get_block_stats_by_block_height (reader s) height)) in
  Ok (stats_from <$> native_stats).

(** *** Blocks *)
Definition get_block_transactions_by_hashes (s : ApiServerState) (block : Hash)
    (hashes : list Hash) : Res (list TransactionInfoV2) :=
  otraverse (λ h,
    let? maybe := get_executed_transaction_by_hash_internal s h false in
    let? info := ok_or maybe (MissingBlockTransaction h block) in
    match info_output info with
    | None => Err (MissingBlockTransactionOutput h block)
    | Some _ => Ok info
    end) hashes.

Definition get_block_automated_transactions_by_hashes (s : ApiServerState) (block : Hash)
    (hashes : list Hash) : Res (list TransactionInfoV2) :=
  otraverse (λ h,
    let? maybe := get_automated_transaction_by_hash_internal s h false in
    let? info := ok_or maybe (MissingBlockAutomatedTransaction h block) in
    let? _ := check_move_payload_type info
      ("A Move transaction hash " +:+ show_hash h +:+ " of block " +:+ show_hash block
       +:+ " has a non-Move transaction associated with it.") in
    Ok info) hashes.

Definition get_block_by_height_internal (s : ApiServerState) (height : Z)
    (with_finalized_transactions : bool) (txn_type : option TransactionType)
    : Res (option ApiBlock) :=
  let? maybe_header := archived (get_block_header_info_by_height (reader s) height) in
  match maybe_header with
  | None => Ok None
  | Some header =>
      if negb with_finalized_transactions
      then Ok (Some {| block_header := header; block_txns := None |})
      else
        let? transaction_hashes :=
          match txn_type with
          | None | Some User => archived (get_txs_by_block_height (reader s) height)
          | _ => Ok []
          end in
        let? automated_txn_hashes :=
          match txn_type with
          | None | Some Auto => archived (get_automated_txs_by_block_height (reader s) height)
          | _ => Ok []
          end in
        let? transactions :=
          get_block_transactions_by_hashes s (header_hash header) transaction_hashes in
        let? automated_txns :=
          get_block_automated_transactions_by_hashes s (header_hash header) automated_txn_hashes in
        Ok (Some {| block_header := header; block_txns := Some (transactions ++ automated_txns) |})
  end.

Definition get_block_by_height (s : ApiServerState) (height : Z)
    (with_finalized_transactions : bool) (txn_type : option TransactionType)
    : PubRes (option ApiBlock) :=
  public (get_block_by_height_internal s height with_finalized_transactions txn_type).

(** *** Transactions of an account *)
Definition account_payload_msg (account : AccountAddress) (hash : Hash) : string :=
  "A Move account address " +:+ show_account account +:+ " has a non-Move transaction with "
  +:+ show_hash hash +:+ " hash associated with it.".

Definition get_account_executed_transaction_by_hash_internal (s : ApiServerState)
    (account : AccountAddress) (hash : Hash) : Res TransactionInfoV2 :=
  let? maybe := get_executed_transaction_by_hash_internal s hash true in
  let? info := ok_or maybe (MissingAccountTransaction hash account) in
  let? _ := check_move_payload_type info (account_payload_msg account hash) in
  Ok info.

Definition get_account_executed_transactions_by_hashes_internal (s : ApiServerState)
    (account : AccountAddress) (hashes : list Hash) : Res (list TransactionInfoV2) :=
  otraverse (get_account_executed_transaction_by_hash_internal s account) hashes.

Definition get_account_executed_transactions_by_hashes (s : ApiServerState)
    (account : AccountAddress) (hashes : list Hash) : PubRes (list TransactionInfoV2) :=
  public (get_account_executed_transactions_by_hashes_internal s account hashes).

Definition get_account_automated_transaction_by_hash (s : ApiServerState)
    (account : AccountAddress) (hash : Hash) : Res TransactionInfoV2 :=
  let? maybe := get_automated_transaction_by_hash_internal s hash true in
  let? info := ok_or maybe (MissingAccountAutomatedTransaction hash account) in
  let? _ := check_move_payload_type info (account_payload_msg account hash) in
  Ok info.

Definition get_account_automated_transactions_by_hashes (s : ApiServerState)
    (account : AccountAddress) (hashes : list Hash) : Res (list TransactionInfoV2) :=
  otraverse (get_account_automated_transaction_by_hash s account) hashes.

Definition get_account_block_metadata_info_by_hash (s : ApiServerState)
    (account : AccountAddress) (hash : Hash) : Res BlockMetadataInfo :=
  let? v := get_block_metadata_by_hash_internal s hash true in
  ok_or v (MissingAccountTransaction hash account).

Definition get_account_user_transactions (s : ApiServerState) (account : AccountAddress)
    (start_sequence_number : option Z) (max : nat) : PubRes (list TransactionInfoV2) :=
  let? hashes := public (archived
    (get_transaction_hashes_by_account (reader s) account start_sequence_number max)) in
  public (get_account_executed_transactions_by_hashes_internal s account hashes).

Definition get_account_coin_transaction_hashes (s : ApiServerState) (account : AccountAddress)
    (start : option Z) (max : nat) : PubRes (list TaggedTransactionHash * Z) :=
  public (archived (get_coin_transaction_hashes_by_account (reader s) account start max)).

Definition get_account_automated_transactions (s : ApiServerState) (account : AccountAddress)
    (start_block_height : option Z) (cursor : option Bytes) (ascending : bool) (max : nat)
    : PubRes (list TransactionInfoV2 * option Bytes) :=
  let? ' (hashes, cursor) := public (archived
    (get_automated_transaction_hashes_by_account (reader s) account start_block_height
       cursor ascending max)) in
  let? transactions := public (get_account_automated_transactions_by_hashes s account hashes) in
  Ok (transactions, cursor).

Definition coin_transaction (s : ApiServerState) (account : AccountAddress)
    (tagged_txn : TaggedTransactionHash) : Res TransactionV3 :=
  match tagged_txn with
  | Tag_BlockMetadata meta =>
      omap_ok txn_from_meta (get_account_block_metadata_info_by_hash s account meta)
  | Tag_User user =>
      omap_ok txn_from_info (get_account_executed_transaction_by_hash_internal s account user)
  | Tag_Automated auto =>
      omap_ok txn_from_info (get_account_automated_transaction_by_hash s account auto)
  end.

Definition get_account_coin_transactions (s : ApiServerState) (account : AccountAddress)
    (start : option Z) (max : nat) : PubRes (list TransactionV3 * Z) :=
  let? ' (tagged_hashes, cursor) := get_account_coin_transaction_hashes s account start max in
  let? transactions := public (otraverse (coin_transaction s account) tagged_hashes) in
  Ok (transactions, cursor).

(** *** Resources *)
Definition get_move_resource (s : ApiServerState) (account : AccountAddress) (tag : StructTag)
    : PubRes (option MoveResource) :=
  let? maybe_bytes := public (omap_err AE_Other (find_resource (move_store s) account tag)) in
  match maybe_bytes with
  | None => Ok None
  | Some bytes =>
      let? resource := public (omap_err AE_Other (try_into_resource (move_store s) tag bytes)) in
      Ok (Some resource)
  end.

Definition read_resource_group (s : ApiServerState) (account : AccountAddress) (tag : StructTag)
    : option (list (StructTag * Bytes)) :=
  match ok (get_resource_group_bytes (move_store s) account tag) with
  | Some (Some bytes) => ok (omap_ok resource_group_items (bcs_resource_group bytes))
  | _ => None
  end.

(** *** Certified blocks *)
Definition get_batches_for_certified_block (s : ApiServerState) (b : CertifiedBlock)
    : Res (list PackedSmrBatch) :=
  let height := certified_height b in
  otraverse (λ hash,
    let? maybe := omap_err AE_StoreError (batch_read_bytes (store s) hash) in
    let? batch := ok_or maybe (InconsistentStoreState
      ("Block at height " +:+ pretty height +:+ " includes batch with hash " +:+ show_hash hash
       +:+ ", however a corresponding batch not found in Store")) in
    Ok {| batch_hash := hash; batch_bytes := batch |}) (certified_items b).

(** The part the two readers of certified blocks share. *)
Definition consensus_block_of (s : ApiServerState) (stored : option StoredCertifiedBlock)
    (with_batches : bool) : Res (option ConsensusBlock) :=
  match stored with
  | None => Ok None
  | Some stored =>
      let? b := omap_err AE_StoreError (hydrate (store s) stored) in
      let? batches :=
        if with_batches then omap_ok Some (get_batches_for_certified_block s b) else Ok None in
      Ok (Some {| cb_block := b; cb_batches := batches |})
  end.

Definition get_latest_certified_block (s : ApiServerState) (with_batches : bool)
    : Res (option ConsensusBlock) :=
  let? stored :=
    match head (certified_block_iter_end (store s)) with
    | None => Ok None
    | Some r => omap_err (λ e, AE_StoreError (schema_error e)) (omap_ok Some r)
    end in
  consensus_block_of s stored with_batches.

Definition get_certified_block (s : ApiServerState) (height : Z) (with_batches : bool)
    : Res (option ConsensusBlock) :=
  let? stored := omap_err AE_StoreError (certified_block_read (store s) height) in
  consensus_block_of s stored with_batches.

Definition get_authorization_for_epoch (s : ApiServerState) (epoch : Z)
    : Res (option CommitteeAuthorization) :=
  let? maybe := omap_err AE_StoreError (epoch_authorized_committee_read (store s) epoch) in
  Ok (committee_authorization <$> maybe).

(** *** Events *)
Definition get_events_by_type (s : ApiServerState) (event_type : TypeTag)
    (start_height end_height : Z) : PubRes (list ApiEvent) :=
  let? contract_events := public (archived
    (archive_get_events_by_type (reader s) event_type start_height end_height)) in
  public (omap_err AE_Other (try_into_events (move_store s) contract_events)).

Definition get_events_by_type_with_limit (s : ApiServerState) (event_type : TypeTag)
    (start_height end_height : Z) (limit : nat) (cursor : option Bytes)
    : PubRes (list EventWithContext * option Bytes) :=
  let? ' (events_with_context, cursor) := public (archived
    (get_events_by_type_with_limit_and_context (reader s) event_type start_height end_height
       limit cursor)) in
  let contract_events := fst <$> events_with_context in
  let contexts := snd <$> events_with_context in
  let? event_data := public (omap_err AE_Other (try_into_events (move_store s) contract_events)) in
  let data := (λ '(event, (block_height, transaction_hash)),
      {| ev_event := event; ev_block_height := block_height;
         ev_transaction_hash := transaction_hash |}) <$> zip event_data contexts in
  Ok (data, cursor).

(** *** Simulation

    The counter is the static [CURRENT_NUM_OF_CONCURRENT_SIMULATION], an
    [AtomicU16] whose arithmetic wraps. *)
Section simulation.
Context {SignedTransaction : Type} (verify_signature : SignedTransaction → bool).
(** [create_vm_and_simulate_signed_transaction], as a serialized output. *)
Context (simulate : SignedTransaction → MoveStore → SerializedOutput).
Context (smr_move_txn : SignedTransaction → SmrMoveTransaction).
Context (smr_digest : SmrMoveTransaction → Hash) (join_error : string).

Definition MAX_CONCURRENCY : Z := 512.
Definition u16_wrap (x : Z) : Z := x mod 2 ^ 16.

(** The blocking task. *)
Definition simulation_task (s : ApiServerState) (txn : SignedTransaction)
    : PubRes TransactionInfoV2 :=
  if verify_signature txn then public (Err InvalidSimulationTransaction)
  else
    let simulation_output := simulate txn (move_store s) in
    let t := smr_move_txn txn in
    let tx_status := execution_status simulation_output in
    public (move_transaction_info (move_store s) (smr_digest t) t None
              (Some simulation_output) tx_status).

(** Its result once awaited: a panic is a [JoinError]. *)
Definition simulation_joined (s : ApiServerState) (txn : SignedTransaction)
    : PubRes TransactionInfoV2 :=
  match simulation_task s txn with
  | Panic => public (Err (AE_Other (anyhow ("Simulation blocking task failure: " +:+ join_error))))
  | o => o
  end.

Definition run_move_transaction_simulation (s : ApiServerState) (txn : SignedTransaction)
    : M Z (PublicApiServerError (Txn:=SmrTransaction)) TransactionInfoV2 :=
  current <- rgets (λ c, c) ;;
  if MAX_CONCURRENCY <=? current then rlift (public (Err TooManyConcurrentSimulations))
  else
    rmodify (λ c, u16_wrap (c + 1)) ;;
    transaction_info <- rlift (simulation_joined s txn) ;;
    rmodify (λ c, u16_wrap (c - 1)) ;;
    rret transaction_info.

(** A sequence of simulation requests, one after the other. *)
Fixpoint run_simulations (s : ApiServerState) (txns : list SignedTransaction) (c : Z) : Z :=
  match txns with
  | [] => c
  | t :: txns' => run_simulations s txns' (run_move_transaction_simulation s t c).1
  end.

Definition failing (s : ApiServerState) (txn : SignedTransaction) : bool :=
  negb (is_ok (simulation_joined s txn)).

Lemma simulation_step s txn c :
  0 ≤ c ≤ MAX_CONCURRENCY →
  run_move_transaction_simulation s txn c =
  if c =? MAX_CONCURRENCY then (c, public (Err TooManyConcurrentSimulations))
  else ((if failing s txn then c + 1 else c), simulation_joined s txn).
Proof.
  intros Hc. unfold run_move_transaction_simulation, rthen, rgets, rlift, rmodify, rret.
  unfold u16_wrap, MAX_CONCURRENCY in *.
  destruct (Z.eqb_spec c 512) as [->|Hne]; [done|].
  rewrite (proj2 (Z.leb_gt _ _)) by lia. unfold failing.
  rewrite (Z.mod_small (c + 1)) by lia. replace (c + 1 - 1) with c by lia.
  rewrite (Z.mod_small c) by lia.
  by destruct (simulation_joined s txn).
Qed.

Lemma run_simulations_count s txns c :
  0 ≤ c ≤ MAX_CONCURRENCY →
  run_simulations s txns c
  = Z.min MAX_CONCURRENCY (c + Z.of_nat (length (filter (λ t, failing s t = true) txns))).
Proof.
  revert c. induction txns as [|t txns IH]; intros c Hc; simpl; [lia|].
  rewrite simulation_step by done. rewrite filter_cons.
  destruct (Z.eqb_spec c MAX_CONCURRENCY) as [->|Hne]; simpl.
  { rewrite IH by (unfold MAX_CONCURRENCY; lia). lia. }
  destruct (failing s t) eqn:Hf; rewrite IH by lia.
  - rewrite decide_True by done. simpl. lia.
  - by rewrite decide_False by done.
Qed.

(** A simulation that fails never gives its permit back: after any
    sequence of requests from the start of the process the counter is the
    number of the failed ones, at most 512.  Until then a request gets the
    answer of its simulation, and from then on every request is refused
    although no simulation runs. *)
Theorem failed_simulations_exhaust_permits s txns :
  let failed := Z.of_nat (length (filter (λ t, failing s t = true) txns)) in
  let c := run_simulations s txns 0 in
  c = Z.min MAX_CONCURRENCY failed ∧
  ∀ txn, (run_move_transaction_simulation s txn c).2 =
    if failed <? MAX_CONCURRENCY then simulation_joined s txn
    else public (Err TooManyConcurrentSimulations).
Proof.
  cbv zeta. rewrite run_simulations_count by (unfold MAX_CONCURRENCY; lia).
  rewrite Z.add_0_l. split; [done|]. intros txn.
  rewrite simulation_step by (unfold MAX_CONCURRENCY; lia).
  set (n := Z.of_nat _). destruct (Z.ltb_spec n MAX_CONCURRENCY).
  - rewrite (proj2 (Z.eqb_neq _ _)) by lia. done.
  - rewrite (proj2 (Z.eqb_eq _ _)) by lia. done.
Qed.
End simulation.

(** *** What a missing transaction means *)

(** The archive has the output of the transaction, or knows that there is
    none, and has not recorded its block. *)
Definition block_unrecorded (s : ApiServerState) (h : Hash) : Prop :=
  (∃ o, get_txn_output (reader s) h = Ok o) ∧ get_block_hash_by_txn_hash (reader s) h = Ok None.

Definition status_recorded (s : ApiServerState) (h : Hash) : Prop :=
  ∃ st, archive_get_status h (reader s) = Ok (Some st).

(** A transaction of a user that is neither pending nor completely archived. *)
Definition user_missing (s : ApiServerState) (h : Hash) : Prop :=
  backlog_get h (Storage.backlog (storage s)) = None ∧
  (archive_get_transaction h (reader s) = Ok None ∨
   (∃ t st, archive_get_transaction h (reader s) = Ok (Some t) ∧
      archive_get_status h (reader s) = Ok (Some st) ∧
      st ≠ St_Pending ∧ st ≠ St_PendingAfterExecution ∧ block_unrecorded s h)).

Definition automated_missing (s : ApiServerState) (h : Hash) : Prop :=
  get_automated_transaction_data (reader s) h = Ok None ∨
  ((∃ d, get_automated_transaction_data (reader s) h = Ok (Some d)) ∧
   status_recorded s h ∧ block_unrecorded s h).

Definition metadata_missing (s : ApiServerState) (h : Hash) : Prop :=
  is_block_metadata_hash (reader s) h = Ok false ∨
  (is_block_metadata_hash (reader s) h = Ok true ∧ status_recorded s h ∧ block_unrecorded s h).

Definition not_found {A} (o : Res A) : Prop := ∃ h, o = Err (TransactionNotFound h).

Lemma api_output_found ms o : ¬ not_found (api_move_transaction_output ms o).
Proof.
  intros [h Hh]. unfold api_move_transaction_output, convert_to_api_move_transaction_output in Hh.
  destruct o as [o|]; [|done]. destruct (as_move o) as [mo|]; [|done].
  by destruct (try_into_events ms (mto_events mo)).
Qed.

Lemma move_info_found ms h t b o st : ¬ not_found (move_transaction_info ms h t b o st).
Proof.
  intros [h' Hh]. unfold move_transaction_info in Hh.
  destruct (try_into_transaction_payload ms (move_payload t)); simpl in Hh; try done.
  destruct (api_move_transaction_output ms o) eqn:Ho; simpl in Hh; try done.
  apply (api_output_found ms o). exists h'. congruence.
Qed.

Lemma create_info_found s h t o st b : ¬ not_found (create_transaction_info s h t o st b).
Proof. destruct t; simpl; [apply move_info_found|by intros [? ?]]. Qed.

Lemma create_automated_info_found s m t o st b :
  ¬ not_found (create_automated_transaction_info s m t o st b).
Proof.
  intros [h' Hh]. unfold create_automated_transaction_info in Hh.
  destruct (meta_into_inner m) as [[[[? ?] ?] ?] ?].
  destruct (try_into_transaction_payload _ _); simpl in Hh; try done.
  destruct (api_move_transaction_output (move_store s) o) eqn:Ho; simpl in Hh; try done.
  apply (api_output_found (move_store s) o). exists h'. congruence.
Qed.

Lemma not_found_omap {A B} (f : A → B) (o : Res A) : not_found (omap_ok f o) ↔ not_found o.
Proof. unfold not_found. split; intros [h Hh]; exists h; destruct o; simplify_eq/=; done. Qed.

(** Neither side of an equivalence holds. *)
Ltac absurd_lookup :=
  let H := fresh in intros H; exfalso; decompose [and or ex] H; simplify_eq; congruence.
Ltac no_lookup := unfold not_found; split; absurd_lookup.

Lemma finalized_not_found s h w :
  not_found (get_finalized_transaction_output_and_block_info s h w) ↔ block_unrecorded s h.
Proof.
  unfold not_found, get_finalized_transaction_output_and_block_info, block_unrecorded, archived.
  destruct (get_txn_output (reader s) h) as [o|e|]; simpl.
  - destruct (get_block_hash_by_txn_hash (reader s) h) as [[bh|]|e|]; simpl.
    + destruct (get_block_header_info (reader s) bh); simpl; no_lookup.
    + split; intros _; [|by eexists]. split; [by eexists|done].
    + no_lookup.
    + no_lookup.
  - no_lookup.
  - no_lookup.
Qed.

Lemma transient_not_found s h w :
  not_found (get_transient_transaction_by_hash_internal s h w) ↔ user_missing s h.
Proof.
  unfold get_transient_transaction_by_hash_internal, user_missing, archived.
  unfold Storage.get_transaction_by_hash, Storage.get_transaction_status. fold (reader s).
  destruct (backlog_get h _) as [t|]; simpl.
  { rewrite not_found_omap. split; [by intros ?%create_info_found|by intros [? _]]. }
  destruct (archive_get_transaction h (reader s)) as [[t|]|e|]; simpl.
  2: { split; [auto|]. intros _. by eexists. }
  2,3: no_lookup.
  destruct (archive_get_status h (reader s)) as [[st|]|e|]; simpl; try no_lookup.
  destruct (decide (st = St_Pending ∨ st = St_PendingAfterExecution)) as [Hp|Hp].
  { destruct Hp as [-> | ->]; simpl; rewrite not_found_omap; split;
      (by intros ?%create_info_found) || absurd_lookup. }
  assert (∀ A (a b : A), match st with St_Pending | St_PendingAfterExecution => a | _ => b end = b)
    as Hst by (intros; destruct st; tauto).
  rewrite Hst. setoid_rewrite <-(finalized_not_found s h w).
  destruct (get_finalized_transaction_output_and_block_info s h w) as [[o b]|e|] eqn:Hf; simpl.
  - rewrite not_found_omap. split; [by intros ?%create_info_found|].
    intros (_ & [?|(? & ? & _ & _ & _ & _ & [? ?])]); simplify_eq.
  - split.
    + intros [h' [= ->]]. split; [done|]. right. exists t, st. split_and!; eauto.
      by exists h'.
    + intros (_ & [?|(? & ? & _ & _ & _ & _ & [h' [= ->]])]); [done|]. by exists h'.
  - split; [by intros [? ?]|]. by intros (_ & [?|(? & ? & _ & _ & _ & _ & [? ?])]).
Qed.

Lemma automated_not_found s h w :
  not_found (get_automated_transaction_by_hash_internal s h w) ↔ automated_missing s h.
Proof.
  unfold get_automated_transaction_by_hash_internal, automated_missing, status_recorded, archived.
  destruct (get_automated_transaction_data (reader s) h) as [[[m t]|]|e|]; simpl.
  2: { split; [auto|]. intros _. by eexists. }
  2,3: no_lookup.
  destruct (archive_get_status h (reader s)) as [[st|]|e|]; simpl; try no_lookup.
  rewrite <-(finalized_not_found s h w).
  destruct (get_finalized_transaction_output_and_block_info s h w) as [[o b]|e|] eqn:Hf; simpl.
  - destruct o as [o|]; [rewrite not_found_omap|].
    + split; [by intros ?%create_automated_info_found|].
      by intros [?|(_ & _ & [? ?])].
    + split; [by intros [? ?]|]. by intros [?|(_ & _ & [? ?])].
  - split.
    + intros [h' [= ->]]. right. split_and!; eauto. by exists h'.
    + intros [?|(_ & _ & [h' [= ->]])]; [done|]. by exists h'.
  - split; [by intros [? ?]|]. by intros [?|(_ & _ & [? ?])].
Qed.

Lemma metadata_not_found s h :
  (∃ h', get_block_metadata_by_hash s h = public (Err (TransactionNotFound h')))
  ↔ metadata_missing s h.
Proof.
  unfold get_block_metadata_by_hash, metadata_missing, status_recorded, public, archived.
  destruct (is_block_metadata_hash (reader s) h) as [[]|e|]; simpl; try no_lookup.
  2: { split; [auto|]. intros _. by eexists. }
  unfold get_block_metadata_by_hash_internal, archived.
  destruct (archive_get_status h (reader s)) as [[st|]|e|]; simpl; try no_lookup.
  rewrite <-(finalized_not_found s h true).
  destruct (get_finalized_transaction_output_and_block_info s h true) as [[o b]|e|] eqn:Hf; simpl.
  - split; [|by intros [?|(_ & _ & [? ?])]]. intros [h' Hh].
    destruct (api_move_transaction_output (move_store s) o) as [[]|e|] eqn:Ho; simpl in Hh;
      simplify_eq. destruct (api_output_found (move_store s) o). by exists h'.
  - split.
    + intros [h' [= ->]]. right. split_and!; eauto. by exists h'.
    + intros [?|(_ & _ & [h' [= ->]])]; [done|]. by exists h'.
  - split; [by intros [? ?]|]. by intros [?|(_ & _ & [? ?])].
Qed.

(** *** Archived transactions *)

Lemma create_info_fields s h t o st b info :
  create_transaction_info s h t o st b = Ok info →
  info_hash info = h ∧ info_block info = b ∧ info_status info = st ∧
  (info_output info = None ↔ o = None).
Proof.
  destruct t as [t|t]; simpl.
  - unfold move_transaction_info, api_move_transaction_output.
    destruct (try_into_transaction_payload _ _); simpl; [|done..].
    destruct o as [o|]; simpl; [|by intros [= <-]].
    destruct (as_move o); simpl; [|done].
    destruct (convert_to_api_move_transaction_output _ _); simpl; by intros [= <-].
  - intros [= <-]. destruct (supra_payload t), o; done.
Qed.

(** A lookup reports the status of the storage. *)
Lemma transient_status s h w info :
  get_transient_transaction_by_hash_internal s h w = Ok (Some info) →
  Storage.get_transaction_status (storage s) h = Ok (Some (info_status info)).
Proof.
  unfold get_transient_transaction_by_hash_internal.
  destruct (Storage.get_transaction_by_hash (storage s) h) as [[t|]|e|]; simpl; [|done..].
  destruct (Storage.get_transaction_status (storage s) h) as [[st|]|e|]; simpl; [|done..].
  match goal with |- obind ?m _ = _ → _ => destruct m as [[o b]|e|] end; simpl; [|done..].
  destruct (create_transaction_info s h t o st b) as [i|e|] eqn:Hc; simpl; [|done..].
  intros [= <-]. by apply create_info_fields in Hc as (_ & _ & -> & _).
Qed.

Lemma create_automated_info_fields s m t o st b info :
  create_automated_transaction_info s m t o st b = Ok info →
  info_hash info = (meta_into_inner m).2 ∧ info_block info = b ∧ info_status info = st ∧
  is_move (info_payload info) = true ∧ (info_output info = None ↔ o = None).
Proof.
  unfold create_automated_transaction_info.
  destruct (meta_into_inner m) as [[[[? ?] ?] ?] ?].
  destruct (try_into_transaction_payload _ _); simpl; [|done..].
  destruct o as [o|]; simpl; [|by intros [= <-]].
  destruct (as_move o); simpl; [|done].
  destruct (convert_to_api_move_transaction_output _ _); simpl; by intros [= <-].
Qed.

(** The archive holds the output [o], the status and the block of [h]. *)
Definition archived_with (s : ApiServerState) (h : Hash) (o : SerializedOutput)
    (st : TxExecutionStatus) : Prop :=
  archive_get_status h (reader s) = Ok (Some st) ∧
  get_txn_output (reader s) h = Ok (Some o) ∧
  ∃ bh hd, get_block_hash_by_txn_hash (reader s) h = Ok (Some bh) ∧
           get_block_header_info (reader s) bh = Ok hd.

(** [info] describes the archived transaction of a user, without its block. *)
Definition user_entry (s : ApiServerState) (h : Hash) (info : TransactionInfoV2) : Prop :=
  ∃ t o st, archive_get_transaction h (reader s) = Ok (Some t) ∧ archived_with s h o st ∧
    create_transaction_info s h t (Some o) st None = Ok info.

Definition automated_entry (s : ApiServerState) (h : Hash) (info : TransactionInfoV2) : Prop :=
  ∃ m t o st, get_automated_transaction_data (reader s) h = Ok (Some (m, t)) ∧
    archived_with s h o st ∧ create_automated_transaction_info s m t (Some o) st None = Ok info.

Lemma finalized_ok s h w o b :
  get_finalized_transaction_output_and_block_info s h w = Ok (o, b) ↔
  get_txn_output (reader s) h = Ok o ∧
  ∃ bh hd, get_block_hash_by_txn_hash (reader s) h = Ok (Some bh) ∧
           get_block_header_info (reader s) bh = Ok hd ∧ b = if w then hd else None.
Proof.
  unfold get_finalized_transaction_output_and_block_info, archived.
  destruct (get_txn_output (reader s) h) as [o'|e|]; simpl; [|split; absurd_lookup..].
  destruct (get_block_hash_by_txn_hash (reader s) h) as [[bh|]|e|]; simpl;
    [|split; absurd_lookup..].
  destruct (get_block_header_info (reader s) bh) as [hd|e|] eqn:Hh; simpl.
  2,3: split; [done|]; intros (_ & ? & ? & [= <-] & Hh' & _); by rewrite Hh in Hh'.
  split; [intros [= <- <-]; split; [done|]; by exists bh, hd|].
  intros ([= <-] & bh' & hd' & [= <-] & Hh' & ->). rewrite Hh in Hh'. by simplify_eq.
Qed.

Lemma user_entry_spec s block h info :
  (let? maybe := get_executed_transaction_by_hash_internal s h false in
   let? info := ok_or maybe (MissingBlockTransaction h block) in
   match info_output info with
   | None => Err (MissingBlockTransactionOutput h block)
   | Some _ => Ok info
   end) = Ok info ↔ user_entry s h info.
Proof.
  unfold get_executed_transaction_by_hash_internal, user_entry, archived_with, archived.
  split.
  - destruct (archive_get_transaction h (reader s)) as [[t|]|e|]; simpl; [|done..].
    destruct (archive_get_status h (reader s)) as [[st|]|e|]; simpl; [|done..].
    destruct (get_finalized_transaction_output_and_block_info s h false)
      as [[o b]|e|] eqn:Hf; simpl; [|done..].
    destruct (create_transaction_info s h t o st b) as [i|e|] eqn:Hc; simpl; [|done..].
    apply finalized_ok in Hf as (Ho & bh & hd & Hb & Hh & ->).
    destruct (create_info_fields _ _ _ _ _ _ _ Hc) as (_ & _ & _ & Hout).
    destruct (info_output i); [|done]. intros [= <-].
    destruct o as [o|]; [|by discriminate (proj2 Hout eq_refl)].
    exists t, o, st. split_and!; eauto 10.
  - intros (t & o & st & -> & (-> & Ho & bh & hd & Hb & Hh) & Hc). simpl.
    rewrite (proj2 (finalized_ok s h false (Some o) None)) by eauto 10. simpl.
    rewrite Hc. simpl. destruct (create_info_fields _ _ _ _ _ _ _ Hc) as (_ & _ & _ & Hout).
    destruct (info_output info); [done|]. by discriminate (proj1 Hout eq_refl).
Qed.

Lemma automated_entry_spec s block h msg info :
  (let? maybe := get_automated_transaction_by_hash_internal s h false in
   let? info := ok_or maybe (MissingBlockAutomatedTransaction h block) in
   let? _ := check_move_payload_type info msg in Ok info) = Ok info ↔ automated_entry s h info.
Proof.
  unfold get_automated_transaction_by_hash_internal, automated_entry, archived_with, archived,
    check_move_payload_type.
  split.
  - destruct (get_automated_transaction_data (reader s) h) as [[[m t]|]|e|]; simpl; [|done..].
    destruct (archive_get_status h (reader s)) as [[st|]|e|]; simpl; [|done..].
    destruct (get_finalized_transaction_output_and_block_info s h false)
      as [[[o|] b]|e|] eqn:Hf; simpl; [|done..].
    destruct (create_automated_transaction_info s m t (Some o) st b) as [i|e|] eqn:Hc;
      simpl; [|done..].
    apply finalized_ok in Hf as (Ho & bh & hd & Hb & Hh & ->).
    destruct (is_move (info_payload i)); simpl; [|done]. intros [= <-].
    exists m, t, o, st. split_and!; eauto 10.
  - intros (m & t & o & st & -> & (-> & Ho & bh & hd & Hb & Hh) & Hc). simpl.
    rewrite (proj2 (finalized_ok s h false (Some o) None)) by eauto 10. simpl.
    rewrite Hc. simpl.
    by destruct (create_automated_info_fields _ _ _ _ _ _ _ Hc) as (_ & _ & _ & -> & _).
Qed.

Lemma block_users_ok s block hs infos :
  get_block_transactions_by_hashes s block hs = Ok infos ↔ Forall2 (user_entry s) hs infos.
Proof.
  unfold get_block_transactions_by_hashes. rewrite otraverse_ok.
  split; intros Hf; eapply Forall2_impl; try exact Hf;
    intros h i; apply (user_entry_spec s block h i).
Qed.

Lemma block_autos_ok s block hs infos :
  get_block_automated_transactions_by_hashes s block hs = Ok infos
  ↔ Forall2 (automated_entry s) hs infos.
Proof.
  unfold get_block_automated_transactions_by_hashes. rewrite otraverse_ok.
  split; intros Hf; eapply Forall2_impl; try exact Hf;
    intros h i; eapply (automated_entry_spec s block h _ i).
Qed.

Lemma user_entries_fields s hs infos :
  Forall2 (user_entry s) hs infos →
  info_hash <$> infos = hs ∧ Forall (λ i, info_output i ≠ None ∧ info_block i = None) infos.
Proof.
  induction 1 as [|h i hs il (t & o & st & _ & _ & Hc) _ [IH1 IH2]]; [done|].
  destruct (create_info_fields _ _ _ _ _ _ _ Hc) as (Hh & Hb & _ & Ho). simpl.
  split; [by f_equal|]. constructor; [|done]. split; [|done]. by rewrite Ho.
Qed.

Lemma automated_entries_fields s hs infos :
  (∀ h m t, get_automated_transaction_data (reader s) h = Ok (Some (m, t)) →
     (meta_into_inner m).2 = h) →
  Forall2 (automated_entry s) hs infos →
  info_hash <$> infos = hs ∧ Forall (λ i, info_output i ≠ None ∧ info_block i = None) infos.
Proof.
  intros Hmeta.
  induction 1 as [|h i hs il (m & t & o & st & Hd & _ & Hc) _ [IH1 IH2]]; [done|].
  destruct (create_automated_info_fields _ _ _ _ _ _ _ Hc) as (Hh & Hb & _ & _ & Ho). simpl.
  split; [rewrite Hh, (Hmeta _ _ _ Hd); by f_equal|]. constructor; [|done].
  split; [|done]. by rewrite Ho.
Qed.

(** *** Properties *)

Definition with_backlog (b : Backlog) (s : ApiServerState) : ApiServerState :=
  {| storage := {| Storage.archive := reader s; Storage.backlog := b |};
     move_store := move_store s; store := store s; tx_sender := tx_sender s;
     gas_price_reader := gas_price_reader s; rest_call_limiter := rest_call_limiter s;
     faucet_state := faucet_state s; chain_id := chain_id s |}.

(** A pending transaction is reported by the lookups by hash as pending, with
    neither output nor block, whatever the archive holds under its hash, and
    nothing else reports it: the answers about blocks and accounts do not
    depend on the backlog. *)
Theorem pending_only_by_hash s h t :
  backlog_get h (Storage.backlog (storage s)) = Some t →
  (∀ info, get_transaction_by_hash s h true = Ok (Some info) ↔
           create_transaction_info s h t None St_Pending None = Ok info) ∧
  get_user_transaction_by_hash s h true = get_transaction_by_hash s h true ∧
  (∀ info, get_transaction_by_hash s h true = Ok (Some info) →
     info_hash info = h ∧ info_status info = St_Pending ∧
     info_output info = None ∧ info_block info = None) ∧
  (∀ b height w ty, get_block_by_height (with_backlog b s) height w ty
                    = get_block_by_height s height w ty) ∧
  (∀ b a start max, get_account_user_transactions (with_backlog b s) a start max
                    = get_account_user_transactions s a start max) ∧
  (∀ b a start max, get_account_coin_transactions (with_backlog b s) a start max
                    = get_account_coin_transactions s a start max).
Proof.
  intros Hb.
  assert (get_user_transaction_by_hash_internal s h true
          = omap_ok Some (create_transaction_info s h t None St_Pending None)) as Hu.
  { unfold get_user_transaction_by_hash_internal, get_transient_transaction_by_hash_internal.
    unfold Storage.get_transaction_by_hash, Storage.get_transaction_status. by rewrite Hb. }
  assert (∀ e, create_transaction_info s h t None St_Pending None ≠ Err (TransactionNotFound e))
    as Hne by (intros e He; apply (create_info_found s h t None St_Pending None); by exists e).
  unfold get_transaction_by_hash, get_user_transaction_by_hash, get_transaction_by_hash_internal.
  rewrite Hu.
  destruct (create_transaction_info s h t None St_Pending None) as [i|e|] eqn:Hc; simpl.
  - destruct (create_info_fields _ _ _ _ _ _ _ Hc) as (? & ? & ? & Hout).
    split_and!; [|done| |done..]; [split; by intros [= <-]|].
    intros info [= <-]. split_and!; [done..|by apply Hout|done].
  - destruct e; try (split_and!; by (intros; split) || done). by destruct (Hne h0).
  - split_and!; by (intros; split) || done.
Qed.

(** Which transactions of a block a query is about. *)
Definition wants_user (ty : option TransactionType) : bool :=
  match ty with None | Some User => true | _ => false end.
Definition wants_auto (ty : option TransactionType) : bool :=
  match ty with None | Some Auto => true | _ => false end.

(** C14 A block is answered exactly when the archive has complete records of all
    the transactions it lists, and the answer then lists the transactions of
    users followed by the automated ones, restricted to the requested type,
    each once and in the order of the archive. *)
Theorem block_lists_archive s height ty header users autos b :
  get_block_header_info_by_height (reader s) height = Ok (Some header) →
  get_txs_by_block_height (reader s) height = Ok users →
  get_automated_txs_by_block_height (reader s) height = Ok autos →
  (∀ h m t, get_automated_transaction_data (reader s) h = Ok (Some (m, t)) →
     (meta_into_inner m).2 = h) →
  let us := if wants_user ty then users else [] in
  let aus := if wants_auto ty then autos else [] in
  (get_block_by_height s height true ty = Ok (Some b) ↔
   ∃ uinfos ainfos, Forall2 (user_entry s) us uinfos ∧ Forall2 (automated_entry s) aus ainfos ∧
     b = {| block_header := header; block_txns := Some (uinfos ++ ainfos) |}) ∧
  (get_block_by_height s height true ty = Ok (Some b) →
   ∃ infos, block_txns b = Some infos ∧ info_hash <$> infos = us ++ aus ∧
     Forall (λ i, info_output i ≠ None ∧ info_block i = None) infos).
Proof.
  intros Hhd Hus Haus Hmeta us aus.
  assert (get_block_by_height s height true ty = Ok (Some b) ↔
   ∃ uinfos ainfos, Forall2 (user_entry s) us uinfos ∧ Forall2 (automated_entry s) aus ainfos ∧
     b = {| block_header := header; block_txns := Some (uinfos ++ ainfos) |}) as Hiff.
  { assert (get_block_by_height s height true ty = public (
      let? transactions := get_block_transactions_by_hashes s (header_hash header) us in
      let? automated_txns :=
        get_block_automated_transactions_by_hashes s (header_hash header) aus in
      Ok (Some {| block_header := header; block_txns := Some (transactions ++ automated_txns) |})))
      as ->.
    { unfold get_block_by_height, get_block_by_height_internal, us, aus, archived.
      rewrite Hhd, Hus, Haus. by destruct ty as [[]|]. }
    split.
    - destruct (get_block_transactions_by_hashes _ _ us) as [ui|e|] eqn:Hu; simpl; [|done..].
      destruct (get_block_automated_transactions_by_hashes _ _ aus) as [ai|e|] eqn:Ha;
        simpl; [|done..].
      intros [= <-]. apply block_users_ok in Hu. apply block_autos_ok in Ha. eauto.
    - intros (ui & ai & Hu & Ha & ->).
      rewrite (proj2 (block_users_ok _ _ _ _) Hu). simpl.
      by rewrite (proj2 (block_autos_ok _ _ _ _) Ha). }
  split; [done|]. rewrite Hiff. intros (ui & ai & Hu & Ha & ->).
  apply user_entries_fields in Hu as [Hu1 Hu2].
  apply automated_entries_fields in Ha as [Ha1 Ha2]; [|done].
  exists (ui ++ ai). rewrite fmap_app, Hu1, Ha1. split_and!; [done..|]. by apply Forall_app.
Qed.

(** A certified block is answered with its batches exactly when the store has
    them all: the answer carries the bytes stored under each of the hashes of
    the payload, in the order of the payload.  A missing batch is reported as
    an inconsistency of the store, never left out. *)
Theorem certified_block_batches_complete s height stored block :
  certified_block_read (store s) height = Ok (Some stored) →
  hydrate (store s) stored = Ok block →
  (∀ batches, get_certified_block s height true
     = Ok (Some {| cb_block := block; cb_batches := Some batches |}) ↔
     Forall2 (λ h b, batch_hash b = h ∧
                batch_read_bytes (store s) h = Ok (Some (batch_bytes b)))
       (certified_items block) batches) ∧
  (∀ h before after, certified_items block = before ++ h :: after →
     Forall (λ h', ∃ b, batch_read_bytes (store s) h' = Ok (Some b)) before →
     batch_read_bytes (store s) h = Ok None →
     ∃ msg, get_certified_block s height true = Err (InconsistentStoreState msg)) ∧
  get_certified_block s height false = Ok (Some {| cb_block := block; cb_batches := None |}).
Proof.
  intros Hr Hh. unfold get_certified_block. rewrite Hr. simpl. rewrite Hh. simpl.
  split_and!; [| |done].
  - intros batches. trans (get_batches_for_certified_block s block = Ok batches).
    { destruct (get_batches_for_certified_block s block); simpl;
        split; try done; [by intros [= ->]|by intros [= ->]]. }
    unfold get_batches_for_certified_block. rewrite otraverse_ok.
    split; intros Hf; eapply Forall2_impl; try exact Hf; simpl; intros h [bh bb].
    + destruct (batch_read_bytes (store s) h) as [[b|]|e|]; simpl; [|done..].
      by intros [= <- <-].
    + intros [<- ->]. done.
  - intros h before after Heq Hb Hn. unfold get_batches_for_certified_block. rewrite Heq.
    clear Heq. induction Hb as [|h' before [b Hb'] _ [msg IH]]; simpl.
    + rewrite Hn. simpl. by eexists.
    + rewrite Hb'. simpl. exists msg.
      destruct (otraverse _ (before ++ h :: after)); simplify_eq/=; done.
Qed.
End api.
End Api.
