(* ===== verification/Interleaving.v ===== *)
(** * Concurrent requests

    The node answers requests on several threads while one task stores the
    executed blocks.  The methods of [src/rpc_node/src/rpc_storage.rs] take the lock
    of the backlog for each access and release it in between, the archive has a lock
    of its own, and the counter of [run_move_transaction_simulation]
    ([src/rpc_node/src/rest/api_server_state.rs]) is an atomic integer that is read
    and incremented in two operations.  Here the accesses are the atomic steps:

    - [Reads]: a lookup of a transaction as the sequence of its accesses, each at
      its own state of the storage;
    - [Blocks]: the steps of [insert_executed_block] and of the submissions, and
      what a lookup in between them answers;
    - [Permits]: the simulations on the workers of the server. *)

From S2P Require Import Prelude Transactions ApiState.
From stdpp Require Import base tactics option list relations gmap sets.
From Stdlib Require Import ZArith Lia.
Import ApiErr Api Storage.
Local Open Scope Z_scope.

(** ** Lookups *)

(** A method that only reads, one access after the other. *)
Inductive Reads (S A : Type) : Type :=
| Return (a : A)
| Access (k : S → Reads S A).
Arguments Return {S A}.
Arguments Access {S A}.

Module Reads.
Section reads.
Context {S : Type}.

(** The accesses at the states of a list, one each; at a single state. *)
Fixpoint run_at {A} (p : Reads S A) (l : list S) : option A :=
  match p, l with
  | Return a, _ => Some a
  | Access k, s :: l' => run_at (k s) l'
  | Access _, [] => None
  end.

Fixpoint run_once {A} (p : Reads S A) (s : S) : A :=
  match p with
  | Return a => a
  | Access k => run_once (k s) s
  end.

Definition access {A} (f : S → A) : Reads S A := Access (λ s, Return (f s)).

Fixpoint bind {A B} (p : Reads S A) (k : A → Reads S B) : Reads S B :=
  match p with
  | Return a => k a
  | Access f => Access (λ s, bind (f s) k)
  end.

(** The [?] operator. *)
Definition try {E A B} (p : Reads S (outcome E A)) (k : A → Reads S (outcome E B))
    : Reads S (outcome E B) :=
  bind p (λ o, match o with Ok a => k a | Err e => Return (Err e) | Panic => Return Panic end).

Lemma run_once_bind {A B} (p : Reads S A) (k : A → Reads S B) s :
  run_once (bind p k) s = run_once (k (run_once p s)) s.
Proof. induction p as [a|f IH]; simpl; [done|apply IH]. Qed.
End reads.
End Reads.

Section lookups.
Import Reads.
Context `{ApiOps}.
Notation St := (Storage.RpcStorage SmrTransaction Hash).
Notation Res := (outcome (ApiServerError (Txn:=SmrTransaction))).

(** [RpcStorage::get_transaction_by_hash] and [get_transaction_status]: the backlog
    under its lock, then the archive. *)
Definition read_transaction (hash : Hash) : Reads St (outcome ArchiveError (option SmrTransaction)) :=
  bind (access (λ s, backlog_get hash (Storage.backlog s))) (λ tx,
  match tx with
  | Some transaction => Return (Ok (Some transaction))
  | None => access (λ s, archive_get_transaction hash (Storage.archive s))
  end).

Definition read_status (hash : Hash) : Reads St (outcome ArchiveError (option TxExecutionStatus)) :=
  bind (access (λ s, backlog_get hash (Storage.backlog s))) (λ entry,
  match entry with
  | Some _ => Return (Ok (Some St_Pending))
  | None => access (λ s, archive_get_status hash (Storage.archive s))
  end).

Definition read_archive {A} (f : Archive → outcome ArchiveError A) : Reads St (Res A) :=
  access (λ s, archived (f (Storage.archive s))).

(** [get_finalized_transaction_output_and_block_info] with the block data. *)
Definition read_finalized (hash : Hash)
    : Reads St (Res (option SerializedOutput * option BlockHeaderInfo)) :=
  try (read_archive (λ a, get_txn_output a hash)) (λ output,
  try (read_archive (λ a, get_block_hash_by_txn_hash a hash)) (λ maybe_block_hash,
  match maybe_block_hash with
  | None => Return (Err (TransactionNotFound hash))
  | Some block_hash =>
      try (read_archive (λ a, get_block_header_info a block_hash)) (λ header,
      Return (Ok (output, header)))
  end)).

(** [get_transient_transaction_by_hash_internal] with the block data, once the
    transaction is found and from the start; the Move store of [s] converts the
    payload and the output. *)
Definition read_info_of (s : ApiServerState) (hash : Hash) (transaction : SmrTransaction)
    : Reads St (Res (option TransactionInfoV2)) :=
  try (bind (read_status hash) (λ o, Return (archived o))) (λ maybe_status,
  match maybe_status with
  | None => Return (Err (MissingTransactionStatus hash))
  | Some status =>
      try (match status with
           | St_Pending | St_PendingAfterExecution => Return (Ok (None, None))
           | _ => read_finalized hash
           end) (λ found,
      Return (omap_ok Some
                (create_transaction_info s hash transaction found.1 status found.2)))
  end).

Definition read_info (s : ApiServerState) (hash : Hash) : Reads St (Res (option TransactionInfoV2)) :=
  try (bind (read_transaction hash) (λ o, Return (archived o))) (λ maybe,
  match maybe with
  | None => Return (Err (TransactionNotFound hash))
  | Some transaction => read_info_of s hash transaction
  end).

(** With nothing in between its accesses, the lookup that is split into them is
    the one of the handlers. *)
Theorem reads_are_lookup s hash :
  run_once (read_info s hash) (storage s) = get_transient_transaction_by_hash_internal s hash true.
Proof.
  unfold read_info, read_info_of, get_transient_transaction_by_hash_internal, try.
  unfold Storage.get_transaction_by_hash, Storage.get_transaction_status, read_transaction, read_status.
  rewrite !run_once_bind. simpl.
  destruct (backlog_get hash _) as [t|] eqn:Hb; simpl.
  { rewrite !run_once_bind. simpl. by rewrite Hb. }
  destruct (archive_get_transaction hash _) as [[t|]|e|]; simpl; [|done..].
  rewrite !run_once_bind. simpl. rewrite Hb. simpl.
  destruct (archive_get_status hash _) as [[st|]|e|]; simpl; [|done..].
  rewrite run_once_bind.
  assert (run_once (match st with
                    | St_Pending | St_PendingAfterExecution => Return (Ok (None, None))
                    | _ => read_finalized hash end) (storage s)
          = match st with
            | St_Pending | St_PendingAfterExecution => Ok (None, None)
            | _ => get_finalized_transaction_output_and_block_info s hash true
            end) as ->.
  { assert (run_once (read_finalized hash) (storage s)
            = get_finalized_transaction_output_and_block_info s hash true) as Hf.
    { unfold get_finalized_transaction_output_and_block_info, reader. simpl.
      destruct (get_txn_output _ hash) as [o|e|]; simpl; [|done..].
      destruct (get_block_hash_by_txn_hash _ hash) as [[bh|]|e|]; simpl; [|done..].
      by destruct (get_block_header_info _ bh). }
    by destruct st. }
  by destruct (match st with St_Pending | _ => _ end) as [[o b]|e|].
Qed.
End lookups.

(** ** Blocks *)
Module Blocks.
Import Reads.
Section blocks.
Context `{ApiOps}.
Notation St := (Storage.RpcStorage SmrTransaction Hash).
(** The archives while a block is inserted: its tables are not written at once. *)
Context (archive_insert_steps : Block → Archive → list Archive).

Definition digests (b : Block) : list Hash := tx_digest <$> block_transactions b.

(** Where [insert_executed_block] is: it expired the backlog, or it also removed
    the transactions of the block and the archive still has to take these forms. *)
Inductive Writer : Type :=
| Idle
| Expired (block : Block)
| Finalized (block : Block) (rest : list Archive).

Record System := { sys_storage : St; writer : Writer }.

Definition set_backlog (b : Backlog) (st : St) : St :=
  {| Storage.archive := Storage.archive st; Storage.backlog := b |}.
Definition set_archive (a : Archive) (st : St) : St :=
  {| Storage.archive := a; Storage.backlog := Storage.backlog st |}.

Definition lookup_backlog (h : Hash) (st : St) : option SmrTransaction :=
  backlog_get h (Storage.backlog st).

(** The steps of the node: a client submits any transaction, which may push others
    out of the backlog, and blocks are stored one after the other.  Of the chain it
    is assumed that no block executes the transaction [h] a second time. *)
Inductive step (h : Hash) : System → System → Prop :=
| step_consume t st w :
    step h {| sys_storage := st; writer := w |}
      {| sys_storage := set_backlog (backlog_insert t (Storage.backlog st)).1 st; writer := w |}
| step_expire block st :
    (h ∈ digests block → archive_get_transaction h (Storage.archive st) = Ok None) →
    step h {| sys_storage := st; writer := Idle |}
      {| sys_storage := Storage.expire (block_timestamp block) st; writer := Expired block |}
| step_finalize block st :
    step h {| sys_storage := st; writer := Expired block |}
      {| sys_storage := set_backlog (foldl (λ b tx, backlog_finalize tx b) (Storage.backlog st)
                                       (block_transactions block)) st;
         writer := Finalized block (archive_insert_steps block (Storage.archive st)
                                    ++ [archive_insert_block block (Storage.archive st)]) |}
| step_archive block a rest st :
    step h {| sys_storage := st; writer := Finalized block (a :: rest) |}
      {| sys_storage := set_archive a st;
         writer := match rest with [] => Idle | _ => Finalized block rest end |}.

(** Without a reader in between, the steps are [insert_executed_block]. *)
Lemma steps_insert_block block st :
  let st1 := Storage.expire (block_timestamp block) st in
  let st2 := set_backlog (foldl (λ b tx, backlog_finalize tx b) (Storage.backlog st1)
                            (block_transactions block)) st1 in
  Storage.insert_executed_block block st
  = set_archive (archive_insert_block block (Storage.archive st2)) st2.
Proof. done. Qed.

(** What the archive holds of a transaction once its block is stored. *)
Record StoredTx := {
  rec_status : TxExecutionStatus;
  rec_output : SerializedOutput;
  rec_block : Hash;
  rec_header : BlockHeaderInfo;
}.

Definition final (st : TxExecutionStatus) : Prop := st ≠ St_Pending ∧ st ≠ St_PendingAfterExecution.

(** The reads of a lookup are those without a record, or those with the record. *)
Record unrecorded (h : Hash) (a : Archive) : Prop := {
  un_transaction : archive_get_transaction h a = Ok None;
  un_status : archive_get_status h a = Ok None;
  un_output : get_txn_output a h = Ok None;
  un_block : get_block_hash_by_txn_hash a h = Ok None;
}.

Record recorded (h : Hash) (t : SmrTransaction) (r : StoredTx) (a : Archive) : Prop := {
  rd_transaction : archive_get_transaction h a = Ok (Some t);
  rd_status : archive_get_status h a = Ok (Some (rec_status r));
  rd_output : get_txn_output a h = Ok (Some (rec_output r));
  rd_block : get_block_hash_by_txn_hash a h = Ok (Some (rec_block r));
  rd_header : get_block_header_info a (rec_block r) = Ok (Some (rec_header r));
}.

(** Each table has its entry or not yet. *)
Record partly (h : Hash) (t : SmrTransaction) (r : StoredTx) (a : Archive) : Prop := {
  pt_transaction : archive_get_transaction h a = Ok None ∨ archive_get_transaction h a = Ok (Some t);
  pt_status : archive_get_status h a = Ok None ∨ archive_get_status h a = Ok (Some (rec_status r));
  pt_output : get_txn_output a h = Ok None ∨ get_txn_output a h = Ok (Some (rec_output r));
  pt_block : get_block_hash_by_txn_hash a h = Ok None ∨
             get_block_hash_by_txn_hash a h = Ok (Some (rec_block r));
  pt_header : get_block_header_info a (rec_block r) = Ok None ∨
              get_block_header_info a (rec_block r) = Ok (Some (rec_header r));
}.

(** The archive: a stored block has a complete record of each of its transactions,
    until then each table has its entry or not, and the transactions of other blocks
    keep theirs. *)
Class ArchiveLaws : Prop := {
  stored_record t block a :
    t ∈ block_transactions block → unrecorded (tx_digest t) a →
    ∃ r, final (rec_status r) ∧ partly (tx_digest t) t r a ∧
      recorded (tx_digest t) t r (archive_insert_block block a) ∧
      Forall (partly (tx_digest t) t r) (archive_insert_steps block a);
  others_unrecorded h block a a' :
    h ∉ digests block → a' ∈ archive_insert_steps block a ++ [archive_insert_block block a] →
    unrecorded h a → unrecorded h a';
  others_recorded h t r block a a' :
    h ∉ digests block → a' ∈ archive_insert_steps block a ++ [archive_insert_block block a] →
    recorded h t r a → recorded h t r a';
  (** The digest identifies a transaction, and the backlog is indexed by it. *)
  digest_inj (t t' : SmrTransaction) : tx_digest t = tx_digest t' → t = t';
  backlog_keyed h b t : backlog_get h b = Some t → tx_digest t = h;
}.

(** *** The stages of a transaction *)
Context `{!EqDecision Hash} `{!ArchiveLaws}.

(** No block with the transaction is being archived or is archived. *)
Definition waiting (h : Hash) (sys : System) : Prop :=
  unrecorded h (Storage.archive (sys_storage sys)) ∧
  match writer sys with
  | Finalized block rest => h ∉ digests block ∧ Forall (unrecorded h) rest
  | _ => True
  end.

(** A block with the transaction has left the backlog and is not completely in the
    archive. *)
Definition in_window (h : Hash) (t : SmrTransaction) (r : StoredTx) (sys : System) : Prop :=
  partly h t r (Storage.archive (sys_storage sys)) ∧
  ∃ block rest a, writer sys = Finalized block (rest ++ [a]) ∧ h ∈ digests block ∧
    Forall (partly h t r) rest ∧ recorded h t r a.

Definition settled (h : Hash) (t : SmrTransaction) (r : StoredTx) (sys : System) : Prop :=
  recorded h t r (Storage.archive (sys_storage sys)) ∧
  match writer sys with
  | Idle => True
  | Expired block => h ∉ digests block
  | Finalized block rest => h ∉ digests block ∧ Forall (recorded h t r) rest
  end.

(** The backlog holds the transaction; it is neither there nor on its way to the
    archive, because it was never submitted, expired or was pushed out. *)
Definition held (h : Hash) (sys : System) : Prop := is_Some (lookup_backlog h (sys_storage sys)).
Definition absent (h : Hash) (sys : System) : Prop :=
  lookup_backlog h (sys_storage sys) = None ∧ waiting h sys.

Lemma waiting_step h t sys sys' :
  tx_digest t = h → waiting h sys → step h sys sys' →
  waiting h sys' ∨ ∃ r, final (rec_status r) ∧ in_window h t r sys'.
Proof.
  intros Ht (Ha & Hw) Hstep. destruct Hstep as [t' st w|block st Hin|block st|block a rest st];
    simpl in *; unfold waiting; simpl; [by left..| |].
  - destruct (decide (h ∈ digests block)) as [Hd|Hd].
    + right. apply list_elem_of_fmap in Hd as Hd'. destruct Hd' as (t' & Ht' & Hin).
      rewrite Ht' in Ht. apply digest_inj in Ht. subst t'.
      destruct (stored_record t block (Storage.archive st)) as (r & Hfin & Hp & Hr & Hs);
        [done|by rewrite <-Ht'|]. exists r. split; [done|]. rewrite Ht'. split; [done|].
      eexists block, _, _. rewrite <-Ht'. split_and!; [done|done|by rewrite Ht'..].
    + left. split_and!; [done..|]. apply Forall_forall. intros a' Ha'. by eapply others_unrecorded.
  - left. destruct Hw as [Hd [Ha' Hrest]%Forall_cons]. split; [done|]. by destruct rest.
Qed.

Lemma window_step h t r sys sys' :
  in_window h t r sys → step h sys sys' → in_window h t r sys' ∨ settled h t r sys'.
Proof.
  intros (Ha & block & rest & a & Hw & Hd & Hp & Hr) Hstep.
  destruct Hstep as [t' st w|block' st Hin|block' st|block' a' rest' st]; simpl in *; simplify_eq.
  - left. split; [done|]. by exists block, rest, a.
  - destruct rest as [|a1 rest]; simpl in *; simplify_eq; [by right|].
    left. apply Forall_cons in Hp as [Hp1 Hp]. split; [done|].
    exists block, rest, a. split_and!; [|done..]. by destruct rest.
Qed.

Lemma settled_step h t r sys sys' :
  settled h t r sys → step h sys sys' → settled h t r sys'.
Proof.
  intros (Ha & Hw) Hstep. destruct Hstep as [t' st w|block st Hin|block st|block a rest st];
    simpl in *; unfold settled; simpl; [done| | |].
  - split; [done|]. intros Hd%Hin. rewrite (rd_transaction _ _ _ _ Ha) in Hd. done.
  - split_and!; [done..|]. apply Forall_forall. intros a' Ha'. by eapply others_recorded.
  - destruct Hw as [Hd [Ha' Hrest]%Forall_cons]. split; [done|]. by destruct rest.
Qed.

Lemma rtc_preserves {A} (R : relation A) (P : A → Prop) x y :
  (∀ x y, P x → R x y → P y) → P x → rtc R x y → P y.
Proof. intros Hstep Hx Hr. induction Hr; eauto. Qed.

(** A block with the transaction has left the backlog. *)
Definition leaving (h : Hash) (t : SmrTransaction) (r : StoredTx) (sys : System) : Prop :=
  in_window h t r sys ∨ settled h t r sys.

(** The transaction waits, or its block is on its way with a final status. *)
Definition stage (h : Hash) (t : SmrTransaction) (sys : System) : Prop :=
  waiting h sys ∨ ∃ r, final (rec_status r) ∧ leaving h t r sys.

Lemma settled_steps h t r sys sys' :
  settled h t r sys → rtc (step h) sys sys' → settled h t r sys'.
Proof. apply rtc_preserves. intros x y. apply settled_step. Qed.

Lemma leaving_steps h t r sys sys' :
  leaving h t r sys → rtc (step h) sys sys' → leaving h t r sys'.
Proof.
  apply rtc_preserves. intros x y [Hx|Hx] Hs; [by eapply window_step|right; by eapply settled_step].
Qed.

Lemma stage_steps h t sys sys' :
  tx_digest t = h → stage h t sys → rtc (step h) sys sys' → stage h t sys'.
Proof.
  intros Ht. apply rtc_preserves. intros x y [Hx|(r & Hf & Hx)] Hs.
  - destruct (waiting_step _ _ _ _ Ht Hx Hs) as [?|(r & ? & ?)]; [by left|].
    right. exists r. split; [done|by left].
  - right. exists r. split; [done|]. eapply leaving_steps; [done|by apply rtc_once].
Qed.

(** *** Lookups in between *)

(** The states of the accesses, in the order of time. *)
Fixpoint follows (h : Hash) (sys : System) (l : list System) : Prop :=
  match l with
  | [] => True
  | sys' :: l' => rtc (step h) sys sys' ∧ follows h sys' l'
  end.

Notation Answer := (outcome (ApiServerError (Txn:=SmrTransaction)) (option TransactionInfoV2)).

Definition answer (s : ApiServerState) (h : Hash) (t : SmrTransaction)
    (output : option SerializedOutput) (status : TxExecutionStatus) (block : option BlockHeaderInfo)
    : Answer :=
  omap_ok Some (create_transaction_info s h t output status block).

Definition final_answer (s : ApiServerState) (h : Hash) (t : SmrTransaction) (r : StoredTx) : Answer :=
  answer s h t (Some (rec_output r)) (rec_status r) (Some (rec_header r)).

(** An error, or the final status without the output or the block. *)
Definition torn (s : ApiServerState) (h : Hash) (t : SmrTransaction) (r : StoredTx) (o : Answer)
    : Prop :=
  o = Err (TransactionNotFound h) ∨ o = Err (MissingTransactionStatus h) ∨
  ∃ output block, o = answer s h t output (rec_status r) block ∧
    (output = None ∨ output = Some (rec_output r)) ∧ (block = None ∨ block = Some (rec_header r)).

Lemma final_status {A} st (a b : A) :
  final st → match st with St_Pending | St_PendingAfterExecution => a | _ => b end = b.
Proof. intros [? ?]. by destruct st. Qed.

(** The rest of a lookup that did not find the transaction in the backlog when it
    asked for the status. *)
Definition read_archived (s : ApiServerState) (h : Hash) (t : SmrTransaction) : Reads St Answer :=
  try (bind (access (λ st, archive_get_status h (Storage.archive st))) (λ o, Return (archived o)))
    (λ maybe_status,
       match maybe_status with
       | None => Return (Err (MissingTransactionStatus h))
       | Some status =>
           try (match status with
                | St_Pending | St_PendingAfterExecution => Return (Ok (None, None))
                | _ => read_finalized h
                end) (λ found, Return (answer s h t found.1 status found.2))
       end).

Lemma info_of_run s h t sys l :
  run_at (read_info_of s h t) (sys_storage <$> sys :: l)
  = match lookup_backlog h (sys_storage sys) with
    | Some _ => Some (answer s h t None St_Pending None)
    | None => run_at (read_archived s h t) (sys_storage <$> l)
    end.
Proof. unfold lookup_backlog. simpl. by destruct (backlog_get h _). Qed.

(** The next access of a settled transaction. *)
Ltac settled_access Hs Hf l :=
  let y := fresh "sys" in let Hstep := fresh "Hstep" in
  destruct l as [|y l]; [by intros ?|]; destruct Hf as [Hstep Hf];
  apply (settled_steps _ _ _ _ _ Hs) in Hstep; clear Hs; rename Hstep into Hs;
  let Ha := fresh "Ha" in pose proof Hs as [Ha _]; simpl;
  rewrite ?(rd_status _ _ _ _ Ha), ?(rd_output _ _ _ _ Ha),
    ?(rd_block _ _ _ _ Ha), ?(rd_header _ _ _ _ Ha); simpl; clear Ha.

Lemma settled_archived s h t r sys l o :
  final (rec_status r) → settled h t r sys → follows h sys l →
  run_at (read_archived s h t) (sys_storage <$> l) = Some o → o = final_answer s h t r.
Proof.
  intros Hfin Hs Hf. settled_access Hs Hf l. rewrite final_status by done.
  settled_access Hs Hf l. settled_access Hs Hf l. settled_access Hs Hf l. by intros [= <-].
Qed.

Lemma leaving_reads h t r sys :
  leaving h t r sys → partly h t r (Storage.archive (sys_storage sys)).
Proof. intros [[? _]|[Hr _]]; [done|]. destruct Hr. by split; right. Qed.

Ltac leaving_access Hs Hf l :=
  let y := fresh "sys" in let Hstep := fresh "Hstep" in
  destruct l as [|y l]; [by intros ?|]; destruct Hf as [Hstep Hf];
  apply (leaving_steps _ _ _ _ _ Hs) in Hstep; clear Hs; rename Hstep into Hs;
  let Ha := fresh "Ha" in pose proof (leaving_reads _ _ _ _ Hs) as Ha; simpl; destruct Ha.

Lemma leaving_finalized s h t r st sys l o :
  leaving h t r sys → follows h sys l →
  run_at (try (read_finalized h) (λ found, Return (answer s h t found.1 st found.2)))
    (sys_storage <$> l) = Some o →
  o = Err (TransactionNotFound h) ∨
  ∃ output block, o = answer s h t output st block ∧
    (output = None ∨ output = Some (rec_output r)) ∧ (block = None ∨ block = Some (rec_header r)).
Proof.
  intros Hs Hf. leaving_access Hs Hf l.
  destruct pt_output0 as [-> | ->]; simpl; leaving_access Hs Hf l;
    (destruct pt_block1 as [-> | ->]; simpl; [intros [= <-]; by left|]); leaving_access Hs Hf l;
    destruct pt_header2 as [-> | ->]; simpl; intros [= <-]; right; eauto 8.
Qed.

Lemma leaving_archived s h t r sys l o :
  final (rec_status r) → leaving h t r sys → follows h sys l →
  run_at (read_archived s h t) (sys_storage <$> l) = Some o → torn s h t r o.
Proof.
  intros Hfin Hs Hf. leaving_access Hs Hf l.
  destruct pt_status0 as [-> | ->]; simpl; [intros [= <-]; by right; left|].
  rewrite final_status by done. intros Hrun.
  destruct (leaving_finalized s h t r (rec_status r) sys0 l o Hs Hf Hrun) as [?|?]; [by left|].
  by right; right.
Qed.

(** The answers of a lookup with its accesses at the states of [l]. *)
Definition explained (s : ApiServerState) (h : Hash) (t : SmrTransaction) (l : list System) (o : Answer)
    : Prop :=
  (o = answer s h t None St_Pending None ∧ Exists (held h) l) ∨
  ((o = Err (TransactionNotFound h) ∨ o = Err (MissingTransactionStatus h)) ∧ Exists (absent h) l) ∨
  ∃ r, final (rec_status r) ∧
    (o = final_answer s h t r ∨ torn s h t r o ∧ Exists (in_window h t r) l).

Lemma explained_cons s h t sys l o : explained s h t l o → explained s h t (sys :: l) o.
Proof.
  intros [[? ?]|[[? ?]|(r & Hf & [?|[? ?]])]].
  - left. split; [done|by right].
  - right. left. split; [done|by right].
  - right. right. exists r. auto.
  - right. right. exists r. split; [done|]. right. split; [done|by right].
Qed.

Lemma leaving_explained s h t r sys l o :
  final (rec_status r) → leaving h t r sys → follows h sys l →
  run_at (read_archived s h t) (sys_storage <$> l) = Some o → explained s h t (sys :: l) o.
Proof.
  intros Hfin Hs Hf Hrun. right. right. exists r. split; [done|]. destruct Hs as [Hs|Hs].
  - right. split; [|by left]. apply (leaving_archived s h t r sys l); [done|by left|done..].
  - left. by apply (settled_archived s h t r sys l).
Qed.

Lemma archived_explained s h t sys l o :
  tx_digest t = h → stage h t sys → lookup_backlog h (sys_storage sys) = None → follows h sys l →
  run_at (read_archived s h t) (sys_storage <$> l) = Some o → explained s h t (sys :: l) o.
Proof.
  intros Ht [Hw|(r & Hfin & Hs)] Hb Hf Hrun; [|by apply (leaving_explained s h t r)].
  destruct l as [|sys1 l]; [done|]. destruct Hf as [Hs1 Hf].
  destruct (stage_steps _ _ _ _ Ht (or_introl Hw) Hs1) as [[Hu _]|(r & Hfin & Hl)].
  - simpl in Hrun. rewrite (un_status _ _ Hu) in Hrun. simplify_eq/=.
    right. left. split; [by right|by left].
  - apply explained_cons. right. right. exists r. split; [done|].
    assert (follows h sys1 (sys1 :: l)) as Hf' by done. destruct Hl as [Hl|Hl].
    + right. split; [|by left]. apply (leaving_archived s h t r sys1 (sys1 :: l)); [done|by left|done..].
    + left. by apply (settled_archived s h t r sys1 (sys1 :: l)).
Qed.

Lemma info_of_explained s h t sys l o :
  tx_digest t = h → stage h t sys → follows h sys l →
  run_at (read_info_of s h t) (sys_storage <$> l) = Some o → explained s h t l o.
Proof.
  intros Ht Hst Hf Hrun. destruct l as [|sys1 l]; [done|]. destruct Hf as [Hs1 Hf].
  apply (stage_steps _ _ _ _ Ht Hst) in Hs1. rewrite info_of_run in Hrun.
  destruct (lookup_backlog h (sys_storage sys1)) as [t'|] eqn:Hb; [|by apply archived_explained].
  simplify_eq. left. split; [done|]. left. by eexists.
Qed.

(** The rest of a lookup that did not find the transaction in the backlog. *)
Definition read_stored (s : ApiServerState) (h : Hash) : Reads St Answer :=
  try (bind (access (λ st, archive_get_transaction h (Storage.archive st))) (λ o, Return (archived o)))
    (λ maybe, match maybe with
              | None => Return (Err (TransactionNotFound h))
              | Some transaction => read_info_of s h transaction
              end).

Lemma info_run s h sys l :
  run_at (read_info s h) (sys_storage <$> sys :: l)
  = match lookup_backlog h (sys_storage sys) with
    | Some t => run_at (read_info_of s h t) (sys_storage <$> l)
    | None => run_at (read_stored s h) (sys_storage <$> l)
    end.
Proof. unfold lookup_backlog. simpl. by destruct (backlog_get h _). Qed.

Lemma stored_explained s h t r sys l o :
  tx_digest t = h → final (rec_status r) → leaving h t r sys → follows h sys l →
  run_at (read_stored s h) (sys_storage <$> sys :: l) = Some o → explained s h t (sys :: l) o.
Proof.
  intros Ht Hfin Hl Hf Hrun. simpl in Hrun.
  destruct (pt_transaction _ _ _ _ (leaving_reads _ _ _ _ Hl)) as [Hn|Hn]; rewrite Hn in Hrun; simpl in Hrun.
  - simplify_eq. right. right. exists r. split; [done|]. right. split; [by left|]. left.
    destruct Hl as [?|[Hr _]]; [done|]. by rewrite (rd_transaction _ _ _ _ Hr) in Hn.
  - apply explained_cons, (info_of_explained s h t sys); [done| |done..]. right. eauto.
Qed.

End blocks.
End Blocks.

(** ** Simulations

    The server has [W] workers, each with one thread.  A worker does not leave a
    request between the test of the counter and its increment, but it serves other
    requests while a simulation runs on a thread of its own. *)
Module Permits.

Record Permits := {
  (** [CURRENT_NUM_OF_CONCURRENT_SIMULATION]. *)
  counter : Z;
  (** The workers whose request passed the test and did not increment yet. *)
  checked : gset nat;
  (** Requests that wait for their simulation, and requests that ended with an error
      or were dropped by the client. *)
  running : nat;
  lost : nat;
}.

Definition start : Permits := {| counter := 0; checked := ∅; running := 0; lost := 0 |}.

Inductive step (W : nat) : Permits → Permits → Prop :=
| step_refused w p :
    (w < W)%nat → w ∉ checked p → MAX_CONCURRENCY ≤ counter p → step W p p
| step_passed w p :
    (w < W)%nat → w ∉ checked p → counter p < MAX_CONCURRENCY →
    step W p {| counter := counter p; checked := {[ w ]} ∪ checked p;
                running := running p; lost := lost p |}
| step_increment w p :
    w ∈ checked p →
    step W p {| counter := u16_wrap (counter p + 1); checked := checked p ∖ {[ w ]};
                running := S (running p); lost := lost p |}
| step_succeeded c chk n k :
    step W {| counter := c; checked := chk; running := S n; lost := k |}
      {| counter := u16_wrap (c - 1); checked := chk; running := n; lost := k |}
| step_failed c chk n k :
    step W {| counter := c; checked := chk; running := S n; lost := k |}
      {| counter := c; checked := chk; running := n; lost := S k |}.

Definition reachable (W : nat) : Permits → Prop := rtc (step W) start.

(** A request with no other one in between takes these steps. *)
Lemma request_steps `{ApiOps} {SignedTransaction : Type} (verify_signature : SignedTransaction → bool)
    simulate smr_move_txn smr_digest join_error W s txn p :
  (0 < W)%nat → checked p = ∅ →
  let ran := run_move_transaction_simulation verify_signature simulate smr_move_txn smr_digest
               join_error s txn (counter p) in
  ∃ p', rtc (step W) p p' ∧ counter p' = ran.1 ∧ checked p' = ∅ ∧ running p' = running p ∧
    lost p' = if decide (MAX_CONCURRENCY ≤ counter p) then lost p
              else if is_ok ran.2 then lost p else S (lost p).
Proof.
  intros HW Hc. cbv zeta. unfold run_move_transaction_simulation, rthen, rgets, rlift, rmodify, rret.
  destruct (Z.leb_spec MAX_CONCURRENCY (counter p)) as [Hle|Hlt].
  { exists p. rewrite decide_True by done. split_and!; [apply rtc_refl|done..]. }
  rewrite decide_False by lia.
  pose proof (step_passed W 0 p HW ltac:(rewrite Hc; set_solver) Hlt) as Hs1. rewrite Hc in Hs1.
  match type of Hs1 with step _ _ ?q =>
    pose proof (step_increment W 0 q ltac:(simpl; set_solver)) as Hs2 end.
  simpl in Hs2. replace (({[0%nat]} ∪ ∅) ∖ {[0%nat]} : gset nat) with (∅ : gset nat) in Hs2 by set_solver.
  destruct (simulation_joined _ _ _ _ _ s txn) as [info|e|]; simpl.
  - eexists. split; [do 2 (eapply rtc_l; [eassumption|]); apply rtc_once, step_succeeded|done].
  - eexists. split; [do 2 (eapply rtc_l; [eassumption|]); apply rtc_once, step_failed|done].
  - eexists. split; [do 2 (eapply rtc_l; [eassumption|]); apply rtc_once, step_failed|done].
Qed.

(** The counter counts, and the workers that may still increment it are few. *)
Definition permits_inv (W : nat) (p : Permits) : Prop :=
  counter p = Z.of_nat (running p + lost p) ∧
  checked p ⊆ set_seq 0 W ∧
  Z.of_nat (running p + lost p + size (checked p)) ≤ MAX_CONCURRENCY - 1 + Z.of_nat W.

Lemma checked_size W p : checked p ⊆ set_seq 0 W → (size (checked p) ≤ W)%nat.
Proof.
  intros Hsub. apply subseteq_size in Hsub. rewrite <-(size_set_seq (C:=gset nat) 0 W). done.
Qed.

Lemma permits_step W p p' :
  MAX_CONCURRENCY - 1 + Z.of_nat W < 2 ^ 16 → permits_inv W p → step W p p' → permits_inv W p'.
Proof.
  intros HW (Hc & Hsub & Hb) Hstep.
  destruct Hstep as [w p Hw Hn Hle|w p Hw Hn Hlt|w p Hin|c chk n k|c chk n k];
    unfold permits_inv, u16_wrap in *; simpl in *.
  - done.
  - assert (({[w]} ∪ checked p : gset nat) ⊆ set_seq 0 W) as Hsub' by set_solver by lia.
    split_and!; [done|done|]. pose proof (checked_size W {| counter := 0;
      checked := {[w]} ∪ checked p; running := 0; lost := 0 |} Hsub'). simpl in *. lia.
  - rewrite size_difference, size_singleton by set_solver.
    assert (size (checked p) ≠ 0)%nat by (apply size_non_empty_iff; set_solver).
    split_and!; [rewrite Z.mod_small; lia|set_solver|lia].
  - split_and!; [rewrite Z.mod_small; lia|done|lia].
  - split_and!; [lia|done|lia].
Qed.

Lemma reachable_inv W p :
  MAX_CONCURRENCY - 1 + Z.of_nat W < 2 ^ 16 → reachable W p → permits_inv W p.
Proof.
  intros HW. apply (Blocks.rtc_preserves (step W) (permits_inv W)).
  - intros x y. by apply permits_step.
  - unfold permits_inv, start, MAX_CONCURRENCY. cbn [counter running lost checked].
    rewrite size_empty. split_and!; [done|set_solver|lia].
Qed.

(** *** Schedules that exceed the limit *)
Definition at_work (n : nat) (chk : gset nat) : Permits :=
  {| counter := Z.of_nat n; checked := chk; running := n; lost := 0 |}.

Lemma increment_reachable W n w (chk : gset nat) :
  Z.of_nat n + 1 < 2 ^ 16 → w ∉ chk →
  reachable W (at_work n ({[w]} ∪ chk)) → reachable W (at_work (S n) chk).
Proof.
  intros Hn Hw Hr. eapply rtc_r; [exact Hr|].
  pose proof (step_increment W w (at_work n ({[w]} ∪ chk)) ltac:(simpl; set_solver)) as Hstep.
  simpl in Hstep. unfold u16_wrap in Hstep. rewrite Z.mod_small in Hstep by lia.
  replace (({[w]} ∪ chk) ∖ {[w]} : gset nat) with chk in Hstep by set_solver.
  unfold at_work. by rewrite Nat2Z.inj_succ.
Qed.

Lemma passed_reachable W n w (chk : gset nat) :
  (w < W)%nat → w ∉ chk → Z.of_nat n < MAX_CONCURRENCY →
  reachable W (at_work n chk) → reachable W (at_work n ({[w]} ∪ chk)).
Proof. intros Hw Hn Hlt Hr. eapply rtc_r; [exact Hr|]. by apply (step_passed W w (at_work n chk)). Qed.

Lemma serial_reachable W n :
  (0 < W)%nat → Z.of_nat n < MAX_CONCURRENCY → reachable W (at_work n ∅).
Proof.
  intros HW. unfold MAX_CONCURRENCY. induction n as [|n IH]; intros Hn; [apply rtc_refl|].
  apply (increment_reachable W n 0); [lia|set_solver|].
  apply passed_reachable; [done|set_solver|unfold MAX_CONCURRENCY; lia|]. apply IH. lia.
Qed.

Lemma all_passed W n m :
  (m ≤ W)%nat → Z.of_nat n < MAX_CONCURRENCY →
  reachable W (at_work n ∅) → reachable W (at_work n (set_seq 0 m)).
Proof.
  intros Hm Hn Hr. induction m as [|m IH]; [done|]. rewrite set_seq_S_end_union_L. simpl.
  apply passed_reachable; [lia| |done|apply IH; lia].
  rewrite elem_of_set_seq. lia.
Qed.

Lemma all_incremented W n m :
  Z.of_nat (n + m) < 2 ^ 16 →
  reachable W (at_work n (set_seq 0 m)) → reachable W (at_work (n + m) ∅).
Proof.
  revert n. induction m as [|m IH]; intros n Hn Hr; [by rewrite Nat.add_0_r|].
  rewrite set_seq_S_end_union_L in Hr. simpl in Hr.
  apply increment_reachable in Hr; [|lia|rewrite elem_of_set_seq; lia].
  replace (n + S m)%nat with (S n + m)%nat by lia. apply IH; [lia|done].
Qed.

(** C10 The permits of the simulations, on any schedule of [W] workers.  The counter is
    the number of the requests that wait for their simulation or have lost their
    permit.  As the counter is tested and incremented in two operations, the limit
    holds only up to the workers: at most 511 and one for each worker, which some
    schedule reaches.  Once 512 permits are lost, no request passes the test. *)
Theorem simulations_bounded W :
  (0 < W)%nat → MAX_CONCURRENCY - 1 + Z.of_nat W < 2 ^ 16 →
  (∀ p, reachable W p →
     counter p = Z.of_nat (running p + lost p) ∧
     Z.of_nat (running p + lost p) ≤ MAX_CONCURRENCY - 1 + Z.of_nat W ∧
     (MAX_CONCURRENCY ≤ Z.of_nat (lost p) → ∀ p', step W p p' → checked p' ⊆ checked p)) ∧
  (∃ p, reachable W p ∧ Z.of_nat (running p) = MAX_CONCURRENCY - 1 + Z.of_nat W).
Proof.
  intros H0 HW. split.
  - intros p Hr. apply reachable_inv in Hr as (Hc & _ & Hb); [|done]. split_and!; [done|lia|].
    intros Hl p' Hstep. destruct Hstep; simpl in *; [done|lia|set_solver|done|done].
  - exists (at_work (511 + W) ∅). split; [|simpl; unfold MAX_CONCURRENCY; lia].
    apply all_incremented; [unfold MAX_CONCURRENCY in HW; lia|].
    apply all_passed; [done|done|]. by apply serial_reachable.
Qed.
End Permits.
