(* ===== verification/Handlers.v ===== *)
(** * Errors, controllers and handlers of the REST interface

    [src/rpc_node/src/error.rs], [src/rpc_node/src/rest/controller/] and the
    handlers of [src/rpc_node/src/rest/api/] that look up transactions, blocks,
    accounts, certified blocks and events, evaluate views and submit
    transactions.  A handler returns the body of its response with the headers
    it sets; [x-supra-chain-id] is the chain identifier of the state. *)

From S2P Require Import Prelude Limiters Transactions ApiState.
From stdpp Require Import base tactics option list strings pretty.
From Stdlib Require Import ZArith Lia.
Import ApiErr Api.
Local Open Scope Z_scope.

(** ** Errors of the node *)
Class ErrorTypes : Type := {
  RpcClientErr : Type;
  IoError : Type;
  ExecutionError : Type;
  TomlError : Type;
  SerdeJsonError : Type;
  Duration : Type;
  FaucetLimiterErr : Type;
  SnapshotError : Type;
  PartialVMError : Type;
  AssemblerErr : Type;
  GenesisBlobErr : Type;
  FileIOError : Type;
  ConsoleError : Type;
  TakeVariantErr : Type;
}.

Section error.
Context `{ApiTypes} `{StorageOps SmrTransaction Hash} `{ErrorTypes}.

Inductive Error : Type :=
| E_Store (e : StoreError)
| E_RpcClient (e : RpcClientErr)
| E_Archive (e : ArchiveError)
| E_TransactionAcceptStatus (e : TransactionDispatchError string)
| E_InformationNotAvailable (what : string)
| E_Io (e : IoError)
| E_ExecutionRetrieval (e : ExecutionError)
| E_Swagger (err : string) (code : Z)
| E_TomlDeserialize (e : TomlError)
| E_BadTransactionRequest (msg : string)
| E_SerdeJson (e : SerdeJsonError)
| E_Other (e : AnyhowError)
| E_TooManyRequests (d : Duration)
| E_PublicApiServerError (e : PublicApiServerError (Txn:=SmrTransaction))
| E_SetupError (msg : string)
| E_FaucetNotEnabled
| E_FaucetLimiterError (e : FaucetLimiterErr)
| E_SnapshotError (e : SnapshotError)
| E_InvalidInput (msg : string)
| E_MoveConverterError (msg : string)
| E_MoveVmPartialError (e : PartialVMError)
| E_ChainStateAssembler (e : AssemblerErr)
| E_GenesisBlobError (e : GenesisBlobErr)
| E_FileIoError (e : FileIOError)
| E_TcpConsoleError (e : ConsoleError)
| E_TakeVariantError (e : TakeVariantErr)
| E_CursorDecodeError.

Definition status_code (e : Error) : Z :=
  match e with
  | E_Store _ | E_RpcClient _ | E_Archive _ | E_TransactionAcceptStatus _ | E_Io _
  | E_FileIoError _ | E_TomlDeserialize _ | E_SetupError _ | E_FaucetNotEnabled
  | E_SnapshotError _ | E_ChainStateAssembler _ | E_GenesisBlobError _ | E_TcpConsoleError _
  | E_TakeVariantError _ | E_Other _ => INTERNAL_SERVER_ERROR
  | E_BadTransactionRequest _ | E_SerdeJson _ | E_MoveConverterError _
  | E_MoveVmPartialError _ | E_InvalidInput _ | E_CursorDecodeError => BAD_REQUEST
  | E_ExecutionRetrieval _ | E_InformationNotAvailable _ => NOT_FOUND
  | E_Swagger _ code => code
  | E_TooManyRequests _ | E_FaucetLimiterError _ => TOO_MANY_REQUESTS
  | E_PublicApiServerError e => public_status_code e
  end.

Definition unwrap_or_404 {T} (expected_value : option T) (context : string) : outcome Error T :=
  ok_or expected_value (E_InformationNotAvailable context).
End error.

(** Texts of the errors of other crates, [Display] and [Debug]. *)
Class ErrorTexts `{ApiOps} `{ErrorTypes} : Type := {
  show_rpc_client : RpcClientErr → string;
  show_serde_json : SerdeJsonError → string;
  show_anyhow : AnyhowError → string;
  debug_anyhow : AnyhowError → string;
  debug_duration : Duration → string;
  show_faucet_limiter : FaucetLimiterErr → string;
  debug_snapshot : SnapshotError → string;
  debug_genesis_blob : GenesisBlobErr → string;
  debug_vm_message : PartialVMError → string;
  debug_assembler : AssemblerErr → string;
  debug_console : ConsoleError → string;
  debug_take_variant : TakeVariantErr → string;
  debug_move_list : MoveListErr → string;
  debug_archive : ArchiveError → string;
  debug_store : StoreError → string;
  debug_smr : SmrError → string;
  debug_bcs : BcsError → string;
}.

Section response.
Context `{ErrorTexts}.

(** [Display] of the errors of the state. *)
Definition show_api_server_error (e : ApiServerError (Txn:=SmrTransaction)) : string :=
  match e with
  | InconsistentArchiveState m => "Encountered inconsistent state in the archive database: " +:+ m
  | MissingAccountTransaction h a =>
      "Missing transaction " +:+ show_hash h +:+ " for account " +:+ show_account a
  | MissingAccountAutomatedTransaction h a =>
      "Missing automated transaction " +:+ show_hash h +:+ " for account " +:+ show_account a
  | MissingBlockTransaction h b =>
      "Missing transaction " +:+ show_hash h +:+ " in block " +:+ show_hash b
  | MissingBlockTransactionOutput h b =>
      "Missing user transaction " +:+ show_hash h +:+ " executed as part of block " +:+ show_hash b
  | MissingBlockAutomatedTransaction h b =>
      "Missing automated transaction " +:+ show_hash h +:+ " executed as part of block "
      +:+ show_hash b
  | MissingAutomatedTransactionOutput h =>
      "Missing the output data for automated transaction " +:+ show_hash h
  | MissingBlockMetadataOutput h =>
      "Missing the output data for block metadata transaction " +:+ show_hash h
  | MissingTransactionStatus h => "Missing the execution status for transaction " +:+ show_hash h
  | TransactionNotFound h => "Cannot find transaction " +:+ show_hash h
  | InconsistentStoreState m => "Encountered inconsistent state in Store: " +:+ m
  | TooManyConcurrentSimulations => "Too many concurrent simulations"
  | InvalidSimulationTransaction =>
      "Transaction to be simulated should not have valid signature."
  | AE_MoveListError e => "MoveList error: " +:+ debug_move_list e
  | AE_ArchiveError e => "Archive error: " +:+ debug_archive e
  | AE_Other e => "Other error: " +:+ debug_anyhow e
  | AE_StoreError e => "Store error: " +:+ debug_store e
  | AE_Smr e => "SMR error: " +:+ debug_smr e
  | AE_Bcs e => "Bcs error: " +:+ debug_bcs e
  end.

Record HttpError := { he_status : Z; he_message : string }.

(** The body of a failed request; the content type is [application/json]. *)
Definition error_response (e : Error) : HttpError :=
  let msg :=
    match e with
    | E_Store _ => "store lookup failed"
    | E_RpcClient e => show_rpc_client e
    | E_Archive _ => "archive lookup failed"
    | E_TransactionAcceptStatus _ => "failed"
    | E_InformationNotAvailable what => "Information not available for " +:+ what
    | E_Io _ | E_FileIoError _ => "internal server error"
    | E_ExecutionRetrieval _ => "address not found"
    | E_SerdeJson e => show_serde_json e
    | E_BadTransactionRequest e => e
    | E_Swagger err _ => "Swagger error: " +:+ err
    | E_TomlDeserialize _ => "TOML deserialization error"
    | E_SetupError msg => msg
    | E_Other msg => show_anyhow msg
    | E_PublicApiServerError e =>
        "Internal server error: " +:+ show_api_server_error (public_inner e)
    | E_TooManyRequests d => "Too many requests. Please try again in " +:+ debug_duration d
    | E_FaucetNotEnabled => "Operation is not supported: faucet is not configured"
    | E_SnapshotError e => "Internal error: " +:+ debug_snapshot e
    | E_GenesisBlobError e => "Internal error: " +:+ debug_genesis_blob e
    | E_FaucetLimiterError e => show_faucet_limiter e
    | E_InvalidInput msg => "Invalid input: " +:+ msg
    | E_MoveConverterError msg => "Failure handling request inputs/outputs: " +:+ msg
    | E_MoveVmPartialError err => debug_vm_message err
    | E_ChainStateAssembler e => "Internal error: " +:+ debug_assembler e
    | E_TcpConsoleError e => "Internal error: " +:+ debug_console e
    | E_TakeVariantError e => "Internal error: " +:+ debug_take_variant e
    | E_CursorDecodeError => "Cursor could not be decoded"
    end in
  {| he_status := status_code e; he_message := msg |}.
End response.

(** The error of a TLS configuration, with its [Display]. *)
Inductive TlsError {RustlsErr : Type} `{ErrorTypes} : Type :=
| Tls_FileError (e : IoError)
| Tls_RustlsError (e : RustlsErr)
| Tls_PrivateKeyAbsent
| Tls_TooManyPrivateKeys.

Definition show_tls_error {RustlsErr} `{ErrorTypes} (show_io : IoError → string)
    (show_rustls : RustlsErr → string) (e : TlsError (RustlsErr:=RustlsErr)) : string :=
  match e with
  | Tls_FileError e => show_io e
  | Tls_RustlsError e => show_rustls e
  | Tls_PrivateKeyAbsent => "Certificate private key not found"
  | Tls_TooManyPrivateKeys => "Single certificate private key expected"
  end.

(** The body of an error as a client reads it. *)
Record ErrResp := { message : string }.

(** ** What the handlers use of the other crates *)
Class HandlerOps `{ErrorTexts} : Type := {
  DEFAULT_SIZE_OF_PAGE : nat;
  MAX_NUM_OF_TRANSACTIONS_TO_RETURN : nat;
  to_canonical_string : AccountAddress → string;
  hex_encode : Bytes → string;
  hex_decode : string → option Bytes;
  TransactionInfoV1 : Type;
  info_v1 : TransactionInfoV2 → TransactionInfoV1;
  (** Accounts. *)
  AccountResource : Type;
  read_account_resource : MoveStore → AccountAddress → option AccountResource;
  sequence_number : AccountResource → Z;
  authentication_key : AccountResource → outcome AnyhowError Hash;
  (** Parsers: the error is the text of the message. *)
  struct_tag_from_str : string → outcome string StructTag;
  identifier_from_str : string → outcome string string;
  type_tag_from_str : string → outcome AnyhowError TypeTag;
  struct_type_tag : StructTag → TypeTag;
  (** Values and modules. *)
  MoveValue : Type;
  get_resource : MoveStore → AccountAddress → StructTag → outcome AnyhowError (option Bytes);
  try_into_move_value : MoveStore → TypeTag → Bytes → outcome AnyhowError MoveValue;
  ModuleId : Type;
  module_id_new : AccountAddress → string → ModuleId;
  show_module_id : ModuleId → string;
  get_module : MoveStore → ModuleId → outcome AnyhowError (option Bytes);
  MoveModule : Type;
  module_deserialize : Bytes → outcome PartialVMError MoveModule;
  (** Tables. *)
  JsonValue : Type;
  VmValue : Type;
  try_into_vm_value : MoveStore → TypeTag → JsonValue → outcome AnyhowError VmValue;
  read_table_item : MoveStore → AccountAddress → VmValue → outcome AnyhowError (option Bytes);
  (** Views. *)
  ViewRequest : Type;
  ViewFunction : Type;
  MoveType : Type;
  convert_view_function : MoveStore → ViewRequest → outcome AnyhowError ViewFunction;
  function_return_types : MoveStore → ViewFunction → outcome AnyhowError (list MoveType);
  type_tag_try_from : MoveType → outcome AnyhowError TypeTag;
  execute_view_function : MoveStore → ViewFunction → outcome AnyhowError (list Bytes);
}.

(** ** Controllers *)
Module Controllers.
Section controllers.
Context `{HandlerOps}.
Local Open Scope rust_scope.

Notation PubRes := (outcome (PublicApiServerError (Txn:=SmrTransaction))).
Notation Result := (outcome Error).

(** The [?] operator into the error of the node. *)
Definition api {A} (o : PubRes A) : Result A := omap_err E_PublicApiServerError o.
Definition other {A} (o : outcome AnyhowError A) : Result A := omap_err E_Other o.
Definition invalid_input {A} (o : outcome string A) : Result A := omap_err E_InvalidInput o.

(** *** [controller/accounts.rs] *)
Record AccountInfo := { ai_sequence_number : Z; ai_authentication_key : Hash }.

Definition extract_account_info (resource : option AccountResource) : Result (option AccountInfo) :=
  match resource with
  | None => Ok None
  | Some acc =>
      let? key := other (authentication_key acc) in
      Ok (Some {| ai_sequence_number := sequence_number acc; ai_authentication_key := key |})
  end.

Definition account_information_controller_v1 (s : ApiServerState) (addr : AccountAddress)
    : Result (option AccountInfo) :=
  extract_account_info (read_account_resource (move_store s) addr).

Definition account_information_controller_v2 (s : ApiServerState) (addr : AccountAddress)
    : Result AccountInfo :=
  let? account_info := extract_account_info (read_account_resource (move_store s) addr) in
  ok_or account_info (E_InformationNotAvailable (to_canonical_string addr)).

(** [Converter::convert_to_move_value]. *)
Definition convert_to_move_value (ms : MoveStore) (value_type : TypeTag) (bytes : Bytes)
    : outcome (ApiServerError (Txn:=SmrTransaction)) MoveValue :=
  omap_err AE_Other (try_into_move_value ms value_type bytes).

Definition move_resource_controller_v1 (s : ApiServerState) (addr : AccountAddress)
    (str_tag : string) : Result (option MoveValue) :=
  let? tag := invalid_input (struct_tag_from_str str_tag) in
  let? maybe_bytes := other (get_resource (move_store s) addr tag) in
  Ok (maybe_bytes ≫= λ data, ok (convert_to_move_value (move_store s) (struct_type_tag tag) data)).

Definition move_resource_controller_v2 (s : ApiServerState) (addr : AccountAddress)
    (str_tag : string) : Result MoveValue :=
  let? tag := invalid_input (struct_tag_from_str str_tag) in
  let? maybe_bytes := other (get_resource (move_store s) addr tag) in
  let? bytes := ok_or maybe_bytes (E_InformationNotAvailable (to_canonical_string addr)) in
  api (public (convert_to_move_value (move_store s) (struct_type_tag tag) bytes)).

Record MoveModuleBytecode := { mb_bytes : Bytes; mb_abi : MoveModule }.

Definition get_module_byte_code_from_module_id (s : ApiServerState) (module_id : ModuleId)
    : Result (option MoveModuleBytecode) :=
  let? maybe_module_bytes := other (get_module (move_store s) module_id) in
  match maybe_module_bytes with
  | None => Ok None
  | Some module_bytes =>
      let? m := omap_err E_MoveVmPartialError (module_deserialize module_bytes) in
      Ok (Some {| mb_bytes := module_bytes; mb_abi := m |})
  end.

Definition page_size (count : option nat) : nat :=
  match count with
  | None => DEFAULT_SIZE_OF_PAGE
  | Some c => Nat.min c MAX_NUM_OF_TRANSACTIONS_TO_RETURN
  end.

Definition statement_controller (s : ApiServerState) (account : AccountAddress)
    (start : option Z) (count : option nat) : Result (list TransactionInfoV2) :=
  api (get_account_user_transactions s account start (page_size count)).

(** Only the transactions of users of the page are kept. *)
Definition coin_transactions_controller_v2 (s : ApiServerState) (account : AccountAddress)
    (start : option Z) (count : option nat) : Result (list TransactionInfoV2 * Z) :=
  let? ' (txn_hashes, cursor) :=
    api (get_account_coin_transaction_hashes s account start (page_size count)) in
  let user_txn_hashes := omap into_user_txn_hash txn_hashes in
  let? transactions :=
    api (get_account_executed_transactions_by_hashes s account user_txn_hashes) in
  Ok (transactions, cursor).

Definition coin_transactions_controller_v3 (s : ApiServerState) (account : AccountAddress)
    (start : option Z) (count : option nat) : Result (list TransactionV3 * Z) :=
  let count := Nat.min (default DEFAULT_SIZE_OF_PAGE count) MAX_NUM_OF_TRANSACTIONS_TO_RETURN in
  api (get_account_coin_transactions s account start count).

(** *** [controller/block.rs] *)
Definition archive_res {A} (o : outcome ArchiveError A) : Result A := omap_err E_Archive o.

Definition get_block_height_by_hash (a : Archive) (block_hash : Hash) : Result Z :=
  let? maybe := archive_res (get_block_header_info a block_hash) in
  let? info := ok_or maybe (E_InformationNotAvailable
    ("Block header for hash " +:+ show_hash block_hash +:+ " not found")) in
  Ok (header_height info).

Definition get_user_txns_by_block_height (s : ApiServerState) (block_height : Z)
    : Result (list Hash) :=
  archive_res (get_txs_by_block_height (reader s) block_height).

Definition get_user_txns_by_block_hash (s : ApiServerState) (block_hash : Hash)
    : Result (list Hash) :=
  let? height := get_block_height_by_hash (reader s) block_hash in
  get_user_txns_by_block_height s height.

Definition get_block_metadata_info_by_height (s : ApiServerState) (height : Z)
    (txn_type : option TransactionType) : Result (option BlockMetadataInfo) :=
  match txn_type with
  | None | Some Meta => api (get_block_metadata_by_block_height s height)
  | _ => Ok None
  end.

Definition get_txns_by_block_hash_and_type (s : ApiServerState) (block_hash : Hash)
    (txn_type : option TransactionType) : Result (list Hash) :=
  let? block_height := get_block_height_by_hash (reader s) block_hash in
  let? user_transactions :=
    match txn_type with
    | None | Some User => get_user_txns_by_block_height s block_height
    | _ => Ok []
    end in
  let? auto_transactions :=
    match txn_type with
    | None | Some Auto => archive_res (get_automated_txs_by_block_height (reader s) block_height)
    | _ => Ok []
    end in
  let? metadata_txn_hash :=
    match txn_type with
    | None | Some Meta =>
        archive_res (get_block_metadata_hash_by_block_height (reader s) block_height)
    | _ => Ok None
    end in
  Ok (option_list metadata_txn_hash ++ user_transactions ++ auto_transactions).

(** *** [controller/transaction.rs] *)
Definition lookup_transaction (txn_hash : Hash) (maybe_txn_type : option TransactionType)
    (s : ApiServerState) : PubRes (option TransactionV3) :=
  match maybe_txn_type with
  | None =>
      match get_transaction_by_hash s txn_hash true with
      | Ok maybe_transaction => Ok (txn_from_info <$> maybe_transaction)
      | Err {| public_inner := TransactionNotFound _ |} =>
          let? maybe := get_block_metadata_by_hash s txn_hash in
          Ok (txn_from_meta <$> maybe)
      | Err err => Err err
      | Panic => Panic
      end
  | Some Auto =>
      let? maybe := get_automated_transaction_by_hash s txn_hash in
      Ok (txn_from_info <$> maybe)
  | Some User =>
      let? maybe := get_user_transaction_by_hash s txn_hash true in
      Ok (txn_from_info <$> maybe)
  | Some Meta =>
      let? maybe := get_block_metadata_by_hash s txn_hash in
      Ok (txn_from_meta <$> maybe)
  end.
End controllers.
End Controllers.

(** ** Handlers *)
Module Rest_Handlers.
Import Controllers.
Section handlers.
Context `{HandlerOps}.
Local Open Scope rust_scope.

Notation Result := (outcome Error).

(** *** Transactions *)
Definition transaction_by_hash_v1 (s : ApiServerState) (hash : Hash)
    : Result (option TransactionInfoV1) :=
  match get_user_transaction_by_hash s hash true with
  | Ok option => Ok (info_v1 <$> option)
  | Err {| public_inner := TransactionNotFound _ |} => Ok None
  | Err err => Err (E_PublicApiServerError err)
  | Panic => Panic
  end.

(** [transient_transaction_by_hash], also behind the faucet's lookup. *)
Definition transaction_by_hash_v2 (s : ApiServerState) (hash : Hash) : Result TransactionInfoV2 :=
  let? info := api (get_user_transaction_by_hash s hash true) in
  ok_or info (E_InformationNotAvailable (show_hash hash)).

Definition transaction_by_hash_v3 (s : ApiServerState) (hash : Hash)
    (typ : option TransactionType) : Result (ChainId * TransactionV3) :=
  let? maybe := api (lookup_transaction hash typ s) in
  let? txn := ok_or maybe (E_InformationNotAvailable (show_hash hash)) in
  Ok (chain_id s, txn).

(** The lookups of the wallet. *)
Definition faucet_transaction_by_hash_v1 (s : ApiServerState) (hash : Hash)
    : Result (option TransactionInfoV1) := transaction_by_hash_v1 s hash.
Definition faucet_transaction_by_hash_v2 (s : ApiServerState) (hash : Hash)
    : Result TransactionInfoV2 := transaction_by_hash_v2 s hash.

(** *** Blocks *)
Definition latest_block_v1 (s : ApiServerState) : Result (option BlockHeaderInfo) :=
  archive_res (get_latest_block_header_info (reader s)).

Definition latest_block_v2 (s : ApiServerState) : Result BlockHeaderInfo :=
  let? maybe := archive_res (get_latest_block_header_info (reader s)) in
  ok_or maybe (E_InformationNotAvailable "Latest Block").

Definition latest_block_v3 (s : ApiServerState)
    : Result (ChainId * (BlockHeaderInfo * option ExecutedBlockStats)) :=
  let? latest_block := latest_block_v2 s in
  let? stats := api (get_block_execution_statistics_by_height s (header_height latest_block)) in
  Ok (chain_id s, (latest_block, stats)).

Definition block_header_info_v1 (s : ApiServerState) (block_hash : Hash)
    : Result (option BlockHeaderInfo) :=
  archive_res (get_block_header_info (reader s) block_hash).

Definition block_header_info_v2 (s : ApiServerState) (block_hash : Hash)
    : Result BlockHeaderInfo :=
  let? maybe := archive_res (get_block_header_info (reader s) block_hash) in
  ok_or maybe (E_InformationNotAvailable (show_hash block_hash)).

Definition block_info_by_hash_v3 (s : ApiServerState) (block_hash : Hash)
    : Result (ChainId * (BlockHeaderInfo * option ExecutedBlockStats)) :=
  let? info := block_header_info_v2 s block_hash in
  let? stats := api (get_block_execution_statistics_by_height s (header_height info)) in
  Ok (chain_id s, (info, stats)).

Definition block_by_height_v1 (s : ApiServerState) (height : Z)
    (with_finalized_transactions : bool) : Result (option ApiBlock) :=
  api (get_block_by_height s height with_finalized_transactions (Some User)).

Definition block_by_height_v2 (s : ApiServerState) (height : Z)
    (with_finalized_transactions : bool) : Result ApiBlock :=
  let? block := api (get_block_by_height s height with_finalized_transactions (Some User)) in
  ok_or block (E_InformationNotAvailable (pretty height)).

Definition block_by_height_v3 (s : ApiServerState) (height : Z)
    (with_finalized_transactions : bool) (txn_type : option TransactionType)
    : Result (ChainId * (ApiBlock * option BlockMetadataInfo * option ExecutedBlockStats)) :=
  let? block_v2 := api (get_block_by_height s height with_finalized_transactions txn_type) in
  match block_v2 with
  | None => Err (E_InformationNotAvailable
      ("No block with " +:+ pretty height +:+ " is available"))
  | Some v2 =>
      let? metadata_txn_info := get_block_metadata_info_by_height s height txn_type in
      let? stats := api (get_block_execution_statistics_by_height s height) in
      Ok (chain_id s, (v2, metadata_txn_info, stats))
  end.

Definition txs_by_block_v1 (s : ApiServerState) (block_hash : Hash) : Result (list Hash) :=
  get_user_txns_by_block_hash s block_hash.

Definition txs_by_block_v3 (s : ApiServerState) (block_hash : Hash)
    (txn_type : option TransactionType) : Result (ChainId * list Hash) :=
  let? txn_hashes := get_txns_by_block_hash_and_type s block_hash txn_type in
  Ok (chain_id s, txn_hashes).

(** *** Accounts *)

(** Each handler takes the variant that its controller made. *)
Definition get_account_v1 (s : ApiServerState) (a : AccountAddress) : Result (option AccountInfo) :=
  account_information_controller_v1 s a.
Definition get_account_v2 (s : ApiServerState) (a : AccountAddress) : Result AccountInfo :=
  account_information_controller_v2 s a.

(** [MoveValueResponseV1]. *)
Record MoveValueResponseV1 := { mvr_result : list (option MoveValue) }.

Definition get_account_resource_v1 (s : ApiServerState) (a : AccountAddress) (tag_string : string)
    : Result (option MoveValueResponseV1) :=
  let? val := move_resource_controller_v1 s a tag_string in
  Ok (Some {| mvr_result := [val] |}).

Definition get_account_transactions_v2 (s : ApiServerState) (a : AccountAddress)
    (start : option Z) (count : option nat) : Result (list TransactionInfoV2) :=
  statement_controller s a start count.

Definition coin_transactions_v2 (s : ApiServerState) (a : AccountAddress)
    (start : option Z) (count : option nat) : Result (list TransactionInfoV2 * Z) :=
  coin_transactions_controller_v2 s a start count.

Definition get_account_transactions_v1 (s : ApiServerState) (a : AccountAddress)
    (start : option Z) (count : option nat) : Result (list TransactionInfoV1) :=
  omap_ok (fmap info_v1) (statement_controller s a start count).

Definition get_account_transactions_v3 (s : ApiServerState) (a : AccountAddress)
    (start : option Z) (count : option nat) : Result (ChainId * list TransactionV3) :=
  let? transactions := statement_controller s a start count in
  Ok (chain_id s, txn_from_info <$> transactions).

(** The cursor header is empty when there is no next page. *)
Definition cursor_header (cursor : option Bytes) : string :=
  match cursor with Some c => hex_encode c | None => "" end.

Definition decode_cursor (cursor : option string) : Result (option Bytes) :=
  match cursor with
  | None => Ok None
  | Some c => omap_ok Some (ok_or (hex_decode c) E_CursorDecodeError)
  end.

Definition get_account_automated_transactions_v3 (s : ApiServerState) (a : AccountAddress)
    (block_height : option Z) (cursor : option string) (ascending : bool) (count : option nat)
    : Result (ChainId * string * list TransactionV3) :=
  let? cursor := decode_cursor cursor in
  let? ' (transactions, cursor) :=
    api (get_account_automated_transactions s a block_height cursor ascending (page_size count)) in
  Ok (chain_id s, cursor_header cursor, txn_from_info <$> transactions).

Definition coin_transactions_v1 (s : ApiServerState) (a : AccountAddress)
    (start : option Z) (count : option nat) : Result (list TransactionInfoV1 * Z) :=
  let? ' (transactions, cursor) := coin_transactions_controller_v2 s a start count in
  Ok (info_v1 <$> transactions, cursor).

Definition coin_transactions_v3 (s : ApiServerState) (a : AccountAddress)
    (start : option Z) (count : option nat) : Result (ChainId * Z * list TransactionV3) :=
  let? ' (record, cursor) := coin_transactions_controller_v3 s a start count in
  Ok (chain_id s, cursor, record).

Definition get_account_resource_v2 (s : ApiServerState) (a : AccountAddress) (tag_string : string)
    : Result MoveResource :=
  let? tag := invalid_input (struct_tag_from_str tag_string) in
  let? maybe_resource := api (get_move_resource s a tag) in
  unwrap_or_404 maybe_resource (to_canonical_string a).

Definition get_account_module_v1 (s : ApiServerState) (a : AccountAddress) (module_name : string)
    : Result (option MoveModule) :=
  let? name := invalid_input (identifier_from_str module_name) in
  let? maybe := get_module_byte_code_from_module_id s (module_id_new a name) in
  Ok (mb_abi <$> maybe).

Definition get_account_module_v2 (s : ApiServerState) (a : AccountAddress) (module_name : string)
    : Result MoveModuleBytecode :=
  let? name := invalid_input (identifier_from_str module_name) in
  let module_id := module_id_new a name in
  let? maybe := get_module_byte_code_from_module_id s module_id in
  ok_or maybe (E_InformationNotAvailable (show_module_id module_id)).

(** *** Tables and views *)
Definition table_item_by_key_v1 (s : ApiServerState) (table_handle : AccountAddress)
    (key_type value_type : string) (key : JsonValue) : Result (option MoveValue) :=
  let? key_tag := other (type_tag_from_str key_type) in
  let? vm_key :=
    omap_err (λ e, E_MoveConverterError ("Invalid key type: " +:+ show_anyhow e))
      (try_into_vm_value (move_store s) key_tag key) in
  let? value_tag := other (type_tag_from_str value_type) in
  let? maybe := other (read_table_item (move_store s) table_handle vm_key) in
  match maybe with
  | None => Ok None
  | Some bytes =>
      api (public (omap_ok Some (convert_to_move_value (move_store s) value_tag bytes)))
  end.

Definition table_item_by_key_v2 (s : ApiServerState) (table_handle : AccountAddress)
    (key_type value_type : string) (key : JsonValue) : Result MoveValue :=
  let? key_tag := omap_err (λ e, E_InvalidInput (show_anyhow e)) (type_tag_from_str key_type) in
  let? vm_key :=
    omap_err (λ e, E_MoveConverterError ("Invalid key type: " +:+ show_anyhow e))
      (try_into_vm_value (move_store s) key_tag key) in
  let? value_tag := other (type_tag_from_str value_type) in
  let? maybe := other (read_table_item (move_store s) table_handle vm_key) in
  let? bytes := ok_or maybe (E_InformationNotAvailable (to_canonical_string table_handle)) in
  api (public (convert_to_move_value (move_store s) value_tag bytes)).

(** The values a view returns with the types they are read at. *)
Definition view_output (s : ApiServerState) (req : ViewRequest) : Result (list (Bytes * TypeTag)) :=
  let? view_function := other (convert_view_function (move_store s) req) in
  let? tys := other (function_return_types (move_store s) view_function) in
  let? return_type := other (otraverse type_tag_try_from tys) in
  let? output := other (execute_view_function (move_store s) view_function) in
  Ok (zip output return_type).

Definition view_function_v1 (s : ApiServerState) (req : ViewRequest)
    : Result (list (option MoveValue)) :=
  let? output := view_output s req in
  Ok ((λ '(bytes, typ), ok (try_into_move_value (move_store s) typ bytes)) <$> output).

Definition view_function_v2 (s : ApiServerState) (req : ViewRequest) : Result (list MoveValue) :=
  let? output := view_output s req in
  otraverse (λ '(bytes, typ), other (try_into_move_value (move_store s) typ bytes)) output.

(** *** Certified blocks *)
Definition consensus_block_v1 (s : ApiServerState) (height : Z) (with_batches : bool)
    : Result (option ConsensusBlock) :=
  api (public (get_certified_block s height with_batches)).

(** [serializable_to_http_response]: the serialized data, or a bare 404. *)
Definition serializable_to_http_response {A} (to_bytes : A → Bytes) (data : option A)
    : Z * option Bytes :=
  match to_bytes <$> data with
  | Some data => (200, Some data)
  | None => (NOT_FOUND, None)
  end.

Definition consensus_block_v2 (to_bytes : ConsensusBlock → Bytes) (s : ApiServerState)
    (height : Z) (with_batches : bool) : Result (Z * option Bytes) :=
  let? block := api (public (get_certified_block s height with_batches)) in
  Ok (serializable_to_http_response to_bytes block).

Definition latest_consensus_block_v2 (to_bytes : ConsensusBlock → Bytes) (s : ApiServerState)
    (with_batches : bool) : Result (Z * option Bytes) :=
  let? block := api (public (get_latest_certified_block s with_batches)) in
  Ok (serializable_to_http_response to_bytes block).

Definition committee_authorization_v2 (to_bytes : CommitteeAuthorization → Bytes)
    (s : ApiServerState) (epoch : Z) : Result (Z * option Bytes) :=
  let? authorization := api (public (get_authorization_for_epoch s epoch)) in
  Ok (serializable_to_http_response to_bytes authorization).

(** *** Events *)
Definition MAX_NUM_OF_BLOCK_EVENTS_TO_RETURN : Z := 10.

Definition events_by_type_v1 (s : ApiServerState) (event_type : string) (start end_ : Z)
    : Result (list ApiEvent) :=
  if end_ <=? start then Err (E_InvalidInput "`end` must be greater than `start`")
  else
    let? range := sub64 end_ start in
    if MAX_NUM_OF_BLOCK_EVENTS_TO_RETURN <? range then
      Err (E_InvalidInput ("The range of blocks to query must be less than or equal to "
                           +:+ pretty MAX_NUM_OF_BLOCK_EVENTS_TO_RETURN))
    else if bool_decide (event_type = "") then Err (E_InvalidInput "Empty event type")
    else
      let? type_tag :=
        omap_err (λ e, E_InvalidInput (show_anyhow e)) (type_tag_from_str event_type) in
      api (get_events_by_type s type_tag start end_).

Definition MAX_EVENTS_TO_RETURN : nat := 100.
Definition DEFAULT_EVENTS_LIMIT : nat := 20.

Definition events_by_type_v3 (s : ApiServerState) (event_type : string)
    (start_height end_height : option Z) (limit : option nat) (start : option string)
    : Result (ChainId * string * list EventWithContext) :=
  if bool_decide (event_type = "") then Err (E_InvalidInput "Empty event type")
  else
    let? type_tag :=
      omap_err (λ e, E_InvalidInput (show_anyhow e)) (type_tag_from_str event_type) in
    let limit := Nat.min (default DEFAULT_EVENTS_LIMIT limit) MAX_EVENTS_TO_RETURN in
    let? _ :=
      match start_height, end_height with
      | Some start, Some end_ =>
          if end_ <=? start then Err (E_InvalidInput "`end` must be greater than `start`")
          else Ok tt
      | _, _ => Ok tt
      end in
    let start_height := default 0 start_height in
    let end_height := default U64_MAX end_height in
    let? cursor := decode_cursor start in
    let? ' (events, cursor) :=
      api (get_events_by_type_with_limit s type_tag start_height end_height limit cursor) in
    Ok (chain_id s, cursor_header cursor, events).

(** *** Properties *)

Lemma transient_some s h w info : get_transient_transaction_by_hash_internal s h w = Ok info → info ≠ None.
Proof.
  unfold get_transient_transaction_by_hash_internal.
  destruct (archived _) as [m|e|]; simpl; [|done..]. destruct m as [t|]; simpl; [|done].
  destruct (archived _) as [m|e|]; simpl; [|done..]. destruct m as [st|]; simpl; [|done].
  destruct (match st with St_Pending | St_PendingAfterExecution => _ | _ => _ end)
    as [[o b]|e|]; simpl; [|done..].
  destruct (create_transaction_info s h t o st b); simpl; by intros [= <-].
Qed.

Lemma automated_some s h w info :
  get_automated_transaction_by_hash_internal s h w = Ok info → info ≠ None.
Proof.
  unfold get_automated_transaction_by_hash_internal.
  destruct (archived _) as [m|e|]; simpl; [|done..]. destruct m as [[m t]|]; simpl; [|done].
  destruct (archived _) as [m'|e|]; simpl; [|done..]. destruct m' as [st|]; simpl; [|done].
  destruct (get_finalized_transaction_output_and_block_info s h w) as [[[o|] b]|e|];
    simpl; [|done..].
  destruct (create_automated_transaction_info s m t (Some o) st b); simpl; by intros [= <-].
Qed.

Lemma metadata_some s h info : get_block_metadata_by_hash s h = Ok info → info ≠ None.
Proof.
  unfold get_block_metadata_by_hash, public.
  destruct (omap_err _ _) as [[]|e|]; simpl; [|done..].
  unfold get_block_metadata_by_hash_internal.
  destruct (archived _) as [m|e|]; simpl; [|done..]. destruct m as [st|]; simpl; [|done].
  destruct (get_finalized_transaction_output_and_block_info s h true) as [[o b]|e|];
    simpl; [|done..].
  destruct (api_move_transaction_output (move_store s) o) as [[o'|]|e|]; simpl; [|done..].
  by intros [= <-].
Qed.

(** The errors of the state that are answered with 404. *)
Lemma not_found_status (e : PublicApiServerError (Txn:=SmrTransaction)) :
  public_status_code e = NOT_FOUND ↔ ∃ h, public_inner e = TransactionNotFound h.
Proof.
  unfold public_status_code. destruct (public_inner e) eqn:He; simpl;
    split; try done; try (by intros [? ?]); intros _; by eexists.
Qed.

Lemma combined_not_found s h :
  not_found (get_transaction_by_hash_internal s h true)
  ↔ user_missing s h ∧ automated_missing s h.
Proof.
  rewrite <-(transient_not_found s h true), <-(automated_not_found s h true).
  unfold get_transaction_by_hash_internal, get_user_transaction_by_hash_internal.
  destruct (get_transient_transaction_by_hash_internal s h true) as [[i|]|e|] eqn:Hu; simpl.
  - split; [by intros [? ?]|by intros [[? ?] _]].
  - by apply transient_some in Hu.
  - destruct e; try (split; [by intros [? ?]|by intros [[? ?] _]]).
    split; [|by intros [_ ?]]. intros Hn. split; [by eexists|done].
  - split; [by intros [? ?]|by intros [[? ?] _]].
Qed.

Lemma lookup_not_found s h :
  (∃ e, lookup_transaction h None s = Err e ∧ public_status_code e = NOT_FOUND)
  ↔ user_missing s h ∧ automated_missing s h ∧ metadata_missing s h.
Proof.
  rewrite (assoc (∧)), <-combined_not_found, <-(metadata_not_found s h).
  unfold lookup_transaction, get_transaction_by_hash, public.
  destruct (get_transaction_by_hash_internal s h true) as [i|e|]; simpl.
  - split; [by intros (? & ? & _)|by intros [[? ?] _]].
  - destruct e; try (split; [by intros (? & [= <-] & ?)|by intros [[? ?] _]]).
    destruct (get_block_metadata_by_hash s h) as [m|e|]; simpl.
    + split; [by intros (? & ? & _)|by intros [_ [? ?]]].
    + split.
      * intros (e' & [= <-] & [h' He]%not_found_status). split; [by eexists|].
        exists h'. destruct e; simpl in He. by subst.
      * intros [_ [h' [= ->]]]. by eexists.
    + split; [by intros (? & ? & _)|by intros [_ [? ?]]].
  - split; [by intros (? & ? & _)|by intros [[? ?] _]].
Qed.

(** C15 When a transaction is reported as missing, in each version of the lookup:
    version 1 answers with nothing and version 2 with 404 exactly when the
    transaction is neither in the backlog nor completely archived, and
    version 3 answers 404 exactly when it is moreover neither an automated
    transaction nor a block metadata transaction.  No other failure of the
    archive is answered with 404, and a pending transaction never is. *)
Theorem missing_transaction_answers s h :
  (transaction_by_hash_v1 s h = Ok None ↔ user_missing s h) ∧
  ((∃ e, transaction_by_hash_v2 s h = Err e ∧ status_code e = NOT_FOUND) ↔ user_missing s h) ∧
  ((∃ e, transaction_by_hash_v3 s h None = Err e ∧ status_code e = NOT_FOUND)
   ↔ user_missing s h ∧ automated_missing s h ∧ metadata_missing s h).
Proof.
  split_and!.
  - rewrite <-(transient_not_found s h true).
    unfold transaction_by_hash_v1, get_user_transaction_by_hash, public.
    unfold get_user_transaction_by_hash_internal.
    destruct (get_transient_transaction_by_hash_internal s h true) as [[i|]|e|] eqn:Hu; simpl.
    + split; [done|by intros [? ?]].
    + by apply transient_some in Hu.
    + destruct e; try (split; [done|by intros [? ?]]). split; [by eexists|done].
    + split; [done|by intros [? ?]].
  - rewrite <-(transient_not_found s h true).
    unfold transaction_by_hash_v2, get_user_transaction_by_hash, public, api.
    unfold get_user_transaction_by_hash_internal.
    destruct (get_transient_transaction_by_hash_internal s h true) as [[i|]|e|] eqn:Hu; simpl.
    + split; [by intros (? & ? & _)|by intros [? ?]].
    + by apply transient_some in Hu.
    + split.
      * intros (e' & [= <-] & [h' He]%not_found_status). exists h'. simpl in He. by subst.
      * intros [h' [= ->]]. by eexists.
    + split; [by intros (? & ? & _)|by intros [? ?]].
  - rewrite <-lookup_not_found. unfold transaction_by_hash_v3, api.
    destruct (lookup_transaction h None s) as [[i|]|e|] eqn:Hl; simpl.
    + split; by intros (? & ? & _).
    + exfalso. revert Hl. unfold lookup_transaction, get_transaction_by_hash, public.
      destruct (get_transaction_by_hash_internal s h true) as [[i|]|e|] eqn:Hi; simpl; try done.
      * intros _. revert Hi. unfold get_transaction_by_hash_internal.
        destruct (get_user_transaction_by_hash_internal s h true) as [[]|[]|];
          try done; intros Hi; by apply automated_some in Hi.
      * destruct e; try done.
        destruct (get_block_metadata_by_hash s h) as [[]|e|] eqn:Hm; try done.
        by apply metadata_some in Hm.
    + split; intros (e' & [= <-] & He); by eexists.
    + split; by intros (? & ? & _).
Qed.

Lemma coin_user_part s a tags txns :
  Forall2 (λ tag txn, coin_transaction s a tag = Ok txn) tags txns →
  ∃ infos,
    get_account_executed_transactions_by_hashes_internal s a (omap into_user_txn_hash tags)
      = Ok infos ∧
    txn_from_info <$> infos
      = omap (λ '(tag, txn), (λ _, txn) <$> into_user_txn_hash tag) (zip tags txns).
Proof.
  unfold get_account_executed_transactions_by_hashes_internal.
  induction 1 as [|tag txn tags txns Ht _ (infos & IH1 & IH2)]; [by exists []|].
  destruct tag as [h|h|h]; simpl in *; [by exists infos| |by exists infos].
  destruct (get_account_executed_transaction_by_hash_internal s a h) as [i|e|];
    simplify_eq/=. rewrite IH1. exists (i :: infos). split; [done|]. simpl. by f_equal.
Qed.

(** The second version of the coin transactions of an account is the part of
    the third that comes from users: on the same page both return the same
    cursor, and the entries of the second are, in order, those of the third
    whose hash is tagged as a transaction of a user. *)
Theorem coin_transactions_v2_within_v3 s a start count txns cursor :
  (DEFAULT_SIZE_OF_PAGE ≤ MAX_NUM_OF_TRANSACTIONS_TO_RETURN)%nat →
  coin_transactions_controller_v3 s a start count = Ok (txns, cursor) →
  ∃ tags infos,
    get_account_coin_transaction_hashes s a start (page_size count) = Ok (tags, cursor) ∧
    Forall2 (λ tag txn, coin_transaction s a tag = Ok txn) tags txns ∧
    coin_transactions_controller_v2 s a start count = Ok (infos, cursor) ∧
    txn_from_info <$> infos
      = omap (λ '(tag, txn), (λ _, txn) <$> into_user_txn_hash tag) (zip tags txns).
Proof.
  intros Hle. unfold coin_transactions_controller_v3, coin_transactions_controller_v2.
  assert (Nat.min (default DEFAULT_SIZE_OF_PAGE count) MAX_NUM_OF_TRANSACTIONS_TO_RETURN
          = page_size count) as -> by (destruct count; simpl; lia).
  unfold get_account_coin_transactions, api, public.
  destruct (get_account_coin_transaction_hashes s a start (page_size count))
    as [[tags c]|e|]; simpl; [|done..].
  destruct (otraverse (coin_transaction s a) tags) as [txns'|e|] eqn:Ht; simpl; [|done..].
  intros [= <- <-]. apply otraverse_ok in Ht.
  destruct (coin_user_part _ _ _ _ Ht) as (infos & Hi & Heq).
  exists tags, infos. unfold get_account_executed_transactions_by_hashes, public.
  by rewrite Hi.
Qed.

(** The two versions of the evaluation of a view agree: the second returns
    values exactly when the first returns the same values with none missing. *)
Theorem view_versions_agree s req vs :
  view_function_v2 s req = Ok vs ↔ view_function_v1 s req = Ok (Some <$> vs).
Proof.
  unfold view_function_v2, view_function_v1.
  destruct (view_output s req) as [l|e|]; simpl; [|done..]. rewrite otraverse_ok. split.
  - intros Hl. f_equal. induction Hl as [|[b t] v l vs Hv _ IH]; [done|]. simpl in *.
    destruct (try_into_move_value _ t b); simplify_eq/=. by f_equal.
  - intros [= Hl]. revert vs Hl. induction l as [|[b t] l IH]; intros [|v vs]; simpl; try done.
    intros [= Hv Hl]. constructor; [|by apply IH].
    destruct (try_into_move_value _ t b); simplify_eq/=. done.
Qed.

(** A page of events has at most the requested number of events, never more
    than a hundred and twenty by default, and each event of the archive is
    returned with its own block height and transaction: none is lost when
    the converted events are paired with their contexts. *)
Theorem events_page_bounded s event_type sh eh limit start header events :
  (∀ a tag x y n c evs c',
     get_events_by_type_with_limit_and_context a tag x y n c = Ok (evs, c') →
     (length evs ≤ n)%nat) →
  (∀ ms evs out, try_into_events ms evs = Ok out → length out = length evs) →
  events_by_type_v3 s event_type sh eh limit start = Ok (header, events) →
  (length events ≤ 100)%nat ∧ (length events ≤ default 20 limit)%nat ∧
  ∃ tag cursor evs next,
    get_events_by_type_with_limit_and_context (reader s) tag (default 0 sh) (default U64_MAX eh)
      (Nat.min (default DEFAULT_EVENTS_LIMIT limit) MAX_EVENTS_TO_RETURN) cursor
      = Ok (evs, next) ∧
    (λ e, (ev_block_height e, ev_transaction_hash e)) <$> events = snd <$> evs ∧
    try_into_events (move_store s) (fst <$> evs) = Ok (ev_event <$> events) ∧
    header = (chain_id s, cursor_header next).
Proof.
  intros Hlim Hconv. unfold events_by_type_v3.
  case_bool_decide; [done|]. destruct (type_tag_from_str event_type) as [tag|e|]; simpl; [|done..].
  destruct (match sh with Some _ => _ | None => _ end) as [[]|e|]; simpl; [|done..].
  destruct (decode_cursor start) as [cursor|e|]; simpl; [|done..].
  unfold get_events_by_type_with_limit, api, public, archived.
  destruct (get_events_by_type_with_limit_and_context _ _ _ _ _ _) as [[evs next]|e|] eqn:He;
    simpl; [|done..].
  destruct (try_into_events (move_store s) (fst <$> evs)) as [out|e|] eqn:Hc; simpl; [|done..].
  intros [= <- <-]. pose proof (Hlim _ _ _ _ _ _ _ _ He) as Hn.
  apply Hconv in Hc as Hlen. rewrite length_fmap in Hlen.
  assert (length (zip out (snd <$> evs)) = length evs) as Hz
    by (rewrite length_zip_with, length_fmap; lia).
  rewrite length_fmap, Hz. unfold MAX_EVENTS_TO_RETURN, DEFAULT_EVENTS_LIMIT in *.
  split_and!; [lia..|]. exists tag, cursor, evs, next. split_and!; [done| | |done].
  - clear -Hlen. revert out Hlen. induction evs as [|[e [bh th]] evs IH]; intros [|o out];
      simpl; intros; simplify_eq; [done|]. f_equal. by apply IH.
  - rewrite Hc. f_equal. clear -Hlen. revert out Hlen.
    induction evs as [|[e [bh th]] evs IH]; intros [|o out]; simpl; intros; simplify_eq; [done|].
    f_equal. by apply IH.
Qed.
End handlers.
End Rest_Handlers.

(** ** Submission of a transaction

    [api/v1/transactions.rs], with the dispatcher that [cli/start_server.rs]
    builds: the local storage first, then the client of the validators. *)
Module Submit.
Section submit.
Context `{HandlerOps}.
Context {Account PublicKey Byte Instant Cache Strategy Net : Type}.
Notation Instance_ := (LimitInstance Account PublicKey Byte).
Context `{LruCache Instance_ Instant Cache}.
Context (should_allow : Strategy → Instance_ → option Instant → Duration + unit).
(** [SupraTransaction], and [SmrTransaction::from]. *)
Context {SignedTransaction SmrSigned : Type}.
Context (move_sender : SignedTransaction → Account) (smr_signer : SmrSigned → PublicKey).
Inductive SupraTransaction : Type :=
| ST_Move (t : SignedTransaction)
| ST_Smr (t : SmrSigned).
Context (smr_from : SupraTransaction → SmrTransaction).
(** [TransactionVerifier::verify] against the Move store: the error is its text. *)
Context (verify : MoveStore → SmrTransaction → outcome string unit) (join_error : string).
(** The client of the validators, and the texts of the errors. *)
Context (rpc_send : SmrTransaction → M Net Dispatcher.RpcClientError unit).
Context (debug_rpc_client : Dispatcher.RpcClientError → string).
Context (show_backlog_error : BacklogError → string).
Local Open Scope rust_scope.

(** The parts of the node a submission changes. *)
Record Node := {
  n_limiter : option (bool * RestCallLimiter Cache Strategy);
  n_storage : Storage.RpcStorage SmrTransaction Hash;
  n_net : Net;
}.

Definition set_storage (st : Storage.RpcStorage SmrTransaction Hash) (n : Node) : Node :=
  {| n_limiter := n_limiter n; n_storage := st; n_net := n_net n |}.
Definition set_net (w : Net) (n : Node) : Node :=
  {| n_limiter := n_limiter n; n_storage := n_storage n; n_net := w |}.
Definition set_limiter (l : option (bool * RestCallLimiter Cache Strategy)) (n : Node) : Node :=
  {| n_limiter := l; n_storage := n_storage n; n_net := n_net n |}.

Definition map_dispatch_error (e : TransactionDispatchError BacklogError)
    : TransactionDispatchError string :=
  match e with
  | ConsumptionError c => ConsumptionError (show_backlog_error c)
  | DispatchFatal c => DispatchFatal (show_backlog_error c)
  end.

Definition storage_consumer : Dispatcher.Consumer Node SmrTransaction string :=
  λ txn, rzoom n_storage set_storage map_dispatch_error (Storage.consume txn).

Definition client_consumer : Dispatcher.Consumer Node SmrTransaction string :=
  λ txn, rzoom n_net set_net (λ e, e) (Dispatcher.consume_rpc_client rpc_send debug_rpc_client txn).

Definition txn_sender : Dispatcher.TransactionDispatcher Node SmrTransaction string :=
  Dispatcher.register_consumer client_consumer
    (Dispatcher.register_consumer storage_consumer {| Dispatcher.consumers := [] |}).

Definition limit_of (t : SupraTransaction) : Instance_ :=
  match t with
  | ST_Move t => LI_Account (move_sender t)
  | ST_Smr t => LI_PublicKey (smr_signer t)
  end.

(** The lock of the limiter may be poisoned; [now1] and [now2] are readings
    of the clock. *)
Definition limit_submission (t : SupraTransaction) (now1 now2 : Instant) : M Node Error unit :=
  λ n,
    match n_limiter n with
    | None => (n, Ok tt)
    | Some (true, _) =>
        (n, Err (E_Other (anyhow "PoisonError while holding lock RootStateCache")))
    | Some (false, l) =>
        let (l', o) := Rest.register should_allow (limit_of t) now1 now2 l in
        (set_limiter (Some (false, l')) n, omap_err E_TooManyRequests o)
    end.

(** The blocking task of the verification, once joined. *)
Definition verify_submission (ms : MoveStore) (smr_tx : SmrTransaction) : outcome Error unit :=
  match verify ms smr_tx with
  | Ok u => Ok u
  | Err e => Err (E_BadTransactionRequest e)
  | Panic => Err (E_Other (anyhow ("Transaction validation task failed: " +:+ join_error)))
  end.

Definition submit_txn (ms : MoveStore) (supra_tx : SupraTransaction) (now1 now2 : Instant)
    : M Node Error Hash :=
  limit_submission supra_tx now1 now2 ;;
  let smr_tx := smr_from supra_tx in
  rlift (verify_submission ms smr_tx) ;;
  rzoom (λ n, n) (λ n _, n) E_TransactionAcceptStatus
    (Dispatcher.send tx_digest txn_sender smr_tx).

Context {laws : StorageLaws SmrTransaction Hash}.

(** The limiter lets the sender of the transaction through. *)
Definition admitted (t : SupraTransaction) (now1 now2 : Instant) (n : Node) : bool :=
  match n_limiter n with
  | None => true
  | Some (true, _) => false
  | Some (false, l) => is_ok (Rest.register should_allow (limit_of t) now1 now2 l).2
  end.

(** What the limiter is after a call for the sender of the transaction. *)
Definition registered (t : SupraTransaction) (now1 now2 : Instant) (n : Node)
    : option (bool * RestCallLimiter Cache Strategy) :=
  match n_limiter n with
  | Some (false, l) => Some (false, (Rest.register should_allow (limit_of t) now1 now2 l).1)
  | l => l
  end.

Lemma limit_submission_spec t now1 now2 n n' o :
  limit_submission t now1 now2 n = (n', o) →
  n' = set_limiter (registered t now1 now2 n) n ∧ is_ok o = admitted t now1 now2 n.
Proof.
  unfold limit_submission, registered, admitted.
  destruct n as [[[[] l]|] st w]; simpl; [by intros [= <- <-]| |by intros [= <- <-]].
  destruct (Rest.register _ _ _ _ l) as [l' r]. intros [= <- <-]. split; [done|]. by destruct r.
Qed.

Lemma limit_submission_keeps t now1 now2 n n' o :
  limit_submission t now1 now2 n = (n', o) → n_storage n' = n_storage n ∧ n_net n' = n_net n.
Proof. by intros [-> _]%limit_submission_spec. Qed.

(** C16 What a submission leaves behind.  Whatever happens, the limiter has registered a
    call for the sender.  If the limiter or the verifier turns the transaction down, the
    answer is an error and neither the storage nor the validators see it.  If it is
    acknowledged, the answer is its digest and it was sent to the validators.  Whenever
    the validators were contacted at all, the sender was admitted, the transaction was
    verified and stored first, and the node reports it as pending, even when the
    submission is then answered with an error. *)
Theorem submit_stores_before_sending ms t now1 now2 n n' o :
  submit_txn ms t now1 now2 n = (n', o) →
  let tx := smr_from t in
  let passed := admitted t now1 now2 n = true ∧ verify ms tx = Ok tt in
  n_limiter n' = registered t now1 now2 n ∧
  (is_ok o = false ∧ n_storage n' = n_storage n ∧ n_net n' = n_net n ∨
   passed ∧ (Storage.consume tx (n_storage n)).1 = n_storage n') ∧
  (n_net n' ≠ n_net n ∨ is_ok o = true →
     passed ∧ n_net n' = (rpc_send tx (n_net n)).1 ∧
     Storage.get_transaction_by_hash (n_storage n') (tx_digest tx) = Ok (Some tx) ∧
     Storage.get_transaction_status (n_storage n') (tx_digest tx) = Ok (Some St_Pending)) ∧
  (∀ h, o = Ok h → h = tx_digest tx ∧ (rpc_send tx (n_net n)).2 = Ok tt).
Proof.
  cbv zeta. unfold submit_txn, rthen, rlift, verify_submission.
  destruct (limit_submission t now1 now2 n) as [n1 [[]|e|]] eqn:Hl;
    apply limit_submission_spec in Hl as [Hlim <-];
    assert (n_storage n1 = n_storage n ∧ n_net n1 = n_net n ∧ n_limiter n1 = registered t now1 now2 n)
      as (Hs & Hn & <-) by (by subst); clear Hlim.
  2,3: intros [= <- <-]; split_and!; [done|by left|by intros [?|?]|done].
  destruct (verify ms (smr_from t)) as [[]|e|] eqn:Hv.
  2,3: intros [= <- <-]; split_and!; [done|by left|by intros [?|?]|done].
  rewrite <-Hs, <-Hn. clear n Hs Hn. set (tx := smr_from t) in *.
  unfold rzoom, Dispatcher.send, txn_sender, Dispatcher.register_consumer. simpl.
  unfold storage_consumer, client_consumer, rthen, rzoom, Dispatcher.consume_rpc_client.
  unfold Storage.consume.
  destruct (backlog_insert tx (Storage.backlog (n_storage n1))) as [b [[]|e|]] eqn:Hb; simpl.
  2,3: intros [= <- <-]; simpl; split_and!; [done|by right|by intros [?|?]|done].
  unfold Storage.get_transaction_by_hash, Storage.get_transaction_status.
  destruct (rpc_send tx (n_net n1)) as [w [[]|e|]] eqn:Hw; simpl;
    intros [= <- <-]; simpl; rewrite (backlog_insert_get _ _ _ Hb);
    (split_and!; [done|by right|done|]); by intros h [= <-].
Qed.
End submit.
End Submit.
