(* ===== verification/Router.v ===== *)
(** * Routes of the node ([src/rpc_node/src/rest/router/])

    The handlers with the method and the path of their attributes, the scopes they
    are registered in, and the scope of the whole API.  The web framework is a
    parameter: it answers a request as its documentation says, with the first
    registered scope whose prefix begins the path, the middleware of this scope,
    and in it the first registered handler whose method and pattern match. *)

From S2P Require Import Prelude Urls Authorization ApiState.
From stdpp Require Import base tactics option list strings.
From Stdlib Require Import ZArith Lia Ascii.
Local Open Scope Z_scope.

Inductive Method : Type := GET | POST.
Inductive Version : Type := Rest_v1 | Rest_v2 | Rest_v3.

(** The modules of a version of the API. *)
Inductive ApiModule : Type :=
| Api_accounts | Api_block | Api_consensus | Api_events
| Api_resources | Api_transactions | Api_view | Api_wallet.

#[export] Instance Method_eq_dec : EqDecision Method.
Proof. solve_decision. Defined.
#[export] Instance Version_eq_dec : EqDecision Version.
Proof. solve_decision. Defined.
#[export] Instance ApiModule_eq_dec : EqDecision ApiModule.
Proof. solve_decision. Defined.

(** A handler is named by its path below [rest::api]. *)
Record Handler := {
  in_version : Version;
  in_module : ApiModule;
  fn_name : string;
}.
#[export] Instance Handler_eq_dec : EqDecision Handler.
Proof. solve_decision. Defined.

(** A handler with the method and the path of its [web] attribute, and those of
    its OpenAPI attribute. *)
Record Service := {
  handler : Handler;
  method : Method;
  path : string;
  doc_method : Method;
  doc_path : string;
}.

Definition service (v : Version) (api : ApiModule) (name : string) (m : Method) (p : string)
    (dm : Method) (dp : string) : Service :=
  {| handler := {| in_version := v; in_module := api; fn_name := name |};
     method := m; path := p; doc_method := dm; doc_path := dp |}.

(** ** Handlers *)
Module v1.
Definition get_account_v1 : Service :=
  service Rest_v1 Api_accounts "get_account_v1" GET "/{address}" GET "/rpc/v1/accounts/{address}".
Definition get_account_resources_v1 : Service :=
  service Rest_v1 Api_accounts "get_account_resources_v1" GET "/{address}/resources" GET "/rpc/v1/accounts/{address}/resources".
Definition get_account_resource_v1 : Service :=
  service Rest_v1 Api_accounts "get_account_resource_v1" GET "/{address}/resources/{resource_type}" GET "/rpc/v1/accounts/{address}/resources/{resource_type}".
Definition get_account_modules_v1 : Service :=
  service Rest_v1 Api_accounts "get_account_modules_v1" GET "/{address}/modules" GET "/rpc/v1/accounts/{address}/modules".
Definition get_account_module_v1 : Service :=
  service Rest_v1 Api_accounts "get_account_module_v1" GET "/{address}/modules/{module_name}" GET "/rpc/v1/accounts/{address}/modules/{module_name}".
Definition get_account_transactions_v1 : Service :=
  service Rest_v1 Api_accounts "get_account_transactions_v1" GET "/{address}/transactions" GET "/rpc/v1/accounts/{address}/transactions".
Definition coin_transactions_v1 : Service :=
  service Rest_v1 Api_accounts "coin_transactions_v1" GET "/{address}/coin_transactions" GET "/rpc/v1/accounts/{address}/coin_transactions".
Definition latest_block : Service :=
  service Rest_v1 Api_block "latest_block" GET "" GET "/rpc/v1/block".
Definition block_header_info : Service :=
  service Rest_v1 Api_block "block_header_info" GET "/{block_hash}" GET "/rpc/v1/block/{block_hash}".
Definition block_by_height : Service :=
  service Rest_v1 Api_block "block_by_height" GET "/height/{height}" GET "/rpc/v1/block/height/{height}".
Definition txs_by_block : Service :=
  service Rest_v1 Api_block "txs_by_block" GET "/{block_hash}/transactions" GET "/rpc/v1/block/{block_hash}/transactions".
Definition consensus_block : Service :=
  service Rest_v1 Api_consensus "consensus_block" GET "/block/height/{height}" GET "/rpc/v1/consensus/block/height/{height}".
Definition events_by_type : Service :=
  service Rest_v1 Api_events "events_by_type" GET "/{event_type}" GET "/rpc/v1/events/{event_type}".
Definition table_item_by_key : Service :=
  service Rest_v1 Api_resources "table_item_by_key" POST "/{table_handle}/item" POST "/rpc/v1/tables/{table_handle}/item".
Definition chain_id : Service :=
  service Rest_v1 Api_transactions "chain_id" GET "/chain_id" GET "/rpc/v1/transactions/chain_id".
Definition estimate_gas_price : Service :=
  service Rest_v1 Api_transactions "estimate_gas_price" GET "/estimate_gas_price" GET "/rpc/v1/transactions/estimate_gas_price".
Definition transaction_by_hash : Service :=
  service Rest_v1 Api_transactions "transaction_by_hash" GET "/{hash}" GET "/rpc/v1/transactions/{hash}".
Definition submit_txn : Service :=
  service Rest_v1 Api_transactions "submit_txn" POST "/submit" POST "/rpc/v1/transactions/submit".
Definition simulate_txn : Service :=
  service Rest_v1 Api_transactions "simulate_txn" POST "/simulate" POST "/rpc/v1/transactions/simulate".
Definition transaction_parameters : Service :=
  service Rest_v1 Api_transactions "transaction_parameters" GET "/parameters" GET "/rpc/v1/transactions/parameters".
Definition view_function : Service :=
  service Rest_v1 Api_view "view_function" POST "" POST "/rpc/v1/view".
Definition faucet : Service :=
  service Rest_v1 Api_wallet "faucet" GET "/{address}" GET "/rpc/v1/wallet/faucet/{address}".
Definition faucet_transaction_by_hash : Service :=
  service Rest_v1 Api_wallet "faucet_transaction_by_hash" GET "/transactions/{hash}" GET "/rpc/v1/wallet/faucet/transactions/{hash}".
End v1.

Module v2.
Definition get_account_v2 : Service :=
  service Rest_v2 Api_accounts "get_account_v2" GET "/{address}" GET "/rpc/v2/accounts/{address}".
Definition get_account_resources_v2 : Service :=
  service Rest_v2 Api_accounts "get_account_resources_v2" GET "/{address}/resources" GET "/rpc/v2/accounts/{address}/resources".
Definition get_account_resource_v2 : Service :=
  service Rest_v2 Api_accounts "get_account_resource_v2" GET "/{address}/resources/{resource_type}" GET "/rpc/v2/accounts/{address}/resources/{resource_type}".
Definition get_account_module_v2 : Service :=
  service Rest_v2 Api_accounts "get_account_module_v2" GET "/{address}/modules/{module_name}" GET "/rpc/v2/accounts/{address}/modules/{module_name}".
Definition get_account_modules_v2 : Service :=
  service Rest_v2 Api_accounts "get_account_modules_v2" GET "/{address}/modules" GET "/rpc/v2/accounts/{address}/modules".
Definition get_account_transactions_v2 : Service :=
  service Rest_v2 Api_accounts "get_account_transactions_v2" GET "/{address}/transactions" GET "/rpc/v2/accounts/{address}/transactions".
Definition coin_transactions_v2 : Service :=
  service Rest_v2 Api_accounts "coin_transactions_v2" GET "/{address}/coin_transactions" GET "/rpc/v2/accounts/{address}/coin_transactions".
Definition latest_block : Service :=
  service Rest_v2 Api_block "latest_block" GET "" GET "/rpc/v2/block".
Definition block_header_info : Service :=
  service Rest_v2 Api_block "block_header_info" GET "/{block_hash}" GET "/rpc/v2/block/{block_hash}".
Definition block_by_height : Service :=
  service Rest_v2 Api_block "block_by_height" GET "/height/{height}" GET "/rpc/v2/block/height/{height}".
Definition consensus_block : Service :=
  service Rest_v2 Api_consensus "consensus_block" GET "/block/height/{height}" GET "/rpc/v2/consensus/block/height/{height}".
Definition latest_consensus_block : Service :=
  service Rest_v2 Api_consensus "latest_consensus_block" GET "/block" GET "/rpc/v2/consensus/block".
Definition committee_authorization : Service :=
  service Rest_v2 Api_consensus "committee_authorization" GET "/committee_authorization/{epoch}" GET "/rpc/v2/consensus/committee_authorization/{epoch}".
Definition table_item_by_key : Service :=
  service Rest_v2 Api_resources "table_item_by_key" POST "/{table_handle}/item" POST "/rpc/v2/tables/{table_handle}/item".
Definition estimate_gas_price : Service :=
  service Rest_v2 Api_transactions "estimate_gas_price" GET "/estimate_gas_price" GET "/rpc/v2/transactions/estimate_gas_price".
Definition transaction_by_hash : Service :=
  service Rest_v2 Api_transactions "transaction_by_hash" GET "/{hash}" GET "/rpc/v2/transactions/{hash}".
Definition simulate_txn : Service :=
  service Rest_v2 Api_transactions "simulate_txn" POST "/simulate" POST "/rpc/v2/transactions/simulate".
Definition view_function : Service :=
  service Rest_v2 Api_view "view_function" POST "" POST "/rpc/v2/view".
Definition faucet_transaction_by_hash : Service :=
  service Rest_v2 Api_wallet "faucet_transaction_by_hash" GET "/transactions/{hash}" GET "/rpc/v2/wallet/faucet/transactions/{hash}".
End v2.

Module v3.
Definition get_account_transactions_v3 : Service :=
  service Rest_v3 Api_accounts "get_account_transactions_v3" GET "/{address}/transactions" GET "/rpc/v3/accounts/{address}/transactions".
Definition get_account_automated_transactions_v3 : Service :=
  service Rest_v3 Api_accounts "get_account_automated_transactions_v3" GET "/{address}/automated_transactions" GET "/rpc/v3/accounts/{address}/automated_transactions".
Definition coin_transactions_v3 : Service :=
  service Rest_v3 Api_accounts "coin_transactions_v3" GET "/{address}/coin_transactions" GET "/rpc/v3/accounts/{address}/coin_transactions".
Definition get_account_resources_v3 : Service :=
  service Rest_v3 Api_accounts "get_account_resources_v3" GET "/{address}/resources" GET "/rpc/v3/accounts/{address}/resources".
Definition get_account_modules_v3 : Service :=
  service Rest_v3 Api_accounts "get_account_modules_v3" GET "/{address}/modules" GET "/rpc/v3/accounts/{address}/modules".
Definition latest_block : Service :=
  service Rest_v3 Api_block "latest_block" GET "" GET "/rpc/v3/block".
Definition block_info_by_hash : Service :=
  service Rest_v3 Api_block "block_info_by_hash" GET "/{block_hash}" GET "/rpc/v3/block/{block_hash}".
Definition block_by_height : Service :=
  service Rest_v3 Api_block "block_by_height" GET "/height/{height}" GET "/rpc/v3/block/height/{height}".
Definition txs_by_block : Service :=
  service Rest_v3 Api_block "txs_by_block" GET "/{block_hash}/transactions" GET "/rpc/v3/block/{block_hash}/transactions".
Definition events_by_type : Service :=
  service Rest_v3 Api_events "events_by_type" GET "/{event_type}" GET "/rpc/v3/events/{event_type}".
Definition transaction_by_hash : Service :=
  service Rest_v3 Api_transactions "transaction_by_hash" GET "/{hash}" GET "/rpc/v3/transactions/{hash}".
End v3.
(** ** Scopes *)

(** [authorization] holds the tokens of the [Authorization] a scope is wrapped
    with, [json_limit] the limit of its [JsonConfig]. *)
Record Scope (Token : Type) := {
  prefix : string;
  json_limit : option Z;
  authorization : option (list Token);
  services : list Service;
}.
Arguments prefix {Token}.
Arguments json_limit {Token}.
Arguments authorization {Token}.
Arguments services {Token}.

(** The outer scope holds scopes. *)
Record Root (Token : Type) := {
  root_prefix : string;
  scopes : list (Scope Token);
}.
Arguments root_prefix {Token}.
Arguments scopes {Token}.

Module Routes.
Section routes.
Context {Token : Type}.
Notation Scope := (Scope Token).

Definition scope (p : string) (l : list Service) : Scope :=
  {| prefix := p; json_limit := None; authorization := None; services := l |}.
Definition limit (n : Z) (s : Scope) : Scope :=
  {| prefix := prefix s; json_limit := Some n; authorization := authorization s;
     services := services s |}.
Definition wrap (tokens : list Token) (s : Scope) : Scope :=
  {| prefix := prefix s; json_limit := json_limit s; authorization := Some tokens;
     services := services s |}.

Definition account_route_v1 : Scope :=
  scope "/v1/accounts"
    [v1.get_account_v1; v1.get_account_resources_v1; v1.get_account_modules_v1;
     v1.get_account_resource_v1; v1.get_account_module_v1; v1.get_account_transactions_v1;
     v1.coin_transactions_v1].
Definition account_route_v2 : Scope :=
  scope "/v2/accounts"
    [v2.get_account_v2; v2.get_account_resource_v2; v2.get_account_resources_v2;
     v2.get_account_module_v2; v2.get_account_modules_v2; v2.get_account_transactions_v2;
     v2.coin_transactions_v2].
Definition account_route_v3 : Scope :=
  scope "/v3/accounts"
    [v3.get_account_transactions_v3; v3.get_account_automated_transactions_v3;
     v3.coin_transactions_v3; v3.get_account_resources_v3; v3.get_account_modules_v3;
     v2.get_account_v2; v2.get_account_resource_v2; v2.get_account_module_v2].

Definition block_route_v1 : Scope :=
  scope "/v1/block" [v1.latest_block; v1.block_header_info; v1.txs_by_block; v1.block_by_height].
Definition block_route_v2 : Scope :=
  scope "/v2/block" [v2.latest_block; v2.block_header_info; v2.block_by_height].
Definition block_route_v3 : Scope :=
  scope "/v3/block" [v3.block_by_height; v3.txs_by_block; v3.latest_block; v3.block_info_by_hash].

Definition consensus_route_v1 (consensus_authz_tokens : list Token) : Scope :=
  wrap consensus_authz_tokens (scope "/v1/consensus" [v1.consensus_block]).
Definition consensus_route_v2 (consensus_authz_tokens : list Token) : Scope :=
  wrap consensus_authz_tokens
    (scope "/v2/consensus"
       [v2.consensus_block; v2.latest_consensus_block; v2.committee_authorization]).
Definition consensus_route_v3 (consensus_authz_tokens : list Token) : Scope :=
  wrap consensus_authz_tokens
    (scope "/v3/consensus"
       [v2.consensus_block; v2.latest_consensus_block; v2.committee_authorization]).

Definition events_route_v1 : Scope := scope "/v1/events" [v1.events_by_type].
Definition events_route_v3 : Scope := scope "/v3/events" [v3.events_by_type].

Definition tables_route_v1 : Scope := scope "/v1/tables" [v1.table_item_by_key].
Definition tables_route_v2 : Scope := scope "/v2/tables" [v2.table_item_by_key].
Definition tables_route_v3 : Scope := scope "/v3/tables" [v2.table_item_by_key].

Definition MAX_PAYLOAD_SIZE : Z := 5000000.

Definition transaction_route_v1 : Scope :=
  limit MAX_PAYLOAD_SIZE (scope "/v1/transactions"
    [v1.chain_id; v1.transaction_parameters; v1.estimate_gas_price; v1.submit_txn; v1.simulate_txn;
     v1.transaction_by_hash]).
Definition transaction_route_v2 : Scope :=
  limit MAX_PAYLOAD_SIZE (scope "/v2/transactions"
    [v2.estimate_gas_price; v2.simulate_txn; v1.chain_id; v1.submit_txn; v2.transaction_by_hash]).
Definition transaction_route_v3 : Scope :=
  limit MAX_PAYLOAD_SIZE (scope "/v3/transactions"
    [v2.estimate_gas_price; v2.simulate_txn; v1.chain_id; v1.transaction_parameters;
     v1.submit_txn; v3.transaction_by_hash]).

Definition view_function_route_v1 : Scope := scope "/v1/view" [v1.view_function].
Definition view_function_route_v2 : Scope := scope "/v2/view" [v2.view_function].
Definition view_function_route_v3 : Scope := scope "/v3/view" [v2.view_function].

Definition wallet_route_v1 : Scope :=
  scope "/v1/wallet/faucet" [v1.faucet; v1.faucet_transaction_by_hash].
Definition wallet_route_v2 : Scope :=
  scope "/v2/wallet/faucet" [v2.faucet_transaction_by_hash].
Definition wallet_route_v3 : Scope :=
  scope "/v3/wallet/faucet" [v2.faucet_transaction_by_hash; v1.faucet].

Definition rest_root_route `{ApiOps} (state : Api.ApiServerState)
    (consensus_authz_tokens : list Token) : Root Token :=
  let is_faucet_enabled := Api.is_faucet_enabled state in
  {| root_prefix := "/rpc";
     scopes :=
       (if is_faucet_enabled then [wallet_route_v1; wallet_route_v2; wallet_route_v3] else [])
       ++ [account_route_v1; transaction_route_v1; block_route_v1; view_function_route_v1;
           events_route_v1; tables_route_v1; consensus_route_v1 consensus_authz_tokens]
       ++ [account_route_v2; transaction_route_v2; block_route_v2; view_function_route_v2;
           tables_route_v2; consensus_route_v2 consensus_authz_tokens]
       ++ [account_route_v3; block_route_v3; transaction_route_v3; events_route_v3;
           view_function_route_v3; tables_route_v3; consensus_route_v3 consensus_authz_tokens] |}.
End routes.
End Routes.

(** ** The documented matching *)
Module Matching.
Section matching.
Context {Digest IpAddr : Type} `{EqDecision Digest} `{EqDecision IpAddr}.
Context (digest : string → Digest).
Notation Token := (KycToken Digest IpAddr).

Definition segments (p : string) : list string :=
  List.filter (λ s, negb (String.eqb s "")) (Authorization.split "/"%char p).

(** A segment [{name}] of a pattern matches every segment of the path. *)
Definition is_param (seg : string) : bool := String.prefix "{" seg.

Fixpoint pattern_matches (pattern segs : list string) : bool :=
  match pattern, segs with
  | [], [] => true
  | seg :: pattern', s :: segs' =>
      pattern_matches pattern' segs' && (is_param seg || String.eqb seg s)
  | _, _ => false
  end.

Fixpoint strip_prefix (p l : list string) : option (list string) :=
  match p, l with
  | [], _ => Some l
  | x :: p', y :: l' => if String.eqb x y then strip_prefix p' l' else None
  | _ :: _, [] => None
  end.

(** The first scope whose prefix begins the path, with the rest of the path. *)
Fixpoint find_scope (l : list (Scope Token)) (segs : list string) : option (Scope Token * list string) :=
  match l with
  | [] => None
  | s :: l' => match strip_prefix (segments (prefix s)) segs with
               | Some rest => Some (s, rest)
               | None => find_scope l' segs
               end
  end.

Definition accepts (m : Method) (segs : list string) (svc : Service) : bool :=
  bool_decide (method svc = m) && pattern_matches (segments (path svc)) segs.

Inductive Response : Type :=
| NotFound
| AuthRefused (status : StatusCode)
| Handled (h : Handler).

Definition handled (o : option Service) : Response :=
  match o with Some svc => Handled (handler svc) | None => NotFound end.

(** A wrapped scope asks its middleware before a handler is looked for. *)
Definition answer (s : Scope Token) (m : Method) (segs : list string) (req : WebRequest IpAddr)
    : Response :=
  let o := List.find (accepts m segs) (services s) in
  match authorization s with
  | Some tokens => match Auth.call digest tokens req with
                   | Refused status => AuthRefused status
                   | Forwarded => handled o
                   end
  | None => handled o
  end.

Definition first_match (root : Root Token) (m : Method) (segs : list string)
    (req : WebRequest IpAddr) : Response :=
  match strip_prefix (segments (root_prefix root)) segs with
  | Some segs' => match find_scope (scopes root) segs' with
                  | Some (s, rest) => answer s m rest req
                  | None => NotFound
                  end
  | None => NotFound
  end.

Fixpoint path_of (segs : list string) : string :=
  match segs with
  | [] => ""
  | s :: segs' => "/" +:+ s +:+ path_of segs'
  end.
End matching.
End Matching.

(** The web framework. *)
Class Ntex (Token Req : Type) : Type := {
  respond : Root Token → Method → string → Req → Matching.Response;
}.
(** Its documented behaviour.  A path is matched with its segments decoded; and
    whatever the path is, a handler is only called as a service of the scope it is
    registered in, behind the middleware of this scope. *)
Class NtexLaws {Digest IpAddr : Type} `{EqDecision Digest} `{EqDecision IpAddr}
    (digest : string → Digest) `{!Ntex (KycToken Digest IpAddr) (WebRequest IpAddr)} : Prop := {
  respond_first_match root m raws req :
    forallb Urls.raw_segment raws = true →
    respond root m (Matching.path_of raws) req
    = Matching.first_match digest root m (Urls.decode <$> raws) req;
  respond_registered root m path req h :
    respond root m path req = Matching.Handled h →
    ∃ s svc, s ∈ scopes root ∧ svc ∈ services s ∧ h = handler svc ∧
      ∀ tokens, authorization s = Some tokens → Auth.call digest tokens req = Forwarded;
}.

(** ** Which handler answers *)
Module Reach.
Import Matching Routes.
Section tables.

Fixpoint diverge (p q : list string) : bool :=
  match p, q with
  | x :: p', y :: q' => negb (String.eqb x y) || diverge p' q'
  | _, _ => false
  end.

Fixpoint pairwise {A} (f : A → A → bool) (l : list A) : bool :=
  match l with
  | [] => true
  | x :: l' => forallb (f x) l' && pairwise f l'
  end.

(** No path matches both patterns if the parameters of the second are none of the
    words of the first. *)
Fixpoint apart (e p : list string) : bool :=
  match e, p with
  | x :: e', y :: p' =>
      negb (is_param x) && (is_param y || negb (String.eqb x y)) || apart e' p'
  | _, _ => false
  end.

Definition same_shape (svc e : Service) : bool :=
  bool_decide (method e = method svc)
  && (length (segments (path e)) =? length (segments (path svc)))%nat.

Definition not_shadowed (e svc : Service) : bool :=
  negb (same_shape svc e) || apart (segments (path e)) (segments (path svc)).

(** The patterns registered before a handler that may match its paths. *)
Definition shadowing (before : list Service) (svc : Service) : list (list string) :=
  (λ e, segments (path e)) <$> List.filter (same_shape svc) before.

(** The paths of a pattern: in place of a parameter is any text but the words the
    earlier patterns have there. *)
Definition words (earlier : list (list string)) : list string :=
  List.filter (λ x, negb (is_param x)) (omap head earlier).

Fixpoint fits (earlier : list (list string)) (p segs : list string) : Prop :=
  match p, segs with
  | [], [] => True
  | y :: p', s :: segs' =>
      (if is_param y then s ∉ words earlier else s = y) ∧ fits (tail <$> earlier) p' segs'
  | _, _ => False
  end.

Lemma pairwise_middle {A} (f : A → A → bool) before x after :
  pairwise f (before ++ x :: after) = true → ∀ y, y ∈ before → f y x = true.
Proof.
  induction before as [|b before IH]; simpl; [by intros _ y ?%elem_of_nil|].
  intros [Hb Hp]%andb_prop y [->|Hy]%elem_of_cons; [|by apply IH].
  rewrite forallb_forall in Hb. apply Hb, in_or_app. right. by left.
Qed.

Lemma strip_prefix_app p l : strip_prefix p (p ++ l) = Some l.
Proof. induction p as [|x p IH]; simpl; [done|]. by rewrite String.eqb_refl. Qed.

Lemma strip_prefix_diverge p q l : diverge p q = true → strip_prefix p (q ++ l) = None.
Proof.
  revert q. induction p as [|x p IH]; intros [|y q]; simpl; try done.
  destruct (String.eqb x y); simpl; [apply IH|done].
Qed.

Lemma fits_matches earlier p segs : fits earlier p segs → pattern_matches p segs = true.
Proof.
  revert earlier segs. induction p as [|y p IH]; intros earlier [|s segs]; simpl; try done.
  intros [Hs Hf]. rewrite (IH _ _ Hf). simpl.
  destruct (is_param y); [done|]. by rewrite Hs, String.eqb_refl.
Qed.

Lemma pattern_matches_length p segs : pattern_matches p segs = true → length p = length segs.
Proof.
  revert segs. induction p as [|y p IH]; intros [|s segs]; simpl; try done.
  intros [H _]%andb_prop. by rewrite (IH _ H).
Qed.

Lemma fits_apart earlier p segs e :
  fits earlier p segs → e ∈ earlier → apart e p = true → pattern_matches e segs = false.
Proof.
  revert earlier segs e. induction p as [|y p IH]; intros earlier [|s segs] [|x e]; simpl; try done.
  intros [Hs Hf] He. destruct (apart e p) eqn:Ha.
  - intros _. rewrite (IH (tail <$> earlier) segs e Hf); [done| |done].
    apply list_elem_of_fmap. by exists (x :: e).
  - rewrite orb_false_r. destruct (is_param x) eqn:Hxp; [done|]. simpl. intros Hx.
    destruct (String.eqb_spec x s) as [<-|]; [|apply andb_false_r]. exfalso.
    destruct (is_param y); simpl in Hx.
    + apply Hs. apply list_elem_of_In, filter_In. split; [|by rewrite Hxp].
      apply list_elem_of_In, list_elem_of_omap. by exists (x :: e).
    + rewrite Hs, String.eqb_refl in Hx. done.
Qed.

Lemma find_service before svc after segs :
  pairwise not_shadowed (before ++ svc :: after) = true →
  fits (shadowing before svc) (segments (path svc)) segs →
  List.find (accepts (method svc) segs) (before ++ svc :: after) = Some svc.
Proof.
  intros Hpair Hfits. pose proof (fits_matches _ _ _ Hfits) as Hm.
  assert (∀ e, e ∈ before → accepts (method svc) segs e = false) as Hbefore.
  { intros e He. pose proof (pairwise_middle _ _ _ _ Hpair e He) as Hn.
    unfold not_shadowed in Hn. unfold accepts.
    destruct (same_shape svc e) eqn:Hshape; simpl in Hn.
    - rewrite (fits_apart _ _ _ (segments (path e)) Hfits); [apply andb_false_r| |done].
      apply list_elem_of_fmap. exists e. split; [done|].
      by apply list_elem_of_In, filter_In; split; [apply list_elem_of_In|].
    - unfold same_shape in Hshape. case_bool_decide; [|done]. simpl in Hshape |- *.
      apply not_true_is_false. intros Hp%pattern_matches_length.
      apply pattern_matches_length in Hm. apply Nat.eqb_neq in Hshape. congruence. }
  clear Hpair Hfits. induction before as [|b before IH]; simpl.
  - unfold accepts. by rewrite bool_decide_true, Hm.
  - rewrite Hbefore by left. apply IH. intros e He. apply Hbefore. by right.
Qed.
End tables.

Section reach.
Context {Digest IpAddr : Type} `{EqDecision Digest} `{EqDecision IpAddr}.
Context (digest : string → Digest).
Context `{!Ntex (KycToken Digest IpAddr) (WebRequest IpAddr)} `{!NtexLaws digest} `{ApiOps}.
Notation Token := (KycToken Digest IpAddr).
Implicit Types (root : Root Token) (s : Scope Token) (tokens : list Token).

(** A word that is sent as it is. *)
Definition is_word (w : string) : bool := Urls.raw_segment w && String.eqb (Urls.decode w) w.

Definition table_apart root : bool :=
  pairwise diverge ((λ s, segments (prefix s)) <$> scopes root)
  && forallb (λ s, pairwise not_shadowed (services s)) (scopes root)
  && forallb (λ s, forallb is_word (segments (prefix s))) (scopes root).

Lemma root_apart state tokens : table_apart (rest_root_route state tokens) = true.
Proof. unfold rest_root_route. destruct (Api.is_faucet_enabled state); vm_compute; reflexivity. Qed.

Lemma find_scope_at (l : list (Scope Token)) s rest :
  pairwise diverge ((λ s, segments (prefix s)) <$> l) = true → s ∈ l →
  find_scope l (segments (prefix s) ++ rest) = Some (s, rest).
Proof.
  induction l as [|x l IH]; simpl; [by intros _ ?%elem_of_nil|].
  intros [Hx Hp]%andb_prop Hs. apply elem_of_cons in Hs as [->|Hs].
  { by rewrite strip_prefix_app. }
  rewrite strip_prefix_diverge; [by apply IH|].
  rewrite forallb_forall in Hx. apply Hx, list_elem_of_In, list_elem_of_fmap. by exists s.
Qed.

(** What a scope answers for one of its handlers. *)
Definition answers s (svc : Service) (req : WebRequest IpAddr) : Response :=
  match authorization s with
  | Some tokens => match Auth.call digest tokens req with
                   | Refused status => AuthRefused status
                   | Forwarded => Handled (handler svc)
                   end
  | None => Handled (handler svc)
  end.

Lemma words_raw l :
  forallb is_word l = true → forallb Urls.raw_segment l = true ∧ Urls.decode <$> l = l.
Proof.
  unfold is_word. induction l as [|w l IH]; csimpl; [done|].
  intros [[Hr Hd]%andb_prop Hl]%andb_prop. destruct (IH Hl) as [-> ->]. rewrite Hr.
  by apply String.eqb_eq in Hd as ->.
Qed.

Lemma service_answers root s before svc after raws req :
  table_apart root = true → segments (root_prefix root) = ["rpc"] →
  s ∈ scopes root → services s = before ++ svc :: after →
  fits (shadowing before svc) (segments (path svc)) (Urls.decode <$> raws) →
  forallb Urls.raw_segment raws = true →
  respond root (method svc) (path_of ("rpc" :: segments (prefix s) ++ raws)) req = answers s svc req.
Proof.
  intros [[Hsc Hsv]%andb_prop Hpl]%andb_prop Hroot Hs Hservices Hfits Hraw.
  destruct (words_raw _ (forallb_elem _ _ _ Hpl Hs)) as [Hwr Hwd].
  rewrite respond_first_match by (cbn [forallb]; by rewrite forallb_app, Hwr, Hraw).
  rewrite fmap_cons, fmap_app, Hwd. change (Urls.decode "rpc") with "rpc".
  unfold first_match. rewrite Hroot. simpl. rewrite (find_scope_at _ _ _ Hsc Hs).
  pose proof (forallb_elem _ _ _ Hsv Hs) as Hnot. cbv beta in Hnot. rewrite Hservices in Hnot.
  unfold answer, answers. by rewrite Hservices, (find_service _ _ _ _ Hnot Hfits).
Qed.

(** C18 No handler is hidden by another one: a request for a path of a registered
    handler, below its scope and with its method, is answered by this handler,
    after the check of the tokens if the scope is wrapped.  The path has non-empty
    segments, percent-encoded where necessary, that fit the pattern of the handler;
    for a parameter it has, decoded, any text that is not a word which a handler
    of the same method and length that is registered earlier in the scope has at this
    position. *)
Theorem every_service_answers state tokens s before svc after raws req :
  s ∈ scopes (rest_root_route state tokens) → services s = before ++ svc :: after →
  fits (shadowing before svc) (segments (path svc)) (Urls.decode <$> raws) →
  forallb Urls.raw_segment raws = true →
  respond (rest_root_route state tokens) (method svc)
    (path_of ("rpc" :: segments (prefix s) ++ raws)) req = answers s svc req.
Proof. apply service_answers; [apply root_apart|reflexivity]. Qed.

Definition guarded (faucet : bool) s : bool :=
  forallb (λ svc, match in_module (handler svc) with
                  | Api_consensus => bool_decide (is_Some (authorization s))
                  | Api_wallet => faucet
                  | _ => true
                  end) (services s).

Lemma root_guarded state tokens s :
  s ∈ scopes (rest_root_route state tokens) →
  guarded (Api.is_faucet_enabled state) s = true ∧
  (authorization s = None ∨ authorization s = Some tokens).
Proof.
  intros Hs. split.
  - revert s Hs. apply Forall_forall. unfold rest_root_route.
    destruct (Api.is_faucet_enabled state); repeat (constructor; [vm_compute; reflexivity|]);
      constructor.
  - revert s Hs. apply Forall_forall. unfold rest_root_route.
    destruct (Api.is_faucet_enabled state); simpl;
      repeat (constructor; [(by left) || (by right)|]); constructor.
Qed.

(** C19 Whatever path is requested with whatever method, data of the consensus is only
    served to a request with one of the configured tokens, and the faucet only by a
    node on which it is enabled. *)
Theorem protected_services state tokens m p req h :
  respond (rest_root_route state tokens) m p req = Handled h →
  (in_module h = Api_consensus → Auth.call digest tokens req = Forwarded) ∧
  (in_module h = Api_wallet → Api.is_faucet_enabled state = true).
Proof.
  intros (s & svc & Hs & Hsvc & -> & Hauth)%respond_registered.
  destruct (root_guarded _ _ _ Hs) as [Hg Htok].
  pose proof (forallb_elem _ _ _ Hg Hsvc) as Hone. cbv beta in Hone.
  split; intros Hmod; rewrite Hmod in Hone; [|done].
  apply bool_decide_eq_true in Hone as [ts Hts]. apply Hauth.
  destruct Htok as [Hn|?]; [by rewrite Hn in Hts|done].
Qed.

(** Every registered handler is also registered at the path and with the method
    that its OpenAPI attribute documents. *)
Definition documented root (svc : Service) : bool :=
  existsb (λ s, existsb (λ svc', bool_decide (handler svc' = handler svc)
                   && bool_decide (method svc' = doc_method svc)
                   && String.eqb (root_prefix root +:+ prefix s +:+ path svc') (doc_path svc))
                  (services s)) (scopes root).

Theorem documented_paths_registered state tokens s svc :
  s ∈ scopes (rest_root_route state tokens) → svc ∈ services s →
  documented (rest_root_route state tokens) svc = true.
Proof.
  assert (forallb (λ s, forallb (documented (rest_root_route state tokens)) (services s))
            (scopes (rest_root_route state tokens)) = true) as Hall.
  { unfold rest_root_route. destruct (Api.is_faucet_enabled state); vm_compute; reflexivity. }
  intros Hs Hsvc. exact (forallb_elem _ _ _ (forallb_elem _ _ _ Hall Hs) Hsvc).
Qed.
End reach.
End Reach.
