(* ===== verification/Server.v ===== *)
(** * The transaction service of the node

    [src/rpc_node/src/rest/api/v1/transactions.rs], [v2/transactions.rs] and
    [v3/transactions.rs] over one node: the handlers of a transaction scope share the
    storage, the limiter of the submissions, the statistics of the gas prices and the
    counter of the simulations.  The handlers of [Handlers] are composed with
    the parts they call, and a result is answered as the framework does. *)

From S2P Require Import Prelude Gas Limiters Transactions ApiState Interleaving Handlers.
From stdpp Require Import base tactics option list gmap strings.
From Stdlib Require Import ZArith Lia.
Import ApiErr Api Controllers Rest_Handlers Submit.
Local Open Scope Z_scope.

(** What the service uses of the other crates. *)
Class ServiceEnv `{HandlerOps} : Type := {
  (** The limiter of the submissions. *)
  LAccount : Type;
  LPublicKey : Type;
  LByte : Type;
  Instant : Type;
  Cache : Type;
  Strategy : Type;
  #[global] service_cache :: LruCache (LimitInstance LAccount LPublicKey LByte) Instant Cache;
  should_allow : Strategy → LimitInstance LAccount LPublicKey LByte → option Instant → Duration + unit;
  (** Transactions of the users. *)
  SignedTransaction : Type;
  SmrSigned : Type;
  move_sender : SignedTransaction → LAccount;
  smr_signer : SmrSigned → LPublicKey;
  smr_from : @SupraTransaction SignedTransaction SmrSigned → SmrTransaction;
  verify : MoveStore → SmrTransaction → outcome string unit;
  join_error : string;
  (** The client of the validators. *)
  Net : Type;
  rpc_send : SmrTransaction → M Net Dispatcher.RpcClientError unit;
  debug_rpc_client : Dispatcher.RpcClientError → string;
  show_backlog_error : BacklogError → string;
  (** Simulation. *)
  verify_signature : SignedTransaction → bool;
  simulate : SignedTransaction → MoveStore → SerializedOutput;
  smr_move_txn : SignedTransaction → SmrMoveTransaction;
  smr_digest : SmrMoveTransaction → Hash;
  (** Gas prices. *)
  TransactionKind : Type;
  #[global] kind_dec :: EqDecision TransactionKind;
  #[global] kind_countable :: Countable TransactionKind;
  MoveVm : TransactionKind;
}.

Section data.
Context `{ServiceEnv}.

Notation Transaction := (@SupraTransaction SignedTransaction SmrSigned).

(** The node: the state of the handlers, whose storage the submissions change, and
    what is behind its handles: the limiter with whether its lock is poisoned, the
    validators, the gas prices, and the counter of the simulations. *)
Record TxNode := {
  tn_state : ApiServerState;
  tn_limiter : option (bool * RestCallLimiter Cache Strategy);
  tn_net : Net;
  tn_gas : GasMonitor TransactionKind;
  tn_simulations : Z;
}.

(** The requests after the framework has extracted their parameters. *)
Inductive TxRequest : Type :=
| Req_ChainId
| Req_Parameters
| Req_GasPrice_v1
| Req_GasPrice_v2
| Req_Submit (t : Transaction) (now1 now2 : Instant)
| Req_Simulate_v1 (t : Transaction)
| Req_Simulate_v2 (t : Transaction)
| Req_ByHash_v1 (h : Hash)
| Req_ByHash_v2 (h : Hash)
| Req_ByHash_v3 (h : Hash) (typ : option TransactionType).

Record TransactionParameters := { max_transaction_time_to_live_seconds : Z }.

Inductive TxReply : Type :=
| Rep_ChainId (c : ChainId)
| Rep_Parameters (p : TransactionParameters)
| Rep_GasPrice_v1 (p : GasPriceRes)
| Rep_GasPrice_v2 (p : GasPriceResV2)
| Rep_Hash (h : Hash)
| Rep_Info_v1 (i : option TransactionInfoV1)
| Rep_Simulation_v1 (i : TransactionInfoV1)
| Rep_Info_v2 (i : TransactionInfoV2)
| Rep_Transaction_v3 (c : ChainId) (t : TransactionV3).
End data.

(** ** The handlers *)
Module Service.
Section service.
Context `{ServiceEnv}.
Local Open Scope rust_scope.
Notation Transaction := (@SupraTransaction SignedTransaction SmrSigned).
Notation Run := (M TxNode Error).

(** A handler that only reads the state. *)
Definition reading {A} (f : ApiServerState → outcome Error A) : Run A :=
  λ n, (n, f (tn_state n)).

Definition get_chain_id (s : ApiServerState) : outcome Error ChainId := Ok (chain_id s).

Definition transaction_parameters (s : ApiServerState) : outcome Error TransactionParameters :=
  Ok {| max_transaction_time_to_live_seconds := Storage.get_max_tx_ttl_secs (storage s) |}.

(** The statistics of Move transactions are expected to be there. *)
Definition estimate_gas_price_v1 : Run GasPriceRes :=
  λ n, (n, expect (gas_price_res <$> Monitor.statistics MoveVm (tn_gas n))).
Definition estimate_gas_price_v2 : Run GasPriceResV2 :=
  λ n, (n, expect (gas_price_res_v2 <$> Monitor.statistics MoveVm (tn_gas n))).

(** The part of the node a submission works on. *)
Definition with_storage (st : Storage.RpcStorage SmrTransaction Hash) (s : ApiServerState)
    : ApiServerState :=
  {| storage := st; move_store := move_store s; store := store s; tx_sender := tx_sender s;
     gas_price_reader := gas_price_reader s; rest_call_limiter := rest_call_limiter s;
     faucet_state := faucet_state s; chain_id := chain_id s |}.

Definition node_of (n : TxNode) : Submit.Node :=
  {| n_limiter := tn_limiter n; n_storage := storage (tn_state n); n_net := tn_net n |}.
Definition set_node_of (m : Submit.Node) (n : TxNode) : TxNode :=
  {| tn_state := with_storage (n_storage m) (tn_state n); tn_limiter := n_limiter m;
     tn_net := n_net m; tn_gas := tn_gas n; tn_simulations := tn_simulations n |}.

Definition submit (t : Transaction) (now1 now2 : Instant) : Run Hash :=
  λ n, rzoom node_of set_node_of id
         (submit_txn should_allow move_sender smr_signer smr_from verify join_error rpc_send
            debug_rpc_client show_backlog_error (move_store (tn_state n)) t now1 now2) n.

Definition set_simulations (c : Z) (n : TxNode) : TxNode :=
  {| tn_state := tn_state n; tn_limiter := tn_limiter n; tn_net := tn_net n; tn_gas := tn_gas n;
     tn_simulations := c |}.

Definition simulate_txn_v2 (req : Transaction) : Run TransactionInfoV2 :=
  match req with
  | ST_Smr _ =>
      rfail (E_BadTransactionRequest "Only move transaction simulation is supported for now")
  | ST_Move txn =>
      λ n, rzoom tn_simulations set_simulations E_PublicApiServerError
             (run_move_transaction_simulation verify_signature simulate smr_move_txn smr_digest
                join_error (tn_state n) txn) n
  end.

Definition simulate_txn_v1 (req : Transaction) : Run TransactionInfoV1 :=
  info <- simulate_txn_v2 req ;; rret (info_v1 info).

(** The handler of each request. *)
Definition run (req : TxRequest) : Run TxReply :=
  match req with
  | Req_ChainId => c <- reading get_chain_id ;; rret (Rep_ChainId c)
  | Req_Parameters => p <- reading transaction_parameters ;; rret (Rep_Parameters p)
  | Req_GasPrice_v1 => p <- estimate_gas_price_v1 ;; rret (Rep_GasPrice_v1 p)
  | Req_GasPrice_v2 => p <- estimate_gas_price_v2 ;; rret (Rep_GasPrice_v2 p)
  | Req_Submit t now1 now2 => h <- submit t now1 now2 ;; rret (Rep_Hash h)
  | Req_Simulate_v1 t => i <- simulate_txn_v1 t ;; rret (Rep_Simulation_v1 i)
  | Req_Simulate_v2 t => i <- simulate_txn_v2 t ;; rret (Rep_Info_v2 i)
  | Req_ByHash_v1 h => i <- reading (λ s, transaction_by_hash_v1 s h) ;; rret (Rep_Info_v1 i)
  | Req_ByHash_v2 h => i <- reading (λ s, transaction_by_hash_v2 s h) ;; rret (Rep_Info_v2 i)
  | Req_ByHash_v3 h typ =>
      r <- reading (λ s, transaction_by_hash_v3 s h typ) ;; rret (Rep_Transaction_v3 r.1 r.2)
  end.

(** [Json] answers with 200, an error with its status and an [ErrResp]; a panic has
    no answer. *)
Definition respond_with (encode : TxReply → string) (encode_error : ErrResp → string)
    (o : outcome Error TxReply) : option (Z * string) :=
  match o with
  | Ok reply => Some (200, encode reply)
  | Err e =>
      let response := error_response e in
      Some (he_status response, encode_error {| message := he_message response |})
  | Panic => None
  end.

(** What happens to the node: a request, or the executor has executed a block,
    stores it, publishes the gas prices and leaves a new Move store, or it stores
    data of automation tasks. *)
Inductive Event : Type :=
| Client (req : TxRequest)
| Executed (block : Block) (prices : list Z) (ms : MoveStore)
| Tasks (tasks : list AutomationTask).

Definition set_executed (st : Storage.RpcStorage SmrTransaction Hash) (ms : MoveStore)
    (g : GasMonitor TransactionKind) (n : TxNode) : TxNode :=
  let s := tn_state n in
  {| tn_state := {| storage := st; move_store := ms; store := store s; tx_sender := tx_sender s;
                    gas_price_reader := gas_price_reader s;
                    rest_call_limiter := rest_call_limiter s; faucet_state := faucet_state s;
                    chain_id := chain_id s |};
     tn_limiter := tn_limiter n; tn_net := tn_net n; tn_gas := g;
     tn_simulations := tn_simulations n |}.

Definition executed (block : Block) (prices : list Z) (ms : MoveStore) : Run unit :=
  st <- rgets (λ n, Storage.insert_executed_block block (storage (tn_state n))) ;;
  gas <- rgets tn_gas ;;
  gas' <- rlift (Monitor.push_gas_price MoveVm prices gas) ;;
  rmodify (set_executed st ms gas').

Definition set_storage (st : Storage.RpcStorage SmrTransaction Hash) (n : TxNode) : TxNode :=
  {| tn_state := with_storage st (tn_state n); tn_limiter := tn_limiter n; tn_net := tn_net n;
     tn_gas := tn_gas n; tn_simulations := tn_simulations n |}.

Definition happens (e : Event) : Run (option TxReply) :=
  match e with
  | Client req => reply <- run req ;; rret (Some reply)
  | Executed block prices ms => executed block prices ms ;; rret None
  | Tasks tasks =>
      rzoom (λ n, storage (tn_state n)) set_storage E_Archive
        (Storage.insert_automation_task_data tasks) ;;
      rret None
  end.

Fixpoint session (es : list Event) (n : TxNode) : TxNode * list (outcome Error (option TxReply)) :=
  match es with
  | [] => (n, [])
  | e :: es' =>
      let (n1, o) := happens e n in
      let (n2, os) := session es' n1 in (n2, o :: os)
  end.

(** ** What a session has shown *)

Definition prices_of (es : list Event) : list (list Z) :=
  omap (λ e, match e with Executed _ prices _ => Some prices | _ => None end) es.

Definition blocks_of (es : list Event) : list Block :=
  omap (λ e, match e with Executed block _ _ => Some block | _ => None end) es.

(** The archive after the events. *)
Definition archived (es : list Event) (a : Archive) : Archive :=
  foldl (λ a e, match e with
                | Client _ => a
                | Executed block _ _ => archive_insert_block block a
                | Tasks tasks => (archive_insert_tasks tasks a).1
                end) a es.

Definition simulated (e : Event) : option SignedTransaction :=
  match e with
  | Client (Req_Simulate_v1 (ST_Move t)) | Client (Req_Simulate_v2 (ST_Move t)) => Some t
  | _ => None
  end.

Definition refused : Error := E_PublicApiServerError {| public_inner := TooManyConcurrentSimulations |}.

(** A simulation that was tried and answered with an error. *)
Definition failed_simulation (e : Event) (o : outcome Error (option TxReply)) : bool :=
  match simulated e, o with
  | Some _, Err (E_PublicApiServerError {| public_inner := TooManyConcurrentSimulations |}) => false
  | Some _, Ok _ => false
  | Some _, _ => true
  | None, _ => false
  end.

Fixpoint failed_simulations (es : list Event) (os : list (outcome Error (option TxReply))) : Z :=
  match es, os with
  | e :: es', o :: os' => (if failed_simulation e o then 1 else 0) + failed_simulations es' os'
  | _, _ => 0
  end.

Definition simulation_of (s : ApiServerState) (t : SignedTransaction) : outcome Error TransactionInfoV2 :=
  omap_err E_PublicApiServerError
    (simulation_joined verify_signature simulate smr_move_txn smr_digest join_error s t).

Definition is_submission (req : TxRequest) : bool :=
  match req with Req_Submit _ _ _ => true | _ => false end.

(** *** Lemmas *)

Lemma reading_run {A} (f : ApiServerState → outcome Error A) (k : A → TxReply) n :
  (a <- reading f ;; rret (k a)) n = (n, omap_ok k (f (tn_state n))).
Proof. unfold reading, rthen, rret. by destruct (f (tn_state n)). Qed.

(** A request that is not a submission changes the counter of the simulations only. *)
Lemma run_keeps req n :
  is_submission req = false → ∃ c, (run req n).1 = set_simulations c n.
Proof.
  assert (n = set_simulations (tn_simulations n) n) as Hn by by destruct n.
  destruct req; try done; intros _; unfold run; rewrite ?reading_run; try by eexists.
  1,2: unfold estimate_gas_price_v1, estimate_gas_price_v2, rthen, rret;
    destruct (expect _); by eexists.
  all: unfold simulate_txn_v1, simulate_txn_v2, rthen, rret, rfail; destruct t as [t|t];
    [|by eexists]; unfold rzoom;
    destruct (run_move_transaction_simulation _ _ _ _ _ _ _ _) as [c []]; by eexists.
Qed.

Lemma simulation_not_refused s t : simulation_of s t ≠ Err refused.
Proof.
  unfold simulation_of, simulation_joined, simulation_task, refused, public.
  destruct (verify_signature t); simpl; [done|].
  unfold move_transaction_info, api_move_transaction_output, convert_to_api_move_transaction_output.
  destruct (try_into_transaction_payload _ _); simpl; try done.
  destruct (as_move _); simpl; try done. by destruct (try_into_events _ _).
Qed.

Lemma simulation_answered s t : simulation_of s t ≠ Panic.
Proof.
  unfold simulation_of, simulation_joined. by destruct (simulation_task _ _ _ _ _ _).
Qed.

(** A simulation by either version. *)
Lemma simulate_run n t :
  0 ≤ tn_simulations n ≤ MAX_CONCURRENCY →
  simulate_txn_v2 (ST_Move t) n =
  if tn_simulations n =? MAX_CONCURRENCY then (n, Err refused)
  else (set_simulations (tn_simulations n + if is_ok (simulation_of (tn_state n) t) then 0 else 1) n,
        simulation_of (tn_state n) t).
Proof.
  intros Hc. unfold simulate_txn_v2, rzoom. rewrite simulation_step by done.
  destruct (Z.eqb_spec (tn_simulations n) MAX_CONCURRENCY) as [He|Hne].
  - by destruct n.
  - unfold simulation_of, failing. 
    by destruct (simulation_joined _ _ _ _ _ _ _); simpl; rewrite ?Z.add_0_r.
Qed.

Local Arguments failed_simulation : simpl never.

Lemma failed_err e t err :
  simulated e = Some t → err ≠ refused → failed_simulation e (Err err) = true.
Proof.
  unfold failed_simulation, refused. intros -> Hne.
  destruct err as [| | | | | | | | | | | | |[[]]| | | | | | | | | | | | |]; done.
Qed.

Lemma failed_ok e r : failed_simulation e (Ok r) = false.
Proof. unfold failed_simulation. by destruct (simulated e). Qed.

Lemma failed_refused e : failed_simulation e (Err refused) = false.
Proof. unfold failed_simulation. by destruct (simulated e). Qed.

(** Both versions of a simulation run the same code. *)
Lemma simulate_happens e t n :
  simulated e = Some t →
  ∃ k : TransactionInfoV2 → TxReply,
    happens e n = ((simulate_txn_v2 (ST_Move t) n).1,
                   omap_ok (λ i, Some (k i)) (simulate_txn_v2 (ST_Move t) n).2).
Proof.
  destruct e as [[| | | | |[]|[]| | |]| |]; intros [= ->];
    [exists (λ i, Rep_Simulation_v1 (info_v1 i))|exists Rep_Info_v2];
    unfold happens, run, simulate_txn_v1, rthen, rret; by destruct (simulate_txn_v2 _ n) as [? []].
Qed.

(** The tried simulations that were answered with an error hold their permits. *)
Lemma happens_simulations e n n' o :
  0 ≤ tn_simulations n ≤ MAX_CONCURRENCY → happens e n = (n', o) →
  tn_simulations n' = tn_simulations n + (if failed_simulation e o then 1 else 0) ∧
  0 ≤ tn_simulations n' ≤ MAX_CONCURRENCY.
Proof.
  intros Hc. destruct (simulated e) as [t|] eqn:Hs.
  - destruct (simulate_happens e t n Hs) as [k ->]. rewrite simulate_run by done.
    pose proof (simulation_not_refused (tn_state n) t) as Hr.
    pose proof (simulation_answered (tn_state n) t) as Hp.
    destruct (Z.eqb_spec (tn_simulations n) MAX_CONCURRENCY); intros [= <- <-]; simpl.
    { rewrite failed_refused. lia. }
    destruct (simulation_of (tn_state n) t) as [i|err|]; simpl; [rewrite failed_ok; lia| |done].
    rewrite (failed_err e t) by congruence. lia.
  - intros Hh. unfold failed_simulation. rewrite Hs, Z.add_0_r.
    assert (tn_simulations n' = tn_simulations n) as ->; [|lia].
    revert Hh. destruct e as [req|block prices ms|tasks]; unfold happens.
    + destruct req; unfold run; unfold rthen at 1; rewrite ?reading_run;
        unfold estimate_gas_price_v1, estimate_gas_price_v2, submit, simulate_txn_v1,
          simulate_txn_v2, rthen, rret, rfail, rzoom;
        repeat case_match; intros; simplify_eq/=; done.
    + unfold executed, rthen, rgets, rlift, rmodify, rret.
      by destruct (Monitor.push_gas_price _ _ _); intros [= <- <-].
    + unfold rthen, rzoom, rret.
      by destruct (Storage.insert_automation_task_data _ _) as [? []]; intros [= <- <-].
Qed.

(** A submission changes the backlog of the storage only, and an acknowledged
    one is in it under its digest. *)
Lemma submit_run `{!StorageLaws SmrTransaction Hash} t now1 now2 n n' o :
  submit t now1 now2 n = (n', o) →
  tn_gas n' = tn_gas n ∧
  (∃ b, tn_state n' = with_storage {| Storage.archive := Storage.archive (storage (tn_state n));
                                      Storage.backlog := b |} (tn_state n)) ∧
  ∀ h, o = Ok h → h = tx_digest (smr_from t) ∧
    backlog_get h (Storage.backlog (storage (tn_state n'))) = Some (smr_from t).
Proof.
  unfold submit, rzoom, submit_txn, rthen, rlift, verify_submission.
  destruct (limit_submission _ _ _ t now1 now2 (node_of n)) as [m [[]|e|]] eqn:Hl;
    apply limit_submission_keeps in Hl as [Hs _]; simpl in Hs;
    [destruct (verify _ _) as [[]|e|]|..].
  2-5: intros [= <- <-]; cbn [set_node_of tn_state tn_gas]; rewrite Hs; split_and!;
    [done|eexists (Storage.backlog (storage (tn_state n))); by destruct (storage (tn_state n))|done].
  unfold rzoom, Dispatcher.send, txn_sender, Dispatcher.register_consumer. simpl.
  unfold storage_consumer, client_consumer, rthen, rzoom, Dispatcher.consume_rpc_client.
  unfold Storage.consume. rewrite Hs. simpl.
  destruct (backlog_insert (smr_from t) _) as [b [[]|e|]] eqn:Hb; simpl.
  2,3: intros [= <- <-]; simpl; split_and!; [done|by eexists|done].
  apply backlog_insert_get in Hb.
  destruct (rpc_send (smr_from t) _) as [w [[]|e|]]; simpl; intros [= <- <-]; simpl;
    (split_and!; [done|by eexists|]); intros h [= <-]; done.
Qed.

(** The errors of the service are answered with the status of an error. *)
Lemma error_status (e : Error) : (∀ err code, e ≠ E_Swagger err code) → 400 ≤ status_code e < 600.
Proof.
  intros Hno. destruct e as [| | | | | | |err code| | | | | |[[]]| | | | | | | | | | | | |];
    try (by destruct (Hno err code)); done.
Qed.

Lemma submit_error_status t now1 now2 n n' e :
  submit t now1 now2 n = (n', Err e) → 400 ≤ status_code e < 600.
Proof.
  intros Hs. apply error_status. intros err code ->. revert Hs.
  unfold submit, rzoom, submit_txn, rthen, rlift, verify_submission, limit_submission.
  destruct (n_limiter (node_of n)) as [[[] l]|]; [done| |].
  1: destruct (Rest.register _ _ _ _ l) as [l' [[]|d|]]; simpl; [|done..].
  all: destruct (verify _ _); simpl; [|done..].
  all: unfold rzoom; destruct (Dispatcher.send _ _ _ _) as [m [h|d|]]; done.
Qed.

Section session.
Context `{!StorageLaws SmrTransaction Hash}.

Lemma client_happens req n n' o :
  happens (Client req) n = (n', o) →
  tn_gas n' = tn_gas n ∧ chain_id (tn_state n') = chain_id (tn_state n) ∧
  Storage.archive (storage (tn_state n')) = Storage.archive (storage (tn_state n)).
Proof.
  unfold happens, rthen at 1, rret. destruct (run req n) as [n1 o1] eqn:Hr.
  intros Hh. assert (n' = n1) as -> by (destruct o1; congruence).
  destruct (is_submission req) eqn:Hs.
  - destruct req; try done. unfold run, rthen in Hr.
    destruct (submit t now1 now2 n) as [n2 o2] eqn:Hsub.
    apply submit_run in Hsub as (Hg & [b Hst] & _).
    assert (n1 = n2) as -> by (destruct o2; unfold rret in Hr; congruence).
    by rewrite Hst.
  - destruct (run_keeps req n Hs) as [c Hc]. rewrite Hr in Hc. simpl in Hc. by subst.
Qed.

(** A block is archived, and its prices slide the window of the gas prices. *)
Lemma executed_happens block prices ms n c w B :
  (0 < c)%nat → price_bound c B → monitor_inv MoveVm c w B (tn_gas n) →
  Forall (λ v, 0 ≤ v ≤ B) prices →
  ∃ n', happens (Executed block prices ms) n = (n', Ok None) ∧
    monitor_inv MoveVm c (slide w prices) B (tn_gas n') ∧
    chain_id (tn_state n') = chain_id (tn_state n) ∧
    Storage.archive (storage (tn_state n'))
      = archive_insert_block block (Storage.archive (storage (tn_state n))).
Proof.
  intros Hc HB Hm Hp. unfold happens, executed, rthen, rgets, rlift, rmodify, rret.
  destruct (push_gas_price_correct (E:=Error) MoveVm c w B (tn_gas n) prices Hc HB Hm Hp)
    as (g & -> & Hg).
  by eexists.
Qed.

Lemma tasks_happens tasks n n' o :
  happens (Tasks tasks) n = (n', o) →
  tn_gas n' = tn_gas n ∧ chain_id (tn_state n') = chain_id (tn_state n) ∧
  Storage.archive (storage (tn_state n'))
    = (archive_insert_tasks tasks (Storage.archive (storage (tn_state n)))).1.
Proof.
  unfold happens, rthen, rzoom, rret, Storage.insert_automation_task_data.
  by destruct (archive_insert_tasks _ _) as [a []]; intros [= <- <-].
Qed.

Lemma session_inv c B es n n' os w :
  (0 < c)%nat → price_bound c B → Forall (λ v, 0 ≤ v ≤ B) (concat (prices_of es)) →
  monitor_inv MoveVm c w B (tn_gas n) → 0 ≤ tn_simulations n ≤ MAX_CONCURRENCY →
  session es n = (n', os) →
  monitor_inv MoveVm c (slide w (concat (prices_of es))) B (tn_gas n') ∧
  tn_simulations n' = tn_simulations n + failed_simulations es os ∧
  0 ≤ tn_simulations n' ≤ MAX_CONCURRENCY ∧
  chain_id (tn_state n') = chain_id (tn_state n) ∧
  Storage.archive (storage (tn_state n')) = archived es (Storage.archive (storage (tn_state n))).
Proof.
  intros Hc HB. revert n os w. induction es as [|e es IH]; intros n os w Hall Hm Hsim; simpl.
  { intros [= <- <-]. unfold slide. simpl. rewrite app_nil_r. split_and!; (done || lia). }
  destruct (happens e n) as [n1 o] eqn:Hh. destruct (session es n1) as [n2 os'] eqn:Hs.
  intros [= <- <-]. destruct (happens_simulations e n n1 o Hsim Hh) as [Hc1 Hb1]. simpl.
  destruct e as [req|block prices ms|tasks]; simpl in Hall |- *.
  - destruct (client_happens req n n1 o Hh) as (Hg & Hid & Ha). rewrite <-Hg in Hm.
    destruct (IH n1 os' w Hall Hm Hb1 Hs) as (? & ? & ? & ? & ?).
    rewrite <-Ha, <-Hid. split_and!; (done || lia).
  - apply Forall_app in Hall as [Hp Hall].
    destruct (executed_happens block prices ms n c w B Hc HB Hm Hp) as (n1' & Hh' & Hm1 & Hid & Ha).
    rewrite Hh in Hh'. injection Hh' as <- ->.
    destruct (IH n1 os' _ Hall Hm1 Hb1 Hs) as (Hm2 & ? & ? & ? & ?).
    rewrite slide_slide in Hm2. rewrite <-Ha, <-Hid. rewrite failed_ok in Hc1.
    split_and!; (done || lia).
  - destruct (tasks_happens tasks n n1 o Hh) as (Hg & Hid & Ha). rewrite <-Hg in Hm.
    change (failed_simulation (Tasks tasks) o) with false in Hc1. simpl in Hc1.
    destruct (IH n1 os' w Hall Hm Hb1 Hs) as (? & ? & ? & ? & ?).
    rewrite <-Ha, <-Hid. split_and!; (done || lia).
Qed.

Lemma estimates_run c w B n :
  monitor_inv MoveVm c w B (tn_gas n) →
  ∃ st, stats_of w st ∧
    run Req_GasPrice_v1 n = (n, Ok (Rep_GasPrice_v1 (gas_price_res st))) ∧
    run Req_GasPrice_v2 n = (n, Ok (Rep_GasPrice_v2 (gas_price_res_v2 st))).
Proof.
  intros (m & st & _ & Hcell & _ & _ & Hst). exists st. split; [done|].
  unfold run, estimate_gas_price_v1, estimate_gas_price_v2, rthen, rret, Monitor.statistics.
  rewrite Hcell, lookup_singleton_eq. by destruct st.
Qed.

Lemma simulations_run n t :
  0 ≤ tn_simulations n ≤ MAX_CONCURRENCY →
  let o := if tn_simulations n <? MAX_CONCURRENCY
           then simulation_of (tn_state n) t else Err refused in
  (run (Req_Simulate_v1 (ST_Move t)) n).2 = omap_ok (λ i, Rep_Simulation_v1 (info_v1 i)) o ∧
  (run (Req_Simulate_v2 (ST_Move t)) n).2 = omap_ok Rep_Info_v2 o.
Proof.
  intros Hb. unfold run, simulate_txn_v1, rthen, rret. rewrite simulate_run by done.
  destruct (Z.eqb_spec (tn_simulations n) MAX_CONCURRENCY),
    (Z.ltb_spec (tn_simulations n) MAX_CONCURRENCY); try lia; simpl; [done|].
  by destruct (simulation_of (tn_state n) t).
Qed.

(** C7 What the service answers after any session: any requests by clients in any
    order, and any blocks executed and task data stored in between, from the start of the node on.  The
    estimates of both versions are the mean, the maximum and the median of the last
    1000 published Move gas prices, the minimum price standing for those before
    the first; a simulation is answered with the outcome of the simulation at the
    present state until 512 simulations have been answered with an error, and refused
    from then on; the archive has exactly the executed blocks and the stored task
    data, in their order, and the chain identifier is the one the node started with.
    The published prices are below a bound [B] with which neither the sum of 1000 of them
    nor its rounding overflows 64 bits. *)
Theorem session_answers B es n0 n os :
  Monitor.gas_monitor (E:=Error) MoveVm = Ok (tn_gas n0) → tn_simulations n0 = 0 →
  price_bound MAX_GAS_HISTORY B → MVM_MIN_GAS_UNIT_PRICE ≤ B →
  Forall (λ v, 0 ≤ v ≤ B) (concat (prices_of es)) →
  session es n0 = (n, os) →
  (∃ st, stats_of (slide (replicate MAX_GAS_HISTORY MVM_MIN_GAS_UNIT_PRICE)
                     (concat (prices_of es))) st ∧
     run Req_GasPrice_v1 n = (n, Ok (Rep_GasPrice_v1 (gas_price_res st))) ∧
     run Req_GasPrice_v2 n = (n, Ok (Rep_GasPrice_v2 (gas_price_res_v2 st)))) ∧
  (∀ t, let o := if failed_simulations es os <? MAX_CONCURRENCY
                 then simulation_of (tn_state n) t else Err refused in
     (run (Req_Simulate_v1 (ST_Move t)) n).2 = omap_ok (λ i, Rep_Simulation_v1 (info_v1 i)) o ∧
     (run (Req_Simulate_v2 (ST_Move t)) n).2 = omap_ok Rep_Info_v2 o) ∧
  Storage.archive (storage (tn_state n)) = archived es (Storage.archive (storage (tn_state n0))) ∧
  run Req_ChainId n = (n, Ok (Rep_ChainId (chain_id (tn_state n0)))).
Proof.
  intros Hg Hz HB Hmin Hall Hs.
  destruct (gas_monitor_correct (E:=Error) MoveVm B HB Hmin) as (g & Hg' & Hm).
  rewrite Hg in Hg'. injection Hg' as <-.
  assert (0 < MAX_GAS_HISTORY)%nat as Hc by (apply Nat.ltb_lt; reflexivity).
  revert Hm Hc HB. clear Hg. generalize MAX_GAS_HISTORY as c. intros c Hm Hc HB.
  destruct (session_inv c B es n0 n os _ Hc HB Hall Hm ltac:(rewrite Hz; done) Hs)
    as (Hg & Hsim & Hb & Hid & Ha).
  rewrite Hz, Z.add_0_l in Hsim. split; [by apply (estimates_run c _ B)|].
  split; [rewrite <-Hsim; intros t; by apply simulations_run|]. split; [done|].
  unfold run. rewrite reading_run. simpl. by rewrite Hid.
Qed.

(** The lookups of a pending transaction. *)
Definition pending_info (s : ApiServerState) (tx : SmrTransaction) : outcome Error TransactionInfoV2 :=
  omap_err E_PublicApiServerError
    (public (create_transaction_info s (tx_digest tx) tx None St_Pending None)).

Lemma pending_lookups s tx :
  backlog_get (tx_digest tx) (Storage.backlog (storage s)) = Some tx →
  transaction_by_hash_v1 s (tx_digest tx) = omap_ok (λ i, Some (info_v1 i)) (pending_info s tx) ∧
  transaction_by_hash_v2 s (tx_digest tx) = pending_info s tx ∧
  ∀ typ, typ = None ∨ typ = Some User →
    transaction_by_hash_v3 s (tx_digest tx) typ
    = omap_ok (λ i, (chain_id s, txn_from_info i)) (pending_info s tx).
Proof.
  intros Hb. set (h := tx_digest tx) in *.
  assert (get_user_transaction_by_hash_internal s h true
          = omap_ok Some (create_transaction_info s h tx None St_Pending None)) as Hu.
  { unfold get_user_transaction_by_hash_internal, get_transient_transaction_by_hash_internal.
    unfold Storage.get_transaction_by_hash, Storage.get_transaction_status. by rewrite Hb. }
  pose proof (create_info_found s h tx None St_Pending None) as Hf. unfold not_found in Hf.
  unfold transaction_by_hash_v1, transaction_by_hash_v2, transaction_by_hash_v3, lookup_transaction.
  unfold get_transaction_by_hash, get_transaction_by_hash_internal, get_user_transaction_by_hash.
  rewrite Hu. unfold pending_info, public, api. fold h.
  destruct (create_transaction_info s h tx None St_Pending None) as [i|e|]; simpl.
  - split_and!; [done..|]. by intros typ [-> | ->].
  - split_and!; [|done|].
    + destruct e; try done. by destruct Hf; eexists.
    + intros typ [-> | ->]; [|done]. destruct e; try done. by destruct Hf; eexists.
  - split_and!; [done..|]. by intros typ [-> | ->].
Qed.

Lemma pending_info_fields s tx :
  match pending_info s tx with
  | Ok i => info_hash i = tx_digest tx ∧ info_status i = St_Pending ∧
            info_block i = None ∧ info_output i = None
  | Err e => 400 ≤ status_code e < 600
  | Panic => create_transaction_info s (tx_digest tx) tx None St_Pending None = Panic
  end.
Proof.
  unfold pending_info, public.
  destruct (create_transaction_info _ _ _ _ _ _) as [i|e|] eqn:Hc; simpl; [|by destruct e|done].
  destruct (create_info_fields _ _ _ _ _ _ _ Hc) as (? & ? & ? & Hout).
  split_and!; [done..|by apply Hout].
Qed.

(** After an acknowledged submission the transaction is pending. *)
Lemma submit_pending t now1 now2 n n1 reply :
  run (Req_Submit t now1 now2) n = (n1, Ok reply) →
  let tx := smr_from t in
  reply = Rep_Hash (tx_digest tx) ∧
  backlog_get (tx_digest tx) (Storage.backlog (storage (tn_state n1))) = Some tx ∧
  pending_info (tn_state n1) tx = pending_info (tn_state n) tx ∧
  chain_id (tn_state n1) = chain_id (tn_state n).
Proof.
  unfold run, rthen, rret. destruct (submit t now1 now2 n) as [n' [h'|e|]] eqn:Hs; intros; simplify_eq.
  apply submit_run in Hs as (_ & [b Hst] & Hh). destruct (Hh _ eq_refl) as [-> Hb].
  split_and!; [done|done| |by rewrite Hst]. rewrite Hst. by destruct (smr_from t).
Qed.

(** The requests of other clients. *)
Fixpoint serve (reqs : list TxRequest) (n : TxNode) : TxNode :=
  match reqs with [] => n | req :: reqs' => serve reqs' (run req n).1 end.

Lemma serve_keeps reqs n :
  Forall (λ req, is_submission req = false) reqs → tn_state (serve reqs n) = tn_state n.
Proof.
  revert n. induction reqs as [|req reqs IH]; intros n Hall; [done|]. simpl.
  apply Forall_cons in Hall as [Hreq Hall]. rewrite IH by done.
  by destruct (run_keeps req n Hreq) as [c ->].
Qed.

(** A transaction whose submission is acknowledged can be looked up at once.  The
    acknowledgement is the digest of the transaction, and after any further
    requests, short of another submission or a block, the lookups of all three
    versions find the transaction with the status pending, without a block or an
    output; if its description cannot be built, all three answer with the same error. *)
Theorem acknowledged_is_visible t now1 now2 n n1 reply reqs :
  run (Req_Submit t now1 now2) n = (n1, Ok reply) →
  Forall (λ req, is_submission req = false) reqs →
  let tx := smr_from t in
  let h := tx_digest tx in
  let n2 := serve reqs n1 in
  let o := pending_info (tn_state n) tx in
  reply = Rep_Hash h ∧
  (run (Req_ByHash_v1 h) n2).2 = omap_ok (λ i, Rep_Info_v1 (Some (info_v1 i))) o ∧
  (run (Req_ByHash_v2 h) n2).2 = omap_ok Rep_Info_v2 o ∧
  (∀ typ, typ = None ∨ typ = Some User →
     (run (Req_ByHash_v3 h typ) n2).2
     = omap_ok (λ i, Rep_Transaction_v3 (chain_id (tn_state n)) (txn_from_info i)) o) ∧
  (∀ i, o = Ok i → info_hash i = h ∧ info_status i = St_Pending ∧
     info_block i = None ∧ info_output i = None).
Proof.
  intros Hrun Hall tx h n2 o.
  apply submit_pending in Hrun as (-> & Hb & Ho & Hid). fold tx in Hb, Ho.
  rewrite <-(serve_keeps reqs n1 Hall) in Hb, Ho, Hid. fold n2 in Hb, Ho, Hid. fold o in Ho.
  destruct (pending_lookups (tn_state n2) tx Hb) as (Hv1 & Hv2 & Hv3). fold h in Hv1, Hv2, Hv3.
  rewrite Ho in Hv1, Hv2, Hv3. rewrite Hid in Hv3. split_and!; [done| | | |].
  - unfold run. rewrite reading_run, Hv1. by destruct o.
  - unfold run. rewrite reading_run, Hv2. by destruct o.
  - intros typ Htyp. unfold run. rewrite reading_run, (Hv3 typ Htyp). by destruct o.
  - intros i Hi. pose proof (pending_info_fields (tn_state n) tx) as Hf. fold o in Hf.
    by rewrite Hi in Hf.
Qed.
End session.
End service.
End Service.
