(* ===== verification/ApiExamples.v ===== *)
(** * A concrete node for the REST interface

    A node with one archived block, at height 5 with hash 50: the transactions
    of users 1 and 2, the automated transaction 3 and the metadata transaction
    4.  Its backlog holds at most one transaction.  The properties of
    [ApiState.v] and [Handlers.v] that have hypotheses are applied to it. *)

From S2P Require Import Prelude Limiters Transactions ApiState Handlers.
From stdpp Require Import base tactics option list strings pretty.
From Stdlib Require Import ZArith Lia.
Import ApiErr Api.
Local Open Scope Z_scope.

#[export] Instance ex_types : ApiTypes := {
  Hash := Z; AccountAddress := Z; ChainId := Z; AnyhowError := string; StoreError := unit;
  SmrError := unit; BcsError := unit; MoveListErr := unit;
  SmrMoveTransaction := Z; SmrSupraTransaction := Z; SmrTransactionHeader := Z;
  MoveTransactionPayload := Z; EntryFunction := Z; MoveAuthenticator := Z; SignerData := Z;
  DkgPayload := Z; OraclePayload := Z; AutomatedTransactionMeta := Z;
  SerializedOutput := Z; MoveTransactionOutput := Z; ErrorCode := Z; KeptStatus := Z;
  AuxiliaryData := Z; ContractEvent := Z; ApiMovePayload := Z; ApiEvent := Z; MoveResource := Z;
  BlockHeaderInfo := Z; NativeBlockStats := Z; ExecutedBlockStats := Z; TransactionV3 := Z * TxExecutionStatus;
  MoveStore := unit; StructTag := Z; TypeTag := Z; Bytes := Z; ResourceGroup := list (Z * Z);
  ChainStore := unit; SchemaError := unit; StoredCertifiedBlock := Z; CertifiedBlock := Z;
  AuthorizedCommittee := Z; CommitteeAuthorization := Z;
  TxSender := unit; GasPriceReader := unit; RestLimiter := unit; FaucetServices := unit;
}.

Definition ex_digest (t : SmrTransaction) : Z := match t with Smr_Move t | Smr_Supra t => t end.

Definition ex_known (h : Z) : bool := (1 <=? h) && (h <=? 4).

#[export] Instance ex_storage : StorageOps SmrTransaction Hash := {
  tx_digest := ex_digest;
  tx_expiration := ex_digest;
  Backlog := option SmrTransaction;
  BacklogError := unit;
  backlog_insert t b := (Some t, Ok tt);
  backlog_get h b :=
    match b with Some t => if ex_digest t =? h then Some t else None | None => None end;
  backlog_expire ts b :=
    match b with Some t => if ex_digest t <? ts then None else b | None => None end;
  backlog_finalize t b :=
    match b with Some t' => if ex_digest t' =? ex_digest t then None else b | None => None end;
  max_backlog_transaction_time_to_live_seconds _ := 60;
  Archive := unit;
  ArchiveError := unit;
  Block := list SmrTransaction;
  block_timestamp _ := 0;
  block_transactions b := b;
  AutomationTask := Z;
  archive_get_transaction h a := Ok (if (1 <=? h) && (h <=? 2) then Some (Smr_Move h) else None);
  archive_get_status h a := Ok (if ex_known h then Some St_Success else None);
  archive_insert_block b a := a;
  archive_insert_tasks ts a := (a, Ok tt);
}.

#[export] Instance ex_storage_laws : StorageLaws SmrTransaction Hash.
Proof.
  constructor; simpl.
  - intros t b b' [= <-]. by rewrite Z.eqb_refl.
  - intros t [t'|]; [|done]. destruct (ex_digest t' =? ex_digest t) eqn:E; [done|]. by rewrite E.
  - intros t h [t'|]; [|by left]. destruct (ex_digest t' =? ex_digest t); [by left|by right].
  - intros ts h [t'|]; [|by left]. destruct (ex_digest t' <? ts); [by left|by right].
Defined.

#[export] Instance ex_ops : ApiOps := {
  anyhow m := m;
  show_hash := pretty; show_account := pretty; show_error_code := pretty;
  move_payload t := t; move_authenticator t := t; move_header t := t; entry_function f := f;
  supra_signer_data t := t; supra_header t := t; supra_payload t := SmrPayload_Dkg t;
  meta_into_inner m := (0, 0, 0, 5, m);
  header_new _ i _ _ _ _ := i;
  task_max_gas_amount t := t; task_expiry_time t := t; task_payload t := t; task_tx_hash t := t;
  header_hash h := h * 10; header_height h := h;
  as_move o := Some o; execution_status _ := St_Success;
  mto_events _ := []; mto_gas_used o := o; mto_transaction_status _ := Keep 0;
  mto_auxiliary_data _ := 0; stats_from n := n;
  txn_from_info i := (info_hash i, info_status i); txn_from_meta m := (meta_hash m, meta_status m);
  try_into_transaction_payload _ p := Ok p; try_into_events _ l := Ok l;
  explain_vm_status _ _ _ := "Executed successfully";
  find_resource _ _ _ := Ok None; try_into_resource _ _ b := Ok b;
  get_resource_group_bytes _ _ _ := Ok None; bcs_resource_group _ := Err tt;
  resource_group_items g := g;
  get_txn_output _ h := Ok (if ex_known h then Some h else None);
  get_block_hash_by_txn_hash _ h := Ok (if ex_known h then Some 50 else None);
  get_block_header_info _ h := Ok (if h =? 50 then Some 5 else None);
  get_block_header_info_by_height _ h := Ok (if h =? 5 then Some 5 else None);
  get_latest_block_header_info _ := Ok (Some 5);
  get_txs_by_block_height _ h := Ok (if h =? 5 then [1; 2] else []);
  get_automated_txs_by_block_height _ h := Ok (if h =? 5 then [3] else []);
  get_automated_transaction_data _ h := Ok (if h =? 3 then Some (3, 1) else None);
  is_block_metadata_hash _ h := Ok (h =? 4);
  get_block_metadata_hash_by_block_height _ h := Ok (if h =? 5 then Some 4 else None);
  get_block_stats_by_block_height _ h := Ok None;
  get_transaction_hashes_by_account _ _ _ n := Ok (take n [1; 2]);
  get_coin_transaction_hashes_by_account _ _ _ n :=
    Ok (take n [Tag_BlockMetadata 4; Tag_User 1; Tag_Automated 3; Tag_User 2], 9);
  get_automated_transaction_hashes_by_account _ _ _ _ _ n := Ok (take n [3], None);
  archive_get_events_by_type _ _ _ _ := Ok [7; 8];
  get_events_by_type_with_limit_and_context _ _ _ _ n _ :=
    Ok (take n [(7, (5, 1)); (8, (5, 2))], None);
  certified_block_iter_end _ := [Ok 6];
  certified_block_read _ h := Ok (if h =? 6 then Some 6 else None);
  schema_error e := e; hydrate _ b := Ok b; certified_height b := b;
  certified_items _ := [61; 62];
  batch_read_bytes _ h := Ok (if (h =? 61) || (h =? 62) then Some (h * 100) else None);
  epoch_authorized_committee_read _ _ := Ok None; committee_authorization c := c;
}.

#[export] Instance ex_error_types : ErrorTypes := {
  RpcClientErr := unit; IoError := unit; ExecutionError := unit; TomlError := unit;
  SerdeJsonError := unit; Duration := Z; FaucetLimiterErr := unit; SnapshotError := unit;
  PartialVMError := unit; AssemblerErr := unit; GenesisBlobErr := unit; FileIOError := unit;
  ConsoleError := unit; TakeVariantErr := unit;
}.

#[export] Instance ex_error_texts : ErrorTexts := {
  show_rpc_client _ := ""; show_serde_json _ := ""; show_anyhow m := m; debug_anyhow m := m;
  debug_duration := pretty; show_faucet_limiter _ := ""; debug_snapshot _ := "";
  debug_genesis_blob _ := ""; debug_vm_message _ := ""; debug_assembler _ := "";
  debug_console _ := ""; debug_take_variant _ := ""; debug_move_list _ := "";
  debug_archive _ := ""; debug_store _ := ""; debug_smr _ := ""; debug_bcs _ := "";
}.

#[export] Instance ex_handler_ops : HandlerOps := {
  DEFAULT_SIZE_OF_PAGE := 3; MAX_NUM_OF_TRANSACTIONS_TO_RETURN := 4;
  to_canonical_string := pretty; hex_encode := pretty; hex_decode _ := None;
  TransactionInfoV1 := Z * TxExecutionStatus; info_v1 i := (info_hash i, info_status i);
  AccountResource := Z; read_account_resource _ _ := None; sequence_number a := a;
  authentication_key a := Ok a;
  struct_tag_from_str _ := Ok 0; identifier_from_str i := Ok i; type_tag_from_str _ := Ok 0;
  struct_type_tag t := t;
  MoveValue := Z; get_resource _ _ _ := Ok None; try_into_move_value _ _ b := Ok b;
  ModuleId := Z; module_id_new a _ := a; show_module_id := pretty; get_module _ _ := Ok None;
  MoveModule := Z; module_deserialize b := Ok b;
  JsonValue := Z; VmValue := Z; try_into_vm_value _ _ v := Ok v; read_table_item _ _ _ := Ok None;
  ViewRequest := unit; ViewFunction := unit; MoveType := Z;
  convert_view_function _ _ := Ok tt; function_return_types _ _ := Ok [];
  type_tag_try_from t := Ok t; execute_view_function _ _ := Ok [];
}.

Definition ex_tx (n : Z) : @SmrTransaction ex_types := @Smr_Move ex_types n.
Definition ex_hash (n : Z) : @Hash ex_types := n.

Definition ex_state (b : option (@SmrTransaction ex_types)) : ApiServerState :=
  {| storage := {| Storage.archive := (tt : Archive); Storage.backlog := (b : Backlog) |};
     move_store := (tt : MoveStore); store := (tt : ChainStore); tx_sender := (tt : TxSender);
     gas_price_reader := (tt : GasPriceReader); rest_call_limiter := None; faucet_state := None;
     chain_id := (8 : ChainId) |}.

(** The transaction 1 is pending again: the lookup says so, although the archive
    has it as executed. *)
Lemma pending_only_by_hash_witness :
  ∃ info, get_transaction_by_hash (ex_state (Some (ex_tx 1))) (ex_hash 1) true = Ok (Some info) ∧
    info_status info = St_Pending ∧ info_output info = None.
Proof.
  destruct (pending_only_by_hash (ex_state (Some (ex_tx 1))) (ex_hash 1) (ex_tx 1) eq_refl)
    as (Hiff & _ & Hinfo & _).
  eexists. split; [apply Hiff; reflexivity|]. split; reflexivity.
Defined.

Lemma block_lists_archive_witness :
  ∃ b infos, get_block_by_height (ex_state None) 5 true None = Ok (Some b) ∧
    block_txns b = Some infos ∧ info_hash <$> infos = [ex_hash 1; ex_hash 2; ex_hash 3].
Proof.
  destruct (get_block_by_height (ex_state None) 5 true None) as [[b|]|e|] eqn:Hb;
    [|discriminate..].
  destruct (block_lists_archive (ex_state None) 5 None (5 : @BlockHeaderInfo ex_types)
              [ex_hash 1; ex_hash 2] [ex_hash 3] b) as [_ Hl];
    [reflexivity|reflexivity|reflexivity| |].
  - intros h m t. simpl. destruct (Z.eqb_spec h 3) as [->|]; [|done]. by intros [= <- <-].
  - destruct (Hl Hb) as (infos & Ht & Hh & _). by exists b, infos.
Defined.

Lemma certified_block_batches_complete_witness :
  get_certified_block (ex_state None) 6 true
  = Ok (Some {| cb_block := (6 : @CertifiedBlock ex_types);
                cb_batches := Some [{| batch_hash := ex_hash 61; batch_bytes := (6100 : @Bytes ex_types) |};
                                    {| batch_hash := ex_hash 62; batch_bytes := (6200 : @Bytes ex_types) |}] |}).
Proof.
  destruct (certified_block_batches_complete (ex_state None) 6
    (6 : @StoredCertifiedBlock ex_types) (6 : @CertifiedBlock ex_types)) as [Hb _];
    [reflexivity|reflexivity|].
  apply Hb. repeat constructor.
Defined.

Import Controllers Rest_Handlers.

(** On a page of three the third version lists 4, 1 and 3, the second only 1. *)
Lemma coin_transactions_v2_within_v3_witness :
  ∃ infos, coin_transactions_controller_v2 (ex_state None) (0 : @AccountAddress ex_types) None None = Ok (infos, 9) ∧
    txn_from_info <$> infos = [((1, St_Success) : @TransactionV3 ex_types)].
Proof.
  destruct (coin_transactions_v2_within_v3 (ex_state None) (0 : @AccountAddress ex_types) None None 
    [((4, St_Success) : @TransactionV3 ex_types); (1, St_Success); (3, St_Success)] 9)
    as (tags & infos & Ht & _ & Hv2 & Hi); [simpl; lia|reflexivity|].
  exists infos. split; [exact Hv2|]. rewrite Hi. by injection Ht as <-.
Defined.

Lemma events_page_bounded_witness :
  ∃ header events,
    events_by_type_v3 (ex_state None) "0x1::coin::CoinDeposit" (Some 3) None (Some 1%nat) None
      = Ok (header, events) ∧ (length events ≤ 1)%nat.
Proof.
  destruct (events_by_type_v3 (ex_state None) "0x1::coin::CoinDeposit" (Some 3) None (Some 1%nat) None)
    as [[header events]|e|] eqn:He; [|discriminate..].
  exists header, events. split; [done|].
  refine (proj1 (proj2 (events_page_bounded (ex_state None) _ _ _ _ _ header events _ _ He))).
  - intros a tag x y n c evs c' [= <- <-]. rewrite length_take. lia.
  - intros ms evs out [= <-]. done.
Defined.

(** A node without limiter whose validators cannot be reached: the submission
    fails, and the transaction is stored as pending. *)
#[export] Instance ex_lru : LruCache (LimitInstance Z Z Z) Z unit := {
  lru_new _ := tt; lru_get _ c := (None, c); lru_put _ _ c := c;
}.

Definition ex_submit :=
  Submit.submit_txn (Instant:=Z) (Cache:=unit) (Strategy:=unit) (Net:=Z)
    (λ (_ : unit) (_ : LimitInstance Z Z Z) (_ : option Z), inr tt)
    (λ t : Z, t) (λ t : Z, t)
    (λ t, match t with Submit.ST_Move t => ex_tx t | Submit.ST_Smr t => ex_tx t end)
    (λ _ _, Ok tt) "" (λ _ w, (w + 1, Err Dispatcher.WsNotConnected)) (λ _, "") (λ _, "")
    (tt : @MoveStore ex_types) (Submit.ST_Move 9) 0 0.

Definition ex_node : Submit.Node (Cache:=unit) (Strategy:=unit) (Net:=Z) :=
  {| Submit.n_limiter := None;
     Submit.n_storage := {| Storage.archive := (tt : Archive); Storage.backlog := (None : Backlog) |};
     Submit.n_net := 0 |}.

Lemma submit_stores_before_sending_witness :
  is_ok (ex_submit ex_node).2 = false ∧
  Storage.get_transaction_status (Submit.n_storage (ex_submit ex_node).1) (ex_hash 9)
    = Ok (Some St_Pending).
Proof.
  split; [reflexivity|].
  destruct (ex_submit ex_node) as [n' o] eqn:Hs.
  destruct (Submit.submit_stores_before_sending _ _ _ _ _ _ _ _ _ _ _ _ _ _ _ _ Hs)
    as (_ & _ & Hsent & _).
  refine (proj2 (proj2 (proj2 (Hsent _)))). left. by injection Hs as <- <-.
Defined.
