(* ===== verification/InterleavingExamples.v ===== *)
(** * Concurrent requests at concrete data

    A node whose backlog holds at most one transaction and whose archive is the list
    of the stored transactions, with the types of [ApiExamples]. *)

From S2P Require Import Prelude Transactions ApiState Interleaving ApiExamples.
From stdpp Require Import base tactics option list relations gmap strings pretty.
From Stdlib Require Import ZArith Lia.
Import ApiErr Api Reads Blocks.
Local Open Scope Z_scope.

Definition in_digest (t : SmrTransaction) : Z :=
  match t with Smr_Move t => 2 * t | Smr_Supra t => 2 * t + 1 end.

Lemma in_digest_inj t t' : in_digest t = in_digest t' → t = t'.
Proof. destruct t as [t|t], t' as [t'|t']; simpl; intros Heq; try (f_equal; lia); exfalso; lia. Qed.

Definition in_find (h : Z) (a : list SmrTransaction) : option SmrTransaction :=
  List.find (λ t, in_digest t =? h) a.

#[local] Instance in_storage : StorageOps SmrTransaction Hash := {|
  tx_digest := in_digest;
  tx_expiration := in_digest;
  Backlog := option SmrTransaction;
  BacklogError := unit;
  backlog_insert t b := (Some t, Ok tt);
  backlog_get h b :=
    match b with Some t => if in_digest t =? h then Some t else None | None => None end;
  backlog_expire ts b :=
    match b with Some t => if in_digest t <? ts then None else b | None => None end;
  backlog_finalize t b :=
    match b with Some t' => if in_digest t' =? in_digest t then None else b | None => None end;
  max_backlog_transaction_time_to_live_seconds _ := 60;
  Archive := list SmrTransaction;
  ArchiveError := unit;
  Block := list SmrTransaction;
  block_timestamp _ := 0;
  block_transactions b := b;
  AutomationTask := Z;
  archive_get_transaction h a := Ok (in_find h a);
  archive_get_status h a := Ok ((λ _, St_Success) <$> in_find h a);
  archive_insert_block b a := b ++ a;
  archive_insert_tasks ts a := (a, Ok tt);
|}.

#[local] Instance in_ops : @ApiOps ex_types in_storage := {|
  anyhow m := m;
  show_hash := pretty; show_account := pretty; show_error_code := pretty;
  move_payload t := t; move_authenticator t := t; move_header t := t; entry_function f := f;
  supra_signer_data t := t; supra_header t := t; supra_payload t := SmrPayload_Dkg t;
  meta_into_inner m := (0, 0, 0, 5, m);
  header_new _ i _ _ _ _ := i;
  task_max_gas_amount t := t; task_expiry_time t := t; task_payload t := t; task_tx_hash t := t;
  header_hash h := h * 10; header_height h := h;
  as_move o := Some o; execution_status _ := St_Success;
  mto_events _ := []; mto_gas_used o := o; mto_transaction_status _ := Keep 0;
  mto_auxiliary_data _ := 0; stats_from n := n;
  txn_from_info i := (info_hash i, info_status i); txn_from_meta m := (meta_hash m, meta_status m);
  try_into_transaction_payload _ p := Ok p; try_into_events _ l := Ok l;
  explain_vm_status _ _ _ := "Executed successfully";
  find_resource _ _ _ := Ok None; try_into_resource _ _ b := Ok b;
  get_resource_group_bytes _ _ _ := Ok None; bcs_resource_group _ := Err tt;
  resource_group_items g := g;
  get_txn_output a h := Ok ((λ _, h) <$> in_find h a);
  get_block_hash_by_txn_hash a h := Ok ((λ _, h + 1000) <$> in_find h a);
  get_block_header_info a b := Ok ((λ _, 5) <$> in_find (b - 1000) a);
  get_block_header_info_by_height _ h := Ok None;
  get_latest_block_header_info _ := Ok None;
  get_txs_by_block_height _ h := Ok []; get_automated_txs_by_block_height _ h := Ok [];
  get_automated_transaction_data _ h := Ok None; is_block_metadata_hash _ h := Ok false;
  get_block_metadata_hash_by_block_height _ h := Ok None; get_block_stats_by_block_height _ h := Ok None;
  get_transaction_hashes_by_account _ _ _ n := Ok [];
  get_coin_transaction_hashes_by_account _ _ _ n := Ok ([], 9);
  get_automated_transaction_hashes_by_account _ _ _ _ _ n := Ok ([], None);
  archive_get_events_by_type _ _ _ _ := Ok [];
  get_events_by_type_with_limit_and_context _ _ _ _ n _ := Ok ([], None);
  certified_block_iter_end _ := []; certified_block_read _ h := Ok None;
  schema_error e := e; hydrate _ b := Ok b; certified_height b := b; certified_items _ := [];
  batch_read_bytes _ h := Ok None;
  epoch_authorized_committee_read _ _ := Ok None; committee_authorization c := c;
|}.

(** Here the archive takes a block at once. *)
Definition in_steps (b : Block) (a : Archive) : list Archive := [].

Lemma in_find_app h l a :
  in_find h (l ++ a) = match in_find h l with Some t => Some t | None => in_find h a end.
Proof. unfold in_find. induction l as [|t l IH]; simpl; [done|]. by destruct (in_digest t =? h). Qed.

Lemma in_find_stored t l : t ∈ l → in_find (in_digest t) l = Some t.
Proof.
  induction l as [|t' l IH]; [by intros ?%not_elem_of_nil|]. intros Hin. unfold in_find in *. simpl.
  destruct (Z.eqb_spec (in_digest t') (in_digest t)) as [Heq|Hne]; [by apply in_digest_inj in Heq as ->|].
  apply elem_of_cons in Hin as [->|Hin]; [done|by apply IH].
Qed.

Lemma in_find_other h l : h ∉ in_digest <$> l → in_find h l = None.
Proof.
  induction l as [|t l IH]; [done|]. unfold in_find in *. simpl. intros [Hne Hin]%not_elem_of_cons.
  rewrite (proj2 (Z.eqb_neq _ _)) by congruence. by apply IH.
Qed.

#[local] Instance in_archive_laws : ArchiveLaws in_steps.
Proof.
  constructor.
  - intros t block a Hin [Hu _ _ _]. injection Hu as Hu. set (h := in_digest t) in *.
    exists {| rec_status := St_Success; rec_output := (h : @SerializedOutput ex_types);
              rec_block := (h + 1000 : @Hash ex_types); rec_header := (5 : @BlockHeaderInfo ex_types) |}.
    assert (h + 1000 - 1000 = h) as Hh by lia.
    assert (in_find h (block ++ a) = Some t) as Hf.
    { rewrite in_find_app. unfold h. by rewrite (in_find_stored t block). }
    split_and!; [by split| | |constructor]; split; simpl; rewrite ?Hh; fold h;
      first [left; by rewrite Hu|by rewrite Hf].
  - intros h block a a' Hn Ha'. apply list_elem_of_singleton in Ha' as ->. intros [Hu _ _ _].
    injection Hu as Hu. assert (in_find h (block ++ a) = None) as Hf.
    { rewrite in_find_app. by rewrite in_find_other. }
    split; simpl; by rewrite Hf.
  - intros h t r block a a' Hn Ha'. apply list_elem_of_singleton in Ha' as ->.
    intros [Ht Hs Ho Hb Hh]. simpl in *. simplify_eq.
    assert (in_find h (block ++ a) = in_find h a) as Hf.
    { rewrite in_find_app. by rewrite in_find_other. }
    split; simpl; rewrite ?Hf; try congruence.
    destruct r as [st out b hdr]; simpl in *. rewrite Ht in Hb. simplify_eq/=.
    rewrite Z.add_simpl_r in *. by rewrite Hf, Hh.
  - intros t t'. apply in_digest_inj.
  - intros h [t'|] t Hb; [|done]. simpl in Hb.
    destruct (Z.eqb_spec (in_digest t') h) as [Heq|]; [|done]. by simplify_eq.
Qed.

(** A node that takes the transaction 3 and stores it in a block. *)
Definition in_hash : @Hash ex_types := 6.
Definition in_tx : SmrTransaction := Smr_Move (3 : @SmrMoveTransaction ex_types).

Definition in_at (a : list SmrTransaction) (b : option SmrTransaction) : Storage.RpcStorage SmrTransaction Hash :=
  {| Storage.archive := (a : @Archive _ _ in_storage); Storage.backlog := (b : @Backlog _ _ in_storage) |}.

Definition in_state : ApiServerState := {|
  storage := in_at [] (Some in_tx); move_store := (tt : @MoveStore ex_types);
  store := (tt : @ChainStore ex_types); tx_sender := (tt : @TxSender ex_types);
  gas_price_reader := (tt : @GasPriceReader ex_types); rest_call_limiter := None;
  faucet_state := None; chain_id := (6 : @ChainId ex_types) |}.

Definition in_block : Block := [in_tx].
Definition in_pending : System := {| sys_storage := in_at [] (Some in_tx); writer := Idle |}.
Definition in_removed : System :=
  {| sys_storage := in_at [] None; writer := Finalized in_block [([in_tx] : @Archive _ _ in_storage)] |}.
Definition in_stored : System := {| sys_storage := in_at [in_tx] None; writer := Idle |}.

(** Another transaction is submitted and takes the place of the pending one. *)
Definition in_other : SmrTransaction := Smr_Move (4 : @SmrMoveTransaction ex_types).
Definition in_evicted : System := {| sys_storage := in_at [] (Some in_other); writer := Idle |}.

Lemma in_removal : rtc (step in_steps in_hash) in_pending in_removed.
Proof.
  eapply rtc_l; [by apply (step_expire in_steps in_hash in_block (in_at [] (Some in_tx)))|].
  apply rtc_once. apply (step_finalize in_steps in_hash in_block (in_at [] (Some in_tx))).
Qed.

Lemma in_storing : rtc (step in_steps in_hash) in_removed in_stored.
Proof. apply rtc_once. apply (step_archive in_steps in_hash in_block ([in_tx] : @Archive _ _ in_storage) []). Qed.

Lemma in_eviction : rtc (step in_steps in_hash) in_pending in_evicted.
Proof. apply rtc_once. apply (step_consume in_steps in_hash in_other (in_at [] (Some in_tx)) Idle). Qed.

Lemma in_starts : waiting in_hash in_pending.
Proof. by split. Qed.


Lemma simulations_bounded_witness :
  ∃ p, Permits.reachable 4 p ∧ Z.of_nat (Permits.running p) = 515.
Proof. exact (proj2 (Permits.simulations_bounded 4 ltac:(lia) ltac:(vm_compute; reflexivity))). Defined.
