(* ===== verification/ServerExamples.v ===== *)
(** * Examples of the transaction service

    A session of a small node: estimates, simulations, a submission and a block. *)

From S2P Require Import Prelude Gas Limiters Transactions ApiState Handlers Server ApiExamples.
From stdpp Require Import base tactics option list gmap strings.
From Stdlib Require Import ZArith Lia.
Import ApiErr Api Controllers Rest_Handlers Submit Service.
Local Open Scope Z_scope.

(** The validators accept what they are sent; the signature of 7 is valid, which a
    simulation refuses. *)
#[export] Instance ex_service : ServiceEnv := {|
  LAccount := Z; LPublicKey := Z; LByte := Z; Instant := Z; Cache := unit; Strategy := unit;
  service_cache := ex_lru;
  should_allow _ _ _ := inr tt;
  SignedTransaction := Z; SmrSigned := Z; move_sender t := t; smr_signer t := t;
  smr_from t := match t with ST_Move t => ex_tx t | ST_Smr t => ex_tx t end;
  verify _ _ := Ok tt; join_error := "";
  Net := Z; rpc_send _ w := (w + 1, Ok tt); debug_rpc_client _ := ""; show_backlog_error _ := "";
  verify_signature t := t =? 7; simulate t _ := t; smr_move_txn t := t; smr_digest t := t;
  TransactionKind := bool; MoveVm := true;
|}.

Definition ex_gas : GasMonitor bool :=
  match Monitor.gas_monitor (E:=Error) true with
  | Ok g => g
  | _ => {| gas_writers := ∅; gas_cells := ∅ |}
  end.

Definition ex_started : TxNode := {|
  tn_state := ex_state None; tn_limiter := None; tn_net := (0 : Net); tn_gas := ex_gas;
  tn_simulations := 0;
|}.

Definition ex_events : list Event := [
  Client Req_GasPrice_v1;
  Client (Req_Simulate_v1 (ST_Move (7 : SignedTransaction)));
  Client (Req_Submit (ST_Move (9 : SignedTransaction)) (0 : Instant) (0 : Instant));
  Executed ([ex_tx 9] : Block) [250; 100] (tt : MoveStore);
  Client (Req_Simulate_v2 (ST_Smr (1 : SmrSigned)))].

(** One simulation has failed after the session, and the next one is still tried. *)
Lemma session_answers_witness :
  ∃ n os, session ex_events ex_started = (n, os) ∧ failed_simulations ex_events os = 1 ∧
    (run (Req_Simulate_v2 (ST_Move (1 : SignedTransaction))) n).2
    = omap_ok Rep_Info_v2 (simulation_of (tn_state n) (1 : SignedTransaction)).
Proof.
  assert (failed_simulations ex_events (session ex_events ex_started).2 = 1) as Hf
    by (vm_compute; reflexivity).
  destruct (session ex_events ex_started) as [n os] eqn:Hs.
  exists n, os. split; [reflexivity|]. split; [exact Hf|].
  destruct (session_answers 1000 ex_events ex_started n os) as (_ & Hsim & _).
  - vm_compute. reflexivity.
  - reflexivity.
  - split; [lia|apply Z.leb_le; vm_compute; reflexivity].
  - apply Z.leb_le; vm_compute; reflexivity.
  - repeat constructor; lia.
  - exact Hs.
  - destruct (Hsim 1) as [_ Hv2]. cbn [snd] in Hf. rewrite Hf in Hv2.
    exact Hv2.
Defined.

Lemma acknowledged_is_visible_witness :
  ∃ n reply, run (Req_Submit (ST_Move (9 : SignedTransaction)) (0 : Instant) (0 : Instant)) ex_started
             = (n, Ok reply) ∧
    reply = Rep_Hash (ex_hash 9) ∧
    ∃ i, (run (Req_ByHash_v2 (ex_hash 9)) (serve [Req_ChainId; Req_Parameters] n)).2
         = Ok (Rep_Info_v2 i) ∧ info_status i = St_Pending.
Proof.
  assert (is_ok (run (Req_Submit (ST_Move (9 : SignedTransaction)) (0 : Instant) (0 : Instant))
                   ex_started).2 = true) as Hr by (vm_compute; reflexivity).
  apply run_ok in Hr as (n & reply & Hr). exists n, reply. split; [exact Hr|].
  destruct (acknowledged_is_visible _ _ _ _ _ _ [Req_ChainId; Req_Parameters] Hr)
    as (-> & _ & Hv2 & _ & Hinfo); [repeat constructor|].
  split; [reflexivity|].
  destruct (pending_info (tn_state ex_started) _) as [i|e|] eqn:Hi; [|discriminate..].
  exists i. split; [exact Hv2|exact (proj1 (proj2 (Hinfo i eq_refl)))].
Defined.
