(* ===== verification/RpcNode.v ===== *)
(** * The node as a whole

    The assembler ([Assembler]) executes blocks, the executor stores them in the
    storage that the service ([Server]) reads, and both share the database of the
    certified blocks: [src/rpc_node/src/cli/start_server.rs] gives the executor and
    the server clones of one [RpcStorage], and the assembler and the server clones of
    one [ChainStore].  A session of the node interleaves the inputs of the
    assembler with requests to the service in any order.

    The executor is a crate of its own: what it does to the service is stated as the
    law [execution_events].  The types of the two sides are those of the same
    crates; [NodeView] identifies them. *)

From S2P Require Import Prelude Transactions ApiState Handlers Server.
From S2P Require Import Chain BlockStore Synchronizer BlockVerifier Assembler AssemblerSafety Execution.
From stdpp Require Import base tactics option list numbers relations.
From Stdlib Require Import ZArith Lia.
Import ApiErr Api Controllers Rest_Handlers Asm.
Local Open Scope Z_scope.

(** ** The shared databases *)
Class NodeView `{ChainStoreOps} `{ApiOps} : Type := {
  chain_view : Chain.ChainStore → ApiState.ChainStore;
  stored_view : StoredBlock → StoredCertifiedBlock;
  certified_view : Chain.CertifiedBlock → ApiState.CertifiedBlock;
  store_error_view : Chain.StoreError → ApiState.StoreError;
  item_view : BatchKey → ApiState.Hash;
  bytes_view : Chain.Bytes → ApiState.Bytes;
  hash_view : Chain.Hash → ApiState.Hash;
  (** The certified block of an executed one, and the header that the archive makes. *)
  executed_certified : Block → Chain.CertifiedBlock;
  header_of : Block → BlockHeaderInfo;
}.

(** The server reads what the assembler has written; a read does not panic.  The archive
    finds the headers of the blocks that were inserted by their height, and the latest
    one is the highest. *)
Class NodeViewLaws `{NodeView} : Prop := {
  view_read st h :
    ApiState.certified_block_read (chain_view st) h
    = omap_err store_error_view (omap_ok (fmap stored_view) (Chain.certified_block_read st h));
  view_hydrate st sb :
    ApiState.hydrate (chain_view st) (stored_view sb)
    = omap_err store_error_view (omap_ok certified_view (Chain.hydrate sb st));
  view_batch st k :
    ApiState.batch_read_bytes (chain_view st) (item_view k)
    = omap_err store_error_view (omap_ok (fmap bytes_view) (Chain.batch_read_bytes st k));
  view_items b : certified_items (certified_view b) = item_view <$> cb_items b;
  read_no_panic st h : Chain.certified_block_read st h ≠ Panic;
  hydrate_no_panic st sb : Chain.hydrate sb st ≠ Panic;
  batch_no_panic st k : Chain.batch_read_bytes st k ≠ Panic;
  header_inserted block a h :
    get_block_header_info_by_height (archive_insert_block block a) h
    = if decide (h = cb_height (executed_certified block)) then Ok (Some (header_of block))
      else get_block_header_info_by_height a h;
  header_tasks tasks a h :
    get_block_header_info_by_height (archive_insert_tasks tasks a).1 h
    = get_block_header_info_by_height a h;
  header_of_hash block :
    header_hash (header_of block) = hash_view (cb_hash (executed_certified block));
  latest_header a h header :
    get_block_header_info_by_height a h = Ok (Some header) →
    (∀ h', h < h' → get_block_header_info_by_height a h' = Ok None) →
    get_latest_block_header_info a = Ok (Some header);
}.

(** ** The executor and the service *)
Class SharedExecutor `{ServiceEnv} (X : Type) : Type := {
  service : X → TxNode;
  set_service : TxNode → X → X;
}.

Definition is_client `{ServiceEnv} (e : Service.Event) : bool :=
  match e with Service.Client _ => true | _ => false end.

Section node.
Context `{ChainStoreOps} `{!EpochOps} `{NodeErrors} `{ServiceEnv} `{!NodeView}.
Context {X SyncApi : Type}.
Context `{!TBlockExecutor X} `{!TBlockExecutorSpec X} `{!SharedExecutor X}.
Context `{!SyncRequestApi SyncApi}.

(** A request does not execute anything, and the execution of a block stores this block,
    and possibly data of tasks, in the storage of the service. *)
Class SharedExecutorLaws : Prop := {
  service_set n x : service (set_service n x) = n;
  executed_set n x : executed (set_service n x) = executed x;
  execution_events b c x x' changed :
    executor_execute_block b c x = (x', Ok changed) →
    ∃ es os block, Forall (λ e, is_client e = false) es ∧ Service.blocks_of es = [block] ∧
      executed_certified block = b ∧
      Service.session es (service x) = (service x', os) ∧ Forall (λ o, is_ok o = true) os;
}.

Notation Assembler := (ChainStateAssembler BlockStore BlockVerifier X SyncApi).

(** ** Sessions of the node *)

(** The state that the handlers of the server see. *)
Definition api_state (s : Assembler) : ApiServerState :=
  let st := tn_state (service (executor s)) in
  {| storage := storage st; move_store := move_store st;
     Api.store := chain_view (BlockStore.store (Assembler.store s)); tx_sender := tx_sender st;
     gas_price_reader := gas_price_reader st; rest_call_limiter := rest_call_limiter st;
     faucet_state := faucet_state st; chain_id := chain_id st |}.

Inductive NodeEvent : Type :=
| Consensus (t : Trigger)
| Rest (req : TxRequest).

(** Up to the end of the loop of the assembler; [true] if it has not ended. *)
Fixpoint node_session (es : list NodeEvent) (s : Assembler)
    : Assembler * list (outcome Error TxReply) * bool :=
  match es with
  | [] => (s, [], true)
  | Consensus t :: es' =>
      match run [t] s with
      | (s1, Ok false) => node_session es' s1
      | (s1, _) => (s1, [], false)
      end
  | Rest req :: es' =>
      let (n, o) := Service.run req (service (executor s)) in
      let '(s', os, alive) := node_session es' (set_executor (set_service n (executor s)) s) in
      (s', o :: os, alive)
  end.

Definition requests (es : list NodeEvent) : list TxRequest :=
  omap (λ e, match e with Rest req => Some req | _ => None end) es.

(** ** Sessions of the service *)
Definition client_requests (es : list Service.Event) : list TxRequest :=
  omap (λ e, match e with Service.Client req => Some req | _ => None end) es.

Definition client_replies (es : list Service.Event) (os : list (outcome Error (option TxReply)))
    : list (outcome Error (option TxReply)) :=
  omap (λ eo, if is_client eo.1 then Some eo.2 else None) (zip es os).

Lemma session_app es es' (n : TxNode) :
  Service.session (es ++ es') n
  = let (n1, os) := Service.session es n in
    let (n2, os') := Service.session es' n1 in (n2, os ++ os').
Proof.
  revert n. induction es as [|e es IH]; intros n; simpl; [by destruct (Service.session es' n)|].
  destruct (Service.happens e n) as [n1 o]. rewrite IH.
  destruct (Service.session es n1) as [n2 os]. by destruct (Service.session es' n2).
Qed.

Lemma session_length es (n : TxNode) : length (Service.session es n).2 = length es.
Proof.
  revert n. induction es as [|e es IH]; intros n; simpl; [done|].
  destruct (Service.happens e n) as [n1 o]. specialize (IH n1).
  destruct (Service.session es n1). simpl in *. by rewrite IH.
Qed.

Lemma internal_requests es :
  Forall (λ e, is_client e = false) es →
  client_requests es = [] ∧ ∀ os, client_replies es os = [].
Proof.
  induction 1 as [|e es He _ [IH1 IH2]]; [by split|]. split.
  - unfold client_requests. simpl. by destruct e.
  - intros [|o os]; [done|]. unfold client_replies. simpl. rewrite He. apply IH2.
Qed.

Lemma client_replies_app es es' os os' :
  length os = length es →
  client_replies (es ++ es') (os ++ os') = client_replies es os ++ client_replies es' os'.
Proof.
  intros Hl. unfold client_replies. rewrite zip_with_app by done. by rewrite omap_app.
Qed.

(** ** The node refines the service *)
Context `{!SharedExecutorLaws} `{!ChainStoreLaws} `{!ChainTypesLaws} `{!EpochLaws}.

(** Whether the node trusts the provider of its blocks, as its configuration says. *)
Context (trusted : bool).
#[local] Instance node_verifier_spec : TBlockVerifierSpec BlockVerifier :=
  Verifier.block_verifier_spec trusted.

(** The executions of blocks as events of the service. *)
Lemma executions_events bs (x x' : X) :
  executions bs x x' →
  ∃ es os, Forall (λ e, is_client e = false) es ∧
    executed_certified <$> Service.blocks_of es = reverse bs ∧
    Service.session es (service x) = (service x', os) ∧ Forall (λ o, is_ok o = true) os.
Proof.
  induction 1 as [|b bs c changed x x1 x2 _ (es & os & Hc & Hb & Hs & Ho) Hx]; [by exists [], []|].
  apply execution_events in Hx as (es' & os' & block & Hc' & Hb' & Hcert & Hs' & Ho').
  exists (es ++ es'), (os ++ os'). split_and!; [by apply Forall_app| | |by apply Forall_app].
  - unfold Service.blocks_of in *. rewrite omap_app, fmap_app, Hb, Hb', reverse_cons. simpl.
    by rewrite Hcert.
  - by rewrite session_app, Hs, Hs'.
Qed.

(** The events that do not come from clients take place. *)
Definition take_place : list Service.Event → list (outcome Error (option TxReply)) → Prop :=
  Forall2 (λ e o, is_client e = true ∨ is_ok o = true).

(** The service between two states of the node: the requests with their answers, and the
    executed blocks. *)
Definition follows (s s' : Assembler) (reqs : list TxRequest)
    (answers : list (outcome Error TxReply)) : Prop :=
  ∃ evs os bs, Service.session evs (service (executor s)) = (service (executor s'), os) ∧
    client_requests evs = reqs ∧ client_replies evs os = omap_ok Some <$> answers ∧
    executed (executor s') = bs ++ executed (executor s) ∧
    executed_certified <$> Service.blocks_of evs = reverse bs ∧ take_place evs os.

Lemma follows_trans s s1 s2 reqs reqs' as_ as' :
  follows s s1 reqs as_ → follows s1 s2 reqs' as' → follows s s2 (reqs ++ reqs') (as_ ++ as').
Proof.
  intros (evs & os & bs & Hs & Hq & Hr & Hx & Hb & Ht)
    (evs' & os' & bs' & Hs' & Hq' & Hr' & Hx' & Hb' & Ht').
  exists (evs ++ evs'), (os ++ os'), (bs' ++ bs). split_and!.
  - by rewrite session_app, Hs, Hs'.
  - unfold client_requests in *. by rewrite omap_app, Hq, Hq'.
  - rewrite client_replies_app, Hr, Hr', fmap_app; [done|].
    by rewrite <-(session_length evs (service (executor s))), Hs.
  - by rewrite Hx', Hx, app_assoc.
  - unfold Service.blocks_of in *. by rewrite omap_app, fmap_app, Hb, Hb', reverse_app.
  - by apply Forall2_app.
Qed.

Lemma step_follows t (s s' : Assembler) : run [t] s = (s', Ok false) → follows s s' [] [].
Proof.
  intros [bs Hbs]%step_executes. pose proof (executions_executed _ _ _ Hbs) as Hx.
  apply executions_events in Hbs as (es & os & Hc & Hb & Hs & Ho).
  destruct (internal_requests es Hc) as [Hq Hr].
  exists es, os, bs. split_and!; try done. apply Forall2_same_length_lookup_2.
  - by rewrite <-(session_length es (service (executor s))), Hs.
  - intros i e o _ Hl. right. by apply (Forall_lookup_1 _ _ _ _ Ho Hl).
Qed.

Lemma request_follows req (s : Assembler) n o :
  Service.run req (service (executor s)) = (n, o) →
  follows s (set_executor (set_service n (executor s)) s) [req] [o].
Proof.
  intros Hr. exists [Service.Client req], [omap_ok Some o], []. simpl.
  rewrite service_set, executed_set. split_and!; try done; [|by repeat constructor].
  unfold rthen, rret. rewrite Hr. by destruct o.
Qed.

Lemma good_executor i0 l0 live m (s : Assembler) x :
  good i0 l0 live m s → executed x = executed (executor s) → good i0 l0 live m (set_executor x s).
Proof.
  intros ([Hsim Hc Hp Hw Hh Hv Hg Ht Hk] & Hs & Hr & Hl) Hx.
  split_and!; [|done..]. split; simpl; try done; rewrite ?Hx; try done.
  unfold grown. simpl. by rewrite Hx.
Qed.

Lemma node_session_inv i0 l0 es m (s s' : Assembler) answers :
  good i0 l0 false m s → node_session es s = (s', answers, true) →
  (∃ m', good i0 l0 false m' s') ∧ follows s s' (requests es) answers.
Proof.
  revert m s answers.
  induction es as [|[t|req] es IH]; intros m s answers Hg; cbn [node_session requests omap list_omap].
  - intros [= <- <-]. split; [by exists m|]. exists [], [], []. split_and!; try done. constructor.
  - destruct (run [t] s) as [s1 [[]|e|]] eqn:Hrun; intros Hs; simplify_eq.
    destruct (run_going_good i0 l0 false [t] m s s1 Hg ltac:(done) Hrun) as [m1 Hg1].
    destruct (IH m1 s1 answers Hg1 Hs) as [Hm Hf]. split; [done|].
    exact (follows_trans _ _ _ _ _ _ _ (step_follows t s s1 Hrun) Hf).
  - destruct (Service.run req (service (executor s))) as [n o] eqn:Hrun.
    set (s1 := set_executor _ s). destruct (node_session es s1) as [[s2 os] alive] eqn:Hs.
    intros [= -> <- ->].
    destruct (IH m s1 os ltac:(by apply good_executor; [|apply executed_set]) Hs) as [Hm Hf].
    split; [done|].
    exact (follows_trans _ _ _ _ _ _ _ (request_follows req s n o Hrun) Hf).
Qed.

(** C3 The node behaves as its service alone does.  Whatever inputs of the assembler and
    whatever requests come in whatever order, as long as the loop of the assembler
    goes on: the answers to the requests are those of a session of the service with
    the same requests, into which the executed blocks are inserted, and these blocks are
    those of the chain that the assembler executes, in its order: each one is the direct
    successor of the one before and commit-certified, and its certificate is valid under a
    committee of its epoch unless the node trusts the provider of its blocks. *)
Theorem node_refines_service es (s s' : Assembler) answers :
  initial s → node_session es s = (s', answers, true) →
  ∃ evs os bs,
    Service.session evs (service (executor s)) = (service (executor s'), os) ∧
    client_requests evs = requests es ∧ client_replies evs os = omap_ok Some <$> answers ∧
    executed_certified <$> Service.blocks_of evs = reverse bs ∧
    executed (executor s') = bs ++ executed (executor s) ∧
    rtc (chain_step (Verifier.certified_in_epoch trusted) (last_executed_block_info s))
        (executed (executor s)) (executed (executor s')).
Proof.
  intros Hi Hs.
  destruct (node_session_inv _ _ es _ s s' answers (initial_good false s Hi) Hs)
    as [[m [Hb _]] (evs & os & bs & ? & ? & ? & ? & ? & _)].
  exists evs, os, bs. split_and!; try done. apply (inv_grown _ _ _ _ Hb).
Qed.

(** ** The node serves the chain *)
Local Open Scope rust_scope.
Context `{!NodeViewLaws} `{!StorageLaws SmrTransaction ApiState.Hash}.

Lemma session_archived evs os (n n' : TxNode) :
  Service.session evs n = (n', os) → take_place evs os →
  reader (tn_state n') = Service.archived evs (reader (tn_state n)).
Proof.
  revert n os. induction evs as [|e evs IH]; intros n os; simpl; [by intros [= <- <-]|].
  destruct (Service.happens e n) as [n1 o] eqn:Hh.
  destruct (Service.session evs n1) as [n2 os'] eqn:Hs. intros [= <- <-] [Ho Ht]%Forall2_cons_1.
  rewrite (IH n1 os' Hs Ht). f_equal. destruct e as [req|block prices ms|tasks].
  - by destruct (Service.client_happens req n n1 o Hh) as (_ & _ & ?).
  - destruct Ho as [?|Ho]; [done|]. revert Hh Ho.
    unfold Service.happens, Service.executed, rthen, rgets, rlift, rmodify, rret.
    by destruct (Gas.Monitor.push_gas_price _ _ _); intros [= <- <-].
  - by destruct (Service.tasks_happens tasks n n1 o Hh) as (_ & _ & ?).
Qed.

(** Headers of the archive after the events. *)
Notation header_at a h := (get_block_header_info_by_height a h).

Lemma header_other evs a h :
  Forall (λ block, cb_height (executed_certified block) ≠ h) (Service.blocks_of evs) →
  header_at (Service.archived evs a) h = header_at a h.
Proof.
  revert a. induction evs as [|e evs IH]; intros a Hall; [done|].
  unfold Service.archived in *. simpl. destruct e as [req|block prices ms|tasks]; simpl in Hall.
  - by apply IH.
  - apply Forall_cons in Hall as [Hne Hall]. rewrite IH by done. rewrite header_inserted.
    by rewrite decide_False by congruence.
  - rewrite IH by done. apply header_tasks.
Qed.

Lemma header_found evs a block :
  NoDup (cb_height ∘ executed_certified <$> Service.blocks_of evs) →
  block ∈ Service.blocks_of evs →
  header_at (Service.archived evs a) (cb_height (executed_certified block))
  = Ok (Some (header_of block)).
Proof.
  revert a. induction evs as [|e evs IH]; intros a Hnd Hin; [by apply not_elem_of_nil in Hin|].
  unfold Service.archived in *. simpl. destruct e as [req|block' prices ms|tasks]; simpl in Hnd, Hin.
  - by apply IH.
  - apply NoDup_cons in Hnd as [Hni Hnd]. apply elem_of_cons in Hin as [->|Hin]; [|by apply IH].
    pose proof (header_other evs (archive_insert_block block' a)
      (cb_height (executed_certified block'))) as Ho.
    unfold Service.archived in Ho. rewrite Ho.
    + rewrite header_inserted. by rewrite decide_True.
    + apply Forall_forall. intros c Hc Heq. apply Hni.
      apply list_elem_of_fmap. by exists c.
  - by apply IH.
Qed.

(** What the server answers for a block that is kept with its batches: this block, with
    its batches in the order of the payload if they are asked for; an error comes
    from the store. *)
Definition serves_certified (s : ApiServerState) (b : Chain.CertifiedBlock) (with_batches : bool)
    : Prop :=
  match consensus_block_v1 s (cb_height b) with_batches with
  | Ok (Some c) =>
      cb_block c = certified_view b ∧
      (if with_batches
       then ∃ batches, cb_batches c = Some batches ∧
                       batch_hash <$> batches = item_view <$> cb_items b
       else cb_batches c = None)
  | Ok None => False
  | Err e => ∃ e', e = E_PublicApiServerError {| public_inner := AE_StoreError e' |}
  | Panic => False
  end.

Lemma batches_served st ks f :
  (∀ k, k ∈ ks → batch_kept st k) →
  match otraverse (λ hash,
    let? maybe := omap_err AE_StoreError (ApiState.batch_read_bytes (chain_view st) hash) in
    let? batch := ok_or maybe (f hash) in
    Ok {| batch_hash := hash; batch_bytes := batch |}) (item_view <$> ks) with
  | Ok batches => batch_hash <$> batches = item_view <$> ks
  | Err e => ∃ e', e = AE_StoreError (Txn:=SmrTransaction) e'
  | Panic => False
  end.
Proof.
  induction ks as [|k ks IH]; intros Hk; [done|]. rewrite !fmap_cons. cbn [otraverse].
  pose proof (batch_no_panic st k). pose proof (Hk k ltac:(left)) as Hkept.
  specialize (IH ltac:(intros; apply Hk; by right)). rewrite view_batch.
  destruct (Chain.batch_read_bytes st k) as [o|e|] eqn:Hr; simpl; [|by eexists|done].
  destruct (Hkept o Hr) as [v ->]. simpl.
  destruct (otraverse _ (item_view <$> ks)); simpl; [|done..]. by f_equal.
Qed.

Lemma certified_served (s : ApiServerState) st b with_batches :
  Api.store s = chain_view st → block_kept st b → serves_certified s b with_batches.
Proof.
  intros Hst [Hret Hk]. unfold serves_certified, consensus_block_v1, api, public, get_certified_block.
  rewrite Hst, view_read. pose proof (read_no_panic st (cb_height b)).
  destruct (Chain.certified_block_read st (cb_height b)) as [o|e|] eqn:Hr; simpl; [|by eexists|done].
  destruct (Hret o Hr) as (sb & -> & Hh). simpl. rewrite Hst, view_hydrate.
  pose proof (hydrate_no_panic st sb).
  destruct (Chain.hydrate sb st) as [c|e|] eqn:Hhy; simpl; [|by eexists|done].
  rewrite (Hh c eq_refl). destruct with_batches; simpl; [|done].
  unfold get_batches_for_certified_block. rewrite Hst, view_items.
  pose proof (λ f, batches_served st (cb_items b) f Hk) as Hb.
  match goal with |- context [otraverse (λ hash, let? _ := _ in let? _ := ok_or _ (@?f hash) in _) _] =>
    specialize (Hb f) end.
  destruct (otraverse _ _) as [bs|e|]; simpl; [by split; [|eexists]| |done].
  destruct Hb as [e' ->]. by eexists.
Qed.

(** The heights of the executed blocks and of the tip. *)
Lemma executed_heights i0 l0 m (s : Assembler) bs :
  base_inv i0 l0 m s → executed (executor s) = bs ++ l0 →
  bi_height (last_executed_block_info s) = bi_height (tip i0 l0) + Z.of_nat (length bs) ∧
  reverse (cb_height <$> bs) = seqZ (bi_height (tip i0 l0) + 1) (Z.of_nat (length bs)).
Proof.
  intros Hb Hx. rewrite (inv_tip _ _ _ _ Hb).
  destruct (chain_heights _ _ _ (inv_grown _ _ _ _ Hb)) as (k & Hk & Ht & Hh).
  rewrite Hx in Hk. apply app_inv_tail in Hk as <-. done.
Qed.

Lemma headers_archived evs bs a lo :
  executed_certified <$> Service.blocks_of evs = reverse bs →
  reverse (cb_height <$> bs) = seqZ (lo + 1) (Z.of_nat (length bs)) →
  (∀ h, lo < h → header_at a h = Ok None) →
  (∀ b, b ∈ bs → ∃ header, header_hash header = hash_view (cb_hash b) ∧
     header_at (Service.archived evs a) (cb_height b) = Ok (Some header)) ∧
  ∀ h, lo + Z.of_nat (length bs) < h → header_at (Service.archived evs a) h = Ok None.
Proof.
  intros Hb Hh Ha.
  assert (cb_height ∘ executed_certified <$> Service.blocks_of evs
          = seqZ (lo + 1) (Z.of_nat (length bs))) as Hs.
  { by rewrite list_fmap_compose, Hb, fmap_reverse. }
  split.
  - intros b Hin. assert (b ∈ executed_certified <$> Service.blocks_of evs) as Hin'
      by by rewrite Hb, elem_of_reverse.
    apply list_elem_of_fmap in Hin' as (block & -> & Hblock).
    exists (header_of block). split; [apply header_of_hash|].
    apply header_found; [|done]. rewrite Hs. apply NoDup_seqZ.
  - intros h Hlt. rewrite header_other; [apply Ha; lia|]. apply Forall_forall. intros block Hin Heq.
    assert (h ∈ seqZ (lo + 1) (Z.of_nat (length bs))) as Hel.
    { rewrite <-Hs. apply list_elem_of_fmap. by exists block. }
    apply elem_of_seqZ in Hel. lia.
Qed.

(** C2 The node serves the chain it has executed.  After any session that began with an
    archive that has nothing above the last executed block, the heights of the executed
    blocks are consecutive, and for each of them: a query for the block at its height
    gives the header with the hash of this block, in versions 1 and 2, and a query
    for the certified block gives this block, with the batches of its payload, or an
    error of the store, but never another block and never that there is none.  Above the
    last executed block there is no block, and the latest block is the last executed. *)
Theorem node_serves_chain es (s s' : Assembler) answers :
  initial s →
  (∀ h, bi_height (last_executed_block_info s) < h →
        header_at (reader (api_state s)) h = Ok None) →
  node_session es s = (s', answers, true) →
  ∃ bs, executed (executor s') = bs ++ executed (executor s) ∧
    reverse (cb_height <$> bs)
      = seqZ (bi_height (last_executed_block_info s) + 1) (Z.of_nat (length bs)) ∧
    (∀ b, b ∈ bs →
       (∃ header, header_hash header = hash_view (cb_hash b) ∧
          let block := {| block_header := header; block_txns := None |} in
          block_by_height_v1 (api_state s') (cb_height b) false = Ok (Some block) ∧
          block_by_height_v2 (api_state s') (cb_height b) false = Ok block) ∧
       ∀ with_batches, serves_certified (api_state s') b with_batches) ∧
    (∀ h with_txns, bi_height (last_executed_block_info s') < h →
       block_by_height_v1 (api_state s') h with_txns = Ok None) ∧
    (∀ b bs', bs = b :: bs' →
       ∃ header, header_hash header = hash_view (cb_hash b) ∧
                 latest_block_v1 (api_state s') = Ok (Some header)).
Proof.
  intros Hi Ha Hs. pose proof Hi as (_ & _ & _ & _ & _ & Htip & _).
  destruct (node_session_inv _ _ es _ s s' answers (initial_good false s Hi) Hs)
    as [[m [Hb _]] (evs & os & bs & Hev & _ & _ & Hx & Hcert & Hplace)].
  destruct (executed_heights _ _ _ _ bs Hb Hx) as [Hle Hh]. rewrite <-Htip in Hle, Hh.
  destruct (inv_kept _ _ _ _ Hb) as (k & Hk & Hkept). rewrite Hx in Hk. apply app_inv_tail in Hk as <-.
  assert (reader (api_state s') = Service.archived evs (reader (api_state s))) as Harch
    by exact (session_archived evs os _ _ Hev Hplace).
  destruct (headers_archived evs bs (reader (api_state s)) _ Hcert Hh Ha) as [Hfound Habove].
  rewrite <-Harch in Hfound, Habove. rewrite <-Hle in Habove.
  exists bs. split_and!; [done..| | |].
  - intros b Hin. split.
    + destruct (Hfound b Hin) as (header & Hhash & Hat). exists header. split; [done|].
      unfold block_by_height_v1, block_by_height_v2, get_block_by_height, get_block_by_height_internal.
      unfold api, public, Api.archived. by rewrite Hat.
    + intros with_batches. by eapply certified_served; [|apply (proj1 (Forall_forall _ _) Hkept)].
  - intros h with_txns Hlt. unfold block_by_height_v1, get_block_by_height.
    unfold get_block_by_height_internal, api, public, Api.archived. by rewrite Habove.
  - intros b bs' ->. destruct (Hfound b ltac:(left)) as (header & Hhash & Hat).
    exists header. split; [done|]. unfold latest_block_v1.
    rewrite (latest_header _ _ _ Hat); [done|]. intros h Hlt. apply Habove.
    rewrite (inv_tip _ _ _ _ Hb), Hx. simpl. by rewrite block_info_height.
Qed.
End node.
