(* ===== verification/NodeExamples.v ===== *)
(** * A concrete node

    The in-memory chain of [Chain] with the REST interface on top: the archive is the
    list of the executed blocks, whose transactions are named by the items of their
    payload.  Blocks come out of order, between requests. *)

From S2P Require Import Prelude Gas Limiters Transactions ApiState Handlers Server.
From S2P Require Import Chain BlockStore Synchronizer BlockVerifier Assembler AssemblerSafety RpcNode.
From stdpp Require Import base tactics option list gmap strings pretty.
From Stdlib Require Import ZArith Lia.
Import ApiErr Api Submit Asm Mem MemNode.
Local Open Scope Z_scope.

#[export] Instance nd_types : ApiTypes := {|
  ApiState.Hash := Z; AccountAddress := Z; ChainId := Z; AnyhowError := string;
  ApiState.StoreError := Empty_set;
  SmrError := unit; BcsError := unit; MoveListErr := unit;
  SmrMoveTransaction := Z; SmrSupraTransaction := Z; SmrTransactionHeader := Z;
  MoveTransactionPayload := Z; EntryFunction := Z; MoveAuthenticator := Z; SignerData := Z;
  DkgPayload := Z; OraclePayload := Z; AutomatedTransactionMeta := Z;
  SerializedOutput := Z; MoveTransactionOutput := Z; ErrorCode := Z; KeptStatus := Z;
  AuxiliaryData := Z; ContractEvent := Z; ApiMovePayload := Z; ApiEvent := Z; MoveResource := Z;
  BlockHeaderInfo := block; NativeBlockStats := Z; ExecutedBlockStats := Z; TransactionV3 := Z;
  MoveStore := unit; StructTag := Z; TypeTag := Z; ApiState.Bytes := list Z;
  ResourceGroup := list (Z * list Z);
  ApiState.ChainStore := db; SchemaError := Empty_set; StoredCertifiedBlock := block;
  ApiState.CertifiedBlock := block; AuthorizedCommittee := Z; CommitteeAuthorization := Z;
  TxSender := unit; GasPriceReader := unit; RestLimiter := unit; FaucetServices := unit;
|}.

Definition nd_digest (t : SmrTransaction) : Z := match t with Smr_Move t | Smr_Supra t => t end.
Definition nd_transactions (b : block) : list SmrTransaction :=
  (Smr_Move : @SmrMoveTransaction nd_types → _) <$> mb_items b.
Definition nd_find (h : Z) (a : list block) : option SmrTransaction :=
  List.find (λ t, nd_digest t =? h) (a ≫= nd_transactions).

#[export] Instance nd_storage : StorageOps SmrTransaction ApiState.Hash := {|
  tx_digest := nd_digest;
  tx_expiration := nd_digest;
  Backlog := option SmrTransaction;
  BacklogError := unit;
  backlog_insert t b := (Some t, Ok tt);
  backlog_get h b :=
    match b with Some t => if nd_digest t =? h then Some t else None | None => None end;
  backlog_expire ts b :=
    match b with Some t => if nd_digest t <? ts then None else b | None => None end;
  backlog_finalize t b :=
    match b with Some t' => if nd_digest t' =? nd_digest t then None else b | None => None end;
  max_backlog_transaction_time_to_live_seconds _ := 60;
  Archive := list block;
  ArchiveError := unit;
  Transactions.Block := block;
  block_timestamp _ := 0;
  block_transactions := nd_transactions;
  AutomationTask := Z;
  archive_get_transaction h a := Ok (nd_find h a);
  archive_get_status h a := Ok ((λ _, St_Success) <$> nd_find h a);
  archive_insert_block b a := b :: a;
  archive_insert_tasks _ a := (a, Ok tt);
|}.

#[export] Instance nd_storage_laws : StorageLaws SmrTransaction ApiState.Hash.
Proof.
  constructor; simpl.
  - intros t b b' [= <-]. by rewrite Z.eqb_refl.
  - intros t [t'|]; [|done]. destruct (nd_digest t' =? nd_digest t) eqn:E; [done|]. by rewrite E.
  - intros t h [t'|]; [|by left]. destruct (nd_digest t' =? nd_digest t); [by left|by right].
  - intros ts h [t'|]; [|by left]. destruct (nd_digest t' <? ts); [by left|by right].
Defined.

(** The header of a block is the block. *)
Definition nd_header (a : list block) (h : Z) : option block :=
  List.find (λ b, clamp (mb_height b) =? h) a.
Definition nd_top (a : list block) : Z := foldr (λ b m, Z.max (clamp (mb_height b)) m) 0 a.

#[export] Instance nd_ops : ApiOps := {|
  anyhow m := m;
  show_hash := pretty; show_account := pretty; show_error_code := pretty;
  move_payload t := t; move_authenticator t := t; move_header t := t; entry_function f := f;
  supra_signer_data t := t; supra_header t := t; supra_payload t := SmrPayload_Dkg t;
  meta_into_inner m := (0, 0, 0, 0, m);
  header_new _ i _ _ _ _ := i;
  task_max_gas_amount t := t; task_expiry_time t := t; task_payload t := t; task_tx_hash t := t;
  header_hash := mb_hash; header_height b := clamp (mb_height b);
  as_move o := Some o; execution_status _ := St_Success;
  mto_events _ := []; mto_gas_used o := o; mto_transaction_status _ := Keep (0 : @KeptStatus nd_types);
  mto_auxiliary_data _ := 0; stats_from n := n;
  txn_from_info i := info_hash i; txn_from_meta m := meta_hash m;
  try_into_transaction_payload _ p := Ok p; try_into_events _ l := Ok l;
  explain_vm_status _ _ _ := "Executed successfully";
  find_resource _ _ _ := Ok None; try_into_resource _ t _ := Ok t;
  get_resource_group_bytes _ _ _ := Ok None; bcs_resource_group _ := Err tt;
  resource_group_items g := g;
  get_txn_output a h := Ok ((λ _, h) <$> nd_find h a);
  get_block_hash_by_txn_hash a h :=
    Ok (mb_hash <$> List.find (λ b, existsb (Z.eqb h) (mb_items b)) a);
  get_block_header_info a h := Ok (List.find (λ b, mb_hash b =? h) a);
  get_block_header_info_by_height a h := Ok (nd_header a h);
  get_latest_block_header_info a := Ok (nd_header a (nd_top a));
  get_txs_by_block_height a h := Ok (match nd_header a h with Some b => mb_items b | None => [] end);
  get_automated_txs_by_block_height _ h := Ok [];
  get_automated_transaction_data _ h := Ok None; is_block_metadata_hash _ h := Ok false;
  get_block_metadata_hash_by_block_height _ h := Ok None; get_block_stats_by_block_height _ h := Ok None;
  get_transaction_hashes_by_account _ _ _ n := Ok [];
  get_coin_transaction_hashes_by_account _ _ _ n := Ok ([], 0);
  get_automated_transaction_hashes_by_account _ _ _ _ _ n := Ok ([], None);
  archive_get_events_by_type _ _ _ _ := Ok [];
  get_events_by_type_with_limit_and_context _ _ _ _ n _ := Ok ([], None);
  certified_block_iter_end _ := [];
  ApiState.certified_block_read d h := Ok (db_blocks d !! h);
  schema_error e := e; ApiState.hydrate _ b := Ok b; certified_height b := clamp (mb_height b);
  certified_items := mb_items;
  ApiState.batch_read_bytes d k := Ok (db_batches d !! k);
  epoch_authorized_committee_read _ _ := Ok None; committee_authorization c := c;
|}.

#[export] Instance nd_error_types : ErrorTypes := {|
  RpcClientErr := unit; IoError := unit; Handlers.ExecutionError := unit; TomlError := unit;
  SerdeJsonError := unit; Duration := Z; FaucetLimiterErr := unit; SnapshotError := unit;
  PartialVMError := unit; AssemblerErr := unit; GenesisBlobErr := unit; FileIOError := unit;
  ConsoleError := unit; TakeVariantErr := unit;
|}.

#[export] Instance nd_error_texts : ErrorTexts := {|
  show_rpc_client _ := ""; show_serde_json _ := ""; show_anyhow m := m; debug_anyhow m := m;
  debug_duration := pretty; show_faucet_limiter _ := ""; debug_snapshot _ := "";
  debug_genesis_blob _ := ""; debug_vm_message _ := ""; debug_assembler _ := "";
  debug_console _ := ""; debug_take_variant _ := ""; debug_move_list _ := "";
  debug_archive _ := ""; debug_store _ := ""; debug_smr _ := ""; debug_bcs _ := "";
|}.

#[export] Instance nd_handler_ops : HandlerOps := {|
  DEFAULT_SIZE_OF_PAGE := 3; MAX_NUM_OF_TRANSACTIONS_TO_RETURN := 4;
  to_canonical_string := pretty; hex_encode _ := ""; hex_decode _ := None;
  TransactionInfoV1 := Z * TxExecutionStatus; info_v1 i := (info_hash i, info_status i);
  AccountResource := Z; read_account_resource _ _ := None; sequence_number a := a;
  authentication_key a := Ok a;
  struct_tag_from_str _ := Ok 0; identifier_from_str i := Ok i; type_tag_from_str _ := Ok 0;
  struct_type_tag t := t;
  MoveValue := Z; get_resource _ _ _ := Ok None; try_into_move_value _ t _ := Ok t;
  ModuleId := Z; module_id_new a _ := a; show_module_id := pretty; get_module _ _ := Ok None;
  MoveModule := Z; module_deserialize _ := Ok 0;
  JsonValue := Z; VmValue := Z; try_into_vm_value _ _ v := Ok v; read_table_item _ _ _ := Ok None;
  ViewRequest := unit; ViewFunction := unit; MoveType := Z;
  convert_view_function _ _ := Ok tt; function_return_types _ _ := Ok [];
  type_tag_try_from t := Ok t; execute_view_function _ _ := Ok [];
|}.

#[export] Instance nd_lru : LruCache (LimitInstance Z Z Z) Z unit := {
  lru_new _ := tt; lru_get _ c := (None, c); lru_put _ _ c := c;
}.

#[export] Instance nd_service : ServiceEnv := {|
  LAccount := Z; LPublicKey := Z; LByte := Z; Instant := Z; Cache := unit; Strategy := unit;
  service_cache := nd_lru;
  should_allow _ _ _ := inr tt;
  SignedTransaction := Z; SmrSigned := Z; move_sender t := t; smr_signer t := t;
  smr_from t := Smr_Move (match t with ST_Move t => t | ST_Smr t => t end : @SmrMoveTransaction nd_types);
  Server.verify _ _ := Ok tt; join_error := "";
  Net := Z; rpc_send _ w := (w + 1, Ok tt); debug_rpc_client _ := ""; show_backlog_error _ := "";
  verify_signature t := false; simulate t _ := t; smr_move_txn t := t; smr_digest t := t;
  TransactionKind := bool; MoveVm := true;
|}.

#[export] Instance nd_view : NodeView := {|
  chain_view d := d : @ApiState.ChainStore nd_types;
  stored_view b := b : @StoredCertifiedBlock nd_types;
  certified_view b := b : @ApiState.CertifiedBlock nd_types;
  store_error_view e := e : @ApiState.StoreError nd_types;
  item_view k := k : @ApiState.Hash nd_types;
  bytes_view v := v : @ApiState.Bytes nd_types;
  hash_view h := h : @ApiState.Hash nd_types;
  executed_certified b := b;
  header_of b := b : @BlockHeaderInfo nd_types;
|}.

Lemma nd_header_height a h b : nd_header a h = Some b → clamp (mb_height b) = h ∧ b ∈ a.
Proof.
  intros [Hin Hh]%List.find_some. apply Z.eqb_eq in Hh. split; [done|]. by apply list_elem_of_In.
Qed.

Lemma nd_header_none a h : nd_header a h = None → ∀ b, b ∈ a → clamp (mb_height b) ≠ h.
Proof.
  intros Hn b Hb Heq. apply list_elem_of_In in Hb.
  pose proof (List.find_none _ _ Hn _ Hb) as Hf. simpl in Hf. by apply Z.eqb_neq in Hf.
Qed.

Lemma nd_top_spec a h b :
  nd_header a h = Some b → (∀ h', h < h' → nd_header a h' = None) → nd_top a = h.
Proof.
  intros [Hh Hin]%nd_header_height Hn.
  assert (∀ c, c ∈ a → clamp (mb_height c) ≤ h) as Hle.
  { intros c Hc. destruct (decide (clamp (mb_height c) ≤ h)) as [|Hgt]; [done|].
    by destruct (nd_header_none _ _ (Hn (clamp (mb_height c)) ltac:(lia)) c Hc). }
  assert (0 ≤ h) as Hpos by (subst; unfold clamp; lia). clear Hn.
  assert (∀ l, (∀ c, c ∈ l → clamp (mb_height c) ≤ h) → nd_top l ≤ h) as Hup.
  { induction l as [|c l IH]; intros Hl; simpl; [lia|].
    pose proof (Hl c ltac:(left)). specialize (IH ltac:(intros; apply Hl; by right)). lia. }
  assert (∀ l, b ∈ l → clamp (mb_height b) ≤ nd_top l) as Hlow.
  { induction l as [|c l IH]; [by intros ?%not_elem_of_nil|].
    intros [->|Hl]%elem_of_cons; simpl; [lia|specialize (IH Hl); lia]. }
  specialize (Hup a Hle). specialize (Hlow a Hin). lia.
Qed.

#[export] Instance nd_view_laws : NodeViewLaws.
Proof.
  constructor; try done.
  - intros st h. simpl. by destruct (db_blocks st !! h).
  - intros st k. simpl. f_equal. symmetry. apply option_fmap_id.
  - intros b. simpl. by rewrite list_fmap_id.
  - intros b a h. simpl. unfold nd_header. simpl.
    destruct (Z.eqb_spec (clamp (mb_height b)) h) as [<-|Hne]; [by rewrite decide_True|].
    by rewrite decide_False by congruence.
  - intros a h header [= Ha] Hn. simpl. rewrite (nd_top_spec a h header); [by rewrite Ha|done|].
    intros h' Hlt. specialize (Hn h' Hlt). by injection Hn.
Qed.

(** ** The executor *)
Record nd_executor := { nx_service : TxNode; nx_executed : list block }.

Definition nd_events (b : block) : list Service.Event :=
  [Service.Executed (b : Transactions.Block) [100] (tt : MoveStore)].

#[export] Instance nd_block_executor : TBlockExecutor nd_executor := {|
  executor_execute_block b _ x :=
    let (n, os) := Service.session (nd_events b) (nx_service x) in
    if forallb is_ok os
    then ({| nx_service := n; nx_executed := b :: nx_executed x |}, Ok (mb_hash b =? 999))
    else (x, Err (tt : ExecutionError));
|}.

#[export] Instance nd_executor_spec : TBlockExecutorSpec nd_executor.
Proof.
  refine {| executed := nx_executed |}. intros b c x.
  unfold executor_execute_block, nd_block_executor.
  destruct (Service.session (nd_events b) (nx_service x)) as [n os]. by destruct (forallb is_ok os).
Defined.

#[export] Instance nd_shared : SharedExecutor nd_executor := {|
  service := nx_service;
  set_service n x := {| nx_service := n; nx_executed := nx_executed x |};
|}.

#[export] Instance nd_shared_laws : SharedExecutorLaws (X:=nd_executor).
Proof.
  constructor; [done..|]. intros b c x x' changed.
  unfold executor_execute_block, nd_block_executor.
  destruct (Service.session (nd_events b) (nx_service x)) as [n os] eqn:Hs.
  destruct (forallb is_ok os) eqn:Hok; [|done]. intros [= <- _].
  exists (nd_events b), os, b. split_and!; [by repeat constructor|done..|].
  apply Forall_forall. intros o Ho. rewrite List.forallb_forall in Hok.
  by apply Hok, list_elem_of_In.
Qed.

(** ** A session *)
Definition nd_gas : GasMonitor bool :=
  match Monitor.gas_monitor (E:=Error) true with
  | Ok g => g
  | _ => {| gas_writers := ∅; gas_cells := ∅ |}
  end.

Definition nd_started : TxNode := {|
  tn_state := {|
    storage := {| Storage.archive := [root_block] : Archive; Storage.backlog := (None : Backlog) |};
    move_store := (tt : MoveStore); Api.store := (empty_db : @ApiState.ChainStore nd_types);
    tx_sender := (tt : TxSender); gas_price_reader := (tt : GasPriceReader);
    rest_call_limiter := None; faucet_state := None; chain_id := (8 : ChainId) |};
  tn_limiter := None; tn_net := (0 : Net); tn_gas := nd_gas; tn_simulations := 0;
|}.

Definition nd_node : Type :=
  ChainStateAssembler BlockStore BlockVerifier nd_executor (list (RpcServerMessage unit)).

Definition nd_fresh : nd_node :=
  Build_ChainStateAssembler _ _ _ _ _ {| nx_service := nd_started; nx_executed := [] |}
    (block_info root_block) None (Sync.new []) initialized fresh_verifier [].

Lemma nd_fresh_initial : initial nd_fresh.
Proof.
  split_and!; try reflexivity; [exact initialized_sim|]. exists root_block. by split.
Qed.

Definition nd_full (h hash parent item : Z) : FullBlock :=
  {| base := Mem.Block h 1 hash parent true [item];
     batches := [{| psb_key := item; psb_batch := [7; item] |}] |}.

(** Transaction 9 is submitted, and is pending until block 1 is executed. *)
Definition nd_session : list NodeEvent := [
  Rest (Req_Submit (ST_Move (9 : SignedTransaction)) (0 : Instant) (0 : Instant));
  Consensus (T_block (Some (nd_full 2 102 101 12)));
  Rest (Req_ByHash_v2 (9 : @ApiState.Hash nd_types));
  Consensus (T_block (Some (nd_full 1 101 100 9)));
  Rest (Req_ByHash_v2 (9 : @ApiState.Hash nd_types));
  Consensus T_ready].

Lemma nd_session_alive : (node_session nd_session nd_fresh).2 = true.
Proof. vm_compute. reflexivity. Qed.

Lemma nd_session_run :
  node_session nd_session nd_fresh
  = ((node_session nd_session nd_fresh).1.1, (node_session nd_session nd_fresh).1.2, true).
Proof. rewrite <-nd_session_alive. by destruct (node_session nd_session nd_fresh) as [[] ?]. Qed.

Lemma node_refines_service_witness :
  ∃ evs os bs, Service.session evs nd_started
               = (service (executor (node_session nd_session nd_fresh).1.1), os) ∧
    client_requests evs = requests nd_session ∧
    executed_certified <$> Service.blocks_of evs = reverse bs ∧
    executed (executor (node_session nd_session nd_fresh).1.1) = bs ++ [] ∧
    mb_hash <$> bs = [102; 101].
Proof.
  destruct (node_refines_service false nd_session nd_fresh _ _ nd_fresh_initial nd_session_run)
    as (evs & os & bs & Hs & Hq & _ & Hb & Hx & _).
  exists evs, os, bs. split; [exact Hs|]. split; [exact Hq|]. split; [exact Hb|].
  split; [exact Hx|]. change (executed (executor nd_fresh)) with (@nil block) in Hx.
  rewrite app_nil_r in Hx. rewrite <-Hx. vm_compute. reflexivity.
Defined.

Lemma node_serves_chain_witness :
  ∃ bs, executed (executor (node_session nd_session nd_fresh).1.1) = bs ++ [] ∧
    mb_hash <$> bs = [102; 101] ∧
    (∀ b, b ∈ bs → serves_certified (api_state (node_session nd_session nd_fresh).1.1) b true).
Proof.
  assert (∀ h, bi_height (last_executed_block_info nd_fresh) < h →
    get_block_header_info_by_height (reader (api_state nd_fresh)) h = Ok None) as Ha.
  { intros h Hlt. change (Ok (nd_header [root_block] h) = (Ok None : outcome ArchiveError (option block))).
    unfold nd_header. cbn [List.find]. destruct (Z.eqb_spec (clamp (mb_height root_block)) h) as [Heq|];
      [|reflexivity].
    exfalso. rewrite <-Heq in Hlt. revert Hlt. vm_compute. discriminate. }
  destruct (node_serves_chain false nd_session nd_fresh _ _ nd_fresh_initial Ha nd_session_run)
    as (bs & Hx & _ & Hb & _).
  exists bs. split; [exact Hx|]. change (executed (executor nd_fresh)) with (@nil block) in Hx.
  rewrite app_nil_r in Hx. split; [rewrite <-Hx; vm_compute; reflexivity|].
  intros b Hin. apply (proj2 (Hb b Hin)).
Defined.
