(* ===== verification/Startup.v ===== *)
(** * Start of a node ([src/rpc_node/src/cli/start_server.rs])

    The steps from the configuration to the running server: databases, genesis,
    epoch manager, client, assembler, pruner, API state with the faucet, routes.
    The components are started by other crates or modelled in other files; here
    they are calls on an environment, and the calls that change data or start a
    task are recorded. *)

From S2P Require Import Prelude Authorization Transactions ApiState Router.
From stdpp Require Import base tactics option list strings.
From Stdlib Require Import ZArith Lia.
Local Open Scope Z_scope.

Inductive Database : Type := Db_ChainStore | Db_Ledger | Db_Archive.
Inductive SmrDkgCommitteeType : Type := Committee_Smr | Committee_Dkg.
#[export] Instance SmrDkgCommitteeType_dec : EqDecision SmrDkgCommitteeType.
Proof. solve_decision. Defined.

(** What the code reads of the configuration of a database. *)
Record StorageConfig (Tables : Type) := {
  is_well_formed_rocks_db : outcome string unit;
  db_path : option string;
  db_tables : option Tables;
  is_pruning_enabled : bool;
}.
Arguments is_well_formed_rocks_db {Tables}.
Arguments db_path {Tables}.
Arguments db_tables {Tables}.
Arguments is_pruning_enabled {Tables}.

Record DatabaseSetup (Tables : Type) := {
  storage_config_unchecked : Database → StorageConfig Tables;
  (** [epochs_to_retain] of the pruning configuration. *)
  prune_config : option Z;
}.
Arguments storage_config_unchecked {Tables}.
Arguments prune_config {Tables}.

Record RpcWsSync := {
  root_ca_cert_path : option string; cert_path : string; private_key_path : string;
  consensus_rpc : string;
}.
Record RpcRestSync := {
  rest_endpoint : string; request_latest_height : bool; poll_interval_milliseconds : Z;
  access_token : string; capacity : option Z;
}.
Inductive RpcSync : Type :=
| Sync_Ws (s : RpcWsSync)
| Sync_Rest (s : RpcRestSync).

Record FaucetSettings := {
  minter_count : Z; quants_granted_per_request : Z;
  max_daily_requests : Z; cooldown_period_in_seconds : Z;
}.

(** [RestConnectionSetupConfiguration::new] with its arguments. *)
Record RestConnection := {
  rc_endpoint : string; rc_token : string; rc_submit : string; rc_latest_block : option string;
  rc_latest_consensus_block : string; rc_consensus_block : string;
  rc_committee_authorization : string; rc_poll_interval : Z; rc_capacity : Z;
}.

(** [committees()] of the configuration: the type of a committee with the identity
    and the class group key of its members. *)
Record CommitteeItem (Identity Key : Type) := {
  ci_name : SmrDkgCommitteeType;
  ci_members : list (Identity * Key);
}.
Arguments ci_name {Identity Key}.
Arguments ci_members {Identity Key}.

(** Recorded calls. *)
Inductive Event (Token : Type) : Type :=
| Removed (path : string)
| Opened (db : Database) (path : string)
| CommitteeReset
| SnapshotScheduler
| PrunerSpawned (epochs_to_retain : Z) (tasks : list Database)
| EpochManagerSpawned
| AssemblerSpawned
| ValidatorRun
| FaucetTask (minters : Z)
| Bound
| Served (chain_spec : option Z) (app : option (Root Token))
| ShutdownNotified.
Arguments Removed {Token}.
Arguments Opened {Token}.
Arguments CommitteeReset {Token}.
Arguments SnapshotScheduler {Token}.
Arguments PrunerSpawned {Token}.
Arguments EpochManagerSpawned {Token}.
Arguments AssemblerSpawned {Token}.
Arguments ValidatorRun {Token}.
Arguments FaucetTask {Token}.
Arguments Bound {Token}.
Arguments Served {Token}.
Arguments ShutdownNotified {Token}.

(** The process: its environment, the cached chain specification, the calls. *)
Record Proc (W Token : Type) := {
  env : W;
  chain_spec : option Z;
  log : list (Event Token);
}.
Arguments env {W Token}.
Arguments chain_spec {W Token}.
Arguments log {W Token}.

Section calls.
Context {W Token E : Type}.
Notation P := (Proc W Token).

(** A call that is not recorded, and one that is. *)
Definition quiet {A} (op : M W E A) : M P E A :=
  rzoom env (λ w p, {| env := w; chain_spec := chain_spec p; log := log p |}) id op.
Definition record (ev : Event Token) : M P E unit :=
  rmodify (λ p, {| env := env p; chain_spec := chain_spec p; log := log p ++ [ev] |}).
Definition call {A} (ev : Event Token) (op : M W E A) : M P E A :=
  rthen (record ev) (λ _, quiet op).

Lemma wp_quiet {A} (op : M W E A) (Q : outcome E A → P → Prop) p :
  (∀ o w, Q o {| env := w; chain_spec := chain_spec p; log := log p |}) → wp (quiet op) Q p.
Proof.
  intros HQ. unfold quiet. apply wp_zoom. unfold wp. destruct (op (env p)) as [w o].
  simpl. destruct o; apply HQ.
Qed.

Lemma wp_call {A} ev (op : M W E A) (Q : outcome E A → P → Prop) p :
  (∀ o w, Q o {| env := w; chain_spec := chain_spec p; log := log p ++ [ev] |}) →
  wp (call ev op) Q p.
Proof. intros HQ. unfold call, record. wp_steps. by apply wp_quiet. Qed.

(** A run records the calls [l], all of them if it succeeds. *)
Definition traces {A} (m : M P E A) (l : list (Event Token)) : Prop :=
  ∀ p, ∃ done, log (m p).1 = log p ++ done ∧ done `prefix_of` l ∧
               (is_ok (m p).2 = true → done = l).

Lemma traces_silent {A} (m : M P E A) : (∀ p, log (m p).1 = log p) → traces m [].
Proof. intros Hm p. exists []. rewrite Hm, app_nil_r. by split_and!; [|exists []|]. Qed.

Lemma traces_lift {A} (o : outcome E A) : traces (rlift o) [].
Proof. by apply traces_silent. Qed.
Lemma traces_ret {A} (a : A) : traces (rret a) [].
Proof. by apply traces_silent. Qed.

Lemma traces_call {A} ev (op : M W E A) : traces (call ev op) [ev].
Proof.
  intros p. exists [ev]. split_and!; [|done..].
  unfold call, quiet, record, rthen, rzoom, rmodify. simpl. by destruct (op (env p)).
Qed.

(** A step that does not return [Ok] ends the run. *)
Lemma traces_then {A B} (m : M P E A) (k : A → M P E B) l l' :
  traces m l → (∀ p p' a, m p = (p', Ok a) → traces (k a) l') → traces (rthen m k) (l ++ l').
Proof.
  intros Hm Hk p. destruct (Hm p) as (d & Hd & Hpre & Hok). unfold rthen.
  destruct (m p) as [p' [a|e|]] eqn:Hrun; simpl in *.
  - rewrite (Hok eq_refl) in Hd. destruct (Hk p p' a Hrun p') as (d' & Hd' & Hpre' & Hok').
    exists (l ++ d'). rewrite Hd', Hd, app_assoc. split_and!; [done|by apply prefix_app|].
    intros Hk'%Hok'. by rewrite Hk'.
  - exists d. split_and!; [done|by apply prefix_app_r|done].
  - exists d. split_and!; [done|by apply prefix_app_r|done].
Qed.
End calls.

(** What the node uses of the other crates.  Errors are converted into the errors
    of the node where they arise. *)
Class StartEnv `{ApiOps} : Type := {
  W : Type;
  StartError : Type;
  SetupError : string → StartError;
  start_anyhow : string → StartError;
  Tables : Type;
  debug_database_setup : DatabaseSetup Tables → string;
  (** Configuration and logging. *)
  BacklogParameters : Type;
  LimitingStrategy : Type;
  Digest : Type;
  IpAddr : Type;
  RpcConfig : Type;
  read_from_file : M W StartError RpcConfig;
  is_well_formed : RpcConfig → outcome string unit;
  resume : RpcConfig → bool;
  database_setup : RpcConfig → DatabaseSetup Tables;
  synchronization : RpcConfig → RpcSync;
  faucet_settings : RpcConfig → option FaucetSettings;
  limiting_strategy : RpcConfig → option LimitingStrategy;
  backlog_parameters : RpcConfig → BacklogParameters;
  consensus_access_tokens : RpcConfig → list (KycToken Digest IpAddr);
  certified_block_cache_bucket_size : RpcConfig → Z;
  sync_retry_interval_in_secs : RpcConfig → Z;
  block_provider_is_trusted : RpcConfig → bool;
  server_list_ok : RpcConfig → outcome StartError unit;
  server_cors : RpcConfig → option unit;
  SupraCommitteesConfig : Type;
  Identity : Type;
  CgKey : Type;
  supra_committee_config : RpcConfig → M W StartError SupraCommitteesConfig;
  committees : SupraCommitteesConfig → list (CommitteeItem Identity CgKey);
  get_random_port : M W StartError Z;
  LogFilterReload : Type;
  init_runtime_logger : Z → M W StartError LogFilterReload;
  setup_panic_hook : M W StartError unit;
  spawn_console : Z → LogFilterReload → M W StartError unit;
  stop_console : M W StartError unit;
  (** Databases. *)
  Ledger : Type;
  ArchiveDb : Type;
  remove_and_backup_directory : string → M W StartError unit;
  open_chain_store : string → Tables → M W StartError ChainStore;
  open_ledger : string → M W StartError Ledger;
  reset_db_committee : Ledger → list (Identity * CgKey) → M W StartError unit;
  open_archive : string → Tables → ChainStore → M W StartError ArchiveDb;
  setup_database_snapshot_scheduler :
    DatabaseSetup Tables → ChainStore → ArchiveDb → Ledger → M W StartError unit;
  (** Genesis and the chain. *)
  GenesisBlob : Type;
  genesis_from_file : M W StartError GenesisBlob;
  load_or_create_genesis : GenesisBlob → ChainStore → M W StartError (GenesisBlob * MoveStore);
  move_store_chain_id : MoveStore → option ChainId;
  chain_id_number : ChainId → Z;
  spec_is_mainnet : option Z → bool;
  (** Components. *)
  new_storage : ArchiveDb → MoveStore → BacklogParameters → Storage.RpcStorage SmrTransaction Hash;
  gas_monitor : M W StartError GasPriceReader;
  EpochManager : Type;
  CertifierSender : Type;
  epoch_manager_new : ChainStore → GenesisBlob → MoveStore → M W StartError (EpochManager * CertifierSender);
  Executor : Type;
  executor_new : Storage.RpcStorage SmrTransaction Hash → SupraCommitteesConfig → EpochManager →
    Ledger → ChainStore → Executor;
  Client : Type;
  TlsConnector : Type;
  tls_connector : option string → string → string → M W StartError TlsConnector;
  (** [new_with] and [validate]. *)
  validate_ws : string → TlsConnector → outcome string unit;
  connect_ws : string → TlsConnector → M W StartError Client;
  connect_rest : RestConnection → M W StartError Client;
  RPC_TRANSACTION_FORWARD_CHANNEL_SIZE : Z;
  middleware_init : Client → CertifierSender → M W StartError CertifierSender;
  AssemblerStore : Type;
  (** [BlockStore::new] and [initialize]. *)
  block_store_initialize : ChainStore → Z → GenesisBlob → M W StartError AssemblerStore;
  Assembler : Type;
  assembler_new : AssemblerStore → EpochManager → bool → Executor → Client → Z → M W StartError Assembler;
  pruner_build : Z → list Database → ChainStore → ArchiveDb → EpochManager → M W StartError unit;
  spawn_epoch_manager : EpochManager → CertifierSender → M W StartError unit;
  spawn_assembler : Assembler → M W StartError unit;
  (** The dispatcher with its consumers in order. *)
  dispatcher : Storage.RpcStorage SmrTransaction Hash → Client → TxSender;
  rest_call_limiter_of : LimitingStrategy → RestLimiter;
  faucet_state_empty : Z → Z → Z → FaucetServices;
  spawn_faucet : Z → TxSender → Storage.RpcStorage SmrTransaction Hash → MoveStore → Z → FaucetServices →
    M W StartError unit;
  (** Binding the address, and running the workers with their application until
      the server is stopped, with its result. *)
  bind_server : RpcConfig → M W StartError unit;
  run_server : RpcConfig → option (Root (KycToken Digest IpAddr)) →
    M W StartError (outcome StartError unit);
  notify_and_wait_for_shutdown : M W StartError unit;
}.

(** ** The RPC node *)
Module Start.
Section start.
Context `{StartEnv}.
Local Open Scope rust_scope.
Notation Token := (KycToken Digest IpAddr).
Notation Run := (M (Proc W Token) StartError).

Definition lift {A} (o : outcome StartError A) : Run A := rlift o.

(** The members of the SMR committees. *)
Definition committee_members (committee_config : SupraCommitteesConfig) : list (Identity * CgKey) :=
  List.concat (map ci_members
    (List.filter (λ item, bool_decide (ci_name item = Committee_Smr)) (committees committee_config))).

Definition clean_dkg_data_from_ledger (ledger : Ledger) (committee_config : SupraCommitteesConfig)
    : Run unit :=
  call CommitteeReset (reset_db_committee ledger (committee_members committee_config)).

Definition check_well_formed (name : string) (config : StorageConfig Tables) : Run unit :=
  lift (omap_err (λ e, SetupError (name +:+ ": " +:+ e)) (is_well_formed_rocks_db config)).

Definition clear (config : StorageConfig Tables) : Run unit :=
  path <- lift (expect (db_path config)) ;;
  call (Removed path) (remove_and_backup_directory path).

Definition setup_databases (config : RpcConfig) (committee_config : SupraCommitteesConfig)
    : Run (ChainStore * ArchiveDb * Ledger) :=
  let store_config := storage_config_unchecked (database_setup config) Db_ChainStore in
  let ledger_config := storage_config_unchecked (database_setup config) Db_Ledger in
  let archive_config := storage_config_unchecked (database_setup config) Db_Archive in
  check_well_formed "ChainStore" store_config ;;
  check_well_formed "Ledger" ledger_config ;;
  check_well_formed "Archive" archive_config ;;
  (if negb (resume config)
   then (clear store_config ;; clear ledger_config ;; clear archive_config)
   else rret tt) ;;
  path <- lift (expect (db_path store_config)) ;;
  tables <- lift (expect (db_tables store_config)) ;;
  store <- call (Opened Db_ChainStore path) (open_chain_store path tables) ;;
  path <- lift (expect (db_path ledger_config)) ;;
  ledger <- call (Opened Db_Ledger path) (open_ledger path) ;;
  clean_dkg_data_from_ledger ledger committee_config ;;
  path <- lift (expect (db_path archive_config)) ;;
  tables <- lift (expect (db_tables archive_config)) ;;
  archive_db <- call (Opened Db_Archive path) (open_archive path tables store) ;;
  call SnapshotScheduler
    (setup_database_snapshot_scheduler (database_setup config) store archive_db ledger) ;;
  rret (store, archive_db, ledger).

Definition setup_prune_scheduler (settings : RpcConfig) (store : ChainStore) (archive_db : ArchiveDb)
    (epoch_manager : EpochManager) : Run unit :=
  let setup := database_setup settings in
  let store_db_pruning_enabled := is_pruning_enabled (storage_config_unchecked setup Db_ChainStore) in
  let archive_db_pruning_enabled := is_pruning_enabled (storage_config_unchecked setup Db_Archive) in
  if negb store_db_pruning_enabled && negb archive_db_pruning_enabled then rret tt
  else
    match prune_config setup with
    | None => rfail (start_anyhow ("Invalid database configuration, pruning for configured db(s) is(are)enabled but no pruning config is specified: "
                                   +:+ debug_database_setup setup))
    | Some epochs_to_retain =>
        let tasks := (if store_db_pruning_enabled then [Db_ChainStore] else [])
                       ++ (if archive_db_pruning_enabled then [Db_Archive] else []) in
        call (PrunerSpawned epochs_to_retain tasks)
          (pruner_build epochs_to_retain tasks store archive_db epoch_manager)
    end.

(** The paths are those of the OpenAPI attributes of the handlers. *)
Definition rest_connection (s : RpcRestSync) : RestConnection := {|
  rc_endpoint := rest_endpoint s; rc_token := access_token s;
  rc_submit := doc_path v1.submit_txn;
  rc_latest_block := if request_latest_height s then Some (doc_path v2.latest_block) else None;
  rc_latest_consensus_block := doc_path v2.latest_consensus_block;
  rc_consensus_block := doc_path v2.consensus_block;
  rc_committee_authorization := doc_path v2.committee_authorization;
  rc_poll_interval := poll_interval_milliseconds s;
  rc_capacity := default RPC_TRANSACTION_FORWARD_CHANNEL_SIZE (capacity s);
|}.

(** [expect] on the certificates. *)
Definition setup_client (config : RpcConfig) : Run Client :=
  match synchronization config with
  | Sync_Ws s =>
      tls <- rtry (quiet (tls_connector (root_ca_cert_path s) (cert_path s) (private_key_path s))) ;;
      match tls with
      | inr _ => rpanic
      | inl connector =>
          lift (omap_err SetupError (validate_ws (consensus_rpc s) connector)) ;;
          quiet (connect_ws (consensus_rpc s) connector)
      end
  | Sync_Rest s => quiet (connect_rest (rest_connection s))
  end.

Definition set_chain_spec (id : Z) : Run unit :=
  rmodify (λ p, {| env := env p; chain_spec := Some id; log := log p |}).

Definition set_faucet_state (f : FaucetServices) (s : Api.ApiServerState) : Api.ApiServerState :=
  {| Api.storage := Api.storage s; Api.move_store := Api.move_store s; Api.store := Api.store s;
     Api.tx_sender := Api.tx_sender s; Api.gas_price_reader := Api.gas_price_reader s;
     Api.rest_call_limiter := Api.rest_call_limiter s; Api.faucet_state := Some f;
     Api.chain_id := Api.chain_id s |}.

(** The state of the server, and the task that prepares the minters. *)
Definition api_server_state (config : RpcConfig) (rpc_storage : Storage.RpcStorage SmrTransaction Hash)
    (txn_sender : TxSender) (move_store : MoveStore) (store : ChainStore)
    (gas_price_reader : GasPriceReader) : Run Api.ApiServerState :=
  state <- lift (Api.build move_store_chain_id
    {| Api.b_storage := Some rpc_storage; Api.b_move_store := Some move_store;
       Api.b_store := Some store; Api.b_tx_sender := Some txn_sender;
       Api.b_gas_price_reader := Some gas_price_reader;
       Api.b_rest_call_limiter := rest_call_limiter_of <$> limiting_strategy config;
       Api.b_faucet := None |}) ;;
  mainnet <- rgets (λ p, spec_is_mainnet (chain_spec p)) ;;
  match negb mainnet, faucet_settings config with
  | true, Some settings =>
      let faucet := faucet_state_empty (quants_granted_per_request settings)
                      (max_daily_requests settings) (cooldown_period_in_seconds settings) in
      call (FaucetTask (minter_count settings))
        (spawn_faucet (minter_count settings) txn_sender rpc_storage move_store
           (quants_granted_per_request settings) faucet) ;;
      rret (set_faucet_state faucet state)
  | _, _ => rret state
  end.

(** The application of a worker: it panics if the origins are not valid.  Static
    files of the guide and the API documentation are left out. *)
Definition application (config : RpcConfig) (state : Api.ApiServerState) : option (Root Token) :=
  match server_cors config with
  | Some _ => Some (Routes.rest_root_route state (consensus_access_tokens config))
  | None => None
  end.

(** The server until it is stopped; the other tasks are told whatever its result. *)
Definition serve (config : RpcConfig) (state : Api.ApiServerState) : Run unit :=
  lift (server_list_ok config) ;;
  call Bound (bind_server config) ;;
  spec <- rgets chain_spec ;;
  server_exit_result <- call (Served spec (application config state))
                          (run_server config (application config state)) ;;
  call ShutdownNotified notify_and_wait_for_shutdown ;;
  quiet stop_console ;;
  lift server_exit_result.

(** Configuration, ports, logger and console. *)
Definition prepare : Run (RpcConfig * SupraCommitteesConfig) :=
  config <- quiet read_from_file ;;
  lift (omap_err SetupError (is_well_formed config)) ;;
  committee_config <- quiet (supra_committee_config config) ;;
  port <- quiet get_random_port ;;
  tokio_console_port <- quiet get_random_port ;;
  log_filter_reload <- quiet (init_runtime_logger tokio_console_port) ;;
  quiet setup_panic_hook ;;
  quiet (spawn_console port log_filter_reload) ;;
  rret (config, committee_config).

Definition load_chain (store : ChainStore) : Run (GenesisBlob * MoveStore) :=
  blob <- quiet genesis_from_file ;;
  loaded <- quiet (load_or_create_genesis blob store) ;;
  chain_id <- lift (ok_or (move_store_chain_id loaded.2)
                      (SetupError "Chain id not found in onchain configuration")) ;;
  set_chain_spec (chain_id_number chain_id) ;;
  rret loaded.

(** An error of the epoch manager is a panic. *)
Definition new_epoch_manager (store : ChainStore) (blob : GenesisBlob) (move_store : MoveStore)
    : Run (EpochManager * CertifierSender) :=
  r <- rtry (quiet (epoch_manager_new store blob move_store)) ;;
  match r with inl m => rret m | inr _ => rpanic end.

Definition start_rpc_server : Run unit :=
  configs <- prepare ;;
  let '(config, committee_config) := configs in
  dbs <- setup_databases config committee_config ;;
  let '(store, archive_db, ledger) := dbs in
  chain <- load_chain store ;;
  let '(genesis_blob, move_store) := chain in
  let rpc_storage := new_storage archive_db move_store (backlog_parameters config) in
  gas_price_reader <- quiet gas_monitor ;;
  manager <- new_epoch_manager store genesis_blob move_store ;;
  let '(epoch_manager, tx_certifier) := manager in
  let exec_ctx := executor_new rpc_storage committee_config epoch_manager ledger store in
  rpc_client <- setup_client config ;;
  committee_certifier_sender <- quiet (middleware_init rpc_client tx_certifier) ;;
  assembler_store <- quiet (block_store_initialize store (certified_block_cache_bucket_size config)
                             genesis_blob) ;;
  assembler <- quiet (assembler_new assembler_store epoch_manager (block_provider_is_trusted config)
                        exec_ctx rpc_client (sync_retry_interval_in_secs config)) ;;
  setup_prune_scheduler config store archive_db epoch_manager ;;
  call EpochManagerSpawned (spawn_epoch_manager epoch_manager committee_certifier_sender) ;;
  call AssemblerSpawned (spawn_assembler assembler) ;;
  let txn_sender := dispatcher rpc_storage rpc_client in
  state <- api_server_state config rpc_storage txn_sender move_store store gas_price_reader ;;
  serve config state.

(** *** Properties *)
Implicit Types (p : Proc W Token) (l : list (Event Token)).

Lemma traces_clear config path :
  db_path config = Some path → traces (clear config) [Removed path].
Proof.
  intros Hpath. unfold clear. rewrite Hpath. apply (traces_then _ _ []); [apply traces_lift|].
  intros p p' a [= _ <-]. apply traces_call.
Qed.

Lemma traces_with_path {A} (config : StorageConfig Tables) path (k : string → Run A) l :
  db_path config = Some path → traces (k path) l → traces (rthen (lift (expect (db_path config))) k) l.
Proof.
  intros Hpath Hk. rewrite Hpath. apply (traces_then _ _ []); [apply traces_lift|].
  by intros p p' a [= _ <-].
Qed.

(** C21 The databases are set up in order and nothing is lost by mistake.  The
    calls of [setup_databases] are, up to the first that fails: if the node does
    not resume, the directories of the three databases are moved away, and then
    the store and the ledger are opened, the committee is reset, the archive is
    opened and the snapshots are scheduled.  If one of the configurations is
    invalid, the call fails before any of them. *)
Theorem databases_set_up config committee_config store_path ledger_path archive_path :
  let storage i := storage_config_unchecked (database_setup config) i in
  db_path (storage Db_ChainStore) = Some store_path →
  db_path (storage Db_Ledger) = Some ledger_path →
  db_path (storage Db_Archive) = Some archive_path →
  traces (setup_databases config committee_config)
    ((if resume config then []
      else [Removed store_path; Removed ledger_path; Removed archive_path])
     ++ [Opened Db_ChainStore store_path; Opened Db_Ledger ledger_path; CommitteeReset;
         Opened Db_Archive archive_path; SnapshotScheduler]) ∧
  ((∃ i, is_ok (is_well_formed_rocks_db (storage i)) = false) →
   ∀ p, log (setup_databases config committee_config p).1 = log p ∧
        is_ok (setup_databases config committee_config p).2 = false).
Proof.
  intros storage Hs Hl Ha. split.
  - unfold setup_databases. do 3 (apply (traces_then _ _ []); [apply traces_lift|intros _ _ _ _]).
    apply traces_then.
    { destruct (resume config); [apply traces_ret|].
      apply (traces_then _ _ [_] [_; _]); [by apply traces_clear|intros _ _ _ _].
      apply (traces_then _ _ [_] [_]); [by apply traces_clear|intros _ _ _ _].
      by apply traces_clear. }
    intros _ _ _ _. apply (traces_with_path _ _ _ _ Hs).
    apply (traces_then _ _ []); [apply traces_lift|intros _ _ tables _].
    apply (traces_then _ _ [_]); [apply traces_call|intros _ _ store _].
    apply (traces_with_path _ _ _ _ Hl).
    apply (traces_then _ _ [_]); [apply traces_call|intros _ _ ledger _].
    apply (traces_then _ _ [_]); [apply traces_call|intros _ _ _ _].
    apply (traces_with_path _ _ _ _ Ha).
    apply (traces_then _ _ []); [apply traces_lift|intros _ _ tables' _].
    apply (traces_then _ _ [_]); [apply traces_call|intros _ _ archive _].
    apply (traces_then _ _ [_] []); [apply traces_call|intros _ _ _ _; apply traces_ret].
  - intros [i Hi] p. unfold setup_databases, check_well_formed, lift, rthen, rlift.
    destruct (is_well_formed_rocks_db (storage_config_unchecked _ Db_ChainStore)) as [[]|e|] eqn:H1';
      simpl; try done.
    destruct (is_well_formed_rocks_db (storage_config_unchecked _ Db_Ledger)) as [[]|e|] eqn:H2';
      simpl; try done.
    destruct (is_well_formed_rocks_db (storage_config_unchecked _ Db_Archive)) as [[]|e|] eqn:H3';
      simpl; try done.
    unfold storage in Hi. destruct i; by rewrite ?H1', ?H2', ?H3' in Hi.
Qed.

(** The servers that were run. *)
Definition is_served (ev : Event Token) : bool :=
  match ev with Served _ _ => true | _ => false end.
Definition served p : list (Event Token) := List.filter is_served (log p).

(** Steps before the server is run. *)
Definition calm {A} (m : Run A) : Prop :=
  ∀ p, chain_spec (m p).1 = chain_spec p ∧ served (m p).1 = served p.

Lemma calm_lift {A} (o : outcome StartError A) : calm (lift o).
Proof. done. Qed.
Lemma calm_quiet {A} (op : M W StartError A) : calm (quiet op).
Proof. intros p. unfold quiet, rzoom. by destruct (op (env p)). Qed.
Lemma calm_call {A} ev (op : M W StartError A) : is_served ev = false → calm (call ev op).
Proof.
  intros Hev p. unfold call, quiet, record, rthen, rzoom, rmodify, served. simpl.
  destruct (op (env p)) as [w o]. simpl. by rewrite List.filter_app; simpl; rewrite Hev, app_nil_r.
Qed.
Lemma calm_then {A B} (m : Run A) (k : A → Run B) : calm m → (∀ a, calm (k a)) → calm (rthen m k).
Proof.
  intros Hm Hk p. destruct (Hm p) as [Hc Hs]. unfold rthen.
  destruct (m p) as [p' [a|e|]]; simpl in *; [|done..].
  destruct (Hk a p') as [Hc' Hs']. by rewrite Hc', Hs'.
Qed.
Lemma calm_try {A} (m : Run A) : calm m → calm (rtry (F:=StartError) m).
Proof. intros Hm p. specialize (Hm p). unfold rtry. by destruct (m p) as [p' []]. Qed.

Create HintDb calm discriminated.
Hint Resolve calm_lift calm_quiet calm_call calm_try : calm.
Hint Extern 2 (calm (rthen _ _)) => apply calm_then; [|intros] : calm.
Hint Extern 2 (calm (rret _)) => done : calm.
Hint Extern 2 (calm rpanic) => done : calm.
Hint Extern 2 (calm (rfail _)) => done : calm.
Hint Extern 3 (is_served _ = false) => reflexivity : calm.
Hint Extern 3 (calm (match ?x with _ => _ end)) => destruct x : calm.

Lemma prepare_calm : calm prepare.
Proof. unfold prepare. auto 30 with calm. Qed.
Lemma setup_databases_calm config committee_config : calm (setup_databases config committee_config).
Proof.
  unfold setup_databases, check_well_formed, clear, clean_dkg_data_from_ledger. auto 40 with calm.
Qed.
Lemma setup_client_calm config : calm (setup_client config).
Proof. unfold setup_client. auto 20 with calm. Qed.
Lemma new_epoch_manager_calm store blob ms : calm (new_epoch_manager store blob ms).
Proof. unfold new_epoch_manager. auto 20 with calm. Qed.
Lemma setup_prune_scheduler_calm config store archive m :
  calm (setup_prune_scheduler config store archive m).
Proof. unfold setup_prune_scheduler. auto 20 with calm. Qed.
Lemma api_server_state_calm config rs tx ms store gas :
  calm (api_server_state config rs tx ms store gas).
Proof.
  unfold api_server_state. apply calm_then; [auto with calm|intros state].
  apply calm_then; [done|intros mainnet]. auto 20 with calm.
Qed.

(** Before the server is run, a failure leaves none. *)
Lemma wp_calm {A B} (m : Run A) (k : A → Run B) (Q : list (Event Token) → Prop) spec p :
  calm m → Q [] → served p = [] → chain_spec p = spec →
  (∀ p' a, m p = (p', Ok a) → served p' = [] → chain_spec p' = spec →
           wp (k a) (λ _ p'', Q (served p'')) p') →
  wp (rthen m k) (λ _ p'', Q (served p'')) p.
Proof.
  intros Hm HQ Hp Hspec Hk. destruct (Hm p) as [Hc Hs]. rewrite Hp in Hs. rewrite Hspec in Hc.
  apply wp_then. unfold wp at 1. destruct (m p) as [p' [a|e|]] eqn:Hrun; simpl in *.
  - by apply Hk.
  - by rewrite Hs.
  - by rewrite Hs.
Qed.

(** The state of the API has a faucet exactly if the cached chain is no main net
    and the faucet is configured. *)
Lemma api_server_state_faucet config rs tx ms store gas p p' state :
  api_server_state config rs tx ms store gas p = (p', Ok state) →
  Some (Api.chain_id state) = move_store_chain_id ms ∧
  (Api.is_faucet_enabled state = true ↔
   spec_is_mainnet (chain_spec p) = false ∧ is_Some (faucet_settings config)).
Proof.
  unfold api_server_state, Api.build, lift. simpl.
  destruct (move_store_chain_id ms) as [id|]; simpl; [|done].
  unfold rthen at 1, rlift. simpl. unfold rthen at 1, rgets. simpl.
  destruct (spec_is_mainnet (chain_spec p)); simpl.
  { intros [= _ <-]. split; [done|]. split; [done|by intros [? _]]. }
  destruct (faucet_settings config) as [settings|]; simpl.
  - unfold rthen at 1. destruct (call _ _ p) as [p1 [a|e|]]; [|done..].
    intros [= _ <-]. split; [done|]. split; [by eauto|done].
  - intros [= _ <-]. split; [done|]. split; [done|by intros [_ [? ?]]].
Qed.

Lemma serve_runs config state p :
  served p = [] →
  wp (serve config state) (λ _ p', served p' = [] ∨
        served p' = [Served (chain_spec p) (application config state)]) p.
Proof.
  intros Hp. unfold serve, lift. wp_steps.
  destruct (server_list_ok config) as [[]|e|]; [|by left..].
  wp_steps. apply wp_call. intros [[]|e|] w;
    [|left; unfold served; simpl; rewrite List.filter_app; simpl; rewrite app_nil_r; exact Hp..].
  wp_steps. apply wp_call. intros o w'. simpl.
  assert (∀ w2 l, List.filter is_served l = [] →
    served (Build_Proc W Token w2 (chain_spec p)
      ((log p ++ [Bound]) ++ [Served (chain_spec p) (application config state)] ++ l))
    = [Served (chain_spec p) (application config state)]) as Hdone.
  { intros w2 l Hl. unfold served. simpl. rewrite !List.filter_app. simpl.
    unfold served in Hp. by rewrite Hp, Hl. }
  destruct o as [r|e|]; [|right; by apply (Hdone w' [])..].
  wp_steps. apply wp_call. intros o2 w2. simpl. rewrite <- app_assoc.
  destruct o2 as [[]|e|]; [|right; by apply (Hdone w2 [_])..].
  wp_steps. apply wp_quiet. intros [[]|e|] w3; simpl; try wp_steps; right; by apply (Hdone w3 [_]).
Qed.
Lemma prepare_reads p p' config cc :
  prepare p = (p', Ok (config, cc)) → (read_from_file (env p)).2 = Ok config.
Proof.
  unfold prepare, quiet. unfold rthen at 1, rzoom at 1.
  destruct (read_from_file (env p)) as [w [c|e|]]; simpl; [|done..]. intros Hrun. f_equal.
  enough (wp (lift (omap_err SetupError (is_well_formed c)) ;;
              committee_config <- quiet (supra_committee_config c) ;;
              port <- quiet get_random_port ;;
              tokio_console_port <- quiet get_random_port ;;
              log_filter_reload <- quiet (init_runtime_logger tokio_console_port) ;;
              quiet setup_panic_hook ;;
              quiet (spawn_console port log_filter_reload) ;;
              rret (c, committee_config))
            (λ o _, ∀ a, o = Ok a → a.1 = c)
            {| env := w; chain_spec := chain_spec p; log := log p |}) as Hwp.
  { unfold wp, quiet in Hwp. rewrite Hrun in Hwp. by specialize (Hwp _ eq_refl). }
  unfold lift. wp_steps. destruct (is_well_formed c) as [[]|e|]; simpl; [|done..].
  repeat (wp_step; apply wp_quiet; intros [?|?|] ?; [|done..]; simpl).
  wp_steps. by intros ? [= <-].
Qed.

Lemma load_chain_runs store p :
  wp (load_chain store) (λ o p', served p' = served p ∧
        ∀ blob ms, o = Ok (blob, ms) →
          ∃ id, move_store_chain_id ms = Some id ∧ chain_spec p' = Some (chain_id_number id)) p.
Proof.
  unfold load_chain, lift, set_chain_spec.
  wp_steps. apply wp_quiet. intros [blob|?|] w; [|done..]. simpl.
  wp_steps. apply wp_quiet. intros [[blob' ms]|?|] w'; [|done..]. simpl.
  wp_steps. destruct (move_store_chain_id ms) as [id|] eqn:Hid; simpl; [|done].
  wp_steps. split; [done|]. intros ? ? [= _ <-]. by exists id.
Qed.

(** What is known of a server that was run. *)
Definition server_ok (config : RpcConfig) l : Prop :=
  ∀ spec root, Served spec (Some root) ∈ l →
  ∃ state, root = Routes.rest_root_route state (consensus_access_tokens config) ∧
    spec = Some (chain_id_number (Api.chain_id state)) ∧
    (Api.is_faucet_enabled state = true ↔
     spec_is_mainnet spec = false ∧ is_Some (faucet_settings config)).

Lemma server_ok_nil config : server_ok config [].
Proof. by intros ? ? ?%elem_of_nil. Qed.

Lemma serve_ok config rs tx ms store gas id p0 p1 state :
  api_server_state config rs tx ms store gas p0 = (p1, Ok state) →
  move_store_chain_id ms = Some id → chain_spec p0 = Some (chain_id_number id) →
  chain_spec p1 = chain_spec p0 → served p1 = [] →
  wp (serve config state) (λ _ p', server_ok config (served p')) p1.
Proof.
  intros Hstate Hid Hspec Hspec1 Hp1.
  destruct (api_server_state_faucet _ _ _ _ _ _ _ _ _ Hstate) as [Hchain Hiff].
  eapply wp_mono; [|exact (serve_runs config state p1 Hp1)].
  intros _ p' [->| ->]; [apply server_ok_nil|].
  intros spec root Hin. apply list_elem_of_singleton in Hin as [= -> Happ].
  exists state. unfold application in Happ. destruct (server_cors config); [|done].
  injection Happ as ->. rewrite Hid in Hchain. injection Hchain as ->.
  by rewrite Hspec1, Hspec in *.
Qed.

Ltac calm_step lem :=
  match goal with
  | Hp : served ?p = [], Hs : chain_spec ?p = _ |- wp _ _ ?p =>
      eapply wp_calm; [by apply lem|done|exact Hp|exact Hs|]; clear Hp Hs
  end.

(** C22 A node has a faucet only off the main net: a server run by
    [start_rpc_server] has the routes of a state that offers the faucet exactly
    if the chain of the stored genesis, whose specification was set before, is
    not the main net and the configuration has settings for a faucet. *)
Theorem faucet_only_off_mainnet p config spec root :
  log p = [] → (read_from_file (env p)).2 = Ok config →
  Served spec (Some root) ∈ log (start_rpc_server p).1 →
  ∃ state, root = Routes.rest_root_route state (consensus_access_tokens config) ∧
    spec = Some (chain_id_number (Api.chain_id state)) ∧
    (Api.is_faucet_enabled state = true ↔
     spec_is_mainnet spec = false ∧ is_Some (faucet_settings config)).
Proof.
  intros Hp Hread Hin.
  enough (wp start_rpc_server (λ _ p', server_ok config (served p')) p) as Hwp.
  { apply Hwp. unfold served. apply list_elem_of_In, filter_In.
    split; [by apply list_elem_of_In|done]. }
  assert (served p = []) as Hp0 by (unfold served; by rewrite Hp). clear Hp Hin.
  pose proof (server_ok_nil config) as Hnil. unfold start_rpc_server.
  apply (wp_calm _ _ _ _ _ prepare_calm Hnil Hp0 eq_refl).
  intros p1 [config' cc] Hprep Hp1 _. apply prepare_reads in Hprep.
  rewrite Hread in Hprep. injection Hprep as <-.
  apply (wp_calm _ _ _ _ _ (setup_databases_calm _ _) Hnil Hp1 eq_refl).
  intros p2 [[store archive] ledger] _ Hp2 _.
  apply wp_then. eapply wp_mono; [|exact (load_chain_runs store p2)]. cbv beta.
  intros [[blob ms]|e|] p3 [Hp3 Hchain]; [|by rewrite Hp3, Hp2..].
  destruct (Hchain blob ms eq_refl) as (id & Hid & Hspec). rewrite Hp2 in Hp3.
  calm_step (@calm_quiet GasPriceReader). intros p4 gas _ Hp4 Hspec4.
  calm_step new_epoch_manager_calm. intros p5 [m cert] _ Hp5 Hspec5.
  calm_step setup_client_calm. intros p6 client _ Hp6 Hspec6.
  calm_step (@calm_quiet CertifierSender). intros p7 sender _ Hp7 Hspec7.
  calm_step (@calm_quiet AssemblerStore). intros p8 ast _ Hp8 Hspec8.
  calm_step (@calm_quiet Assembler). intros p9 asm _ Hp9 Hspec9.
  calm_step setup_prune_scheduler_calm. intros p10 _ _ Hp10 Hspec10.
  calm_step (@calm_call unit). intros p11 _ _ Hp11 Hspec11.
  calm_step (@calm_call unit). intros p12 _ _ Hp12 Hspec12.
  apply (wp_calm _ _ _ _ _ (api_server_state_calm _ _ _ _ _ _) Hnil Hp12 Hspec12).
  intros p13 state Hstate Hp13 Hspec13.
  apply (serve_ok _ _ _ _ _ _ _ _ _ _ Hstate Hid Hspec12); [congruence|done].
Qed.
End start.
End Start.
