(* ===== verification/RpcTool.v ===== *)
(** * The commands of the RPC node

    [src/rpc_node/src/cli/mod.rs], [cli/migrate_db/mod.rs] and [main.rs]: the node is
    started, or its databases are migrated, and the result is printed. *)

From S2P Require Import Prelude Authorization Transactions ApiState Router Startup.
From stdpp Require Import base tactics option list strings.
From Stdlib Require Import ZArith Lia.
Local Open Scope Z_scope.

(** [Migrate]: its arguments. *)
Record MigrateDb := {
  mg_rpc_config_path : string;
  mg_max_buffer_record_count : Z;
  mg_skip_verification : bool;
}.

(** What the commands use of the library of migrations, and the texts of the errors. *)
Class MigrateEnv `{StartEnv} : Type := {
  DbMigrationError : Type;
  MigrationResult : Type;
  RpcConfigError : string → DbMigrationError;
  read_config_at : string → M W DbMigrationError RpcConfig;
  (** [DatabaseMigrator::new] and [migrate]. *)
  migrate_databases : DatabaseSetup Tables → Z → bool → M W DbMigrationError MigrationResult;
  show_migration_result : MigrationResult → string;
  show_start_error : StartError → string;
  show_migration_error : DbMigrationError → string;
  print_stdout : string → W → W;
}.

Module RpcTool.
Section tool.
Context `{MigrateEnv}.
Local Open Scope rust_scope.
Notation Token := (KycToken Digest IpAddr).
Notation P := (Proc W Token).

Inductive RpcToolResult : Type :=
| Blank
| DatabaseToolResult (r : MigrationResult).

Definition display_result (r : RpcToolResult) : string :=
  match r with
  | Blank => ""
  | DatabaseToolResult result => show_migration_result result
  end.

Inductive RpcToolError : Type :=
| RpcNodeError (e : StartError)
| DbToolError (e : DbMigrationError).

Definition display_error (e : RpcToolError) : string :=
  match e with
  | RpcNodeError e => "RpcNode error: " +:+ show_start_error e
  | DbToolError e => "Db Tool error: " +:+ show_migration_error e
  end.

Inductive SupraRpcTool : Type :=
| StartNode
| MigrateDB (tool : MigrateDb).

(** [Migrate::execute]. *)
Definition migrate (self : MigrateDb) : M P DbMigrationError MigrationResult :=
  config <- quiet (read_config_at (mg_rpc_config_path self)) ;;
  rlift (omap_err RpcConfigError (is_well_formed config)) ;;
  quiet (migrate_databases (database_setup config) (mg_max_buffer_record_count self)
           (mg_skip_verification self)).

(** [SupraRpcTool::execute]. *)
Definition execute (self : SupraRpcTool) : M P RpcToolError RpcToolResult :=
  match self with
  | StartNode => rmap_err RpcNodeError Start.start_rpc_server ;; rret Blank
  | MigrateDB tool =>
      r <- rmap_err DbToolError (migrate tool) ;; rret (DatabaseToolResult r)
  end.

(** [main]: only a result is printed. *)
Definition main (self : SupraRpcTool) : M P RpcToolError unit :=
  cli_output <- execute self ;;
  rmodify (λ p, {| env := print_stdout (display_result cli_output +:+ String (Ascii.ascii_of_nat 10) "")
                                       (env p);
                   chain_spec := chain_spec p; log := log p |}).

(** The databases are migrated only for a configuration that could be read and is well
    formed, with its own setup; starting the node never migrates them. *)
Theorem migration_checked tool p :
  (∃ config w, read_config_at (mg_rpc_config_path tool) (env p) = (w, Ok config) ∧
     is_well_formed config = Ok tt ∧
     env (migrate tool p).1
     = (migrate_databases (database_setup config) (mg_max_buffer_record_count tool)
          (mg_skip_verification tool) w).1) ∨
  env (migrate tool p).1 = (read_config_at (mg_rpc_config_path tool) (env p)).1 ∧
  is_ok (migrate tool p).2 = false.
Proof.
  unfold migrate, rthen, quiet, rzoom, rlift.
  destruct (read_config_at _ (env p)) as [w [config|e|]]; simpl; [|by right..].
  destruct (is_well_formed config) as [[]|e|] eqn:Hwf; simpl; [|by right..].
  left. exists config, w. by destruct (migrate_databases _ _ _ w).
Qed.
End tool.
End RpcTool.
