(* ===== verification/OrderedSet.v ===== *)
(** * Floating-point amounts and ordered sets

    What the generator of the genesis accounts uses of the standard library:
    [f64] with its comparisons, its multiplication and its cast to [u64], and
    [BTreeSet] as the list of its elements in order. *)

From S2P Require Import Prelude.
From stdpp Require Import base tactics option list.
From Stdlib Require Import ZArith Lia SpecFloat Sorted.
Local Open Scope Z_scope.

(** ** [f64] *)
Definition F64 : Type := spec_float.

Definition f64_mul : F64 → F64 → F64 := SFmul 53 1024.

(** [u64 as f64]. *)
Definition f64_of_u64 (n : Z) : F64 := binary_normalize 53 1024 n 0 false.

(** [f64 as u64] truncates and saturates; [NaN] is 0. *)
Definition f64_as_u64 (x : F64) : Z :=
  match x with
  | S754_zero _ | S754_nan => 0
  | S754_infinity s => if s then 0 else U64_MAX
  | S754_finite s m e => if s then 0 else Z.min (Z.shiftl (Zpos m) e) U64_MAX
  end.

Lemma f64_as_u64_range x : u64_range (f64_as_u64 x).
Proof.
  assert (0 ≤ U64_MAX) by done. unfold u64_range.
  destruct x as [[]|[]| |[] m e]; simpl; try lia.
  split; [|lia]. apply Z.min_glb; [|done]. by apply Z.shiftl_nonneg.
Qed.

Definition is_nan (x : F64) : bool := match x with S754_nan => true | _ => false end.

(** The order of the numbers that are not [NaN] is lexicographic: the sign
    with the kind, the exponent, the mantissa. *)
Definition f64_key (x : F64) : Z * Z * Z :=
  match x with
  | S754_zero _ => (0, 0, 0)
  | S754_infinity s => (if s then -2 else 2, 0, 0)
  | S754_nan => (3, 0, 0)
  | S754_finite s m e => if s then (-1, - e, - Zpos m) else (1, e, Zpos m)
  end.

Definition key_cmp (a b : Z * Z * Z) : comparison :=
  match a.1.1 ?= b.1.1 with
  | Eq => match a.1.2 ?= b.1.2 with Eq => a.2 ?= b.2 | c => c end
  | c => c
  end.

Lemma f64_compare_key x y :
  is_nan x = false → is_nan y = false → SFcompare x y = Some (key_cmp (f64_key x) (f64_key y)).
Proof.
  destruct x as [sx|sx| |sx mx ex], y as [sy|sy| |sy my ey]; try done; intros _ _;
    unfold key_cmp; simpl; try destruct sx; try destruct sy; try done; simpl; f_equal.
  rewrite Z.compare_opp, (Z.compare_antisym ex ey).
  by destruct (ex ?= ey).
Qed.

(** ** Total orders *)
Class TotalCmp {K : Type} (cmp : K → K → comparison) : Prop := {
  cmp_eq a b : cmp a b = Eq ↔ a = b;
  cmp_antisym a b : cmp b a = CompOpp (cmp a b);
  cmp_lt_trans a b c : cmp a b = Lt → cmp b c = Lt → cmp a c = Lt;
}.

#[export] Instance key_cmp_total : TotalCmp key_cmp.
Proof.
  split; unfold key_cmp.
  - intros [[a1 a2] a3] [[b1 b2] b3]. simpl.
    destruct (Z.compare_spec a1 b1), (Z.compare_spec a2 b2), (Z.compare_spec a3 b3);
      split; intros; simplify_eq; try done; lia.
  - intros [[a1 a2] a3] [[b1 b2] b3]. simpl.
    rewrite (Z.compare_antisym a1 b1), (Z.compare_antisym a2 b2), (Z.compare_antisym a3 b3).
    by destruct (a1 ?= b1), (a2 ?= b2).
  - intros [[a1 a2] a3] [[b1 b2] b3] [[c1 c2] c3]. simpl.
    destruct (Z.compare_spec a1 b1), (Z.compare_spec b1 c1), (Z.compare_spec a1 c1);
      try done; try lia; subst;
      destruct (Z.compare_spec a2 b2), (Z.compare_spec b2 c2), (Z.compare_spec a2 c2);
      try done; try lia; subst; rewrite !Z.compare_lt_iff; lia.
Qed.

(** ** [BTreeSet] *)
Section btree.
Context {A : Type} (cmp : A → A → comparison).

(** [insert]: an equal element is kept. *)
Fixpoint btree_insert (x : A) (l : list A) : list A :=
  match l with
  | [] => [x]
  | y :: l' =>
      match cmp x y with
      | Lt => x :: y :: l'
      | Eq => y :: l'
      | Gt => y :: btree_insert x l'
      end
  end.

(** [extend], and a set that is filled element by element. *)
Definition btree_extend (s l : list A) : list A := foldl (λ s x, btree_insert x s) s l.
Definition btree_of (l : list A) : list A := btree_extend [] l.

(** [slice::sort], which is stable. *)
Fixpoint sort_insert (x : A) (l : list A) : list A :=
  match l with
  | [] => [x]
  | y :: l' => match cmp x y with Gt => y :: sort_insert x l' | _ => x :: y :: l' end
  end.
Definition slice_sort (l : list A) : list A := foldr sort_insert [] l.

(** [collect] sorts by [Ord], and drops an element if the next one equals it by
    [PartialEq], which need not agree with [Ord]. *)
Fixpoint dedup_sorted (eqb : A → A → bool) (l : list A) : list A :=
  match l with
  | x :: ((y :: _) as l') => if eqb x y then dedup_sorted eqb l' else x :: dedup_sorted eqb l'
  | _ => l
  end.
Definition btree_collect (eqb : A → A → bool) (l : list A) : list A :=
  dedup_sorted eqb (slice_sort l).

(** Where the two agree. *)
Definition cmp_eqb (x y : A) : bool := match cmp x y with Eq => true | _ => false end.

(** No element equals the next one. *)
Fixpoint neighbours_differ (eqb : A → A → bool) (l : list A) : bool :=
  match l with
  | x :: ((y :: _) as l') => negb (eqb x y) && neighbours_differ eqb l'
  | _ => true
  end.

Lemma dedup_sorted_cons eqb x y l :
  dedup_sorted eqb (x :: y :: l)
  = if eqb x y then dedup_sorted eqb (y :: l) else x :: dedup_sorted eqb (y :: l).
Proof. done. Qed.

Lemma neighbours_differ_cons eqb x y l :
  neighbours_differ eqb (x :: y :: l) = negb (eqb x y) && neighbours_differ eqb (y :: l).
Proof. done. Qed.

Lemma dedup_sorted_le eqb l : (length (dedup_sorted eqb l) ≤ length l)%nat.
Proof.
  induction l as [|x [|y l] IH]; [done..|]. rewrite dedup_sorted_cons.
  destruct (eqb x y); cbn [length] in *; lia.
Qed.

(** Nothing is dropped exactly if no element equals the next one. *)
Lemma dedup_sorted_length eqb l :
  length (dedup_sorted eqb l) = length l ↔ neighbours_differ eqb l = true.
Proof.
  induction l as [|x [|y l] IH]; [done..|].
  rewrite dedup_sorted_cons, neighbours_differ_cons. pose proof (dedup_sorted_le eqb (y :: l)) as Hle.
  destruct (eqb x y); cbn [negb andb length] in *; [split; [lia|done]|].
  rewrite <-IH. cbn [length]. lia.
Qed.

Lemma dedup_sorted_id eqb l : neighbours_differ eqb l = true → dedup_sorted eqb l = l.
Proof.
  induction l as [|x [|y l] IH]; [done..|]. rewrite dedup_sorted_cons, neighbours_differ_cons.
  intros [He Hn]%andb_prop. apply negb_true_iff in He. rewrite He. by rewrite IH.
Qed.

Lemma nodup_neighbours_differ {B} (f : A → B) eqb l :
  (∀ x y, eqb x y = true → f x = f y) → NoDup (f <$> l) → neighbours_differ eqb l = true.
Proof.
  intros He. induction l as [|x [|y l] IH]; [done..|]. intros [Hx Hn]%NoDup_cons.
  rewrite neighbours_differ_cons, (IH Hn), andb_true_r. apply negb_true_iff.
  destruct (eqb x y) eqn:E; [|done]. destruct Hx. rewrite (He _ _ E). apply list_elem_of_here.
Qed.

Lemma slice_sort_perm l : slice_sort l ≡ₚ l.
Proof.
  induction l as [|x l IH]; simpl; [done|]. rewrite <-IH at 2. clear IH.
  generalize (slice_sort l). intros s. induction s as [|y s IH]; simpl; [done|].
  destruct (cmp x y); [done|done|]. rewrite IH. apply Permutation_swap.
Qed.

Definition btree_mem (x : A) (s : list A) : bool :=
  existsb (λ y, match cmp x y with Eq => true | _ => false end) s.
End btree.

(** Elements compared by a key. *)
Section btree_by_key.
Context {A K : Type} (key : A → K) (kcmp : K → K → comparison) `{!TotalCmp kcmp}.
Local Notation cmp := (λ x y : A, kcmp (key x) (key y)).

Definition key_sorted (s : list A) : Prop :=
  StronglySorted (λ a b, kcmp (key a) (key b) ≠ Gt) s.

Lemma kcmp_le_trans a b c : kcmp a b ≠ Gt → kcmp b c ≠ Gt → kcmp a c ≠ Gt.
Proof.
  destruct (kcmp a b) eqn:E1; [apply cmp_eq in E1 as ->; done| |done].
  destruct (kcmp b c) eqn:E2; [apply cmp_eq in E2 as ->; congruence| |done].
  by rewrite (cmp_lt_trans _ _ _ E1 E2).
Qed.

Lemma slice_sort_sorted l : key_sorted (slice_sort cmp l).
Proof.
  unfold key_sorted. induction l as [|x l IH]; simpl; [constructor|]. revert IH.
  generalize (slice_sort cmp l). intros s. induction s as [|y s IH]; intros Hs; simpl.
  { by repeat constructor. }
  apply StronglySorted_inv in Hs as [Hs Hy]. pose proof (proj1 (Forall_forall _ _) Hy) as Hyz.
  destruct (kcmp (key x) (key y)) eqn:E.
  1,2: constructor; [by constructor|]; constructor; [congruence|]; apply Forall_forall;
    intros z Hz; apply (kcmp_le_trans _ (key y)); [congruence|by apply Hyz].
  constructor; [by apply IH|]. apply Forall_forall. intros z.
  assert (x :: s ≡ₚ sort_insert cmp x s) as <-.
  { clear. induction s as [|y s IH]; simpl; [done|].
    destruct (kcmp (key x) (key y)); [done..|]. rewrite <-IH. apply Permutation_swap. }
  intros [->|Hz]%elem_of_cons; [|by apply Hyz].
  by rewrite (cmp_antisym (key x)), E.
Qed.
End btree_by_key.
