(* ===== verification/CliTypes.v ===== *)
(** * Data of the command line tool

    [src/supra/src/common/error.rs], [genesis/error.rs], [move_tool/error.rs],
    [node/identity_rotation/error.rs], [rest_utils/action.rs], [utils.rs] and
    [genesis/utils.rs]: the errors of the tool, the requests it sends to an RPC
    node and the responses it understands.

    The tool acts on two things outside of it: the world (the network, the clock
    and the terminal) and the files below [SUPRA_HOME].  A command is a method on
    the pair of the two, so that what it did before an error stays done, and what
    it does to one leaves the other as it is. *)

From S2P Require Import Prelude Transactions.
From stdpp Require Import base tactics option list gmap strings pretty.
From Stdlib Require Import ZArith Lia.
Local Open Scope Z_scope.

(** Types and functions of other crates. *)
Class CliEnv : Type := {
  Address : Type;
  #[global] Address_dec :: EqDecision Address;
  #[global] Address_countable :: Countable Address;
  AddressParseError : Type;
  show_address : Address → string;
  (** [AccountAddress::from_str], [from_str_strict] and [to_canonical_string]. *)
  address_from_str : string → outcome AddressParseError Address;
  address_from_str_strict : string → outcome AddressParseError Address;
  to_canonical_string : Address → string;
  (** Data of transactions and responses. *)
  CHash : Type;
  #[global] CHash_dec :: EqDecision CHash;
  show_hash : CHash → string;
  CUrl : Type;
  TransactionPayload : Type;
  SignedTransaction : Type;
  ViewRequest : Type;
  TypeTag : Type;
  Identifier : Type;
  AccountInfo : Type;
  (** Responses of the versions of the interface: [TransactionInfoV1] and
      [TransactionInfoV2], [GasPriceRes] and [GasPriceResV2], lists and others. *)
  InfoV1 : Type;
  InfoV2 : Type;
  GasV1 : Type;
  GasV2 : Type;
  MoveListV1 : Type;
  ResourcesV2 : Type;
  ModulesV2 : Type;
  ResourcesV3 : Type;
  ModulesV3 : Type;
  FaucetStatus : Type;
  HttpResponse : Type;
  (** Errors. *)
  HexError : Type;
  SerdeError : Type;
  IoError : Type;
  CryptoError : Type;
  DkgErr : Type;
  EncryptionError : Type;
  RocksError : Type;
  AnyhowError : Type;
  CliProfileError : Type;
  GenesisBlobErr : Type;
  GenesisConfigErr : Type;
  UrlParseError : Type;
  ReqwestErr : Type;
  BcsErr : Type;
  FileIoErr : Type;
  ConsoleErr : Type;
  InquireErr : Type;
  CryptoMaterialError : Type;
}.

Inductive ApiVersion : Type := V1 | V2 | V3.
#[export] Instance ApiVersion_dec : EqDecision ApiVersion.
Proof. solve_decision. Defined.

Inductive MoveListQuery : Type := Query_Modules | Query_Resources.

Section cli_types.
Context `{CliEnv}.

(** ** Requests and responses *)
Inductive RpcAction : Type :=
| Act_ChainID (v : ApiVersion)
| Act_EstimatedGasPrice (v : ApiVersion)
| Act_AccountInformation (v : ApiVersion) (a : Address)
| Act_SimulateTransaction (v : ApiVersion) (p : TransactionPayload)
| Act_SendTransaction (v : ApiVersion) (p : TransactionPayload)
| Act_SendSignedTransaction (v : ApiVersion) (t : SignedTransaction)
| Act_RunViewFunction (v : ApiVersion) (r : ViewRequest)
| Act_ListAccountAssets (v : ApiVersion) (a : Address) (q : MoveListQuery)
| Act_TransactionInfo (v : ApiVersion) (h : CHash)
| Act_AccountResource (v : ApiVersion) (a : Address) (t : TypeTag)
| Act_AccountModule (v : ApiVersion) (a : Address) (i : Identifier)
| Act_FundWithFaucet (v : ApiVersion) (a : Address) (u : CUrl).

Inductive CliMoveList : Type :=
| List_V1 (l : MoveListV1)
| List_ResourcesV2 (l : ResourcesV2)
| List_ModulesV2 (l : ModulesV2)
| List_ResourcesV3 (l : ResourcesV3)
| List_ModulesV3 (l : ModulesV3).

Inductive CliEstimatedGasPrice : Type :=
| Gas_V1 (r : GasV1)
| Gas_V2 (r : GasV2).

Inductive CliTransactionInfo : Type :=
| Info_V1 (t : InfoV1)
| Info_V2 (t : InfoV2).

(** The chain id is a byte. *)
Inductive RpcResponse : Type :=
| Res_ChainID (c : Z)
| Res_EstimatedGasPrice (p : CliEstimatedGasPrice)
| Res_AccountInformation (i : AccountInfo)
| Res_SimulateTransaction (info : CliTransactionInfo) (expiration_timestamp_secs : Z)
| Res_SendTransaction (hash : CHash) (expiration_timestamp_secs : Z)
| Res_SendSignedTransaction (hash : CHash) (expiration_timestamp_secs : Z)
| Res_RunViewFunction (r : HttpResponse)
| Res_ListAccountAssets (l : CliMoveList)
| Res_TransactionInfo (info : CliTransactionInfo)
| Res_AccountResource (r : HttpResponse)
| Res_AccountModule (r : HttpResponse)
| Res_FundWithFaucet (s : FaucetStatus).

(** ** Errors *)

(** [VestingAccount::new] with its arguments. *)
Record VestingAccount := { va_address : Address; va_amount : Z; va_pool_id : string }.

(** The paths of the input files of the genesis accounts. *)
Record GenerateMainnetAccountsConfig := {
  foundation_multisig_accounts_config_path : string;
  foundation_validators_consensus_public_keys_path : string;
  delegation_pool_schedules_path : string;
  supra_committees_path : string;
  vesting_pool_schedules_path : string;
}.

Inductive GenesisToolError : Type :=
| Key (msg : string)
| AlreadyExist (name : string)
| SignatureError (msg : string)
| URL (msg : string)
| GenesisReqwestError (e : ReqwestErr)
| DeserializationFailed (what path : string)
| Download (msg : string)
| InvalidInputGenesisBlob
| GenesisIO (e : IoError)
| UnknownVestingPoolIDs (accounts : list VestingAccount)
| AccountsNotUnique (addresses : list Address)
| NotEnoughFoundationMultisigMembers
| MintableSupplyExceeded (total minted : Z)
| InsufficientAllocation (total minted : Z)
| MissingDefaultDelegationPoolSchedule
| MissingMultisigAccountWithName (name : string)
| NotEnoughFoundationDelegationPools
| InvalidPBOOwnerStake (short minted : Z).

Inductive MoveToolError : Type :=
| Move_GeneralError (e : AnyhowError)
| FailedToRemove (path : string) (source : IoError)
| ResourceNotExist (path : string) (source : IoError)
| ExecutorCryptoError (e : CryptoMaterialError)
| Move_ReqwestError (e : ReqwestErr)
| Move_BcsError (e : BcsErr)
| FailedToParseAddress (msg : string).

Inductive IdentityRotationError : Type :=
| ConsensusKey (msg : string)
| NetworkAddress (msg : string).

Inductive CliError : Type :=
| Aborted (reason action : string)
| UnInitialized (reason action : string)
| HexDecodeError (e : HexError)
| SerdeJsonError (e : SerdeError)
| StdIoError (e : IoError)
| SupraCryptoError (e : CryptoError)
| DkgError (e : DkgErr)
| Encryption (e : EncryptionError)
| DecryptionFailed
| RocksDB (e : RocksError)
| GeneralError (msg : string)
| DKGTranscriptError (required current : Z)
| MoveToolingError (e : MoveToolError)
| Other (e : AnyhowError)
| DataToolError (msg : string)
| ProfileError (e : CliProfileError)
| GenesisTool (e : GenesisToolError)
| GenesisBlobError (e : GenesisBlobErr)
| GenesisConfigError (e : GenesisConfigErr)
| IdentityRotation (e : IdentityRotationError)
| UrlError (e : UrlParseError)
| Unauthorized
| UnexpectedResponse (request : string) (response : RpcResponse)
| RequestError (e : ReqwestErr)
| AccountAddressParseError (e : AddressParseError)
| NotFound (what : string)
| BcsError (e : BcsErr)
| FileIoError (e : FileIoErr)
| ConsoleError (e : ConsoleErr)
| RESTClient
| InquireError (e : InquireErr).

(** Loops that wait for a condition take fuel; a run ends with an error or because
    the fuel is used up. *)
Inductive Stop : Type :=
| Failed (e : CliError)
| OutOfFuel.

(** ** Small helpers *)

(** [str::parse] at an unsigned type with the maximum [max]: an optional sign and
    at least one digit. *)
Definition digit (c : Ascii.ascii) : option Z :=
  let n := Z.of_N (Ascii.N_of_ascii c) - 48 in
  if (0 <=? n) && (n <=? 9) then Some n else None.
Fixpoint parse_digits (max acc : Z) (s : string) : option Z :=
  match s with
  | EmptyString => Some acc
  | String c s' =>
      match digit c with
      | Some d => if acc * 10 + d <=? max then parse_digits max (acc * 10 + d) s' else None
      | None => None
      end
  end.
Definition parse_uint (max : Z) (s : string) : option Z :=
  match s with
  | EmptyString => None
  | String c s' =>
      if (Ascii.N_of_ascii c =? 43)%N
      then match s' with EmptyString => None | _ => parse_digits max 0 s' end
      else parse_digits max 0 s
  end.
Definition U16_MAX : Z := 2 ^ 16 - 1.

Definition parse_pool_address (address : option string) : outcome CliError Address :=
  match address with
  | Some addr =>
      omap_err (λ _, Aborted (addr +:+ " is not a valid account address")
                       "The account address must be a valid 0x + 64 hex characters")
        (address_from_str_strict addr)
  | None => Err (Aborted "Delegation pool address is required"
                         "Please provide the delegation pool address")
  end.

(** [File::open] and [read_to_string] are arguments, as is the deserializer. *)
Definition open {File} (file_open : string → outcome IoError File) (path : string)
    : outcome CliError File :=
  omap_err (λ _, GeneralError ("No such file or directory: " +:+ path)) (file_open path).

Local Open Scope rust_scope.

Definition from_json_file_path {File T} (file_open : string → outcome IoError File)
    (read_to_string : File → outcome IoError string) (from_str : string → outcome SerdeError T)
    (path : string) : outcome CliError T :=
  let? f := open file_open path in
  let? buff := omap_err StdIoError (read_to_string f) in
  omap_err SerdeJsonError (from_str buff).
End cli_types.

(** ** Commands *)
Record Sys (World Home : Type) := { world : World; home : Home }.
Arguments Build_Sys {World Home}.
Arguments world {World Home}.
Arguments home {World Home}.

Section commands.
Context {World Home : Type}.

Definition on_world {E F A} (conv : E → F) (m : M World E A) : M (Sys World Home) F A :=
  rzoom world (λ w s, {| world := w; home := home s |}) conv m.
Definition on_home {E F A} (conv : E → F) (m : M Home E A) : M (Sys World Home) F A :=
  rzoom home (λ h s, {| world := world s; home := h |}) conv m.

(** Methods that leave the files as they are. *)
Definition keeps_home {E A} (m : M (Sys World Home) E A) : Prop := ∀ s, home (m s).1 = home s.

Lemma keeps_then {E A B} (m : M (Sys World Home) E A) (k : A → M (Sys World Home) E B) :
  keeps_home m → (∀ a, keeps_home (k a)) → keeps_home (rthen m k).
Proof.
  intros Hm Hk s. unfold rthen. specialize (Hm s). destruct (m s) as [s' [a|e|]]; simpl in *;
    [|done..]. by rewrite Hk.
Qed.

Lemma keeps_map_err {E F A} (f : E → F) (m : M (Sys World Home) E A) :
  keeps_home m → keeps_home (rmap_err f m).
Proof. intros Hm s. specialize (Hm s). unfold rmap_err. by destruct (m s). Qed.

Lemma keeps_on_world {E F A} (conv : E → F) (m : M World E A) : keeps_home (on_world conv m).
Proof. intros s. unfold on_world, rzoom. by destruct (m (world s)). Qed.

Lemma keeps_lift {E A} (o : outcome E A) : keeps_home (rlift o).
Proof. done. Qed.
Lemma keeps_ret {E A} (a : A) : keeps_home (rret (E:=E) a).
Proof. done. Qed.
Lemma keeps_fail {E A} (e : E) : keeps_home (rfail (A:=A) e).
Proof. done. Qed.
End commands.

Create HintDb keeps discriminated.
#[export] Hint Resolve keeps_then keeps_map_err keeps_on_world keeps_lift keeps_ret keeps_fail : keeps.
