(* ===== verification/CliExamples.v ===== *)
(** * Concrete data of the command line tool

    Addresses, hashes and keys are numbers, everything else is a string. *)

From S2P Require Import Prelude CliTypes.
From stdpp Require Import base tactics option list gmap strings pretty.
From Stdlib Require Import ZArith Lia.
Local Open Scope Z_scope.

#[export] Instance ex_cli : CliEnv := {|
  Address := Z; AddressParseError := string; show_address := pretty;
  address_from_str s := Ok (Z.of_nat (String.length s));
  address_from_str_strict s := Ok (Z.of_nat (String.length s));
  to_canonical_string := pretty;
  CHash := Z; show_hash := pretty; CUrl := string;
  TransactionPayload := string; SignedTransaction := Z; ViewRequest := string;
  TypeTag := string; Identifier := string; AccountInfo := Z;
  InfoV1 := Z; InfoV2 := Z; GasV1 := Z; GasV2 := Z;
  MoveListV1 := string; ResourcesV2 := string; ModulesV2 := string;
  ResourcesV3 := string; ModulesV3 := string; FaucetStatus := string;
  HttpResponse := string;
  HexError := string; SerdeError := string; IoError := string; CryptoError := string;
  DkgErr := string; EncryptionError := string; RocksError := string; AnyhowError := string;
  CliProfileError := string; GenesisBlobErr := string; GenesisConfigErr := string;
  UrlParseError := string; ReqwestErr := string; BcsErr := string; FileIoErr := string;
  ConsoleErr := string; InquireErr := string; CryptoMaterialError := string;
|}.
