(* ===== verification/Validator.v ===== *)
(** * Start of a validator ([src/supra/src/node/smr_node/])

    The command that starts a validator from its settings, and the one that writes
    recommended settings; the tool for configurations
    ([src/supra/src/config/]).  The validator itself and the files of its settings
    belong to other crates; their calls are those of [Startup]. *)

From S2P Require Import Prelude Startup CliTypes.
From stdpp Require Import base tactics option list strings.
From Stdlib Require Import ZArith Lia.
Local Open Scope Z_scope.

(** What the code reads of the settings of a validator; it changes [resume]. *)
Record SmrSettings := {
  smr_resume : bool;
  chain_store_path : option string;
  ledger_path : option string;
  (** Everything else. *)
  smr_rest : string;
}.

Definition set_resume (r : bool) (s : SmrSettings) : SmrSettings :=
  {| smr_resume := r; chain_store_path := chain_store_path s; ledger_path := ledger_path s;
     smr_rest := smr_rest s |}.

Class ValidatorEnv `{CliEnv} : Type := {
  VWorld : Type;
  Password : Type;
  VGenesisBlob : Type;
  IdentityProvider : Type;
  read_from_default_path : M VWorld AnyhowError SmrSettings;
  validate_no_p2p_auth : SmrSettings → outcome string unit;
  anyhow_msg : string → AnyhowError;
  read_password_from_env : VWorld → option Password;
  v_prompt_password : M VWorld AnyhowError Password;
  genesis_try_from_file : M VWorld AnyhowError VGenesisBlob;
  v_remove_and_backup_directory : string → M VWorld AnyhowError unit;
  (** [ConstIdentityProvider::initialize_from_file], [FileNodeIdentityProvider::new]
      and [load]. *)
  const_identity : Password → M VWorld AnyhowError IdentityProvider;
  file_identity : Password → outcome AnyhowError IdentityProvider;
  load_identity : IdentityProvider → M VWorld AnyhowError unit;
  (** [expect_smr_committee_config]. *)
  smr_committee_config : VGenesisBlob → option unit;
  run_validator_node : VGenesisBlob → SmrSettings → IdentityProvider → M VWorld AnyhowError unit;
  (** Directories and settings. *)
  supra_home : M VWorld IoError string;
  canonicalize : string → M VWorld IoError string;
  create_dir_all : string → M VWorld IoError unit;
  generate_recommended : SmrSettings;
  write_to_dir : SmrSettings → string → M VWorld CliError unit;
  (** The configurations of a local test network. *)
  RunType : Type;
  LocalTestNetConfiguration : Type;
  build_testnet : RunType → list (string * option string * bool) → bool → option string →
    M VWorld AnyhowError LocalTestNetConfiguration;
  read_settings_from_file : string → M VWorld CliError SmrSettings;
  on_chain_parameters_bytes : SmrSettings → string;
  serialize_to_string : string → string → outcome FileIoErr string;
  debug_path : string → string;
  v_write : string → string → M VWorld IoError unit;
}.

Record RunArgs := { ra_resume : option bool; disable_dynamic_identity_loading : bool }.
Record SettingsArgs := { sa_out_dir : option string }.
Inductive SmrTool : Type :=
| Smr_Run (args : RunArgs)
| Smr_Settings (args : SettingsArgs).
Inductive SmrToolResult : Type :=
| SmrSetting (s : SmrSettings)
| Smr_Blank.

Section config_data.
Context `{ValidatorEnv}.
Record GenerateArgs := {
  run_type : RunType; force : bool; reference_automation_parameters : option string;
}.
Record OnChainConfigSerializer := { path_to_smr_settings : string; output_path : string }.
Inductive ConfigTool : Type :=
| Config_Show
| Config_Generate (args : GenerateArgs)
| Config_OnChainConfigSerializer (args : OnChainConfigSerializer).
Inductive ConfigToolResult : Type :=
| DisplayConfiguration
| GenerateConfiguration (c : LocalTestNetConfiguration)
| FileWrittenToDisk (path : string).
End config_data.

(** ** The validator *)
Module Smr.
Section smr.
Context `{ValidatorEnv}.
Local Open Scope rust_scope.
Notation Run E := (M (Proc VWorld Empty_set) E).

Definition run (blob : VGenesisBlob) (settings : SmrSettings) (provider : IdentityProvider)
    : Run AnyhowError unit :=
  quiet (load_identity provider) ;;
  rlift (expect (smr_committee_config blob)) ;;
  call ValidatorRun (run_validator_node blob settings provider).

Definition password : Run AnyhowError Password :=
  from_env <- rgets (λ p, read_password_from_env (env p)) ;;
  match from_env with
  | None => quiet v_prompt_password
  | Some p => rret p
  end.

Definition clear (path : option string) : Run AnyhowError unit :=
  dir <- rlift (expect path) ;;
  call (Removed dir) (v_remove_and_backup_directory dir).

(** The settings with the flag of the command line. *)
Definition with_flag (flag : option bool) (settings : SmrSettings) : SmrSettings :=
  match flag with Some r => set_resume r settings | None => settings end.

(** The start from the settings that were read. *)
Definition start_from (read : SmrSettings) (resume : option bool)
    (disable_dynamic_identity_loading : bool) : Run AnyhowError unit :=
  rlift (omap_err anyhow_msg (validate_no_p2p_auth read)) ;;
  pw <- password ;;
  genesis_blob <- quiet genesis_try_from_file ;;
  let smr_settings := with_flag resume read in
  (if negb (smr_resume smr_settings)
   then (clear (chain_store_path smr_settings) ;; clear (ledger_path smr_settings))
   else rret tt) ;;
  if disable_dynamic_identity_loading
  then (provider <- quiet (const_identity pw) ;; run genesis_blob smr_settings provider)
  else (provider <- rlift (file_identity pw) ;; run genesis_blob smr_settings provider).

Definition start_validator_node (resume : option bool) (disable_dynamic_identity_loading : bool)
    : Run AnyhowError unit :=
  smr_settings <- quiet read_from_default_path ;;
  start_from smr_settings resume disable_dynamic_identity_loading.

(** The directory is resolved before it is created. *)
Definition write_settings (args : SettingsArgs) : Run CliError SmrToolResult :=
  dir <- match sa_out_dir args with
         | Some d => rret d
         | None => rmap_err StdIoError (quiet supra_home)
         end ;;
  out_dir <- rmap_err StdIoError (quiet (canonicalize dir)) ;;
  rmap_err StdIoError (quiet (create_dir_all out_dir)) ;;
  quiet (write_to_dir generate_recommended out_dir) ;;
  rret (SmrSetting generate_recommended).

Definition execute (self : SmrTool) : Run CliError SmrToolResult :=
  match self with
  | Smr_Run args =>
      rmap_err Other (start_validator_node (ra_resume args) (disable_dynamic_identity_loading args)) ;;
      rret Smr_Blank
  | Smr_Settings args => write_settings args
  end.

(** *** Properties *)

Lemma traces_clear_dir (path : option string) dir : path = Some dir → traces (clear path) [Removed dir].
Proof.
  intros ->. unfold clear. apply (traces_then _ _ []); [apply traces_lift|].
  intros p p' a [= _ <-]. apply traces_call.
Qed.

Lemma traces_quiet {A E} (op : M VWorld E A) : traces (Token := Empty_set) (quiet op) [].
Proof. apply traces_silent. intros p. unfold quiet, rzoom. by destruct (op (env p)). Qed.

Lemma traces_run blob settings provider : traces (run blob settings provider) [ValidatorRun].
Proof.
  unfold run. apply (traces_then _ _ []); [apply traces_quiet|intros _ _ _ _].
  apply (traces_then _ _ []); [apply traces_lift|intros _ _ _ _; apply traces_call].
Qed.

Lemma start_from_traces flag dynamic settings store_dir ledger_dir :
  chain_store_path settings = Some store_dir → ledger_path settings = Some ledger_dir →
  traces (start_from settings flag dynamic)
    ((if default (smr_resume settings) flag then [] else [Removed store_dir; Removed ledger_dir])
     ++ [ValidatorRun]).
Proof.
  intros Hs Hl. unfold start_from.
  apply (traces_then _ _ []); [apply traces_lift|intros _ _ _ _].
  apply (traces_then _ _ []); [|intros _ _ pw _].
  { apply (traces_then _ _ [] []); [by apply traces_silent|intros _ _ [pw|] _];
      [apply traces_ret|apply traces_quiet]. }
  apply (traces_then _ _ []); [apply traces_quiet|intros _ _ blob _]. apply traces_then.
  - replace (smr_resume (with_flag flag settings)) with (default (smr_resume settings) flag)
      by by destruct flag.
    destruct (default (smr_resume settings) flag); [apply traces_ret|].
    apply (traces_then _ _ [_] [_]); [|intros _ _ _ _]; apply traces_clear_dir;
      by destruct flag.
  - intros _ _ _ _. destruct dynamic.
    + apply (traces_then _ _ [] [_]); [apply traces_quiet|intros _ _ ? _; apply traces_run].
    + apply (traces_then _ _ [] [_]); [apply traces_lift|intros _ _ ? _; apply traces_run].
Qed.

(** A validator that resumes keeps its data: the calls are, up to the first
    that fails, the removal of the chain store and of the ledger, only if the flag
    of the command line, or without it the settings, say not to resume, and then
    the run of the validator.  No directory is touched if the settings are not
    valid. *)
Theorem validator_start_trace flag dynamic settings store_dir ledger_dir p :
  (read_from_default_path (env p)).2 = Ok settings →
  chain_store_path settings = Some store_dir → ledger_path settings = Some ledger_dir →
  let p' := (start_validator_node flag dynamic p).1 in
  let removals := if default (smr_resume settings) flag then []
                  else [Removed store_dir; Removed ledger_dir] in
  (∃ done, log p' = log p ++ done ∧ done `prefix_of` removals ++ [ValidatorRun] ∧
     (is_ok (start_validator_node flag dynamic p).2 = true → done = removals ++ [ValidatorRun])) ∧
  (is_ok (validate_no_p2p_auth settings) = false → log p' = log p).
Proof.
  intros Hread Hs Hl. cbv zeta.
  assert (start_validator_node flag dynamic p = start_from settings flag dynamic
            {| env := (read_from_default_path (env p)).1; chain_spec := chain_spec p; log := log p |})
    as ->.
  { unfold start_validator_node, rthen, quiet, rzoom.
    destruct (read_from_default_path (env p)) as [w o]. simpl in Hread. by rewrite Hread. }
  split; [exact (start_from_traces flag dynamic settings store_dir ledger_dir Hs Hl _)|].
  unfold start_from, rthen at 1, rlift.
  destruct (validate_no_p2p_auth settings) as [[]|e|]; [done|by intros _..].
Qed.

(** The settings are written into an existing directory only: a path that cannot be
    resolved is an error, and nothing is created. *)
Theorem settings_need_directory dir p :
  is_ok (canonicalize dir (env p)).2 = false →
  is_ok (execute (Smr_Settings {| sa_out_dir := Some dir |}) p).2 = false ∧
  env (execute (Smr_Settings {| sa_out_dir := Some dir |}) p).1 = (canonicalize dir (env p)).1.
Proof.
  intros Hc. unfold execute, write_settings, rthen, rret, rmap_err, quiet, rzoom. simpl.
  by destruct (canonicalize dir (env p)) as [w [d|e|]].
Qed.
End smr.
End Smr.

(** ** Configurations *)
Module Config.
Section config.
Context `{ValidatorEnv}.
Local Open Scope rust_scope.
Notation Cmd := (M VWorld CliError).

(** Origin, its description, and whether its mode is [Cors]. *)
Definition preloaded_known_origins : list (string * option string * bool) := [
  ("http://localhost:27000", Some "LocalNet", false);
  ("http://localhost:27001", Some "LocalNet", false);
  ("http://localhost:27002", Some "LocalNet", false);
  ("https://rpc-qanet.supra.com", Some "QANet", false);
  ("https://rpc-wallet.supra.com", Some "WalletNet", false);
  ("https://rpc-devnet.supra.com", Some "DevNet", false);
  ("https://rpc-staging.supra.com", Some "StagingNet", false);
  ("https://rpc-cex-testnet.supra.com", Some "Exchange Integration TestNet", false);
  ("https://rpc-testnet.supra.com", Some "RPC For Supra Scan and Faucet", false);
  ("https://rpc-testnet1.supra.com", Some "RPC For nodeops group1", false);
  ("https://rpc-testnet2.supra.com", Some "RPC For nodeops group2", false);
  ("https://rpc-testnet3.supra.com", Some "RPC For nodeops group3", false);
  ("https://rpc-testnet4.supra.com", Some "RPC For nodeops group4", false);
  ("https://rpc-testnet5.supra.com", Some "RPC For nodeops group5", false);
  ("https://www.starkey.app", Some "Starkey domain", true);
  ("chrome-extension://fcpbddmagekkklbcgnjclepnkddbnenp", Some "Starkey wallet extension", true);
  ("chrome-extension://hcjhpkgbmechpabifbggldplacolbkoh", Some "Starkey wallet extension", true)].

Definition execute_serializer (self : OnChainConfigSerializer) : Cmd ConfigToolResult :=
  new_params <- read_settings_from_file (path_to_smr_settings self) ;;
  serialized <- rlift (omap_err FileIoError
    (serialize_to_string (on_chain_parameters_bytes new_params) (debug_path (output_path self)))) ;;
  rmap_err StdIoError (v_write (output_path self) serialized) ;;
  rret (FileWrittenToDisk (output_path self)).

Definition execute_config (self : ConfigTool) : Cmd ConfigToolResult :=
  match self with
  | Config_Show => rret DisplayConfiguration
  | Config_Generate args =>
      c <- rmap_err Other (build_testnet (run_type args) preloaded_known_origins (force args)
                             (reference_automation_parameters args)) ;;
      rret (GenerateConfiguration c)
  | Config_OnChainConfigSerializer args => execute_serializer args
  end.
End config.
End Config.
