(* ===== verification/StartupExamples.v ===== *)
(** * Starts of nodes at concrete data

    A configuration with a faucet, for a chain that is not the main net, on an
    environment in which every call succeeds; and a validator. *)

From S2P Require Import Prelude Authorization Limiters Transactions ApiState Router ApiExamples.
From S2P Require Import Startup CliTypes CliExamples Validator.
From stdpp Require Import base tactics option list strings.
From Stdlib Require Import ZArith Lia.
Local Open Scope Z_scope.

(** The environment counts the calls. *)
Definition ex_ok {E A} (a : A) : M Z E A := λ w, (w + 1, Ok a).

Definition ex_storage_config (path : string) : StorageConfig unit :=
  {| is_well_formed_rocks_db := Ok tt; db_path := Some path; db_tables := Some tt;
     is_pruning_enabled := false |}.

Definition ex_setup : DatabaseSetup unit :=
  {| storage_config_unchecked i :=
       ex_storage_config (match i with
                          | Db_ChainStore => "store" | Db_Ledger => "ledger" | Db_Archive => "archive"
                          end);
     prune_config := None |}.

Definition ex_rest_sync : RpcRestSync :=
  {| rest_endpoint := "http://node/"; request_latest_height := true; poll_interval_milliseconds := 500;
     access_token := "abc"; capacity := None |}.

(** The configuration is the flag to resume. *)
#[export] Instance ex_start : StartEnv := {
  W := Z; StartError := string; SetupError s := s; start_anyhow s := s;
  Tables := unit; debug_database_setup s := "setup";
  BacklogParameters := unit; LimitingStrategy := unit; Digest := Z; IpAddr := Z;
  RpcConfig := bool;
  read_from_file := ex_ok false; is_well_formed c := Ok tt; resume c := c;
  database_setup c := ex_setup; synchronization c := Sync_Rest ex_rest_sync;
  faucet_settings c := Some {| minter_count := 4; quants_granted_per_request := 100;
                               max_daily_requests := 10; cooldown_period_in_seconds := 60 |};
  limiting_strategy c := None; backlog_parameters c := tt;
  consensus_access_tokens c := [];
  certified_block_cache_bucket_size c := 10; sync_retry_interval_in_secs c := 1;
  block_provider_is_trusted c := false; server_list_ok c := Ok tt; server_cors c := Some tt;
  SupraCommitteesConfig := unit; Identity := Z; CgKey := Z;
  supra_committee_config c := ex_ok tt;
  committees c := [{| ci_name := Committee_Smr; ci_members := [(1, 10)] |};
                   {| ci_name := Committee_Dkg; ci_members := [(2, 20)] |}];
  get_random_port := ex_ok 9000; LogFilterReload := unit; init_runtime_logger p := ex_ok tt;
  setup_panic_hook := ex_ok tt; spawn_console p l := ex_ok tt; stop_console := ex_ok tt;
  Ledger := unit; ArchiveDb := unit;
  remove_and_backup_directory p := ex_ok tt;
  open_chain_store p t := ex_ok (tt : @ChainStore ex_types); open_ledger p := ex_ok tt;
  reset_db_committee l m := ex_ok tt; open_archive p t s := ex_ok tt;
  setup_database_snapshot_scheduler d s a l := ex_ok tt;
  GenesisBlob := unit; genesis_from_file := ex_ok tt;
  load_or_create_genesis b s := ex_ok (b, (tt : @MoveStore ex_types));
  move_store_chain_id m := Some (6 : @ChainId ex_types); chain_id_number c := c;
  spec_is_mainnet o := bool_decide (o = Some 8);
  new_storage a m b := Api.storage (ex_state None);
  gas_monitor := ex_ok (tt : @GasPriceReader ex_types);
  EpochManager := unit; CertifierSender := unit; epoch_manager_new s b m := ex_ok (tt, tt);
  Executor := unit; executor_new r c e l s := tt;
  Client := unit; TlsConnector := unit; tls_connector r c k := ex_ok tt;
  validate_ws u t := Ok tt; connect_ws u t := ex_ok tt; connect_rest c := ex_ok tt;
  RPC_TRANSACTION_FORWARD_CHANNEL_SIZE := 100;
  middleware_init c s := ex_ok tt; AssemblerStore := unit;
  block_store_initialize s n b := ex_ok tt; Assembler := unit;
  assembler_new s e t x c n := ex_ok tt; pruner_build n t s a e := ex_ok tt;
  spawn_epoch_manager e s := ex_ok tt; spawn_assembler a := ex_ok tt;
  dispatcher s c := (tt : @TxSender ex_types); rest_call_limiter_of l := (tt : @RestLimiter ex_types);
  faucet_state_empty a b c := (tt : @FaucetServices ex_types);
  spawn_faucet n t s m q f := ex_ok tt;
  bind_server c := ex_ok tt; run_server c app := ex_ok (Ok tt);
  notify_and_wait_for_shutdown := ex_ok tt;
}.

Definition ex_proc : Proc (@W _ _ _ ex_start) (KycToken (@Digest _ _ _ ex_start) (@IpAddr _ _ _ ex_start)) :=
  {| env := (0 : @W _ _ _ ex_start); chain_spec := None; log := [] |}.

Lemma databases_set_up_witness :
  traces (Start.setup_databases (false : @RpcConfig _ _ _ ex_start)
            (tt : @SupraCommitteesConfig _ _ _ ex_start))
    [Removed "store"; Removed "ledger"; Removed "archive"; Opened Db_ChainStore "store";
     Opened Db_Ledger "ledger"; CommitteeReset; Opened Db_Archive "archive"; SnapshotScheduler].
Proof.
  exact (proj1 (Start.databases_set_up (false : @RpcConfig _ _ _ ex_start)
    (tt : @SupraCommitteesConfig _ _ _ ex_start) "store" "ledger" "archive"
    eq_refl eq_refl eq_refl)).
Defined.

(** The server of this node offers the faucet. *)
Definition ex_root : option (Root (KycToken (@Digest _ _ _ ex_start) (@IpAddr _ _ _ ex_start))) :=
  match List.find Start.is_served (log (Start.start_rpc_server ex_proc).1) with
  | Some (Served _ app) => app
  | _ => None
  end.

Lemma ex_served : ∃ root, Served (Some 6) (Some root) ∈ log (Start.start_rpc_server ex_proc).1.
Proof.
  destruct (List.find Start.is_served (log (Start.start_rpc_server ex_proc).1)) as [ev|] eqn:Hf;
    [|vm_compute in Hf; discriminate Hf].
  assert (∃ root, ev = Served (Some 6) (Some root)) as [root ->].
  { vm_compute in Hf. injection Hf as <-. by eexists. }
  exists root. apply find_some in Hf as [Hin _]. by apply list_elem_of_In.
Qed.

Lemma faucet_only_off_mainnet_witness :
  ∃ state, Api.is_faucet_enabled (H := ex_types) state = true.
Proof.
  destruct ex_served as [root Hin].
  destruct (Start.faucet_only_off_mainnet ex_proc (false : @RpcConfig _ _ _ ex_start) (Some 6) root
    eq_refl eq_refl Hin) as (state & _ & _ & Hiff).
  exists state. apply Hiff. split; [reflexivity|]. by eexists.
Defined.

(** ** A validator *)
Definition ex_settings : SmrSettings :=
  {| smr_resume := true; chain_store_path := Some "chain"; ledger_path := Some "ledger";
     smr_rest := "" |}.

#[export] Instance ex_validator : ValidatorEnv := {|
  VWorld := Z; Password := string; VGenesisBlob := unit; IdentityProvider := unit;
  read_from_default_path := ex_ok ex_settings; validate_no_p2p_auth s := Ok tt; anyhow_msg s := s;
  read_password_from_env w := Some "password"; v_prompt_password := ex_ok "password";
  genesis_try_from_file := ex_ok tt; v_remove_and_backup_directory d := ex_ok tt;
  const_identity p := ex_ok tt; file_identity p := Ok tt; load_identity p := ex_ok tt;
  smr_committee_config b := Some tt; run_validator_node b s p := ex_ok tt;
  supra_home := ex_ok "home"; canonicalize d := ex_ok d; create_dir_all d := ex_ok tt;
  generate_recommended := ex_settings; write_to_dir s d := ex_ok tt;
  RunType := unit; LocalTestNetConfiguration := unit; build_testnet r o f a := ex_ok tt;
  read_settings_from_file p := ex_ok ex_settings; on_chain_parameters_bytes s := "";
  serialize_to_string b p := Ok b; debug_path p := p; v_write p s := ex_ok tt;
|}.

Definition ex_validator_proc : Proc (@VWorld ex_cli ex_validator) Empty_set :=
  {| env := (0 : @VWorld ex_cli ex_validator); chain_spec := None; log := [] |}.

Lemma validator_start_trace_witness :
  log (Smr.start_validator_node (Some false) true ex_validator_proc).1
  = [Removed "chain"; Removed "ledger"; ValidatorRun].
Proof.
  destruct (Smr.validator_start_trace (Some false) true ex_settings "chain" "ledger"
    ex_validator_proc eq_refl eq_refl eq_refl) as [(l & Hlog & _ & Hok) _].
  rewrite Hlog, (Hok ltac:(vm_compute; reflexivity)). reflexivity.
Defined.
