(* ===== verification/Genesis.v ===== *)
(** * Accounts of the genesis block

    [src/supra/src/genesis/generate_mainnet_accounts_config.rs]: from the
    configuration files of the foundation, the generator derives the multisig
    accounts, the delegation and vesting pools and the assignment of the
    delegators to pools, and checks the total that is minted.

    Reading a JSON file and the constants and constructors of other crates are
    parameters; an ordered set is the list of its elements in order. *)

From S2P Require Import Prelude OrderedSet CliTypes.
From stdpp Require Import base tactics option list gmap strings pretty.
From Stdlib Require Import ZArith Lia SpecFloat.
Local Open Scope Z_scope.

Definition DELEGATION_POOL_SEED_PREFIX : string := "Delegation Pool".
Definition DELEGATION_POOLS_WITH_PBO_STAKE : nat := 10.
Definition PBO_OWNER_NAME_PREFIX : string := "Project Blast Off Owner ".
Definition ERROR_MARGIN : Z := 10.
Definition SUPRA_MINTED_AT_GENESIS : Z := 79000000000.
Definition START_SEED_SEQUENCE_NUMBER : Z := 0.
Definition MIN_PARTICIPANTS : nat := 9.

(** What the generator uses of the other crates. *)
Class GenesisEnv `{CliEnv} : Type := {
  PublicKey : Type;
  #[global] PublicKey_dec :: EqDecision PublicKey;
  GBytes : Type;
  string_bytes : string → GBytes;
  create_multisig_account_address : Address → Z → Address;
  (** [AccountAddress::from_str] on a decimal index. *)
  placeholder_address : nat → Address;
  SUPRA_COINS_BASE_WITH_DECIMALS : Z;
  MAXIMUM_SHAREHOLDERS_PER_VESTING_POOL : nat;
  MAXIMUM_DELEGATORS_PER_DELEGATION_POOL : nat;
}.

Section genesis_data.
Context `{GenesisEnv}.

Inductive FoundationMultisigAccountType : Type := DelegationPoolOwner | StandaloneAccount.

Record FoundationMultisigAccount := {
  fm_address : Address;
  fm_kind : FoundationMultisigAccountType;
  fm_name : string;
  seed_owner_address : Address;
  seed_sequence_number : Z;
}.

Record FoundationMultisigAccounts := {
  delegation_pool_owners : list FoundationMultisigAccount;
  standalone : list FoundationMultisigAccount;
}.

Record FoundationOwnedMultisigAccount := {
  fo_balance : F64;
  metadata_keys : list string;
  metadata_values : list string;
}.

Record FoundationMultiSigAccountsConfig := {
  owners : list Address;
  num_signatures_required : Z;
  owner_balances_in_supra : Z;
  timeout_duration : Z;
  standalone_accounts : list FoundationOwnedMultisigAccount;
}.

Record AccountBalance := { ab_address : Address; amount : F64 }.

Record DelegationPoolUnlockSchedule := {
  accounts_file_path : option string;
  ds_id : string;
  pools_with_delegators : nat;
  unlock_schedule_numerators : list Z;
  unlock_schedule_denominator : Z;
  unlock_startup_time_from_now : Z;
  unlock_period_duration : Z;
}.

Record DelegationPoolUnlockSchedules := {
  ds_default : string;
  ds_schedules : list DelegationPoolUnlockSchedule;
  default_pool : DelegationPoolUnlockSchedule;
  schedules_expanded : list DelegationPoolUnlockSchedule;
}.

Record VestingPoolUnlockSchedule := {
  vs_accounts_file_path : string;
  vesting_pool_id : string;
  vpool_locking_percentage : Z;
  vesting_numerators : list Z;
  vesting_denominators : Z;
  cliff_period_in_seconds : Z;
  period_duration_in_seconds : Z;
}.

(** [DelegatorAccountV1::new], [DelegationPoolConfigV1::new]
    and [VestingPoolConfig::new] with their arguments. *)
Record DelegatorAccountV1 := {
  da_address : Address;
  da_balance : Z;
  da_pool_owner : Address;
}.

Record DelegationPoolConfigV1 := {
  owner_address : Address;
  pool_seed : string;
  validator_consensus_public_key : PublicKey;
  pool_admin : Address;
  pool_numerators : list Z;
  pool_denominator : Z;
  pool_startup_time : Z;
  pool_period_duration : Z;
}.

Record VestingPoolConfig := {
  vp_id : string;
  vp_admin : Address;
  vp_locking_percentage : Z;
  vp_numerators : list Z;
  vp_denominator : Z;
  vp_withdrawal : Address;
  vp_cliff : Z;
  vp_period : Z;
}.
End genesis_data.

(** ** Balances *)
Module Balances.
Section balances.
Context `{GenesisEnv}.
Local Open Scope rust_scope.

Definition to_quants (amount_in_supra : F64) : Z :=
  f64_as_u64 (f64_mul amount_in_supra (f64_of_u64 SUPRA_COINS_BASE_WITH_DECIMALS)).

Definition balance (b : AccountBalance) : Z := to_quants (amount b).

(** [Ord]: by the amount.  [Eq] and [Hash]: by the address. *)
Definition balance_cmp (a b : AccountBalance) : comparison :=
  if SFeqb (amount a) (amount b) then Eq
  else if SFltb (amount a) (amount b) then Lt else Gt.

Definition balance_eqb (a b : AccountBalance) : bool := bool_decide (ab_address a = ab_address b).

(** Sums of [u64], which panic on overflow. *)
Definition sum64 {E} (l : list Z) : outcome E Z :=
  foldl (λ t x, let? t := t in add64 t x) (Ok 0) l.

Definition allocated_supra {E} (balances : list AccountBalance) : outcome E Z :=
  let? total := sum64 (balance <$> balances) in Ok (total / SUPRA_COINS_BASE_WITH_DECIMALS).

(** [find_duplicates]: each repeated item, at its second occurrence. *)
Fixpoint find_duplicates (seen duplicates : list Address) (l : list AccountBalance)
    : list AccountBalance :=
  match l with
  | [] => []
  | x :: l' =>
      if bool_decide (ab_address x ∈ seen)
      then if bool_decide (ab_address x ∈ duplicates)
           then find_duplicates seen duplicates l'
           else x :: find_duplicates seen (ab_address x :: duplicates) l'
      else find_duplicates (ab_address x :: seen) duplicates l'
  end.

(** [AccountBalances::from_file] on the parsed contents of the file. *)
Definition unique_balances (balances : list AccountBalance)
    : outcome CliError (list AccountBalance) :=
  let unique := btree_collect balance_cmp balance_eqb balances in
  if (length unique =? length balances)%nat then Ok unique
  else
    let duplicates := find_duplicates [] [] balances in
    Err (GenesisTool (AccountsNotUnique (ab_address <$> duplicates))).

Definition from_file (read : string → outcome CliError (list AccountBalance)) (path : string)
    : outcome CliError (list AccountBalance) :=
  let? balances := read path in
  unique_balances balances.

(** [balance_cmp] compares keys when no amount is [NaN], as in a JSON file. *)
Definition numbers (l : list AccountBalance) : Prop :=
  Forall (λ b, is_nan (amount b) = false) l.

Definition balance_key (b : AccountBalance) : Z * Z * Z := f64_key (amount b).

Lemma balance_cmp_key a b :
  is_nan (amount a) = false → is_nan (amount b) = false →
  balance_cmp a b = key_cmp (balance_key a) (balance_key b).
Proof.
  intros Ha Hb. unfold balance_cmp, balance_key, SFeqb, SFltb.
  rewrite f64_compare_key by done. by destruct (key_cmp _ _).
Qed.

Lemma slice_sort_cmp l :
  numbers l →
  slice_sort balance_cmp l = slice_sort (λ a b, key_cmp (balance_key a) (balance_key b)) l.
Proof.
  induction 1 as [|x l Hx Hl IH]; simpl; [done|]. rewrite <-IH. clear IH.
  assert (numbers (slice_sort balance_cmp l)) as Hs
    by (unfold numbers; by rewrite slice_sort_perm).
  induction Hs as [|y s Hy _ IH]; simpl; [done|]. rewrite balance_cmp_key by done. by rewrite IH.
Qed.

(** A file of account balances is accepted exactly when no two entries that are next
    to each other in the order of their amounts have the same address, and then
    gives its entries in this order.  A file without repeated addresses is
    accepted; but so is one that gives an account two amounts, if another account
    has an amount in between. *)
Theorem unique_balances_neighbours l :
  numbers l →
  let sorted := slice_sort balance_cmp l in
  sorted ≡ₚ l ∧ key_sorted balance_key key_cmp sorted ∧
  (∀ u, unique_balances l = Ok u ↔ u = sorted ∧ neighbours_differ balance_eqb sorted = true) ∧
  (NoDup (ab_address <$> l) → unique_balances l = Ok sorted) ∧
  (∀ a b x y z, let p a x := {| ab_address := a; amount := x |} in
     a ≠ b → balance_cmp (p a x) (p b y) = Lt → balance_cmp (p b y) (p a z) = Lt →
     unique_balances [p a x; p b y; p a z] = Ok [p a x; p b y; p a z]).
Proof.
  intros Hl sorted.
  assert (sorted ≡ₚ l) as Hp by apply slice_sort_perm.
  assert (∀ u, unique_balances l = Ok u ↔ u = sorted ∧ neighbours_differ balance_eqb sorted = true) as Hu.
  { intros u. unfold unique_balances, btree_collect. fold sorted. rewrite <-Hp at 1.
    pose proof (dedup_sorted_length balance_eqb sorted) as Hlen.
    destruct (Nat.eqb_spec (length (dedup_sorted balance_eqb sorted)) (length sorted)) as [He|Hne].
    - apply Hlen in He. rewrite dedup_sorted_id by done. split; [by intros [= <-]|by intros [-> _]].
    - split; [done|]. intros [_ ?%Hlen]. done. }
  split_and!; [done| |done| |].
  - unfold sorted. rewrite slice_sort_cmp by done. apply (slice_sort_sorted balance_key key_cmp).
  - intros Hn. apply Hu. split; [done|].
    apply (nodup_neighbours_differ ab_address); [by intros x y ?%bool_decide_eq_true|].
    by rewrite Hp.
  - intros a b x y z p Hab Hxy Hyz. unfold unique_balances, btree_collect. simpl.
    rewrite Hyz. simpl. rewrite Hxy. simpl. unfold balance_eqb. simpl.
    by rewrite !bool_decide_eq_false_2 by congruence.
Qed.
End balances.
End Balances.

(** ** Configuration files *)
Module Config.
Import Balances.
Section config.
Context `{GenesisEnv}.
Local Open Scope rust_scope.
(** The parsed contents of the files. *)
Context (read_balances : string → outcome CliError (list AccountBalance)).

(** *** Multisig accounts of the foundation *)
Definition balance_in_supra (a : FoundationOwnedMultisigAccount) : Z := f64_as_u64 (fo_balance a).
Definition account_balance (a : FoundationOwnedMultisigAccount) : Z := to_quants (fo_balance a).
Definition metadata_values_serialized (a : FoundationOwnedMultisigAccount) : list GBytes :=
  string_bytes <$> metadata_values a.

(** [position], then a lookup by the index. *)
Fixpoint position (p : string → bool) (l : list string) : option nat :=
  match l with
  | [] => None
  | x :: l' => if p x then Some O else S <$> position p l'
  end.

(** The error also prints the account. *)
Definition account_name (a : FoundationOwnedMultisigAccount) : outcome CliError string :=
  match position (λ k, bool_decide (k = "name")) (metadata_keys a) with
  | Some i =>
      match metadata_values a !! i with
      | Some name => Ok name
      | None => Err (GeneralError "FoundationOwnedMultisigAccount is missing a name")
      end
  | None => Err (GeneralError "FoundationOwnedMultisigAccount is missing a name")
  end.

Definition first_owner {E} (c : FoundationMultiSigAccountsConfig) : outcome E Address :=
  expect (head (owners c)).
Definition additional_owners (c : FoundationMultiSigAccountsConfig) : list Address := tail (owners c).

Definition config_allocated_supra {E} (c : FoundationMultiSigAccountsConfig) : outcome E Z :=
  let? accounts := sum64 (balance_in_supra <$> standalone_accounts c) in
  let? own := mul64 (owner_balances_in_supra c) (Z.of_nat (length (owners c))) in
  add64 accounts own.

Definition config_from_file
    (read : string → outcome CliError FoundationMultiSigAccountsConfig) (path : string)
    : outcome CliError FoundationMultiSigAccountsConfig :=
  let? config := read path in
  if (length (owners config) <? MIN_PARTICIPANTS)%nat
  then Err (GenesisTool NotEnoughFoundationMultisigMembers)
  else Ok config.

(** [FoundationMultisigAccounts::new]. *)
Definition multisig_account (seed : Address) (i : Z) (kind : FoundationMultisigAccountType)
    (name : string) : FoundationMultisigAccount :=
  {| fm_address := create_multisig_account_address seed i; fm_kind := kind; fm_name := name;
     seed_owner_address := seed; seed_sequence_number := i |}.

Definition multisig_accounts (config : FoundationMultiSigAccountsConfig)
    (genesis_committee_size : nat) : outcome CliError FoundationMultisigAccounts :=
  let? seed_account := first_owner config in
  let start := START_SEED_SEQUENCE_NUMBER in
  let? end_ := add64 start (Z.of_nat genesis_committee_size) in
  let owners :=
    (λ i, multisig_account seed_account i DelegationPoolOwner
            (PBO_OWNER_NAME_PREFIX +:+ " " +:+ pretty i))
    <$> seqZ start (Z.of_nat genesis_committee_size) in
  let start := end_ in
  let? end_ := add64 start (Z.of_nat (length (standalone_accounts config))) in
  let? standalone :=
    otraverse (λ '(i, account_config),
      let? name := account_name account_config in
      Ok (multisig_account seed_account i StandaloneAccount name))
    (zip (seqZ start (Z.of_nat (length (standalone_accounts config))))
         (standalone_accounts config)) in
  Ok {| delegation_pool_owners := owners; standalone := standalone |}.

Fixpoint starts_with (prefix s : string) : bool :=
  match prefix, s with
  | EmptyString, _ => true
  | String a p, String b s => Ascii.eqb a b && starts_with p s
  | _, EmptyString => false
  end.

Definition with_name_prefix (a : FoundationMultisigAccounts) (prefix : string)
    : outcome CliError FoundationMultisigAccount :=
  match List.find (λ x, starts_with prefix (fm_name x)) (standalone a) with
  | Some x => Ok x
  | None =>
      ok_or (List.find (λ x, starts_with prefix (fm_name x)) (delegation_pool_owners a))
        (GeneralError ("Missing account for name prefix: " +:+ prefix))
  end.

(** *** Schedules of the delegation pools *)
Definition schedule_accounts (s : DelegationPoolUnlockSchedule)
    : outcome CliError (option (list AccountBalance)) :=
  match accounts_file_path s with
  | Some path => omap_ok Some (from_file read_balances path)
  | None => Ok None
  end.

Definition schedules_accounts (s : DelegationPoolUnlockSchedules)
    : outcome CliError (list AccountBalance) :=
  omap_ok (λ l, concat (default [] <$> l)) (otraverse schedule_accounts (ds_schedules s)).

Definition schedules_allocated_supra (s : DelegationPoolUnlockSchedules) : outcome CliError Z :=
  let? accounts := schedules_accounts s in
  allocated_supra accounts.

(** [from_file] on the parsed contents: the default schedule and the copies of
    each schedule. *)
Definition expand_schedules (default_id : string) (schedules : list DelegationPoolUnlockSchedule)
    : outcome CliError DelegationPoolUnlockSchedules :=
  match List.find (λ s, bool_decide (ds_id s = default_id)) schedules with
  | Some pool =>
      Ok {| ds_default := default_id; ds_schedules := schedules; default_pool := pool;
            schedules_expanded := concat ((λ s, replicate (pools_with_delegators s) s) <$> schedules) |}
  | None => Err (GenesisTool MissingDefaultDelegationPoolSchedule)
  end.

Definition ith_pool_schedule (s : DelegationPoolUnlockSchedules) (i : nat)
    : DelegationPoolUnlockSchedule :=
  match schedules_expanded s !! i with
  | Some x => x
  | None => default_pool s
  end.

(** *** Schedules of the vesting pools *)

(** [slice::chunks]; a chunk size of zero panics. *)
Fixpoint chunks_aux {A} (fuel : nat) (n : nat) (l : list A) : list (list A) :=
  match fuel, l with
  | S fuel', _ :: _ => take n l :: chunks_aux fuel' n (drop n l)
  | _, _ => []
  end.
Definition chunks {E A} (n : nat) (l : list A) : outcome E (list (list A)) :=
  if (n =? 0)%nat then Panic else Ok (chunks_aux (length l) n l).

(** [Ord] of the crate [types]. *)
Context (vesting_cmp : VestingAccount → VestingAccount → comparison).
Context (vesting_pool_cmp : VestingPoolConfig → VestingPoolConfig → comparison).
Context (string_cmp : string → string → comparison).

Definition vesting_schedule_accounts (s : VestingPoolUnlockSchedule)
    : outcome CliError (list VestingAccount) :=
  let? accounts := from_file read_balances (vs_accounts_file_path s) in
  let? cs := chunks MAXIMUM_SHAREHOLDERS_PER_VESTING_POOL accounts in
  Ok (foldl (λ mapped '(i, chunk),
        let contract_id := vesting_pool_id s +:+ " " +:+ pretty (i : nat) in
        btree_extend vesting_cmp mapped
          (btree_collect vesting_cmp (cmp_eqb vesting_cmp)
             ((λ acc, {| va_address := ab_address acc; va_amount := balance acc;
                         va_pool_id := contract_id |}) <$> chunk)))
      [] (zip (seq 0 (length cs)) cs)).

Definition pool_ids (s : VestingPoolUnlockSchedule) : outcome CliError (list string) :=
  let? accounts := vesting_schedule_accounts s in
  Ok (btree_collect string_cmp (cmp_eqb string_cmp) (va_pool_id <$> accounts)).

(** [VestingPoolUnlockSchedules::account_balances]. *)
Fixpoint vesting_account_balances (balances : list VestingAccount)
    (schedules : list VestingPoolUnlockSchedule) : outcome CliError (list VestingAccount) :=
  match schedules with
  | [] => Ok balances
  | s :: schedules' =>
      let? accounts := vesting_schedule_accounts s in
      match List.filter (λ a, btree_mem vesting_cmp a balances) accounts with
      | [] => vesting_account_balances (btree_extend vesting_cmp balances accounts) schedules'
      | duplicates => Err (GenesisTool (AccountsNotUnique (va_address <$> duplicates)))
      end
  end.

Definition vesting_allocated_supra {E} (balances : list VestingAccount) : outcome E Z :=
  let? total := sum64 (va_amount <$> balances) in Ok (total / SUPRA_COINS_BASE_WITH_DECIMALS).
End config.
End Config.

(** ** The generator *)
Module Generator.
Import Balances Config.
Section generator.
Context `{GenesisEnv}.
Local Open Scope rust_scope.
Context (read_balances : string → outcome CliError (list AccountBalance)).
(** [Ord] of the types of other crates. *)
Context (vesting_cmp : VestingAccount → VestingAccount → comparison).
Context (vesting_pool_cmp : VestingPoolConfig → VestingPoolConfig → comparison).
Context (string_cmp : string → string → comparison).
Context (pool_cmp : DelegationPoolConfigV1 → DelegationPoolConfigV1 → comparison).
Context (delegator_cmp : DelegatorAccountV1 → DelegatorAccountV1 → comparison).

(** The committee: the consensus keys of its members, in order, and the stake
    of a pool owner in its genesis parameters. *)
Record MainnetGenesisAccountsGenerator := {
  delegation_pool_schedules : DelegationPoolUnlockSchedules;
  foundation_multisig_accounts : FoundationMultisigAccounts;
  foundation_multisig_accounts_config : FoundationMultiSigAccountsConfig;
  foundation_validators_consensus_public_keys : list PublicKey;
  committee_keys : list PublicKey;
  pbo_owner_stake : Z;
  vesting_accounts : list VestingAccount;
  vesting_pool_schedules : list VestingPoolUnlockSchedule;
}.

Implicit Type g : MainnetGenesisAccountsGenerator.

Definition foundation_delegated_supra {E} g : outcome E Z :=
  mul64 (pbo_owner_stake g / SUPRA_COINS_BASE_WITH_DECIMALS) (Z.of_nat (length (committee_keys g))).

Definition total_allocated_supra g : outcome CliError Z :=
  let? t0 := foundation_delegated_supra g in
  let? delegated := schedules_allocated_supra read_balances (delegation_pool_schedules g) in
  let? t1 := add64 t0 delegated in
  let? multisig := config_allocated_supra (foundation_multisig_accounts_config g) in
  let? t2 := add64 t1 multisig in
  let? vested := vesting_allocated_supra (vesting_accounts g) in
  add64 t2 vested.

(** The pools of the foundation, in the order of the set they come from. *)
Definition foundation_operated_delegation_pools g (pools : list DelegationPoolConfigV1)
    : list DelegationPoolConfigV1 :=
  List.filter (λ p, bool_decide (validator_consensus_public_key p
                                 ∈ foundation_validators_consensus_public_keys g)) pools.

(** *** Assignment of the delegators *)

(** The index of the first of the lowest balances. *)
Fixpoint lowest (l : list Z) (j pool_index : nat) (min_balance : Z) : nat :=
  match l with
  | [] => pool_index
  | pool_balance :: l' =>
      if pool_balance <? min_balance then lowest l' (S j) j pool_balance
      else lowest l' (S j) pool_index min_balance
  end.

(** [assigned], in the order of the insertions, [assignment_counts] and [pool_balances]. *)
Record Assignment := {
  placements : list DelegatorAccountV1;
  assignment_counts : gmap Address nat;
  pool_balances : list Z;
}.

(** [entry(..).and_modify(|count| *count += 1).or_default()]. *)
Definition count_assignment (owner : Address) (counts : gmap Address nat) : gmap Address nat :=
  match counts !! owner with
  | Some count => <[owner := S count]> counts
  | None => <[owner := O]> counts
  end.

Definition assign_one (assigned_pools : list DelegationPoolConfigV1) (b : AccountBalance)
    (a : Assignment) : outcome CliError Assignment :=
  let pool_index := lowest (pool_balances a) 0 0 U64_MAX in
  let? assigned_pool := expect (assigned_pools !! pool_index) in
  let owner := owner_address assigned_pool in
  let? old := expect (pool_balances a !! pool_index) in
  let? new := add64 old (balance b) in
  Ok {| placements := placements a ++ [{| da_address := ab_address b; da_balance := balance b;
                                          da_pool_owner := owner |}];
        assignment_counts := count_assignment owner (assignment_counts a);
        pool_balances := <[pool_index := new]> (pool_balances a) |}.

Fixpoint assign_each (assigned_pools : list DelegationPoolConfigV1) (l : list AccountBalance)
    (a : Assignment) : outcome CliError Assignment :=
  match l with
  | [] => Ok a
  | b :: l' => let? a' := assign_one assigned_pools b a in assign_each assigned_pools l' a'
  end.

Definition assign_schedule (foundation_pools : list DelegationPoolConfigV1)
    (schedule : DelegationPoolUnlockSchedule) (a : Assignment) : outcome CliError Assignment :=
  let assigned_pools :=
    take (pools_with_delegators schedule) (drop (length (pool_balances a)) foundation_pools) in
  if negb (length assigned_pools =? pools_with_delegators schedule)%nat
  then Err (GenesisTool NotEnoughFoundationDelegationPools)
  else
    let? maybe := schedule_accounts read_balances schedule in
    match maybe with
    | None => Ok a
    | Some delegators =>
        assign_each assigned_pools (slice_sort balance_cmp delegators)
          {| placements := placements a; assignment_counts := assignment_counts a;
             pool_balances := pool_balances a ++ replicate (length assigned_pools) 0 |}
    end.

Fixpoint assign_schedules (foundation_pools : list DelegationPoolConfigV1)
    (l : list DelegationPoolUnlockSchedule) (a : Assignment) : outcome CliError Assignment :=
  match l with
  | [] => Ok a
  | s :: l' =>
      let? a' := assign_schedule foundation_pools s a in assign_schedules foundation_pools l' a'
  end.

(** The check of the counts reports one of the pools that have too many. *)
Definition check_counts (counts : gmap Address nat) : outcome CliError unit :=
  match List.find (λ '(_, c), (MAXIMUM_DELEGATORS_PER_DELEGATION_POOL <? c)%nat)
          (map_to_list counts) with
  | Some (owner, count) =>
      Err (GeneralError ("Too many delegators assigned to the delegation pool owned by "
        +:+ show_address owner +:+ ". Count was: " +:+ pretty count +:+ "."))
  | None => Ok tt
  end.

Definition no_assignment : Assignment :=
  {| placements := []; assignment_counts := ∅; pool_balances := [] |}.

Definition assign_delegators_to_delegation_pools g (all_pools : list DelegationPoolConfigV1)
    : outcome CliError (list DelegatorAccountV1) :=
  let pools := foundation_operated_delegation_pools g all_pools in
  let? a := assign_schedules pools (ds_schedules (delegation_pool_schedules g)) no_assignment in
  let? _ := check_counts (assignment_counts a) in
  Ok (btree_of delegator_cmp (placements a)).

(** *** Pools and accounts *)
Definition generate_delegation_pool_configs {E} g : outcome E (list DelegationPoolConfigV1) :=
  omap_ok (btree_of pool_cmp)
    (otraverse (λ '(i, operator),
      let unlock_schedule := ith_pool_schedule (delegation_pool_schedules g) i in
      let? owner := expect (delegation_pool_owners (foundation_multisig_accounts g) !! i) in
      Ok {| owner_address := fm_address owner;
            pool_seed := ds_id unlock_schedule +:+ " " +:+ DELEGATION_POOL_SEED_PREFIX +:+ " "
                         +:+ pretty i;
            validator_consensus_public_key := operator;
            pool_admin := fm_address owner;
            pool_numerators := unlock_schedule_numerators unlock_schedule;
            pool_denominator := unlock_schedule_denominator unlock_schedule;
            pool_startup_time := unlock_startup_time_from_now unlock_schedule;
            pool_period_duration := unlock_period_duration unlock_schedule |})
      (zip (seq 0 (length (committee_keys g))) (committee_keys g))).

(** [aptos_vm_genesis]. *)
Record OwnerBalance := { ob_address : Address; ob_balance : Z }.
Record MultiSigAccountSchema := {
  schema_owner : Address;
  schema_additional_owners : list Address;
  schema_num_signatures_required : Z;
  schema_metadata_keys : list string;
  schema_metadata_values : list GBytes;
  schema_timeout_duration : Z;
  schema_balance : Z;
  schema_num_of_accounts : Z;
}.
Record MultiSigAccountWithBalance := {
  mb_owner : Address;
  mb_additional_owners : list Address;
  mb_multisig_address : Address;
  mb_num_signatures_required : Z;
  mb_metadata_keys : list string;
  mb_metadata_values : list GBytes;
  mb_timeout_duration : Z;
  mb_balance : Z;
}.
Context (owner_balance_cmp : OwnerBalance → OwnerBalance → comparison).
Context (multisig_cmp : MultiSigAccountWithBalance → MultiSigAccountWithBalance → comparison).

Definition generate_foundation_multisig_owner_accounts {E} g : outcome E (list OwnerBalance) :=
  let config := foundation_multisig_accounts_config g in
  omap_ok (btree_collect owner_balance_cmp (cmp_eqb owner_balance_cmp))
    (otraverse (λ addr,
       let? b := mul64 (owner_balances_in_supra config) SUPRA_COINS_BASE_WITH_DECIMALS in
       Ok {| ob_address := addr; ob_balance := b |}) (owners config)).

Definition generate_foundation_multisig_accounts_schema {E} g : outcome E MultiSigAccountSchema :=
  let config := foundation_multisig_accounts_config g in
  let? owner := first_owner config in
  Ok {| schema_owner := owner; schema_additional_owners := additional_owners config;
        schema_num_signatures_required := num_signatures_required config;
        schema_metadata_keys := ["name"];
        schema_metadata_values := [string_bytes "Supra Foundation Validator Owner"];
        schema_timeout_duration := timeout_duration config;
        schema_balance := pbo_owner_stake g;
        schema_num_of_accounts := Z.of_nat (length (committee_keys g)) mod 2 ^ 32 |}.

Definition generate_foundation_standalone_multisig_accounts {E} g
    : outcome E (list MultiSigAccountWithBalance) :=
  let config := foundation_multisig_accounts_config g in
  omap_ok (btree_of multisig_cmp)
    (otraverse (λ '(i, account),
      let? owner := first_owner config in
      Ok {| mb_owner := owner; mb_additional_owners := additional_owners config;
            mb_multisig_address := placeholder_address i;
            mb_num_signatures_required := num_signatures_required config;
            mb_metadata_keys := metadata_keys account;
            mb_metadata_values := metadata_values_serialized account;
            mb_timeout_duration := timeout_duration config;
            mb_balance := account_balance account |})
      (zip (seq 0 (length (standalone_accounts config))) (standalone_accounts config))).

Fixpoint vesting_pools_of g (pools : list VestingPoolConfig) (l : list VestingPoolUnlockSchedule)
    : outcome CliError (list VestingPoolConfig) :=
  match l with
  | [] => Ok pools
  | s :: l' =>
      let? admin := with_name_prefix (foundation_multisig_accounts g) (vesting_pool_id s) in
      let foundation_admin := fm_address admin in
      let? ids := pool_ids read_balances vesting_cmp string_cmp s in
      vesting_pools_of g
        (btree_extend vesting_pool_cmp pools
           ((λ id, {| vp_id := id; vp_admin := foundation_admin;
                      vp_locking_percentage := vpool_locking_percentage s;
                      vp_numerators := vesting_numerators s;
                      vp_denominator := vesting_denominators s;
                      vp_withdrawal := foundation_admin;
                      vp_cliff := cliff_period_in_seconds s;
                      vp_period := period_duration_in_seconds s |}) <$> ids)) l'
  end.

Definition generate_vesting_pools_config g : outcome CliError (list VestingPoolConfig) :=
  vesting_pools_of g [] (vesting_pool_schedules g).

(** *** Checks and output *)
Definition verify g : outcome CliError unit :=
  let? total := total_allocated_supra g in
  if SUPRA_MINTED_AT_GENESIS <? total
  then Err (GenesisTool (MintableSupplyExceeded total SUPRA_MINTED_AT_GENESIS))
  else if total <? SUPRA_MINTED_AT_GENESIS - ERROR_MARGIN
  then Err (GenesisTool (InsufficientAllocation total SUPRA_MINTED_AT_GENESIS))
  else
    let? delegators := schedules_accounts read_balances (delegation_pool_schedules g) in
    let delegator_accounts : gset Address := list_to_set (ab_address <$> delegators) in
    let vesting : gset Address := list_to_set (va_address <$> vesting_accounts g) in
    match elements (delegator_accounts ∩ vesting) with
    | [] => Ok tt
    | common_accounts => Err (GenesisTool (AccountsNotUnique common_accounts))
    end.

(** [GenesisAccountsV1::new] with its arguments. *)
Record GenesisAccountsV1 := {
  ga_delegation_pools : list DelegationPoolConfigV1;
  ga_delegators : list DelegatorAccountV1;
  ga_vesting_pools : list VestingPoolConfig;
  ga_vesting_accounts : list VestingAccount;
  ga_owners : list OwnerBalance;
  ga_multisig : list MultiSigAccountWithBalance;
  ga_schema : MultiSigAccountSchema;
}.

(** [generate], up to writing the files. *)
Definition generate g : outcome CliError GenesisAccountsV1 :=
  let? delegation_pools := generate_delegation_pool_configs g in
  let? delegation_accounts := assign_delegators_to_delegation_pools g delegation_pools in
  let? vesting_pools := generate_vesting_pools_config g in
  let? schema := generate_foundation_multisig_accounts_schema g in
  if schema_balance schema <? pbo_owner_stake g
  then
    let? short := sub64 (pbo_owner_stake g) (schema_balance schema) in
    Err (GenesisTool (InvalidPBOOwnerStake short (schema_balance schema)))
  else
    let? validator_owner_accounts := generate_foundation_multisig_owner_accounts g in
    let? multisig := generate_foundation_standalone_multisig_accounts g in
    Ok {| ga_delegation_pools := delegation_pools; ga_delegators := delegation_accounts;
          ga_vesting_pools := vesting_pools; ga_vesting_accounts := vesting_accounts g;
          ga_owners := validator_owner_accounts; ga_multisig := multisig; ga_schema := schema |}.

(** [TryFrom<&GenerateMainnetAccountsConfig>], from the parsed files. *)
Definition consensus_keys_from_file (keys : list PublicKey) : outcome CliError (list PublicKey) :=
  if (length keys <? DELEGATION_POOLS_WITH_PBO_STAKE)%nat
  then Err (GeneralError ("Expected at least " +:+ pretty DELEGATION_POOLS_WITH_PBO_STAKE
         +:+ " foundation-operated validator consensus keys but found "
         +:+ pretty (length keys) +:+ "."))
  else Ok keys.

Definition try_from (config : outcome CliError FoundationMultiSigAccountsConfig)
    (committee : outcome CliError (list PublicKey * Z))
    (keys : outcome CliError (list PublicKey))
    (pool_schedules : outcome CliError (string * list DelegationPoolUnlockSchedule))
    (vesting_schedules : outcome CliError (list VestingPoolUnlockSchedule))
    : outcome CliError MainnetGenesisAccountsGenerator :=
  let? config := config in
  let? ' (members, stake) := committee in
  let? accounts := multisig_accounts config (length members) in
  let? keys := keys in
  let? keys := consensus_keys_from_file keys in
  let? ' (default_id, schedules) := pool_schedules in
  let? schedules := expand_schedules default_id schedules in
  let? vesting := vesting_schedules in
  let? balances := vesting_account_balances read_balances vesting_cmp [] vesting in
  let generator :=
    {| delegation_pool_schedules := schedules; foundation_multisig_accounts := accounts;
       foundation_multisig_accounts_config := config;
       foundation_validators_consensus_public_keys := keys; committee_keys := members;
       pbo_owner_stake := stake; vesting_accounts := balances; vesting_pool_schedules := vesting |} in
  let? _ := verify generator in
  Ok generator.

(** *** Properties of the assignment *)

Lemma lowest_spec pre l p m :
  Forall (λ x, x ≤ U64_MAX) (pre ++ l) →
  (pre ++ l) ≠ [] →
  (pre = [] ∧ p = O ∧ m = U64_MAX ∨ pre !! p = Some m ∧ Forall (λ x, m ≤ x) pre) →
  ∃ m', (pre ++ l) !! lowest l (length pre) p m = Some m' ∧ Forall (λ x, m' ≤ x) (pre ++ l).
Proof.
  revert pre p m. induction l as [|x l IH]; intros pre p m Hub Hne Hpre; simpl.
  { rewrite app_nil_r in *. destruct Hpre as [(-> & _)|[Hp Hm]]; [done|]. by exists m. }
  assert (pre ++ x :: l = (pre ++ [x]) ++ l) as Heq by (by rewrite <-app_assoc).
  rewrite Heq in *. replace (S (length pre)) with (length (pre ++ [x]))
    by (rewrite length_app; simpl; lia).
  apply Forall_app in Hub as Hub'. destruct Hub' as [Hub1 _].
  apply Forall_app in Hub1 as [_ [Hx _]%Forall_cons]. cbn beta in Hx.
  destruct (Z.ltb_spec x m); apply IH; try done; right.
  - split; [by rewrite list_lookup_middle|]. apply Forall_app. split; [|by constructor].
    destruct Hpre as [(-> & _)|[_ Hm]]; [constructor|]. eapply Forall_impl; [exact Hm|].
    simpl. lia.
  - destruct Hpre as [(-> & -> & ->)|[Hp Hm]]; simpl.
    + assert (x = U64_MAX) as -> by lia. split; [done|]. by repeat constructor.
    + split; [by apply lookup_app_l_Some|]. apply Forall_app. split; [done|]. by repeat constructor.
Qed.

Lemma lowest_min l :
  Forall (λ x, x ≤ U64_MAX) l → l ≠ [] →
  ∃ m, l !! lowest l 0 0 U64_MAX = Some m ∧ Forall (λ x, m ≤ x) l.
Proof. intros Hub Hne. apply (lowest_spec [] l 0 U64_MAX Hub Hne). by left. Qed.

(** The stake and the number of the delegators placed with an owner. *)
Definition stake (o : Address) (l : list DelegatorAccountV1) : Z :=
  sumZ (da_balance <$> List.filter (λ d, bool_decide (da_pool_owner d = o)) l).
Definition delegators_of (o : Address) (l : list DelegatorAccountV1) : nat :=
  length (List.filter (λ d, bool_decide (da_pool_owner d = o)) l).

Lemma stake_snoc o l d :
  stake o (l ++ [d]) = stake o l + if decide (da_pool_owner d = o) then da_balance d else 0.
Proof.
  unfold stake. rewrite List.filter_app, fmap_app, sumZ_app. simpl.
  case_decide; case_bool_decide; try done; simpl; lia.
Qed.

Lemma delegators_of_snoc o l d :
  delegators_of o (l ++ [d])
  = (delegators_of o l + if decide (da_pool_owner d = o) then 1 else 0)%nat.
Proof.
  unfold delegators_of. rewrite List.filter_app, length_app. simpl.
  by case_decide; case_bool_decide.
Qed.

(** While one schedule is assigned: the balances are the stakes, they differ by
    at most [B], and they add up to what was placed. *)
Record assign_inv (pools : list DelegationPoolConfigV1) (B : Z) (a : Assignment) : Prop := {
  ai_len : length (pool_balances a) = length pools;
  ai_stake i p : pools !! i = Some p →
    pool_balances a !! i = Some (stake (owner_address p) (placements a));
  ai_spread : ∀ x y, x ∈ pool_balances a → y ∈ pool_balances a → x - y ≤ B;
  ai_nonneg : Forall (λ x, 0 ≤ x) (pool_balances a);
  ai_sum : sumZ (pool_balances a) = sumZ (da_balance <$> placements a);
  ai_owner : Forall (λ d, ∃ p, p ∈ pools ∧ da_pool_owner d = owner_address p) (placements a);
}.

Lemma balance_nonneg b : 0 ≤ balance b.
Proof. apply f64_as_u64_range. Qed.

Lemma assign_one_inv pools B a b :
  pools ≠ [] → NoDup (owner_address <$> pools) → balance b ≤ B →
  assign_inv pools B a → sumZ (da_balance <$> placements a) + balance b ≤ U64_MAX →
  ∃ a' o, assign_one pools b a = Ok a' ∧ assign_inv pools B a' ∧
    placements a' = placements a ++ [{| da_address := ab_address b; da_balance := balance b;
                                        da_pool_owner := o |}].
Proof.
  intros Hne Hnd HB [Hlen Hstake Hspread Hnn Hsum Hown] Hmax. pose proof (balance_nonneg b) as Hb.
  assert (Forall (λ x, x ≤ U64_MAX) (pool_balances a)) as Hub.
  { apply Forall_forall. intros x Hx. pose proof (sumZ_elem _ _ Hnn Hx). lia. }
  destruct (lowest_min (pool_balances a) Hub) as (m & Hm & Hmin).
  { intros Hnil. rewrite Hnil in Hlen. by destruct pools. }
  set (k := lowest (pool_balances a) 0 0 U64_MAX) in *.
  destruct (lookup_lt_is_Some_2 pools k) as [p Hp].
  { rewrite <-Hlen. by eapply lookup_lt_Some. }
  assert (m ∈ pool_balances a) as Hmin_in by (by eapply list_elem_of_lookup_2).
  pose proof (sumZ_elem _ _ Hnn Hmin_in) as Hms.
  pose proof (proj1 (Forall_forall _ _) Hnn m Hmin_in) as Hm0. cbn beta in Hm0.
  unfold assign_one. fold k. rewrite Hp. simpl. rewrite Hm. simpl.
  rewrite add64_ok by lia. simpl. eexists _, _. split; [reflexivity|]. split; [|reflexivity].
  pose proof (proj1 (Forall_forall _ _) Hmin) as Hle.
  split; simpl.
  - by rewrite length_insert.
  - intros i q Hq. rewrite stake_snoc. simpl. destruct (decide (k = i)) as [->|Hki].
    + rewrite list_lookup_insert_eq by (by eapply lookup_lt_Some). simplify_eq.
      rewrite decide_True by done. rewrite (Hstake _ _ Hp) in Hm. by simplify_eq.
    + rewrite list_lookup_insert_ne by done. rewrite (Hstake _ _ Hq). rewrite decide_False.
      { f_equal. lia. }
      intros Heq. apply Hki. eapply NoDup_lookup; [exact Hnd|..];
        rewrite list_lookup_fmap; [by rewrite Hp|]. rewrite Hq. simpl. by rewrite Heq.
  - assert (∀ x, x ∈ <[k := m + balance b]> (pool_balances a) →
      x = m + balance b ∨ x ∈ pool_balances a) as Hcase.
    { intros x [i Hi]%list_elem_of_lookup_1. destruct (decide (k = i)) as [->|Hki].
      - rewrite list_lookup_insert_eq in Hi by (by eapply lookup_lt_Some). left. by simplify_eq.
      - rewrite list_lookup_insert_ne in Hi by done. right. by eapply list_elem_of_lookup_2. }
    intros x y [->|Hx]%Hcase [->|Hy]%Hcase; [lia| | |by apply Hspread].
    + apply Hle in Hy. lia.
    + pose proof (Hspread _ _ Hx Hmin_in). lia.
  - apply Forall_insert; [done|lia].
  - rewrite (sumZ_insert _ _ _ _ Hm), fmap_app, sumZ_app. simpl. lia.
  - apply Forall_app. split; [done|]. constructor; [|constructor]. simpl.
    exists p. split; [by eapply list_elem_of_lookup_2|done].
Qed.

Lemma assign_each_inv pools B l a :
  pools ≠ [] → NoDup (owner_address <$> pools) → Forall (λ b, balance b ≤ B) l →
  assign_inv pools B a →
  sumZ (da_balance <$> placements a) + sumZ (balance <$> l) ≤ U64_MAX →
  ∃ a' ds, assign_each pools l a = Ok a' ∧ assign_inv pools B a' ∧
    placements a' = placements a ++ ds ∧
    (λ d, (da_address d, da_balance d)) <$> ds = (λ b, (ab_address b, balance b)) <$> l.
Proof.
  intros Hne Hnd Hl. revert a. induction Hl as [|b l Hb Hl IH]; intros a Ha Hmax; simpl.
  { exists a, []. by rewrite app_nil_r. }
  change (sumZ (balance <$> b :: l)) with (balance b + sumZ (balance <$> l)) in Hmax.
  assert (0 ≤ sumZ (balance <$> l)).
  { apply (sumZ_bound U64_MAX). apply Forall_fmap, Forall_forall. intros x _. apply f64_as_u64_range. }
  destruct (assign_one_inv pools B a b) as (a1 & o & -> & Ha1 & Hp1); [done..|lia|]. simpl.
  destruct (IH a1 Ha1) as (a' & ds & Heq & Ha' & Hp' & Hds).
  { rewrite Hp1, fmap_app, sumZ_app. simpl. lia. }
  exists a'. eexists (_ :: ds). split_and!; [exact Heq|done| |].
  - rewrite Hp', Hp1, <-app_assoc. reflexivity.
  - simpl. by f_equal.
Qed.

Lemma initial_assign_inv pools B :
  0 ≤ B →
  assign_inv pools B {| placements := []; assignment_counts := ∅;
                        pool_balances := replicate (length pools) 0 |}.
Proof.
  intros HB. split; simpl.
  - apply length_replicate.
  - intros i p Hp. apply lookup_replicate. split; [done|]. by eapply lookup_lt_Some.
  - intros x y [-> _]%elem_of_replicate [-> _]%elem_of_replicate. lia.
  - apply Forall_replicate. done.
  - clear. induction pools; simpl; lia.
  - constructor.
Qed.

(** C32 A single schedule is assigned evenly: if it has at least one pool and no more than
    there are, the pools have distinct owners, and its delegators together hold less
    than 2^64 quants, every one of them is placed exactly once with one of the
    pools of the schedule, and the stakes of any two of these pools differ by at
    most the balance of the largest delegator. *)
Theorem delegators_balanced foundation_pools s l :
  let n := pools_with_delegators s in
  let pools := take n foundation_pools in
  (0 < n ≤ length foundation_pools)%nat → NoDup (owner_address <$> foundation_pools) →
  schedule_accounts read_balances s = Ok (Some l) → sumZ (balance <$> l) ≤ U64_MAX →
  ∃ a, assign_schedules foundation_pools [s] no_assignment = Ok a ∧
    (λ d, (da_address d, da_balance d)) <$> placements a
      ≡ₚ (λ b, (ab_address b, balance b)) <$> l ∧
    Forall (λ d, ∃ p, p ∈ pools ∧ da_pool_owner d = owner_address p) (placements a) ∧
    ∀ B p q, Forall (λ b, balance b ≤ B) l → 0 ≤ B → p ∈ pools → q ∈ pools →
      stake (owner_address p) (placements a) - stake (owner_address q) (placements a) ≤ B.
Proof.
  intros n pools [Hn Hlen] Hnd Hacc Hmax.
  assert (length pools = n) as Hpl by (unfold pools; rewrite length_take; lia).
  assert (pools ≠ []) as Hne by (intros Hnil; rewrite Hnil in Hpl; simpl in Hpl; lia).
  assert (NoDup (owner_address <$> pools)) as Hnd'.
  { unfold pools. rewrite fmap_take. apply (NoDup_app _ (drop n (owner_address <$> foundation_pools))).
    by rewrite take_drop. }
  simpl. unfold assign_schedule. simpl. rewrite drop_0. fold n pools.
  rewrite Hpl, Nat.eqb_refl. simpl. rewrite Hacc. simpl. rewrite <-Hpl.
  pose proof (slice_sort_perm balance_cmp l) as Hperm.
  assert (∀ B, 0 ≤ B → Forall (λ b, balance b ≤ B) l →
    ∃ a' ds, assign_each pools (slice_sort balance_cmp l)
      {| placements := []; assignment_counts := ∅; pool_balances := replicate (length pools) 0 |}
      = Ok a' ∧ assign_inv pools B a' ∧ placements a' = ds ∧
      (λ d, (da_address d, da_balance d)) <$> ds
      = (λ b, (ab_address b, balance b)) <$> slice_sort balance_cmp l) as Hrun.
  { intros B HB Hl. apply (assign_each_inv pools B); [done..| |by apply initial_assign_inv|].
    - by rewrite Hperm.
    - simpl. by rewrite (sumZ_perm _ _ (fmap_Permutation balance _ _ Hperm)). }
  destruct (Hrun U64_MAX) as (a & ds & Ha & Hinv & <- & Hds); [done| |].
  { apply Forall_forall. intros b _. apply f64_as_u64_range. }
  rewrite Ha. simpl. exists a. split_and!; [done| |apply Hinv|].
  - by rewrite Hds, Hperm.
  - intros B p q HBl HB [i Hp]%list_elem_of_lookup_1 [j Hq]%list_elem_of_lookup_1.
    destruct (Hrun B HB HBl) as (a' & ds' & Ha' & Hinv' & _).
    assert (a' = a) as -> by congruence.
    apply (ai_spread _ _ _ Hinv'); eapply list_elem_of_lookup_2; by eapply ai_stake.
Qed.

(** The entry of an owner is one less than the number of its delegators. *)
Definition counts_inv (a : Assignment) : Prop :=
  ∀ o, assignment_counts a !! o
       = match delegators_of o (placements a) with O => None | S n => Some n end.

Lemma assign_one_counts pools b a a' :
  assign_one pools b a = Ok a' → counts_inv a → counts_inv a'.
Proof.
  unfold assign_one. destruct (pools !! _) as [p|]; simpl; [|done].
  destruct (pool_balances a !! _) as [old|]; simpl; [|done].
  destruct (add64 old (balance b)); simpl; [|done..]. intros [= <-] Hc o. simpl.
  rewrite delegators_of_snoc. simpl. unfold count_assignment.
  pose proof (Hc (owner_address p)) as Hp. pose proof (Hc o) as Ho.
  destruct (decide (owner_address p = o)) as [<-|Hne].
  - rewrite Hp. destruct (delegators_of (owner_address p) (placements a)) as [|n]; simpl;
      rewrite lookup_insert_eq; [done|]. f_equal. lia.
  - rewrite Nat.add_0_r, <-Ho. by destruct (assignment_counts a !! owner_address p);
      rewrite lookup_insert_ne.
Qed.

Lemma assign_each_counts pools l a a' :
  assign_each pools l a = Ok a' → counts_inv a → counts_inv a'.
Proof.
  revert a. induction l as [|b l IH]; intros a; simpl; [by intros [= <-]|].
  destruct (assign_one pools b a) as [a1|e|] eqn:H1; simpl; [|done..].
  intros Ha Hc. eapply IH; [exact Ha|]. by eapply assign_one_counts.
Qed.

Lemma assign_schedules_counts pools l a a' :
  assign_schedules pools l a = Ok a' → counts_inv a → counts_inv a'.
Proof.
  revert a. induction l as [|s l IH]; intros a; simpl; [by intros [= <-]|].
  destruct (assign_schedule pools s a) as [a1|e|] eqn:H1; simpl; [|done..].
  intros Ha Hc. eapply IH; [exact Ha|]. revert H1. unfold assign_schedule.
  destruct (negb _); [done|]. destruct (schedule_accounts read_balances s) as [[ds|]|e|]; simpl;
    [|by intros [= <-]|done..].
  intros H1. by eapply assign_each_counts.
Qed.

(** The limit on the delegators of a pool is checked one too late: whatever the
    schedules are, an assignment passes the check exactly when every pool has at
    most one delegator more than the maximum, because the first delegator of a
    pool is not counted. *)
Theorem delegator_limit_off_by_one foundation_pools schedules a :
  assign_schedules foundation_pools schedules no_assignment = Ok a →
  is_ok (check_counts (assignment_counts a)) = true ↔
  ∀ o, (delegators_of o (placements a) ≤ S MAXIMUM_DELEGATORS_PER_DELEGATION_POOL)%nat.
Proof.
  intros Ha. assert (counts_inv a) as Hc
    by (eapply assign_schedules_counts; [exact Ha|]; intros o; apply lookup_empty).
  unfold check_counts. destruct (List.find _ _) as [[o c]|] eqn:Hf; simpl.
  - apply List.find_some in Hf as [Hin%list_elem_of_In Hlt].
    apply elem_of_map_to_list in Hin. rewrite Hc in Hin. apply Nat.ltb_lt in Hlt.
    split; [done|]. intros Hle. specialize (Hle o).
    destruct (delegators_of o (placements a)); simplify_eq. lia.
  - split; [|done]. intros _ o. pose proof (Hc o) as Ho.
    destruct (delegators_of o (placements a)) as [|n]; [lia|].
    apply elem_of_map_to_list in Ho. apply list_elem_of_In in Ho.
    apply (List.find_none _ _ Hf) in Ho. apply Nat.ltb_ge in Ho. lia.
Qed.

(** The search for the lowest balance runs over the pools of all schedules, and
    its result indexes the pools of the current one: once a schedule has given
    stake to all of its pools, the first delegator of a later schedule with no
    more pools than there were before makes the generator panic. *)
Theorem second_schedule_panics foundation_pools s a l :
  let used := length (pool_balances a) in
  let n := pools_with_delegators s in
  Forall (λ x, 0 < x ≤ U64_MAX) (pool_balances a) →
  (0 < n ≤ used)%nat → (used + n ≤ length foundation_pools)%nat →
  schedule_accounts read_balances s = Ok (Some l) → l ≠ [] →
  assign_schedule foundation_pools s a = Panic.
Proof.
  intros used n Hpos Hn Hlen Hacc Hne. unfold assign_schedule. fold used n.
  assert (length (take n (drop used foundation_pools)) = n) as Hpl
    by (rewrite length_take, length_drop; lia).
  rewrite Hpl, Nat.eqb_refl. simpl. rewrite Hacc. simpl.
  destruct (slice_sort balance_cmp l) as [|b l'] eqn:Hs.
  { pose proof (slice_sort_perm balance_cmp l) as Hp. rewrite Hs in Hp.
    by apply Permutation_nil_l in Hp. }
  simpl. set (bs := pool_balances a ++ replicate n 0).
  destruct (lowest_min bs) as (m & Hm & Hmin).
  { apply Forall_app. split; [eapply Forall_impl; [exact Hpos|]; simpl; lia|].
    apply Forall_replicate. done. }
  { unfold bs. destruct n; [lia|]. by destruct (pool_balances a). }
  assert (m ≤ 0) as Hm0.
  { apply (proj1 (Forall_forall _ _) Hmin 0). unfold bs. apply elem_of_app. right.
    apply elem_of_replicate. split; [done|lia]. }
  unfold assign_one. simpl. fold bs.
  rewrite (lookup_ge_None_2 _ (lowest bs 0 0 U64_MAX)); [done|]. rewrite Hpl.
  destruct (decide (n ≤ lowest bs 0 0 U64_MAX)%nat) as [|Hlt]; [done|]. exfalso.
  set (k := lowest bs 0 0 U64_MAX) in *. unfold bs in Hm.
  rewrite lookup_app_l in Hm by (unfold used in *; lia).
  apply (Forall_lookup_1 _ _ _ _ Hpos) in Hm. lia.
Qed.

(** *** Constructed generators *)

Lemma verify_ok g :
  verify g = Ok tt ↔
  ∃ total delegators,
    total_allocated_supra g = Ok total ∧
    SUPRA_MINTED_AT_GENESIS - ERROR_MARGIN ≤ total ≤ SUPRA_MINTED_AT_GENESIS ∧
    schedules_accounts read_balances (delegation_pool_schedules g) = Ok delegators ∧
    ∀ d v, d ∈ delegators → v ∈ vesting_accounts g → ab_address d ≠ va_address v.
Proof.
  unfold verify. destruct (total_allocated_supra g) as [total|e|]; simpl;
    [|split; [done|by intros (? & ? & ? & _)]..].
  destruct (Z.ltb_spec SUPRA_MINTED_AT_GENESIS total).
  { split; [done|]. intros (? & ? & [= <-] & ? & _). lia. }
  destruct (Z.ltb_spec total (SUPRA_MINTED_AT_GENESIS - ERROR_MARGIN)).
  { split; [done|]. intros (? & ? & [= <-] & ? & _). lia. }
  destruct (schedules_accounts read_balances _) as [ds|e|]; simpl;
    [|split; [done|by intros (? & ? & _ & _ & ? & _)]..].
  trans (elements ((list_to_set (ab_address <$> ds) : gset Address)
                   ∩ list_to_set (va_address <$> vesting_accounts g)) = []).
  { by destruct (elements _). }
  rewrite elements_empty_iff. split.
  - intros Hd. exists total, ds. split_and!; [done|lia|lia|done|]. intros d v Hin Hv Heq.
    assert (ab_address d ∈ (∅ : gset Address)) as []%not_elem_of_empty.
    rewrite <-Hd, elem_of_intersection, !elem_of_list_to_set.
    split; [by apply list_elem_of_fmap_2|]. rewrite Heq. by apply list_elem_of_fmap_2.
  - intros (? & ? & [= <-] & _ & [= <-] & Hne) x. rewrite elem_of_intersection, !elem_of_list_to_set.
    split; [|by intros ?%not_elem_of_empty].
    intros [(d & -> & Hd)%list_elem_of_fmap (v & Heq & Hv)%list_elem_of_fmap].
    by destruct (Hne d v).
Qed.

Lemma multisig_accounts_size config n accounts :
  multisig_accounts config n = Ok accounts →
  length (delegation_pool_owners accounts) = n ∧
  length (standalone accounts) = length (standalone_accounts config).
Proof.
  unfold multisig_accounts. destruct (first_owner config) as [seed|e|]; simpl; [|done..].
  destruct (add64 _ _) as [end_|e|]; simpl; [|done..].
  destruct (add64 end_ _) as [end2|e|]; simpl; [|done..].
  destruct (otraverse _ _) as [l|e|] eqn:Hl; simpl; [|done..]. intros [= <-]. simpl.
  apply otraverse_ok, Forall2_length in Hl.
  rewrite length_zip_with, length_seqZ in Hl. rewrite length_fmap, length_seqZ. lia.
Qed.

Lemma pool_configs_total g :
  length (delegation_pool_owners (foundation_multisig_accounts g)) = length (committee_keys g) →
  ∃ pools, generate_delegation_pool_configs (E:=CliError) g = Ok (btree_of pool_cmp pools) ∧
    validator_consensus_public_key <$> pools = committee_keys g ∧
    owner_address <$> pools
      = fm_address <$> delegation_pool_owners (foundation_multisig_accounts g).
Proof.
  intros Hlen. unfold generate_delegation_pool_configs.
  set (owners := delegation_pool_owners (foundation_multisig_accounts g)) in *.
  set (P := λ (x : nat * PublicKey) p,
    validator_consensus_public_key p = x.2 ∧
    fm_address <$> owners !! x.1 = Some (owner_address p)).
  match goal with |- context [otraverse ?f ?l] =>
    destruct (otraverse_total P f l) as (pools & -> & Hpools) end.
  { apply Forall_forall. intros [i k] Hin. apply list_elem_of_lookup_1 in Hin as [j Hj].
    apply lookup_zip_Some in Hj as [[-> Hj]%lookup_seq _]. simpl in *.
    destruct (lookup_lt_is_Some_2 owners j) as [o Ho]; [lia|]. rewrite Ho. simpl.
    eexists. split; [reflexivity|]. split; simpl; [done|]. by rewrite Ho. }
  exists pools. split; [done|]. split.
  - trans ((zip (seq 0 (length (committee_keys g))) (committee_keys g)).*2).
    + induction Hpools as [|x p l pools [Hk _] _ IH]; csimpl; [done|].
      by f_equal.
    + apply snd_zip. by rewrite length_seq.
  - apply list_eq. intros i. rewrite !list_lookup_fmap.
    destruct (pools !! i) as [p|] eqn:Hp; simpl.
    + destruct (Forall2_lookup_r _ _ _ _ _ Hpools Hp) as ([j k] & Hx & _ & Ho). simpl in *.
      apply lookup_zip_Some in Hx as [[-> _]%lookup_seq _]. symmetry. exact Ho.
    + apply lookup_ge_None in Hp. apply Forall2_length in Hpools.
      rewrite length_zip_with, length_seq in Hpools.
      rewrite (lookup_ge_None_2 owners i) by lia. done.
Qed.

(** C33 A generator can only be constructed if the total of the allocated coins is
    within the margin of the planned supply, and if no delegator has a vesting
    account; and it has an owner account for every member of the committee, so
    that generating the delegation pools does not panic and starts from one pool
    for each member, owned by the account with the same position. *)
Theorem constructed_generator_sound config committee keys pool_schedules vesting_schedules g :
  try_from config committee keys pool_schedules vesting_schedules = Ok g →
  (∃ total delegators,
     total_allocated_supra g = Ok total ∧
     SUPRA_MINTED_AT_GENESIS - ERROR_MARGIN ≤ total ≤ SUPRA_MINTED_AT_GENESIS ∧
     schedules_accounts read_balances (delegation_pool_schedules g) = Ok delegators ∧
     ∀ d v, d ∈ delegators → v ∈ vesting_accounts g → ab_address d ≠ va_address v) ∧
  (∃ pools, generate_delegation_pool_configs (E:=CliError) g = Ok (btree_of pool_cmp pools) ∧
     validator_consensus_public_key <$> pools = committee_keys g ∧
     owner_address <$> pools
       = fm_address <$> delegation_pool_owners (foundation_multisig_accounts g)).
Proof.
  unfold try_from. destruct config as [c|e|]; simpl; [|done..].
  destruct committee as [[members stake']|e|]; simpl; [|done..].
  destruct (multisig_accounts c (length members)) as [accounts|e|] eqn:Hacc; simpl; [|done..].
  destruct keys as [ks|e|]; simpl; [|done..].
  destruct (consensus_keys_from_file ks) as [ks'|e|]; simpl; [|done..].
  destruct pool_schedules as [[d ss]|e|]; simpl; [|done..].
  destruct (expand_schedules d ss) as [ss'|e|]; simpl; [|done..].
  destruct vesting_schedules as [vs|e|]; simpl; [|done..].
  destruct (vesting_account_balances _ _ _ _) as [bs|e|]; simpl; [|done..].
  destruct (verify _) as [[]|e|] eqn:Hv; simpl; [|done..]. intros [= <-].
  split; [by apply verify_ok|]. apply pool_configs_total. simpl.
  by apply multisig_accounts_size in Hacc as [-> _].
Qed.
End generator.
End Generator.

(** ** The command *)

(** The JSON files of the arguments, the orders of the types of other crates, and
    the files that are written. *)
Class MainnetFiles `{GenesisEnv} (Disk : Type) : Type := {
  read_balances_of : Disk → string → outcome CliError (list AccountBalance);
  read_multisig_config : Disk → string → outcome CliError FoundationMultiSigAccountsConfig;
  (** The consensus keys and the stake of an owner of the SMR committee, if any. *)
  read_committees : Disk → string → outcome CliError (option (list PublicKey * Z));
  read_consensus_keys : Disk → string → outcome CliError (list PublicKey);
  read_pool_schedules :
    Disk → string → outcome CliError (string * list DelegationPoolUnlockSchedule);
  read_vesting_schedules : Disk → string → outcome CliError (list VestingPoolUnlockSchedule);
  vesting_account_cmp : VestingAccount → VestingAccount → comparison;
  vesting_pool_config_cmp : VestingPoolConfig → VestingPoolConfig → comparison;
  str_cmp : string → string → comparison;
  pool_config_cmp : DelegationPoolConfigV1 → DelegationPoolConfigV1 → comparison;
  delegator_account_cmp : DelegatorAccountV1 → DelegatorAccountV1 → comparison;
  owner_cmp : Generator.OwnerBalance → Generator.OwnerBalance → comparison;
  multisig_account_cmp :
    Generator.MultiSigAccountWithBalance → Generator.MultiSigAccountWithBalance → comparison;
  write_as_genesis_config : Generator.GenesisAccountsV1 → M Disk CliError unit;
  foundation_accounts_json : FoundationMultisigAccounts → string;
  FOUNDATION_MULTISIG_ACCOUNTS_JSON : string;
  write_file : string → string → M Disk IoError unit;
}.

Module Mainnet.
Import Config Generator.
Section mainnet.
Context `{GenesisEnv} {Disk : Type} `{!MainnetFiles Disk}.
Local Open Scope rust_scope.

(** The generator from the files of the arguments. *)
Definition generator_of (args : GenerateMainnetAccountsConfig) (d : Disk)
    : outcome CliError MainnetGenesisAccountsGenerator :=
  try_from (read_balances_of d) vesting_account_cmp
    (config_from_file (read_multisig_config d) (foundation_multisig_accounts_config_path args))
    (let? committees := read_committees d (supra_committees_path args) in expect committees)
    (read_consensus_keys d (foundation_validators_consensus_public_keys_path args))
    (read_pool_schedules d (delegation_pool_schedules_path args))
    (read_vesting_schedules d (vesting_pool_schedules_path args)).

(** [FoundationMultisigAccounts::write_to_file]. *)
Definition write_to_file (self : FoundationMultisigAccounts) : M Disk CliError unit :=
  rmap_err StdIoError
    (write_file FOUNDATION_MULTISIG_ACCOUNTS_JSON (foundation_accounts_json self)).

(** What [generate] writes. *)
Definition accounts_of (d : Disk) (g : MainnetGenesisAccountsGenerator)
    : outcome CliError GenesisAccountsV1 :=
  generate (read_balances_of d) vesting_account_cmp vesting_pool_config_cmp str_cmp pool_config_cmp
    delegator_account_cmp owner_cmp multisig_account_cmp g.

(** [GenerateMainnetAccountsConfig::execute]. *)
Definition execute (args : GenerateMainnetAccountsConfig) : M Disk CliError unit :=
  λ d,
    (generator <- rlift (generator_of args d) ;;
     config <- rlift (accounts_of d generator) ;;
     write_as_genesis_config config ;;
     write_to_file (foundation_multisig_accounts generator)) d.

(** Nothing is written unless the input is sound and all accounts could be
    generated; then the configuration is written before the list of the accounts
    of the foundation. *)
Theorem accounts_written args d :
  match generator_of args d with
  | Ok g =>
      match accounts_of d g with
      | Ok config =>
          let '(d1, written) := write_as_genesis_config config d in
          match written with
          | Ok _ => execute args d = write_to_file (foundation_multisig_accounts g) d1
          | _ => (execute args d).1 = d1 ∧ is_ok (execute args d).2 = false
          end
      | _ => (execute args d).1 = d ∧ is_ok (execute args d).2 = false
      end
  | _ => (execute args d).1 = d ∧ is_ok (execute args d).2 = false
  end.
Proof.
  unfold execute, rthen, rlift. destruct (generator_of args d) as [g|e|]; [|done..].
  destruct (accounts_of d g) as [config|e|]; [|done..].
  by destruct (write_as_genesis_config config d) as [d1 [[]|e|]].
Qed.
End mainnet.
End Mainnet.
