(* ===== verification/GenesisExamples.v ===== *)
(** * A concrete configuration of the genesis accounts

    Addresses and keys are numbers.  Three delegators hold 5, 3 and 2 SUPRA, the
    committee has twelve members, ten of them operated by the foundation, and a
    standalone account of the foundation holds the planned supply but ten SUPRA.
    The sets of the types of other crates keep the order of insertion.
    The theorems of [Genesis] are applied to it. *)

From S2P Require Import Prelude OrderedSet CliTypes CliExamples Genesis.
From stdpp Require Import base tactics option list gmap strings pretty.
From Stdlib Require Import ZArith Lia SpecFloat.
Import Balances Config Generator.
Local Open Scope Z_scope.

#[export] Instance ex_genesis : GenesisEnv := {|
  PublicKey := Z; GBytes := string; string_bytes := id;
  create_multisig_account_address a i := a * 1000 + i;
  placeholder_address := Z.of_nat;
  SUPRA_COINS_BASE_WITH_DECIMALS := 10 ^ 8;
  MAXIMUM_SHAREHOLDERS_PER_VESTING_POOL := 2;
  MAXIMUM_DELEGATORS_PER_DELEGATION_POOL := 1;
|}.

Definition ex_balance (a : Z) (x : Z) : @AccountBalance ex_cli :=
  @Build_AccountBalance ex_cli a (f64_of_u64 x).

Definition ex_delegators : list (@AccountBalance ex_cli) :=
  [ex_balance 1 5; ex_balance 2 3; ex_balance 3 2].

(** The accounts as they are read: in the order of the amounts. *)
Definition ex_sorted : list (@AccountBalance ex_cli) :=
  [ex_balance 3 2; ex_balance 2 3; ex_balance 1 5].

Definition ex_read (path : string)
    : outcome (@CliError ex_cli) (list (@AccountBalance ex_cli)) :=
  if bool_decide (path = "delegators") then Ok ex_delegators
  else Err (GeneralError "no such file").

Definition ex_schedule (n : nat) : DelegationPoolUnlockSchedule :=
  {| accounts_file_path := Some "delegators"; ds_id := "default"; pools_with_delegators := n;
     unlock_schedule_numerators := [1]; unlock_schedule_denominator := 10;
     unlock_startup_time_from_now := 0; unlock_period_duration := 60 |}.

Definition ex_pool (i : Z) : @DelegationPoolConfigV1 ex_cli ex_genesis :=
  @Build_DelegationPoolConfigV1 ex_cli ex_genesis (100 + i) "seed" i (100 + i) [1] 10 0 60.
Definition ex_pools : list (@DelegationPoolConfigV1 ex_cli ex_genesis) := ex_pool <$> [0; 1; 2; 3].

Definition ex_config : @FoundationMultiSigAccountsConfig ex_cli :=
  @Build_FoundationMultiSigAccountsConfig ex_cli [7; 8] 2 0 300
    [{| fo_balance := f64_of_u64 (SUPRA_MINTED_AT_GENESIS - 10);
        metadata_keys := ["name"]; metadata_values := ["Escrow"] |}].

Lemma ex_accounts n : schedule_accounts ex_read (ex_schedule n) = Ok (Some ex_sorted).
Proof. vm_cast_no_check (eq_refl (@Ok (@CliError ex_cli) _ (Some ex_sorted))). Qed.

Lemma unique_balances_neighbours_witness :
  numbers ex_delegators ∧
  unique_balances ex_delegators = Ok (slice_sort balance_cmp ex_delegators).
Proof.
  assert (numbers ex_delegators) as Hn by (by repeat constructor).
  split; [exact Hn|]. apply (unique_balances_neighbours ex_delegators Hn).
  apply (bool_decide_unpack _). vm_compute. reflexivity.
Defined.

Lemma delegators_balanced_witness :
  ∃ a, assign_schedules ex_read ex_pools [ex_schedule 2] no_assignment = Ok a ∧
    length (placements a) = 3%nat.
Proof.
  destruct (delegators_balanced ex_read ex_pools (ex_schedule 2) ex_sorted) as (a & Ha & Hp & _).
  - simpl. lia.
  - apply (bool_decide_unpack _). vm_compute. reflexivity.
  - apply ex_accounts.
  - vm_compute. discriminate.
  - exists a. split; [exact Ha|]. apply Permutation_length in Hp.
    rewrite !length_fmap in Hp. exact Hp.
Defined.

(** Two delegators in the first pool, where at most one is allowed. *)
Definition ex_assigned : Assignment :=
  match assign_schedules ex_read ex_pools [ex_schedule 2] no_assignment with
  | Ok a => a
  | _ => no_assignment
  end.

Lemma ex_assigned_ok :
  assign_schedules ex_read ex_pools [ex_schedule 2] no_assignment = Ok ex_assigned.
Proof.
  unfold ex_assigned.
  assert (is_ok (assign_schedules ex_read ex_pools [ex_schedule 2] no_assignment) = true) as Hok
    by (vm_compute; reflexivity).
  destruct (assign_schedules _ _ _ _); [reflexivity|discriminate Hok..].
Qed.

Lemma delegator_limit_off_by_one_witness :
  is_ok (check_counts (assignment_counts ex_assigned)) = true ∧
  ∀ o, (delegators_of o (placements ex_assigned) ≤ 2)%nat.
Proof.
  assert (is_ok (check_counts (assignment_counts ex_assigned)) = true) as Hok
    by (vm_compute; reflexivity).
  split; [exact Hok|].
  apply (delegator_limit_off_by_one ex_read ex_pools [ex_schedule 2] ex_assigned);
    [exact ex_assigned_ok|exact Hok].
Defined.

Lemma second_schedule_panics_witness :
  assign_schedule ex_read ex_pools (ex_schedule 2) ex_assigned = Panic.
Proof.
  apply (second_schedule_panics ex_read ex_pools (ex_schedule 2) ex_assigned ex_sorted).
  - apply (bool_decide_unpack _). vm_compute. reflexivity.
  - vm_compute. lia.
  - vm_compute. lia.
  - apply ex_accounts.
  - discriminate.
Defined.

Definition ex_members : list Z := [1; 2; 3; 4; 5; 6; 7; 8; 9; 10; 11; 12].
Definition ex_cmp {A} (_ _ : A) : comparison := Gt.

Definition ex_generator : outcome (@CliError ex_cli) MainnetGenesisAccountsGenerator :=
  try_from ex_read ex_cmp (Ok ex_config) (Ok (ex_members, 0)) (Ok (take 10 ex_members))
    (Ok ("default", [ex_schedule 2])) (Ok []).

Lemma constructed_generator_sound_witness :
  ∃ g pools, ex_generator = Ok g ∧
    generate_delegation_pool_configs (E:=@CliError ex_cli) ex_cmp g = Ok (btree_of ex_cmp pools) ∧
    validator_consensus_public_key <$> pools = committee_keys g.
Proof.
  assert (is_ok ex_generator = true) as Hok by (vm_compute; reflexivity).
  destruct ex_generator as [g|e|] eqn:Hg; [|discriminate Hok..].
  destruct (constructed_generator_sound ex_read ex_cmp ex_cmp _ _ _ _ _ g Hg)
    as (_ & pools & Hp & Hk & _).
  exists g, pools. split_and!; [reflexivity|exact Hp|exact Hk].
Defined.
