(* ===== verification/RpcClient.v ===== *)
(** * Client of an RPC node

    [src/supra/src/rest_utils/client/] and [rest_utils/rpc_request_kind/]: the
    client builds the address of a request from an action, sends it, decodes the
    response, and waits for a transaction to be finalized.

    The HTTP client, the clock, the encoding of requests and responses and the
    signature of a transaction are parameters. *)

From S2P Require Import Prelude Transactions CliTypes.
From stdpp Require Import base tactics option list gmap strings pretty.
From Stdlib Require Import ZArith Lia.
Local Open Scope Z_scope.

(** What the client uses of the other crates. *)
Class RpcEnv `{CliEnv} : Type := {
  (** The network, the clock (milliseconds since the epoch) and the terminal. *)
  World : Type;
  clock_ms : World → Z;
  sleep : Z → World → World;
  http_get : CUrl → M World ReqwestErr HttpResponse;
  http_post : CUrl → string → M World ReqwestErr HttpResponse;
  fetch_chain_id_of_url : CUrl → M World AnyhowError Z;
  (** Responses: the status, its error as a string, the body as text or decoded. *)
  is_success : HttpResponse → bool;
  status_error : HttpResponse → outcome string unit;
  body_text : HttpResponse → outcome ReqwestErr string;
  json_gas_price : HttpResponse → outcome ReqwestErr CliEstimatedGasPrice;
  json_account_info : HttpResponse → outcome ReqwestErr AccountInfo;
  json_transaction_info : HttpResponse → outcome ReqwestErr CliTransactionInfo;
  json_hash : HttpResponse → outcome ReqwestErr CHash;
  json_move_list : HttpResponse → outcome ReqwestErr CliMoveList;
  json_faucet_status : HttpResponse → outcome ReqwestErr FaucetStatus;
  info_v1_status : InfoV1 → TxExecutionStatus;
  info_v2_status : InfoV2 → TxExecutionStatus;
  sequence_number : AccountInfo → Z;
  (** Addresses of requests. *)
  url_join : CUrl → string → outcome UrlParseError CUrl;
  (** [path_segments_mut] and [push]. *)
  url_push : CUrl → string → option CUrl;
  encode_hex : CHash → string;
  show_type_tag : TypeTag → string;
  show_identifier : Identifier → string;
  show_api_version : ApiVersion → string;
  API_TAG_ACCOUNTS : string;
  API_TAG_TRANSACTIONS : string;
  API_TAG_VIEW : string;
  API_TAG_WALLET : string;
  ENDPOINT_ACCOUNT_MODULES : string;
  ENDPOINT_ACCOUNT_RESOURCES : string;
  ENDPOINT_CHAIN_ID : string;
  ENDPOINT_ESTIMATED_GAS_PRICE : string;
  ENDPOINT_FAUCET : string;
  ENDPOINT_SIMULATE_TRANSACTION : string;
  ENDPOINT_SUBMIT_TRANSACTION : string;
  (** Transactions: [RawTransaction::new], the signature with the converted
      error, the JSON of a Move transaction and of a view request. *)
  Ed25519PublicKey : Type;
  Ed25519PrivateKey : Type;
  RawTransaction : Type;
  raw_transaction : Address → Z → TransactionPayload → Z → Z → Z → Z → RawTransaction;
  sign_execute : Ed25519PrivateKey → RawTransaction → Ed25519PublicKey → outcome CliError SignedTransaction;
  sign_simulate : RawTransaction → Ed25519PublicKey → outcome CliError SignedTransaction;
  expiration_timestamp_secs : SignedTransaction → Z;
  json_of_transaction : SignedTransaction → outcome SerdeError string;
  json_of_view_request : ViewRequest → outcome SerdeError string;
  (** Formatting of errors and requests. *)
  show_reqwest : ReqwestErr → string;
  show_cli_error : CliError → string;
  debug_action : RpcAction → string;
  debug_string : string → string;
  debug_status : outcome string unit → string;
  show_status : TxExecutionStatus → string;
}.

Section rpc_data.
Context `{RpcEnv}.

Inductive SignerKeyType : Type :=
| Key_Simulate
| Key_Execute (k : Ed25519PrivateKey).

(** [SignerProfileHelper::new] with its arguments. *)
Record SignerProfileHelper := {
  sp_account_address : Address;
  sp_public_key : Ed25519PublicKey;
  sp_signer_key_type : SignerKeyType;
  sp_rpc_url : CUrl;
  sp_chain_id : Z;
  sp_cli_password : string;
}.

Record GasParameters := { gp_gas_unit_price : Z; gp_max_gas : Z; gp_expiration_secs : Z }.

Record SignedTransactionHelper := {
  txn_sender_address : Address;
  txn_sender_pub_key : Ed25519PublicKey;
  signer_key_type : SignerKeyType;
  max_gas_amount : Z;
  gas_unit_price : Z;
  expiration_period_secs : Z;
  st_url : CUrl;
  chain_id : Z;
}.

Record PublicQueryHelper := { pq_url : CUrl }.

Inductive RpcRequestKind : Type :=
| Kind_SignedTransaction (helper : SignedTransactionHelper)
| Kind_PublicQuery (helper : PublicQueryHelper).

Definition request_url (k : RpcRequestKind) : CUrl :=
  match k with
  | Kind_SignedTransaction helper => st_url helper
  | Kind_PublicQuery helper => pq_url helper
  end.

Definition info_status (i : CliTransactionInfo) : TxExecutionStatus :=
  match i with Info_V1 t => info_v1_status t | Info_V2 t => info_v2_status t end.

(** The fields of [RpcClientApi] but the HTTP client. *)
Record RpcClientApi := {
  rpc_action : RpcAction;
  rpc_request_kind : RpcRequestKind;
  api_max_gas_amount : Z;
  api_gas_unit_price : Z;
}.
End rpc_data.

(** ** Signed transactions *)
Module SignedTxn.
Section signed_txn.
Context `{RpcEnv}.
Local Open Scope rust_scope.

Definition new_user_object (cli_profile_info : SignerProfileHelper) (gas_option : GasParameters)
    : SignedTransactionHelper :=
  {| txn_sender_address := sp_account_address cli_profile_info;
     txn_sender_pub_key := sp_public_key cli_profile_info;
     signer_key_type := sp_signer_key_type cli_profile_info;
     max_gas_amount := gp_max_gas gas_option;
     gas_unit_price := gp_gas_unit_price gas_option;
     expiration_period_secs := gp_expiration_secs gas_option;
     st_url := sp_rpc_url cli_profile_info;
     chain_id := sp_chain_id cli_profile_info |}.

(** [duration_since(UNIX_EPOCH)] in seconds; a clock before the epoch panics. *)
Definition since_the_epoch : M World CliError Z :=
  λ w, (w, if clock_ms w <? 0 then Panic else Ok (clock_ms w / 1000)).

Definition create_raw_user_transaction (self : SignedTransactionHelper)
    (transaction_payload : TransactionPayload) (chain_id sequence_number : Z)
    : M World CliError RawTransaction :=
  now <- since_the_epoch ;;
  expiration_timestamp <- rlift (add64 now (expiration_period_secs self)) ;;
  rret (raw_transaction (txn_sender_address self) sequence_number transaction_payload
          (max_gas_amount self) (gas_unit_price self) expiration_timestamp chain_id).

Definition sign (k : SignerKeyType) (raw : RawTransaction) (pub : Ed25519PublicKey)
    : outcome CliError SignedTransaction :=
  match k with
  | Key_Simulate => sign_simulate raw pub
  | Key_Execute key => sign_execute key raw pub
  end.

Definition create_transaction (self : SignedTransactionHelper)
    (transaction_payload : TransactionPayload) (chain_id sequence_number : Z)
    : M World CliError SignedTransaction :=
  raw_txn <- create_raw_user_transaction self transaction_payload chain_id sequence_number ;;
  rlift (sign (signer_key_type self) raw_txn (txn_sender_pub_key self)).
End signed_txn.
End SignedTxn.

(** ** Requests *)
Module Client.
Import SignedTxn.
Section client.
Context `{RpcEnv}.
Local Open Scope rust_scope.

Definition map_error_response (resp : HttpResponse) : outcome CliError CliError :=
  let error_status := status_error resp in
  match body_text resp with
  | Ok message => Ok (GeneralError ("Message: " +:+ debug_string message +:+ ", Cause: "
                                    +:+ debug_status error_status))
  | Err e => Ok (GeneralError (debug_status error_status +:+ ", " +:+ show_reqwest e))
  | Panic => Panic
  end.

Definition map_response {T} (json : HttpResponse → outcome ReqwestErr T) (resp : HttpResponse)
    : outcome CliError T :=
  if is_success resp then omap_err RequestError (json resp)
  else let? e := map_error_response resp in Err e.

Definition get_request (endpoint_url : CUrl) : M World CliError HttpResponse :=
  rmap_err RequestError (http_get endpoint_url).

Definition post_request (endpoint_url : CUrl) (payload : string) : M World CliError HttpResponse :=
  rmap_err (λ e, GeneralError (show_reqwest e)) (http_post endpoint_url payload).

Definition fetch_chain_id_helper (endpoint_url : CUrl) : M World CliError Z :=
  rmap_err Other (fetch_chain_id_of_url endpoint_url).

Definition fetch_estimated_gas_price_helper (endpoint_url : CUrl)
    : M World CliError CliEstimatedGasPrice :=
  response <- get_request endpoint_url ;;
  rlift (map_response json_gas_price response).

Definition fetch_account_information_helper (endpoint_url : CUrl) : M World CliError AccountInfo :=
  response <- rmap_err (λ e, GeneralError ("Failed to get account information: "
                                           +:+ show_cli_error e)) (get_request endpoint_url) ;;
  rlift (map_response json_account_info response).

(** *** Addresses *)
Definition rpc_path (l : list string) : string := String.concat "/" ("rpc" :: l).

Definition join (kind : RpcRequestKind) (l : list string) : outcome CliError CUrl :=
  omap_err UrlError (url_join (request_url kind) (rpc_path l)).

Definition chain_id_url (kind : RpcRequestKind) (v : ApiVersion) : outcome CliError CUrl :=
  join kind [show_api_version v; API_TAG_TRANSACTIONS; ENDPOINT_CHAIN_ID].

Definition estimate_gas_price_url (kind : RpcRequestKind) (v : ApiVersion) : outcome CliError CUrl :=
  join kind [show_api_version v; API_TAG_TRANSACTIONS; ENDPOINT_ESTIMATED_GAS_PRICE].

Definition account_information_url (kind : RpcRequestKind) (v : ApiVersion) (a : Address)
    : outcome CliError CUrl :=
  join kind [show_api_version v; API_TAG_ACCOUNTS; to_canonical_string a].

(** [push] on a base that has no path is an error. *)
Definition push (url : CUrl) (segment : string) : outcome CliError CUrl :=
  ok_or (url_push url segment) (GeneralError "Invalid Base url").

Definition endpoint_url (self : RpcClientApi) : outcome CliError CUrl :=
  let kind := rpc_request_kind self in
  match rpc_action self with
  | Act_ChainID v => chain_id_url kind v
  | Act_EstimatedGasPrice v => estimate_gas_price_url kind v
  | Act_AccountInformation v address => account_information_url kind v address
  | Act_SimulateTransaction v _ =>
      join kind [show_api_version v; API_TAG_TRANSACTIONS; ENDPOINT_SIMULATE_TRANSACTION]
  | Act_SendTransaction v _ | Act_SendSignedTransaction v _ =>
      join kind [show_api_version v; API_TAG_TRANSACTIONS; ENDPOINT_SUBMIT_TRANSACTION]
  | Act_RunViewFunction v _ => join kind [show_api_version v; API_TAG_VIEW]
  | Act_ListAccountAssets v account query =>
      join kind [show_api_version v; API_TAG_ACCOUNTS; to_canonical_string account;
                 match query with
                 | Query_Modules => ENDPOINT_ACCOUNT_MODULES
                 | Query_Resources => ENDPOINT_ACCOUNT_RESOURCES
                 end]
  | Act_TransactionInfo v hash =>
      let? url := join kind [show_api_version v; API_TAG_TRANSACTIONS] in
      push url (encode_hex hash)
  | Act_AccountResource v account resource_type =>
      join kind [show_api_version v; API_TAG_ACCOUNTS; to_canonical_string account;
                 ENDPOINT_ACCOUNT_RESOURCES; show_type_tag resource_type]
  | Act_AccountModule v account module_id =>
      join kind [show_api_version v; API_TAG_ACCOUNTS; to_canonical_string account;
                 ENDPOINT_ACCOUNT_MODULES; show_identifier module_id]
  | Act_FundWithFaucet v account rpc_url =>
      let? url := omap_err UrlError
        (url_join rpc_url (rpc_path [show_api_version v; API_TAG_WALLET; ENDPOINT_FAUCET])) in
      push url (to_canonical_string account)
  end.

(** *** Actions *)

Definition new_action (action : RpcAction) (kind : RpcRequestKind) : RpcClientApi :=
  match kind with
  | Kind_SignedTransaction t =>
      {| rpc_action := action; rpc_request_kind := kind;
         api_max_gas_amount := max_gas_amount t; api_gas_unit_price := gas_unit_price t |}
  | Kind_PublicQuery _ =>
      {| rpc_action := action; rpc_request_kind := kind;
         api_max_gas_amount := 0; api_gas_unit_price := 0 |}
  end.

Definition signed_transaction_request_helper (self : RpcClientApi) (endpoint_url : CUrl)
    (transaction_payload : TransactionPayload) (api_version : ApiVersion)
    : M World CliError (HttpResponse * Z) :=
  match rpc_request_kind self with
  | Kind_SignedTransaction helper =>
      url <- rlift (account_information_url (rpc_request_kind self) api_version
                      (txn_sender_address helper)) ;;
      account_information <- fetch_account_information_helper url ;;
      signed_move_txn <- create_transaction helper transaction_payload (chain_id helper)
                           (sequence_number account_information) ;;
      body <- rlift (omap_err SerdeJsonError (json_of_transaction signed_move_txn)) ;;
      r <- post_request endpoint_url body ;;
      rret (r, expiration_timestamp_secs signed_move_txn)
  | Kind_PublicQuery _ => rfail Unauthorized
  end.

Definition execute_action (self : RpcClientApi) : M World CliError RpcResponse :=
  match rpc_action self with
  | Act_ChainID _ =>
      url <- rlift (endpoint_url self) ;;
      c <- fetch_chain_id_helper url ;; rret (Res_ChainID c)
  | Act_AccountInformation _ _ =>
      url <- rlift (endpoint_url self) ;;
      i <- fetch_account_information_helper url ;; rret (Res_AccountInformation i)
  | Act_EstimatedGasPrice _ =>
      url <- rlift (endpoint_url self) ;;
      p <- fetch_estimated_gas_price_helper url ;; rret (Res_EstimatedGasPrice p)
  | Act_SimulateTransaction v payload =>
      url <- rlift (endpoint_url self) ;;
      r <- signed_transaction_request_helper self url payload v ;;
      info <- rlift (map_response json_transaction_info r.1) ;;
      rret (Res_SimulateTransaction info r.2)
  | Act_SendTransaction v payload =>
      url <- rlift (endpoint_url self) ;;
      r <- signed_transaction_request_helper self url payload v ;;
      hash <- rlift (map_response json_hash r.1) ;;
      rret (Res_SendTransaction hash r.2)
  | Act_SendSignedTransaction _ txn =>
      url <- rlift (endpoint_url self) ;;
      body <- rlift (omap_err SerdeJsonError (json_of_transaction txn)) ;;
      r <- post_request url body ;;
      hash <- rlift (map_response json_hash r) ;;
      rret (Res_SendSignedTransaction hash (expiration_timestamp_secs txn))
  | Act_RunViewFunction v view_req =>
      url <- rlift (join (rpc_request_kind self) [show_api_version v; API_TAG_VIEW]) ;;
      body <- rlift (omap_err SerdeJsonError (json_of_view_request view_req)) ;;
      r <- post_request url body ;; rret (Res_RunViewFunction r)
  | Act_ListAccountAssets _ _ _ =>
      url <- rlift (endpoint_url self) ;;
      r <- get_request url ;;
      l <- rlift (map_response json_move_list r) ;; rret (Res_ListAccountAssets l)
  | Act_TransactionInfo _ _ =>
      url <- rlift (endpoint_url self) ;;
      r <- get_request url ;;
      info <- rlift (map_response json_transaction_info r) ;; rret (Res_TransactionInfo info)
  | Act_AccountResource _ _ _ =>
      url <- rlift (endpoint_url self) ;;
      r <- get_request url ;; rret (Res_AccountResource r)
  | Act_AccountModule _ _ _ =>
      url <- rlift (endpoint_url self) ;;
      r <- get_request url ;; rret (Res_AccountModule r)
  | Act_FundWithFaucet _ _ _ =>
      url <- rlift (endpoint_url self) ;;
      r <- get_request url ;;
      s <- rlift (map_response json_faucet_status r) ;; rret (Res_FundWithFaucet s)
  end.

Definition perform (action : RpcAction) (kind : RpcRequestKind) : M World CliError RpcResponse :=
  execute_action (new_action action kind).

(** *** Waiting for a transaction *)
Definition TX_FINALIZATION_MARGIN_SECS : Z := 10.

Definition is_final (st : TxExecutionStatus) : bool :=
  match st with St_Success | St_Fail | St_Invalid => true | _ => false end.

(** One turn of the loop of [await_finalized]; a result leaves it. *)
Definition await_round (api_version : ApiVersion) (tx_hash : CHash)
    (tx_expiration_timestamp_secs : Z) (kind : RpcRequestKind) (retry_delay : Z)
    : M World CliError (option CliTransactionInfo) :=
  let action := Act_TransactionInfo api_version tx_hash in
  response <- rtry (perform action kind) ;;
  verdict <- match response with
             | inl (Res_TransactionInfo tx_info) =>
                 if is_final (info_status tx_info) then rret (Some tx_info)
                 else (rmodify (sleep retry_delay) ;; rret None)
             | inl unexpected_response =>
                 rfail (UnexpectedResponse (debug_action action) unexpected_response)
             | inr _ => rret None
             end ;;
  match verdict with
  | Some tx_info => rret (Some tx_info)
  | None =>
      now <- since_the_epoch ;;
      limit <- rlift (add64 tx_expiration_timestamp_secs TX_FINALIZATION_MARGIN_SECS) ;;
      if limit <? now
      then rfail (Aborted ("Tx " +:+ show_hash tx_hash
                           +:+ " was not finalized within its expiration timestamp")
                          (debug_action action))
      else rret None
  end.

Fixpoint await_finalized (fuel : nat) (api_version : ApiVersion) (tx_hash : CHash)
    (tx_expiration_timestamp_secs : Z) (kind : RpcRequestKind) (retry_delay : Z)
    : M World Stop CliTransactionInfo :=
  match fuel with
  | O => rfail OutOfFuel
  | S fuel' =>
      verdict <- rmap_err Failed
        (await_round api_version tx_hash tx_expiration_timestamp_secs kind retry_delay) ;;
      match verdict with
      | Some tx_info => rret tx_info
      | None =>
          await_finalized fuel' api_version tx_hash tx_expiration_timestamp_secs kind retry_delay
      end
  end.

Definition await_finalized_with_success (fuel : nat) (api_version : ApiVersion) (tx_hash : CHash)
    (tx_expiration_timestamp_secs : Z) (kind : RpcRequestKind) (retry_delay : Z)
    : M World Stop unit :=
  tx_info <- await_finalized fuel api_version tx_hash tx_expiration_timestamp_secs kind
               retry_delay ;;
  match info_status tx_info with
  | St_Success => rret tt
  | st => rfail (Failed (Aborted
            ("Tx " +:+ show_hash tx_hash
             +:+ " was finalized with status different from Success. Status: " +:+ show_status st)
            (debug_action (Act_TransactionInfo api_version tx_hash))))
  end.

(** *** Properties *)

(** The clock is not set back during a request, a pause lasts at least as long as it is
    asked to, and decoding a response does not panic. *)
Class RpcTiming : Prop := {
  request_time u w : clock_ms w ≤ clock_ms (http_get u w).1;
  request_no_panic u w : (http_get u w).2 ≠ Panic;
  sleep_time d w : clock_ms w + d ≤ clock_ms (sleep d w);
  text_no_panic r : body_text r ≠ Panic;
  info_no_panic r : json_transaction_info r ≠ Panic;
}.

Lemma map_response_no_panic `{!RpcTiming} r : map_response json_transaction_info r ≠ Panic.
Proof.
  unfold map_response, map_error_response. pose proof (info_no_panic r). pose proof (text_no_panic r).
  destruct (is_success r); [by destruct (json_transaction_info r)|]. by destruct (body_text r).
Qed.

(** A query for a transaction answers with its status or an error. *)
Lemma query_transaction `{!RpcTiming} v h kind url w :
  endpoint_url (new_action (Act_TransactionInfo v h) kind) = Ok url →
  wp (perform (Act_TransactionInfo v h) kind)
    (λ o w', clock_ms w ≤ clock_ms w' ∧
             ((∃ info, o = Ok (Res_TransactionInfo info)) ∨ ∃ e, o = Err e)) w.
Proof.
  intros Hurl. unfold perform, execute_action. rewrite Hurl.
  replace (rpc_action (new_action (Act_TransactionInfo v h) kind))
    with (Act_TransactionInfo v h) by (by destruct kind).
  do 3 wp_step. unfold get_request. do 1 wp_step. unfold wp.
  pose proof (request_time url w). pose proof (request_no_panic url w).
  destruct (http_get url w) as [w' [r|e|]]; simpl in *; [|split; [done|right; eauto]|done].
  pose proof (map_response_no_panic r). unfold rthen, rlift, rret.
  destruct (map_response json_transaction_info r); simpl; [|split; [done|right; eauto]|done].
  split; [done|left; eauto].
Qed.

(** The turns of the loop whose request fails: the loop goes on at once, without the
    pause that follows the answer that the transaction is not final. *)
Definition query_fails (v : ApiVersion) (h : CHash) (kind : RpcRequestKind) (w : World) : bool :=
  match (perform (Act_TransactionInfo v h) kind w).2 with Err _ => true | _ => false end.

Fixpoint failures (fuel : nat) (v : ApiVersion) (h : CHash) (exp : Z) (kind : RpcRequestKind)
    (delay : Z) (w : World) : nat :=
  match fuel with
  | O => O
  | S fuel' =>
      (if query_fails v h kind w then 1 else 0) +
      match await_round v h exp kind delay w with
      | (w', Ok None) => failures fuel' v h exp kind delay w'
      | _ => O
      end
  end%nat.

(** After a turn that began in [w]. *)
Definition round_post (exp delay : Z) (failed : bool) (w : World)
    (o : outcome CliError (option CliTransactionInfo)) (w' : World) : Prop :=
  match o with
  | Ok (Some info) => is_final (info_status info) = true
  | Ok None => clock_ms w + (if failed then 0 else delay) ≤ clock_ms w' ∧
               clock_ms w' / 1000 ≤ exp + TX_FINALIZATION_MARGIN_SECS
  | Err e => (∃ m a, e = Aborted m a) ∧ exp + TX_FINALIZATION_MARGIN_SECS < clock_ms w' / 1000
  | Panic => False
  end.

(** The check of the deadline at the end of a turn. *)
Lemma deadline_check exp delay (failed : bool) w w2 (m a : string) :
  0 ≤ clock_ms w2 → 0 ≤ exp → exp + TX_FINALIZATION_MARGIN_SECS ≤ U64_MAX →
  clock_ms w + (if failed then 0 else delay) ≤ clock_ms w2 →
  wp (now <- since_the_epoch ;;
      limit <- rlift (add64 exp TX_FINALIZATION_MARGIN_SECS) ;;
      if limit <? now then rfail (Aborted m a) else rret None) (round_post exp delay failed w) w2.
Proof.
  intros Hw2 Hexp Hmax Hle. unfold wp, rthen, since_the_epoch, round_post. simpl.
  destruct (Z.ltb_spec (clock_ms w2) 0); [lia|].
  unfold rlift. rewrite add64_ok by (unfold TX_FINALIZATION_MARGIN_SECS in *; lia).
  destruct (Z.ltb_spec (exp + TX_FINALIZATION_MARGIN_SECS) (clock_ms w2 / 1000)); simpl; [|lia].
  split; [eauto|lia].
Qed.

Lemma await_round_spec `{!RpcTiming} v h exp kind delay url w :
  endpoint_url (new_action (Act_TransactionInfo v h) kind) = Ok url →
  0 ≤ clock_ms w → 0 ≤ delay → 0 ≤ exp → exp + TX_FINALIZATION_MARGIN_SECS ≤ U64_MAX →
  wp (await_round v h exp kind delay) (round_post exp delay (query_fails v h kind w) w) w.
Proof.
  intros Hurl Hw Hd Hexp Hmax. unfold await_round, query_fails. wp_step. wp_step.
  pose proof (query_transaction v h kind url w Hurl) as Hq. unfold wp in Hq. unfold wp at 1.
  destruct (perform _ kind w) as [w1 o]. simpl in Hq |- *.
  destruct Hq as [Ht [[info ->]|[e ->]]].
  - wp_step. destruct (is_final (info_status info)) eqn:Hf; [by do 2 wp_step|].
    do 3 wp_step. pose proof (sleep_time delay w1). apply deadline_check; [lia..|]. simpl. lia.
  - do 2 wp_step. apply deadline_check; [lia..|]. simpl. lia.
Qed.

(** C36 Waiting for a transaction ends.  If the address of the query can be built, the
    clock is not set back and the deadline fits its type, the loop takes at most
    one turn for each request that fails, and as many others as pauses fit into the time
    until ten seconds after the expiration of the transaction.  It returns a status that
    is final, or the error that the transaction was not finalized, and this error only
    after the deadline; a request that fails does not end the wait. *)
Theorem await_finalized_returns `{!RpcTiming} fuel v h exp kind delay url w :
  endpoint_url (new_action (Act_TransactionInfo v h) kind) = Ok url →
  0 ≤ clock_ms w → 0 < delay → 0 ≤ exp → exp + TX_FINALIZATION_MARGIN_SECS ≤ U64_MAX →
  let left := (exp + TX_FINALIZATION_MARGIN_SECS + 1) * 1000 - 1 - clock_ms w in
  (failures fuel v h exp kind delay w + Z.to_nat (left / delay) < fuel)%nat →
  wp (await_finalized fuel v h exp kind delay)
    (λ o w', (∃ info, o = Ok info ∧ is_final (info_status info) = true) ∨
             (∃ m a, o = Err (Failed (Aborted m a)) ∧
                     exp + TX_FINALIZATION_MARGIN_SECS < clock_ms w' / 1000)) w.
Proof.
  intros Hurl Hw Hd Hexp Hmax left. subst left. revert w Hw.
  induction fuel as [|fuel IH]; intros w Hw; cbn [failures await_finalized]; intros Hfuel; [lia|].
  pose proof (await_round_spec v h exp kind delay url w Hurl Hw ltac:(lia) Hexp Hmax) as Hr.
  unfold wp in Hr. wp_step. wp_step. unfold wp at 1.
  destruct (await_round v h exp kind delay w) as [w' [[info|]|e|]]; simpl in Hr, Hfuel |- *.
  - wp_step. left. eauto.
  - destruct Hr as [Ht Ho]. pose proof (Z.mul_succ_div_gt (clock_ms w') 1000 ltac:(lia)).
    apply IH; [destruct (query_fails _ _ _ _); lia|].
    set (T := (exp + TX_FINALIZATION_MARGIN_SECS + 1) * 1000 - 1) in *.
    destruct (query_fails v h kind w).
    + pose proof (Z.div_le_mono (T - clock_ms w') (T - clock_ms w) delay Hd ltac:(lia)). lia.
    + pose proof (Z.div_le_mono (T - clock_ms w' + 1 * delay) (T - clock_ms w) delay Hd ltac:(lia)) as Hl.
      rewrite Z.div_add in Hl by lia.
      pose proof (Z.div_pos (T - clock_ms w') delay ltac:(lia) Hd). lia.
  - destruct Hr as [(m & a & ->) Hlt]. right. eauto.
  - done.
Qed.
End client.
End Client.
