(* ===== verification/Endpoints.v ===== *)
(** * The command line tool as a client of the node

    [RpcClient] builds the addresses of its requests, [Router] holds the paths of
    the node.  Both use the words of the shared API, which are a parameter of the
    client; with the documented values, the node has a handler for each request
    of the tool. *)

From S2P Require Import Prelude Urls Authorization ApiState Router CliTypes RpcClient.
From stdpp Require Import base tactics option list sets strings.
From Stdlib Require Import ZArith Lia.
Import Matching Routes Reach.
Local Open Scope Z_scope.

(** The words of the API; addresses of a host without a path, and appended
    segments. *)
Class SharedApi `{RpcEnv} (url_path : CUrl → string) : Prop := {
  tag_accounts : API_TAG_ACCOUNTS = "accounts";
  tag_transactions : API_TAG_TRANSACTIONS = "transactions";
  tag_view : API_TAG_VIEW = "view";
  tag_wallet : API_TAG_WALLET = "wallet";
  endpoint_modules : ENDPOINT_ACCOUNT_MODULES = "modules";
  endpoint_resources : ENDPOINT_ACCOUNT_RESOURCES = "resources";
  endpoint_chain_id : ENDPOINT_CHAIN_ID = "chain_id";
  endpoint_gas_price : ENDPOINT_ESTIMATED_GAS_PRICE = "estimate_gas_price";
  endpoint_faucet : ENDPOINT_FAUCET = "faucet";
  endpoint_simulate : ENDPOINT_SIMULATE_TRANSACTION = "simulate";
  endpoint_submit : ENDPOINT_SUBMIT_TRANSACTION = "submit";
  version_text v : show_api_version v = match v with V1 => "v1" | V2 => "v2" | V3 => "v3" end;
  url_join_path u segs u' :
    url_path u = "/" → forallb Urls.joinable ("rpc" :: segs) = true →
    url_join u (String.concat "/" ("rpc" :: segs)) = Ok u' →
    url_path u' = path_of (Urls.encode <$> "rpc" :: segs);
  url_push_path u l s u' :
    url_path u = path_of l → l ≠ [] → forallb Urls.raw_segment l = true → Urls.joinable s = true →
    url_push u s = Some u' → url_path u' = path_of (l ++ [Urls.encode s]);
  (** Addresses and hashes are written in hexadecimal digits, types and names of
      modules in letters, digits, colons, angle brackets, commas and spaces. *)
  address_text a : Urls.joinable (to_canonical_string a) = true;
  hash_text h : Urls.joinable (encode_hex h) = true;
  type_tag_text t : Urls.joinable (show_type_tag t) = true;
  identifier_text i : Urls.joinable (show_identifier i) = true;
  hash_is_no_word h :
    encode_hex h ∉ ["chain_id"; "parameters"; "estimate_gas_price"];
}.

Section endpoints.
Context `{RpcEnv} (url_path : CUrl → string) `{!SharedApi url_path}.
Context {Digest IpAddr : Type} `{EqDecision Digest} `{EqDecision IpAddr}.
Context (digest : string → Digest).
Context `{!Ntex (KycToken Digest IpAddr) (WebRequest IpAddr)} `{!NtexLaws digest} `{ApiOps}.
Notation Token := (KycToken Digest IpAddr).

(** The method that [execute_action] sends a request with. *)
Definition request_method (action : RpcAction) : Method :=
  match action with
  | Act_SimulateTransaction _ _ | Act_SendTransaction _ _ | Act_SendSignedTransaction _ _
  | Act_RunViewFunction _ _ => POST
  | _ => GET
  end.

(** The base of the address of a request. *)
Definition request_base (self : RpcClientApi) : CUrl :=
  match rpc_action self with
  | Act_FundWithFaucet _ _ rpc_url => rpc_url
  | _ => request_url (rpc_request_kind self)
  end.

(** The requests for an action: a transaction that the tool signs itself needs the
    sequence number of the sender first, and a key. *)
Definition asked (self : RpcClientApi) : list RpcAction :=
  match rpc_action self, rpc_request_kind self with
  | Act_SimulateTransaction v _, Kind_SignedTransaction helper
  | Act_SendTransaction v _, Kind_SignedTransaction helper =>
      [Act_AccountInformation v (txn_sender_address helper); rpc_action self]
  | Act_SimulateTransaction _ _, Kind_PublicQuery _ | Act_SendTransaction _ _, Kind_PublicQuery _ => []
  | action, _ => [action]
  end.

(** The segments of the path of a request. *)
Definition action_segments (action : RpcAction) : list string :=
  let version v := match v with V1 => "v1" | V2 => "v2" | V3 => "v3" end in
  "rpc" :: match action with
  | Act_ChainID v => [version v; "transactions"; "chain_id"]
  | Act_EstimatedGasPrice v => [version v; "transactions"; "estimate_gas_price"]
  | Act_AccountInformation v a => [version v; "accounts"; to_canonical_string a]
  | Act_SimulateTransaction v _ => [version v; "transactions"; "simulate"]
  | Act_SendTransaction v _ | Act_SendSignedTransaction v _ => [version v; "transactions"; "submit"]
  | Act_RunViewFunction v _ => [version v; "view"]
  | Act_ListAccountAssets v a q =>
      [version v; "accounts"; to_canonical_string a;
       match q with Query_Modules => "modules" | Query_Resources => "resources" end]
  | Act_TransactionInfo v h => [version v; "transactions"; encode_hex h]
  | Act_AccountResource v a t =>
      [version v; "accounts"; to_canonical_string a; "resources"; show_type_tag t]
  | Act_AccountModule v a i =>
      [version v; "accounts"; to_canonical_string a; "modules"; show_identifier i]
  | Act_FundWithFaucet v a _ => [version v; "wallet"; "faucet"; to_canonical_string a]
  end.

(** The handler of the node that a request of the tool is meant for. *)
Definition served_by (faucet : bool) (action : RpcAction) : option Service :=
  match action with
  | Act_ChainID _ => Some v1.chain_id
  | Act_EstimatedGasPrice V1 => Some v1.estimate_gas_price
  | Act_EstimatedGasPrice _ => Some v2.estimate_gas_price
  | Act_AccountInformation V1 _ => Some v1.get_account_v1
  | Act_AccountInformation _ _ => Some v2.get_account_v2
  | Act_SimulateTransaction V1 _ => Some v1.simulate_txn
  | Act_SimulateTransaction _ _ => Some v2.simulate_txn
  | Act_SendTransaction _ _ | Act_SendSignedTransaction _ _ => Some v1.submit_txn
  | Act_RunViewFunction V1 _ => Some v1.view_function
  | Act_RunViewFunction _ _ => Some v2.view_function
  | Act_ListAccountAssets V1 _ Query_Modules => Some v1.get_account_modules_v1
  | Act_ListAccountAssets V2 _ Query_Modules => Some v2.get_account_modules_v2
  | Act_ListAccountAssets V3 _ Query_Modules => Some v3.get_account_modules_v3
  | Act_ListAccountAssets V1 _ Query_Resources => Some v1.get_account_resources_v1
  | Act_ListAccountAssets V2 _ Query_Resources => Some v2.get_account_resources_v2
  | Act_ListAccountAssets V3 _ Query_Resources => Some v3.get_account_resources_v3
  | Act_TransactionInfo V1 _ => Some v1.transaction_by_hash
  | Act_TransactionInfo V2 _ => Some v2.transaction_by_hash
  | Act_TransactionInfo V3 _ => Some v3.transaction_by_hash
  | Act_AccountResource V1 _ _ => Some v1.get_account_resource_v1
  | Act_AccountResource _ _ _ => Some v2.get_account_resource_v2
  | Act_AccountModule V1 _ _ => Some v1.get_account_module_v1
  | Act_AccountModule _ _ _ => Some v2.get_account_module_v2
  | Act_FundWithFaucet V2 _ _ => None
  | Act_FundWithFaucet _ _ _ => if faucet then Some v1.faucet else None
  end.

Lemma action_text action : forallb Urls.joinable (action_segments action) = true.
Proof.
  destruct action as [[]|[]|[]|[]|[]|[]|[]|[] ? []|[]|[]|[]|[]]; cbn [action_segments forallb];
    rewrite ?address_text, ?hash_text, ?type_tag_text, ?identifier_text; vm_compute; reflexivity.
Qed.

Lemma join_path kind l url :
  url_path (request_url kind) = "/" → forallb Urls.joinable ("rpc" :: l) = true →
  Client.join kind l = Ok url → url_path url = path_of (Urls.encode <$> "rpc" :: l).
Proof.
  intros Hbase Htext. unfold Client.join, Client.rpc_path.
  destruct (url_join _ _) as [u| |] eqn:Hu; cbn [omap_err]; [|done..]. intros [= <-].
  by apply (url_join_path (request_url kind) l).
Qed.

Lemma push_path (l : list string) url url' s :
  l ≠ [] → forallb Urls.joinable l = true → Urls.joinable s = true →
  url_path url = path_of (Urls.encode <$> l) → Client.push url s = Ok url' →
  url_path url' = path_of (Urls.encode <$> l ++ [s]).
Proof.
  intros Hl Htext Hs Hu. unfold Client.push. destruct (url_push url s) as [u|] eqn:Hp; simpl; [|done].
  intros [= <-]. rewrite fmap_app.
  apply (url_push_path url); [done|by destruct l|by apply Urls.encode_raw_list|done..].
Qed.

(** The path of each request. *)
Lemma endpoint_path self url :
  url_path (request_base self) = "/" → Client.endpoint_url self = Ok url →
  url_path url = path_of (Urls.encode <$> action_segments (rpc_action self)).
Proof.
  intros Hbase. pose proof (action_text (rpc_action self)) as Hsegs.
  unfold Client.endpoint_url, Client.chain_id_url, Client.estimate_gas_price_url,
    Client.account_information_url.
  unfold request_base in Hbase.
  destruct (rpc_action self) as [v|v|v a|v p|v p|v t|v r|v a q|v h|v a t|v a i|v a u] eqn:Ha;
    rewrite ?version_text, ?tag_accounts, ?tag_transactions, ?tag_view, ?tag_wallet,
      ?endpoint_chain_id, ?endpoint_gas_price, ?endpoint_simulate, ?endpoint_submit,
      ?endpoint_resources, ?endpoint_modules, ?endpoint_faucet; try exact (join_path _ _ _ Hbase Hsegs).
  - destruct (Client.join _ _) as [u| |] eqn:Hu; simpl; [|done..].
    apply (push_path ["rpc"; _; "transactions"] u); [done|by destruct v|apply hash_text|].
    apply (join_path _ _ _ Hbase); [by destruct v|done].
  - destruct (url_join _ _) as [u'| |] eqn:Hu; simpl; [|done..].
    apply (push_path ["rpc"; _; "wallet"; "faucet"] u'); [done|by destruct v|apply address_text|].
    apply (url_join_path u [_; "wallet"; "faucet"]); [done|by destruct v|done].
Qed.

Lemma word_not_accepted w x svc :
  segments (path svc) = [w] → is_param w = false → x ≠ w → accepts GET [x] svc = false.
Proof.
  intros Hsegs Hw Hx. unfold accepts. rewrite Hsegs. cbn -[String.eqb]. rewrite Hw.
  destruct (String.eqb_spec w x); [done|]. apply andb_false_r.
Qed.

(** A hash is none of the words before it in the scope of transactions. *)
Lemma hash_matched state (tokens : list Token) v x req :
  x ∉ ["chain_id"; "parameters"; "estimate_gas_price"] →
  first_match digest (rest_root_route state tokens) GET
    ["rpc"; match v with V1 => "v1" | V2 => "v2" | V3 => "v3" end; "transactions"; x] req
  = handled (match v with
             | V1 => Some v1.transaction_by_hash
             | V2 => Some v2.transaction_by_hash
             | V3 => Some v3.transaction_by_hash
             end).
Proof.
  intros Hno.
  assert (accepts GET [x] v1.chain_id = false) as Hc
    by (apply (word_not_accepted "chain_id"); [done..|set_solver]).
  assert (accepts GET [x] v1.transaction_parameters = false) as Hp
    by (apply (word_not_accepted "parameters"); [done..|set_solver]).
  assert (∀ svc, svc = v1.estimate_gas_price ∨ svc = v2.estimate_gas_price →
            accepts GET [x] svc = false) as He.
  { intros svc Hsvc. apply (word_not_accepted "estimate_gas_price"); [|done|set_solver].
    by destruct Hsvc as [->| ->]. }
  unfold first_match, rest_root_route.
  destruct (Api.is_faucet_enabled state), v; cbn -[accepts]; unfold answer; cbn -[accepts];
    rewrite ?Hc, ?Hp, ?(He v1.estimate_gas_price), ?(He v2.estimate_gas_price)
      by ((by left) || by right); reflexivity.
Qed.

Lemma action_matched state (tokens : list Token) action req :
  first_match digest (rest_root_route state tokens) (request_method action)
    (action_segments action) req
  = handled (served_by (Api.is_faucet_enabled state) action).
Proof.
  destruct action as [v|v|v a|v p|v p|v t|v r|v a q|v h|v a t|v a i|v a u]; [..|apply hash_matched, hash_is_no_word| | |];
    unfold rest_root_route; cbn [action_segments request_method];
    try generalize (to_canonical_string a); try generalize (show_type_tag t);
    try generalize (show_identifier i); intros;
    destruct (Api.is_faucet_enabled state), v; try destruct q; vm_compute; reflexivity.
Qed.

Lemma request_served state (tokens : list Token) self url req :
  url_path (request_base self) = "/" → Client.endpoint_url self = Ok url →
  respond (rest_root_route state tokens) (request_method (rpc_action self)) (url_path url) req
  = handled (served_by (Api.is_faucet_enabled state) (rpc_action self)).
Proof.
  intros Hbase Hurl. rewrite (endpoint_path _ _ Hbase Hurl).
  rewrite respond_first_match by apply Urls.encode_raw_list, action_text.
  rewrite Urls.decode_encode_list. by apply action_matched.
Qed.

(** *** The requests that are sent *)

(** What was sent so far. *)
Class RequestLog : Type := { requests : World → list (Method * CUrl) }.
Class RequestLogLaws `{!RequestLog} : Prop := {
  logged_get u w : requests (http_get u w).1 = requests w ++ [(GET, u)];
  logged_post u body w : requests (http_post u body w).1 = requests w ++ [(POST, u)];
  logged_chain_id u w : requests (fetch_chain_id_of_url u w).1 = requests w ++ [(GET, u)];
}.
Context `{!RequestLog} `{!RequestLogLaws}.

(** A request that is served by the handler for an action. *)
Definition serves state (tokens : list Token) (req : WebRequest IpAddr) (action : RpcAction)
    (sent : Method * CUrl) : Prop :=
  respond (rest_root_route state tokens) sent.1 (url_path sent.2) req
  = handled (served_by (Api.is_faucet_enabled state) action).

(** The requests of [p] are those for a part of [actions], and for all of them if it
    succeeds. *)
Definition sends {E A} state tokens req (actions : list RpcAction) (p : M World E A) : Prop :=
  ∀ w, ∃ l now later, requests (p w).1 = requests w ++ l ∧ actions = now ++ later ∧
    Forall2 (serves state tokens req) now l ∧ (is_ok (p w).2 = true → later = []).

Lemma sends_stop {E A} state tokens req actions (p : M World E A) :
  (∀ w, (p w).1 = w ∧ is_ok (p w).2 = false) → sends state tokens req actions p.
Proof.
  intros Hp w. destruct (Hp w) as [-> Hno]. exists [], [], actions. rewrite app_nil_r.
  split_and!; [done..|]. by rewrite Hno.
Qed.

Lemma sends_pure {E A} state tokens req (o : outcome E A) : sends state tokens req [] (rlift o).
Proof. intros w. exists [], [], []. by rewrite app_nil_r. Qed.

Lemma sends_then {E A B} state tokens req as1 as2 (p : M World E A) (f : A → M World E B) :
  sends state tokens req as1 p → (∀ a, sends state tokens req as2 (f a)) →
  sends state tokens req (as1 ++ as2) (rthen p f).
Proof.
  intros Hp Hf w. destruct (Hp w) as (l1 & now1 & later1 & Hl1 & -> & Hs1 & Hok1). unfold rthen.
  destruct (p w) as [w1 [a|e|]]; simpl in *.
  - destruct (Hf a w1) as (l2 & now2 & later2 & Hl2 & -> & Hs2 & Hok2).
    exists (l1 ++ l2), (now1 ++ now2), later2.
    rewrite Hl2, Hl1, (Hok1 eq_refl), app_nil_r, !app_assoc. split_and!; [done..| |done].
    by apply Forall2_app.
  - exists l1, now1, (later1 ++ as2). rewrite app_assoc. by split_and!.
  - exists l1, now1, (later1 ++ as2). rewrite app_assoc. by split_and!.
Qed.

Lemma sends_map_err {E F A} state tokens req actions (f : E → F) (p : M World E A) :
  sends state tokens req actions p → sends state tokens req actions (rmap_err f p).
Proof. intros Hp w. specialize (Hp w). unfold rmap_err. by destruct (p w) as [w' []]. Qed.

Lemma sends_one {E A} state tokens req action m u (p : M World E A) :
  serves state tokens req action (m, u) → (∀ w, requests (p w).1 = requests w ++ [(m, u)]) →
  sends state tokens req [action] p.
Proof. intros Hs Hp w. exists [(m, u)], [action], []. split_and!; auto. Qed.

Lemma sends_lift {E A B} state tokens req actions (o : outcome E A) (f : A → M World E B) :
  (∀ a, o = Ok a → sends state tokens req actions (f a)) →
  sends state tokens req actions (rthen (rlift o) f).
Proof.
  intros Hf. destruct o as [a|e|]; [by apply (Hf a)|by apply sends_stop..].
Qed.

Lemma sends_quiet {E A} state tokens req (p : M World E A) :
  (∀ w, (p w).1 = w) → sends state tokens req [] p.
Proof. intros Hp w. exists [], [], []. by rewrite Hp, app_nil_r. Qed.

(** A request and what is made of the response. *)
Lemma sends_request {E A B} state tokens req action m u (p : M World E A) (f : A → M World E B) :
  serves state tokens req action (m, u) → (∀ w, requests (p w).1 = requests w ++ [(m, u)]) →
  (∀ a, sends state tokens req [] (f a)) → sends state tokens req [action] (rthen p f).
Proof.
  intros Hs Hp Hf. apply (sends_then _ _ _ [action] []); [by eapply sends_one|done].
Qed.

Lemma get_logged u w : requests (Client.get_request u w).1 = requests w ++ [(GET, u)].
Proof. unfold Client.get_request, rmap_err. rewrite <-logged_get. by destruct (http_get u w) as [w' []]. Qed.

Lemma post_logged u body w : requests (Client.post_request u body w).1 = requests w ++ [(POST, u)].
Proof.
  unfold Client.post_request, rmap_err. rewrite <-(logged_post u body).
  by destruct (http_post u body w) as [w' []].
Qed.

Lemma sends_account_info state tokens req action u :
  serves state tokens req action (GET, u) →
  sends state tokens req [action] (Client.fetch_account_information_helper u).
Proof.
  intros Hs. eapply sends_request; [done| |intros; apply sends_pure]. intros w.
  rewrite <-get_logged. unfold rmap_err. by destruct (Client.get_request u w) as [w' []].
Qed.

Lemma create_transaction_quiet helper p c n w : (SignedTxn.create_transaction helper p c n w).1 = w.
Proof.
  unfold SignedTxn.create_transaction, SignedTxn.create_raw_user_transaction, SignedTxn.since_the_epoch.
  unfold rthen, rlift, rret. destruct (clock_ms w <? 0); [done|]. by destruct (add64 _ _).
Qed.

(** A transaction that the tool signs: the sequence number, then the transaction. *)
Lemma sends_signed state tokens req self helper u p v :
  rpc_request_kind self = Kind_SignedTransaction helper → url_path (st_url helper) = "/" →
  serves state tokens req (rpc_action self) (POST, u) →
  sends state tokens req [Act_AccountInformation v (txn_sender_address helper); rpc_action self]
    (Client.signed_transaction_request_helper self u p v).
Proof.
  intros Hkind Hbase Hs. unfold Client.signed_transaction_request_helper. rewrite Hkind.
  apply sends_lift. intros u1 Hu1. apply (sends_then _ _ _ [_] [_]).
  { apply sends_account_info.
    exact (request_served state tokens {| rpc_action := Act_AccountInformation v (txn_sender_address helper);
      rpc_request_kind := Kind_SignedTransaction helper; api_max_gas_amount := 0; api_gas_unit_price := 0 |}
      u1 req Hbase Hu1). }
  intros info. apply (sends_then _ _ _ [] [_]); [apply sends_quiet, create_transaction_quiet|].
  intros txn. apply sends_lift. intros body _. eapply sends_request; [done|apply post_logged|].
  intros r. apply (sends_pure state tokens req (Ok _)).
Qed.

(** The request of an action that has none before it. *)
Lemma sends_get state tokens req action u :
  serves state tokens req action (GET, u) →
  sends state tokens req [action] (Client.get_request u).
Proof. intros Hs. by eapply sends_one; [|apply get_logged]. Qed.

Lemma sends_gas_price state tokens req action u :
  serves state tokens req action (GET, u) →
  sends state tokens req [action] (Client.fetch_estimated_gas_price_helper u).
Proof. intros Hs. eapply sends_request; [done|apply get_logged|intros; apply sends_pure]. Qed.

Lemma sends_chain_id state tokens req action u :
  serves state tokens req action (GET, u) →
  sends state tokens req [action] (Client.fetch_chain_id_helper u).
Proof. intros Hs. apply sends_map_err. by eapply sends_one; [|apply logged_chain_id]. Qed.

(** The transactions that the tool signs, with or without a key. *)
Lemma sends_asked state tokens req self url v p :
  url_path (request_url (rpc_request_kind self)) = "/" →
  serves state tokens req (rpc_action self) (POST, url) →
  sends state tokens req
    match rpc_request_kind self with
    | Kind_SignedTransaction helper =>
        [Act_AccountInformation v (txn_sender_address helper); rpc_action self]
    | Kind_PublicQuery _ => []
    end (Client.signed_transaction_request_helper self url p v).
Proof.
  intros Hb Hs. destruct (rpc_request_kind self) as [helper|helper] eqn:Hkind; [by apply sends_signed|].
  unfold Client.signed_transaction_request_helper. rewrite Hkind. by apply sends_stop.
Qed.

(** Nothing is sent after the response. *)
Lemma sends_last {E A B} state tokens req actions (p : M World E A) (f : A → M World E B) :
  sends state tokens req actions p → (∀ a, sends state tokens req [] (f a)) →
  sends state tokens req actions (rthen p f).
Proof. intros Hp Hf. rewrite <-(app_nil_r actions). by apply sends_then. Qed.

Ltac read_response := intros; repeat first
  [apply (sends_pure _ _ _ (Ok _)) | apply sends_lift; intros ? _].

Lemma execute_sends state tokens req self :
  url_path (request_base self) = "/" →
  sends state tokens req (asked self) (Client.execute_action self).
Proof.
  intros Hbase.
  assert (∀ url, Client.endpoint_url self = Ok url →
    serves state tokens req (rpc_action self) (request_method (rpc_action self), url)) as Hserves
    by (intros url Hurl; by apply request_served).
  unfold Client.execute_action, asked. unfold request_base in Hbase.
  pose proof (sends_asked state tokens req self) as Hsigned.
  destruct (rpc_action self) as [v|v|v a|v p|v p|v t|v r|v a q|v h|v a t|v a i|v a u] eqn:Haction;
    (apply sends_lift; intros url Hurl;
     assert (Client.endpoint_url self = Ok url) as Hend by (first [exact Hurl|by unfold Client.endpoint_url; rewrite Haction]);
     specialize (Hserves _ Hend); simpl in Hserves).
  - apply sends_last; [by apply sends_chain_id|read_response].
  - apply sends_last; [by apply sends_gas_price|read_response].
  - apply sends_last; [by apply sends_account_info|read_response].
  - apply sends_last; [by apply Hsigned|read_response].
  - apply sends_last; [by apply Hsigned|read_response].
  - apply sends_lift. intros body _. eapply sends_request; [done|apply post_logged|read_response].
  - apply sends_lift. intros body _. eapply sends_request; [done|apply post_logged|read_response].
  - apply sends_last; [by apply sends_get|read_response].
  - apply sends_last; [by apply sends_get|read_response].
  - apply sends_last; [by apply sends_get|read_response].
  - apply sends_last; [by apply sends_get|read_response].
  - apply sends_last; [by apply sends_get|read_response].
Qed.

(** C20 The tool and the node agree on the addresses.  At a node whose address has no
    path, the requests that the tool sends for an action, in each version of the
    API, are these in this order: for a transaction that it signs itself the information
    about the sender, then the request of the action; all of them if the action
    succeeds, and the first ones of them if it fails.  Each has the method and the
    path of the handler it is meant for, which the node calls.  The exception is the
    faucet: it is only served if it is enabled, and in version 2 of the API there is
    none, so that the tool gets the answer for an unknown path. *)
Theorem client_requests_served state tokens self req w w' o :
  url_path (request_base self) = "/" → Client.execute_action self w = (w', o) →
  ∃ l now later, requests w' = requests w ++ l ∧ asked self = now ++ later ∧
    (is_ok o = true → later = []) ∧
    Forall2 (λ action sent,
      respond (rest_root_route state (tokens : list Token)) sent.1 (url_path sent.2) req
      = handled (served_by (Api.is_faucet_enabled state) action)) now l.
Proof.
  intros Hbase Hex.
  destruct (execute_sends state tokens req self Hbase w) as (l & now & later & Hl & Ha & Hs & Hok).
  rewrite Hex in Hl, Hok. exists l, now, later. by split_and!.
Qed.
End endpoints.
