(* ===== verification/TxOptions.v ===== *)
(** * Options of transactions

    [src/supra/src/rest_utils/tool_option.rs] and the resolver of coin types in
    [move_tool/move_account/mod.rs]: which profile signs a transaction, with which
    gas, how it is simulated, and how it is sent and followed until it succeeds.

    The manager of the profiles, the terminal and the resources of an account are
    parameters; the loops on the terminal and on the network take fuel. *)

From S2P Require Import Prelude Transactions CliTypes RpcClient.
From stdpp Require Import base tactics option list gmap strings pretty.
From Stdlib Require Import ZArith Lia.
Local Open Scope Z_scope.

(** Attributes of a profile and what may override them. *)
Record ProfileAttributes `{CliEnv} := {
  pa_account_address : Address;
  pa_rpc_url : CUrl;
  pa_faucet_url : CUrl;
  pa_chain_id : Z;
}.

Record ProfileAttributeOptions `{CliEnv} := {
  po_account_address : option Address;
  po_rpc_url : option CUrl;
  po_faucet_url : option CUrl;
  po_chain_id : option Z;
}.

(** [CoinResourceData]. *)
Record CoinResourceData := { coin_balance : Z; coin_is_frozen : bool }.

(** [TransactionOutput]: of a Move transaction, the gas it used. *)
Inductive TransactionOutput : Type :=
| Output_Move_gas (gas_used : Z)
| Output_other.

(** What the options use of the other crates. *)
Class TxEnv `{CliEnv} : Type := {
  #[global] tx_rpc :: RpcEnv;
  (** The files below [SUPRA_HOME]. *)
  Home : Type;
  SecretKey : Type;
  ProtectedProfile : Type;
  ProtectedProfileManager : Type;
  active_cli_profile : M (Sys World Home) CliProfileError ProfileAttributes;
  cli_profile : string → M (Sys World Home) CliProfileError ProfileAttributes;
  read_or_create : bool → bool → M (Sys World Home) CliProfileError (ProtectedProfileManager * string);
  load_private_profile : string → M (Sys World Home) CliProfileError (ProtectedProfileManager * string);
  local_manager : SecretKey → ProfileAttributeOptions → outcome CliProfileError ProtectedProfileManager;
  get_active_protected_profile : ProtectedProfileManager → outcome CliProfileError ProtectedProfile;
  try_smr_private_key_ref : ProtectedProfileManager → string → outcome CliProfileError ProtectedProfile;
  aptos_signer_public_key : ProtectedProfile → outcome CryptoMaterialError Ed25519PublicKey;
  ed25519_private_key : ProtectedProfile → outcome CryptoMaterialError Ed25519PrivateKey;
  (** With the converted error. *)
  fetch_and_confirm_chain_id : CUrl → Z → M World CliError Z;
  simulation_helper : SignerProfileHelper → SignerProfileHelper;
  (** [Text::prompt] of the terminal. *)
  prompt : string → M World InquireErr string;
  show_inquire : InquireErr → string;
  (** Gas, balances and types. *)
  mean_gas_price : GasV1 → Z;
  median_gas_price : GasV2 → Z;
  coin_resource_v1 : HttpResponse → outcome ReqwestErr CoinResourceData;
  coin_resource_v2 : HttpResponse → outcome ReqwestErr CoinResourceData;
  info_output : CliTransactionInfo → option TransactionOutput;
  info_max_gas_amount : CliTransactionInfo → Z;
  info_gas_unit_price : CliTransactionInfo → Z;
  type_tag_from_str : string → outcome AnyhowError TypeTag;
  SUPRA_COIN_TYPE : TypeTag;
  STRUCT_TAG_COIN_STORE : string;
  DEFAULT_MAX_GAS_AMOUNT_FOR_SIMULATION : Z;
  debug_output : option TransactionOutput → string;
  debug_response : RpcResponse → string;
  debug_url : CUrl → string;
  debug_payload : TransactionPayload → string;
}.

Section tx_data.
Context `{TxEnv}.

Record PrivateKeyInputOptions := {
  private_key_file : option string;
  private_key : option SecretKey;
}.

Record SupraProfileOptions := {
  profile : option string;
  private_key_options : PrivateKeyInputOptions;
  profile_attribute_options : ProfileAttributeOptions;
  sender_account : option Address;
}.

Record RestOptions := {
  connection_timeout_secs : Z;
  node_api_key : option string;
  api_version : ApiVersion;
}.

Record GasOptions := {
  go_gas_unit_price : option Z;
  go_max_gas : option Z;
  go_expiration_secs : Z;
}.

Record SupraTransactionOptions := {
  profile_options : SupraProfileOptions;
  rest_options : RestOptions;
  gas_options : GasOptions;
  delegation_pool_address : option string;
}.

Record MoveTransactionOptions := {
  payload : TransactionPayload;
  transaction_option : SupraTransactionOptions;
}.

Inductive ResolveTransactionHash : Type := DoNotResolve | UntilSuccess.
Inductive TransactionType : Type := Type_Simulate | Type_Execute.
Inductive SupraCoinTypeResolver : Type := CoinResource | TransferCoins.

(** [SupraCommandArguments] of the crate [supra_aptos], with its own versions. *)
Record SupraCommandArguments := {
  sca_payload : TransactionPayload;
  sca_profile : option string;
  sca_sender_account : option Address;
  sca_rpc_url : option CUrl;
  sca_connection_timeout_secs : Z;
  sca_node_api_key : option string;
  sca_api_version : ApiVersion;
  sca_gas_unit_price : option Z;
  sca_max_gas : option Z;
  sca_expiration_secs : Z;
}.
End tx_data.

Definition resolve `{TxEnv} (self : SupraCoinTypeResolver) (coin_type : option string)
    : outcome AnyhowError TypeTag :=
  match coin_type with
  | None =>
      match self with
      | CoinResource =>
          type_tag_from_str (STRUCT_TAG_COIN_STORE +:+ "<" +:+ show_type_tag SUPRA_COIN_TYPE +:+ ">")
      | TransferCoins => Ok SUPRA_COIN_TYPE
      end
  | Some user_input => type_tag_from_str user_input
  end.

(** ** Profiles *)
Module Profiles.
Section profiles.
Context `{TxEnv}.
Local Open Scope rust_scope.
Notation Cmd := (M (Sys World Home) CliError).

(** [SupraProfileOptions::profile_attribute]. *)
Definition stored_attributes (self : SupraProfileOptions) : Cmd ProfileAttributes :=
  rmap_err ProfileError
    match profile self with
    | None => active_cli_profile
    | Some name => cli_profile name
    end.

Definition local_protected_profile_manager (self : PrivateKeyInputOptions)
    (attributes : ProfileAttributeOptions) : Cmd (option (ProtectedProfileManager * string)) :=
  match private_key_file self, private_key self with
  | Some file_path, None =>
      m <- rmap_err ProfileError (load_private_profile file_path) ;; rret (Some m)
  | None, Some key =>
      m <- rlift (omap_err ProfileError (local_manager key attributes)) ;;
      rret (Some (m, "temp_password"))
  | None, None => rret None
  | Some _, Some _ =>
      rfail (Aborted "Either CLI profile file path or private key should be provided."
                     "Please Try again.")
  end.

Definition protected_profile (self : SupraProfileOptions) (ignore_env : bool)
    : Cmd (ProtectedProfile * string) :=
  local <- local_protected_profile_manager (private_key_options self)
             (profile_attribute_options self) ;;
  m <- match local with
       | None => rmap_err ProfileError (read_or_create ignore_env false)
       | Some temp_profile => rret temp_profile
       end ;;
  match profile self with
  | None =>
      p <- rlift (omap_err ProfileError (get_active_protected_profile m.1)) ;; rret (p, m.2)
  | Some txn_sender_profile =>
      p <- rlift (omap_err ProfileError (try_smr_private_key_ref m.1 txn_sender_profile)) ;;
      rret (p, m.2)
  end.

(** [SupraTransactionOptions::profile_attribute]. *)
Definition profile_attribute (self : SupraTransactionOptions) : Cmd ProfileAttributes :=
  attributes <- stored_attributes (profile_options self) ;;
  let options := profile_attribute_options (profile_options self) in
  let attributes :=
    match po_account_address options with
    | Some address =>
        {| pa_account_address := address; pa_rpc_url := pa_rpc_url attributes;
           pa_faucet_url := pa_faucet_url attributes; pa_chain_id := pa_chain_id attributes |}
    | None => attributes
    end in
  match po_rpc_url options with
  | Some rpc_url =>
      chain_id <- on_world id (fetch_and_confirm_chain_id rpc_url (pa_chain_id attributes)) ;;
      rret {| pa_account_address := pa_account_address attributes; pa_rpc_url := rpc_url;
              pa_faucet_url := rpc_url; pa_chain_id := chain_id |}
  | None => rret attributes
  end.

Definition signer_profile_helper (self : SupraTransactionOptions) (txn_type : TransactionType)
    (ignore_env : bool) : Cmd SignerProfileHelper :=
  p <- protected_profile (profile_options self) ignore_env ;;
  public_key <- rlift (omap_err (λ e, MoveToolingError (ExecutorCryptoError e))
                         (aptos_signer_public_key p.1)) ;;
  signer_key_type <-
    match txn_type with
    | Type_Simulate => rret Key_Simulate
    | Type_Execute =>
        k <- rlift (omap_err (λ e, MoveToolingError (ExecutorCryptoError e))
                      (ed25519_private_key p.1)) ;; rret (Key_Execute k)
    end ;;
  sender_attributes <- profile_attribute self ;;
  rret {| sp_account_address := pa_account_address sender_attributes;
          sp_public_key := public_key; sp_signer_key_type := signer_key_type;
          sp_rpc_url := pa_rpc_url sender_attributes;
          sp_chain_id := pa_chain_id sender_attributes; sp_cli_password := p.2 |}.

(** [From<SupraCommandArguments>]. *)
Definition from_command_arguments (value : SupraCommandArguments) : MoveTransactionOptions :=
  {| payload := sca_payload value;
     transaction_option :=
       {| profile_options :=
            {| profile := sca_profile value;
               private_key_options := {| private_key_file := None; private_key := None |};
               profile_attribute_options :=
                 {| po_account_address := None; po_rpc_url := sca_rpc_url value;
                    po_faucet_url := None; po_chain_id := None |};
               sender_account := sca_sender_account value |};
          rest_options :=
            {| connection_timeout_secs := sca_connection_timeout_secs value;
               node_api_key := sca_node_api_key value; api_version := sca_api_version value |};
          gas_options :=
            {| go_gas_unit_price := sca_gas_unit_price value; go_max_gas := sca_max_gas value;
               go_expiration_secs := sca_expiration_secs value |};
          delegation_pool_address := None |} |}.

(** The sender of a transaction is the account of the stored profile, or the one
    given as an attribute: if the stored profile can be read at any time and no
    address of a node is given, neither the private key nor the sender account
    given on the command line change the sender, the node or the chain. *)
Theorem sender_is_profile_account self txn_type ignore_env attributes s s' helper :
  (∀ t, stored_attributes (profile_options self) t = (t, Ok attributes)) →
  po_rpc_url (profile_attribute_options (profile_options self)) = None →
  signer_profile_helper self txn_type ignore_env s = (s', Ok helper) →
  sp_account_address helper
    = default (pa_account_address attributes)
        (po_account_address (profile_attribute_options (profile_options self))) ∧
  sp_rpc_url helper = pa_rpc_url attributes ∧
  sp_chain_id helper = pa_chain_id attributes.
Proof.
  intros Hstored Hurl. unfold signer_profile_helper, rthen.
  destruct (protected_profile _ _ s) as [s1 [p|e|]]; [|done..].
  unfold rlift. destruct (omap_err _ (aptos_signer_public_key p.1)); [|done..].
  unfold profile_attribute, rthen. rewrite Hurl.
  destruct txn_type; [|destruct (omap_err _ (ed25519_private_key p.1)); [|done..]];
    unfold rret; rewrite Hstored; destruct (po_account_address _); by intros [= <- <-].
Qed.
End profiles.
End Profiles.

(** ** Gas, simulation and sending *)
Module Sending.
Import Profiles.
Section sending.
Context `{TxEnv}.
Local Open Scope rust_scope.

Definition RETRY_DELAY : Z := 1.

Definition public_query (url : CUrl) : RpcRequestKind := Kind_PublicQuery {| pq_url := url |}.

Definition fetch_account_balance (v : ApiVersion) (rpc_url : CUrl) (account_address : Address)
    : M World CliError CoinResourceData :=
  tag <- rlift (omap_err Other (resolve CoinResource None)) ;;
  res <- Client.perform (Act_AccountResource v account_address tag) (public_query rpc_url) ;;
  let unexpected :=
    rfail (GeneralError ("Received an unexpected result " +:+ debug_response res
      +:+ " when fetching account balance from RPC " +:+ debug_url rpc_url)) in
  match res with
  | Res_AccountResource response =>
      if is_success response
      then rlift (omap_err RequestError
             match v with
             | V1 => coin_resource_v1 response
             | V2 | V3 => coin_resource_v2 response
             end)
      else unexpected
  | _ => unexpected
  end.

Definition fetch_gas_estimate (v : ApiVersion) (rpc_url : CUrl) : M World CliError Z :=
  res <- Client.perform (Act_EstimatedGasPrice v) (public_query rpc_url) ;;
  match res with
  | Res_EstimatedGasPrice (Gas_V1 r) => rret (mean_gas_price r)
  | Res_EstimatedGasPrice (Gas_V2 r) => rret (median_gas_price r)
  | _ => rfail (GeneralError ("Received an unexpected result " +:+ debug_response res
           +:+ " when fetching gas estimates from RPC " +:+ debug_url rpc_url))
  end.

(** [trim().is_empty()], for the blanks of the ASCII range. *)
Fixpoint blank (s : string) : bool :=
  match s with EmptyString => true | String c s' => Ascii.is_space c && blank s' end.

Fixpoint confirm_gas_parameter_u64 (fuel : nat) (message : string) (default : Z)
    : M World Stop Z :=
  match fuel with
  | O => rfail OutOfFuel
  | S fuel' =>
      status <- rtry (prompt message) ;;
      match status with
      | inl input =>
          if blank input then rret default
          else match parse_uint U64_MAX input with
               | Some gas_unit_price => rret gas_unit_price
               | None => confirm_gas_parameter_u64 fuel' message default
               end
      | inr e => rfail (Failed (Aborted (show_inquire e) "Please try again."))
      end
  end.

Definition gas_price_question (price : Z) : string :=
  "Proceed with a Gas Unit Price of " +:+ pretty price
  +:+ " Quants? Press return to accept or enter a different value.".
Definition max_gas_question (gas : Z) : string :=
  "Proceed with a Max Gas Amount of " +:+ pretty gas
  +:+ "? Press return to accept or enter a different value.".

(** Both defaults of [unwrap_or] are evaluated before they are needed. *)
Definition simulate_signer_profile_transaction (self : MoveTransactionOptions)
    (signer : SignerProfileHelper) : M World CliError CliTransactionInfo :=
  let options := transaction_option self in
  let v := api_version (rest_options options) in
  estimate <- fetch_gas_estimate v (sp_rpc_url signer) ;;
  let gas_unit_price := default estimate (go_gas_unit_price (gas_options options)) in
  acc_bal <- fetch_account_balance v (sp_rpc_url signer) (sp_account_address signer) ;;
  if coin_is_frozen acc_bal
  then rfail (Aborted "Transaction failed: SupraCoin balance is frozen."
                      "Please unfreeze your SupraCoin balance before proceeding.")
  else
    let max_gas := default (Z.min (coin_balance acc_bal) DEFAULT_MAX_GAS_AMOUNT_FOR_SIMULATION)
                     (go_max_gas (gas_options options)) in
    res <- Client.perform (Act_SimulateTransaction v (payload self))
             (Kind_SignedTransaction (SignedTxn.new_user_object signer
                {| gp_gas_unit_price := gas_unit_price; gp_max_gas := max_gas;
                   gp_expiration_secs := go_expiration_secs (gas_options options) |})) ;;
    match res with
    | Res_SimulateTransaction info _ => rret info
    | _ => rfail RESTClient
    end.

Definition simulate_transaction (self : MoveTransactionOptions)
    : M (Sys World Home) CliError CliTransactionInfo :=
  signer <- signer_profile_helper (transaction_option self) Type_Simulate false ;;
  on_world id (simulate_signer_profile_transaction self signer).

Definition simulate_gas_fee (self : MoveTransactionOptions) (signer : SignerProfileHelper)
    : M World CliError (Z * Z) :=
  info <- simulate_signer_profile_transaction self signer ;;
  match info_status info with
  | St_Success =>
      match info_output info with
      | Some (Output_Move_gas gas_used) => rret (gas_used, info_gas_unit_price info)
      | _ => rret (info_max_gas_amount info, info_gas_unit_price info)
      end
  | _ => rfail (Aborted (debug_output (info_output info)) "Please try again.")
  end.

(** The address of the node is read from the profile again. *)
Definition profile_gas_estimate (self : MoveTransactionOptions) : M (Sys World Home) Stop Z :=
  attributes <- rmap_err Failed (profile_attribute (transaction_option self)) ;;
  on_world Failed (fetch_gas_estimate (api_version (rest_options (transaction_option self)))
                     (pa_rpc_url attributes)).

Definition confirm_or_modify_gas_parameters (fuel : nat) (self : MoveTransactionOptions)
    (signer : SignerProfileHelper) : M (Sys World Home) Stop GasParameters :=
  let options := gas_options (transaction_option self) in
  let parameters price gas :=
    rret {| gp_gas_unit_price := price; gp_max_gas := gas;
            gp_expiration_secs := go_expiration_secs options |} in
  match go_max_gas options, go_gas_unit_price options with
  | Some max_gas, Some gas_unit_price => parameters gas_unit_price max_gas
  | Some max_gas, None =>
      estimate <- profile_gas_estimate self ;;
      price <- on_world id (confirm_gas_parameter_u64 fuel (gas_price_question estimate) estimate) ;;
      parameters price max_gas
  | None, Some gas_unit_price =>
      fee <- on_world Failed (simulate_gas_fee self signer) ;;
      gas <- on_world id (confirm_gas_parameter_u64 fuel (max_gas_question fee.1) fee.1) ;;
      parameters gas_unit_price gas
  | None, None =>
      fee <- on_world Failed (simulate_gas_fee self signer) ;;
      estimate <- profile_gas_estimate self ;;
      gas <- on_world id (confirm_gas_parameter_u64 fuel (max_gas_question fee.1) fee.1) ;;
      price <- on_world id (confirm_gas_parameter_u64 fuel (gas_price_question estimate) estimate) ;;
      parameters price gas
  end.

Definition check_transaction_info (self : MoveTransactionOptions) (txn_hash : CHash)
    : M (Sys World Home) CliError CliTransactionInfo :=
  attributes <- profile_attribute (transaction_option self) ;;
  res <- on_world id (Client.perform
           (Act_TransactionInfo (api_version (rest_options (transaction_option self))) txn_hash)
           (public_query (pa_rpc_url attributes))) ;;
  match res with
  | Res_TransactionInfo info => rret info
  | _ => rfail RESTClient
  end.

Definition send_transaction (fuel : nat) (self : MoveTransactionOptions)
    (resolve_txn_hash : ResolveTransactionHash) : M (Sys World Home) Stop CliTransactionInfo :=
  let v := api_version (rest_options (transaction_option self)) in
  signer <- rmap_err Failed (signer_profile_helper (transaction_option self) Type_Execute false) ;;
  gas <- confirm_or_modify_gas_parameters fuel self (simulation_helper signer) ;;
  res <- on_world Failed (Client.perform (Act_SendTransaction v (payload self))
           (Kind_SignedTransaction (SignedTxn.new_user_object signer gas))) ;;
  match res with
  | Res_SendTransaction hash expiration_timestamp_secs =>
      match resolve_txn_hash with
      | DoNotResolve => rret tt
      | UntilSuccess =>
          on_world id (Client.await_finalized_with_success fuel v hash expiration_timestamp_secs
            (public_query (sp_rpc_url signer)) (RETRY_DELAY * 1000))
      end ;;
      rmap_err Failed (check_transaction_info self hash)
  | unexpected_response =>
      rfail (Failed (UnexpectedResponse (debug_payload (payload self)) unexpected_response))
  end.

(** A simulation always asks the node for the price of gas and for the balance of
    the sender: if one of the two requests fails, or the balance is frozen, the
    simulation fails, also when the price and the maximum of gas are given and
    neither answer is used. *)
Theorem simulation_needs_node_answers self signer w :
  let v := api_version (rest_options (transaction_option self)) in
  (∀ w1 e, fetch_gas_estimate v (sp_rpc_url signer) w = (w1, Err e) →
     simulate_signer_profile_transaction self signer w = (w1, Err e)) ∧
  (∀ w1 estimate w2 e, fetch_gas_estimate v (sp_rpc_url signer) w = (w1, Ok estimate) →
     fetch_account_balance v (sp_rpc_url signer) (sp_account_address signer) w1 = (w2, Err e) →
     simulate_signer_profile_transaction self signer w = (w2, Err e)) ∧
  (∀ w1 estimate w2 coins, fetch_gas_estimate v (sp_rpc_url signer) w = (w1, Ok estimate) →
     fetch_account_balance v (sp_rpc_url signer) (sp_account_address signer) w1 = (w2, Ok coins) →
     coin_is_frozen coins = true →
     ∃ reason action, simulate_signer_profile_transaction self signer w
                      = (w2, Err (Aborted reason action))).
Proof.
  intros v. unfold simulate_signer_profile_transaction, rthen. fold v. split_and!.
  - by intros w1 e ->.
  - by intros w1 estimate w2 e -> ->.
  - intros w1 estimate w2 coins -> -> ->. by eexists _, _.
Qed.

(** A transaction that is sent and waited for, step by step. *)
Lemma send_transaction_run fuel self s s' info :
  let v := api_version (rest_options (transaction_option self)) in
  send_transaction fuel self UntilSuccess s = (s', Ok info) →
  ∃ signer s0 gas s1 hash expiration w2 w3 final,
    signer_profile_helper (transaction_option self) Type_Execute false s = (s0, Ok signer) ∧
    confirm_or_modify_gas_parameters fuel self (simulation_helper signer) s0 = (s1, Ok gas) ∧
    Client.perform (Act_SendTransaction v (payload self))
      (Kind_SignedTransaction (SignedTxn.new_user_object signer gas)) (world s1)
      = (w2, Ok (Res_SendTransaction hash expiration)) ∧
    Client.await_finalized fuel v hash expiration (public_query (sp_rpc_url signer))
      (RETRY_DELAY * 1000) w2 = (w3, Ok final) ∧
    info_status final = St_Success ∧
    check_transaction_info self hash {| world := w3; home := home s1 |} = (s', Ok info).
Proof.
  intros v. unfold send_transaction, rthen, rmap_err. fold v.
  destruct (signer_profile_helper _ _ _ s) as [s0 [signer|e|]] eqn:Hsigner; simpl; [|done..].
  destruct (confirm_or_modify_gas_parameters fuel self (simulation_helper signer) s0)
    as [s1 [gas|e|]] eqn:Hgas; [|done..].
  unfold on_world, rzoom.
  destruct (Client.perform _ _ (world s1)) as [w2 [res|e|]] eqn:Hsend; simpl; [|done..].
  destruct res as [ | | | | hash expiration | | | | | | | ]; try done. simpl.
  unfold Client.await_finalized_with_success, rthen.
  destruct (Client.await_finalized _ _ _ _ _ _ w2) as [w3 [final|e|]] eqn:Hwait; simpl; [|done..].
  destruct (info_status final) eqn:Hst; simpl; [|done..].
  destruct (check_transaction_info _ _ _) as [s2 [i|e|]] eqn:Hcheck; simpl; [|done..].
  intros [= <- <-]. by eexists _, _, _, _, _, _, _, _, _.
Qed.

(** C37 A transaction that is sent until it succeeds is reported only after success:
    the report is preceded by the confirmation of the gas, the submission of the
    payload with exactly this gas, signed by the profile, and a final status of
    the submitted transaction that is success; waiting does not touch the files. *)
Theorem sent_until_success fuel self s s' info :
  let v := api_version (rest_options (transaction_option self)) in
  send_transaction fuel self UntilSuccess s = (s', Ok info) →
  ∃ signer s0 gas s1 hash expiration w2 w3 final,
    signer_profile_helper (transaction_option self) Type_Execute false s = (s0, Ok signer) ∧
    confirm_or_modify_gas_parameters fuel self (simulation_helper signer) s0 = (s1, Ok gas) ∧
    Client.perform (Act_SendTransaction v (payload self))
      (Kind_SignedTransaction (SignedTxn.new_user_object signer gas)) (world s1)
      = (w2, Ok (Res_SendTransaction hash expiration)) ∧
    Client.await_finalized fuel v hash expiration (public_query (sp_rpc_url signer))
      (RETRY_DELAY * 1000) w2 = (w3, Ok final) ∧
    info_status final = St_Success ∧
    check_transaction_info self hash {| world := w3; home := home s1 |} = (s', Ok info).
Proof. apply send_transaction_run. Qed.
End sending.
End Sending.
