(* ===== verification/Identity.v ===== *)
(** * Identities and profiles

    [src/supra/src/node/identity_rotation/] and [src/supra/src/profile/]: the
    commands that create, change and sign with the keys of a validator and of a
    user.  The files are those of the manager of the profiles and of the encrypted
    identity of the node, which are parameters, as are the generation of keys and
    the syntax of socket addresses. *)

From S2P Require Import Prelude Transactions CliTypes RpcClient TxOptions.
From stdpp Require Import base tactics option list gmap strings pretty.
From Stdlib Require Import ZArith Lia.
Import Profiles Sending.
Local Open Scope Z_scope.

(** What the commands use of the other crates; errors are already converted where
    the type is not named in the commands. *)
Class IdEnv `{CliEnv} : Type := {
  #[global] id_tx :: TxEnv;
  NodeIdentity : Type;
  ConsensusIdentity : Type;
  NetworkKey : Type;
  SocketAddr : Type;
  KeyBytes : Type;
  (** [SocketAddr::from_str]. *)
  parse_socket_addr : string → option SocketAddr;
  generate_consensus_identity : World → World * ConsensusIdentity;
  generate_network_key : World → World * NetworkKey;
  generate_with_ip : SocketAddr → World → World * NodeIdentity;
  generate_with_name_and_port : string → Z → World → World * NodeIdentity;
  (** [Ed25519PublicKey::try_from] on the new key, with the printed error. *)
  consensus_key_bytes : ConsensusIdentity → outcome string KeyBytes;
  set_new_consensus_identity : ConsensusIdentity → NodeIdentity → NodeIdentity;
  set_new_network_key : NetworkKey → NodeIdentity → NodeIdentity;
  set_new_network_socket_addr : SocketAddr → NodeIdentity → NodeIdentity;
  set_new_network_dns_name_and_port : string → Z → NodeIdentity → NodeIdentity;
  encode_network_address : NodeIdentity → outcome CliError KeyBytes;
  stake_rotate_consensus_key : Address → KeyBytes → TransactionPayload;
  stake_update_network_and_fullnode_addresses : Address → KeyBytes → TransactionPayload;
  (** The encrypted identity, its backup and the public identity. *)
  from_encrypted_file : string → M Home CliError NodeIdentity;
  to_encrypted_file : NodeIdentity → string → M Home CliError unit;
  backup : M Home CliError string;
  write_public_identity : NodeIdentity → M Home CliError unit;
  (** [ProtectedProfileManager] and the exported [CliProfileManager]. *)
  CliProfiles : Type;
  cli_profile_manager : ProtectedProfileManager → CliProfiles;
  write_cli_profiles : CliProfiles → M Home CliError unit;
  cli_profiles_path : M Home CliError string;
  create_new : string → option SecretKey → ProfileAttributeOptions → bool → bool →
               M (Sys World Home) CliProfileError ProtectedProfileManager;
  activate : string → bool → M (Sys World Home) CliProfileError ProtectedProfileManager;
  remove_keys : list string → bool → M (Sys World Home) CliProfileError ProtectedProfileManager;
  modify_profile_attribute : string → ProfileAttributeOptions → bool → bool →
                             M (Sys World Home) CliProfileError ProtectedProfileManager;
  reset_password : ProtectedProfileManager → M (Sys World Home) CliProfileError string;
  (** The terminal; the text with the secret keys; the check of a password. *)
  print_line : string → World → World;
  unsafe_display_string : ProtectedProfileManager → string;
  is_weak_password : string → bool;
  WEAK_PASSWORD : string;
  (** Migration of an old profile. *)
  as_serde_error : CliProfileError → option SerdeError;
  serde_is_data : SerdeError → bool;
  show_serde : SerdeError → string;
  prompt_password : string → M World CliError string;
  migrate_to_cli_profile_with_chain_id : string → M (Sys World Home) CliError CliProfiles;
  (** The first capture of the expression that matches [missing field `...`]. *)
  capture_missing_field : string → option string;
  anyhow : string → AnyhowError;
  profile_aborted : string → string → CliProfileError;
  (** Networks. *)
  SupraNetwork : Type;
  network_rpc_url : SupraNetwork → outcome CliError CUrl;
  network_faucet_url : SupraNetwork → outcome CliError CUrl;
  network_chain_id : SupraNetwork → outcome CliError Z;
  (** Signatures. *)
  sign_content : ProtectedProfile → string → string;
  read_string_from_file : string → M Home AnyhowError string;
}.

Section identity_data.
Context `{IdEnv}.

Inductive IdentityRotationResult : Type :=
| Result_RotateConsensusKey (info : CliTransactionInfo)
| Result_RotateNetworkAddress (info : CliTransactionInfo).

Inductive ProfileToolResult : Type :=
| Profile_Blank
| Profile_Manager (m : CliProfiles)
| Profile_Signature (signature : string).
End identity_data.

(** ** Names and ports *)
Module Dns.
Section dns.
Context `{IdEnv}.
Local Open Scope rust_scope.

(** [split]: the pieces between the separators. *)
Fixpoint split_at (c : Ascii.ascii) (s : string) : list string :=
  match s with
  | EmptyString => [""]
  | String d s' =>
      match split_at c s' with
      | [] => [String d ""]
      | piece :: pieces =>
          if Ascii.eqb d c then "" :: piece :: pieces else String d piece :: pieces
      end
  end.

Definition colon : Ascii.ascii := Ascii.ascii_of_N 58.

Definition parse_dns (dns : string) : outcome CliError (string * Z) :=
  match take 2 (split_at colon dns) with
  | [name; port] =>
      match parse_uint U16_MAX port with
      | Some p => Ok (name, p)
      | None => Err (Aborted "Invalid port in DNS name specification"
          ("Please provide a valid numeric port (received " +:+ port
           +:+ "), e.g., example.com:35000"))
      end
  | _ => Err (Aborted "Invalid DNS specification"
           "Please specify DNS name as NAME:PORT, e.g., example.com:35000")
  end.

(** *** Properties *)
Fixpoint free_of (c : Ascii.ascii) (s : string) : Prop :=
  match s with EmptyString => True | String d s' => d ≠ c ∧ free_of c s' end.

Lemma split_at_not_nil c s : split_at c s ≠ [].
Proof. destruct s; simpl; [done|]. destruct (split_at c s); [done|]. by destruct (Ascii.eqb _ _). Qed.

Lemma split_at_free c s : free_of c s → split_at c s = [s].
Proof.
  induction s as [|d s IH]; simpl; [done|]. intros [Hd Hs]. rewrite IH by done.
  by rewrite (proj2 (Ascii.eqb_neq d c) Hd).
Qed.

Lemma split_at_app c s t : free_of c s → split_at c (s +:+ String c t) = s :: split_at c t.
Proof.
  pose proof (split_at_not_nil c t) as Ht.
  induction s as [|d s IH]; simpl.
  { intros _. rewrite Ascii.eqb_refl. by destruct (split_at c t). }
  intros [Hd Hs]. rewrite IH by done. by rewrite (proj2 (Ascii.eqb_neq d c) Hd).
Qed.

Lemma parse_digits_bound max acc s n :
  acc ≤ max → parse_digits max acc s = Some n → n ≤ max.
Proof.
  revert acc. induction s as [|c s IH]; intros acc Hacc; simpl; [by intros [= <-]|].
  destruct (digit c); [|done]. destruct (Z.leb_spec (acc * 10 + z) max); [|done]. by apply IH.
Qed.

Lemma digit_pretty n : (n < 10)%N → digit (pretty_N_char n) = Some (Z.of_N n).
Proof.
  intros Hn. assert (n = 0 ∨ n = 1 ∨ n = 2 ∨ n = 3 ∨ n = 4 ∨ n = 5 ∨ n = 6 ∨ n = 7 ∨ n = 8 ∨ n = 9)%N
    as Hcases by lia.
  by destruct Hcases as [->|[->|[->|[->|[->|[->|[->|[->|[->| ->]]]]]]]]].
Qed.

Lemma parse_digits_pretty max n s :
  Z.of_N n ≤ max → parse_digits max 0 (pretty_N_go n s) = parse_digits max (Z.of_N n) s.
Proof.
  revert s. induction (N.lt_wf_0 n) as [n _ IH]; intros s Hn.
  destruct (decide (n = 0)%N) as [->|Hpos]; [by rewrite pretty_N_go_0|].
  rewrite pretty_N_go_step by lia.
  assert (n / 10 < n)%N by (apply N.div_lt; lia). assert (n mod 10 < 10)%N by (by apply N.mod_lt).
  assert (n = 10 * (n / 10) + n mod 10)%N by (by apply N.div_mod).
  rewrite IH by lia. simpl. rewrite digit_pretty by lia.
  replace (Z.of_N (n / 10) * 10 + Z.of_N (n mod 10)) with (Z.of_N n) by lia.
  by rewrite (proj2 (Z.leb_le _ _) Hn).
Qed.

Lemma pretty_N_go_digit n s :
  (0 < n)%N → ∃ c s', pretty_N_go n s = String c s' ∧ (Ascii.N_of_ascii c =? 43)%N = false.
Proof.
  revert s. induction (N.lt_wf_0 n) as [n _ IH]; intros s Hn. rewrite pretty_N_go_step by done.
  assert (n / 10 < n)%N by (apply N.div_lt; lia). assert (n mod 10 < 10)%N by (by apply N.mod_lt).
  destruct (decide (n / 10 = 0)%N) as [Hq|Hq];
    [rewrite Hq|by apply IH; [|apply N.neq_0_lt_0]].
  rewrite pretty_N_go_0. eexists _, _. split; [done|].
  pose proof (digit_pretty (n mod 10)) as Hd. unfold digit in Hd.
  destruct (N.eqb_spec (Ascii.N_of_ascii (pretty_N_char (n mod 10))) 43) as [He|]; [|done].
  rewrite He in Hd. by discriminate Hd.
Qed.

Lemma parse_uint_pretty max n : Z.of_N n ≤ max → parse_uint max (pretty n) = Some (Z.of_N n).
Proof.
  intros Hn. unfold pretty, pretty_N. destruct (decide (n = 0)%N) as [->|Hpos].
  { change (parse_uint max "0") with (if 0 <=? max then Some 0 else None).
    by rewrite (proj2 (Z.leb_le 0 max) Hn). }
  destruct (pretty_N_go_digit n "") as (c & s & Heq & Hc); [lia|].
  unfold parse_uint. rewrite Heq, Hc, <-Heq. by rewrite parse_digits_pretty.
Qed.

Lemma pretty_free n : free_of colon (pretty (n : N)).
Proof.
  assert (∀ n s, free_of colon s → free_of colon (pretty_N_go n s)) as Hgo.
  { clear n. intros n. induction (N.lt_wf_0 n) as [n _ IH]; intros s Hs.
    destruct (decide (n = 0)%N) as [->|Hpos]; [by rewrite pretty_N_go_0|].
    rewrite pretty_N_go_step by lia. apply IH; [apply N.div_lt; lia|]. split; [|done].
    assert (n mod 10 < 10)%N as Hm by (by apply N.mod_lt).
    intros Heq. apply digit_pretty in Hm. by rewrite Heq in Hm. }
  unfold pretty, pretty_N. case_decide; [done|]. by apply Hgo.
Qed.

(** A name and a port are read back from the documented form: for every name
    without a colon and every 16-bit port, NAME:PORT gives this name and port, and
    whatever follows a second colon is ignored.  A port that is accepted fits 16
    bits. *)
Theorem dns_roundtrip name port rest :
  free_of colon name → Z.of_N port ≤ U16_MAX →
  parse_dns (name +:+ String colon (pretty port)) = Ok (name, Z.of_N port) ∧
  parse_dns (name +:+ String colon (pretty port +:+ String colon rest)) = Ok (name, Z.of_N port) ∧
  (∀ dns n p, parse_dns dns = Ok (n, p) → p ≤ U16_MAX).
Proof.
  intros Hname Hport. pose proof (pretty_free port). unfold parse_dns. split_and!.
  - rewrite split_at_app, split_at_free by done. simpl. by rewrite parse_uint_pretty.
  - rewrite !split_at_app by done. pose proof (split_at_not_nil colon rest).
    destruct (split_at colon rest); [done|]. simpl. by rewrite parse_uint_pretty.
  - intros dns n p. destruct (take 2 _) as [|a [|b []]]; try done.
    destruct (parse_uint U16_MAX b) as [q|] eqn:Hq; [|done]. intros [= _ <-]. revert Hq.
    unfold parse_uint. destruct b as [|c b]; [done|].
    destruct (_ =? 43)%N; [destruct b; [done|]|]; by apply parse_digits_bound.
Qed.
End dns.
End Dns.

(** ** Rotation of keys and addresses *)
Module Rotation.
Import Dns.
Section rotation.
Context `{IdEnv}.
Local Open Scope rust_scope.

Definition draw {A} (f : World → World * A) : M (Sys World Home) Stop A :=
  λ s, let '(w, a) := f (world s) in ({| world := w; home := home s |}, Ok a).

(** What both commands do once the transaction has succeeded. *)
Definition store_identity (id : NodeIdentity) (password : string) : M Home CliError unit :=
  backup ;;
  to_encrypted_file id password ;;
  write_public_identity id.

Definition rotate_consensus_key (fuel : nat) (options : SupraTransactionOptions)
    : M (Sys World Home) Stop IdentityRotationResult :=
  signer <- rmap_err Failed (signer_profile_helper options Type_Execute false) ;;
  pool_address <- rlift (omap_err Failed (parse_pool_address (delegation_pool_address options))) ;;
  validator_identity <- on_home Failed (from_encrypted_file (sp_cli_password signer)) ;;
  new_consensus_identity <- draw generate_consensus_identity ;;
  new_key <- rlift (omap_err (λ e, Failed (IdentityRotation (ConsensusKey e)))
                      (consensus_key_bytes new_consensus_identity)) ;;
  txn_info <- send_transaction fuel
    {| payload := stake_rotate_consensus_key pool_address new_key; transaction_option := options |}
    UntilSuccess ;;
  on_home Failed (store_identity
    (set_new_consensus_identity new_consensus_identity validator_identity)
    (sp_cli_password signer)) ;;
  rret (Result_RotateConsensusKey txn_info).

(** The new address, from the options of the command. *)
Definition new_network_identity (new_key : bool) (socket_addr dns : option string)
    (id : NodeIdentity) : outcome CliError NodeIdentity :=
  match socket_addr, dns with
  | None, None =>
      if new_key then Ok id
      else Err (Aborted "Nothing to rotate"
        "At least one of a new ip address or a dns name or request to generate a new key must be issued.")
  | Some _, Some _ =>
      Err (Aborted "Conflicting configuration" "Specify either a new socket address or a DNS name")
  | Some addr, None =>
      match parse_socket_addr addr with
      | Some a => Ok (set_new_network_socket_addr a id)
      | None => Err (Aborted "Invalid socket address" "Please provide a valid socket address")
      end
  | None, Some name =>
      let? ' (n, port) := parse_dns name in
      Ok (set_new_network_dns_name_and_port n port id)
  end.

Definition rotate_network_address (fuel : nat) (options : SupraTransactionOptions)
    (new_key : bool) (socket_addr dns : option string)
    : M (Sys World Home) Stop IdentityRotationResult :=
  signer <- rmap_err Failed (signer_profile_helper options Type_Execute false) ;;
  validator_identity <- on_home Failed (from_encrypted_file (sp_cli_password signer)) ;;
  pool_address <- rlift (omap_err Failed (parse_pool_address (delegation_pool_address options))) ;;
  validator_identity <-
    (if new_key
     then k <- draw generate_network_key ;; rret (set_new_network_key k validator_identity)
     else rret validator_identity) ;;
  validator_identity <- rlift (omap_err Failed
    (new_network_identity new_key socket_addr dns validator_identity)) ;;
  bytes <- rlift (omap_err Failed (encode_network_address validator_identity)) ;;
  txn_info <- send_transaction fuel
    {| payload := stake_update_network_and_fullnode_addresses pool_address bytes;
       transaction_option := options |} UntilSuccess ;;
  on_home Failed (store_identity validator_identity (sp_cli_password signer)) ;;
  rret (Result_RotateNetworkAddress txn_info).

Inductive IdentityRotationTool : Type :=
| RotateConsensusKey (transaction_option : SupraTransactionOptions)
| RotateNetworkAddress (new_key : bool) (socket_addr dns : option string)
    (transaction_option : SupraTransactionOptions).

Definition execute_rotation (fuel : nat) (self : IdentityRotationTool)
    : M (Sys World Home) Stop IdentityRotationResult :=
  match self with
  | RotateConsensusKey options => rotate_consensus_key fuel options
  | RotateNetworkAddress new_key socket_addr dns options =>
      rotate_network_address fuel options new_key socket_addr dns
  end.

(** *** Properties *)

(** An identity is read back with the password it was written with; reading
    changes no file; a backup and the public identity leave the encrypted one. *)
Class IdentityFiles : Prop := {
  identity_read_keeps p h : (from_encrypted_file p h).1 = h;
  identity_write_read id p h h' :
    to_encrypted_file id p h = (h', Ok tt) → from_encrypted_file p h' = (h', Ok id);
  identity_public_keeps id p h h' o :
    write_public_identity id h = (h', o) →
    (from_encrypted_file p h').2 = (from_encrypted_file p h).2;
}.

(** Reading the profile changes no file. *)
Class ProfileKept (options : SupraTransactionOptions) : Prop := {
  signer_keeps t b : keeps_home (signer_profile_helper options t b);
  attribute_keeps : keeps_home (profile_attribute options);
}.
#[local] Hint Resolve signer_keeps attribute_keeps : keeps.

Lemma draw_keeps {A} (f : World → World * A) : keeps_home (draw f).
Proof. intros s. unfold draw. by destruct (f (world s)). Qed.
#[local] Hint Resolve draw_keeps : keeps.

Lemma send_keeps fuel self r `{!ProfileKept (transaction_option self)} :
  keeps_home (send_transaction fuel self r).
Proof.
  unfold send_transaction, confirm_or_modify_gas_parameters, profile_gas_estimate.
  apply keeps_then; [auto with keeps|]. intros signer. apply keeps_then.
  - destruct (go_max_gas _), (go_gas_unit_price _); auto 10 with keeps.
  - intros gas. apply keeps_then; [auto with keeps|]. intros []; auto with keeps.
    apply keeps_then; [by destruct r; auto with keeps|]. intros _. apply keeps_map_err.
    unfold check_transaction_info. apply keeps_then; [auto with keeps|]. intros a.
    apply keeps_then; [auto with keeps|]. intros []; auto with keeps.
Qed.

Lemma store_identity_reads `{!IdentityFiles} id p h h' :
  store_identity id p h = (h', Ok tt) → from_encrypted_file p h' = (h', Ok id).
Proof.
  unfold store_identity, rthen. destruct (backup h) as [h1 [b|e|]]; [|done..].
  destruct (to_encrypted_file id p h1) as [h2 [[]|e|]] eqn:Hw; [|done..]. intros Hp.
  pose proof (identity_write_read _ _ _ _ Hw) as Hr.
  pose proof (identity_public_keeps _ p _ _ _ Hp) as Hk. rewrite Hr in Hk. simpl in Hk.
  pose proof (identity_read_keeps p h') as Hh.
  destruct (from_encrypted_file p h') as [h3 o]. simpl in *. by subst.
Qed.

(** What a rotation has at hand when it sends its transaction: the signer of the
    options, the pool, the stored identity, and a fresh identity with its key; [s1] is
    the state in which the transaction is sent. *)
Definition prepared (options : SupraTransactionOptions) (s : Sys World Home)
    (signer : SignerProfileHelper) (pool : Address) (old : NodeIdentity)
    (new : ConsensusIdentity) (key : KeyBytes) (s1 : Sys World Home) : Prop :=
  ∃ s0, signer_profile_helper options Type_Execute false s = (s0, Ok signer) ∧
    parse_pool_address (delegation_pool_address options) = Ok pool ∧
    from_encrypted_file (sp_cli_password signer) (home s0) = (home s0, Ok old) ∧
    generate_consensus_identity (world s0) = (world s1, new) ∧
    consensus_key_bytes new = Ok key ∧ home s1 = home s0.

(** The transaction with the new key succeeded, and no file has changed so far. *)
Definition sent (fuel : nat) (options : SupraTransactionOptions) (s : Sys World Home)
    (signer : SignerProfileHelper) (old : NodeIdentity) (new : ConsensusIdentity)
    (info : CliTransactionInfo) (s2 : Sys World Home) : Prop :=
  ∃ pool key s1, prepared options s signer pool old new key s1 ∧
    send_transaction fuel {| payload := stake_rotate_consensus_key pool key;
                             transaction_option := options |} UntilSuccess s1 = (s2, Ok info) ∧
    home s2 = home s.

(** The preparation is determined by the state. *)
Lemma prepared_fun options s signer signer' pool pool' old old' new new' key key' s1 s1' :
  prepared options s signer pool old new key s1 →
  prepared options s signer' pool' old' new' key' s1' →
  pool' = pool ∧ key' = key ∧ s1' = s1.
Proof.
  intros (s0 & Hs & Hp & Hf & Hg & Hk & Hh) (s0' & Hs' & Hp' & Hf' & Hg' & Hk' & Hh').
  rewrite Hs in Hs'. injection Hs' as <- <-. rewrite Hp in Hp'. injection Hp' as <-.
  rewrite Hg in Hg'. injection Hg' as Hw <-. rewrite Hk in Hk'. injection Hk' as <-.
  destruct s1, s1'. simpl in *. by subst.
Qed.

End rotation.
End Rotation.

(** ** Profiles *)
Module ProfileTool.
Import Dns Rotation.
Section profile_tool.
Context `{IdEnv}.
Local Open Scope rust_scope.
Notation Cmd := (M (Sys World Home) CliError).

(** [ProfileAttributeOptionsMaker::make]. *)
Definition make (network : option SupraNetwork) (profile_option : option ProfileAttributeOptions)
    : outcome CliError ProfileAttributeOptions :=
  let of_network address n :=
    let? rpc_url := network_rpc_url n in
    let? faucet_url := network_faucet_url n in
    let? chain_id := network_chain_id n in
    Ok {| po_account_address := address; po_rpc_url := Some rpc_url;
          po_faucet_url := Some faucet_url; po_chain_id := Some chain_id |} in
  match network, profile_option with
  | Some n, None => of_network None n
  | None, Some options => Ok options
  | Some n, Some options =>
      match po_account_address options with
      | Some address => of_network (Some address) n
      | None => Panic
      end
  | None, None => Ok {| po_account_address := None; po_rpc_url := None;
                        po_faucet_url := None; po_chain_id := None |}
  end.

(** [println!]. *)
Definition println (text : string) : Cmd unit :=
  rmodify (λ s, {| world := print_line text (world s); home := home s |}).

(** [ListProfileArgs::execute]: the secret keys are only printed. *)
Definition list_profiles (reveal_secrets : bool) : Cmd ProfileToolResult :=
  m <- rmap_err ProfileError (read_or_create reveal_secrets false) ;;
  if reveal_secrets
  then (println (unsafe_display_string m.1) ;; rret Profile_Blank)
  else rret (Profile_Manager (cli_profile_manager m.1)).

(** The public profiles are exported after a change. *)
Definition export_profiles (m : ProtectedProfileManager) : Cmd ProfileToolResult :=
  on_home id (write_cli_profiles (cli_profile_manager m)) ;;
  on_home id cli_profiles_path ;;
  rret (Profile_Manager (cli_profile_manager m)).

Definition new_profile (name : option string) (private_key : option SecretKey)
    (network : option SupraNetwork) (profile_option : option ProfileAttributeOptions)
    (interactive : bool) : Cmd ProfileToolResult :=
  options <- rlift (make network profile_option) ;;
  m <- rmap_err ProfileError
         (create_new (default "default" name) private_key options false interactive) ;;
  export_profiles m.

Definition activate_profile (name : string) : Cmd ProfileToolResult :=
  m <- rmap_err ProfileError (activate name false) ;;
  on_home id (write_cli_profiles (cli_profile_manager m)) ;;
  rret (Profile_Manager (cli_profile_manager m)).

Definition remove_profile (names : list string) : Cmd ProfileToolResult :=
  m <- rmap_err ProfileError (remove_keys names false) ;;
  export_profiles m.

Definition modify_profile (name : string) (network : option SupraNetwork)
    (profile_option : option ProfileAttributeOptions) (interactive : bool) : Cmd ProfileToolResult :=
  options <- rlift (make network profile_option) ;;
  m <- rmap_err ProfileError (modify_profile_attribute name options interactive false) ;;
  export_profiles m.

Definition generate_validator_identity (socket_addr dns : option string) : Cmd ProfileToolResult :=
  m <- rmap_err ProfileError (read_or_create false false) ;;
  validator_identity <-
    match socket_addr, dns with
    | None, None => rfail (Aborted "Neither socket address nor DNS name was provided"
                             "Please provide either a socket address or a DNS name.")
    | Some addr, None =>
        match parse_socket_addr addr with
        | Some a => λ s, let '(w, id) := generate_with_ip a (world s) in
                         ({| world := w; home := home s |}, Ok id)
        | None => rfail (Aborted ("Input socket address is invalid: " +:+ addr)
                           "Please check your input socket address.")
        end
    | None, Some name =>
        np <- rlift (parse_dns name) ;;
        λ s, let '(w, id) := generate_with_name_and_port np.1 np.2 (world s) in
             ({| world := w; home := home s |}, Ok id)
    | Some _, Some _ => rfail (Aborted "Conflicting configuration"
                                 "Specify either a new socket address or a DNS name")
    end ;;
  on_home id (to_encrypted_file validator_identity m.2) ;;
  on_home id (write_public_identity validator_identity) ;;
  rret Profile_Blank.

(** [ProfileTool::ResetPassword]. *)
Definition reset_profile_password : Cmd ProfileToolResult :=
  m <- rmap_err ProfileError (read_or_create false false) ;;
  new_password <- rmap_err ProfileError (reset_password m.1) ;;
  println "Your CLI Profile password has been updated successfully." ;;
  node_identity <- on_home id (from_encrypted_file m.2) ;;
  on_home id (to_encrypted_file node_identity new_password) ;;
  println "Your Node Identity password has been updated successfully." ;;
  rret Profile_Blank.

(** *** Migration *)
Inductive ProfileErrorType : Type := Error_ChainId | Error_Undefined.

Definition profile_error_type (value : string) : outcome AnyhowError ProfileErrorType :=
  if bool_decide (value = "chain_id") then Ok Error_ChainId
  else Err (anyhow ("capture key: " +:+ value)).

Definition parse_error (msg : string) : outcome AnyhowError ProfileErrorType :=
  match capture_missing_field msg with
  | Some field => profile_error_type field
  | None => Ok Error_Undefined
  end.

Definition migrate : Cmd ProfileToolResult :=
  res <- rtry (read_or_create false false) ;;
  match res with
  | inl m =>
      println (if is_weak_password m.2 then WEAK_PASSWORD
               else "All of your Supra CLI profiles already meet the latest security policy requirements."
                    +:+ "No action is required.") ;;
      on_home id (write_cli_profiles (cli_profile_manager m.1)) ;;
      rret (Profile_Manager (cli_profile_manager m.1))
  | inr e =>
      match as_serde_error e with
      | None => rfail (ProfileError e)
      | Some err =>
          println "Your CLI profile format is outdated and needs to be migrated to the latest version." ;;
          password <- on_world id (prompt_password
            "Please enter the current password for your existing CLI profiles: ") ;;
          if serde_is_data err
          then
            kind <- rlift (omap_err Other (parse_error (show_serde err))) ;;
            match kind with
            | Error_ChainId =>
                m <- migrate_to_cli_profile_with_chain_id password ;; rret (Profile_Manager m)
            | Error_Undefined =>
                rfail (ProfileError (profile_aborted
                  "Unable to migrate CLI profile to the new version."
                  "Please contact the Supra team for further assistance."))
            end
          else rfail (ProfileError e)
      end
  end.

(** *** Signatures *)
Definition signing_content (file stdin : option string) : M (Sys World Home) AnyhowError string :=
  match file, stdin with
  | Some _, Some _ | None, None => rfail (anyhow "Either stdin or file path is allowed")
  | Some path, None => on_home id (read_string_from_file path)
  | None, Some content => rret content
  end.

(** The comparison with the expected signature is only printed. *)
Definition sign_command (options : SupraProfileOptions) (file stdin : option string)
    : Cmd ProfileToolResult :=
  p <- protected_profile options false ;;
  content <- rmap_err Other (signing_content file stdin) ;;
  rret (Profile_Signature (sign_content p.1 content)).

(** *** The commands *)
Inductive ProfileTool : Type :=
| New (name : option string) (private_key : option SecretKey) (network : option SupraNetwork)
    (profile_option : option ProfileAttributeOptions) (interactive : bool)
| GenerateValidatorIdentity (socket_addr dns : option string)
| List (reveal_secrets : bool)
| Activate (name : string)
| Remove (names : list string)
| Modify (name : string) (network : option SupraNetwork)
    (profile_option : option ProfileAttributeOptions) (interactive : bool)
| Sign (options : SupraProfileOptions) (file stdin : option string)
| Migrate
| ResetPassword.

Definition execute_profile (self : ProfileTool) : Cmd ProfileToolResult :=
  match self with
  | New name private_key network profile_option interactive =>
      new_profile name private_key network profile_option interactive
  | GenerateValidatorIdentity socket_addr dns => generate_validator_identity socket_addr dns
  | List reveal_secrets => list_profiles reveal_secrets
  | Activate name => activate_profile name
  | Remove names => remove_profile names
  | Modify name network profile_option interactive =>
      modify_profile name network profile_option interactive
  | Sign options file stdin => sign_command options file stdin
  | Migrate => migrate
  | ResetPassword => reset_profile_password
  end.

(** *** Properties *)

(** The options as the parser of the command line delivers them: a network excludes
    the other attributes but the address, and options that are there are not empty. *)
Definition parsed_options (network : option SupraNetwork)
    (profile_option : option ProfileAttributeOptions) : Prop :=
  match network, profile_option with
  | Some _, Some options =>
      po_rpc_url options = None ∧ po_faucet_url options = None ∧ po_chain_id options = None ∧
      is_Some (po_account_address options)
  | _, _ => True
  end.

(** The attributes of a profile follow the command line: with options as the
    parser delivers them the code marked unreachable is not reached, a given
    address is kept, and a given network determines both addresses and the chain. *)
Theorem make_follows_options network profile_option :
  parsed_options network profile_option →
  (∀ n, network_rpc_url n ≠ Panic ∧ network_faucet_url n ≠ Panic ∧ network_chain_id n ≠ Panic) →
  make network profile_option ≠ Panic ∧
  ∀ options, make network profile_option = Ok options →
    po_account_address options = (profile_option ≫= po_account_address) ∧
    match network with
    | Some n => ∃ rpc faucet chain,
        network_rpc_url n = Ok rpc ∧ network_faucet_url n = Ok faucet ∧
        network_chain_id n = Ok chain ∧
        po_rpc_url options = Some rpc ∧ po_faucet_url options = Some faucet ∧
        po_chain_id options = Some chain
    | None => po_rpc_url options = (profile_option ≫= po_rpc_url) ∧
              po_faucet_url options = (profile_option ≫= po_faucet_url) ∧
              po_chain_id options = (profile_option ≫= po_chain_id)
    end.
Proof.
  intros Hparsed Hnet. unfold make. destruct network as [n|], profile_option as [o|]; simpl in *.
  - destruct Hparsed as (_ & _ & _ & [a Ha]). rewrite Ha. destruct (Hnet n) as (H1 & H2 & H3).
    destruct (network_rpc_url n), (network_faucet_url n), (network_chain_id n); simpl;
      (split; [done|]); try done. intros ? [= <-]. simpl. split; [done|]. by eexists _, _, _.
  - destruct (Hnet n) as (H1 & H2 & H3).
    destruct (network_rpc_url n), (network_faucet_url n), (network_chain_id n); simpl;
      (split; [done|]); try done. intros ? [= <-]. simpl. split; [done|]. by eexists _, _, _.
  - split; [done|]. by intros ? [= <-].
  - split; [done|]. by intros ? [= <-].
Qed.

(** A reset that succeeds leaves the identity readable with the new password. *)
Theorem reset_reencrypts `{!IdentityFiles} s s' res :
  reset_profile_password s = (s', Ok res) →
  ∃ new_password id s1 m old s2,
    read_or_create false false s = (s1, Ok (m, old)) ∧
    reset_password m s1 = (s2, Ok new_password) ∧
    from_encrypted_file old (home s2) = (home s2, Ok id) ∧
    from_encrypted_file new_password (home s') = (home s', Ok id).
Proof.
  unfold reset_profile_password, println, rmodify, rthen, rmap_err, on_home, rzoom.
  destruct (read_or_create false false s) as [s1 [[m old]|e|]] eqn:Hread; simpl; [|done..].
  destruct (reset_password m s1) as [s2 [new|e|]] eqn:Hreset; simpl; [|done..].
  pose proof (identity_read_keeps old (home s2)) as Hk.
  destruct (from_encrypted_file old (home s2)) as [h [id|e|]] eqn:Hfrom; simpl in *; subst h; [|done..].
  destruct (to_encrypted_file id new (home s2)) as [h [[]|e|]] eqn:Hto; simpl; [|done..].
  intros [= <- <-]. eexists _, _, _, _, _, _. split_and!; [done..|]. simpl.
  by eapply identity_write_read.
Qed.
End profile_tool.
End ProfileTool.
