(* ===== verification/Dkg.v ===== *)
(** * Distributed key generation

    [src/supra/src/nidkg/]: the files of the non-interactive key generation and the
    commands that make a node's keys, its dealing, its share of the threshold key
    and the key of the committee.

    The cryptography, hexadecimal and JSON encodings, the encryption with a
    password, the terminal and the access to files are parameters.  A [BTreeMap]
    is the list of its entries in the order of the keys. *)

From S2P Require Import Prelude CliTypes.
From stdpp Require Import base tactics option list gmap strings pretty.
From Stdlib Require Import ZArith Lia.
Local Open Scope Z_scope.

(** ** Contents of the files: hexadecimal strings *)
Record DkgCGPrivateKey := { cg_private_key : string }.
Record DkgCGPublicKey := { cg_public_key : string }.
Record DkgBlsPrivKey := { bls_private_key : string }.
Record DkgBlsPubKeyShareAndProofBytes := {
  share_pub_key : string;
  share_proof : string;
  share_public_poly : string;
}.
Record DkgBlsPubKeyTranscript := {
  bls_pub_key_shares : list (Z * DkgBlsPubKeyShareAndProofBytes);
}.
Record DkgCommitteeBLSPublicKeyBytes := {
  committee_pub_key : string;
  committee_public_poly : string;
}.
Record DkgConfig := {
  threshold : Z;
  nodes : Z;
  cg_public_keys : list (Z * DkgCGPublicKey);
}.
Record DkgDealing := { dealing : string }.
Record DkgTranscript := { dealings : list (Z * DkgDealing) }.

#[export] Instance share_bytes_dec : EqDecision DkgBlsPubKeyShareAndProofBytes.
Proof. solve_decision. Defined.

(** The files below [SUPRA_HOME]; the private keys are stored encrypted. *)
Inductive DkgFile (Bytes : Type) : Type → Type :=
| F_CGPrivateKey : DkgFile Bytes Bytes
| F_CGPublicKey : DkgFile Bytes DkgCGPublicKey
| F_BlsPrivateKey : DkgFile Bytes Bytes
| F_BlsPublicKey : DkgFile Bytes DkgBlsPubKeyShareAndProofBytes
| F_BlsTranscript : DkgFile Bytes DkgBlsPubKeyTranscript
| F_CommitteeKey : DkgFile Bytes DkgCommitteeBLSPublicKeyBytes
| F_Config : DkgFile Bytes DkgConfig
| F_Dealing : DkgFile Bytes DkgDealing
| F_Transcript : DkgFile Bytes DkgTranscript.
Arguments F_CGPrivateKey {Bytes}.
Arguments F_CGPublicKey {Bytes}.
Arguments F_BlsPrivateKey {Bytes}.
Arguments F_BlsPublicKey {Bytes}.
Arguments F_BlsTranscript {Bytes}.
Arguments F_CommitteeKey {Bytes}.
Arguments F_Config {Bytes}.
Arguments F_Dealing {Bytes}.
Arguments F_Transcript {Bytes}.

Definition home_filename {Bytes T} (f : DkgFile Bytes T) : string :=
  match f with
  | F_CGPrivateKey => "dkg_private_key.pem"
  | F_CGPublicKey => "dkg_public_key.json"
  | F_BlsPrivateKey => "dkg_bls_private_key.pem"
  | F_BlsPublicKey => "dkg_bls_public_key.json"
  | F_BlsTranscript => "dkg_bls_pubkey_transcript.json"
  | F_CommitteeKey => "dkg_committee_bls_public_key.json"
  | F_Config => "dkg_config.json"
  | F_Dealing => "dkg_dealing.json"
  | F_Transcript => "dkg_transcript.json"
  end.

(** What the tool uses of the other crates. *)
Class DkgEnv `{CliEnv} : Type := {
  (** The terminal and the source of randomness, and the files. *)
  Terminal : Type;
  DkgHome : Type;
  DBytes : Type;
  default_path : string → DkgHome → outcome CliError string;
  path_exists : string → DkgHome → bool;
  (** The parent directory, and how it is printed. *)
  parent : string → option string;
  debug_parent : option string → string;
  create_dir_all : string → M DkgHome IoError unit;
  read_from_file : ∀ {T}, DkgFile DBytes T → M DkgHome FileIoErr T;
  write_to_file : ∀ {T}, DkgFile DBytes T → T → M DkgHome FileIoErr unit;
  (** [File::create] with [write_all], and [File::open] with [read_to_end]. *)
  create_and_write : DkgFile DBytes DBytes → DBytes → M DkgHome IoError unit;
  open_and_read : DkgFile DBytes DBytes → M DkgHome IoError DBytes;
  new_password_with_policy : M Terminal EncryptionError string;
  read_password : M Terminal IoError string;
  encrypt : DBytes → string → outcome EncryptionError DBytes;
  decrypt : DBytes → string → outcome EncryptionError DBytes;
  (** JSON of a structure with a single key. *)
  key_to_json : string → outcome SerdeError DBytes;
  key_of_json : DBytes → outcome SerdeError string;
  hex_encode : DBytes → string;
  hex_decode : string → outcome HexError DBytes;
  (** Keys, dealings and their encodings. *)
  CGSecretKey : Type;
  CGPublicKey : Type;
  BlsPrivateKey : Type;
  DLEqProof : Type;
  Dealing : Type;
  PointG1_12381 : Type;
  PointG2_12381 : Type;
  PointG1_254 : Type;
  PointG2_254 : Type;
  Poly12381 : Type;
  Poly254 : Type;
  #[global] Poly12381_dec :: EqDecision Poly12381;
  #[global] Poly254_dec :: EqDecision Poly254;
  cg_secret_to_vec : CGSecretKey → DBytes;
  cg_secret_of : DBytes → outcome DkgErr CGSecretKey;
  cg_public_to_vec : CGPublicKey → DBytes;
  cg_public_of : DBytes → outcome DkgErr CGPublicKey;
  bls_private_to_vec : BlsPrivateKey → DBytes;
  bls_private_of : DBytes → outcome string BlsPrivateKey;
  proof_to_vec : DLEqProof → DBytes;
  proof_of : DBytes → outcome DkgErr DLEqProof;
  dealing_to_vec : Dealing → DBytes;
  dealing_of : DBytes → outcome DkgErr Dealing;
  (** A BLS public key has a point of each group of both curves, a public
      polynomial one for each curve; a proof has a part for each curve. *)
  bls_public_to_vec : (PointG1_12381 * PointG2_12381) * (PointG1_254 * PointG2_254) → DBytes;
  bls_public_of : DBytes → outcome DkgErr ((PointG1_12381 * PointG2_12381) * (PointG1_254 * PointG2_254));
  poly_to_bytes : Poly12381 * Poly254 → DBytes;
  poly_of : DBytes → outcome DkgErr (Poly12381 * Poly254);
  generate_cg_secret : Terminal → Terminal * CGSecretKey;
  cg_public_of_secret : CGSecretKey → outcome DkgErr CGPublicKey;
  (** [NiCGDkg]. *)
  ni_generate_dealing : Z → Z → list (Z * CGPublicKey) → option BlsPrivateKey → Terminal → Terminal * Dealing;
  verify_dealing : Dealing → list (Z * CGPublicKey) → Z → Z → bool;
  verify_resharing_dealing : Dealing → list (Z * CGPublicKey) → Z → Z → Z → Poly12381 * Poly254 → bool;
  aggregate_dealings_for_self_group : list Dealing → CGSecretKey → Z →
    outcome string (BlsPrivateKey * ((PointG1_12381 * PointG2_12381) * (PointG1_254 * PointG2_254))
                    * DLEqProof * (Poly12381 * Poly254));
  aggregate_resharing_dealings_for_self_group : list (Z * Dealing) → CGSecretKey → Z → Z → Poly12381 * Poly254 →
    outcome string (BlsPrivateKey * ((PointG1_12381 * PointG2_12381) * (PointG1_254 * PointG2_254))
                    * DLEqProof * (Poly12381 * Poly254));
  aggregation_error : string → DkgErr;
  verify_public_keys_and_proof12381 : Z → PointG1_12381 → PointG2_12381 → DLEqProof → Poly12381 → bool;
  verify_public_keys_and_proof254 : Z → PointG1_254 → PointG2_254 → DLEqProof → Poly254 → bool;
  (** The combinations fail with a message. *)
  combine_public_keys_ecp_12381 : list (option PointG1_12381) → Z → outcome string PointG1_12381;
  combine_public_keys_ecp2_12381 : list (option PointG2_12381) → Z → outcome string PointG2_12381;
  combine_public_keys_ecp_254 : list (option PointG1_254) → Z → outcome string PointG1_254;
  combine_public_keys_ecp2_254 : list (option PointG2_254) → Z → outcome string PointG2_254;
}.

Section dkg_data.
Context `{DkgEnv}.

Record BlsPublicKey := {
  bls12381_g1 : PointG1_12381;
  bls12381_g2 : PointG2_12381;
  bn254_g1 : PointG1_254;
  bn254_g2 : PointG2_254;
}.
Record PublicPolynomial := { polynomial_bls12381 : Poly12381; polynomial_bn254 : Poly254 }.

Record DkgBlsPubKeyShareAndProof := {
  s_bls_pub_key : BlsPublicKey;
  s_proof : DLEqProof;
  s_public_poly : PublicPolynomial;
}.
Record DkgCommitteeBLSPublicKey := {
  c_bls_pub_key : BlsPublicKey;
  c_public_poly : PublicPolynomial;
}.

Inductive DkgToolResult : Type :=
| CGEncKeyPairResult (msg : string)
| DealingResult (msg : string)
| NodeKeyGenResult (msg : string)
| CommitteeKeyGenResult (msg : string)
| OutputThresholdBlsPubKey.

Inductive DKGTool : Type :=
| Tool_GenerateCGKeyPair
| Tool_GenerateDealing
| Tool_GenerateReshareDealing
| Tool_ComputeBLSKey
| Tool_ComputeBLSKeyReshared
| Tool_ComputeCommitteeBLSKey
| Tool_OutputBLSPubKey.

Definition bls_public_bytes (k : BlsPublicKey) : DBytes :=
  bls_public_to_vec ((bls12381_g1 k, bls12381_g2 k), (bn254_g1 k, bn254_g2 k)).
Definition bls_public_of_bytes (b : DBytes) : outcome DkgErr BlsPublicKey :=
  omap_ok (λ '((a, b), (c, d)), {| bls12381_g1 := a; bls12381_g2 := b; bn254_g1 := c; bn254_g2 := d |})
    (bls_public_of b).
Definition poly_bytes (p : PublicPolynomial) : DBytes :=
  poly_to_bytes (polynomial_bls12381 p, polynomial_bn254 p).
Definition poly_of_bytes (b : DBytes) : outcome DkgErr PublicPolynomial :=
  omap_ok (λ '(p, q), {| polynomial_bls12381 := p; polynomial_bn254 := q |}) (poly_of b).
End dkg_data.

(** ** Encodings *)
Module Encodings.
Section encodings.
Context `{DkgEnv}.
Local Open Scope rust_scope.

Definition unhex {A E} (conv : E → CliError) (decode : DBytes → outcome E A) (s : string)
    : outcome CliError A :=
  let? bytes := omap_err HexDecodeError (hex_decode s) in
  omap_err conv (decode bytes).

Definition of_cg_secret (k : CGSecretKey) : DkgCGPrivateKey :=
  {| cg_private_key := hex_encode (cg_secret_to_vec k) |}.
Definition to_cg_secret (k : DkgCGPrivateKey) : outcome CliError CGSecretKey :=
  unhex DkgError cg_secret_of (cg_private_key k).

Definition of_cg_public (k : CGPublicKey) : DkgCGPublicKey :=
  {| cg_public_key := hex_encode (cg_public_to_vec k) |}.
Definition to_cg_public (k : DkgCGPublicKey) : outcome CliError CGPublicKey :=
  unhex DkgError cg_public_of (cg_public_key k).

Definition of_bls_private (k : BlsPrivateKey) : DkgBlsPrivKey :=
  {| bls_private_key := hex_encode (bls_private_to_vec k) |}.
Definition to_bls_private (k : DkgBlsPrivKey) : outcome CliError BlsPrivateKey :=
  unhex GeneralError bls_private_of (bls_private_key k).

Definition of_share (k : DkgBlsPubKeyShareAndProof) : DkgBlsPubKeyShareAndProofBytes :=
  {| share_pub_key := hex_encode (bls_public_bytes (s_bls_pub_key k));
     share_proof := hex_encode (proof_to_vec (s_proof k));
     share_public_poly := hex_encode (poly_bytes (s_public_poly k)) |}.
Definition to_share (k : DkgBlsPubKeyShareAndProofBytes) : outcome CliError DkgBlsPubKeyShareAndProof :=
  let? bls_key := unhex DkgError bls_public_of_bytes (share_pub_key k) in
  let? dleq_proof := unhex DkgError proof_of (share_proof k) in
  let? pub_coeff := unhex DkgError poly_of_bytes (share_public_poly k) in
  Ok {| s_bls_pub_key := bls_key; s_proof := dleq_proof; s_public_poly := pub_coeff |}.

Definition of_committee_key (k : DkgCommitteeBLSPublicKey) : DkgCommitteeBLSPublicKeyBytes :=
  {| committee_pub_key := hex_encode (bls_public_bytes (c_bls_pub_key k));
     committee_public_poly := hex_encode (poly_bytes (c_public_poly k)) |}.
Definition to_committee_key (k : DkgCommitteeBLSPublicKeyBytes)
    : outcome CliError DkgCommitteeBLSPublicKey :=
  let? bls_key := unhex DkgError bls_public_of_bytes (committee_pub_key k) in
  let? pub_coeff := unhex DkgError poly_of_bytes (committee_public_poly k) in
  Ok {| c_bls_pub_key := bls_key; c_public_poly := pub_coeff |}.

Definition of_dealing (d : Dealing) : DkgDealing := {| dealing := hex_encode (dealing_to_vec d) |}.
Definition to_dealing (d : DkgDealing) : outcome CliError Dealing :=
  unhex DkgError dealing_of (dealing d).

(** *** Encryption of the private keys *)
Definition encrypt_key (key password : string) : outcome CliError DBytes :=
  let? serialized := omap_err SerdeJsonError (key_to_json key) in
  match encrypt serialized password with
  | Ok encrypted => Ok encrypted
  | Err _ => Err (GeneralError "Encryption failed")
  | Panic => Panic
  end.

Definition decrypt_key (data : DBytes) (password : string) : outcome CliError string :=
  match decrypt data password with
  | Ok decrypted_data => omap_err SerdeJsonError (key_of_json decrypted_data)
  | Err _ => Err (GeneralError "Decryption failed. Check the password again")
  | Panic => Panic
  end.

Definition encrypt_cg (self : DkgCGPrivateKey) : string → outcome CliError DBytes :=
  encrypt_key (cg_private_key self).
Definition decrypt_cg (data : DBytes) (password : string) : outcome CliError DkgCGPrivateKey :=
  omap_ok Build_DkgCGPrivateKey (decrypt_key data password).
Definition encrypt_bls (self : DkgBlsPrivKey) : string → outcome CliError DBytes :=
  encrypt_key (bls_private_key self).
Definition decrypt_bls (data : DBytes) (password : string) : outcome CliError DkgBlsPrivKey :=
  omap_ok Build_DkgBlsPrivKey (decrypt_key data password).
End encodings.
End Encodings.

(** ** Files *)
Module Files.
Import Encodings.
Section files.
Context `{DkgEnv}.
Local Open Scope rust_scope.
Notation Cmd := (M (Sys Terminal DkgHome) CliError).

Definition path_of {T} (f : DkgFile DBytes T) : M DkgHome CliError string :=
  λ h, (h, default_path (home_filename f) h).

Definition missing {T} (path : string) : M DkgHome CliError T :=
  rfail (Aborted ("cannot find path " +:+ debug_parent (parent path))
                 "create the directory at required path").

(** [update] and [read] of the public files. *)
Definition update {T} (f : DkgFile DBytes T) (x : T) : M DkgHome CliError unit :=
  path_of f ;; rmap_err FileIoError (write_to_file f x).

Definition read {T} (f : DkgFile DBytes T) : M DkgHome CliError T :=
  path <- path_of f ;;
  there <- rgets (path_exists path) ;;
  if there then rmap_err FileIoError (read_from_file f) else missing path.

(** The transcript is created empty when it is missing. *)
Definition read_transcript : M DkgHome CliError DkgTranscript :=
  path <- path_of F_Transcript ;;
  there <- rgets (path_exists path) ;;
  if there then rmap_err FileIoError (read_from_file F_Transcript)
  else match parent path with
       | Some config_dir =>
           rmap_err StdIoError (create_dir_all config_dir) ;;
           update F_Transcript {| dealings := [] |} ;;
           rret {| dealings := [] |}
       | None => missing path
       end.

(** [update] and [read] of the encrypted files. *)
Definition update_encrypted (f : DkgFile DBytes DBytes) (encrypted : outcome CliError DBytes)
    : M DkgHome CliError unit :=
  result <- rlift encrypted ;;
  path_of f ;;
  rmap_err StdIoError (create_and_write f result).

Definition read_encrypted {A} (f : DkgFile DBytes DBytes)
    (decrypt_file : DBytes → string → outcome CliError A) : Cmd A :=
  path <- on_home id (path_of f) ;;
  there <- on_home id (rgets (path_exists path)) ;;
  if there
  then
    password <- on_world StdIoError read_password ;;
    encrypted_data <- on_home StdIoError (open_and_read f) ;;
    rlift (decrypt_file encrypted_data password)
  else on_home id (missing path).

Definition update_cg_private (self : DkgCGPrivateKey) (password : string) : M DkgHome CliError unit :=
  update_encrypted F_CGPrivateKey (encrypt_cg self password).
Definition read_cg_private : Cmd DkgCGPrivateKey := read_encrypted F_CGPrivateKey decrypt_cg.
Definition update_bls_private (self : DkgBlsPrivKey) (password : string) : M DkgHome CliError unit :=
  update_encrypted F_BlsPrivateKey (encrypt_bls self password).
Definition read_bls_private : Cmd DkgBlsPrivKey := read_encrypted F_BlsPrivateKey decrypt_bls.

Definition read_cg_public : M DkgHome CliError DkgCGPublicKey := read F_CGPublicKey.
Definition read_share : M DkgHome CliError DkgBlsPubKeyShareAndProofBytes := read F_BlsPublicKey.
Definition read_share_transcript : M DkgHome CliError DkgBlsPubKeyTranscript := read F_BlsTranscript.
Definition read_committee_key : M DkgHome CliError DkgCommitteeBLSPublicKeyBytes :=
  read F_CommitteeKey.
Definition read_config : M DkgHome CliError DkgConfig := read F_Config.
Definition read_dealing : M DkgHome CliError DkgDealing := read F_Dealing.

(** *** The configuration *)
Definition node_index_for_pk (self : DkgConfig) (public_key : DkgCGPublicKey) : outcome CliError Z :=
  match List.find (λ '(_, pk), bool_decide (cg_public_key public_key = cg_public_key pk))
          (cg_public_keys self) with
  | Some (node_index, _) => Ok node_index
  | None => Err (GeneralError "Node's CG public key does not correspond to any key in Dkg Config")
  end.

Definition get_pks (self : DkgConfig) : outcome CliError (list (Z * CGPublicKey)) :=
  otraverse (λ '(node_index, key_ser),
    let? k := to_cg_public key_ser in Ok (node_index, k)) (cg_public_keys self).
End files.
End Files.

(** ** Commands *)
Module Tool.
Import Encodings Files.
Section tool.
Context `{DkgEnv}.
Local Open Scope rust_scope.
Notation Cmd := (M (Sys Terminal DkgHome) CliError).

Definition draw {A} (f : Terminal → Terminal * A) : Cmd A :=
  λ s, let '(t, a) := f (world s) in ({| world := t; home := home s |}, Ok a).

(** [if let Ok(password) = new_password_with_policy(..)]. *)
Definition with_new_password (k : string → Cmd unit) : Cmd unit :=
  res <- on_world id (rtry new_password_with_policy) ;;
  match res with
  | inl password => k password
  | inr _ => rfail (GeneralError "Unable to read password")
  end.

Definition generate_cg_encryption_key_pair : Cmd unit :=
  cg_priv_key <- draw generate_cg_secret ;;
  with_new_password (λ password,
    on_home id (update_cg_private (of_cg_secret cg_priv_key) password) ;;
    cg_pub_key <- rlift (omap_err DkgError (cg_public_of_secret cg_priv_key)) ;;
    on_home id (update F_CGPublicKey (of_cg_public cg_pub_key))).

Definition generate_dealing : Cmd unit :=
  dkg_config <- on_home id read_config ;;
  cg_pks <- rlift (get_pks dkg_config) ;;
  d <- draw (ni_generate_dealing (threshold dkg_config) (nodes dkg_config) cg_pks None) ;;
  on_home id (update F_Dealing (of_dealing d)).

Definition generate_resharing_dealing : Cmd unit :=
  dkg_config <- on_home id read_config ;;
  cg_pks <- rlift (get_pks dkg_config) ;;
  bls_private_key_bytes <- read_bls_private ;;
  bls_private_key <- rlift (to_bls_private bls_private_key_bytes) ;;
  d <- draw (ni_generate_dealing (threshold dkg_config) (nodes dkg_config) cg_pks
               (Some bls_private_key)) ;;
  on_home id (update F_Dealing (of_dealing d)).

(** The loop over the transcript, which stops at the threshold. *)
Fixpoint collect_dealings (valid : Z → Dealing → bool) (threshold : Z)
    (acc : list (Z * Dealing)) (l : list (Z * DkgDealing)) : outcome CliError (list (Z * Dealing)) :=
  match l with
  | [] => Ok acc
  | (node_index, dealing_ser) :: l' =>
      let? node_dealing := to_dealing dealing_ser in
      let acc' := if valid node_index node_dealing then acc ++ [(node_index, node_dealing)] else acc in
      if Z.of_nat (length acc') =? threshold then Ok acc'
      else collect_dealings valid threshold acc' l'
  end.

Definition select_dealings (valid : Z → Dealing → bool) (threshold : Z)
    (l : list (Z * DkgDealing)) : outcome CliError (list (Z * Dealing)) :=
  let? ds := collect_dealings valid threshold [] l in
  if Z.of_nat (length ds) <? threshold
  then Err (DKGTranscriptError threshold (Z.of_nat (length ds)))
  else Ok ds.

(** The end of both commands that make a share. *)
Definition store_bls_key (bls_key : BlsPrivateKey) (share : DkgBlsPubKeyShareAndProof) : Cmd unit :=
  with_new_password (λ password,
    on_home id (update_bls_private (of_bls_private bls_key) password) ;;
    on_home id (update F_BlsPublicKey (of_share share))).

Definition aggregated
    (r : outcome string (BlsPrivateKey * ((PointG1_12381 * PointG2_12381) * (PointG1_254 * PointG2_254))
                         * DLEqProof * (Poly12381 * Poly254)))
    : outcome CliError (BlsPrivateKey * DkgBlsPubKeyShareAndProof) :=
  let? ' (k, ((a, b), (c, d)), proof, (p, q)) :=
    omap_err (λ e, DkgError (aggregation_error e)) r in
  Ok (k, {| s_bls_pub_key := {| bls12381_g1 := a; bls12381_g2 := b; bn254_g1 := c; bn254_g2 := d |};
            s_proof := proof;
            s_public_poly := {| polynomial_bls12381 := p; polynomial_bn254 := q |} |}).

Definition generate_key : Cmd unit :=
  dkg_config <- on_home id read_config ;;
  cg_pks <- rlift (get_pks dkg_config) ;;
  transcript <- on_home id read_transcript ;;
  cg_private_key_ser <- read_cg_private ;;
  cg_private_key <- rlift (to_cg_secret cg_private_key_ser) ;;
  cg_pub_key <- on_home id read_cg_public ;;
  node_index <- rlift (node_index_for_pk dkg_config cg_pub_key) ;;
  ds <- rlift (select_dealings
    (λ _ d, verify_dealing d cg_pks (nodes dkg_config) (threshold dkg_config))
    (threshold dkg_config) (dealings transcript)) ;;
  key <- rlift (aggregated (aggregate_dealings_for_self_group (snd <$> ds) cg_private_key node_index)) ;;
  store_bls_key key.1 key.2.

Definition generate_reshare_key : Cmd unit :=
  cg_private_key_ser <- read_cg_private ;;
  cg_private_key <- rlift (to_cg_secret cg_private_key_ser) ;;
  transcript <- on_home id read_transcript ;;
  dkg_config <- on_home id read_config ;;
  cg_pks <- rlift (get_pks dkg_config) ;;
  committee_ser <- on_home id read_committee_key ;;
  committee <- rlift (to_committee_key committee_ser) ;;
  let poly := (polynomial_bls12381 (c_public_poly committee), polynomial_bn254 (c_public_poly committee)) in
  cg_pub_key <- on_home id read_cg_public ;;
  node_index <- rlift (node_index_for_pk dkg_config cg_pub_key) ;;
  ds <- rlift (select_dealings
    (λ i d, verify_resharing_dealing d cg_pks (nodes dkg_config) (threshold dkg_config) i poly)
    (threshold dkg_config) (dealings transcript)) ;;
  key <- rlift (aggregated (aggregate_resharing_dealings_for_self_group ds cg_private_key node_index
                              (threshold dkg_config) poly)) ;;
  store_bls_key key.1 key.2.

(** *** The key of the committee *)
Definition lookup_share (l : list (Z * DkgBlsPubKeyShareAndProofBytes)) (i : Z)
    : option DkgBlsPubKeyShareAndProofBytes :=
  snd <$> List.find (λ '(j, _), j =? i) l.

Definition public_key_is_valid (i : Z) (k : DkgBlsPubKeyShareAndProof) : bool :=
  verify_public_keys_and_proof12381 i (bls12381_g1 (s_bls_pub_key k)) (bls12381_g2 (s_bls_pub_key k))
    (s_proof k) (polynomial_bls12381 (s_public_poly k))
  && verify_public_keys_and_proof254 i (bn254_g1 (s_bls_pub_key k)) (bn254_g2 (s_bls_pub_key k))
    (s_proof k) (polynomial_bn254 (s_public_poly k)).

(** One turn of the loop over the nodes. *)
Definition share_at (l : list (Z * DkgBlsPubKeyShareAndProofBytes)) (i : Z)
    : outcome CliError (option DkgBlsPubKeyShareAndProof) :=
  match lookup_share l i with
  | Some bytes =>
      let? k := to_share bytes in
      Ok (if public_key_is_valid i k then Some k else None)
  | None => Ok None
  end.

Definition column {A} (f : BlsPublicKey → A) (shares : list (option DkgBlsPubKeyShareAndProof))
    : list (option A) := map (option_map (λ s, f (s_bls_pub_key s))) shares.

Definition valid_shares (shares : list (option DkgBlsPubKeyShareAndProof))
    : list DkgBlsPubKeyShareAndProof := omap id shares.

Definition combine_shares (dkg_config : DkgConfig) (transcript : DkgBlsPubKeyTranscript)
    (own : DkgBlsPubKeyShareAndProofBytes) : outcome CliError DkgCommitteeBLSPublicKey :=
  if negb (existsb (λ '(_, key), bool_decide (key = own)) (bls_pub_key_shares transcript))
  then Err (GeneralError
    "Invalid Bls Public Key Transcript file. Make sure you are not using an outdated file.")
  else
    let? shares := otraverse (share_at (bls_pub_key_shares transcript)) (seqZ 0 (nodes dkg_config)) in
    let t := threshold dkg_config in
    let count := Z.of_nat (length (valid_shares shares)) in
    let polys := s_public_poly <$> valid_shares shares in
    if count <? t
    then Err (GeneralError
      ("Not enough valid BLS public key shares present to generate committee key. Expected shares: "
       +:+ pretty t +:+ ", Found: " +:+ pretty count))
    else
      match combine_public_keys_ecp_12381 (column bls12381_g1 shares) t,
            combine_public_keys_ecp2_12381 (column bls12381_g2 shares) t,
            combine_public_keys_ecp_254 (column bn254_g1 shares) t,
            combine_public_keys_ecp2_254 (column bn254_g2 shares) t with
      | Panic, _, _, _ | _, Panic, _, _ | _, _, Panic, _ | _, _, _, Panic => Panic
      | Ok a, Ok b, Ok c, Ok d =>
          match polys with
          | [] => Panic
          | p :: _ =>
              if forallb (λ q, bool_decide (polynomial_bls12381 q = polynomial_bls12381 p)) polys
                 && forallb (λ q, bool_decide (polynomial_bn254 q = polynomial_bn254 p)) polys
              then Ok {| c_bls_pub_key := {| bls12381_g1 := a; bls12381_g2 := b;
                                             bn254_g1 := c; bn254_g2 := d |};
                         c_public_poly := p |}
              else Err (GeneralError "Invalid public polynomials.")
          end
      | Err message, _, _, _ => Err (GeneralError message)
      | Ok _, _, _, _ => Panic
      end.

Definition generate_committee_key : Cmd unit :=
  dkg_config <- on_home id read_config ;;
  transcript <- on_home id read_share_transcript ;;
  own <- on_home id read_share ;;
  key <- rlift (combine_shares dkg_config transcript own) ;;
  on_home id (update F_CommitteeKey (of_committee_key key)).

(** Prints the key that it returns here. *)
Definition print_bls_pub_key : Cmd DkgCommitteeBLSPublicKey :=
  committee_key_ser <- on_home id read_committee_key ;;
  rlift (to_committee_key committee_key_ser).

Definition execute (self : DKGTool) : Cmd DkgToolResult :=
  match self with
  | Tool_GenerateCGKeyPair =>
      generate_cg_encryption_key_pair ;; rret (CGEncKeyPairResult "CG encryption keypair generated")
  | Tool_GenerateDealing => generate_dealing ;; rret (DealingResult "Dealing generated")
  | Tool_GenerateReshareDealing =>
      generate_resharing_dealing ;; rret (DealingResult "Dealing generated")
  | Tool_ComputeBLSKey => generate_key ;; rret (NodeKeyGenResult "BLS Keypair generated")
  | Tool_ComputeCommitteeBLSKey =>
      generate_committee_key ;; rret (CommitteeKeyGenResult "Committee BLS Public Key generated")
  | Tool_ComputeBLSKeyReshared => generate_reshare_key ;; rret (NodeKeyGenResult "Key generated")
  | Tool_OutputBLSPubKey => print_bls_pub_key ;; rret OutputThresholdBlsPubKey
  end.

(** *** Properties *)

Lemma collect_dealings_take valid threshold l ds acc :
  (Z.of_nat (length acc) < threshold) →
  otraverse (λ '(i, d), omap_ok (pair i) (to_dealing d)) l = Ok ds →
  collect_dealings valid threshold acc l
  = Ok (take (Z.to_nat threshold) (acc ++ List.filter (λ '(i, d), valid i d) ds)).
Proof.
  revert ds acc. induction l as [|[i d] l IH]; intros ds acc Hlt; simpl.
  { intros [= <-]. simpl. rewrite app_nil_r, take_ge by lia. done. }
  destruct (to_dealing d) as [x|e|]; simpl; [|done..].
  destruct (otraverse _ l) as [ds'|e|] eqn:Hl; simpl; [|done..]. intros [= <-]. simpl.
  destruct (valid i x).
  - rewrite length_app. simpl.
    destruct (Z.eqb_spec (Z.of_nat (length acc + 1)) threshold) as [He|Hne].
    + f_equal. symmetry. rewrite (cons_middle (i, x) acc (List.filter _ _)), app_assoc.
      apply take_app_length'. rewrite length_app. simpl. lia.
    + rewrite (IH ds'); [|rewrite length_app; simpl; lia|done]. by rewrite <-app_assoc.
  - destruct (Z.eqb_spec (Z.of_nat (length acc)) threshold); [lia|]. by apply IH.
Qed.

(** A share is made from the first valid dealings: if every dealing of the
    transcript can be decoded and the threshold is positive, the dealings that are
    aggregated are the first valid ones in the order of the nodes, exactly as many
    as the threshold; with fewer valid ones the command fails and reports how many
    there are. *)
Theorem first_valid_dealings_selected valid threshold l ds :
  0 < threshold →
  otraverse (λ '(i, d), omap_ok (pair i) (to_dealing d)) l = Ok ds →
  let good := List.filter (λ '(i, d), valid i d) ds in
  select_dealings valid threshold l
  = if Z.of_nat (length good) <? threshold
    then Err (DKGTranscriptError threshold (Z.of_nat (length good)))
    else Ok (take (Z.to_nat threshold) good).
Proof.
  intros Ht Hds good. unfold select_dealings.
  rewrite (collect_dealings_take valid threshold l ds []) by done. simpl. fold good.
  rewrite length_take. destruct (Z.ltb_spec (Z.of_nat (length good)) threshold).
  - replace (Z.to_nat threshold `min` length good)%nat with (length good) by lia.
    by rewrite (proj2 (Z.ltb_lt _ _)).
  - destruct (Z.ltb_spec (Z.of_nat (Z.to_nat threshold `min` length good)) threshold); [lia|done].
Qed.

(** The four combinations of the columns of valid shares. *)
Definition combinations (t : Z) (shares : list (option DkgBlsPubKeyShareAndProof)) :=
  (combine_public_keys_ecp_12381 (column bls12381_g1 shares) t,
   combine_public_keys_ecp2_12381 (column bls12381_g2 shares) t,
   combine_public_keys_ecp_254 (column bn254_g1 shares) t,
   combine_public_keys_ecp2_254 (column bn254_g2 shares) t).

Lemma forallb_decide {A} (P : A → Prop) `{!∀ x, Decision (P x)} l :
  forallb (λ x, bool_decide (P x)) l = true ↔ Forall P l.
Proof.
  rewrite List.forallb_forall, List.Forall_forall. split; intros Hl x Hx.
  - by eapply bool_decide_eq_true_1, Hl.
  - by apply bool_decide_eq_true_2, Hl.
Qed.

Lemma own_share_in own (l : list (Z * DkgBlsPubKeyShareAndProofBytes)) :
  existsb (λ '(_, key), bool_decide (key = own)) l = true ↔ own ∈ (snd <$> l).
Proof.
  rewrite List.existsb_exists, list_elem_of_fmap. split.
  - intros ([i k] & Hin & ->%bool_decide_eq_true). exists (i, own). by rewrite list_elem_of_In.
  - intros ([i k] & -> & Hin%list_elem_of_In). exists (i, k). by rewrite bool_decide_eq_true.
Qed.

Lemma polys_agree p (l : list DkgBlsPubKeyShareAndProof) :
  forallb (λ q, bool_decide (polynomial_bls12381 q = polynomial_bls12381 p)) (s_public_poly <$> l)
  && forallb (λ q, bool_decide (polynomial_bn254 q = polynomial_bn254 p)) (s_public_poly <$> l) = true
  ↔ Forall (λ s, s_public_poly s = p) l.
Proof.
  rewrite andb_true_iff, !forallb_decide, <-Forall_and, Forall_fmap. apply Forall_iff. intros s.
  simpl. destruct (s_public_poly s), p; simpl. split; [by intros [-> ->]|by intros [= -> ->]].
Qed.

(** C34 The key of the committee is made exactly from agreed shares: a key results if
    and only if the node's own share is in the transcript, every share of a node
    of the committee can be decoded, at least as many as the threshold (and at
    least one) are valid, all valid ones carry the polynomial of the result, and
    the four points of the result combine the columns of the valid shares. *)
Theorem committee_key_iff config transcript own key :
  combine_shares config transcript own = Ok key ↔
  own ∈ (snd <$> bls_pub_key_shares transcript) ∧
  ∃ shares,
    otraverse (share_at (bls_pub_key_shares transcript)) (seqZ 0 (nodes config)) = Ok shares ∧
    threshold config ≤ Z.of_nat (length (valid_shares shares)) ∧
    valid_shares shares ≠ [] ∧
    Forall (λ s, s_public_poly s = c_public_poly key) (valid_shares shares) ∧
    combinations (threshold config) shares
      = (Ok (bls12381_g1 (c_bls_pub_key key)), Ok (bls12381_g2 (c_bls_pub_key key)),
         Ok (bn254_g1 (c_bls_pub_key key)), Ok (bn254_g2 (c_bls_pub_key key))).
Proof.
  unfold combine_shares.
  destruct (existsb _ (bls_pub_key_shares transcript)) eqn:Hown; simpl.
  - apply own_share_in in Hown.
    destruct (otraverse _ _) as [shares|e|]; simpl; [|split; [done|by intros (_ & ? & ? & _)]..].
    trans (threshold config ≤ Z.of_nat (length (valid_shares shares)) ∧
           valid_shares shares ≠ [] ∧
           Forall (λ s, s_public_poly s = c_public_poly key) (valid_shares shares) ∧
           combinations (threshold config) shares
             = (Ok (bls12381_g1 (c_bls_pub_key key)), Ok (bls12381_g2 (c_bls_pub_key key)),
                Ok (bn254_g1 (c_bls_pub_key key)), Ok (bn254_g2 (c_bls_pub_key key))));
      [|split; [eauto|by intros (_ & ? & [= <-] & ?)]].
    destruct (Z.ltb_spec (Z.of_nat (length (valid_shares shares))) (threshold config));
      [split; [done|lia]|].
    unfold combinations. destruct (valid_shares shares) as [|s0 l] eqn:Hv.
    { split; [|by intros (_ & ? & _)]. by repeat case_match. }
    pose proof (polys_agree (s_public_poly s0) (s0 :: l)) as Hagree.
    cbn [fmap list_fmap] in Hagree |- *.
    repeat case_match; try (split; [done|by intros (_ & _ & _ & ?)]).
    + split.
      * intros [= <-]. simpl. split_and!; [done|done|by apply Hagree|done].
      * intros (_ & _ & [Hp _]%Forall_cons & [= -> -> -> ->]). rewrite Hp. by destruct key as [[] []].
    + split; [done|]. intros (_ & _ & Hall & _). exfalso.
      assert (s_public_poly s0 = c_public_poly key) as Hp by (by apply Forall_cons in Hall as [? _]).
      rewrite <-Hp in Hall. by apply Hagree in Hall.
  - split; [done|]. intros [Hin _]. apply own_share_in in Hin. by rewrite Hin in Hown.
Qed.

(** When the combination panics: unless a combination itself panics, the command
    panics exactly if the own share is known, enough shares are valid, and either
    the combination of the first column succeeds while another one fails, or all
    succeed without a valid share (with a threshold of zero). *)
Theorem committee_key_panics_iff config transcript own shares r1 r2 r3 r4 :
  own ∈ (snd <$> bls_pub_key_shares transcript) →
  otraverse (share_at (bls_pub_key_shares transcript)) (seqZ 0 (nodes config)) = Ok shares →
  threshold config ≤ Z.of_nat (length (valid_shares shares)) →
  combinations (threshold config) shares = (r1, r2, r3, r4) →
  r1 ≠ Panic → r2 ≠ Panic → r3 ≠ Panic → r4 ≠ Panic →
  combine_shares config transcript own = Panic ↔
  is_ok r1 = true ∧
  (is_ok r2 && is_ok r3 && is_ok r4 = false ∨ valid_shares shares = []).
Proof.
  intros Hown Hsh Hcount Hcomb H1 H2 H3 H4. unfold combine_shares.
  rewrite (proj2 (own_share_in own (bls_pub_key_shares transcript)) Hown). simpl.
  rewrite Hsh. simpl.
  destruct (Z.ltb_spec (Z.of_nat (length (valid_shares shares))) (threshold config)); [lia|].
  injection Hcomb as -> -> -> ->.
  destruct r1 as [a|e|], r2 as [b|e2|], r3 as [c|e3|], r4 as [d|e4|]; try done; simpl;
    try (by split; [intros _; split; [done|by left]|]); try (by split; [done|intros [? _]]).
  destruct (valid_shares shares) as [|s0 l]; simpl; [by split; [intros _; split; [done|right]|]|].
  destruct (_ && _); (split; [done|by intros [_ [?|?]]]).
Qed.

(** *** Keys are read back *)

(** Encodings and the encryption are undone by their inverses; a file that was
    written exists and is read back; writing a public file leaves the encrypted
    private key. *)
Class DkgLaws : Prop := {
  hex_inverse b : hex_decode (hex_encode b) = Ok b;
  cg_secret_inverse k : cg_secret_of (cg_secret_to_vec k) = Ok k;
  cg_public_inverse k : cg_public_of (cg_public_to_vec k) = Ok k;
  json_inverse k j : key_to_json k = Ok j → key_of_json j = Ok k;
  decrypt_inverse b p c : encrypt b p = Ok c → decrypt c p = Ok b;
  path_stable name h h' T (f : DkgFile DBytes T) x :
    write_to_file f x h = (h', Ok tt) → default_path name h' = default_path name h;
  path_stable_raw name h h' f b :
    create_and_write f b h = (h', Ok tt) → default_path name h' = default_path name h;
  written T (f : DkgFile DBytes T) x h h' :
    write_to_file f x h = (h', Ok tt) →
    read_from_file f h' = (h', Ok x) ∧
    ∀ path, default_path (home_filename f) h' = Ok path → path_exists path h' = true;
  written_raw f b h h' :
    create_and_write f b h = (h', Ok tt) →
    open_and_read f h' = (h', Ok b) ∧
    ∀ path, default_path (home_filename f) h' = Ok path → path_exists path h' = true;
  public_keeps_private k b h h' :
    write_to_file F_CGPublicKey k h = (h', Ok tt) →
    open_and_read F_CGPrivateKey h = (h, Ok b) → open_and_read F_CGPrivateKey h' = (h', Ok b);
  public_keeps_paths k path h h' :
    write_to_file F_CGPublicKey k h = (h', Ok tt) → path_exists path h = true → path_exists path h' = true;
}.

Lemma unhex_inverse `{!DkgLaws} {A E} (conv : E → CliError) decode encode (k : A) :
  decode (encode k) = Ok k → unhex conv decode (hex_encode (encode k)) = Ok k.
Proof. intros Hk. unfold unhex. rewrite hex_inverse. simpl. by rewrite Hk. Qed.

Lemma decrypt_encrypt_key `{!DkgLaws} key password c :
  encrypt_key key password = Ok c → decrypt_key c password = Ok key.
Proof.
  unfold encrypt_key, decrypt_key. destruct (key_to_json key) as [j|e|] eqn:Hj; simpl; [|done..].
  destruct (encrypt j password) as [c'|e|] eqn:Hc; [|done..]. intros [= ->].
  rewrite (decrypt_inverse _ _ _ Hc). by rewrite (json_inverse _ _ Hj).
Qed.

Lemma update_inv {T} (f : DkgFile DBytes T) x h h' :
  update f x h = (h', Ok tt) →
  (∃ path, default_path (home_filename f) h = Ok path) ∧ write_to_file f x h = (h', Ok tt).
Proof.
  unfold update, rthen, path_of, rmap_err.
  destruct (default_path (home_filename f) h) as [path|e|] eqn:Hp; [|done..].
  destruct (write_to_file f x h) as [h1 [[]|e|]] eqn:Hw; simpl; [|done..].
  intros [= ->]. split; [by exists path|done].
Qed.

Lemma update_encrypted_inv f encrypted h h' :
  update_encrypted f encrypted h = (h', Ok tt) →
  ∃ b path, encrypted = Ok b ∧ default_path (home_filename f) h = Ok path ∧
    create_and_write f b h = (h', Ok tt).
Proof.
  unfold update_encrypted, rthen, rlift, path_of, rmap_err.
  destruct encrypted as [b|e|]; [|done..].
  destruct (default_path (home_filename f) h) as [path|e|] eqn:Hp; [|done..].
  destruct (create_and_write f b h) as [h1 [[]|e|]] eqn:Hw; simpl; [|done..].
  intros [= ->]. by exists b, path.
Qed.

Lemma read_update `{!DkgLaws} {T} (f : DkgFile DBytes T) x h h' :
  update f x h = (h', Ok tt) → read f h' = (h', Ok x).
Proof.
  intros [[path Hp] Hw]%update_inv. destruct (written _ _ _ _ _ Hw) as [Hr Hex].
  rewrite <-(path_stable _ _ _ _ _ _ Hw) in Hp.
  unfold read, rthen, path_of, rgets, rmap_err. by rewrite Hp, (Hex _ Hp), Hr.
Qed.

Lemma read_encrypted_intro {A} f (dec : DBytes → string → outcome CliError A) path b password x t t' h :
  default_path (home_filename f) h = Ok path → path_exists path h = true →
  read_password t = (t', Ok password) → open_and_read f h = (h, Ok b) →
  dec b password = Ok x →
  read_encrypted f dec {| world := t; home := h |} = ({| world := t'; home := h |}, Ok x).
Proof.
  intros Hp Hex Hpw Hop Hdec.
  unfold read_encrypted, rthen, on_home, on_world, rzoom, path_of, rgets, rlift. simpl.
  rewrite Hp. simpl. rewrite Hex. simpl. rewrite Hpw. simpl. rewrite Hop. simpl. by rewrite Hdec.
Qed.

(** C35 A pair of keys is read back: if the command that generates the keys of the
    class group succeeds, then whoever enters the same password reads the
    generated secret key back from the encrypted file, and the public file holds
    the public key of this secret key. *)
Theorem cg_key_pair_roundtrip `{!DkgLaws} s s' :
  generate_cg_encryption_key_pair s = (s', Ok tt) →
  ∃ secret public password t1 t2,
    generate_cg_secret (world s) = (t1, secret) ∧
    new_password_with_policy t1 = (t2, Ok password) ∧
    cg_public_of_secret secret = Ok public ∧
    (∀ t t', read_password t = (t', Ok password) →
       read_cg_private {| world := t; home := home s' |}
       = ({| world := t'; home := home s' |}, Ok (of_cg_secret secret))) ∧
    to_cg_secret (of_cg_secret secret) = Ok secret ∧
    read_cg_public (home s') = (home s', Ok (of_cg_public public)) ∧
    to_cg_public (of_cg_public public) = Ok public.
Proof.
  unfold generate_cg_encryption_key_pair, rthen, draw, with_new_password.
  destruct (generate_cg_secret (world s)) as [t1 secret] eqn:Hsecret.
  unfold rthen, on_world, rzoom, rtry. simpl.
  destruct (new_password_with_policy t1) as [t2 [password|e|]] eqn:Hpw; simpl; [|done..].
  unfold on_home, rzoom. simpl.
  destruct (update_cg_private _ _ _) as [h1 [[]|e|]] eqn:Hpriv; simpl; [|done..].
  destruct (cg_public_of_secret secret) as [public|e|] eqn:Hpub; simpl; [|done..].
  destruct (update F_CGPublicKey _ h1) as [h2 [[]|e|]] eqn:Hup; simpl; [|done..].
  intros [= <-]. exists secret, public, password, t1, t2. simpl.
  destruct (update_encrypted_inv _ _ _ _ Hpriv) as (b & path & Hb & Hp & Hw).
  destruct (written_raw _ _ _ _ Hw) as [Hop Hex].
  destruct (update_inv _ _ _ _ Hup) as [_ Hw2].
  rewrite <-(path_stable_raw _ _ _ _ _ Hw) in Hp.
  split_and!; try done.
  - intros t t' Ht. eapply read_encrypted_intro; [| |exact Ht| |].
    + rewrite (path_stable _ _ _ _ _ _ Hw2). exact Hp.
    + eapply public_keeps_paths; eauto.
    + eapply public_keeps_private; eauto.
    + unfold decrypt_cg. by rewrite (decrypt_encrypt_key _ _ _ Hb).
  - by apply unhex_inverse, cg_secret_inverse.
  - by eapply read_update.
  - by apply unhex_inverse, cg_public_inverse.
Qed.
End tool.
End Tool.
