(* ===== verification/ClientExamples.v ===== *)
(** * A client, its profiles and its keys at concrete data

    Theorems of [RpcClient], [TxOptions], [Identity] and [Dkg] at instances of
    their parameters.  The world is a clock in milliseconds; the node answers a
    request in one millisecond and has finalized every transaction three
    milliseconds after the epoch.  The files hold one encrypted identity. *)

From S2P Require Import Prelude Transactions CliTypes CliExamples RpcClient TxOptions Identity.
From stdpp Require Import base tactics option list gmap strings pretty.
From Stdlib Require Import ZArith Lia.
Import Profiles Sending.
Local Open Scope Z_scope.

(** ** The node *)
#[export] Instance ex_rpc : RpcEnv := {|
  World := Z;
  clock_ms w := w;
  sleep d w := w + Z.max 0 d;
  http_get u w := (w + 1, Ok (if 3 <=? w then "final" else "pending"));
  http_post u body w := (w + 1, Ok "final");
  fetch_chain_id_of_url u w := (w + 1, Ok 6);
  is_success r := true;
  status_error r := Ok tt;
  body_text r := Ok r;
  json_gas_price r := Ok (Gas_V2 (100 : @GasV2 ex_cli));
  json_account_info r := Ok (7 : @AccountInfo ex_cli);
  json_transaction_info r :=
    Ok (Info_V1 ((if bool_decide (r = "final") then 0 else 1) : @InfoV1 ex_cli));
  json_hash r := Ok (77 : @CHash ex_cli);
  json_move_list r := Ok (List_V1 (r : @MoveListV1 ex_cli));
  json_faucet_status r := Ok r;
  info_v1_status i := if i =? 0 then St_Success else St_Pending;
  info_v2_status i := if i =? 0 then St_Success else St_Pending;
  sequence_number i := i;
  url_join u s := Ok (u +:+ s);
  url_push u s := Some (u +:+ "/" +:+ s);
  encode_hex := pretty;
  show_type_tag t := t;
  show_identifier i := i;
  show_api_version v := match v with V1 => "v1" | V2 => "v2" | V3 => "v3" end;
  API_TAG_ACCOUNTS := "accounts"; API_TAG_TRANSACTIONS := "transactions";
  API_TAG_VIEW := "view"; API_TAG_WALLET := "wallet";
  ENDPOINT_ACCOUNT_MODULES := "modules"; ENDPOINT_ACCOUNT_RESOURCES := "resources";
  ENDPOINT_CHAIN_ID := "chain_id"; ENDPOINT_ESTIMATED_GAS_PRICE := "estimate_gas_price";
  ENDPOINT_FAUCET := "faucet"; ENDPOINT_SIMULATE_TRANSACTION := "simulate";
  ENDPOINT_SUBMIT_TRANSACTION := "submit";
  Ed25519PublicKey := Z; Ed25519PrivateKey := Z; RawTransaction := Z;
  raw_transaction sender sequence payload gas price expiration chain := expiration;
  sign_execute k raw pub := Ok raw;
  sign_simulate raw pub := Ok raw;
  expiration_timestamp_secs t := t;
  json_of_transaction t := Ok (pretty t);
  json_of_view_request r := Ok r;
  show_reqwest e := e; show_cli_error e := "error"; debug_action a := "action";
  debug_string s := s; debug_status o := "status"; show_status st := "status";
|}.

#[export] Instance ex_timing : Client.RpcTiming (H0 := ex_rpc).
Proof.
  split; try done; simpl; intros; lia.
Qed.

Definition ex_kind : RpcRequestKind :=
  Kind_PublicQuery {| pq_url := ("http://node/" : @CUrl ex_cli) |}.

Definition ex_hash : @CHash ex_cli := 77.

Lemma await_finalized_returns_witness :
  (Client.await_finalized 12 V2 ex_hash 0 ex_kind 1000 (0 : @World ex_cli ex_rpc)).1
  = (1002 : @World ex_cli ex_rpc) ∧
  wp (Client.await_finalized 12 V2 ex_hash 0 ex_kind 1000)
    (λ o w', (∃ info, o = Ok info ∧ Client.is_final (info_status info) = true) ∨
             (∃ m a, o = Err (Failed (Aborted m a)) ∧
                     0 + Client.TX_FINALIZATION_MARGIN_SECS < clock_ms w' / 1000))
    (0 : @World ex_cli ex_rpc).
Proof.
  split; [vm_compute; reflexivity|].
  apply (Client.await_finalized_returns 12 V2 ex_hash 0 ex_kind 1000
    "http://node/rpc/v2/transactions/77"); try done.
  apply Nat.ltb_lt. vm_compute. reflexivity.
Defined.

(** ** Profiles and options *)
Definition ex_attributes : @ProfileAttributes ex_cli :=
  {| pa_account_address := (5 : @Address ex_cli);
     pa_rpc_url := ("http://node/" : @CUrl ex_cli);
     pa_faucet_url := ("http://node/" : @CUrl ex_cli); pa_chain_id := 6 |}.

(** The identity of the node, with the password it is encrypted with. *)
#[export] Instance ex_tx : TxEnv := {|
  tx_rpc := ex_rpc;
  Home := option (Z * string);
  SecretKey := string; ProtectedProfile := string; ProtectedProfileManager := string;
  active_cli_profile s := (s, Ok ex_attributes);
  cli_profile name s := (s, Ok ex_attributes);
  read_or_create ignore_env reveal s := (s, Ok ("manager", "password"));
  load_private_profile path s := (s, Ok ("loaded", "password"));
  local_manager key options := Ok "local";
  get_active_protected_profile m := Ok m;
  try_smr_private_key_ref m name := Ok name;
  aptos_signer_public_key p := Ok (1 : @Ed25519PublicKey ex_cli ex_rpc);
  ed25519_private_key p := Ok (2 : @Ed25519PrivateKey ex_cli ex_rpc);
  fetch_and_confirm_chain_id u c w := (w, Ok c);
  simulation_helper h :=
    {| sp_account_address := sp_account_address h; sp_public_key := sp_public_key h;
       sp_signer_key_type := Key_Simulate; sp_rpc_url := sp_rpc_url h;
       sp_chain_id := sp_chain_id h; sp_cli_password := sp_cli_password h |};
  prompt message w := (w, Ok "");
  show_inquire e := e;
  mean_gas_price p := p; median_gas_price p := p;
  coin_resource_v1 r := Ok {| coin_balance := 1000; coin_is_frozen := false |};
  coin_resource_v2 r := Ok {| coin_balance := 1000; coin_is_frozen := false |};
  info_output i := Some (Output_Move_gas 10);
  info_max_gas_amount i := 500; info_gas_unit_price i := 100;
  type_tag_from_str s := Ok s;
  SUPRA_COIN_TYPE := "coin"; STRUCT_TAG_COIN_STORE := "store";
  DEFAULT_MAX_GAS_AMOUNT_FOR_SIMULATION := 500;
  debug_output o := "output"; debug_response r := "response"; debug_url u := u; debug_payload p := p;
|}.

(** A sender is given on the command line, maybe with a private key. *)
Definition ex_options_with (key : option (@SecretKey ex_cli ex_tx)) : SupraTransactionOptions := {|
  profile_options := {|
    profile := None;
    private_key_options :=
      {| private_key_file := None; private_key := key |};
    profile_attribute_options :=
      {| po_account_address := None; po_rpc_url := None; po_faucet_url := None; po_chain_id := None |};
    sender_account := Some (9 : @Address ex_cli) |};
  rest_options := {| connection_timeout_secs := 30; node_api_key := None; api_version := V2 |};
  gas_options := {| go_gas_unit_price := None; go_max_gas := None; go_expiration_secs := 300 |};
  delegation_pool_address := Some "0xb";
|}.

Definition ex_options := ex_options_with (Some ("key" : @SecretKey ex_cli ex_tx)).
Definition ex_stored_options := ex_options_with None.

Definition ex_sys : Sys (@World ex_cli (@tx_rpc ex_cli ex_tx)) (@Home ex_cli ex_tx) :=
  {| world := (10 : @World ex_cli (@tx_rpc ex_cli ex_tx)); home := (Some (40, "password") : @Home ex_cli ex_tx) |}.

Lemma ex_signer_ok : is_ok (signer_profile_helper ex_options Type_Execute false ex_sys).2 = true.
Proof. vm_compute. reflexivity. Qed.

Lemma sender_is_profile_account_witness :
  ∃ s' helper, signer_profile_helper ex_options Type_Execute false ex_sys = (s', Ok helper) ∧
    sp_account_address helper = pa_account_address ex_attributes ∧
    sp_rpc_url helper = pa_rpc_url ex_attributes ∧
    sp_chain_id helper = pa_chain_id ex_attributes.
Proof.
  destruct (run_ok _ _ ex_signer_ok) as (s' & helper & Heq). exists s', helper. split; [exact Heq|].
  refine (sender_is_profile_account ex_options Type_Execute false ex_attributes ex_sys
    s' helper _ eq_refl Heq).
  intros t. reflexivity.
Defined.

Definition ex_transaction : MoveTransactionOptions :=
  {| payload := ("payload" : @TransactionPayload ex_cli);
     transaction_option := ex_options |}.

Lemma ex_sent_ok : is_ok (send_transaction 3 ex_transaction UntilSuccess ex_sys).2 = true.
Proof. vm_compute. reflexivity. Qed.

Lemma sent_until_success_witness :
  ∃ s' info signer w w' hash expiration final,
    send_transaction 3 ex_transaction UntilSuccess ex_sys = (s', Ok info) ∧
    Client.await_finalized 3 V2 hash expiration (public_query (sp_rpc_url signer))
      (RETRY_DELAY * 1000) w = (w', Ok final) ∧ info_status final = St_Success.
Proof.
  destruct (run_ok _ _ ex_sent_ok) as (s' & info & Heq).
  destruct (sent_until_success 3 ex_transaction ex_sys s' info Heq)
    as (signer & s0 & gas & s1 & hash & expiration & w2 & w3 & final & Hsigner & _ & _ & Hwait & Hst & _).
  by exists s', info, signer, w2, w3, hash, expiration, final.
Defined.

(** ** Identities *)
#[export] Instance ex_id : IdEnv := {|
  id_tx := ex_tx;
  NodeIdentity := Z; ConsensusIdentity := Z; NetworkKey := Z; SocketAddr := string; KeyBytes := string;
  parse_socket_addr s := Some s;
  generate_consensus_identity w := (w + 1, 50);
  generate_network_key w := (w + 1, 60);
  generate_with_ip a w := (w + 1, 70);
  generate_with_name_and_port n p w := (w + 1, 80);
  consensus_key_bytes k := Ok "key";
  set_new_consensus_identity k n := n + k;
  set_new_network_key k n := n + k;
  set_new_network_socket_addr a n := n + 1;
  set_new_network_dns_name_and_port s p n := n + p;
  encode_network_address n := Ok "address";
  stake_rotate_consensus_key a k := k;
  stake_update_network_and_fullnode_addresses a k := k;
  from_encrypted_file p h :=
    (h, match h with
        | Some (n, q) => if bool_decide (q = p) then Ok n else Err DecryptionFailed
        | None => Err (NotFound "identity")
        end);
  to_encrypted_file n p h := (Some (n, p), Ok tt);
  backup h := (h, Ok "backup");
  write_public_identity n h := (h, Ok tt);
  CliProfiles := string;
  cli_profile_manager m := m;
  write_cli_profiles m h := (h, Ok tt);
  cli_profiles_path h := (h, Ok "path");
  create_new name key options ignore interactive s := (s, Ok "manager");
  activate name ignore s := (s, Ok "manager");
  remove_keys names ignore s := (s, Ok "manager");
  modify_profile_attribute name options interactive ignore s := (s, Ok "manager");
  reset_password m s := (s, Ok "secret");
  print_line text w := w + 1000; unsafe_display_string m := m;
  is_weak_password p := false; WEAK_PASSWORD := "weak";
  as_serde_error e := None; serde_is_data e := false; show_serde e := e;
  prompt_password message w := (w, Ok "password");
  migrate_to_cli_profile_with_chain_id p s := (s, Ok "manager");
  capture_missing_field s := None;
  anyhow s := s; profile_aborted a b := a;
  SupraNetwork := bool;
  network_rpc_url n := Ok "http://net/"; network_faucet_url n := Ok "http://faucet/";
  network_chain_id n := Ok (if n then 8 else 6);
  sign_content p s := s; read_string_from_file path h := (h, Ok path);
|}.

#[export] Instance ex_identity_files : Rotation.IdentityFiles (H0 := ex_id).
Proof.
  split; simpl.
  - done.
  - intros id p h h' [= <-]. by rewrite bool_decide_true.
  - by intros id p h h' o [= -> _].
Qed.

#[export] Instance ex_profile_kept : Rotation.ProfileKept (H0 := ex_id) ex_stored_options.
Proof. split; [by intros [] b s|by intros s]. Qed.

Lemma ex_rotated_ok : is_ok (Rotation.rotate_consensus_key (H0 := ex_id) 3 ex_stored_options ex_sys).2 = true.
Proof. vm_compute. reflexivity. Qed.


Lemma dns_roundtrip_witness :
  Dns.parse_dns (H := ex_cli) "node.example:28000" = Ok ("node.example", 28000).
Proof.
  assert (Dns.free_of Dns.colon "node.example") as Hfree by (by vm_compute; split_and!).
  destruct (Dns.dns_roundtrip (H := ex_cli) "node.example" 28000 "" Hfree ltac:(done)) as [Hdns _].
  exact Hdns.
Defined.

Definition ex_address_only : @ProfileAttributeOptions ex_cli :=
  {| po_account_address := Some (5 : @Address ex_cli);
     po_rpc_url := None; po_faucet_url := None; po_chain_id := None |}.

Lemma make_follows_options_witness :
  ProfileTool.make (H0 := ex_id) (Some true) (Some ex_address_only) ≠ Panic.
Proof.
  apply (ProfileTool.make_follows_options (H0 := ex_id) (Some true) (Some ex_address_only)).
  - by repeat split; eexists.
  - done.
Defined.
