(* ===== verification/EndpointsExamples.v ===== *)
(** * Routes and requests at concrete data

    The documented behaviour of the web framework as a program, a client that keeps
    a log of its requests and the node of [ApiExamples]. *)

From S2P Require Import Prelude Urls Authorization Limiters Transactions ApiState Router ApiExamples.
From S2P Require Import CliTypes CliExamples RpcClient Endpoints.
From stdpp Require Import base tactics option list sets strings pretty.
From Stdlib Require Import ZArith Lia Ascii.
Import Matching Routes Reach.
Local Open Scope Z_scope.

(** ** Segments *)
Definition no_slash (s : string) : bool := Urls.all_chars (λ c, negb (Ascii.eqb c "/"%char)) s.

Lemma raw_no_slash s : Urls.raw_segment s = true → no_slash s = true.
Proof.
  intros [_ Hs]%andb_prop. unfold no_slash, Urls.all_chars in *. rewrite forallb_forall in *.
  intros c Hc%Hs. by destruct (Ascii.eqb_spec c "/"%char) as [->|].
Qed.

Lemma joinable_no_slash s : Urls.joinable s = true → no_slash s = true.
Proof.
  intros [[[_ Hs]%andb_prop _]%andb_prop _]%andb_prop. unfold no_slash, Urls.all_chars in *.
  rewrite forallb_forall in *. intros c Hc%Hs. by destruct (Ascii.eqb_spec c "/"%char) as [->|].
Qed.

Lemma split_app s rest :
  no_slash s = true →
  Authorization.split "/"%char (s +:+ String "/"%char rest) = s :: Authorization.split "/"%char rest.
Proof.
  induction s as [|c s IH]; [done|]. intros [Hc Hs]%andb_prop.
  change (String c s +:+ ?x) with (String c (s +:+ x)). cbn [Authorization.split].
  rewrite (proj1 (negb_true_iff _) Hc). by rewrite (IH Hs).
Qed.

Lemma split_last s : no_slash s = true → Authorization.split "/"%char s = [s].
Proof.
  induction s as [|c s IH]; [done|]. intros [Hc Hs]%andb_prop. cbn [Authorization.split].
  rewrite (proj1 (negb_true_iff _) Hc). by rewrite (IH Hs).
Qed.

Lemma split_concat segs :
  segs ≠ [] → Forall (λ s, no_slash s = true) segs →
  Authorization.split "/"%char (String.concat "/" segs) = segs.
Proof.
  intros Hne Hall. induction Hall as [|s segs Hs Hall IH]; [done|].
  destruct segs as [|t segs]; [by apply split_last|].
  change (String.concat "/" (s :: t :: segs)) with (s +:+ String "/"%char (String.concat "/" (t :: segs))).
  rewrite split_app by done. by rewrite IH.
Qed.

Lemma path_of_concat segs : segs ≠ [] → path_of segs = "/" +:+ String.concat "/" segs.
Proof.
  induction segs as [|s segs IH]; [done|]. intros _.
  change (path_of (s :: segs)) with ("/" +:+ (s +:+ path_of segs)). f_equal.
  destruct segs as [|t segs]; [by rewrite string_app_nil_r|].
  rewrite (IH ltac:(done)). reflexivity.
Qed.

Lemma path_of_app l s : path_of (l ++ [s]) = path_of l +:+ "/" +:+ s.
Proof.
  induction l as [|x l IH]; simpl; [by rewrite string_app_nil_r|].
  by rewrite IH, !string_app_assoc.
Qed.

Lemma filter_raw raws :
  Forall (λ s, Urls.raw_segment s = true) raws →
  List.filter (λ s, negb (String.eqb s "")) raws = raws.
Proof.
  induction 1 as [|s l Hs Hall IH]; cbn [List.filter]; [done|].
  apply andb_prop in Hs as [[-> _]%andb_prop _]. by rewrite IH.
Qed.

Lemma segments_path_of raws : forallb Urls.raw_segment raws = true → segments (path_of raws) = raws.
Proof.
  intros Hraw. assert (Forall (λ s, Urls.raw_segment s = true) raws) as Hall
    by (apply Forall_forall; intros s Hs; exact (forallb_elem _ _ _ Hraw Hs)).
  unfold segments. destruct raws as [|r raws]; [done|].
  rewrite path_of_concat by done. change ("/" +:+ ?x) with (String "/"%char x).
  cbn [Authorization.split]. change (Ascii.eqb "/" "/") with true. cbv iota.
  rewrite split_concat; [|done|exact (Forall_impl _ _ _ Hall raw_no_slash)].
  exact (filter_raw _ Hall).
Qed.

(** ** The framework *)
Definition ex_token_digest (s : string) : Z := Z.of_nat (String.length s).

#[export] Instance ex_ntex : Ntex (KycToken Z Z) (WebRequest Z) := {|
  respond root m path req := first_match ex_token_digest root m (Urls.decode <$> segments path) req;
|}.

Section found.
Context (digest : string → Z).
Notation Token := (KycToken Z Z).

Lemma find_scope_elem (l : list (Scope Token)) segs s rest :
  find_scope l segs = Some (s, rest) → s ∈ l.
Proof.
  induction l as [|x l IH]; simpl; [done|]. destruct (strip_prefix _ _).
  - intros [= <- _]. by left.
  - intros. right. by apply IH.
Qed.

Lemma handled_inv (root : Root Token) m segs req h :
  first_match digest root m segs req = Handled h →
  ∃ s svc, s ∈ scopes root ∧ svc ∈ services s ∧ h = handler svc ∧
    ∀ tokens, authorization s = Some tokens → Auth.call digest tokens req = Forwarded.
Proof.
  unfold first_match. destruct (strip_prefix _ _) as [segs'|]; [|done].
  destruct (find_scope _ _) as [[s rest]|] eqn:Hs; [|done]. apply find_scope_elem in Hs.
  unfold answer. intros Ha.
  destruct (List.find _ _) as [svc|] eqn:Hfind.
  2: { destruct (authorization s); [destruct (Auth.call _ _ _)|]; done. }
  apply find_some in Hfind as [Hin _]. exists s, svc.
  destruct (authorization s) as [ts|]; [destruct (Auth.call digest ts req) eqn:Hcall; [done|]|];
    simpl in Ha; injection Ha as <-; (split_and!; [done|by apply list_elem_of_In|done|]).
  - by intros ? [= <-].
  - done.
Qed.

End found.

#[export] Instance ex_ntex_laws : NtexLaws ex_token_digest.
Proof.
  split.
  - intros root m raws req Hraw. simpl. by rewrite segments_path_of.
  - intros root m p req h. apply handled_inv.
Qed.

(** ** The client *)
Definition ex_url_path (u : @CUrl ex_cli) : string := string_drop 11 u.

(** Numbers are written with digits and a sign. *)
Definition is_digit_char (c : ascii) : bool :=
  let n := nat_of_ascii c in ((48 <=? n) && (n <=? 57) || (n =? 45))%nat.

Definition digits (s : string) : Prop :=
  s ≠ "" ∧ forallb is_digit_char (String.list_ascii_of_string s) = true.

Lemma pretty_N_char_digit x : is_digit_char (pretty_N_char x) = true.
Proof. unfold pretty_N_char. repeat case_match; reflexivity. Qed.

Lemma digits_go x s : digits s → digits (pretty_N_go x s).
Proof.
  revert s. induction (N.lt_wf_0 x) as [x _ IH]; intros s Hs.
  destruct (decide (x = 0)%N) as [->|Hx]; [done|].
  rewrite pretty_N_go_step by lia. apply IH; [apply N.div_lt; lia|].
  split; [done|]. cbn [String.list_ascii_of_string forallb].
  by rewrite pretty_N_char_digit, (proj2 Hs).
Qed.

Lemma digits_N (x : N) : digits (pretty x).
Proof.
  unfold pretty, pretty_N. case_decide as Hx; [done|].
  rewrite pretty_N_go_step by lia. apply digits_go. split; [done|].
  cbn [String.list_ascii_of_string forallb]. by rewrite pretty_N_char_digit.
Qed.

Lemma digits_Z (x : Z) : digits (pretty x).
Proof.
  destruct x as [|p|p]; [done|exact (digits_N (Npos p))|].
  destruct (digits_N (Npos p)) as [Hn Hp]. split; [done|].
  change (pretty (Z.neg p)) with (String "-"%char (pretty (Npos p))).
  cbn [String.list_ascii_of_string forallb]. by rewrite Hp.
Qed.

Lemma digits_joinable s : digits s → Urls.joinable s = true.
Proof.
  intros [Hn Hd]. assert (Urls.all_chars Urls.is_pchar s = true) as Hall.
  { unfold Urls.all_chars. apply forallb_forall. intros c Hc. rewrite forallb_forall in Hd.
    specialize (Hd c Hc). clear -Hd. by destruct c as [[] [] [] [] [] [] [] []]. }
  apply Urls.pchar_joinable; [done| |done]. unfold Urls.dot_segment.
  destruct (String.eqb_spec s ".") as [->|]; [by vm_compute in Hd|].
  destruct (String.eqb_spec s "..") as [->|]; [by vm_compute in Hd|done].
Qed.

Lemma string_drop_app n s t : (n <= String.length s)%nat → string_drop n (s +:+ t) = string_drop n s +:+ t.
Proof.
  revert s. induction n as [|n IH]; intros [|c s]; simpl; try done; [lia|].
  intros Hn. apply IH. lia.
Qed.

Lemma string_drop_nonempty n s : string_drop n s ≠ "" → (n <= String.length s)%nat.
Proof.
  revert s. induction n as [|n IH]; intros [|c s]; simpl; try (done || lia).
  intros Hs%IH. lia.
Qed.

(** A text for every type and name. *)
Definition ep_text (s : string) : string :=
  if Urls.joinable s then s else "0x1::coin::CoinStore<0x1::supra_coin::SupraCoin>".

Lemma ep_text_joinable s : Urls.joinable (ep_text s) = true.
Proof. unfold ep_text. by destruct (Urls.joinable s) eqn:Hs. Qed.

(** An address is the one of the node followed by the path. *)
Definition ep_join (u s : string) : string :=
  u +:+ String.concat "/" (Urls.encode <$> Authorization.split "/"%char s).
Definition ep_push (u s : string) : string := u +:+ "/" +:+ Urls.encode s.

Lemma ep_join_path u segs :
  ex_url_path u = "/" → forallb Urls.joinable segs = true → segs ≠ [] →
  ex_url_path (ep_join u (String.concat "/" segs)) = path_of (Urls.encode <$> segs).
Proof.
  intros Hu Htext Hne. unfold ex_url_path, ep_join in *.
  rewrite string_drop_app by (apply string_drop_nonempty; by rewrite Hu).
  rewrite Hu, split_concat, path_of_concat; [done|by destruct segs|done|].
  apply Forall_forall. intros s Hs. apply joinable_no_slash. exact (forallb_elem _ _ _ Htext Hs).
Qed.

Lemma ep_push_path u l s :
  ex_url_path u = path_of l → l ≠ [] → ex_url_path (ep_push u s) = path_of (l ++ [Urls.encode s]).
Proof.
  intros Hu Hl. unfold ex_url_path, ep_push in *. rewrite path_of_app, <-Hu.
  apply string_drop_app, string_drop_nonempty. rewrite Hu. by destruct l.
Qed.

#[local] Instance ep_rpc : RpcEnv := {|
  World := list (Method * string);
  clock_ms w := 0;
  sleep d w := w;
  http_get u w := (w ++ [(GET, u)], Ok "answer");
  http_post u body w := (w ++ [(POST, u)], Ok "answer");
  fetch_chain_id_of_url u w := (w ++ [(GET, u)], Ok 6);
  is_success r := true;
  status_error r := Ok tt;
  body_text r := Ok r;
  json_gas_price r := Ok (Gas_V2 (100 : @GasV2 ex_cli));
  json_account_info r := Ok (7 : @AccountInfo ex_cli);
  json_transaction_info r := Ok (Info_V1 (0 : @InfoV1 ex_cli));
  json_hash r := Ok (77 : @CHash ex_cli);
  json_move_list r := Ok (List_V1 (r : @MoveListV1 ex_cli));
  json_faucet_status r := Ok r;
  info_v1_status i := St_Success;
  info_v2_status i := St_Success;
  sequence_number i := i;
  url_join u s := Ok (ep_join u s);
  url_push u s := Some (ep_push u s);
  encode_hex := pretty;
  show_type_tag := ep_text;
  show_identifier := ep_text;
  show_api_version v := match v with V1 => "v1" | V2 => "v2" | V3 => "v3" end;
  API_TAG_ACCOUNTS := "accounts"; API_TAG_TRANSACTIONS := "transactions";
  API_TAG_VIEW := "view"; API_TAG_WALLET := "wallet";
  ENDPOINT_ACCOUNT_MODULES := "modules"; ENDPOINT_ACCOUNT_RESOURCES := "resources";
  ENDPOINT_CHAIN_ID := "chain_id"; ENDPOINT_ESTIMATED_GAS_PRICE := "estimate_gas_price";
  ENDPOINT_FAUCET := "faucet"; ENDPOINT_SIMULATE_TRANSACTION := "simulate";
  ENDPOINT_SUBMIT_TRANSACTION := "submit";
  Ed25519PublicKey := Z; Ed25519PrivateKey := Z; RawTransaction := Z;
  raw_transaction sender sequence payload gas price expiration chain := expiration;
  sign_execute k raw pub := Ok raw;
  sign_simulate raw pub := Ok raw;
  expiration_timestamp_secs t := t;
  json_of_transaction t := Ok (pretty t);
  json_of_view_request r := Ok r;
  show_reqwest e := e; show_cli_error e := "error"; debug_action a := "action";
  debug_string s := s; debug_status o := "status"; show_status st := "status";
|}.

#[local] Instance ep_shared_api : SharedApi (H0 := ep_rpc) ex_url_path.
Proof.
  split; try reflexivity.
  - intros u segs u' Hu Htext Hj. injection Hj as <-. by apply (ep_join_path u ("rpc" :: segs)).
  - intros u l s u' Hu Hl _ _ Hp. injection Hp as <-. by apply ep_push_path.
  - intros a. apply digits_joinable, digits_Z.
  - intros h. apply digits_joinable, digits_Z.
  - apply ep_text_joinable.
  - apply ep_text_joinable.
  - intros h. destruct (digits_Z h) as [_ Hd]. change (encode_hex h) with (pretty (h : Z)).
    intros Hin. rewrite !elem_of_cons in Hin.
    destruct Hin as [Hw|[Hw|[Hw|?%elem_of_nil]]]; [..|done]; rewrite Hw in Hd; done.
Qed.

#[local] Instance ep_log : RequestLog (H0 := ep_rpc) := {| requests w := w |}.
#[local] Instance ep_log_laws : RequestLogLaws (H0 := ep_rpc).
Proof. by split. Qed.

(** ** Requests *)
Definition ex_request : WebRequest Z :=
  {| authorization_header := Some (Some "Bearer abc"); host := "node:80"; peer_ip := Some 1 |}.
Definition ex_tokens : list (KycToken Z Z) :=
  [{| token_hash := 3; authorized_source := SourceIpAddr 1 |}].

(** The module of a path may be percent-encoded. *)
Lemma every_service_answers_witness :
  respond (rest_root_route (ex_state None) ex_tokens) GET "/rpc/v2/accounts/0x1/modules/%3CSELF%3E" ex_request
  = Handled (handler v2.get_account_module_v2).
Proof.
  exact (every_service_answers ex_token_digest (ex_state None) ex_tokens account_route_v2
    [v2.get_account_v2; v2.get_account_resource_v2; v2.get_account_resources_v2]
    v2.get_account_module_v2
    [v2.get_account_modules_v2; v2.get_account_transactions_v2; v2.coin_transactions_v2]
    ["0x1"; "modules"; "%3CSELF%3E"] ex_request
    ltac:(vm_compute; set_solver) eq_refl ltac:(vm_compute; split_and!; set_solver) eq_refl).
Defined.

Lemma ex_latest_block_served :
  respond (rest_root_route (ex_state None) ex_tokens) GET "/rpc//v2/consensus/%62lock" ex_request
  = Handled (handler v2.latest_consensus_block).
Proof. vm_compute. reflexivity. Qed.

Lemma protected_services_witness :
  Auth.call ex_token_digest ex_tokens ex_request = Forwarded.
Proof.
  exact (proj1 (protected_services ex_token_digest (ex_state None) ex_tokens GET
    "/rpc//v2/consensus/%62lock" ex_request (handler v2.latest_consensus_block)
    ex_latest_block_served) eq_refl).
Defined.

(** The balance of an account, and a transaction signed by the tool. *)
Definition ep_balance : @RpcClientApi ex_cli ep_rpc :=
  Client.new_action
    (Act_AccountResource V3 (5 : @Address ex_cli)
       ("0x1::coin::CoinStore<0x1::supra_coin::SupraCoin>" : @TypeTag ex_cli))
    (Kind_PublicQuery {| pq_url := ("http://node/" : @CUrl ex_cli) |}).

Definition ep_sending : @RpcClientApi ex_cli ep_rpc :=
  Client.new_action (Act_SendTransaction V3 ("payload" : @TransactionPayload ex_cli))
    (Kind_SignedTransaction
       {| txn_sender_address := (5 : @Address ex_cli);
          txn_sender_pub_key := (1 : @Ed25519PublicKey ex_cli ep_rpc);
          signer_key_type := Key_Simulate; max_gas_amount := 10; gas_unit_price := 1;
          expiration_period_secs := 60; st_url := ("http://node/" : @CUrl ex_cli); chain_id := 6 |}).

Definition ep_coin_url : string :=
  "http://node/rpc/v3/accounts/5/resources/0x1::coin::CoinStore%3C0x1::supra_coin::SupraCoin%3E".

Lemma ep_balance_run : (Client.execute_action ep_balance []).1 = [(GET, ep_coin_url)].
Proof. vm_compute. reflexivity. Qed.

Lemma ep_sending_run :
  Client.execute_action ep_sending []
  = ([(GET, "http://node/rpc/v3/accounts/5"); (POST, "http://node/rpc/v3/transactions/submit")],
     Ok (Res_SendTransaction (77 : @CHash ex_cli) 60)).
Proof. vm_compute. reflexivity. Qed.

Lemma client_requests_served_witness :
  respond (rest_root_route (ex_state None) ex_tokens) POST "/rpc/v3/transactions/submit" ex_request
  = Handled (handler v1.submit_txn) ∧
  respond (rest_root_route (ex_state None) ex_tokens) GET (ex_url_path ep_coin_url) ex_request
  = Handled (handler v2.get_account_resource_v2).
Proof.
  split; [|vm_compute; reflexivity].
  destruct (client_requests_served (H0 := ep_rpc) ex_url_path ex_token_digest (ex_state None) ex_tokens
    ep_sending ex_request [] _ _ eq_refl ep_sending_run) as (l & now & later & Hl & Hasked & Hok & Hall).
  rewrite (Hok eq_refl), app_nil_r in Hasked. rewrite <-Hasked in Hall. simpl in Hl. subst l.
  apply Forall2_cons in Hall as [_ Hall]. by apply Forall2_cons in Hall as [Hpost _].
Defined.
