(* ===== verification/EndToEnd.v ===== *)
(** * The command line tool and the node together

    The tool ([RpcClient]) sends its requests over the network to the node, whose
    routes ([Router]) lead to the handlers of the transaction service ([Server]).
    The network, the web framework and the encodings are parameters: a request
    that is answered is answered by the node, the framework extracts the parameters
    of a handler from the request, and what one side encodes the other decodes. *)

From S2P Require Import Prelude Urls Authorization Limiters Transactions ApiState Handlers Router Server.
From S2P Require Import CliTypes RpcClient TxOptions Endpoints.
From stdpp Require Import base tactics option list sets strings.
From Stdlib Require Import ZArith Lia.
Import Matching Routes Reach.
Local Open Scope Z_scope.

Section end_to_end.
Context `{RpcEnv} (url_path : CUrl → string) `{!SharedApi url_path}.
Context `{ServiceEnv}.
Context {Digest IpAddr : Type} `{EqDecision Digest} `{EqDecision IpAddr}.
Context (digest : string → Digest).
Context `{!Ntex (KycToken Digest IpAddr) (WebRequest IpAddr)} `{!NtexLaws digest}.
Notation Token := (KycToken Digest IpAddr).

(** ** The node in the world of the tool *)
Class Deployed : Type := {
  node : World → TxNode;
  access_tokens : list Token;
  web_request : World → WebRequest IpAddr;
  (** The parameters that the framework extracts for a handler, from the path and the
      body; a submission reads the clock. *)
  extract : Handler → string → string → World → option TxRequest;
  (** The answers to the requests that are not for the transaction service. *)
  other : Response → string → string → World → TxNode * option (Z * string);
  encode : TxReply → string;
  encode_error : ErrResp → string;
  response_status : HttpResponse → Z;
  response_text : HttpResponse → string;
  (** The same transaction and the same hash on both sides. *)
  transaction_of : CliTypes.SignedTransaction → Server.SignedTransaction;
  hash_of : CHash → Hash;
}.
Context `{!Deployed}.

(** What the node does with a request and how it answers. *)
Definition exchange (m : Method) (path body : string) (w : World) : TxNode * option (Z * string) :=
  let response := respond (rest_root_route (tn_state (node w)) access_tokens) m path (web_request w) in
  match response with
  | Handled h =>
      match extract h path body w with
      | Some req =>
          let (n, o) := Service.run req (node w) in (n, Service.respond_with encode encode_error o)
      | None => other response path body w
      end
  | _ => other response path body w
  end.

(** The lookup of a transaction that the tool asks for. *)
Definition lookup_request (v : ApiVersion) (h : Hash) : TxRequest :=
  match v with
  | V1 => Req_ByHash_v1 h
  | V2 => Req_ByHash_v2 h
  | V3 => Req_ByHash_v3 h None
  end.

Definition lookup_handler (v : ApiVersion) : Service :=
  match v with
  | V1 => v1.transaction_by_hash
  | V2 => v2.transaction_by_hash
  | V3 => v3.transaction_by_hash
  end.

(** ** What the network, the framework and the encodings do *)
Class DeployedLaws : Prop := {
  (** A request that is answered was served by the node. *)
  get_served u w w' r :
    http_get u w = (w', Ok r) →
    exchange GET (url_path u) "" w = (node w', Some (response_status r, response_text r));
  post_served u body w w' r :
    http_post u body w = (w', Ok r) →
    exchange POST (url_path u) body w = (node w', Some (response_status r, response_text r));
  success_status r : is_success r = (200 <=? response_status r) && (response_status r <? 300);
  text_of_body r : body_text r = Ok (response_text r);
  (** The parameters of the handlers. *)
  extract_submit path body t w :
    json_of_transaction t = Ok body →
    ∃ now1 now2, extract (handler v1.submit_txn) path body w
                 = Some (Req_Submit (Submit.ST_Move (transaction_of t)) now1 now2);
  extract_hash v h w :
    extract (handler (lookup_handler v))
      (path_of (Urls.encode <$> action_segments (Act_TransactionInfo v h))) "" w
    = Some (lookup_request v (hash_of h));
  (** The answers. *)
  decode_hash r h : response_text r = encode (Rep_Hash h) → ∃ h', json_hash r = Ok h' ∧ hash_of h' = h;
  decode_info_v1 r i :
    response_text r = encode (Rep_Info_v1 (Some (info_v1 i))) →
    ∃ t, json_transaction_info r = Ok (Info_V1 t) ∧ info_v1_status t = ApiState.info_status i;
  decode_missing_v1 r :
    response_text r = encode (Rep_Info_v1 None) → ∃ e, json_transaction_info r = Err e;
  decode_info_v2 r i :
    response_text r = encode (Rep_Info_v2 i) →
    ∃ t, json_transaction_info r = Ok (Info_V2 t) ∧ info_v2_status t = ApiState.info_status i;
  decode_info_v3 r c i :
    response_text r = encode (Rep_Transaction_v3 c (txn_from_info i)) →
    ∃ t, json_transaction_info r = Ok t ∧ RpcClient.info_status t = ApiState.info_status i;
  decode_meta_v3 r c m t :
    response_text r = encode (Rep_Transaction_v3 c (txn_from_meta m)) →
    json_transaction_info r = Ok t → RpcClient.info_status t = meta_status m;
}.
Context `{!DeployedLaws} `{!StorageLaws SmrTransaction Hash}.

(** ** Requests *)
Import Client.

(** The node has the handler for a request of the tool. *)
Lemma request_routed action kind url w :
  (∀ a v u, action ≠ Act_FundWithFaucet v a u) →
  url_path (request_url kind) = "/" → endpoint_url (new_action action kind) = Ok url →
  url_path url = path_of (Urls.encode <$> action_segments action) ∧
  respond (rest_root_route (tn_state (node w)) access_tokens) (request_method action)
    (url_path url) (web_request w)
  = handled (served_by (Api.is_faucet_enabled (tn_state (node w))) action).
Proof.
  intros Hno Hbase Hurl.
  assert (rpc_action (new_action action kind) = action ∧
          rpc_request_kind (new_action action kind) = kind) as [Ha Hk] by by destruct kind.
  assert (url_path (request_base (new_action action kind)) = "/") as Hb.
  { unfold request_base. rewrite Ha, Hk. destruct action; try done. by destruct (Hno a v u). }
  pose proof (endpoint_path url_path _ _ Hb Hurl) as Hpath.
  pose proof (request_served url_path digest (tn_state (node w)) access_tokens _ _ (web_request w) Hb Hurl) as Hs.
  by rewrite Ha in Hpath, Hs.
Qed.

Lemma exchange_handled m path body w svc req :
  respond (rest_root_route (tn_state (node w)) access_tokens) m path (web_request w)
    = handled (Some svc) →
  extract (handler svc) path body w = Some req →
  exchange m path body w
  = ((Service.run req (node w)).1,
     Service.respond_with encode encode_error (Service.run req (node w)).2).
Proof.
  unfold exchange. intros -> Hex. unfold handled. rewrite Hex. by destruct (Service.run req (node w)).
Qed.

(** What the tool makes of an answer. *)
Lemma answered_ok r reply (T : Type) (json : HttpResponse → outcome ReqwestErr T) t :
  Some (response_status r, response_text r) = Some (200, encode reply) →
  (response_text r = encode reply → json r = Ok t) → map_response json r = Ok t.
Proof.
  intros [= Hst Htx] Hj. unfold map_response. rewrite success_status, Hst, (Hj Htx). done.
Qed.

Lemma answered_err r e (T : Type) (json : HttpResponse → outcome ReqwestErr T) :
  Some (response_status r, response_text r) = Service.respond_with encode encode_error (Err e) →
  400 ≤ status_code e < 600 → ∃ err, map_response json r = Err err.
Proof.
  intros [= Hst Htx] He. unfold map_response, map_error_response.
  rewrite success_status, Hst, text_of_body.
  rewrite (proj2 (Z.ltb_ge (status_code e) 300)), andb_false_r by lia. by eexists.
Qed.

(** The transaction of a request: the one that is given, or one that the tool has
    signed with the sequence number it was told. *)
Definition submits (action : RpcAction) (kind : RpcRequestKind) (txn : CliTypes.SignedTransaction) : Prop :=
  match action with
  | Act_SendSignedTransaction _ t => txn = t
  | Act_SendTransaction _ payload =>
      ∃ helper sequence w w', kind = Kind_SignedTransaction helper ∧
        SignedTxn.create_transaction helper payload (RpcClient.chain_id helper) sequence w = (w', Ok txn)
  | _ => False
  end.

(** The hash and the time of expiry that the tool reports. *)
Definition acknowledged (res : RpcResponse) : option (CHash * Z) :=
  match res with
  | Res_SendTransaction hash exp | Res_SendSignedTransaction hash exp => Some (hash, exp)
  | _ => None
  end.

(** A posted transaction is a submission at the node, whose reply the tool reads. *)
Lemma posted_served url body txn w w1 r hash :
  respond (rest_root_route (tn_state (node w)) access_tokens) POST (url_path url) (web_request w)
    = handled (Some v1.submit_txn) →
  json_of_transaction txn = Ok body → http_post url body w = (w1, Ok r) →
  map_response json_hash r = Ok hash →
  ∃ now1 now2, Service.run (Req_Submit (Submit.ST_Move (transaction_of txn)) now1 now2) (node w)
               = (node w1, Ok (Rep_Hash (hash_of hash))).
Proof.
  intros Hroute Hbody Hpost Hres.
  destruct (extract_submit (url_path url) body txn w Hbody) as (now1 & now2 & Hex).
  apply post_served in Hpost. rewrite (exchange_handled POST _ _ _ _ _ Hroute Hex) in Hpost.
  injection Hpost as Hn Ho. exists now1, now2.
  unfold Service.run in Hn, Ho |- *. unfold rthen, rret in Hn, Ho |- *.
  destruct (Service.submit _ now1 now2 (node w)) as [n [h|e|]] eqn:Hs; simpl in Hn, Ho; [| |done].
  - destruct (decode_hash r h) as (h' & Hj & Hh); [by injection Ho|].
    rewrite (answered_ok r (Rep_Hash h) _ json_hash h' (eq_sym Ho)) in Hres by done.
    injection Hres as <-. by rewrite Hh, Hn.
  - destruct (answered_err r e _ json_hash (eq_sym Ho)) as [err Herr].
    { by eapply Service.submit_error_status. }
    by rewrite Herr in Hres.
Qed.

(** A submission by the tool. *)
Lemma submit_routed v url txn kind w :
  url_path (request_url kind) = "/" →
  endpoint_url (new_action (Act_SendSignedTransaction v txn) kind) = Ok url →
  respond (rest_root_route (tn_state (node w)) access_tokens) POST (url_path url) (web_request w)
  = handled (Some v1.submit_txn).
Proof. intros Hbase Hurl. by apply (request_routed _ _ _ w) in Hurl as [_ Hroute]. Qed.

Lemma signed_served v txn kind w w1 res hash exp :
  url_path (request_url kind) = "/" →
  perform (Act_SendSignedTransaction v txn) kind w = (w1, Ok res) → acknowledged res = Some (hash, exp) →
  ∃ now1 now2, Service.run (Req_Submit (Submit.ST_Move (transaction_of txn)) now1 now2) (node w)
               = (node w1, Ok (Rep_Hash (hash_of hash))).
Proof.
  intros Hbase. unfold perform, execute_action.
  replace (rpc_action (new_action (Act_SendSignedTransaction v txn) kind))
    with (Act_SendSignedTransaction v txn) by by destruct kind.
  unfold rthen, rlift, post_request, rmap_err, rret.
  destruct (endpoint_url _) as [url|e|] eqn:Hurl; [|done..].
  destruct (json_of_transaction txn) as [body|e|] eqn:Hbody; simpl; [|done..].
  destruct (http_post url body w) as [w' [r|e|]] eqn:Hpost; simpl; [|done..].
  destruct (map_response json_hash r) as [h|e|] eqn:Hres; [|done..]. intros [= <- <-] [= <- _].
  exact (posted_served url body txn w w' r h (submit_routed v url txn kind w Hbase Hurl) Hbody Hpost Hres).
Qed.

Lemma sent_served v payload kind w w1 res hash exp :
  url_path (request_url kind) = "/" →
  perform (Act_SendTransaction v payload) kind w = (w1, Ok res) → acknowledged res = Some (hash, exp) →
  ∃ txn w0 now1 now2, submits (Act_SendTransaction v payload) kind txn ∧
    Service.run (Req_Submit (Submit.ST_Move (transaction_of txn)) now1 now2) (node w0)
    = (node w1, Ok (Rep_Hash (hash_of hash))).
Proof.
  intros Hbase. destruct kind as [helper|helper]; unfold perform, execute_action; cbn [rpc_action new_action];
    unfold rthen at 1, rlift at 1; (destruct (endpoint_url _) as [url|e|] eqn:Hurl; [|done..]);
    unfold signed_transaction_request_helper; cbn [rpc_request_kind new_action]; [|done].
  unfold rthen, rlift, post_request, rmap_err, rret.
  destruct (account_information_url _ _ _) as [u|e|]; [|done..].
  destruct (fetch_account_information_helper u w) as [w2 [account|e|]]; [|done..].
  destruct (SignedTxn.create_transaction helper payload _ _ w2) as [w3 [txn|e|]] eqn:Htxn; [|done..].
  destruct (json_of_transaction txn) as [body|e|] eqn:Hbody; simpl; [|done..].
  destruct (http_post url body w3) as [w4 [r|e|]] eqn:Hpost; simpl; [|done..].
  destruct (map_response json_hash r) as [h|e|] eqn:Hres; [|done..]. intros [= <- <-] [= <- _].
  pose proof (submit_routed v url txn (Kind_SignedTransaction helper) w3 Hbase Hurl) as Hroute.
  destruct (posted_served url body txn w3 w4 r h Hroute Hbody Hpost Hres) as (now1 & now2 & Hrun).
  exists txn, w3, now1, now2. split; [|done]. by exists helper, (RpcClient.sequence_number account), w2, w3.
Qed.

Definition is_submission (action : RpcAction) : bool :=
  match action with
  | Act_SendTransaction _ _ | Act_SendSignedTransaction _ _ => true
  | _ => false
  end.

Lemma submission_served action kind w w1 res hash exp :
  url_path (request_url kind) = "/" → is_submission action = true →
  perform action kind w = (w1, Ok res) → acknowledged res = Some (hash, exp) →
  ∃ txn w0 now1 now2, submits action kind txn ∧
    Service.run (Req_Submit (Submit.ST_Move (transaction_of txn)) now1 now2) (node w0)
    = (node w1, Ok (Rep_Hash (hash_of hash))).
Proof.
  intros Hbase Hsub Hrun Hack. destruct action; try done; [by eapply sent_served|].
  destruct (signed_served _ _ _ _ _ _ _ _ Hbase Hrun Hack) as (now1 & now2 & Hr). by exists t, w, now1, now2.
Qed.

(** A lookup by the tool is a lookup at the node, which it does not change. *)
Lemma lookup_served v h kind url w w' r :
  url_path (request_url kind) = "/" →
  endpoint_url (new_action (Act_TransactionInfo v h) kind) = Ok url →
  http_get url w = (w', Ok r) →
  perform (Act_TransactionInfo v h) kind w
    = (w', omap_ok Res_TransactionInfo (map_response json_transaction_info r)) ∧
  Some (response_status r, response_text r)
    = Service.respond_with encode encode_error (Service.run (lookup_request v (hash_of h)) (node w)).2 ∧
  node w' = node w.
Proof.
  intros Hbase Hurl Hget. split.
  - unfold perform, execute_action.
    replace (rpc_action (new_action (Act_TransactionInfo v h) kind))
      with (Act_TransactionInfo v h) by by destruct kind.
    rewrite Hurl. unfold rthen, rlift, get_request, rmap_err, rret. rewrite Hget. simpl.
    by destruct (map_response json_transaction_info r).
  - apply (request_routed _ _ _ w) in Hurl as [Hpath Hroute]; [|done..].
    apply get_served in Hget. rewrite Hpath in Hget, Hroute.
    replace (served_by _ (Act_TransactionInfo v h)) with (Some (lookup_handler v)) in Hroute by by destruct v.
    rewrite (exchange_handled GET _ _ _ _ _ Hroute (extract_hash v h w)) in Hget.
    destruct v; unfold Service.run, lookup_request in Hget |- *;
      rewrite Service.reading_run in Hget |- *; by injection Hget as <- <-.
Qed.

(** The answer to a lookup of a pending transaction, as the tool reads it. *)
Lemma pending_answer v n tx r :
  backlog_get (tx_digest tx) (Storage.backlog (Api.storage (tn_state n))) = Some tx →
  Some (response_status r, response_text r)
    = Service.respond_with encode encode_error (Service.run (lookup_request v (tx_digest tx)) n).2 →
  match Service.pending_info (tn_state n) tx with
  | Ok _ => ∃ info, map_response json_transaction_info r = Ok info ∧ RpcClient.info_status info = St_Pending
  | Err _ => ∃ e, map_response json_transaction_info r = Err e
  | Panic => False
  end.
Proof.
  intros Hb Hr. destruct (Service.pending_lookups (tn_state n) tx Hb) as (Hv1 & Hv2 & Hv3).
  specialize (Hv3 None (or_introl eq_refl)).
  pose proof (Service.pending_info_fields (tn_state n) tx) as Hf.
  destruct v; unfold lookup_request, Service.run in Hr;
    rewrite Service.reading_run, ?Hv1, ?Hv2, ?Hv3 in Hr; clear Hv1 Hv2 Hv3;
    (destruct (Service.pending_info (tn_state n) tx) as [i|e|]; cbn [omap_ok fst snd] in Hr;
     [|exact (answered_err r e _ json_transaction_info Hr Hf)|discriminate Hr]);
    destruct Hf as (_ & Hst & _).
  - destruct (decode_info_v1 r i) as (t & Hj & Ht); [by injection Hr|]. exists (Info_V1 t).
    rewrite (answered_ok r _ _ json_transaction_info _ Hr (λ _, Hj)). split; [done|]. simpl. by rewrite Ht.
  - destruct (decode_info_v2 r i) as (t & Hj & Ht); [by injection Hr|]. exists (Info_V2 t).
    rewrite (answered_ok r _ _ json_transaction_info _ Hr (λ _, Hj)). split; [done|]. simpl. by rewrite Ht.
  - destruct (decode_info_v3 r (Api.chain_id (tn_state n)) i) as (t & Hj & Ht); [by injection Hr|]. exists t.
    rewrite (answered_ok r _ _ json_transaction_info _ Hr (λ _, Hj)). split; [done|]. by rewrite Ht.
Qed.

(** C6 A transaction that the tool has submitted is seen by the tool.  When the tool
    reports a submission, of a transaction that it was given or that it has signed for
    the payload, the reported hash is the digest of the transaction at the node.  As long
    as the node neither accepts another submission nor executes a block, a query of the
    tool for this hash that is answered gives the status pending in each version of the
    API, or an error if the node cannot describe the transaction.  The address of the
    node has no path. *)
Theorem tool_sees_submission action kind w w1 res hash exp :
  url_path (request_url kind) = "/" → is_submission action = true →
  perform action kind w = (w1, Ok res) → acknowledged res = Some (hash, exp) →
  ∃ txn, submits action kind txn ∧
    let tx := smr_from (Submit.ST_Move (transaction_of txn)) in
    hash_of hash = tx_digest tx ∧
    ∀ v kind' w2 url w3 r,
      url_path (request_url kind') = "/" → tn_state (node w2) = tn_state (node w1) →
      endpoint_url (new_action (Act_TransactionInfo v hash) kind') = Ok url →
      http_get url w2 = (w3, Ok r) →
      match Service.pending_info (tn_state (node w1)) tx with
      | Ok _ => ∃ info, perform (Act_TransactionInfo v hash) kind' w2
                        = (w3, Ok (Res_TransactionInfo info)) ∧
                        RpcClient.info_status info = St_Pending
      | Err _ => ∃ e, perform (Act_TransactionInfo v hash) kind' w2 = (w3, Err e)
      | Panic => False
      end.
Proof.
  intros Hbase Hsub Hsend Hack.
  destruct (submission_served _ _ _ _ _ _ _ Hbase Hsub Hsend Hack) as (txn & w0 & now1 & now2 & Htxn & Hrun).
  exists txn. split; [done|]. set (tx := smr_from _).
  apply Service.submit_pending in Hrun as ([= Hh] & Hb & _). fold tx in Hh, Hb. split; [done|].
  intros v kind' w2 url w3 r Hbase' Hsame Hurl Hget.
  destruct (lookup_served v hash kind' url w2 w3 r Hbase' Hurl Hget) as (-> & Hr & _).
  rewrite <-Hsame in Hb |- *. rewrite Hh in Hr.
  apply (pending_answer v _ _ _ Hb) in Hr.
  destruct (Service.pending_info (tn_state (node w2)) tx) as [i|e|]; [| |done].
  - destruct Hr as (info & -> & Hst). by exists info.
  - destruct Hr as [err ->]. by eexists.
Qed.

(** ** The status that the tool reports *)

(** The archive of the node has recorded the status and the block of the transaction,
    and it is not pending. *)
Definition recorded (s : Api.ApiServerState) (h : Hash) (st : TxExecutionStatus) : Prop :=
  backlog_get h (Storage.backlog (Api.storage s)) = None ∧
  archive_get_status h (Api.reader s) = Ok (Some st) ∧
  ∃ block, get_block_hash_by_txn_hash (Api.reader s) h = Ok (Some block).

Lemma finalized_block s h b o :
  Api.get_finalized_transaction_output_and_block_info s h b = Ok o →
  ∃ block, get_block_hash_by_txn_hash (Api.reader s) h = Ok (Some block).
Proof.
  unfold Api.get_finalized_transaction_output_and_block_info.
  destruct (get_txn_output _ h); simpl; [|done..].
  destruct (get_block_hash_by_txn_hash _ h) as [[block|]|e|]; simpl; [|done..]. by eexists.
Qed.

Lemma user_recorded s h i :
  Api.get_transient_transaction_by_hash_internal s h true = Ok (Some i) →
  is_final (ApiState.info_status i) = true → recorded s h (ApiState.info_status i).
Proof.
  intros Ho Hf. pose proof (Api.transient_status _ _ _ _ Ho) as Hst. revert Ho.
  unfold Api.get_transient_transaction_by_hash_internal. rewrite Hst.
  destruct (Storage.get_transaction_by_hash _ h) as [[t|]|e|]; simpl; [|done..].
  unfold Storage.get_transaction_status in Hst. unfold recorded.
  destruct (backlog_get h _); [by injection Hst as Hst; rewrite <-Hst in Hf|].
  intros Ho. split_and!; [done..|].
  destruct (Api.get_finalized_transaction_output_and_block_info s h true) as [o|e|] eqn:Hfin;
    [by eapply finalized_block| |]; by destruct (ApiState.info_status i).
Qed.

Lemma user_absent s h h' :
  Api.get_transient_transaction_by_hash_internal s h true = Err (ApiErr.TransactionNotFound h') →
  backlog_get h (Storage.backlog (Api.storage s)) = None.
Proof.
  unfold Api.get_transient_transaction_by_hash_internal, Storage.get_transaction_by_hash,
    Storage.get_transaction_status.
  destruct (backlog_get h _) as [t|]; [|done]. simpl.
  destruct (Api.create_transaction_info s h t None St_Pending None) as [i|e|] eqn:Hc; [done| |done].
  intros [= ->]. by destruct (Api.create_info_found s h t None St_Pending None); exists h'.
Qed.

Lemma automated_recorded s h i :
  backlog_get h (Storage.backlog (Api.storage s)) = None →
  Api.get_automated_transaction_by_hash_internal s h true = Ok (Some i) →
  recorded s h (ApiState.info_status i).
Proof.
  intros Hb. unfold Api.get_automated_transaction_by_hash_internal.
  destruct (get_automated_transaction_data _ h) as [[[m t]|]|e|]; simpl; [|done..].
  destruct (archive_get_status h _) as [[st|]|e|] eqn:Hst; simpl; [|done..].
  destruct (Api.get_finalized_transaction_output_and_block_info s h true) as [[[o|] b]|e|] eqn:Hfin;
    simpl; [|done..].
  destruct (Api.create_automated_transaction_info _ _ _ _ _ _) as [i'|e|] eqn:Hc; simpl; [|done..].
  intros [= <-]. apply Api.create_automated_info_fields in Hc as (_ & _ & -> & _).
  split_and!; [done..|]. by eapply finalized_block.
Qed.

Lemma meta_recorded s h m :
  backlog_get h (Storage.backlog (Api.storage s)) = None →
  Api.get_block_metadata_by_hash s h = Ok (Some m) → recorded s h (meta_status m).
Proof.
  intros Hb. unfold Api.get_block_metadata_by_hash, Api.get_block_metadata_by_hash_internal.
  destruct (is_block_metadata_hash _ h) as [[]|e|]; simpl; [|done..].
  destruct (archive_get_status h _) as [[st|]|e|] eqn:Hst; simpl; [|done..].
  destruct (Api.get_finalized_transaction_output_and_block_info s h true) as [[o b]|e|] eqn:Hfin;
    simpl; [|done..].
  destruct (Api.api_move_transaction_output _ o) as [[o'|]|e|]; simpl; [|done..].
  intros [= <-]. split_and!; [done..|]. by eapply finalized_block.
Qed.

(** What the node answers to a lookup. *)
Definition describes (reply : TxReply) (i : TransactionInfoV2) : Prop :=
  reply = Rep_Info_v1 (Some (info_v1 i)) ∨ reply = Rep_Info_v2 i ∨
  ∃ c, reply = Rep_Transaction_v3 c (txn_from_info i).

Definition source (s : Api.ApiServerState) (h : Hash) (reply : TxReply) : Prop :=
  reply = Rep_Info_v1 None ∨
  (∃ i, describes reply i ∧
     (is_final (ApiState.info_status i) = true → recorded s h (ApiState.info_status i))) ∨
  (∃ c m, reply = Rep_Transaction_v3 c (txn_from_meta m) ∧ recorded s h (meta_status m)).

Lemma user_source s h o reply :
  Api.get_user_transaction_by_hash s h true = Ok o →
  (∀ i, o = Some i → describes reply i) → (o = None → reply = Rep_Info_v1 None) → source s h reply.
Proof.
  unfold Api.get_user_transaction_by_hash, Api.get_user_transaction_by_hash_internal, Api.public.
  destruct (Api.get_transient_transaction_by_hash_internal s h true) as [o'|e|] eqn:Ho; [|done..].
  intros [= ->] Hd Hn. destruct o as [i|]; [|left; by apply Hn]. right. left. exists i.
  split; [by apply Hd|]. by apply user_recorded.
Qed.

(** The lookup of the third version: a transaction of a user, an automated one or the
    metadata of a block. *)
Lemma v3_source s h c t :
  Rest_Handlers.transaction_by_hash_v3 s h None = Ok (c, t) → source s h (Rep_Transaction_v3 c t).
Proof.
  unfold Rest_Handlers.transaction_by_hash_v3, Controllers.lookup_transaction, Controllers.api.
  unfold Api.get_transaction_by_hash, Api.get_transaction_by_hash_internal, Api.public.
  unfold Api.get_user_transaction_by_hash_internal.
  destruct (Api.get_transient_transaction_by_hash_internal s h true) as [[i|]|e|] eqn:Hu; simpl; [|done| |done].
  { intros [= <- <-]. right. left. exists i. split; [right; right; by eexists|by apply user_recorded]. }
  destruct e; simpl; try done. apply user_absent in Hu.
  destruct (Api.get_automated_transaction_by_hash_internal s h true) as [[i|]|e|] eqn:Ha; simpl; [|done| |done].
  { intros [= <- <-]. right. left. exists i. split; [right; right; by eexists|].
    intros _. by apply automated_recorded. }
  destruct e; simpl; try done.
  destruct (Api.get_block_metadata_by_hash s h) as [[m|]|e|] eqn:Hm; simpl; [|done..].
  intros [= <- <-]. right. right. exists (Api.chain_id s), m. split; [done|by apply meta_recorded].
Qed.

Lemma lookup_source v h n reply :
  (Service.run (lookup_request v h) n).2 = Ok reply → source (tn_state n) h reply.
Proof.
  destruct v; unfold lookup_request, Service.run; rewrite Service.reading_run; cbn [snd].
  - unfold Rest_Handlers.transaction_by_hash_v1.
    destruct (Api.get_user_transaction_by_hash (tn_state n) h true) as [o|[e]|] eqn:Ho; [| |done].
    + intros [= <-]. apply (user_source _ _ _ _ Ho); [|by intros ->].
      intros i ->. by left.
    + destruct e; simpl; try done. intros [= <-]. by left.
  - unfold Rest_Handlers.transaction_by_hash_v2, Controllers.api.
    destruct (Api.get_user_transaction_by_hash (tn_state n) h true) as [[i|]|e|] eqn:Ho; simpl; [|done..].
    intros [= <-]. apply (user_source _ _ _ _ Ho); [|done]. intros i' [= <-]. right. by left.
  - destruct (Rest_Handlers.transaction_by_hash_v3 (tn_state n) h None) as [[c t]|e|] eqn:Ho; simpl; [|done..].
    intros [= <-]. by apply v3_source.
Qed.

Lemma lookup_error v h n e :
  (Service.run (lookup_request v h) n).2 = Err e → 400 ≤ status_code e < 600.
Proof.
  intros He. apply Service.error_status. intros err code ->. revert He.
  destruct v; unfold lookup_request, Service.run; rewrite Service.reading_run; cbn [snd].
  - unfold Rest_Handlers.transaction_by_hash_v1.
    destruct (Api.get_user_transaction_by_hash (tn_state n) h true) as [o|[[]]|]; done.
  - unfold Rest_Handlers.transaction_by_hash_v2, Controllers.api.
    destruct (Api.get_user_transaction_by_hash (tn_state n) h true) as [[i|]|e|]; done.
  - unfold Rest_Handlers.transaction_by_hash_v3, Controllers.api.
    destruct (Controllers.lookup_transaction h None (tn_state n)) as [[t|]|e|]; done.
Qed.

Lemma perform_info v h kind w :
  perform (Act_TransactionInfo v h) kind w
  = match endpoint_url (new_action (Act_TransactionInfo v h) kind) with
    | Ok url =>
        match http_get url w with
        | (w', Ok r) => (w', omap_ok Res_TransactionInfo (map_response json_transaction_info r))
        | (w', Err e) => (w', Err (RequestError e))
        | (w', Panic) => (w', Panic)
        end
    | Err e => (w, Err e)
    | Panic => (w, Panic)
    end.
Proof.
  unfold perform, execute_action.
  replace (rpc_action (new_action (Act_TransactionInfo v h) kind))
    with (Act_TransactionInfo v h) by (by destruct kind).
  unfold rthen, rlift, get_request, rmap_err, rret.
  destruct (endpoint_url _) as [url|e|]; [|done..].
  destruct (http_get url w) as [w' [r|e|]]; simpl; [|done..].
  by destruct (map_response json_transaction_info r).
Qed.

(** A query that the tool is told a final status for. *)
Lemma query_recorded v h kind w w' info :
  url_path (request_url kind) = "/" →
  perform (Act_TransactionInfo v h) kind w = (w', Ok (Res_TransactionInfo info)) →
  is_final (RpcClient.info_status info) = true →
  recorded (tn_state (node w')) (hash_of h) (RpcClient.info_status info).
Proof.
  intros Hbase Hp Hf. pose proof Hp as Hq. rewrite perform_info in Hq.
  destruct (endpoint_url _) as [url|e|] eqn:Hurl; [|done..].
  destruct (http_get url w) as [w1 [r|e|]] eqn:Hget; [|done..]. injection Hq as -> Hq.
  destruct (lookup_served v h kind url w w' r Hbase Hurl Hget) as (_ & Hr & ->).
  destruct (map_response json_transaction_info r) as [info'|e|] eqn:Hm; [|done..]. injection Hq as ->.
  destruct (Service.run (lookup_request v (hash_of h)) (node w)).2 as [reply|e|] eqn:Hrun; [| |done].
  2: { destruct (answered_err r e _ json_transaction_info Hr (lookup_error _ _ _ _ Hrun)) as [err Herr].
       by rewrite Herr in Hm. }
  injection Hr as Hst Htx. unfold map_response in Hm. rewrite success_status, Hst in Hm. simpl in Hm.
  destruct (json_transaction_info r) as [t|e|] eqn:Hj; [|done..]. injection Hm as ->.
  destruct (lookup_source _ _ _ _ Hrun) as [->|[(i & Hd & Hrec)|(c & m & -> & Hrec)]].
  - destruct (decode_missing_v1 r Htx) as [e He]. by rewrite He in Hj.
  - assert (RpcClient.info_status info = ApiState.info_status i) as Heq.
    { destruct Hd as [->|[->|[c ->]]].
      - destruct (decode_info_v1 r i Htx) as (t & Ht & Hs). rewrite Ht in Hj. by injection Hj as <-.
      - destruct (decode_info_v2 r i Htx) as (t & Ht & Hs). rewrite Ht in Hj. by injection Hj as <-.
      - destruct (decode_info_v3 r c i Htx) as (t & Ht & Hs). rewrite Ht in Hj. by injection Hj as <-. }
    rewrite Heq in Hf |- *. by apply Hrec.
  - by rewrite (decode_meta_v3 r c m info Htx Hj).
Qed.

(** The end of a wait. *)
Lemma await_recorded fuel v h exp kind delay w w' info :
  url_path (request_url kind) = "/" →
  await_finalized fuel v h exp kind delay w = (w', Ok info) →
  recorded (tn_state (node w')) (hash_of h) (RpcClient.info_status info).
Proof.
  intros Hbase. revert w. induction fuel as [|fuel IH]; intros w; [done|]. cbn [await_finalized].
  unfold rthen at 1, rmap_err at 1.
  destruct (await_round v h exp kind delay w) as [w1 [[i|]|e|]] eqn:Hround; cbn [omap_err]; [|apply IH|done..].
  intros [= <- <-]. revert Hround. unfold await_round, rthen at 1, rtry.
  destruct (perform (Act_TransactionInfo v h) kind w) as [w2 [resp|e|]] eqn:Hp; [| |done].
  2: { unfold rthen, SignedTxn.since_the_epoch, rlift, rret, rfail. repeat case_match; intros; simplify_eq. }
  destruct resp; try (by unfold rthen, rfail).
  destruct (is_final (RpcClient.info_status info)) eqn:Hf.
  - unfold rthen, rret. intros [= <- <-]. by eapply query_recorded.
  - unfold rthen, rmodify, SignedTxn.since_the_epoch, rlift, rret, rfail. repeat case_match; intros; simplify_eq.
Qed.

(** A submission whose wait ends with a success. *)
Lemma success_recorded action kind w w1 res hash exp fuel v kind' exp' delay w2 w3 info :
  url_path (request_url kind) = "/" → url_path (request_url kind') = "/" → is_submission action = true →
  perform action kind w = (w1, Ok res) → acknowledged res = Some (hash, exp) →
  await_finalized fuel v hash exp' kind' delay w2 = (w3, Ok info) →
  ∃ txn, submits action kind txn ∧
    hash_of hash = tx_digest (smr_from (Submit.ST_Move (transaction_of txn))) ∧
    recorded (tn_state (node w3)) (hash_of hash) (RpcClient.info_status info).
Proof.
  intros Hbase Hbase' Hsub Hsend Hack Hwait.
  destruct (submission_served _ _ _ _ _ _ _ Hbase Hsub Hsend Hack) as (txn & w0 & now1 & now2 & Htxn & Hrun).
  apply Service.submit_pending in Hrun as ([= Hh] & _). exists txn. split_and!; [done..|].
  by eapply await_recorded.
Qed.
End end_to_end.

(** ** A transaction that is sent until it succeeds *)
Section sending.
Context `{TxEnv} (url_path : CUrl → string) `{!SharedApi url_path}.
Context `{ServiceEnv}.
Context {Digest IpAddr : Type} `{EqDecision Digest} `{EqDecision IpAddr}.
Context (digest : string → Digest).
Context `{!Ntex (KycToken Digest IpAddr) (WebRequest IpAddr)} `{!NtexLaws digest}.
Context `{!Deployed (Digest:=Digest) (IpAddr:=IpAddr)} `{!DeployedLaws url_path}.
Context `{!StorageLaws SmrTransaction Hash}.
Import Sending.

(** C5 The tool reports a success only for a transaction that the node has recorded as
    successful.  When the tool has sent a transaction and waited for it, as the commands
    do, and reports the transaction, then it has signed a transaction for the payload,
    with the gas that was confirmed, whose digest at the node is the hash it has waited
    for; and at the end of the wait the archive of the node has under this digest the
    status success and the hash of a block, and the transaction is not pending any
    more.  This holds in each version of the API, at a node whose address has no path. *)
Theorem tool_reports_success fuel self s s' info :
  let v := api_version (rest_options (transaction_option self)) in
  (∀ s0 signer, Profiles.signer_profile_helper (transaction_option self) Type_Execute false s = (s0, Ok signer) →
     url_path (sp_rpc_url signer) = "/") →
  send_transaction fuel self UntilSuccess s = (s', Ok info) →
  ∃ signer s0 gas s1 txn hash w,
    Profiles.signer_profile_helper (transaction_option self) Type_Execute false s = (s0, Ok signer) ∧
    confirm_or_modify_gas_parameters fuel self (simulation_helper signer) s0 = (s1, Ok gas) ∧
    submits (Act_SendTransaction v (payload self))
      (Kind_SignedTransaction (SignedTxn.new_user_object signer gas)) txn ∧
    hash_of hash = tx_digest (smr_from (Submit.ST_Move (transaction_of txn))) ∧
    recorded (tn_state (node w)) (hash_of hash) St_Success ∧
    check_transaction_info self hash {| world := w; home := home s1 |} = (s', Ok info).
Proof.
  intros v Hbase Hsend.
  destruct (send_transaction_run fuel self s s' info Hsend)
    as (signer & s0 & gas & s1 & hash & exp & w2 & w3 & final & Hsig & Hgas & Hperf & Hwait & Hst & Hcheck).
  specialize (Hbase _ _ Hsig). fold v in Hperf, Hwait.
  destruct (success_recorded url_path digest (Act_SendTransaction v (payload self))
    (Kind_SignedTransaction (SignedTxn.new_user_object signer gas)) (world s1) w2 _ hash exp fuel v
    (public_query (sp_rpc_url signer)) exp (RETRY_DELAY * 1000) w2 w3 final
    Hbase Hbase eq_refl Hperf eq_refl Hwait) as (txn & Htxn & Hh & Hrec).
  rewrite Hst in Hrec. by exists signer, s0, gas, s1, txn, hash, w3.
Qed.
End sending.
