(* ===== verification/EndToEndExamples.v ===== *)
(** * The tool and the node at concrete data

    The node of [ServerExamples] behind a network that loses nothing; numbers are
    written in unary, so that encodings can be read back.  While the tool pauses,
    the node executes a block with transaction 1. *)

From S2P Require Import Prelude Urls Authorization Limiters Transactions ApiState Handlers Router Server.
From S2P Require Import ApiExamples ServerExamples CliTypes RpcClient TxOptions Endpoints EndpointsExamples EndToEnd.
From stdpp Require Import base tactics option list sets strings countable.
From Stdlib Require Import ZArith Lia Ascii.
Import Matching Routes Reach.
Local Open Scope Z_scope.

(** ** Encodings *)
Fixpoint ee_xs (n : nat) : string := match n with O => "" | S n' => String "x"%char (ee_xs n') end.

Definition ee_put (z : Z) : string := ee_xs (Pos.to_nat (encode z)).
Definition ee_take (s : string) : option Z := decode (Pos.of_nat (String.length s)).

Lemma ee_xs_length n : String.length (ee_xs n) = n.
Proof. induction n; simpl; congruence. Qed.

Lemma ee_take_put z : ee_take (ee_put z) = Some z.
Proof. unfold ee_take, ee_put. by rewrite ee_xs_length, Pos2Nat.id, decode_encode. Qed.

Lemma ee_put_text z : Urls.joinable (ee_put z) = true.
Proof.
  unfold ee_put. destruct (Pos.to_nat (encode z)) as [|n] eqn:Hn; [lia|]. clear Hn.
  assert (∀ k, Urls.all_chars Urls.is_pchar (ee_xs k) = true) as Hall.
  { unfold Urls.all_chars. induction k as [|k IH]; [done|].
    cbn [ee_xs String.list_ascii_of_string forallb]. by rewrite IH. }
  by apply Urls.pchar_joinable.
Qed.

Definition ee_status (st : TxExecutionStatus) : string :=
  match st with
  | St_Success => "success" | St_Fail => "fail" | St_Invalid => "invalid"
  | St_Pending => "pending" | St_PendingAfterExecution => "executed"
  end.

Definition ee_status_of (s : string) : TxExecutionStatus :=
  if String.eqb s "success" then St_Success
  else if String.eqb s "fail" then St_Fail
  else if String.eqb s "invalid" then St_Invalid
  else if String.eqb s "pending" then St_Pending
  else St_PendingAfterExecution.

Definition ee_encode (r : TxReply) : string :=
  match r with
  | Rep_Hash h => ee_put h
  | Rep_Info_v1 (Some i) => "1" +:+ ee_status i.2
  | Rep_Info_v2 i => "2" +:+ ee_status (ApiState.info_status i)
  | Rep_Transaction_v3 _ t => "2" +:+ ee_status t.2
  | _ => ""
  end.

(** ** The tool *)
#[local] Instance ee_cli : CliEnv := {|
  Address := Z; AddressParseError := string; show_address := ee_put;
  address_from_str s := Ok (Z.of_nat (String.length s));
  address_from_str_strict s := Ok (Z.of_nat (String.length s));
  to_canonical_string := ee_put;
  CHash := Z; show_hash := ee_put; CUrl := string;
  TransactionPayload := string; CliTypes.SignedTransaction := Z; ViewRequest := string;
  TypeTag := string; Identifier := string; AccountInfo := Z;
  InfoV1 := TxExecutionStatus; InfoV2 := TxExecutionStatus; GasV1 := Z; GasV2 := Z;
  MoveListV1 := string; ResourcesV2 := string; ModulesV2 := string;
  ResourcesV3 := string; ModulesV3 := string; FaucetStatus := string;
  HttpResponse := Z * string;
  HexError := string; SerdeError := string; IoError := string; CryptoError := string;
  DkgErr := string; EncryptionError := string; RocksError := string; AnyhowError := string;
  CliProfileError := string; GenesisBlobErr := string; GenesisConfigErr := string;
  UrlParseError := string; ReqwestErr := string; BcsErr := string; FileIoErr := string;
  ConsoleErr := string; InquireErr := string; CryptoMaterialError := string;
|}.

Definition ee_path (u : string) : string := string_drop 11 u.

(** The framework takes a hash from the end of the path, a transaction from the body. *)
Definition ee_last (path : string) : option Z :=
  match rev (segments path) with s :: _ => ee_take (Urls.decode s) | [] => None end.

Definition ee_extract (h : Handler) (path body : string) : option TxRequest :=
  if bool_decide (h = handler v1.submit_txn)
  then option_map (λ t : Z, Req_Submit (Submit.ST_Move (t : Server.SignedTransaction))
                              (0 : Instant) (0 : Instant)) (ee_take body)
  else if bool_decide (h = handler v1.transaction_by_hash)
  then option_map (λ t : Z, Req_ByHash_v1 (t : Hash)) (ee_last path)
  else if bool_decide (h = handler v2.transaction_by_hash)
  then option_map (λ t : Z, Req_ByHash_v2 (t : Hash)) (ee_last path)
  else if bool_decide (h = handler v3.transaction_by_hash)
  then option_map (λ t : Z, Req_ByHash_v3 (t : Hash) None) (ee_last path)
  else None.

Definition ee_error (e : ErrResp) : string := message e.

(** The node serves a request; what is not for the transaction service is the number 7. *)
Definition ee_other (n : TxNode) : TxNode * option (Z * string) := (n, Some (200, ee_put 7)).

Definition ee_serve (m : Method) (path body : string) (n : TxNode) : TxNode * option (Z * string) :=
  match respond (rest_root_route (tn_state n) ex_tokens) m path ex_request with
  | Handled h =>
      match ee_extract h path body with
      | Some req => let (n', o) := Service.run req n in (n', Service.respond_with ee_encode ee_error o)
      | None => ee_other n
      end
  | _ => ee_other n
  end.

Definition ee_send (m : Method) (u body : string) : M TxNode string (Z * string) :=
  λ n, match ee_serve m (ee_path u) body n with
       | (n', Some r) => (n', Ok r)
       | (n', None) => (n', Err "connection closed")
       end.

#[local] Instance ee_rpc : RpcEnv := {|
  World := TxNode;
  clock_ms _ := 0;
  sleep _ n := (Service.session [Service.Executed ([ApiExamples.ex_tx 1] : Block) [] (tt : MoveStore)] n).1;
  http_get u := ee_send GET u "";
  http_post u body := ee_send POST u body;
  fetch_chain_id_of_url u n := (n, Ok 6);
  is_success r := (200 <=? r.1) && (r.1 <? 300);
  status_error r := Ok tt;
  body_text r := Ok r.2;
  json_gas_price r := Ok (Gas_V2 (100 : @GasV2 ee_cli));
  json_account_info r := match ee_take r.2 with Some a => Ok a | None => Err "account" end;
  json_transaction_info r :=
    match r.2 with
    | String c s => if Ascii.eqb c "1"%char then Ok (Info_V1 (ee_status_of s : @InfoV1 ee_cli))
                    else Ok (Info_V2 (ee_status_of s : @InfoV2 ee_cli))
    | EmptyString => Err "empty"
    end;
  json_hash r := match ee_take r.2 with Some h => Ok h | None => Err "hash" end;
  json_move_list r := Ok (List_V1 (r.2 : @MoveListV1 ee_cli));
  json_faucet_status r := Ok r.2;
  info_v1_status i := i;
  info_v2_status i := i;
  sequence_number i := i;
  url_join u s := Ok (ep_join u s);
  url_push u s := Some (ep_push u s);
  encode_hex := ee_put;
  show_type_tag := ep_text;
  show_identifier := ep_text;
  show_api_version v := match v with V1 => "v1" | V2 => "v2" | V3 => "v3" end;
  API_TAG_ACCOUNTS := "accounts"; API_TAG_TRANSACTIONS := "transactions";
  API_TAG_VIEW := "view"; API_TAG_WALLET := "wallet";
  ENDPOINT_ACCOUNT_MODULES := "modules"; ENDPOINT_ACCOUNT_RESOURCES := "resources";
  ENDPOINT_CHAIN_ID := "chain_id"; ENDPOINT_ESTIMATED_GAS_PRICE := "estimate_gas_price";
  ENDPOINT_FAUCET := "faucet"; ENDPOINT_SIMULATE_TRANSACTION := "simulate";
  ENDPOINT_SUBMIT_TRANSACTION := "submit";
  Ed25519PublicKey := Z; Ed25519PrivateKey := Z; RawTransaction := Z;
  raw_transaction sender sequence payload gas price expiration chain := expiration;
  sign_execute k raw pub := Ok raw;
  sign_simulate raw pub := Ok raw;
  expiration_timestamp_secs t := t;
  json_of_transaction t := Ok (ee_put t);
  json_of_view_request r := Ok r;
  show_reqwest e := e; show_cli_error e := "error"; debug_action a := "action";
  debug_string s := s; debug_status o := "status"; show_status st := "status";
|}.

Lemma ee_put_no_word z : ee_put z ∉ ["chain_id"; "parameters"; "estimate_gas_price"].
Proof.
  unfold ee_put. destruct (Pos.to_nat (encode z)) as [|n] eqn:Hn; [lia|]. cbn [ee_xs].
  intros Hin. rewrite !elem_of_cons in Hin. destruct Hin as [?|[?|[?|?%elem_of_nil]]]; done.
Qed.

#[local] Instance ee_shared_api : SharedApi (H0 := ee_rpc) ee_path.
Proof.
  split; try reflexivity.
  - intros u segs u' Hu Htext Hj. injection Hj as <-. by apply (ep_join_path u ("rpc" :: segs)).
  - intros u l s u' Hu Hl _ _ Hp. injection Hp as <-. by apply ep_push_path.
  - exact ee_put_text.
  - exact ee_put_text.
  - exact ep_text_joinable.
  - exact ep_text_joinable.
  - exact ee_put_no_word.
Qed.

#[local] Instance ee_deployed : Deployed (H := ee_cli) (H0 := ee_rpc) (Digest:=Z) (IpAddr:=Z) := {|
  node n := n;
  access_tokens := ex_tokens;
  web_request _ := ex_request;
  extract h path body _ := ee_extract h path body;
  EndToEnd.other _ _ _ n := ee_other n;
  EndToEnd.encode := ee_encode;
  encode_error := ee_error;
  response_status r := r.1;
  response_text r := r.2;
  transaction_of t := (t : Server.SignedTransaction);
  hash_of h := (h : Hash);
|}.

Lemma ee_last_hash v z :
  ee_last (path_of (Urls.encode <$>
    action_segments (H0 := ee_rpc) (Act_TransactionInfo v (z : @CHash ee_cli)))) = Some z.
Proof.
  unfold ee_last. rewrite segments_path_of by (apply Urls.encode_raw_list, (action_text (H0 := ee_rpc) ee_path)).
  cbn [action_segments fmap list_fmap rev app]. rewrite Urls.decode_encode. exact (ee_take_put z).
Qed.

Lemma ee_status_roundtrip st : ee_status_of (ee_status st) = st.
Proof. by destruct st. Qed.

Lemma ee_sent m u body n n' r :
  ee_send m u body n = (n', Ok r) → ee_serve m (ee_path u) body n = (n', Some (r.1, r.2)).
Proof.
  unfold ee_send. destruct (ee_serve m (ee_path u) body n) as [n1 [[st txt]|]]; [|done].
  by intros [= <- <-].
Qed.

#[local] Instance ee_deployed_laws : DeployedLaws (H := ee_cli) (H0 := ee_rpc) ee_path.
Proof.
  split.
  - intros u w w' r. change (http_get u w) with (ee_send GET u "" w).
    change (exchange GET (ee_path u) "" w) with (ee_serve GET (ee_path u) "" w). apply ee_sent.
  - intros u body w w' r. change (http_post u body w) with (ee_send POST u body w).
    change (exchange POST (ee_path u) body w) with (ee_serve POST (ee_path u) body w).
    apply ee_sent.
  - done.
  - done.
  - intros path body t w [= <-]. exists 0, 0. simpl. unfold ee_extract.
    rewrite bool_decide_eq_true_2 by done. by rewrite ee_take_put.
  - intros v h w. change (ee_extract (handler (lookup_handler v)) (path_of (Urls.encode <$>
      action_segments (Act_TransactionInfo v h))) "" = Some (lookup_request v (h : Hash))).
    unfold ee_extract. rewrite (ee_last_hash v h). by destruct v.
  - intros r h Hr. exists (h : @CHash ee_cli). split; [|done].
    change (match ee_take r.2 with Some h => Ok h | None => Err "hash" end = Ok (h : Z)).
    change (r.2 = ee_put h) in Hr. by rewrite Hr, ee_take_put.
  - intros [st txt] i Hr. exists (ApiState.info_status i : @InfoV1 ee_cli).
    change (txt = String "1"%char (ee_status (ApiState.info_status i))) in Hr. subst txt.
    split; [|done]. cbn -[ee_status_of ee_status]. by rewrite ee_status_roundtrip.
  - intros [st txt] Hr. change (txt = "") in Hr. subst txt. by eexists.
  - intros [st txt] i Hr. exists (ApiState.info_status i : @InfoV2 ee_cli).
    change (txt = String "2"%char (ee_status (ApiState.info_status i))) in Hr. subst txt.
    split; [|done]. cbn -[ee_status_of ee_status]. by rewrite ee_status_roundtrip.
  - intros [st txt] c i Hr. exists (Info_V2 (ApiState.info_status i : @InfoV2 ee_cli)).
    change (txt = String "2"%char (ee_status (ApiState.info_status i))) in Hr. subst txt.
    split; [|done]. cbn -[ee_status_of ee_status]. by rewrite ee_status_roundtrip.
  - intros [st txt] c m t Hr. change (txt = String "2"%char (ee_status (meta_status m))) in Hr. subst txt.
    cbn -[ee_status_of ee_status]. rewrite ee_status_roundtrip. by intros [= <-].
Qed.

(** ** A submission and a query *)
Definition ee_signed : @RpcRequestKind ee_cli ee_rpc :=
  Kind_SignedTransaction
    {| txn_sender_address := (5 : @Address ee_cli);
       txn_sender_pub_key := (1 : @Ed25519PublicKey ee_cli ee_rpc);
       signer_key_type := Key_Execute (2 : @Ed25519PrivateKey ee_cli ee_rpc);
       max_gas_amount := 10; gas_unit_price := 1;
       expiration_period_secs := 9; st_url := ("http://node/" : @CUrl ee_cli); RpcClient.chain_id := 6 |}.
Definition ee_kind : @RpcRequestKind ee_cli ee_rpc :=
  Kind_PublicQuery {| pq_url := ("http://node/" : @CUrl ee_cli) |}.
Definition ee_action : @RpcAction ee_cli :=
  Act_SendTransaction V3 ("payload" : @TransactionPayload ee_cli).
Definition ee_hash : @CHash ee_cli := 9.

Definition ee_submitted : TxNode := (Client.perform ee_action ee_signed ex_started).1.

Lemma ee_submits :
  (Client.perform ee_action ee_signed ex_started).2 = Ok (Res_SendTransaction ee_hash 9).
Proof. vm_compute. reflexivity. Qed.

Definition ee_url : @CUrl ee_cli := "http://node/rpc/v3/transactions/" +:+ ee_put 9.

Lemma ee_answered : is_ok (@http_get ee_cli ee_rpc ee_url ee_submitted).2 = true.
Proof. vm_compute. reflexivity. Qed.

Lemma ee_described : is_ok (Service.pending_info (tn_state ee_submitted) (ApiExamples.ex_tx 9)) = true.
Proof. vm_compute. reflexivity. Qed.

Lemma tool_sees_submission_witness :
  ∃ w info, Client.perform (Act_TransactionInfo V3 ee_hash) ee_kind ee_submitted
            = (w, Ok (Res_TransactionInfo info)) ∧
    RpcClient.info_status info = St_Pending.
Proof.
  destruct (run_ok (@http_get ee_cli ee_rpc ee_url) ee_submitted ee_answered) as (w3 & r & Hget).
  destruct (tool_sees_submission (H0 := ee_rpc) ee_path ex_token_digest ee_action ee_signed ex_started
    ee_submitted (Res_SendTransaction ee_hash 9) ee_hash 9) as (txn & _ & Hh & Hsees).
  - reflexivity.
  - reflexivity.
  - rewrite <-ee_submits. apply surjective_pairing.
  - reflexivity.
  - specialize (Hsees V3 ee_kind ee_submitted ee_url w3 r eq_refl eq_refl eq_refl Hget).
    pose proof ee_described as Hd. change (9 = txn) in Hh. subst txn.
    change (smr_from (Submit.ST_Move (transaction_of (9 : @CliTypes.SignedTransaction ee_cli)))) with (ApiExamples.ex_tx 9) in Hsees.
    change (node (H0 := ee_rpc) ee_submitted) with ee_submitted in Hsees.
    destruct (Service.pending_info (tn_state ee_submitted) (ApiExamples.ex_tx 9)) as [i|e|]; [|discriminate Hd..].
    destruct Hsees as [info Hinfo]. by exists w3, info.
Defined.

(** ** A success

    Transaction 1 is sent with given gas; it is pending, and after a pause it is
    executed. *)
#[local] Instance ee_tx : TxEnv := {|
  tx_rpc := ee_rpc;
  Home := unit;
  SecretKey := string; ProtectedProfile := string; ProtectedProfileManager := string;
  active_cli_profile s := (s, Ok {| pa_account_address := (5 : @Address ee_cli);
    pa_rpc_url := ("http://node/" : @CUrl ee_cli);
    pa_faucet_url := ("http://node/" : @CUrl ee_cli); pa_chain_id := 6 |});
  cli_profile name s := (s, Err "profile");
  read_or_create ignore_env reveal s := (s, Ok ("manager", "password"));
  load_private_profile path s := (s, Ok ("loaded", "password"));
  local_manager key options := Ok "local";
  get_active_protected_profile m := Ok m;
  try_smr_private_key_ref m name := Ok name;
  aptos_signer_public_key p := Ok (1 : @Ed25519PublicKey ee_cli ee_rpc);
  ed25519_private_key p := Ok (2 : @Ed25519PrivateKey ee_cli ee_rpc);
  fetch_and_confirm_chain_id u c w := (w, Ok c);
  simulation_helper h := h;
  prompt message w := (w, Ok "");
  show_inquire e := e;
  mean_gas_price p := p; median_gas_price p := p;
  coin_resource_v1 r := Ok {| coin_balance := 1000; coin_is_frozen := false |};
  coin_resource_v2 r := Ok {| coin_balance := 1000; coin_is_frozen := false |};
  TxOptions.info_output i := None;
  info_max_gas_amount i := 500; info_gas_unit_price i := 100;
  TxOptions.type_tag_from_str s := Ok s;
  SUPRA_COIN_TYPE := "coin"; STRUCT_TAG_COIN_STORE := "store";
  DEFAULT_MAX_GAS_AMOUNT_FOR_SIMULATION := 500;
  debug_output o := "output"; debug_response r := "response"; debug_url u := u; debug_payload p := p;
|}.

Definition ee_options : MoveTransactionOptions := {|
  transaction_option := {|
    profile_options := {|
      profile := None;
      private_key_options :=
        {| private_key_file := None; private_key := Some ("key" : @SecretKey ee_cli ee_tx) |};
      profile_attribute_options :=
        {| po_account_address := None; po_rpc_url := None; po_faucet_url := None; po_chain_id := None |};
      sender_account := None |};
    rest_options := {| connection_timeout_secs := 30; node_api_key := None; api_version := V3 |};
    gas_options := {| go_gas_unit_price := Some 100; go_max_gas := Some 10; go_expiration_secs := 1 |};
    delegation_pool_address := None |};
  payload := ("payload" : @TransactionPayload ee_cli);
|}.

Definition ee_sys : Sys (@World ee_cli (@tx_rpc ee_cli ee_tx)) (@Home ee_cli ee_tx) :=
  {| world := (ex_started : @World ee_cli (@tx_rpc ee_cli ee_tx)); home := (tt : @Home ee_cli ee_tx) |}.

Lemma ee_sends : is_ok (Sending.send_transaction 3 ee_options UntilSuccess ee_sys).2 = true.
Proof. vm_compute. reflexivity. Qed.

Lemma ee_signer_node :
  match (Profiles.signer_profile_helper (transaction_option ee_options) Type_Execute false ee_sys).2 with
  | Ok signer => String.eqb (ee_path (sp_rpc_url signer)) "/"
  | _ => true
  end = true.
Proof. vm_compute. reflexivity. Qed.

Lemma ee_signer_url s0 signer :
  Profiles.signer_profile_helper (transaction_option ee_options) Type_Execute false ee_sys = (s0, Ok signer) →
  ee_path (sp_rpc_url signer) = "/".
Proof.
  intros Hs. pose proof ee_signer_node as Hn. rewrite Hs in Hn. cbn [snd] in Hn.
  by apply String.eqb_eq.
Qed.

Lemma tool_reports_success_witness :
  ∃ signer gas txn hash w,
    submits (H0 := ee_rpc) (Act_SendTransaction V3 (payload ee_options))
      (Kind_SignedTransaction (SignedTxn.new_user_object signer gas)) txn ∧
    recorded (tn_state (node (H0 := ee_rpc) w)) (hash_of (H0 := ee_rpc) hash) St_Success.
Proof.
  destruct (run_ok (Sending.send_transaction 3 ee_options UntilSuccess) ee_sys ee_sends) as (s' & info & Hsend).
  pose proof (tool_reports_success (H0 := ee_tx) ee_path ex_token_digest 3 ee_options ee_sys s' info) as Hx.
  specialize (Hx ee_signer_url).
  specialize (Hx Hsend).
  cbv zeta in Hx.
  destruct Hx as (signer & s0 & gas & s1 & txn & hash & w & _ & _ & Htxn & _ & Hrec & _).
  exists signer, gas, txn, hash, w.
  split; [exact Htxn|exact Hrec].
Defined.
