(* ===== verification/DkgExamples.v ===== *)
(** * Key generation at concrete data

    Keys, dealings and bytes are strings, points are numbers; the encryption puts
    the first character of the password before the text.  Only the files of a node's own pair of
    keys can be written. *)

From S2P Require Import Prelude CliTypes CliExamples Dkg.
From stdpp Require Import base tactics option list gmap strings pretty.
From Stdlib Require Import ZArith Lia.
Local Open Scope Z_scope.

Record ExHome := { ex_private : option (string); ex_public : option DkgCGPublicKey }.

Definition is_cg_private {T} (f : DkgFile (string) T) : bool :=
  match f with F_CGPrivateKey => true | _ => false end.

Lemma cg_private_name {T} (f : DkgFile (string) T) :
  is_cg_private f = true → home_filename f = "dkg_private_key.pem".
Proof. by destruct f. Qed.

Definition first_char (p : string) : Ascii.ascii :=
  match p with String c _ => c | EmptyString => Ascii.zero end.

#[export] Instance ex_dkg : DkgEnv := {|
  Terminal := string;
  DkgHome := ExHome;
  DBytes := string;
  default_path name h := Ok name;
  path_exists path h :=
    if bool_decide (path = "dkg_private_key.pem") then bool_decide (is_Some (ex_private h))
    else bool_decide (is_Some (ex_public h));
  parent path := Some "/"; debug_parent d := "/";
  create_dir_all path h := (h, Ok tt);
  read_from_file T f h :=
    (h, match f in DkgFile _ U return outcome string U with
        | F_CGPublicKey => match ex_public h with Some k => Ok k | None => Err "missing" end
        | _ => Err "missing"
        end);
  write_to_file T f :=
    match f in DkgFile _ U return U → M ExHome string unit with
    | F_CGPublicKey => λ k h, ({| ex_private := ex_private h; ex_public := Some k |}, Ok tt)
    | _ => λ _ h, (h, Err "read only")
    end;
  create_and_write f b h :=
    if is_cg_private f then ({| ex_private := Some b; ex_public := ex_public h |}, Ok tt)
    else (h, Err "read only");
  open_and_read f h :=
    (h, if is_cg_private f then match ex_private h with Some b => Ok b | None => Err "missing" end
        else Err "missing");
  new_password_with_policy t := (t, Ok t);
  read_password t := (t, Ok t);
  encrypt b p := Ok (String (first_char p) b);
  decrypt b p :=
    match b with
    | String c b' => if Ascii.eqb c (first_char p) then Ok b' else Err "password"
    | EmptyString => Err "empty"
    end;
  key_to_json s := Ok s; key_of_json b := Ok b; hex_encode b := b; hex_decode s := Ok s;
  CGSecretKey := string; CGPublicKey := string; BlsPrivateKey := string; DLEqProof := string;
  Dealing := string;
  PointG1_12381 := Z; PointG2_12381 := Z; PointG1_254 := Z; PointG2_254 := Z;
  Poly12381 := Z; Poly254 := Z;
  cg_secret_to_vec k := k; cg_secret_of b := Ok b; cg_public_to_vec k := k; cg_public_of b := Ok b;
  bls_private_to_vec k := k; bls_private_of b := Ok b; proof_to_vec k := k; proof_of b := Ok b;
  dealing_to_vec d := d; dealing_of b := Ok b;
  bls_public_to_vec k := pretty k.1.1;
  bls_public_of b := let n := Z.of_nat (String.length b) in Ok ((n, n), (n, n));
  poly_to_bytes p := pretty p.1;
  poly_of b := let n := Z.of_nat (String.length b) in Ok (n, n);
  generate_cg_secret t := (t, "secret");
  cg_public_of_secret k := Ok k;
  ni_generate_dealing threshold nodes keys old t := (t, "dealing");
  verify_dealing d keys nodes threshold := negb (bool_decide (d = "bad"));
  verify_resharing_dealing d keys nodes threshold i poly := negb (bool_decide (d = "bad"));
  aggregate_dealings_for_self_group ds k i := Ok ("bls", ((1, 1), (1, 1)), "proof", (1, 1));
  aggregate_resharing_dealings_for_self_group ds k i t poly :=
    Ok ("bls", ((1, 1), (1, 1)), "proof", (1, 1));
  aggregation_error s := s;
  verify_public_keys_and_proof12381 i a b proof poly := true;
  verify_public_keys_and_proof254 i a b proof poly := true;
  combine_public_keys_ecp_12381 l t := Ok t;
  combine_public_keys_ecp2_12381 l t := Ok t;
  combine_public_keys_ecp_254 l t := Err "combination";
  combine_public_keys_ecp2_254 l t := Ok t;
|}.

#[export] Instance ex_dkg_laws : Tool.DkgLaws (H0 := ex_dkg).
Proof.
  split; try done; simpl.
  - intros b p c [= <-]. by rewrite Ascii.eqb_refl.
  - intros T f x h h' Hw. destruct f; simpl in Hw; try done. injection Hw as <-. split; [done|].
    simpl. by intros path [= <-].
  - intros f b h h'. destruct (is_cg_private f) eqn:Hf; [|done]. intros [= <-]. simpl.
    rewrite (cg_private_name f Hf). split; [done|]. by intros path [= <-].
  - intros k b h h' [= <-] [= Hb]. by rewrite <-Hb.
  - intros k path h h' [= <-]. simpl. by destruct (bool_decide (path = _)).
Qed.

Definition ex_empty : @DkgHome ex_cli ex_dkg := {| ex_private := None; ex_public := None |}.

Lemma ex_pair_ok :
  is_ok (Tool.generate_cg_encryption_key_pair (H0 := ex_dkg)
           {| world := ("password" : @Terminal ex_cli ex_dkg);
              home := ex_empty |}).2 = true.
Proof. vm_compute. reflexivity. Qed.

Lemma cg_key_pair_roundtrip_witness :
  ∃ secret password s',
    Tool.generate_cg_encryption_key_pair (H0 := ex_dkg)
      {| world := ("password" : @Terminal ex_cli ex_dkg); home := ex_empty |} = (s', Ok tt) ∧
    ∀ t t', read_password t = (t', Ok password) →
      Files.read_cg_private {| world := t; home := home s' |}
      = ({| world := t'; home := home s' |}, Ok (Encodings.of_cg_secret secret)).
Proof.
  destruct (Tool.generate_cg_encryption_key_pair _) as [s' [[]|e|]] eqn:Heq.
  - destruct (Tool.cg_key_pair_roundtrip _ _ Heq)
      as (secret & public & password & t1 & t2 & _ & _ & _ & Hread & _).
    by exists secret, password, s'.
  - pose proof ex_pair_ok as Hok. by rewrite Heq in Hok.
  - pose proof ex_pair_ok as Hok. by rewrite Heq in Hok.
Defined.

Definition ex_dealing (s : string) : DkgDealing := {| dealing := s |}.
Definition ex_transcript : list (Z * DkgDealing) :=
  [(0, ex_dealing "a"); (1, ex_dealing "bad"); (2, ex_dealing "c"); (3, ex_dealing "d")].
Definition ex_valid (i : Z) (d : @Dealing ex_cli ex_dkg) : bool := negb (bool_decide (d = "bad")).

Lemma first_valid_dealings_selected_witness :
  Tool.select_dealings (H0 := ex_dkg) ex_valid 2 ex_transcript
  = Ok [(0, "a" : @Dealing ex_cli ex_dkg); (2, "c" : @Dealing ex_cli ex_dkg)].
Proof.
  rewrite (Tool.first_valid_dealings_selected (H0 := ex_dkg) ex_valid 2 ex_transcript
    [(0, "a" : @Dealing ex_cli ex_dkg); (1, "bad" : @Dealing ex_cli ex_dkg); (2, "c" : @Dealing ex_cli ex_dkg);
     (3, "d" : @Dealing ex_cli ex_dkg)] ltac:(done) eq_refl).
  reflexivity.
Defined.

Definition ex_share : DkgBlsPubKeyShareAndProofBytes :=
  {| share_pub_key := "ab"; share_proof := "proof"; share_public_poly := "xyz" |}.
Definition ex_config : DkgConfig := {| threshold := 1; nodes := 2; cg_public_keys := [] |}.
Definition ex_shares : DkgBlsPubKeyTranscript := {| bls_pub_key_shares := [(1, ex_share)] |}.

(** One of the four combinations fails. *)
Lemma committee_key_panics_iff_witness :
  Tool.combine_shares (H0 := ex_dkg) ex_config ex_shares ex_share = Panic.
Proof.
  eapply (Tool.committee_key_panics_iff (H0 := ex_dkg) ex_config ex_shares ex_share);
    [|reflexivity|vm_compute; done|reflexivity|done..|].
  - apply list_elem_of_In. by left.
  - split; [done|by left].
Defined.
