(* ===== verification/Ceremony.v ===== *)
(** * Genesis ceremony

    [src/supra/src/genesis/mod.rs] and [genesis/generate_genesis_transaction.rs]:
    the operators of the validators publish their identities, the committee is
    built from them, every validator signs the configuration, and the genesis blob
    is made from the signatures of all of them.

    Cryptography, the formats of the files, the archive that is downloaded and the
    construction of the blob are parameters.  A [HashSet] or [BTreeMap] whose order
    does not matter to the code is a finite set or map. *)

From S2P Require Import Prelude CliTypes.
From stdpp Require Import base tactics option list gmap strings pretty.
From Stdlib Require Import ZArith Lia.
Local Open Scope Z_scope.

(** The metadata of an entry of a directory, and the kinds of errors in use. *)
Record Metadata := { is_dir : bool; is_file : bool }.
Inductive ErrorKind : Type := AlreadyExists | OtherKind (name : string).

(** What the ceremony uses of the other crates.  Errors are already converted where
    the type is not named in the commands. *)
Class CeremonyEnv `{CliEnv} : Type := {
  (** The network and the terminal, and the files. *)
  Net : Type;
  Disk : Type;
  Byte : Type;
  (** Directories and files. *)
  DirEntry : Type;
  read_dir : string → M Disk IoError (list (outcome IoError DirEntry));
  metadata : DirEntry → M Disk IoError Metadata;
  entry_path : DirEntry → string;
  entry_name : DirEntry → string;
  fs_read : string → M Disk IoError (list Byte);
  (** [File::create] with one [write], which gives the number of written bytes. *)
  create_and_write_once : string → list Byte → M Disk IoError Z;
  create_and_write_all : string → list Byte → M Disk IoError unit;
  fs_exists : string → Disk → bool;
  fs_create_dir : string → M Disk IoError unit;
  kind : IoError → ErrorKind;
  debug_kind : ErrorKind → string;
  io_other : string → IoError;
  io_not_found : string → IoError;
  path_join : string → string → string;
  temp_dir : M Disk IoError string;
  remove_temp_dir : string → Disk → Disk;
  (** [ZipArchive::new] on the open file and [extract]. *)
  zip_extract : string → string → M Disk string unit;
  move_items_with_progress : string → string → M Disk IoError unit;
  (** Downloads. *)
  url_parse : string → outcome string CUrl;
  client_get : CUrl → M Net ReqwestErr HttpResponse;
  response_ok : HttpResponse → bool;
  show_response_status : HttpResponse → string;
  response_bytes : HttpResponse → M Net ReqwestErr (list Byte);
  (** Settings and paths. *)
  SmrSettings : Type;
  read_settings : M Disk CliError SmrSettings;
  is_testnet : SmrSettings → bool;
  validate_settings : SmrSettings → outcome string unit;
  github_repo_current_release_path : bool → string;
  extract_path : M Disk CliError string;
  github_operators_path : bool → M Disk CliError string;
  github_signatures_path : bool → M Disk CliError string;
  GENESIS_SIGNATURE_FILE_NAME_SUFFIX : string;
  (** Identities. *)
  PublicKey : Type;
  #[global] PublicKey_dec :: EqDecision PublicKey;
  #[global] PublicKey_countable :: Countable PublicKey;
  Signature : Type;
  #[global] Signature_dec :: EqDecision Signature;
  #[global] Signature_countable :: Countable Signature;
  PUBLIC_KEY_LENGTH : nat;
  public_key_to_bytes : PublicKey → list Byte;
  public_key_of : list Byte → outcome CryptoError PublicKey;
  signature_to_bytes : Signature → list Byte;
  signature_of : list Byte → outcome CryptoError Signature;
  debug_keys : list PublicKey → string;
  ValidatorKey : Type;
  #[global] ValidatorKey_dec :: EqDecision ValidatorKey;
  #[global] ValidatorKey_countable :: Countable ValidatorKey;
  PublicIdentity : Type;
  validator_identity : Address → PublicIdentity → ValidatorKey;
  consensus_public_key : PublicIdentity → PublicKey;
  dkg_key_validate : PublicIdentity → outcome DkgErr unit;
  Profiles : Type;
  read_profiles_from_dir : string → M Disk CliError Profiles;
  active_account_address : Profiles → outcome CliProfileError Address;
  read_identity_from_dir : string → M Disk CliError PublicIdentity;
  Identity : Type;
  read_profile_password : M (Sys Net Disk) CliProfileError string;
  identity_from_encrypted_file : string → M Disk CliError Identity;
  identity_key : Identity → PublicKey;
  signature_output_path : Identity → M Disk CliError string;
  (** Configurations and blobs. *)
  ConfigV0 : Type;
  ConfigV1 : Type;
  ConfigV2 : Type;
  Tx0 : Type;
  Tx1 : Type;
  tx0_of_bytes : list Byte → option Tx0;
  tx1_of_bytes : list Byte → option Tx1;
  tx0_to_bytes : Tx0 → list Byte;
  tx1_to_bytes : Tx1 → list Byte;
  generate_v0 : ConfigV0 → outcome CliError Tx0;
  generate_v1 : ConfigV1 → outcome CliError Tx1;
  generate_v2 : ConfigV2 → outcome CliError Tx1;
  Digest : Type;
  #[global] Digest_dec :: EqDecision Digest;
  show_digest : Digest → string;
  verify_signature : Signature → Digest → PublicKey → outcome CryptoError unit;
  GenesisBlob : Type;
  config_digest : GenesisBlob → Digest;
  transaction_digest : GenesisBlob → Digest;
  blob_from_file : option string → M Disk CliError GenesisBlob;
  blob_to_file : GenesisBlob → option string → M Disk CliError unit;
}.

Section ceremony_data.
Context `{CeremonyEnv}.

(** [SupraValidator::new] with its arguments. *)
Record SupraValidator := { v_address : Address; v_identity : PublicIdentity }.

(** A [CommitteeConfigV2] of the SMR committee. *)
Record CommitteeConfig := {
  genesis_parameters : SmrSettings;
  members : gmap ValidatorKey SupraValidator;
}.

Inductive GenesisConfig : Type :=
| Config_V0 (c : ConfigV0)
| Config_V1 (c : ConfigV1)
| Config_V2 (c : ConfigV2).

Inductive GenesisTransaction : Type :=
| Genesis_V0 (t : Tx0)
| Genesis_V1 (t : Tx1).

Inductive GenesisTool : Type :=
| RefreshRepo (url : string)
| SignSupraCommittee
| BuildSupraCommittee (url : option string)
| GenerateGenesisBlob (genesis_transaction_path genesis_signatures_dir : option string)
| VerifyGenesisBlob (input_genesis_blob_path : string) (skip_regeneration : bool)
    (genesis_signatures_dir : option string)
| MainnetAccountsConfig (args : GenerateMainnetAccountsConfig)
| GenerateGenesisTransaction (output_path : string).
End ceremony_data.

(** What is done with a whole configuration. *)
Class ConfigEnv `{CeremonyEnv} : Type := {
  write_committees : CommitteeConfig → M Disk CliError unit;
  config_from_home : M Disk CliError GenesisConfig;
  digest : GenesisConfig → Digest;
  sign : GenesisConfig → Identity → Signature;
  smr_committee_config : GenesisConfig → outcome CliError CommitteeConfig;
  new_blob : GenesisConfig → gset (PublicKey * Signature) → outcome CliError GenesisBlob;
  new_with_unverified_transaction :
    GenesisConfig → gset (PublicKey * Signature) → GenesisTransaction → outcome CliError GenesisBlob;
}.

(** ** Download of the repository *)
Module Download.
Section download.
Context `{CeremonyEnv}.
Local Open Scope rust_scope.

Definition RETRY_DOWNLOAD_COUNT : nat := 3.

(** The loop [while retry_count > 0 && !response.status().is_success()]. *)
Fixpoint retry (retry_count : nat) (url : CUrl) (response : HttpResponse)
    : M Net ReqwestErr HttpResponse :=
  match retry_count with
  | O => rret response
  | S retry_count' =>
      if response_ok response then rret response
      else r <- client_get url ;; retry retry_count' url r
  end.

Definition request (url : CUrl) : M Net ReqwestErr HttpResponse :=
  response <- client_get url ;; retry RETRY_DOWNLOAD_COUNT url response.

(** A temporary directory is removed whatever happens after its creation. *)
Definition with_temp_dir {A} (k : string → M (Sys Net Disk) GenesisToolError A)
    : M (Sys Net Disk) GenesisToolError A :=
  path <- on_home GenesisIO temp_dir ;;
  λ s, let '(s', o) := k path s in
       ({| world := world s'; home := remove_temp_dir path (home s') |}, o).

(** [expect]. *)
Definition expect_ok {A} (m : M Disk string A) : M Disk GenesisToolError A :=
  r <- rtry m ;; match r with inl a => rret a | inr _ => rpanic end.

Definition move_extracted (temp target_directory download_dir : string)
    : M Disk GenesisToolError unit :=
  let source_dir := path_join (path_join temp "extracted") target_directory in
  there <- rgets (fs_exists source_dir) ;;
  if negb there
  then rfail (GenesisIO (io_not_found ("Keys directory not found in archive: " +:+ target_directory)))
  else
    created <- rtry (fs_create_dir download_dir) ;;
    match created with
    | inl _ => rret tt
    | inr e =>
        match kind e with
        | AlreadyExists => rret tt
        | k => rfail (CliTypes.Download ("Error refreshing repository " +:+ debug_kind k))
        end
    end ;;
    rmap_err GenesisIO (move_items_with_progress source_dir download_dir).

Definition download_directory (repo_url target_directory download_dir : string)
    : M (Sys Net Disk) GenesisToolError unit :=
  url <- rlift (omap_err URL (url_parse repo_url)) ;;
  response <- on_world GenesisReqwestError (request url) ;;
  if negb (response_ok response)
  then rfail (GenesisIO (io_other ("Failed to download: " +:+ show_response_status response)))
  else with_temp_dir (λ temp,
    let archive := path_join temp "archive.zip" in
    on_home GenesisIO (create_and_write_all archive []) ;;
    data <- on_world GenesisReqwestError (response_bytes response) ;;
    on_home GenesisIO (create_and_write_all archive data) ;;
    on_home id (expect_ok (zip_extract archive (path_join temp "extracted"))) ;;
    on_home id (move_extracted temp target_directory download_dir)).

(** [RefreshRepo::execute]. *)
Definition refresh_repo (url : string) : M (Sys Net Disk) CliError unit :=
  settings <- on_home id read_settings ;;
  download_dir <- on_home id extract_path ;;
  rmap_err CliTypes.GenesisTool
    (download_directory url (github_repo_current_release_path (is_testnet settings)) download_dir).
End download.
End Download.

(** ** The committee *)
Module Committee.
Import Download.
Section committee.
Context `{ConfigEnv}.
Local Open Scope rust_scope.

(** [flatten] on the entries of a directory. *)
Definition flatten {E A} (l : list (outcome E A)) : list A :=
  omap (λ o, match o with Ok a => Some a | _ => None end) l.

(** The validator of an operator's directory. *)
Definition read_validator (entry : DirEntry) : M Disk CliError (option SupraValidator) :=
  md <- rmap_err StdIoError (metadata entry) ;;
  if is_dir md
  then
    profiles <- read_profiles_from_dir (entry_path entry) ;;
    address <- rlift (omap_err ProfileError (active_account_address profiles)) ;;
    identity <- read_identity_from_dir (entry_path entry) ;;
    rret (Some {| v_address := address; v_identity := identity |})
  else rret None.

Definition validator_key (v : SupraValidator) : ValidatorKey :=
  validator_identity (v_address v) (v_identity v).

(** [insert] returns the old value, which is a duplicate here. *)
Fixpoint collect_members (entries : list DirEntry) (acc : gmap ValidatorKey SupraValidator)
    : M Disk CliError (gmap ValidatorKey SupraValidator) :=
  match entries with
  | [] => rret acc
  | entry :: entries' =>
      maybe <- read_validator entry ;;
      match maybe with
      | None => collect_members entries' acc
      | Some v =>
          match acc !! validator_key v with
          | Some _ => rpanic
          | None => collect_members entries' (<[validator_key v := v]> acc)
          end
      end
  end.

(** An error of the directory itself is only printed. *)
Definition read_operators (path : string) : M Disk CliError (gmap ValidatorKey SupraValidator) :=
  res <- rtry (read_dir path) ;;
  match res with
  | inl entries => collect_members (flatten entries) ∅
  | inr _ => rret ∅
  end.

Definition valid_dkg_key (v : SupraValidator) : bool := is_ok (dkg_key_validate (v_identity v)).

(** The repository is downloaded if its address is given. *)
Definition fetch_repo (settings : SmrSettings) (url : option string) : M (Sys Net Disk) CliError unit :=
  match url with
  | Some u =>
      download_dir <- on_home id extract_path ;;
      rmap_err CliTypes.GenesisTool
        (download_directory u (github_repo_current_release_path (is_testnet settings)) download_dir)
  | None => rret tt
  end.

(** [BuildSupraCommittee::execute]. *)
Definition build_supra_committee (url : option string) : M (Sys Net Disk) CliError unit :=
  settings <- on_home id read_settings ;;
  fetch_repo settings url ;;
  rlift (omap_err GeneralError (validate_settings settings)) ;;
  operators <- on_home id (github_operators_path (is_testnet settings)) ;;
  ms <- on_home id (read_operators operators) ;;
  if forallb valid_dkg_key (snd <$> map_to_list ms)
  then on_home id (write_committees {| genesis_parameters := settings; members := ms |})
  else rfail (CliTypes.GenesisTool (Key "CG-DKG PublicKey Validation failed")).

(** *** The committee lists the operators *)

(** Reading the directories changes no file. *)
Class OperatorsKept : Prop := {
  operators_dir_keeps path h : (read_dir path h).1 = h;
  operators_metadata_keeps e h : (metadata e h).1 = h;
  profiles_keeps path h : (read_profiles_from_dir path h).1 = h;
  identity_keeps path h : (read_identity_from_dir path h).1 = h;
}.

Lemma read_validator_keeps `{!OperatorsKept} e h : (read_validator e h).1 = h.
Proof.
  unfold read_validator, rthen, rmap_err, rlift, rret.
  pose proof (operators_metadata_keeps e h) as Hm.
  destruct (metadata e h) as [h1 [md|x|]]; simpl in *; subst; [|done..].
  destruct (is_dir md); [|done].
  pose proof (profiles_keeps (entry_path e) h) as Hp.
  destruct (read_profiles_from_dir _ h) as [h1 [ps|x|]]; simpl in *; subst; [|done..].
  destruct (active_account_address ps); simpl; [|done..].
  pose proof (identity_keeps (entry_path e) h) as Hi.
  by destruct (read_identity_from_dir _ h) as [h1 [i|x|]]; simpl in *; subst.
Qed.

(** The validators of the directories below a path; none if it cannot be read. *)
Definition operators_at (h : Disk) (path : string) : outcome CliError (list SupraValidator) :=
  match (read_dir path h).2 with
  | Ok entries =>
      omap_ok (omap id) (otraverse (λ e, (read_validator e h).2) (flatten entries))
  | Err _ => Ok []
  | Panic => Panic
  end.

Definition keyed (l : list SupraValidator) : list (ValidatorKey * SupraValidator) :=
  (λ v, (validator_key v, v)) <$> l.

Lemma collect_members_ok `{!OperatorsKept} entries acc h h' ms :
  collect_members entries acc h = (h', Ok ms) →
  h' = h ∧ ∃ files, otraverse (λ e, (read_validator e h).2) entries = Ok files ∧
    let l := omap id files in
    NoDup (validator_key <$> l) ∧ Forall (λ v, acc !! validator_key v = None) l ∧
    ms = list_to_map (keyed l) ∪ acc.
Proof.
  revert acc. induction entries as [|e entries IH]; intros acc; simpl.
  { unfold rret. intros [= <- <-]. split; [done|]. exists []. simpl.
    split_and!; [done|constructor|constructor|by rewrite (left_id_L ∅ (∪))]. }
  unfold rthen. pose proof (read_validator_keeps e h) as Hk.
  destruct (read_validator e h) as [h1 [[v|]|x|]]; simpl in *; subst h1; [| |done..].
  - destruct (acc !! validator_key v) eqn:Hacc; [done|].
    intros (-> & files & Hfiles & Hnd & Hfree & ->)%IH. split; [done|].
    exists (Some v :: files). rewrite Hfiles. simpl in *. split_and!; [done| | |].
    + constructor; [|done]. intros (v' & Heq & Hin)%list_elem_of_fmap.
      rewrite Forall_forall in Hfree. specialize (Hfree v' Hin). rewrite <-Heq in Hfree.
      by rewrite lookup_insert_eq in Hfree.
    + constructor; [done|]. eapply Forall_impl; [exact Hfree|]. simpl. intros v' Hv'.
      by apply lookup_insert_None in Hv' as [? _].
    + rewrite <-insert_union_r; [by rewrite insert_union_l|].
      apply not_elem_of_list_to_map_1. unfold keyed. rewrite <-list_fmap_compose. simpl.
      intros (v' & Heq & Hin)%list_elem_of_fmap. rewrite Forall_forall in Hfree.
      specialize (Hfree v' Hin). simpl in Heq. rewrite <-Heq in Hfree.
      by rewrite lookup_insert_eq in Hfree.
  - intros (-> & files & Hfiles & Hrest)%IH. split; [done|]. exists (None :: files).
    by rewrite Hfiles.
Qed.

Lemma read_operators_ok `{!OperatorsKept} path h h' ms :
  read_operators path h = (h', Ok ms) →
  h' = h ∧ ∃ l, operators_at h path = Ok l ∧ NoDup (validator_key <$> l) ∧
    ms = list_to_map (keyed l).
Proof.
  unfold read_operators, operators_at, rthen, rtry. pose proof (operators_dir_keeps path h) as Hk.
  destruct (read_dir path h) as [h1 [entries|e|]]; simpl in *; subst h1; [| |done].
  - intros (-> & files & -> & Hnd & _ & ->)%collect_members_ok. split; [done|].
    exists (omap id files). split_and!; [done..|]. by rewrite (right_id_L ∅ (∪)).
  - unfold rret. intros [= <- <-]. split; [done|]. exists []. by split_and!; [|constructor|].
Qed.

(** C39 The committee that is written lists the operators.  If the command succeeds, the
    settings were read and found valid, the repository was downloaded if its address was
    given, and the committee has these settings; its members are the validators
    found after that in the directories of the operators of the network of the settings, no
    two with the same identity, all with a valid key for the key generation.  If the
    directory cannot be read there are none, and a committee without members is
    written. *)
Theorem committee_lists_operators `{!OperatorsKept} url s s' :
  build_supra_committee url s = (s', Ok tt) →
  ∃ h1 settings s1 h2 path l,
    read_settings (home s) = (h1, Ok settings) ∧
    fetch_repo settings url {| world := world s; home := h1 |} = (s1, Ok tt) ∧
    validate_settings settings = Ok tt ∧
    github_operators_path (is_testnet settings) (home s1) = (h2, Ok path) ∧
    operators_at h2 path = Ok l ∧
    NoDup (validator_key <$> l) ∧
    Forall (λ v, is_ok (dkg_key_validate (v_identity v)) = true) l ∧
    write_committees {| genesis_parameters := settings; members := list_to_map (keyed l) |} h2
      = (home s', Ok tt) ∧
    world s' = world s1.
Proof.
  unfold build_supra_committee, rthen, rmap_err, rlift, on_home, rzoom.
  destruct (read_settings (home s)) as [h1 [settings|e|]] eqn:Hsettings; simpl; [|done..].
  destruct (fetch_repo settings url _) as [s1 [[]|e|]] eqn:Hfetch; [|done..].
  destruct (validate_settings settings) as [[]|e|] eqn:Hvalidate; simpl; [|done..].
  destruct (github_operators_path _ (home s1)) as [h2 [path|e|]] eqn:Hpath; simpl; [|done..].
  destruct (read_operators path h2) as [h3 [ms|e|]] eqn:Hread; simpl; [|done..].
  destruct (forallb valid_dkg_key _) eqn:Hvalid; [|done].
  simpl. destruct (write_committees {| genesis_parameters := settings; members := ms |} h3)
    as [h4 [[]|e|]] eqn:Hw; simpl; [|done..]. intros [= <-]. simpl.
  apply read_operators_ok in Hread as (-> & l & Hl & Hnd & ->).
  exists h1, settings, s1, h2, path, l. split_and!; [done..| |done|done].
  apply Forall_forall. intros v Hv. rewrite List.forallb_forall in Hvalid. apply Hvalid.
  apply list_elem_of_In, list_elem_of_fmap. exists (validator_key v, v). split; [done|].
  apply elem_of_map_to_list, elem_of_list_to_map_1.
  - unfold keyed. by rewrite <-list_fmap_compose.
  - unfold keyed. apply list_elem_of_fmap. by exists v.
Qed.
End committee.
End Committee.

(** ** Signatures and the blob *)
Module Blob.
Import Download Committee.
Section blob.
Context `{ConfigEnv}.
Local Open Scope rust_scope.

(** [SignSupraCommittee::execute]; the number of written bytes is only printed. *)
Definition sign_supra_committee : M (Sys Net Disk) CliError unit :=
  password <- rmap_err ProfileError read_profile_password ;;
  validator_info <- on_home id (identity_from_encrypted_file password) ;;
  output_path <- on_home id (signature_output_path validator_info) ;;
  genesis_config <- on_home id config_from_home ;;
  let signature := sign genesis_config validator_info in
  let pk_and_signature :=
    public_key_to_bytes (identity_key validator_info) ++ signature_to_bytes signature in
  on_home StdIoError (create_and_write_once output_path pk_and_signature) ;;
  rret tt.

(** [str::contains]. *)
Definition contains (name part : string) : bool :=
  match String.index 0 part name with Some _ => true | None => false end.

(** A file with a signature: [split_at] panics behind the end. *)
Definition read_signature (entry : DirEntry) : M Disk CliError (option (PublicKey * Signature)) :=
  md <- rmap_err StdIoError (metadata entry) ;;
  if is_file md && contains (entry_name entry) GENESIS_SIGNATURE_FILE_NAME_SUFFIX
  then
    pk_and_signature <- rmap_err StdIoError (fs_read (entry_path entry)) ;;
    if (length pk_and_signature <? PUBLIC_KEY_LENGTH)%nat then rpanic
    else
      key <- rlift (omap_err SupraCryptoError
               (public_key_of (take PUBLIC_KEY_LENGTH pk_and_signature))) ;;
      signature <- rlift (omap_err SupraCryptoError
                     (signature_of (drop PUBLIC_KEY_LENGTH pk_and_signature))) ;;
      rret (Some (key, signature))
  else rret None.

(** [all_consensus_pks], [all_signatures_and_signers] and
    [signers_with_invalid_signatures]. *)
Record Progress := {
  all_consensus_pks : gset PublicKey;
  all_signatures_and_signers : gset (PublicKey * Signature);
  signers_with_invalid_signatures : list PublicKey;
}.

Definition check_signature (d : Digest) (p : Progress) (ks : PublicKey * Signature)
    : outcome CliError Progress :=
  let invalid :=
    if is_ok (verify_signature ks.2 d ks.1) then signers_with_invalid_signatures p
    else signers_with_invalid_signatures p ++ [ks.1] in
  if bool_decide (ks.1 ∈ all_consensus_pks p)
  then
    if bool_decide (ks ∈ all_signatures_and_signers p) then Panic
    else Ok {| all_consensus_pks := all_consensus_pks p ∖ {[ks.1]};
               all_signatures_and_signers := {[ks]} ∪ all_signatures_and_signers p;
               signers_with_invalid_signatures := invalid |}
  else Panic.

Fixpoint collect_signatures (d : Digest) (entries : list DirEntry) (p : Progress)
    : M Disk CliError Progress :=
  match entries with
  | [] => rret p
  | entry :: entries' =>
      maybe <- read_signature entry ;;
      match maybe with
      | None => collect_signatures d entries' p
      | Some ks => p' <- rlift (check_signature d p ks) ;; collect_signatures d entries' p'
      end
  end.

(** The checks after the loop. *)
Definition all_signed (p : Progress) : outcome CliError (gset (PublicKey * Signature)) :=
  if negb (bool_decide (all_consensus_pks p = ∅))
  then Err (CliTypes.GenesisTool (SignatureError "Not all validators have signed the committee file"))
  else
    match signers_with_invalid_signatures p with
    | [] => Ok (all_signatures_and_signers p)
    | l => Err (CliTypes.GenesisTool (SignatureError ("Found invalid signatures from: " +:+ debug_keys l)))
    end.

Definition consensus_keys (c : CommitteeConfig) : gset PublicKey :=
  list_to_set ((λ v, consensus_public_key (v_identity v)) <$> (snd <$> map_to_list (members c))).

Definition start (c : CommitteeConfig) : Progress :=
  {| all_consensus_pks := consensus_keys c; all_signatures_and_signers := ∅;
     signers_with_invalid_signatures := [] |}.

Definition verify_signatures (d : Digest) (c : CommitteeConfig) (signatures_path : string)
    : M Disk CliError (gset (PublicKey * Signature)) :=
  entries <- rmap_err (λ e, CliTypes.GenesisTool (GenesisIO e)) (read_dir signatures_path) ;;
  p <- collect_signatures d (flatten entries) (start c) ;;
  rlift (all_signed p).

(** The transaction that is given in a file. *)
Definition unverified_transaction (config : GenesisConfig) (path : string) (bytes : list Byte)
    : outcome CliError GenesisTransaction :=
  let failed := CliTypes.GenesisTool (DeserializationFailed "a genesis transaction" path) in
  match config with
  | Config_V0 _ => omap_ok Genesis_V0 (ok_or (tx0_of_bytes bytes) failed)
  | Config_V1 _ | Config_V2 _ => omap_ok Genesis_V1 (ok_or (tx1_of_bytes bytes) failed)
  end.

Definition generate_genesis_blob_from_supra_home
    (maybe_genesis_transaction_path maybe_genesis_signatures_path : option string)
    : M Disk CliError GenesisBlob :=
  config <- config_from_home ;;
  committee_config <- rlift (smr_committee_config config) ;;
  default_path <- github_signatures_path (is_testnet (genesis_parameters committee_config)) ;;
  signatures <- verify_signatures (digest config) committee_config
                  (default default_path maybe_genesis_signatures_path) ;;
  match maybe_genesis_transaction_path with
  | Some path =>
      transaction_bytes <- rmap_err StdIoError (fs_read path) ;;
      tx <- rlift (unverified_transaction config path transaction_bytes) ;;
      rlift (new_with_unverified_transaction config signatures tx)
  | None => rlift (new_blob config signatures)
  end.

(** [GenerateGenesisBlob::execute]. *)
Definition generate_genesis_blob (transaction_path signatures_dir : option string)
    : M Disk CliError unit :=
  genesis_blob <- generate_genesis_blob_from_supra_home transaction_path signatures_dir ;;
  blob_to_file genesis_blob None.

(** [VerifyGenesisBlob::execute]. *)
Definition verify_genesis_blob (input_path : string) (skip_regeneration : bool)
    (signatures_dir : option string) : M Disk CliError unit :=
  input_genesis_blob <- blob_from_file (Some input_path) ;;
  local_genesis_blob <-
    (if skip_regeneration then blob_from_file None
     else generate_genesis_blob_from_supra_home None signatures_dir) ;;
  if negb (bool_decide (config_digest local_genesis_blob = config_digest input_genesis_blob))
     || negb (bool_decide (transaction_digest local_genesis_blob = transaction_digest input_genesis_blob))
  then
    (if negb skip_regeneration
     then blob_to_file local_genesis_blob
            (Some (show_digest (config_digest local_genesis_blob) +:+ "_genesis.blob"))
     else rret tt) ;;
    rfail (CliTypes.GenesisTool InvalidInputGenesisBlob)
  else rret tt.

(** [GenerateGenesisTransaction::execute]. *)
Definition generate_genesis_transaction (output_path : string) : M Disk CliError unit :=
  config <- config_from_home ;;
  serialized_tx <- rlift
    match config with
    | Config_V0 c => omap_ok tx0_to_bytes (generate_v0 c)
    | Config_V1 c => omap_ok tx1_to_bytes (generate_v1 c)
    | Config_V2 c => omap_ok tx1_to_bytes (generate_v2 c)
    end ;;
  rmap_err StdIoError (create_and_write_all output_path serialized_tx).

(** [GenesisTool::execute]; the accounts are those of the module [Genesis]. *)
Definition execute
    (mainnet_accounts : GenerateMainnetAccountsConfig → M (Sys Net Disk) CliError unit)
    (self : GenesisTool) : M (Sys Net Disk) CliError unit :=
  match self with
  | RefreshRepo url => refresh_repo url
  | BuildSupraCommittee url => build_supra_committee url
  | SignSupraCommittee => sign_supra_committee
  | GenerateGenesisBlob transaction_path signatures_dir =>
      on_home id (generate_genesis_blob transaction_path signatures_dir)
  | VerifyGenesisBlob input_path skip_regeneration signatures_dir =>
      on_home id (verify_genesis_blob input_path skip_regeneration signatures_dir)
  | MainnetAccountsConfig args => mainnet_accounts args
  | GenerateGenesisTransaction output_path => on_home id (generate_genesis_transaction output_path)
  end.

(** *** Every member signed exactly once *)

(** Reading changes no file. *)
Class ReadsKeep : Prop := {
  read_dir_keeps path h : (read_dir path h).1 = h;
  metadata_keeps e h : (metadata e h).1 = h;
  fs_read_keeps path h : (fs_read path h).1 = h;
}.

Lemma read_signature_keeps `{!ReadsKeep} e h : (read_signature e h).1 = h.
Proof.
  unfold read_signature, rthen, rmap_err, rlift, rpanic, rret.
  pose proof (metadata_keeps e h) as Hm. destruct (metadata e h) as [h1 [md|x|]]; simpl in *; subst; [|done..].
  destruct (is_file md && _); [|done].
  pose proof (fs_read_keeps (entry_path e) h) as Hr.
  destruct (fs_read (entry_path e) h) as [h1 [b|x|]]; simpl in *; subst; [|done..].
  destruct (_ <? _)%nat; [done|].
  destruct (public_key_of _); simpl; [|done..]. by destruct (signature_of _).
Qed.

(** The signatures that the directory holds. *)
Definition signatures_in (h : Disk) (entries : list DirEntry)
    : outcome CliError (list (PublicKey * Signature)) :=
  omap_ok (omap id) (otraverse (λ e, (read_signature e h).2) entries).

Fixpoint check_all (d : Digest) (p : Progress) (l : list (PublicKey * Signature))
    : outcome CliError Progress :=
  match l with
  | [] => Ok p
  | ks :: l' => let? p' := check_signature d p ks in check_all d p' l'
  end.

Lemma collect_signatures_ok `{!ReadsKeep} d entries p h h' p' :
  collect_signatures d entries p h = (h', Ok p') ↔
  h' = h ∧ ∃ l, signatures_in h entries = Ok l ∧ check_all d p l = Ok p'.
Proof.
  revert p. unfold signatures_in. induction entries as [|e entries IH]; intros p; simpl.
  { unfold rret. split; [intros [= <- <-]; split; [done|by exists []]|].
    by intros (-> & l & [= <-] & [= ->]). }
  unfold rthen. pose proof (read_signature_keeps e h) as Hk.
  destruct (read_signature e h) as [h1 [[ks|]|x|]]; simpl in *; subst h1;
    [| |split; [done|by intros (_ & l & ? & _)]..].
  - unfold rlift. destruct (check_signature d p ks) as [p1|x|] eqn:Hc; simpl.
    + rewrite IH. destruct (otraverse _ entries) as [files|x|]; simpl.
      * split; intros (-> & l & [= <-] & Hl); (split; [done|]).
        -- exists (ks :: omap id files). split; [done|]. simpl. by rewrite Hc.
        -- exists (omap id files). split; [done|]. simpl in Hl. by rewrite Hc in Hl.
      * split; by intros (_ & l & ? & _).
      * split; by intros (_ & l & ? & _).
    + split; [done|]. intros (_ & l & Hl & Hp). destruct (otraverse _ entries); simpl in Hl; [|done..].
      injection Hl as <-. simpl in Hp. by rewrite Hc in Hp.
    + split; [done|]. intros (_ & l & Hl & Hp). destruct (otraverse _ entries); simpl in Hl; [|done..].
      injection Hl as <-. simpl in Hp. by rewrite Hc in Hp.
  - rewrite IH. by destruct (otraverse _ entries).
Qed.

(** Keys that signed are no longer expected. *)
Definition signed_not_expected (p : Progress) : Prop :=
  ∀ k s, (k, s) ∈ all_signatures_and_signers p → k ∉ all_consensus_pks p.

Definition bad (d : Digest) (ks : PublicKey * Signature) : bool :=
  negb (is_ok (verify_signature ks.2 d ks.1)).

Lemma check_all_ok d p l p' :
  signed_not_expected p →
  check_all d p l = Ok p' ↔
  NoDup (fst <$> l) ∧ list_to_set (fst <$> l) ⊆ all_consensus_pks p ∧
  p' = {| all_consensus_pks := all_consensus_pks p ∖ list_to_set (fst <$> l);
          all_signatures_and_signers := list_to_set l ∪ all_signatures_and_signers p;
          signers_with_invalid_signatures :=
            signers_with_invalid_signatures p ++ (fst <$> List.filter (bad d) l) |}.
Proof.
  revert p. induction l as [|[k s] l IH]; intros p Hp; simpl.
  { split.
    - intros [= <-]. split_and!; [constructor|set_solver|].
      destruct p; simpl. rewrite app_nil_r. f_equal; set_solver.
    - intros (_ & _ & ->). destruct p; simpl. rewrite app_nil_r. f_equal. f_equal; set_solver. }
  unfold check_signature. simpl. case_bool_decide as Hk.
  2: { simpl. split; [done|]. intros (_ & Hsub & _). set_solver. }
  case_bool_decide as Hks; [by destruct (Hp k s)|]. simpl.
  rewrite IH by (intros k' s'; simpl; intros [[= -> ->]%elem_of_singleton|Hin]%elem_of_union;
                 [set_solver|apply Hp in Hin; set_solver]).
  simpl. rewrite NoDup_cons. unfold bad at 2. simpl.
  assert ((fst <$> (if negb (is_ok (verify_signature s d k)) then (k, s) :: List.filter (bad d) l
                    else List.filter (bad d) l))
    = (if is_ok (verify_signature s d k) then [] else [k]) ++ (fst <$> List.filter (bad d) l)) as ->
    by (by destruct (is_ok _)).
  split.
  - intros (Hnd & Hsub & ->). split_and!; [|done|set_solver|].
    + rewrite <-(elem_of_list_to_set (C:=gset PublicKey)). set_solver.
    + f_equal; [set_solver|set_solver|]. destruct (is_ok _); simpl; [done|]. by rewrite <-app_assoc.
  - intros ([Hnin Hnd] & Hsub & ->).
    rewrite <-(elem_of_list_to_set (C:=gset PublicKey)) in Hnin. split_and!; [done|set_solver|].
    f_equal; [set_solver|set_solver|]. destruct (is_ok _); simpl; [done|]. by rewrite <-app_assoc.
Qed.

Lemma filter_bad_nil d l :
  (fst <$> List.filter (bad d) l) = [] ↔ Forall (λ ks, is_ok (verify_signature ks.2 d ks.1) = true) l.
Proof.
  induction l as [|ks l IH]; simpl; [by split|]. rewrite Forall_cons. unfold bad at 1.
  destruct (is_ok (verify_signature ks.2 d ks.1)); simpl; [by rewrite IH; naive_solver|].
  split; [done|by intros [? _]].
Qed.

(** C17 The signatures are accepted exactly if every member of the committee signed
    once: the directory can be read, every file with a signature can be decoded,
    no key signed twice, the keys that signed are those of the members, and every
    signature is valid for the digest of the configuration.  The result is then
    the set of all these signatures, and nothing has been written. *)
Theorem signatures_verified_iff `{!ReadsKeep} d c path h h' signatures :
  verify_signatures d c path h = (h', Ok signatures) ↔
  h' = h ∧ ∃ entries l,
    (read_dir path h).2 = Ok entries ∧
    signatures_in h (flatten entries) = Ok l ∧
    NoDup (fst <$> l) ∧
    list_to_set (fst <$> l) = consensus_keys c ∧
    Forall (λ ks, is_ok (verify_signature ks.2 d ks.1) = true) l ∧
    signatures = list_to_set l.
Proof.
  unfold verify_signatures, rthen, rmap_err. pose proof (read_dir_keeps path h) as Hk.
  destruct (read_dir path h) as [h1 [entries|e|]]; simpl in *; subst h1;
    [|split; [done|by intros (_ & ? & ? & ? & _)]..].
  assert (signed_not_expected (start c)) as Hstart by (intros k s; simpl; set_solver).
  split.
  - destruct (collect_signatures _ _ _ h) as [h1 [p|e|]] eqn:Hc; [|done..].
    apply collect_signatures_ok in Hc as (-> & l & Hl & Hp).
    apply check_all_ok in Hp as (Hnd & Hsub & ->); [|done]. unfold rlift, all_signed. simpl.
    case_bool_decide as Hempty; simpl; [|done].
    destruct (fst <$> List.filter (bad d) l) eqn:Hbad; [|done]. apply filter_bad_nil in Hbad.
    intros [= <- <-]. split; [done|]. exists entries, l. split_and!; [done..| |done|].
    + apply (anti_symm (⊆)); [done|]. by apply empty_difference_subseteq_L.
    + by rewrite union_empty_r_L.
  - intros (-> & entries' & l & [= <-] & Hl & Hnd & Heq & Hall & ->).
    eassert (collect_signatures d (flatten entries) (start c) h = (h, Ok _)) as ->.
    { apply collect_signatures_ok. split; [done|]. exists l. split; [done|].
      apply check_all_ok; [done|]. split_and!; [done| |reflexivity]. simpl. by rewrite Heq. }
    unfold rlift, all_signed. simpl. rewrite Heq, bool_decide_true by set_solver.
    simpl. rewrite (proj2 (filter_bad_nil d l) Hall). by rewrite union_empty_r_L.
Qed.

(** *** A signature that was written is accepted *)

(** Keys have the fixed length, encodings are undone by decoding, a signature made
    with the key of an identity is valid, and a file holds the bytes that were
    written to it. *)
Class SigningLaws : Prop := {
  public_key_length k : length (public_key_to_bytes k) = PUBLIC_KEY_LENGTH;
  public_key_inverse k : public_key_of (public_key_to_bytes k) = Ok k;
  signature_inverse x : signature_of (signature_to_bytes x) = Ok x;
  signed_valid config i : is_ok (verify_signature (sign config i) (digest config) (identity_key i)) = true;
  written_bytes path b h h' n :
    create_and_write_once path b h = (h', Ok n) →
    0 ≤ n ≤ Z.of_nat (length b) ∧ fs_read path h' = (h', Ok (take (Z.to_nat n) b));
}.

(** C40 What a validator signs is accepted.  If the command that signs succeeds, it wrote
    once, to the path for the identity that the password opens, the key of this identity
    followed by its signature of the configuration; [n] of these bytes were written.  If
    this is all of them, then the file, found in a directory, is read as the key and
    the signature, and the signature is valid for the digest of the configuration.  The
    command does not check this: if not even the key was written, it succeeds as well, and
    reading the file panics. *)
Theorem signed_file_accepted `{!SigningLaws} s s' :
  sign_supra_committee s = (s', Ok tt) →
  ∃ s1 password h2 i h3 path h4 config n,
    read_profile_password s = (s1, Ok password) ∧
    identity_from_encrypted_file password (home s1) = (h2, Ok i) ∧
    signature_output_path i h2 = (h3, Ok path) ∧
    config_from_home h3 = (h4, Ok config) ∧
    let b := public_key_to_bytes (identity_key i) ++ signature_to_bytes (sign config i) in
    create_and_write_once path b h4 = (home s', Ok n) ∧
    ∀ entry, entry_path entry = path →
      metadata entry (home s') = (home s', Ok {| is_dir := false; is_file := true |}) →
      contains (entry_name entry) GENESIS_SIGNATURE_FILE_NAME_SUFFIX = true →
      (n = Z.of_nat (length b) →
         read_signature entry (home s') = (home s', Ok (Some (identity_key i, sign config i))) ∧
         is_ok (verify_signature (sign config i) (digest config) (identity_key i)) = true) ∧
      (n < Z.of_nat PUBLIC_KEY_LENGTH → (read_signature entry (home s')).2 = Panic).
Proof.
  unfold sign_supra_committee, rthen, rmap_err, on_home, rzoom.
  destruct (read_profile_password s) as [s1 [password|e|]] eqn:Hpassword; simpl; [|done..].
  destruct (identity_from_encrypted_file password (home s1)) as [h2 [i|e|]] eqn:Hid; simpl; [|done..].
  destruct (signature_output_path i h2) as [h3 [path|e|]] eqn:Hout; simpl; [|done..].
  destruct (config_from_home h3) as [h4 [config|e|]] eqn:Hconfig; simpl; [|done..].
  set (b := public_key_to_bytes (identity_key i) ++ signature_to_bytes (sign config i)).
  destruct (create_and_write_once path b h4) as [h5 [n|e|]] eqn:Hw; simpl; [|done..].
  intros [= <-]. exists s1, password, h2, i, h3, path, h4, config, n.
  do 4 (split; [done|]). split; [exact Hw|].
  destruct (written_bytes _ _ _ _ _ Hw) as [Hn Hread]. simpl.
  intros entry Hpath Hmd Hname. unfold read_signature, rthen, rmap_err, rlift.
  rewrite Hmd. simpl. rewrite Hname, Hpath, Hread. simpl. split.
  - intros ->. rewrite Nat2Z.id, take_ge by done.
    assert (PUBLIC_KEY_LENGTH = length (public_key_to_bytes (identity_key i))) as -> by (by rewrite public_key_length).
    unfold b at 1. rewrite length_app.
    destruct (Nat.ltb_spec (length (public_key_to_bytes (identity_key i)) + length (signature_to_bytes (sign config i))) (length (public_key_to_bytes (identity_key i)))); [lia|].
    unfold b. rewrite take_app_length, drop_app_length, public_key_inverse. simpl.
    rewrite signature_inverse. simpl. split; [done|]. apply signed_valid.
  - intros Hlt. rewrite length_take.
    by rewrite (proj2 (Nat.ltb_lt _ _)) by lia.
Qed.
End blob.
End Blob.
