(* ===== verification/CeremonyExamples.v ===== *)
(** * A genesis ceremony at concrete data

    Keys, signatures and digests are numbers, a signature is the sum of the digest
    and the key.  The disk is a map from paths to contents; the directories are
    that of the signatures, which lists all files, and that of the operators, with
    the directories of two validators. *)

From S2P Require Import Prelude CliTypes CliExamples Ceremony.
From stdpp Require Import base tactics option list gmap strings pretty.
From Stdlib Require Import ZArith Lia.
Local Open Scope Z_scope.

(** A key or a signature is one number. *)
Definition one_number (b : list Z) : outcome string Z :=
  match b with [z] => Ok z | _ => Err "length" end.

#[export] Instance ex_ceremony : CeremonyEnv := {|
  Net := Z; Disk := gmap string (list Z); Byte := Z; DirEntry := string;
  read_dir path h :=
    (h, Ok (if bool_decide (path = "operators") then [Ok "operator1"; Err "io"; Ok "operator2"]
            else (λ kv, Ok kv.1) <$> map_to_list h));
  metadata e h :=
    (h, Ok (if bool_decide (e = "operator1") || bool_decide (e = "operator2")
            then {| is_dir := true; is_file := false |}
            else {| is_dir := false; is_file := true |}));
  entry_path e := e; entry_name e := e;
  fs_read path h := (h, match h !! path with Some b => Ok b | None => Err "missing" end);
  create_and_write_once path b h := (<[path := b]> h, Ok (Z.of_nat (length b)));
  create_and_write_all path b h := (<[path := b]> h, Ok tt);
  fs_exists path h := bool_decide (is_Some (h !! path));
  fs_create_dir path h := (h, Ok tt);
  kind e := OtherKind e; debug_kind k := "kind"; io_other s := s; io_not_found s := s;
  path_join a b := a +:+ "/" +:+ b;
  temp_dir h := (h, Ok "tmp"); remove_temp_dir p h := h;
  zip_extract a b h := (h, Ok tt); move_items_with_progress a b h := (h, Ok tt);
  url_parse s := Ok s; client_get u w := (w + 1, Ok "200");
  response_ok r := true; show_response_status r := r; response_bytes r w := (w, Ok []);
  SmrSettings := bool; read_settings h := (h, Ok true); is_testnet b := b;
  validate_settings b := Ok tt;
  github_repo_current_release_path b := "release";
  extract_path h := (h, Ok "extracted");
  github_operators_path b h := (h, Ok "operators");
  github_signatures_path b h := (h, Ok "signatures");
  GENESIS_SIGNATURE_FILE_NAME_SUFFIX := ".sig";
  PublicKey := Z; Signature := Z; PUBLIC_KEY_LENGTH := 1;
  public_key_to_bytes k := [k]; public_key_of := one_number;
  signature_to_bytes s := [s]; signature_of := one_number;
  debug_keys l := "keys";
  ValidatorKey := Z; PublicIdentity := Z;
  validator_identity a i := i; consensus_public_key i := i;
  dkg_key_validate i := Ok tt;
  Profiles := string; read_profiles_from_dir path h := (h, Ok path);
  active_account_address p := Ok (1 : @Address ex_cli);
  read_identity_from_dir path h := (h, Ok (if bool_decide (path = "operator1") then 11 else 12));
  Identity := Z; read_profile_password s := (s, Ok "password");
  identity_from_encrypted_file p h := (h, Ok 11); identity_key i := i;
  signature_output_path i h := (h, Ok "a.sig");
  ConfigV0 := Z; ConfigV1 := Z; ConfigV2 := Z; Tx0 := Z; Tx1 := Z;
  tx0_of_bytes b := head b; tx1_of_bytes b := head b; tx0_to_bytes t := [t]; tx1_to_bytes t := [t];
  generate_v0 c := Ok c; generate_v1 c := Ok c; generate_v2 c := Ok c;
  Digest := Z; show_digest := pretty;
  verify_signature s d k := if s =? d + k then Ok tt else Err "invalid";
  GenesisBlob := Z; config_digest b := b; transaction_digest b := b;
  blob_from_file p h := (h, Ok 0); blob_to_file b p h := (h, Ok tt);
|}.

Definition ex_settings : @SmrSettings ex_cli ex_ceremony := true.
Definition ex_validator (i : @PublicIdentity ex_cli ex_ceremony) : SupraValidator :=
  {| v_address := (1 : @Address ex_cli); v_identity := i |}.
Definition ex_committee : CommitteeConfig :=
  {| genesis_parameters := ex_settings;
     members := {[ (11 : @ValidatorKey ex_cli ex_ceremony) := ex_validator 11;
                   (12 : @ValidatorKey ex_cli ex_ceremony) := ex_validator 12 ]} |}.

#[export] Instance ex_config_env : ConfigEnv (H0 := ex_ceremony) := {|
  write_committees c h := (<["committee" := [Z.of_nat (size (members c))]]> h, Ok tt);
  config_from_home h := (h, Ok (Config_V2 (3 : @ConfigV2 ex_cli ex_ceremony)));
  digest c := 100;
  sign c i := 100 + i;
  smr_committee_config c := Ok ex_committee;
  new_blob c l := Ok 0;
  new_with_unverified_transaction c l t := Ok 0;
|}.

#[export] Instance ex_reads_keep : Blob.ReadsKeep (H0 := ex_ceremony).
Proof. by split. Qed.
#[export] Instance ex_operators_kept : Committee.OperatorsKept (H0 := ex_ceremony).
Proof. by split. Qed.
#[export] Instance ex_signing_laws : Blob.SigningLaws (H1 := ex_config_env).
Proof.
  split; try done.
  - intros config i. simpl. by rewrite Z.eqb_refl.
  - intros path b h h' n [= <- <-]. simpl. split; [lia|].
    by rewrite lookup_insert_eq, Nat2Z.id, take_ge.
Qed.

(** Both members have signed. *)
Definition ex_disk : @Disk ex_cli ex_ceremony := {[ "a.sig" := [11; 111]; "b.sig" := [12; 112] ]}.

Lemma signatures_verified_iff_witness :
  ∃ signatures, Blob.verify_signatures (H0 := ex_ceremony) (100 : @Digest ex_cli ex_ceremony)
                  ex_committee "signatures" ex_disk = (ex_disk, Ok signatures).
Proof.
  exists {[ (11, 111); (12, 112) ]}.
  apply (Blob.signatures_verified_iff (H0 := ex_ceremony)). split; [done|].
  exists [Ok "a.sig"; Ok "b.sig"], [(11, 111); (12, 112)].
  split_and!; try (vm_compute; reflexivity).
  - vm_compute. repeat constructor; set_solver.
  - repeat constructor.
Defined.

Definition ex_start : Sys (@Net ex_cli ex_ceremony) (@Disk ex_cli ex_ceremony) :=
  {| world := (0 : @Net ex_cli ex_ceremony); home := (∅ : @Disk ex_cli ex_ceremony) |}.

Lemma ex_sign_ok : is_ok (Blob.sign_supra_committee (H1:=ex_config_env) ex_start).2 = true.
Proof. vm_compute. reflexivity. Qed.
Lemma ex_build_ok : is_ok (Committee.build_supra_committee (H1:=ex_config_env) None ex_start).2 = true.
Proof. vm_compute. reflexivity. Qed.

Lemma signed_file_accepted_witness :
  ∃ s' i config path n h,
    Blob.sign_supra_committee (H1:=ex_config_env) ex_start = (s', Ok tt) ∧
    let b := public_key_to_bytes (identity_key i) ++ signature_to_bytes (sign config i) in
    create_and_write_once path b h = (home s', Ok n) ∧
    ∀ entry, entry_path entry = path →
      metadata entry (home s') = (home s', Ok {| is_dir := false; is_file := true |}) →
      Blob.contains (entry_name entry) GENESIS_SIGNATURE_FILE_NAME_SUFFIX = true →
      n = Z.of_nat (length b) →
      Blob.read_signature entry (home s') = (home s', Ok (Some (identity_key i, sign config i))).
Proof.
  destruct (run_ok _ _ ex_sign_ok) as (s' & [] & Heq).
  destruct (Blob.signed_file_accepted ex_start s' Heq)
    as (s1 & password & h2 & i & h3 & path & h4 & config & n & _ & _ & _ & _ & Hw & Hread).
  exists s', i, config, path, n, h4. split; [done|]. intros b. split; [exact Hw|]. intros entry H1 H2 H3 H4.
  exact (proj1 (proj1 (Hread entry H1 H2 H3) H4)).
Defined.

Lemma committee_lists_operators_witness :
  ∃ s' l, Committee.build_supra_committee (H1:=ex_config_env) None ex_start = (s', Ok tt) ∧
    NoDup (Committee.validator_key (H0 := ex_ceremony) <$> l).
Proof.
  destruct (run_ok _ _ ex_build_ok) as (s' & [] & Heq).
  destruct (Committee.committee_lists_operators (H1:=ex_config_env) None ex_start s' Heq)
    as (h1 & settings & s1 & h2 & path & l & _ & _ & _ & _ & _ & Hnd & _).
  by exists s', l.
Defined.
