(* ===== verification/Export.v ===== *)
(** * Export of the databases

    [src/supra/src/database/]: the tables of the archive and of the chain store are
    written to JSON files, one for each table, and databases are migrated.

    The databases, the files, the settings and the text of a JSON value are
    parameters; the objects the exporter makes are modelled.  What a buffered
    writer holds back is not distinguished from what it has written. *)

From S2P Require Import Prelude CliTypes.
From stdpp Require Import base tactics option list gmap strings pretty.
From Stdlib Require Import ZArith Lia.
Local Open Scope Z_scope.

(** The tables of both databases. *)
Inductive Schema : Type :=
| TransactionSchema
| BlockToTransactionSchema
| TransactionStatusSchema
| AccountFinalizedTxSchema
| AccountFinalizedCoinTxSchema
| AccountFinalizedCoinTaggedTxSchema
| TransactionOutputSchema
| TransactionHashToBlockHashSchema
| BlockHeightToHashSchema
| BlockHeaderInfoSchema
| EventByTypeSchema
| AutomationTaskSchema
| AutomatedTransactionSchema
| AccountAutomatedTxnsSchema
| BlockToAutomatedTransactionSchema
| BlockMetadataTxnSchema
| BlockToMetadataTxnSchema
| ExecutedBlockStatisticsSchema
| BatchSchema
| UncommittedBlockSchema
| CertifiedBlockSchema
| QCSchema
| EpochCommitteeSchema
| EpochAuthorizedCommitteeSchema
| LastStateSchema
| MoveStateSchema
| PruneIndexSchema.
#[export] Instance Schema_dec : EqDecision Schema.
Proof. solve_decision. Defined.

Inductive StorageInstance : Type := Archive | ChainStore.

(** [serde_json::Value]: what the exporter builds, and serialized data. *)
Inductive Json (Data : Type) : Type :=
| J_data (d : Data)
| J_string (s : string)
| J_object (fields : list (string * Json Data)).
Arguments J_data {Data}.
Arguments J_string {Data}.
Arguments J_object {Data}.

(** What the tool uses of the other crates. *)
Class ExportEnv `{CliEnv} : Type := {
  Files : Type;
  create_dir_all : string → M Files AnyhowError unit;
  (** [File::create], writing to it, and [flush]. *)
  file_create : string → M Files AnyhowError unit;
  file_write : string → string → M Files AnyhowError unit;
  file_flush : string → M Files AnyhowError unit;
  (** Databases opened for reading; a row that cannot be read is an error. *)
  Db : Type;
  open_read_only : string → outcome AnyhowError Db;
  cf_names : Db → list string;
  Key : Schema → Type;
  Value : Schema → Type;
  TABLE : Schema → string;
  rows : Db → ∀ S, outcome AnyhowError (list (outcome RocksError (Key S * Value S)));
  (** Serialization. *)
  Data : Type;
  json_key : ∀ {S}, Key S → Data;
  json_value : ∀ {S}, Value S → Data;
  debug_key : ∀ {S}, Key S → string;
  debug_value : ∀ {S}, Value S → string;
  to_string_pretty : Json Data → outcome AnyhowError string;
  (** Parts of keys and values. *)
  move_transaction : Value TransactionSchema → option Data;
  signed_smr_transaction : Value TransactionSchema → option Data;
  key_pair : ∀ {S}, Key S → Data * Data;
  key_triple : ∀ {S}, Key S → Data * Data * Data;
  prune_table_name : Value PruneIndexSchema → string;
  prune_raw_key_hex : Value PruneIndexSchema → string;
  try_into_events : Value EventByTypeSchema → outcome AnyhowError Data;
  show_anyhow : AnyhowError → string;
  (** Settings and migrations. *)
  DatabaseSetup : Type;
  StorageConfig : Type;
  storage_config : DatabaseSetup → StorageInstance → option StorageConfig;
  storage_path : StorageConfig → option string;
  SettingsErr : Type;
  show_settings_err : SettingsErr → string;
  settings_err : SettingsErr → CliError;
  read_smr_settings : string → M Files SettingsErr DatabaseSetup;
  read_default_smr_settings : M Files SettingsErr DatabaseSetup;
  read_rpc_config : string → M Files SettingsErr DatabaseSetup;
  run_migration : DatabaseSetup → Z → bool → M Files string string;
}.

Section export_data.
Context `{ExportEnv}.

(** The exporter without the Move store, which only serves the conversion of events. *)
Record Fetcher := { dbm : Db; out_dir : string; selected_table : string }.

Record ExportAllArgs := {
  output_folder : string;
  path_to_smr_settings : option string;
  path_to_rpc_config : option string;
  archive_path : option string;
  chain_store_path : option string;
  table_name : string;
  dry_run : bool;
}.

Record MigrateArgs := {
  m_path_to_smr_settings : option string;
  max_buffer_record_count : Z;
  skip_verification : bool;
}.

Inductive DatabaseTool : Type :=
| ExportAll (args : ExportAllArgs)
| Migrate (args : MigrateArgs).

Inductive DatabaseToolResult : Type :=
| ExportAllResult (msg : string)
| MigrateResult (msg : string).
End export_data.

(** ** Tables *)
Module Fetch.
Section fetch.
Context `{ExportEnv}.
Local Open Scope rust_scope.
Notation Run := (M Files AnyhowError).

(** [Fetcher::new]; the sizes it prints are left out. *)
Definition new (db_path out_dir selected_table : string) : outcome AnyhowError Fetcher :=
  let? db := open_read_only db_path in
  Ok {| dbm := db; out_dir := out_dir; selected_table := selected_table |}.

Definition will_export (self : Fetcher) (cf_name : string) : bool :=
  bool_decide (cf_name ∈ cf_names (dbm self)) || bool_decide (cf_name = "all").

Definition should_export (self : Fetcher) (S : Schema) : bool :=
  bool_decide (selected_table self = TABLE S) || bool_decide (selected_table self = "all").

Definition BATCH_SIZE : Z := 10000.
Definition newline : string := String (Ascii.ascii_of_N 10) "".

Definition file_path (self : Fetcher) (S : Schema) : string :=
  out_dir self +:+ "/" +:+ TABLE S +:+ ".json".

(** The loop over the rows. *)
Fixpoint write_rows {S} (path : string) (conv_fn : Key S → Value S → outcome AnyhowError (Json Data))
    (i : Z) (l : list (outcome RocksError (Key S * Value S))) : Run unit :=
  match l with
  | [] => rret tt
  | item :: l' =>
      (if i =? 0 then rret tt else file_write path ",") ;;
      (if i mod BATCH_SIZE =? 0 then file_flush path else rret tt) ;;
      match item with
      | Ok (key, value) =>
          json_value <- rlift (conv_fn key value) ;;
          text <- rlift (to_string_pretty json_value) ;;
          file_write path text
      | _ => rpanic
      end ;;
      write_rows path conv_fn (i + 1) l'
  end.

Definition export_schema_table (S : Schema)
    (conv_fn : Key S → Value S → outcome AnyhowError (Json Data)) (self : Fetcher) : Run unit :=
  table <- rlift (rows (dbm self) S) ;;
  let path := file_path self S in
  create_dir_all (out_dir self) ;;
  file_create path ;;
  file_write path ("[" +:+ newline) ;;
  write_rows path conv_fn 0 table ;;
  file_write path ("]" +:+ newline) ;;
  file_flush path.

(** The guard of every table. *)
Definition when_selected (S : Schema)
    (conv_fn : Key S → Value S → outcome AnyhowError (Json Data)) (self : Fetcher) : Run unit :=
  if should_export self S then export_schema_table S conv_fn self else rret tt.

(** *** The conversions of the rows *)
Definition tx_json (key : Key TransactionSchema) (value : Value TransactionSchema)
    : outcome AnyhowError (Json Data) :=
  match move_transaction value, signed_smr_transaction value with
  | Some move_txn, None =>
      Ok (J_object [("tx_hash", J_data (json_key key)); ("tx", J_data move_txn)])
  | None, Some smr_txn =>
      Ok (J_object [("tx_hash", J_data (json_key key)); ("tx", J_data smr_txn)])
  | None, None => Ok (J_object [("tx_hash", J_data (json_key key)); ("tx", J_string "Unknown")])
  | Some _, Some _ => Panic
  end.
Definition value_json {S} (_ : Key S) (value : Value S) : outcome AnyhowError (Json Data) :=
  Ok (J_data (json_value value)).
Definition hash_json {S} (key : Key S) (_ : Value S) : outcome AnyhowError (Json Data) :=
  Ok (J_object [("tx_hash", J_data (json_key key))]).
Definition block_tx_json {S} (key : Key S) (_ : Value S) : outcome AnyhowError (Json Data) :=
  Ok (J_object [("block_height", J_data (key_pair key).1); ("tx_hash", J_data (key_pair key).2)]).
Definition debug_json {S} (key_name value_name : string) (key : Key S) (value : Value S)
    : outcome AnyhowError (Json Data) :=
  Ok (J_object [(key_name, J_string (debug_key key)); (value_name, J_string (debug_value value))]).
Definition prune_json (key : Key PruneIndexSchema) (value : Value PruneIndexSchema)
    : outcome AnyhowError (Json Data) :=
  Ok (J_object [("timestamp", J_data (json_key key));
                ("table_name", J_string (prune_table_name value));
                ("store_key", J_string (prune_raw_key_hex value))]).
Definition event_json (key : Key EventByTypeSchema) (value : Value EventByTypeSchema)
    : outcome AnyhowError (Json Data) :=
  match try_into_events value with
  | Ok events =>
      Ok (J_object [("event_key", J_data (json_key key)); ("contract_event", J_data events)])
  | _ => Panic
  end.

(** An object with the key and the value. *)
Definition entry {S} (key_name value_name : string) (key : Key S) (value : Value S)
    : outcome AnyhowError (Json Data) :=
  Ok (J_object [(key_name, J_data (json_key key)); (value_name, J_data (json_value value))]).
(** An object with the three parts of the key. *)
Definition account_entry {S} (position_name : string) (key : Key S) (_ : Value S)
    : outcome AnyhowError (Json Data) :=
  let '(account, position, tx_hash) := key_triple key in
  Ok (J_object [("account", J_data account); (position_name, J_data position);
                ("tx_hash", J_data tx_hash)]).

(** *** The tables *)
Definition export_tx : Fetcher → Run unit := when_selected TransactionSchema tx_json.
Definition export_automation_tasks : Fetcher → Run unit :=
  when_selected AutomationTaskSchema value_json.
Definition export_automated_transaction : Fetcher → Run unit :=
  when_selected AutomatedTransactionSchema (entry "tx_hash" "tx_meta").
Definition export_block_metadata : Fetcher → Run unit :=
  when_selected BlockMetadataTxnSchema hash_json.
Definition export_block_to_metadata_txn : Fetcher → Run unit :=
  when_selected BlockToMetadataTxnSchema (entry "block_height" "tx_hash").
Definition export_block_to_tx : Fetcher → Run unit :=
  when_selected BlockToTransactionSchema block_tx_json.
Definition export_block_automated_tx : Fetcher → Run unit :=
  when_selected BlockToAutomatedTransactionSchema block_tx_json.
Definition export_tx_status : Fetcher → Run unit :=
  when_selected TransactionStatusSchema (entry "tx_hash" "status").
Definition export_tx_output : Fetcher → Run unit :=
  when_selected TransactionOutputSchema (entry "tx_hash" "output").
Definition export_tx_block_info : Fetcher → Run unit :=
  when_selected TransactionHashToBlockHashSchema (entry "tx_hash" "block_hash").
Definition export_block_height_to_hash : Fetcher → Run unit :=
  when_selected BlockHeightToHashSchema (entry "block_height" "block_hash").
Definition export_block_header_info : Fetcher → Run unit :=
  when_selected BlockHeaderInfoSchema (entry "block_hash" "block_header_info").

Definition export_account_tx : Fetcher → Run unit :=
  when_selected AccountFinalizedTxSchema (account_entry "sequence_number").
Definition export_account_automated_tx : Fetcher → Run unit :=
  when_selected AccountAutomatedTxnsSchema (account_entry "block").
Definition export_account_coin_tx : Fetcher → Run unit :=
  when_selected AccountFinalizedCoinTxSchema (account_entry "cursor").
Definition export_account_coin_tagged_tx : Fetcher → Run unit :=
  when_selected AccountFinalizedCoinTaggedTxSchema (account_entry "cursor").
Definition export_move_state : Fetcher → Run unit :=
  when_selected MoveStateSchema (debug_json "state_key" "state_value").
Definition export_prune_index : Fetcher → Run unit :=
  when_selected PruneIndexSchema prune_json.
Definition export_executed_block_stats : Fetcher → Run unit :=
  when_selected ExecutedBlockStatisticsSchema (entry "block_height" "stats").
Definition export_epoch_authorized_committee : Fetcher → Run unit :=
  when_selected EpochAuthorizedCommitteeSchema (entry "epoch" "authorized_committee").
Definition export_epoch_committee : Fetcher → Run unit :=
  when_selected EpochCommitteeSchema (entry "epoch" "committee").
Definition export_batch : Fetcher → Run unit := when_selected BatchSchema (entry "batch_hash" "batch").
Definition export_uncommitted_block : Fetcher → Run unit :=
  when_selected UncommittedBlockSchema (entry "block_hash" "block").
Definition export_certified_block : Fetcher → Run unit :=
  when_selected CertifiedBlockSchema (entry "block_height" "block").
Definition export_qc : Fetcher → Run unit := when_selected QCSchema (entry "qc_hash" "qc").
Definition export_last_state : Fetcher → Run unit :=
  when_selected LastStateSchema (debug_json "name" "state_item").
Definition export_event_by_type : Fetcher → Run unit :=
  when_selected EventByTypeSchema event_json.
End fetch.
End Fetch.

(** ** Commands *)
Module Tool.
Import Fetch.
Section tool.
Context `{ExportEnv}.
Local Open Scope rust_scope.

Definition database_paths (setup : DatabaseSetup) : option string * option string :=
  (storage_config setup Archive ≫= storage_path, storage_config setup ChainStore ≫= storage_path).

(** The tables of the archive, in the order of their export. *)
Definition archive_data (fetcher : Fetcher) : M Files AnyhowError unit :=
  export_tx fetcher ;;
  export_block_to_tx fetcher ;;
  export_tx_status fetcher ;;
  export_account_tx fetcher ;;
  export_account_coin_tx fetcher ;;
  export_account_coin_tagged_tx fetcher ;;
  export_tx_output fetcher ;;
  export_tx_block_info fetcher ;;
  export_block_height_to_hash fetcher ;;
  export_block_header_info fetcher ;;
  export_event_by_type fetcher ;;
  export_automation_tasks fetcher ;;
  export_automated_transaction fetcher ;;
  export_account_automated_tx fetcher ;;
  export_block_automated_tx fetcher ;;
  export_block_metadata fetcher ;;
  export_block_to_metadata_txn fetcher ;;
  export_executed_block_stats fetcher.

Definition blockchain_store (fetcher : Fetcher) : M Files AnyhowError unit :=
  export_batch fetcher ;;
  export_uncommitted_block fetcher ;;
  export_certified_block fetcher ;;
  export_qc fetcher ;;
  export_epoch_committee fetcher ;;
  export_last_state fetcher ;;
  export_move_state fetcher ;;
  export_prune_index fetcher.

(** Where the databases are. *)
Definition source_paths (args : ExportAllArgs) : M Files CliError (option string * option string) :=
  match path_to_smr_settings args, path_to_rpc_config args with
  | Some path, _ =>
      setup <- rmap_err (λ e, DataToolError ("Failed to read smr settings from " +:+ path +:+ ": "
                                            +:+ show_settings_err e)) (read_smr_settings path) ;;
      rret (database_paths setup)
  | None, Some path =>
      setup <- rmap_err (λ e, DataToolError ("Failed to read rpc config from " +:+ path +:+ ": "
                                            +:+ show_settings_err e)) (read_rpc_config path) ;;
      rret (database_paths setup)
  | None, None =>
      match archive_path args, chain_store_path args with
      | None, None =>
          setup <- rmap_err (λ e, DataToolError ("Failed to read smr settings from default path: "
                     +:+ show_settings_err e
                     +:+ ", pass path to smr settings or store directories"))
                     read_default_smr_settings ;;
          rret (database_paths setup)
      | archive, chain => rret (archive, chain)
      end
  end.

(** One database: [what] names it in the message of an error. *)
Definition export_database (args : ExportAllArgs) (what : string)
    (tables : Fetcher → M Files AnyhowError unit) (path : option string) : M Files CliError unit :=
  match path with
  | Some db_path =>
      fetcher <- rlift (omap_err Other (new db_path (output_folder args) (table_name args))) ;;
      if negb (dry_run args) && will_export fetcher (table_name args)
      then rmap_err (λ e, DataToolError ("Failed to export " +:+ what +:+ " from " +:+ db_path +:+ ": "
             +:+ show_anyhow e +:+ ". Check if you specified the correct path."))
             (tables fetcher)
      else rret tt
  | None => rret tt
  end.

Definition export_to_json (args : ExportAllArgs) : M Files CliError DatabaseToolResult :=
  paths <- source_paths args ;;
  export_database args "archive data" archive_data paths.1 ;;
  export_database args "blockchain store" blockchain_store paths.2 ;;
  rret (ExportAllResult (if dry_run args then "Dry run mode finished."
                         else "Data exported to " +:+ output_folder args)).

(** Both settings are read; the default ones are used if there is no path. *)
Definition migrate (args : MigrateArgs) : M Files CliError DatabaseToolResult :=
  given <- match m_path_to_smr_settings args with
           | Some path => r <- rtry (read_smr_settings path) ;; rret (Some r)
           | None => rret None
           end ;;
  fallback <- rtry read_default_smr_settings ;;
  match default fallback given with
  | inr e => rfail (settings_err e)
  | inl setup =>
      msg <- rmap_err DataToolError
        (run_migration setup (max_buffer_record_count args) (skip_verification args)) ;;
      rret (MigrateResult msg)
  end.

Definition execute (self : DatabaseTool) : M Files CliError DatabaseToolResult :=
  match self with
  | ExportAll args => export_to_json args
  | Migrate args => migrate args
  end.

(** *** What is in the files *)

(** The files as a map: an operation succeeds and does what it says. *)
Class FilesWork (contents : Files → gmap string string) : Prop := {
  create_dir_works path f : ∃ f', create_dir_all path f = (f', Ok tt) ∧ contents f' = contents f;
  create_works path f :
    ∃ f', file_create path f = (f', Ok tt) ∧ contents f' = <[path := ""]> (contents f);
  write_works path text old f : contents f !! path = Some old →
    ∃ f', file_write path text f = (f', Ok tt) ∧ contents f' = <[path := old +:+ text]> (contents f);
  flush_works path f : ∃ f', file_flush path f = (f', Ok tt) ∧ contents f' = contents f;
}.

(** Tables have different names. *)
Class TablesDiffer : Prop := { TABLE_inj : Inj (=) (=) TABLE }.

(** A table with its conversion, and the texts of its rows. *)
Record Table := {
  tb_schema : Schema;
  tb_conv : Key tb_schema → Value tb_schema → outcome AnyhowError (Json Data);
}.

Definition row_text {S} (conv_fn : Key S → Value S → outcome AnyhowError (Json Data))
    (item : outcome RocksError (Key S * Value S)) : outcome AnyhowError string :=
  match item with
  | Ok (key, value) => let? j := conv_fn key value in to_string_pretty j
  | _ => Panic
  end.

Definition table_texts (db : Db) (t : Table) : outcome AnyhowError (list string) :=
  let? table := rows db (tb_schema t) in otraverse (row_text (tb_conv t)) table.

Definition json_array (texts : list string) : string :=
  "[" +:+ newline +:+ String.concat "," texts +:+ "]" +:+ newline.

Definition archive_tables : list Table := [
  Build_Table TransactionSchema tx_json;
  Build_Table BlockToTransactionSchema block_tx_json;
  Build_Table TransactionStatusSchema (entry "tx_hash" "status");
  Build_Table AccountFinalizedTxSchema (account_entry "sequence_number");
  Build_Table AccountFinalizedCoinTxSchema (account_entry "cursor");
  Build_Table AccountFinalizedCoinTaggedTxSchema (account_entry "cursor");
  Build_Table TransactionOutputSchema (entry "tx_hash" "output");
  Build_Table TransactionHashToBlockHashSchema (entry "tx_hash" "block_hash");
  Build_Table BlockHeightToHashSchema (entry "block_height" "block_hash");
  Build_Table BlockHeaderInfoSchema (entry "block_hash" "block_header_info");
  Build_Table EventByTypeSchema event_json;
  Build_Table AutomationTaskSchema value_json;
  Build_Table AutomatedTransactionSchema (entry "tx_hash" "tx_meta");
  Build_Table AccountAutomatedTxnsSchema (account_entry "block");
  Build_Table BlockToAutomatedTransactionSchema block_tx_json;
  Build_Table BlockMetadataTxnSchema hash_json;
  Build_Table BlockToMetadataTxnSchema (entry "block_height" "tx_hash");
  Build_Table ExecutedBlockStatisticsSchema (entry "block_height" "stats")].

Definition chain_tables : list Table := [
  Build_Table BatchSchema (entry "batch_hash" "batch");
  Build_Table UncommittedBlockSchema (entry "block_hash" "block");
  Build_Table CertifiedBlockSchema (entry "block_height" "block");
  Build_Table QCSchema (entry "qc_hash" "qc");
  Build_Table EpochCommitteeSchema (entry "epoch" "committee");
  Build_Table LastStateSchema (debug_json "name" "state_item");
  Build_Table MoveStateSchema (debug_json "state_key" "state_value");
  Build_Table PruneIndexSchema prune_json].

Fixpoint run_tables (l : list Table) (fetcher : Fetcher) : M Files AnyhowError unit :=
  match l with
  | [] => rret tt
  | t :: l' => when_selected (tb_schema t) (tb_conv t) fetcher ;; run_tables l' fetcher
  end.

Lemma archive_data_tables fetcher f : archive_data fetcher f = run_tables archive_tables fetcher f.
Proof.
  unfold archive_data. simpl. do 17 (apply then_ext; intros _ ?). by rewrite then_ret.
Qed.
Lemma blockchain_store_tables fetcher f :
  blockchain_store fetcher f = run_tables chain_tables fetcher f.
Proof.
  unfold blockchain_store. simpl. do 7 (apply then_ext; intros _ ?). by rewrite then_ret.
Qed.

Section working.
Context (contents : Files → gmap string string) `{!FilesWork contents}.

(** What follows the first row. *)
Fixpoint rest_text (texts : list string) : string :=
  match texts with [] => "" | t :: texts' => "," +:+ t +:+ rest_text texts' end.

Lemma concat_rest t texts : String.concat "," (t :: texts) = t +:+ rest_text texts.
Proof.
  revert t. induction texts as [|u texts IH]; intros t.
  - simpl. by rewrite string_app_nil_r.
  - change (String.concat "," (t :: u :: texts)) with (t +:+ "," +:+ String.concat "," (u :: texts)).
    by rewrite IH.
Qed.

Lemma write_row {S} path (conv_fn : Key S → Value S → outcome AnyhowError (Json Data))
    item l i text old f :
  row_text conv_fn item = Ok text → contents f !! path = Some old →
  ∃ f1, write_rows path conv_fn i (item :: l) f = write_rows path conv_fn (i + 1) l f1 ∧
    contents f1 = <[path := old +:+ (if i =? 0 then text else "," +:+ text)]> (contents f).
Proof.
  unfold row_text. destruct item as [[k v]|e|]; [|done..]. intros Htext Hold. simpl.
  destruct (conv_fn k v) as [j|e|] eqn:Hj; simpl in Htext; [|done..].
  assert (∃ f1 old1, (if i =? 0 then rret tt else file_write path ",") f = (f1, Ok tt) ∧
    contents f1 !! path = Some old1 ∧ contents f1 = <[path := old1]> (contents f) ∧
    old1 = old +:+ (if i =? 0 then "" else ",")) as (f1 & old1 & Hf1 & Hold1 & Hc1 & ->).
  { destruct (i =? 0); simpl; [exists f, old; by rewrite insert_id, string_app_nil_r|].
    destruct (write_works path "," old f Hold) as (f1 & Hw & Hc). exists f1, (old +:+ ",").
    rewrite Hc, lookup_insert_eq. done. }
  assert (∃ f2, (if i mod BATCH_SIZE =? 0 then file_flush path else rret tt) f1 = (f2, Ok tt) ∧
    contents f2 = contents f1) as (f2 & Hf2 & Hc2).
  { destruct (i mod BATCH_SIZE =? 0); [apply flush_works|by exists f1]. }
  destruct (write_works path text _ f2 ltac:(rewrite Hc2; exact Hold1)) as (f3 & Hf3 & Hc3).
  exists f3. split.
  { unfold rthen, rlift. rewrite Hf1. cbv beta iota. rewrite Hf2. cbv beta iota.
    rewrite Htext. cbv beta iota. by rewrite Hf3. }
  rewrite Hc3, Hc2, Hc1, insert_insert_eq. f_equal. destruct (i =? 0).
  - by rewrite string_app_nil_r.
  - by rewrite <-string_app_assoc.
Qed.

Lemma write_rest {S} path (conv_fn : Key S → Value S → outcome AnyhowError (Json Data))
    l texts i old f :
  0 < i → otraverse (row_text conv_fn) l = Ok texts → contents f !! path = Some old →
  ∃ f', write_rows path conv_fn i l f = (f', Ok tt) ∧
    contents f' = <[path := old +:+ rest_text texts]> (contents f).
Proof.
  revert texts i old f. induction l as [|item l IH]; intros texts i old f Hi; simpl.
  { intros [= <-] Hold. exists f. simpl. by rewrite string_app_nil_r, insert_id. }
  destruct (row_text conv_fn item) as [t|e|] eqn:Ht; simpl; [|done..].
  destruct (otraverse _ l) as [ts|e|] eqn:Hts; simpl; [|done..]. intros [= <-] Hold.
  destruct (write_row path conv_fn item l i t old f Ht Hold) as (f1 & Hrun & Hc1).
  simpl in Hrun. rewrite Hrun. rewrite (proj2 (Z.eqb_neq i 0)) in Hc1 by lia.
  destruct (IH ts (i + 1) (old +:+ "," +:+ t) f1) as (f' & Hf' & Hc'); [lia|done| |].
  { by rewrite Hc1, lookup_insert_eq. }
  exists f'. split; [exact Hf'|]. rewrite Hc', Hc1, insert_insert_eq. f_equal.
  simpl. by rewrite <-!string_app_assoc.
Qed.

Lemma write_rows_ok {S} path (conv_fn : Key S → Value S → outcome AnyhowError (Json Data))
    l texts old f :
  otraverse (row_text conv_fn) l = Ok texts → contents f !! path = Some old →
  ∃ f', write_rows path conv_fn 0 l f = (f', Ok tt) ∧
    contents f' = <[path := old +:+ String.concat "," texts]> (contents f).
Proof.
  destruct l as [|item l]; simpl.
  { intros [= <-] Hold. exists f. simpl. by rewrite string_app_nil_r, insert_id. }
  destruct (row_text conv_fn item) as [t|e|] eqn:Ht; simpl; [|done..].
  destruct (otraverse _ l) as [ts|e|] eqn:Hts; simpl; [|done..]. intros [= <-] Hold.
  destruct (write_row path conv_fn item l 0 t old f Ht Hold) as (f1 & Hrun & Hc1).
  simpl in Hrun, Hc1. rewrite Hrun.
  destruct (write_rest path conv_fn l ts 1 (old +:+ t) f1) as (f' & Hf' & Hc'); [lia|done| |].
  { by rewrite Hc1, lookup_insert_eq. }
  exists f'. split; [exact Hf'|]. rewrite Hc', Hc1, insert_insert_eq. f_equal.
  by rewrite (concat_rest t ts), string_app_assoc.
Qed.

Lemma export_table_ok t fetcher texts f :
  table_texts (dbm fetcher) t = Ok texts →
  ∃ f', export_schema_table (tb_schema t) (tb_conv t) fetcher f = (f', Ok tt) ∧
    contents f' = <[file_path fetcher (tb_schema t) := json_array texts]> (contents f).
Proof.
  unfold table_texts, export_schema_table, rthen, rlift.
  destruct (rows (dbm fetcher) (tb_schema t)) as [table|e|]; simpl; [|done..]. intros Htexts.
  set (path := file_path fetcher (tb_schema t)).
  destruct (create_dir_works (out_dir fetcher) f) as (f1 & -> & Hc1). cbv beta iota.
  destruct (create_works path f1) as (f2 & -> & Hc2). cbv beta iota.
  destruct (write_works path ("[" +:+ newline) "" f2) as (f3 & -> & Hc3);
    [by rewrite Hc2, lookup_insert_eq|]. cbv beta iota.
  destruct (write_rows_ok path (tb_conv t) table texts ("" +:+ "[" +:+ newline) f3) as (f4 & -> & Hc4);
    [done|by rewrite Hc3, lookup_insert_eq|]. cbv beta iota.
  destruct (write_works path ("]" +:+ newline) _ f4 ltac:(by rewrite Hc4, lookup_insert_eq))
    as (f5 & -> & Hc5). cbv beta iota.
  destruct (flush_works path f5) as (f6 & -> & Hc6). exists f6. split; [done|].
  rewrite Hc6, Hc5, Hc4, Hc3, Hc2, !insert_insert_eq, Hc1. by f_equal.
Qed.

(** The files after an export, as a function of those before. *)
Fixpoint exported (fetcher : Fetcher) (l : list Table) (m : gmap string string) : gmap string string :=
  match l with
  | [] => m
  | t :: l' =>
      exported fetcher l'
        (if should_export fetcher (tb_schema t)
         then match table_texts (dbm fetcher) t with
              | Ok texts => <[file_path fetcher (tb_schema t) := json_array texts]> m
              | _ => m
              end
         else m)
  end.

Lemma run_tables_ok l fetcher f :
  Forall (λ t, should_export fetcher (tb_schema t) = true → is_ok (table_texts (dbm fetcher) t) = true) l →
  ∃ f', run_tables l fetcher f = (f', Ok tt) ∧ contents f' = exported fetcher l (contents f).
Proof.
  revert f. induction l as [|t l IH]; intros f; simpl; [by exists f|].
  intros [Ht Hl]%Forall_cons. unfold rthen, when_selected at 1.
  destruct (should_export fetcher (tb_schema t)).
  - specialize (Ht eq_refl). destruct (table_texts (dbm fetcher) t) as [texts|e|] eqn:Htexts; [|done..].
    destruct (export_table_ok t fetcher texts f Htexts) as (f1 & -> & Hc1).
    rewrite <-Hc1. by apply IH.
  - by apply IH.
Qed.

Lemma exported_other fetcher l m path :
  (∀ t, t ∈ l → should_export fetcher (tb_schema t) = true → path ≠ file_path fetcher (tb_schema t)) →
  exported fetcher l m !! path = m !! path.
Proof.
  revert m. induction l as [|t l IH]; intros m Hpath; simpl; [done|].
  rewrite IH by (intros; apply Hpath; [by constructor|done]).
  destruct (should_export fetcher (tb_schema t)) eqn:Hs; [|done].
  destruct (table_texts _ _); [|done..]. apply lookup_insert_ne.
  intros Heq. symmetry in Heq. revert Heq. apply Hpath; [constructor|done].
Qed.

Lemma file_path_inj `{!TablesDiffer} fetcher S T :
  file_path fetcher S = file_path fetcher T → S = T.
Proof.
  intros Heq. apply TABLE_inj. unfold file_path in Heq.
  apply (inj (String.app _)), (inj (String.app _)) in Heq. by apply string_app_inj_r in Heq.
Qed.

Lemma exported_lookup `{!TablesDiffer} fetcher l m t texts :
  NoDup (tb_schema <$> l) → t ∈ l → should_export fetcher (tb_schema t) = true →
  table_texts (dbm fetcher) t = Ok texts →
  exported fetcher l m !! file_path fetcher (tb_schema t) = Some (json_array texts).
Proof.
  revert m. induction l as [|u l IH]; intros m; simpl; [by intros _ ?%elem_of_nil|].
  intros [Hu Hnd]%NoDup_cons [->|Hin]%elem_of_cons Hs Htexts.
  - rewrite Hs, Htexts, exported_other; [by rewrite lookup_insert_eq|].
    intros v Hv _ Heq%file_path_inj. apply Hu. rewrite Heq. by apply list_elem_of_fmap_2.
  - by apply IH.
Qed.

(** The tables that are considered for a database. *)
Definition considered (args : ExportAllArgs) (fetcher : Fetcher) (l : list Table) : list Table :=
  if will_export fetcher (table_name args) then l else [].

(** The selected ones can be read. *)
Definition readable (args : ExportAllArgs) (fetcher : Fetcher) (l : list Table) : Prop :=
  Forall (λ t, should_export fetcher (tb_schema t) = true → is_ok (table_texts (dbm fetcher) t) = true)
    (considered args fetcher l).

Lemma export_database_ok args what tables l db_path fetcher f :
  dry_run args = false →
  new db_path (output_folder args) (table_name args) = Ok fetcher →
  (∀ f, tables fetcher f = run_tables l fetcher f) → readable args fetcher l →
  ∃ f', export_database args what tables (Some db_path) f = (f', Ok tt) ∧
    contents f' = exported fetcher (considered args fetcher l) (contents f).
Proof.
  intros Hdry Hnew Htables Hread. unfold export_database, rthen, rlift. rewrite Hnew. simpl.
  unfold readable, considered in *. rewrite Hdry. simpl.
  destruct (will_export fetcher (table_name args)); [|by exists f].
  destruct (run_tables_ok l fetcher f Hread) as (f' & Hrun & Hc). exists f'.
  unfold rmap_err. by rewrite Htables, Hrun.
Qed.

Lemma tables_nodup : NoDup (tb_schema <$> (archive_tables ++ chain_tables)).
Proof. by apply (bool_decide_unpack _). Qed.

(** The table of the authorized committees is the one that is missing. *)
Lemma tables_all S :
  S ∈ tb_schema <$> (archive_tables ++ chain_tables) ∨ S = EpochAuthorizedCommitteeSchema.
Proof.
  destruct (decide (S = EpochAuthorizedCommitteeSchema)); [by right|left].
  apply (bool_decide_unpack _). by destruct S.
Qed.

Lemma tables_without t :
  t ∈ archive_tables ++ chain_tables → EpochAuthorizedCommitteeSchema ≠ tb_schema t.
Proof.
  intros Ht Heq. assert (EpochAuthorizedCommitteeSchema ∉ tb_schema <$> (archive_tables ++ chain_tables))
    as [] by (by apply (bool_decide_unpack _)). rewrite Heq. by apply list_elem_of_fmap_2.
Qed.

Lemma considered_sub args fetcher l t : t ∈ considered args fetcher l → t ∈ l.
Proof. unfold considered. destruct (will_export _ _); [done|]. by intros ?%elem_of_nil. Qed.

Lemma considered_nodup args fetcher l :
  NoDup (tb_schema <$> l) → NoDup (tb_schema <$> considered args fetcher l).
Proof. unfold considered. destruct (will_export _ _); [done|]. intros _. constructor. Qed.

(** C24 An export writes the selected tables, but for that of the authorized committees:
    with both databases open, their selected tables readable and a disk that works, the
    command succeeds; the file of every selected table that the command considers for
    either database then holds the JSON array of its rows in their order, separated by
    commas, and no other file is changed.  The table of the authorized committees is
    the only one that is considered for neither database: its file is not written, whether
    it is selected or not. *)
Theorem selected_tables_exported `{!TablesDiffer} args a c fa fc f f1 :
  dry_run args = false →
  source_paths args f = (f1, Ok (Some a, Some c)) →
  new a (output_folder args) (table_name args) = Ok fa →
  new c (output_folder args) (table_name args) = Ok fc →
  readable args fa archive_tables → readable args fc chain_tables →
  let la := considered args fa archive_tables in
  let lc := considered args fc chain_tables in
  ∃ f',
    export_to_json args f = (f', Ok (ExportAllResult ("Data exported to " +:+ output_folder args))) ∧
    (∀ t texts, t ∈ la → should_export fa (tb_schema t) = true →
       table_texts (dbm fa) t = Ok texts →
       contents f' !! file_path fa (tb_schema t) = Some (json_array texts)) ∧
    (∀ t texts, t ∈ lc → should_export fc (tb_schema t) = true →
       table_texts (dbm fc) t = Ok texts →
       contents f' !! file_path fc (tb_schema t) = Some (json_array texts)) ∧
    (∀ path, (∀ t, t ∈ la ++ lc → should_export fa (tb_schema t) = true →
                path ≠ file_path fa (tb_schema t)) →
       contents f' !! path = contents f1 !! path) ∧
    (∀ S, S ∈ tb_schema <$> (archive_tables ++ chain_tables) ∨
          S = EpochAuthorizedCommitteeSchema ∧
          contents f' !! file_path fa S = contents f1 !! file_path fa S).
Proof.
  intros Hdry Hsrc Ha Hc Hra Hrc la lc.
  destruct (export_database_ok args "archive data" archive_data archive_tables a fa f1)
    as (f2 & Hf2 & Hc2); [done..|apply archive_data_tables|done|].
  destruct (export_database_ok args "blockchain store" blockchain_store chain_tables c fc f2)
    as (f3 & Hf3 & Hc3); [done..|apply blockchain_store_tables|done|].
  fold la in Hc2. fold lc in Hc3.
  assert (∀ S, file_path fc S = file_path fa S ∧ should_export fc S = should_export fa S) as Hsame.
  { revert Ha Hc. unfold new. destruct (open_read_only a); simpl; [|done..].
    destruct (open_read_only c); simpl; [|done..]. by intros [= <-] [= <-] S. }
  pose proof tables_nodup as Hnd. rewrite fmap_app in Hnd. apply NoDup_app in Hnd as (Hnda & Hdis & Hndc).
  assert (∀ path, (∀ t, t ∈ la ++ lc → should_export fa (tb_schema t) = true →
                path ≠ file_path fa (tb_schema t)) →
       contents f3 !! path = contents f1 !! path) as Hother.
  { intros path Hpath. rewrite Hc3, exported_other, Hc2, exported_other; [done| |].
    + intros t Ht Hs. apply Hpath; [set_solver|done].
    + intros t Ht Hs. destruct (Hsame (tb_schema t)) as [-> Heq]. rewrite Heq in Hs.
      apply Hpath; [set_solver|done]. }
  exists f3. split_and!; [| | |exact Hother|].
  - unfold export_to_json, rthen. rewrite Hsrc. cbn [fst snd]. rewrite Hf2, Hf3, Hdry. done.
  - intros t texts Ht Hs Htexts. rewrite Hc3, exported_other.
    + rewrite Hc2. by apply exported_lookup; [apply considered_nodup|..].
    + intros u Hu _ Heq. rewrite (proj1 (Hsame _)) in Heq. apply file_path_inj in Heq.
      apply (Hdis (tb_schema t)); [by eapply list_elem_of_fmap_2, considered_sub|].
      rewrite Heq. by eapply list_elem_of_fmap_2, considered_sub.
  - intros t texts Ht Hs Htexts. rewrite Hc3. by apply exported_lookup; [apply considered_nodup|..].
  - intros S. destruct (tables_all S) as [?| ->]; [by left|right]. split; [done|].
    apply Hother. intros t Ht _ Heq%file_path_inj. apply (tables_without t); [|done].
    apply elem_of_app in Ht as [?%considered_sub|?%considered_sub]; apply elem_of_app; auto.
Qed.

(** Selecting the table of the authorized committees succeeds and exports nothing. *)
Theorem authorized_committees_not_exported `{!TablesDiffer} args a c fa fc f f1 :
  TABLE EpochAuthorizedCommitteeSchema ≠ "all" →
  table_name args = TABLE EpochAuthorizedCommitteeSchema →
  dry_run args = false →
  source_paths args f = (f1, Ok (Some a, Some c)) →
  new a (output_folder args) (table_name args) = Ok fa →
  new c (output_folder args) (table_name args) = Ok fc →
  ∃ f', export_to_json args f
        = (f', Ok (ExportAllResult ("Data exported to " +:+ output_folder args))) ∧
        contents f' = contents f1.
Proof.
  intros Hall Hname Hdry Hsrc Ha Hc.
  assert (∀ db_path fetcher S, new db_path (output_folder args) (table_name args) = Ok fetcher →
    S ≠ EpochAuthorizedCommitteeSchema → should_export fetcher S = false) as Hnot.
  { intros db_path fetcher S. unfold new. destruct (open_read_only db_path); simpl; [|done..].
    intros [= <-] HS. unfold should_export. simpl. rewrite Hname.
    rewrite !bool_decide_false; [done|done|]. intros Heq%TABLE_inj. done. }
  assert (∀ db_path fetcher l m, new db_path (output_folder args) (table_name args) = Ok fetcher →
    EpochAuthorizedCommitteeSchema ∉ (tb_schema <$> l) →
    readable args fetcher l ∧ exported fetcher (considered args fetcher l) m = m) as Hnone.
  { intros db_path fetcher l m Hnew Hl.
    assert (∀ t, t ∈ considered args fetcher l → should_export fetcher (tb_schema t) = false) as Hs.
    { intros t Ht. eapply Hnot; [done|]. intros Heq. apply Hl. rewrite <-Heq.
      by eapply list_elem_of_fmap_2, considered_sub. }
    split; [apply Forall_forall; intros t Ht Ht'; by rewrite Hs in Ht'|].
    apply map_eq. intros path. apply exported_other. intros t Ht Ht'. by rewrite Hs in Ht'. }
  assert (EpochAuthorizedCommitteeSchema ∉ (tb_schema <$> archive_tables) ∧
          EpochAuthorizedCommitteeSchema ∉ (tb_schema <$> chain_tables)) as [Hla Hlc]
    by (split; by apply (bool_decide_unpack _)).
  destruct (export_database_ok args "archive data" archive_data archive_tables a fa f1)
    as (f2 & Hf2 & Hc2); [done..|apply archive_data_tables|by eapply (Hnone a fa archive_tables ∅)|].
  destruct (export_database_ok args "blockchain store" blockchain_store chain_tables c fc f2)
    as (f3 & Hf3 & Hc3); [done..|apply blockchain_store_tables|by eapply (Hnone c fc chain_tables ∅)|].
  exists f3. split.
  - unfold export_to_json, rthen. rewrite Hsrc. cbn [fst snd]. rewrite Hf2, Hf3, Hdry. done.
  - rewrite Hc3, (proj2 (Hnone c fc chain_tables _ Hc Hlc)), Hc2.
    by rewrite (proj2 (Hnone a fa archive_tables _ Ha Hla)).
Qed.
End working.
End tool.
End Tool.
