(* ===== verification/ExportExamples.v ===== *)
(** * An export at concrete data

    Files are a map from paths to texts, keys and values are numbers; every table
    has two rows, and names of tables are their positions. *)

From S2P Require Import Prelude CliTypes CliExamples Export.
From stdpp Require Import base tactics option list gmap strings pretty.
From Stdlib Require Import ZArith Lia.
Local Open Scope Z_scope.

Definition all_schemas : list Schema := [
  TransactionSchema; BlockToTransactionSchema; TransactionStatusSchema; AccountFinalizedTxSchema;
  AccountFinalizedCoinTxSchema; AccountFinalizedCoinTaggedTxSchema; TransactionOutputSchema;
  TransactionHashToBlockHashSchema; BlockHeightToHashSchema; BlockHeaderInfoSchema;
  EventByTypeSchema; AutomationTaskSchema; AutomatedTransactionSchema; AccountAutomatedTxnsSchema;
  BlockToAutomatedTransactionSchema; BlockMetadataTxnSchema; BlockToMetadataTxnSchema;
  ExecutedBlockStatisticsSchema; BatchSchema; UncommittedBlockSchema; CertifiedBlockSchema;
  QCSchema; EpochCommitteeSchema; EpochAuthorizedCommitteeSchema; LastStateSchema;
  MoveStateSchema; PruneIndexSchema].

Fixpoint index_of (S : Schema) (l : list Schema) : nat :=
  match l with
  | [] => 0
  | T :: l' => if decide (S = T) then 0%nat else Datatypes.S (index_of S l')
  end.

Lemma index_of_spec S : all_schemas !! index_of S all_schemas = Some S.
Proof. by destruct S. Qed.

#[export] Instance ex_export : ExportEnv := {|
  Files := gmap string string;
  create_dir_all path f := (f, Ok tt);
  file_create path f := (<[path := ""]> f, Ok tt);
  file_write path text f :=
    match f !! path with
    | Some old => (<[path := old +:+ text]> f, Ok tt)
    | None => (f, Err "missing")
    end;
  file_flush path f := (f, Ok tt);
  Db := string;
  open_read_only path := Ok path;
  cf_names db := [];
  Key S := Z; Value S := Z;
  TABLE S := pretty (index_of S all_schemas);
  rows db S := Ok [Ok (1, 10); Ok (2, 20)];
  Data := Z;
  json_key S k := k; json_value S v := v; debug_key S k := pretty k; debug_value S v := pretty v;
  to_string_pretty j :=
    Ok match j with J_data d => pretty d | J_string s => s | J_object l => "object" end;
  move_transaction v := Some v; signed_smr_transaction v := None;
  key_pair S k := (k, k); key_triple S k := (k, k, k);
  prune_table_name v := "table"; prune_raw_key_hex v := "00";
  try_into_events v := Ok v;
  show_anyhow e := e;
  DatabaseSetup := unit; StorageConfig := unit; storage_config d i := Some tt; storage_path c := Some "db";
  SettingsErr := string; show_settings_err e := e; settings_err e := DataToolError e;
  read_smr_settings path f := (f, Ok tt); read_default_smr_settings f := (f, Ok tt);
  read_rpc_config path f := (f, Ok tt);
  run_migration d n b f := (f, Ok "done");
|}.

Definition ex_contents (f : @Files ex_cli ex_export) : gmap string string := f.

#[export] Instance ex_files_work : Tool.FilesWork (H0 := ex_export) ex_contents.
Proof.
  split.
  - intros path f. by exists f.
  - intros path f. by eexists.
  - intros path text old f Hold. unfold ex_contents in Hold. simpl. rewrite Hold. by eexists.
  - intros path f. by exists f.
Qed.

#[export] Instance ex_tables_differ : Tool.TablesDiffer (H0 := ex_export).
Proof.
  split. intros S T.
  change (pretty (index_of S all_schemas) = pretty (index_of T all_schemas) → S = T).
  intros Heq%(inj pretty). apply (inj Some).
  by rewrite <-(index_of_spec S), Heq, index_of_spec.
Qed.

Definition ex_args : ExportAllArgs :=
  {| output_folder := "out"; path_to_smr_settings := None; path_to_rpc_config := None;
     archive_path := Some "archive"; chain_store_path := Some "chain"; table_name := "all";
     dry_run := false |}.
Definition ex_fetcher (db : @Db ex_cli ex_export) : Fetcher :=
  {| dbm := db; out_dir := "out"; selected_table := "all" |}.

Lemma selected_tables_exported_witness :
  ∃ f', Tool.export_to_json ex_args (∅ : @Files ex_cli ex_export)
        = (f', Ok (ExportAllResult "Data exported to out")) ∧
    ex_contents f' !! Fetch.file_path (ex_fetcher "chain") QCSchema
      = Some (Tool.json_array ["object"; "object"]).
Proof.
  destruct (Tool.selected_tables_exported ex_contents ex_args "archive" "chain"
    (ex_fetcher "archive") (ex_fetcher "chain") ∅ ∅) as (f' & Hrun & _ & Hchain & _);
    [done..| | |].
  - unfold Tool.readable. repeat constructor.
  - unfold Tool.readable. repeat constructor.
  - exists f'. split; [exact Hrun|].
    apply (Hchain (Tool.Build_Table QCSchema (Fetch.entry "qc_hash" "qc"))); [|done..].
    by do 3 right; left.
Defined.
