(* ===== verification/Commands.v ===== *)
(** * Commands that send transactions and queries

    [src/supra/src/move_tool/], [node/delegation_pool/] and
    [governance/mod.rs]: the commands of the tool that query a node or send a
    transaction made from their arguments.

    The payloads of the framework, the tools of the Move compiler and the JSON and
    BCS encodings are parameters; the access to JSON values is modelled. *)

From S2P Require Import Prelude Transactions CliTypes RpcClient TxOptions Identity.
From stdpp Require Import base tactics option list gmap strings pretty.
From Stdlib Require Import ZArith Lia.
Import Profiles Sending.
Local Open Scope Z_scope.

(** [serde_json::Value]. *)
Inductive Value : Type :=
| V_null
| V_bool (b : bool)
| V_number (n : Z)
| V_string (s : string)
| V_array (l : list Value)
| V_object (fields : list (string * Value)).

(** [get] with a key and with an index, [as_array] and [as_str]. *)
Definition get_key (k : string) (v : Value) : option Value :=
  match v with
  | V_object fields => snd <$> List.find (λ '(k', _), bool_decide (k' = k)) fields
  | _ => None
  end.
Definition get_index (i : nat) (v : Value) : option Value :=
  match v with V_array l => l !! i | _ => None end.
Definition as_array (v : Value) : option (list Value) :=
  match v with V_array l => Some l | _ => None end.
Definition as_str (v : Value) : option string :=
  match v with V_string s => Some s | _ => None end.

(** What the commands use of the other crates; errors are already converted where
    the type is not named in the commands. *)
Class CmdEnv `{CliEnv} : Type := {
  #[global] cmd_id :: IdEnv;
  (** JSON and BCS. *)
  json_from_str : string → outcome SerdeError Value;
  CBytes : Type;
  bytes_from_str : string → outcome SerdeError CBytes;
  bytes_to_str : CBytes → outcome SerdeError string;
  bcs_of_string : string → outcome BcsErr CBytes;
  string_of_bcs : CBytes → outcome BcsErr string;
  hex_bytes_of_value : Value → outcome SerdeError CBytes;
  value_of_hex_bytes : CBytes → outcome SerdeError Value;
  (** [HashValue::sha3_256_of] and [to_hex_literal]. *)
  sha3_256_hex_literal : CBytes → string;
  (** Commands of the Aptos tool, with their printed errors. *)
  AptosCommand : Type;
  execute_serialized : AptosCommand → M (Sys World Home) string string;
  SupraCommand : Type;
  supra_command_arguments : SupraCommand → M (Sys World Home) string SupraCommandArguments;
  derive_resource_account : AptosCommand → M (Sys World Home) string Address;
  generate_hash : AptosCommand → M (Sys World Home) string string;
  (** Arguments of entry functions. *)
  EntryFunctionArguments : Type;
  EntryFunction : Type;
  MultisigTransactionPayload : Type;
  view_request_of : EntryFunctionArguments → outcome CliError ViewRequest;
  entry_function_of : EntryFunctionArguments → outcome CliError EntryFunction;
  multisig_payload_of : EntryFunctionArguments → outcome CliError MultisigTransactionPayload;
  multisig_entry_function : EntryFunction → MultisigTransactionPayload;
  bcs_of_multisig_payload : MultisigTransactionPayload → outcome BcsErr CBytes;
  multisig_payload_to_bytes : MultisigTransactionPayload → CBytes;
  (** [ViewRequest]: the address and the name of the module, the function, its type
      arguments and its arguments; [AccountAddress::ONE], and the JSON of an address and,
      with the converted error, of a number. *)
  view_request : Address → string → string → list TypeTag → list Value → ViewRequest;
  ADDRESS_ONE : Address;
  value_of_address : Address → outcome SerdeError Value;
  value_of_u64 : Z → outcome CliError Value;
  (** Payloads of the framework. *)
  supra_account_create_account : Address → TransactionPayload;
  supra_account_transfer_coins : TypeTag → Address → Z → TransactionPayload;
  resource_account_create_resource_account : CBytes → CBytes → TransactionPayload;
  empty_bytes : CBytes;
  AuthenticationKey : Type;
  bcs_of_authentication_key : AuthenticationKey → outcome BcsErr CBytes;
  ResourceAccountSeed : Type;
  seed_bytes : ResourceAccountSeed → outcome CliError CBytes;
  automation_registration : EntryFunction → Z → Z → Z → Z → TransactionPayload;
  automation_registry_cancel_task : Z → TransactionPayload;
  stake_leave_validator_set : Address → TransactionPayload;
  multisig_account_vote_transaction : Address → Z → bool → TransactionPayload;
  multisig_account_create_transaction : Address → CBytes → TransactionPayload;
  multisig_transaction : Address → option MultisigTransactionPayload → TransactionPayload;
  pbo_delegation_pool_set_operator : Address → TransactionPayload;
  pbo_delegation_pool_unlock : Address → Z → TransactionPayload;
  pbo_delegation_pool_withdraw : Address → Z → TransactionPayload;
  into_entry_function : TransactionPayload → EntryFunction;
  derive_pbo_pool_address_from : Address → string → Address;
  create_multisig_account_address : Address → Z → Address;
  (** Names. *)
  identifier_from_str : string → outcome AnyhowError Identifier;
  struct_tag_from_str : string → outcome AnyhowError TypeTag;
  debug_address_error : AddressParseError → string;
  show_address_error : AddressParseError → string;
}.

Section command_data.
Context `{CmdEnv}.

Inductive MoveToolResult : Type :=
| MoveCli (v : Value)
| Move_String (s : string)
| SimulationInfo (info : CliTransactionInfo)
| TransactionInfo (info : CliTransactionInfo)
| Move_FundWithFaucet (s : FaucetStatus)
| ListAccountPackage (l : CliMoveList)
| Move_DeriveMultiSigAddress (a : Address)
| Move_DeriveResourceAccountAddress (a : Address).

Inductive MoveShowQuery : Type := Show_Module | Show_Resource.

Inductive MoveToolCommand : Type :=
| BcsJsonDecode (input : string)
| BcsJsonEncode (input : string)
| BuildPublishPayload (tool : AptosCommand)
| Clean (tool : AptosCommand)
| Compile (tool : AptosCommand)
| CompileScript (tool : AptosCommand)
| Coverage (tool : AptosCommand)
| Document (tool : AptosCommand)
| Init (tool : AptosCommand)
| List (query : MoveListQuery) (txn_options : SupraTransactionOptions)
| Show (query : MoveShowQuery) (name : string) (txn_options : SupraTransactionOptions)
| Prove (tool : AptosCommand)
| Publish (tool : SupraCommand)
| Run (tool : SupraCommand)
| RunScript (tool : SupraCommand)
| Test (tool : AptosCommand)
| View (entry_function_args : EntryFunctionArguments) (txn_options : SupraTransactionOptions).

Record TransferCoins := {
  tr_account : Address;
  tr_amount : Z;
  tr_coin_type : option string;
  tr_transaction_option : SupraTransactionOptions;
}.

Inductive SimulateMoveToolCommand : Type :=
| Simulate_Publish (tool : SupraCommand)
| Simulate_Run (tool : SupraCommand)
| Simulate_RunScript (tool : SupraCommand)
| Simulate_Transfer (tool : TransferCoins).

Inductive AccountTool : Type :=
| Account_Create (transaction_option : SupraTransactionOptions)
| Account_CreateResourceAccount (authentication_key : option AuthenticationKey)
    (seed_args : ResourceAccountSeed) (txn_options : SupraTransactionOptions)
| Account_DeriveResourceAccountAddress (tool : AptosCommand)
| Account_FundWithFaucet (transaction_option : SupraTransactionOptions)
| Account_Balance (coin_type : option string) (transaction_option : SupraTransactionOptions)
| Account_Transfer (tool : TransferCoins)
| Account_DeriveMultiSigAddress (owner_address : string) (sequence_number : Z).

Record RegistrationCommand := {
  rg_simulate : bool;
  rg_task_payload : EntryFunctionArguments;
  rg_task_max_gas_amount : Z;
  rg_task_gas_price_cap : Z;
  rg_task_expiry_time_secs : Z;
  rg_task_automation_fee_cap : Z;
  rg_txn_options : SupraTransactionOptions;
}.
Record CancellationCommand := {
  cn_simulate : bool;
  cn_task_index : Z;
  cn_txn_options : SupraTransactionOptions;
}.
Inductive AutomationCommand : Type :=
| Register (command : RegistrationCommand)
| Cancel (command : CancellationCommand).

Record VerifyProposal := {
  vp_multisig_address : Address;
  vp_sequence_number : Z;
  vp_txn_options : SupraTransactionOptions;
  vp_entry_function_args : EntryFunctionArguments;
}.
Inductive MultisigAccountTool : Type :=
| Multisig_Approve (tool : SupraCommand)
| Multisig_Create (tool : SupraCommand)
| Multisig_CreateTransaction (tool : SupraCommand)
| Multisig_Execute (tool : SupraCommand)
| Multisig_ExecuteReject (tool : SupraCommand)
| Multisig_ExecuteWithPayload (tool : SupraCommand)
| Multisig_Reject (tool : SupraCommand)
| Multisig_SerializeProposal (args : EntryFunctionArguments)
| Multisig_VerifyProposal (tool : VerifyProposal).

Inductive MoveTool : Type :=
| Tool_Account (tool : AccountTool)
| Tool_Multisig (tool : MultisigAccountTool)
| Tool_Tool (tool : MoveToolCommand)
| Tool_Simulate (tool : SimulateMoveToolCommand)
| Tool_Automation (tool : AutomationCommand).

Inductive GovernanceTool : Type :=
| Gov_Propose (tool : SupraCommand)
| Gov_Vote (tool : SupraCommand)
| Gov_VerifyProposal (tool : AptosCommand)
| Gov_ExecuteProposal (tool : SupraCommand)
| Gov_GenerateUpgradeProposal (tool : AptosCommand)
| Gov_ApproveExecutionHash (tool : SupraCommand)
| Gov_GenerateExecutionHash (tool : AptosCommand).

Inductive DelegationPoolResult : Type :=
| Pool_DerivePoolAddress (s : string)
| Pool_TransactionInfo (info : CliTransactionInfo).

Inductive DelegationPoolTool : Type :=
| DerivePoolAddress (owner seed : string)
| LeaveValidatorSet (transaction_option : SupraTransactionOptions)
| MultisigExecuteStoredPayload (multisig_address : string) (transaction_option : SupraTransactionOptions)
| MultisigVote (multisig_owner_address : string) (sequence_number : Z) (approved : bool)
    (transaction_option : SupraTransactionOptions)
| SetOperator (account : string) (transaction_option : SupraTransactionOptions)
| ProposeSetOperator (account multisig_owner_address : string)
    (transaction_option : SupraTransactionOptions)
| ProposeUnlockStake (amount : Z) (multisig_owner_address : string)
    (transaction_option : SupraTransactionOptions)
| ProposeWithdrawStake (amount : Z) (multisig_owner_address : string)
    (transaction_option : SupraTransactionOptions).
End command_data.

(** ** Sending and querying *)
Module Send.
Section send.
Context `{CmdEnv}.
Local Open Scope rust_scope.
Notation Cmd := (M (Sys World Home) Stop).

Definition new (p : TransactionPayload) (options : SupraTransactionOptions) : MoveTransactionOptions :=
  {| payload := p; transaction_option := options |}.

(** [send_transaction(UntilSuccess)] as a result of the Move tool. *)
Definition send_move (fuel : nat) (t : MoveTransactionOptions) : Cmd MoveToolResult :=
  info <- send_transaction fuel t UntilSuccess ;; rret (TransactionInfo info).

Definition send_pool (fuel : nat) (p : TransactionPayload) (options : SupraTransactionOptions)
    : Cmd DelegationPoolResult :=
  info <- send_transaction fuel (new p options) UntilSuccess ;; rret (Pool_TransactionInfo info).

(** A transaction described by a command of the Aptos tool. *)
Definition send_supra (fuel : nat) (tool : SupraCommand) : Cmd MoveToolResult :=
  args <- rmap_err (λ e, Failed (GeneralError e)) (supra_command_arguments tool) ;;
  send_move fuel (from_command_arguments args).

Definition simulate_supra (tool : SupraCommand) : Cmd MoveToolResult :=
  args <- rmap_err (λ e, Failed (GeneralError e)) (supra_command_arguments tool) ;;
  info <- rmap_err Failed (simulate_transaction (from_command_arguments args)) ;;
  rret (TransactionInfo info).

(** Simulated or sent. *)
Definition simulate_or_send (fuel : nat) (simulate : bool) (t : MoveTransactionOptions)
    : Cmd MoveToolResult :=
  if simulate
  then info <- rmap_err Failed (simulate_transaction t) ;; rret (SimulationInfo info)
  else send_move fuel t.

Definition try_as_move_tool_result (m : M (Sys World Home) string string) : Cmd MoveToolResult :=
  body <- rmap_err (λ e, Failed (GeneralError e)) m ;;
  v <- rlift (omap_err (λ e, Failed (SerdeJsonError e)) (json_from_str body)) ;;
  rret (MoveCli v).

(** The body of a response as JSON. *)
Definition body_as_json (response : HttpResponse) : Cmd MoveToolResult :=
  body <- rlift (omap_err (λ e, Failed (MoveToolingError (Move_ReqwestError e))) (body_text response)) ;;
  v <- rlift (omap_err (λ e, Failed (SerdeJsonError e)) (json_from_str body)) ;;
  rret (MoveCli v).

Definition attributes (options : SupraTransactionOptions) : Cmd ProfileAttributes :=
  rmap_err Failed (profile_attribute options).

Definition v_of (options : SupraTransactionOptions) : ApiVersion := api_version (rest_options options).

Definition query (action : RpcAction) (url : CUrl) : Cmd RpcResponse :=
  on_world Failed (Client.perform action (public_query url)).
End send.
End Send.

(** ** Accounts *)
Module Account.
Import Send.
Section account.
Context `{CmdEnv}.
Local Open Scope rust_scope.
Notation Cmd := (M (Sys World Home) Stop).

Definition create (fuel : nat) (options : SupraTransactionOptions) : Cmd MoveToolResult :=
  a <- attributes options ;;
  send_move fuel (new (supra_account_create_account (pa_account_address a)) options).

(** The response to a query for a resource of the account. *)
Definition show_resource (options : SupraTransactionOptions) (tag : outcome AnyhowError TypeTag)
    : Cmd MoveToolResult :=
  a <- attributes options ;;
  t <- rlift (omap_err (λ e, Failed (Other e)) tag) ;;
  a' <- attributes options ;;
  r <- query (Act_AccountResource (v_of options) (pa_account_address a) t) (pa_rpc_url a') ;;
  match r with
  | Res_AccountResource response => body_as_json response
  | _ => rfail (Failed RESTClient)
  end.

Definition fetch_resource_account (options : SupraTransactionOptions) : Cmd MoveToolResult :=
  show_resource options (type_tag_from_str "0x1::resource_account::Container").

Definition resource_account_payload (authentication_key : option AuthenticationKey)
    (seed_args : ResourceAccountSeed) : outcome CliError TransactionPayload :=
  let? key := match authentication_key with
              | Some k => omap_err BcsError (bcs_of_authentication_key k)
              | None => Ok empty_bytes
              end in
  let? seed := seed_bytes seed_args in
  Ok (resource_account_create_resource_account seed key).

Definition create_resource_account (fuel : nat) (authentication_key : option AuthenticationKey)
    (seed_args : ResourceAccountSeed) (options : SupraTransactionOptions) : Cmd MoveToolResult :=
  p <- rlift (omap_err Failed (resource_account_payload authentication_key seed_args)) ;;
  send_transaction fuel (new p options) UntilSuccess ;;
  fetch_resource_account options.

Definition fund_with_faucet (options : SupraTransactionOptions) : Cmd MoveToolResult :=
  a <- attributes options ;;
  a' <- attributes options ;;
  a'' <- attributes options ;;
  r <- query (Act_FundWithFaucet (v_of options) (pa_account_address a) (pa_faucet_url a'))
         (pa_faucet_url a'') ;;
  match r with
  | Res_FundWithFaucet status => rret (Move_FundWithFaucet status)
  | _ => rfail (Failed RESTClient)
  end.

Definition balance (coin_type : option string) (options : SupraTransactionOptions) : Cmd MoveToolResult :=
  show_resource options (resolve CoinResource coin_type).

Definition transfer_payload (self : TransferCoins) : outcome CliError TransactionPayload :=
  let? tag := omap_err Other (resolve TxOptions.TransferCoins (tr_coin_type self)) in
  Ok (supra_account_transfer_coins tag (tr_account self) (tr_amount self)).

Definition transfer (fuel : nat) (self : TransferCoins) : Cmd MoveToolResult :=
  p <- rlift (omap_err Failed (transfer_payload self)) ;;
  send_move fuel (new p (tr_transaction_option self)).

Definition simulate_transfer (self : TransferCoins) : Cmd MoveToolResult :=
  p <- rlift (omap_err Failed (transfer_payload self)) ;;
  info <- rmap_err Failed (simulate_transaction (new p (tr_transaction_option self))) ;;
  rret (TransactionInfo info).

Definition derive_multisig_address (owner_address : string) (sequence_number : Z)
    : outcome CliError MoveToolResult :=
  let? owner := omap_err (λ e, MoveToolingError (FailedToParseAddress (show_address_error e)))
                  (address_from_str owner_address) in
  Ok (Move_DeriveMultiSigAddress (create_multisig_account_address owner sequence_number)).

Definition execute (fuel : nat) (self : AccountTool) : Cmd MoveToolResult :=
  match self with
  | Account_Create options => create fuel options
  | Account_CreateResourceAccount key seed options => create_resource_account fuel key seed options
  | Account_DeriveResourceAccountAddress tool =>
      a <- rmap_err (λ e, Failed (GeneralError e)) (derive_resource_account tool) ;;
      rret (Move_DeriveResourceAccountAddress a)
  | Account_FundWithFaucet options => fund_with_faucet options
  | Account_Balance coin_type options => balance coin_type options
  | Account_Transfer tool => transfer fuel tool
  | Account_DeriveMultiSigAddress owner n => rlift (omap_err Failed (derive_multisig_address owner n))
  end.
End account.
End Account.

(** ** Proposals of multisig accounts *)
Module Multisig.
Import Send.
Section multisig.
Context `{CmdEnv}.
Local Open Scope rust_scope.
Notation Cmd := (M (Sys World Home) Stop).

Definition serialize_proposal (args : EntryFunctionArguments) : outcome CliError MoveToolResult :=
  let? p := multisig_payload_of args in
  let? payload_bcs := omap_err BcsError (bcs_of_multisig_payload p) in
  let? hex := omap_err SerdeJsonError (value_of_hex_bytes payload_bcs) in
  Ok (MoveCli hex).

Definition construct_view_request (self : VerifyProposal) : outcome CliError ViewRequest :=
  let? account := omap_err SerdeJsonError (value_of_address (vp_multisig_address self)) in
  let? number := value_of_u64 (vp_sequence_number self) in
  Ok (view_request ADDRESS_ONE "multisig_account" "get_transaction" [] [account; number]).

(** [payload], if its vector is not empty. *)
Definition stored_payload (api_result : Value) : option Value :=
  ((get_key "payload" api_result ≫= get_key "vec") ≫= as_array) ≫= head.

Definition stored_hash (payload_hash : Value) : option string :=
  ((get_key "vec" payload_hash ≫= as_array) ≫= head) ≫= as_str.

Definition retrieve_payload_hash_from_response (body : string) : outcome CliError string :=
  let? value := omap_err SerdeJsonError (json_from_str body) in
  let? api_result := ok_or (get_key "result" value ≫= get_index 0)
                       (GeneralError "Api did not return result") in
  match stored_payload api_result with
  | Some hex_encoded_bytes =>
      let? bytes := omap_err SerdeJsonError (hex_bytes_of_value hex_encoded_bytes) in
      Ok (sha3_256_hex_literal bytes)
  | None =>
      match get_key "payload_hash" api_result with
      | Some payload_hash =>
          ok_or (stored_hash payload_hash) (GeneralError "Invalid payload_hash format")
      | None => Err (GeneralError "Neither payload nor payload hash provided on-chain")
      end
  end.

Definition verify_payload_hashes (calculated onchain : string) : outcome CliError MoveToolResult :=
  if bool_decide (calculated = onchain)
  then Ok (MoveCli (V_object [("Status", V_string "Transaction match")]))
  else Err (GeneralError ("Transaction mismatch:" +:+ String (Ascii.ascii_of_N 10)
         "The transaction you provided has a payload hash of " +:+ calculated +:+ ", but the on-chain transaction proposal you specified has a payload hash of "
         +:+ onchain +:+ ".")).

Definition handle_view_api_response (self : VerifyProposal) (response : HttpResponse)
    : outcome CliError MoveToolResult :=
  if is_success response
  then
    let? body := omap_err RequestError (body_text response) in
    let? onchain := retrieve_payload_hash_from_response body in
    let? p := multisig_payload_of (vp_entry_function_args self) in
    let? bytes := omap_err BcsError (bcs_of_multisig_payload p) in
    verify_payload_hashes (sha3_256_hex_literal bytes) onchain
  else
    let? text := omap_err RequestError (body_text response) in
    Err (GeneralError text).

Definition verify_proposal (self : VerifyProposal) : Cmd MoveToolResult :=
  request <- rlift (omap_err Failed (construct_view_request self)) ;;
  a <- attributes (vp_txn_options self) ;;
  r <- query (Act_RunViewFunction (v_of (vp_txn_options self)) request) (pa_rpc_url a) ;;
  match r with
  | Res_RunViewFunction response => rlift (omap_err Failed (handle_view_api_response self response))
  | _ => rfail (Failed (GeneralError "rpc client"))
  end.

Definition execute (fuel : nat) (self : MultisigAccountTool) : Cmd MoveToolResult :=
  match self with
  | Multisig_Approve tool | Multisig_Create tool | Multisig_CreateTransaction tool
  | Multisig_Execute tool | Multisig_ExecuteReject tool | Multisig_ExecuteWithPayload tool
  | Multisig_Reject tool => send_supra fuel tool
  | Multisig_SerializeProposal args => rlift (omap_err Failed (serialize_proposal args))
  | Multisig_VerifyProposal tool => verify_proposal tool
  end.

(** *** Properties *)

Lemma handle_ok_iff self response body p bytes result :
  body_text response = Ok body →
  multisig_payload_of (vp_entry_function_args self) = Ok p →
  bcs_of_multisig_payload p = Ok bytes →
  handle_view_api_response self response = Ok result ↔
  is_success response = true ∧
  retrieve_payload_hash_from_response body = Ok (sha3_256_hex_literal bytes) ∧
  result = MoveCli (V_object [("Status", V_string "Transaction match")]).
Proof.
  intros Hbody Hp Hbytes. unfold handle_view_api_response, verify_payload_hashes.
  rewrite Hbody, Hp. simpl. destruct (is_success response); simpl; [|by split; [|intros [? _]]].
  destruct (retrieve_payload_hash_from_response body) as [h|e|]; simpl;
    [|by split; [|intros (_ & ? & _)]..].
  rewrite Hbytes. simpl. case_bool_decide as Heq.
  - subst h. split; [by intros [= <-]|]. by intros (_ & _ & ->).
  - split; [done|]. intros (_ & [= ->] & _). done.
Qed.

(** C25 A proposal is accepted exactly if it is the one on the chain: for a response
    that lists the proposal, the command succeeds if and only if the payload it
    stores decodes to bytes with the hash of the given entry function, or, if only
    a hash is stored, this is that hash.  A stored payload decides alone; a
    hash next to it is not read.  Otherwise the command fails. *)
Theorem proposal_verified_iff self response body p bytes value item :
  body_text response = Ok body →
  multisig_payload_of (vp_entry_function_args self) = Ok p →
  bcs_of_multisig_payload p = Ok bytes →
  json_from_str body = Ok value →
  get_key "result" value ≫= get_index 0 = Some item →
  is_ok (handle_view_api_response self response) = true ↔
  is_success response = true ∧
  match stored_payload item with
  | Some v => ∃ b, hex_bytes_of_value v = Ok b ∧ sha3_256_hex_literal b = sha3_256_hex_literal bytes
  | None => get_key "payload_hash" item ≫= stored_hash = Some (sha3_256_hex_literal bytes)
  end.
Proof.
  intros Hbody Hp Hbytes Hvalue Hitem.
  trans (is_success response = true ∧
         retrieve_payload_hash_from_response body = Ok (sha3_256_hex_literal bytes)).
  { pose proof (handle_ok_iff self response body p bytes) as Hiff. split.
    - destruct (handle_view_api_response self response) as [result|e|] eqn:Hr; [|done..]. intros _.
      by destruct (proj1 (Hiff result Hbody Hp Hbytes) eq_refl) as (? & ? & _).
    - intros [Hs Hret].
      by rewrite (proj2 (Hiff _ Hbody Hp Hbytes) (conj Hs (conj Hret eq_refl))). }
  apply and_iff_compat_l. unfold retrieve_payload_hash_from_response.
  rewrite Hvalue. simpl. rewrite Hitem. simpl.
  destruct (stored_payload item) as [v|].
  - destruct (hex_bytes_of_value v) as [b|e|]; simpl; [|by split; [|intros (? & ? & _)]..].
    split; [intros [= ?]; by exists b|intros (? & [= <-] & ->); done].
  - destruct (get_key "payload_hash" item) as [hv|]; simpl; [|done].
    destruct (stored_hash hv); simpl; [|done]. split; [by intros [= ->]|by intros [= ->]].
Qed.
End multisig.
End Multisig.

(** ** Move tools *)
Module MoveTools.
Import Send.
Section move_tools.
Context `{CmdEnv}.
Local Open Scope rust_scope.
Notation Cmd := (M (Sys World Home) Stop).

Definition bcs_json_decode (input : string) : outcome CliError MoveToolResult :=
  let? bytes := omap_err SerdeJsonError (bytes_from_str input) in
  let? s := omap_err BcsError (string_of_bcs bytes) in
  Ok (Move_String s).

(** [expect] on the text of the bytes. *)
Definition bcs_json_encode (input : string) : outcome CliError MoveToolResult :=
  let? encoded := omap_err BcsError (bcs_of_string input) in
  match bytes_to_str encoded with
  | Ok output => Ok (Move_String output)
  | _ => Panic
  end.

Definition list_assets (q : MoveListQuery) (options : SupraTransactionOptions) : Cmd MoveToolResult :=
  a <- attributes options ;;
  a' <- attributes options ;;
  r <- query (Act_ListAccountAssets (v_of options) (pa_account_address a) q) (pa_rpc_url a') ;;
  match r with
  | Res_ListAccountAssets response => rret (ListAccountPackage response)
  | _ => rfail (Failed RESTClient)
  end.

Definition show (q : MoveShowQuery) (name : string) (options : SupraTransactionOptions)
    : Cmd MoveToolResult :=
  a <- attributes options ;;
  a' <- attributes options ;;
  action <- match q with
            | Show_Module =>
                i <- rlift (omap_err (λ e, Failed (Other e)) (identifier_from_str name)) ;;
                rret (Act_AccountModule (v_of options) (pa_account_address a) i)
            | Show_Resource =>
                t <- rlift (omap_err (λ e, Failed (Other e)) (struct_tag_from_str name)) ;;
                rret (Act_AccountResource (v_of options) (pa_account_address a) t)
            end ;;
  r <- query action (pa_rpc_url a') ;;
  match r with
  | Res_AccountResource response | Res_AccountModule response => body_as_json response
  | _ => rfail (Failed RESTClient)
  end.

Definition view (args : EntryFunctionArguments) (options : SupraTransactionOptions)
    : Cmd MoveToolResult :=
  view_req <- rlift (omap_err Failed (view_request_of args)) ;;
  a <- attributes options ;;
  r <- query (Act_RunViewFunction (v_of options) view_req) (pa_rpc_url a) ;;
  match r with
  | Res_RunViewFunction response => body_as_json response
  | _ => rfail (Failed RESTClient)
  end.

Definition execute_tool (fuel : nat) (self : MoveToolCommand) : Cmd MoveToolResult :=
  match self with
  | BcsJsonDecode input => rlift (omap_err Failed (bcs_json_decode input))
  | BcsJsonEncode input => rlift (omap_err Failed (bcs_json_encode input))
  | BuildPublishPayload tool | Clean tool | Compile tool | CompileScript tool | Coverage tool
  | Document tool | Init tool | Prove tool | Test tool =>
      try_as_move_tool_result (execute_serialized tool)
  | List q options => list_assets q options
  | Show q name options => show q name options
  | Publish tool | Run tool | RunScript tool => send_supra fuel tool
  | View args options => view args options
  end.

Definition execute_simulate (self : SimulateMoveToolCommand) : Cmd MoveToolResult :=
  match self with
  | Simulate_Publish tool | Simulate_Run tool | Simulate_RunScript tool => simulate_supra tool
  | Simulate_Transfer tool => Account.simulate_transfer tool
  end.

Definition register (fuel : nat) (self : RegistrationCommand) : Cmd MoveToolResult :=
  f <- rlift (omap_err Failed (entry_function_of (rg_task_payload self))) ;;
  simulate_or_send fuel (rg_simulate self)
    (new (automation_registration f (rg_task_expiry_time_secs self) (rg_task_max_gas_amount self)
            (rg_task_gas_price_cap self) (rg_task_automation_fee_cap self))
         (rg_txn_options self)).

Definition cancel (fuel : nat) (self : CancellationCommand) : Cmd MoveToolResult :=
  simulate_or_send fuel (cn_simulate self)
    (new (automation_registry_cancel_task (cn_task_index self)) (cn_txn_options self)).

Definition execute_automation (fuel : nat) (self : AutomationCommand) : Cmd MoveToolResult :=
  match self with
  | Register command => register fuel command
  | Cancel command => cancel fuel command
  end.

Definition execute_move (fuel : nat) (self : MoveTool) : Cmd MoveToolResult :=
  match self with
  | Tool_Account tool => Account.execute fuel tool
  | Tool_Multisig tool => Multisig.execute fuel tool
  | Tool_Tool tool => execute_tool fuel tool
  | Tool_Simulate tool => execute_simulate tool
  | Tool_Automation tool => execute_automation fuel tool
  end.

(** [GovernanceTool::execute]; verifying a proposal is [todo!]. *)
Definition execute_governance (fuel : nat) (self : GovernanceTool) : Cmd MoveToolResult :=
  match self with
  | Gov_Propose tool | Gov_Vote tool | Gov_ExecuteProposal tool | Gov_ApproveExecutionHash tool =>
      send_supra fuel tool
  | Gov_VerifyProposal _ => rpanic
  | Gov_GenerateUpgradeProposal tool => try_as_move_tool_result (execute_serialized tool)
  | Gov_GenerateExecutionHash tool =>
      hash <- rmap_err (λ e, Failed (GeneralError e)) (generate_hash tool) ;;
      rret (Move_String hash)
  end.
End move_tools.
End MoveTools.

(** ** Delegation pools *)
Module Pool.
Import Send.
Section pool.
Context `{CmdEnv}.
Local Open Scope rust_scope.
Notation Cmd := (M (Sys World Home) Stop).

(** [from_str_strict] with the message of an invalid address. *)
Definition strict_address (account : string) : outcome CliError Address :=
  omap_err (λ e, Aborted (account +:+ " is not a valid account address. " +:+ debug_address_error e)
                   "The account address must be a valid 0x + 64 hex characters")
    (address_from_str_strict account).

Definition multisig_address (s : string) : outcome CliError Address :=
  omap_err AccountAddressParseError (address_from_str s).

Definition derive_pool_address (owner seed : string) : outcome CliError DelegationPoolResult :=
  let? a := strict_address owner in
  Ok (Pool_DerivePoolAddress ("Derived pool address: 0x"
        +:+ to_canonical_string (derive_pbo_pool_address_from a seed))).

Definition leave_validator_set (fuel : nat) (options : SupraTransactionOptions)
    : Cmd DelegationPoolResult :=
  pool_address <- rlift (omap_err Failed (parse_pool_address (delegation_pool_address options))) ;;
  send_pool fuel (stake_leave_validator_set pool_address) options.

Definition execute_multisig (fuel : nat) (address : string)
    (payload : option MultisigTransactionPayload) (options : SupraTransactionOptions)
    : Cmd DelegationPoolResult :=
  a <- rlift (omap_err Failed (multisig_address address)) ;;
  send_pool fuel (multisig_transaction a payload) options.

Definition propose (fuel : nat) (owner_address : string) (payload : EntryFunction)
    (options : SupraTransactionOptions) : Cmd DelegationPoolResult :=
  a <- rlift (omap_err Failed (multisig_address owner_address)) ;;
  send_pool fuel
    (multisig_account_create_transaction a (multisig_payload_to_bytes (multisig_entry_function payload)))
    options.

Definition vote (fuel : nat) (owner_address : string) (sequence_number : Z) (approved : bool)
    (options : SupraTransactionOptions) : Cmd DelegationPoolResult :=
  a <- rlift (omap_err Failed (multisig_address owner_address)) ;;
  send_pool fuel (multisig_account_vote_transaction a sequence_number approved) options.

Definition set_operator (fuel : nat) (account : string) (options : SupraTransactionOptions)
    : Cmd DelegationPoolResult :=
  a <- rlift (omap_err Failed (strict_address account)) ;;
  send_pool fuel (pbo_delegation_pool_set_operator a) options.

Definition propose_set_operator (fuel : nat) (account owner_address : string)
    (options : SupraTransactionOptions) : Cmd DelegationPoolResult :=
  a <- rlift (omap_err Failed (strict_address account)) ;;
  propose fuel owner_address (into_entry_function (pbo_delegation_pool_set_operator a)) options.

Definition propose_unlock_stake (fuel : nat) (amount : Z) (owner_address : string)
    (options : SupraTransactionOptions) : Cmd DelegationPoolResult :=
  pool_address <- rlift (omap_err Failed (parse_pool_address (delegation_pool_address options))) ;;
  propose fuel owner_address (into_entry_function (pbo_delegation_pool_unlock pool_address amount))
    options.

Definition propose_withdraw_stake (fuel : nat) (amount : Z) (owner_address : string)
    (options : SupraTransactionOptions) : Cmd DelegationPoolResult :=
  pool_address <- rlift (omap_err Failed (parse_pool_address (delegation_pool_address options))) ;;
  propose fuel owner_address (into_entry_function (pbo_delegation_pool_withdraw pool_address amount))
    options.

Definition execute_pool (fuel : nat) (self : DelegationPoolTool) : Cmd DelegationPoolResult :=
  match self with
  | DerivePoolAddress owner seed => rlift (omap_err Failed (derive_pool_address owner seed))
  | LeaveValidatorSet options => leave_validator_set fuel options
  | MultisigExecuteStoredPayload address options => execute_multisig fuel address None options
  | MultisigVote owner n approved options => vote fuel owner n approved options
  | SetOperator account options => set_operator fuel account options
  | ProposeSetOperator account owner options => propose_set_operator fuel account owner options
  | ProposeUnlockStake amount owner options => propose_unlock_stake fuel amount owner options
  | ProposeWithdrawStake amount owner options => propose_withdraw_stake fuel amount owner options
  end.
End pool.
End Pool.
