(* ===== verification/CommandsExamples.v ===== *)
(** * Commands at concrete data

    A proposal of a multisig account whose payload is stored on the chain. *)

From S2P Require Import Prelude Transactions CliTypes CliExamples RpcClient TxOptions Identity.
From S2P Require Import ClientExamples Commands.
From stdpp Require Import base tactics option list gmap strings pretty.
From Stdlib Require Import ZArith Lia.
Import Profiles Sending.
Local Open Scope Z_scope.

(** The chain stores one payload; bytes are strings, and a hash is the bytes with
    a prefix. *)
Definition ex_stored_value : Value :=
  V_object [("result", V_array [V_object
    [("payload", V_object [("vec", V_array [V_string "transfer"])]);
     ("payload_hash", V_object [("vec", V_array [])])]])].

#[export] Instance ex_cmd : CmdEnv := {|
  cmd_id := ex_id;
  json_from_str s := Ok ex_stored_value;
  CBytes := string;
  bytes_from_str := Ok; bytes_to_str := Ok; bcs_of_string := Ok; string_of_bcs := Ok;
  hex_bytes_of_value v := match v with V_string s => Ok s | _ => Err "no string" end;
  value_of_hex_bytes b := Ok (V_string b);
  sha3_256_hex_literal b := "0x" +:+ b;
  AptosCommand := string; SupraCommand := string;
  execute_serialized c s := (s, Ok c);
  supra_command_arguments c s := (s, Err c);
  derive_resource_account c s := (s, Err c);
  generate_hash c s := (s, Ok c);
  EntryFunctionArguments := string; EntryFunction := string; MultisigTransactionPayload := string;
  view_request_of a := Ok a; entry_function_of := Ok; multisig_payload_of := Ok;
  multisig_entry_function f := f; bcs_of_multisig_payload := Ok; multisig_payload_to_bytes p := p;
  view_request a m f ts args := f;
  ADDRESS_ONE := 1;
  value_of_address a := Ok (V_string "address");
  value_of_u64 n := Ok (V_string "number");
  supra_account_create_account a := "create"; supra_account_transfer_coins t a n := "transfer";
  resource_account_create_resource_account s k := s; empty_bytes := "";
  AuthenticationKey := string; bcs_of_authentication_key := Ok;
  ResourceAccountSeed := string; seed_bytes := Ok;
  automation_registration f a b c d := f; automation_registry_cancel_task n := "cancel";
  stake_leave_validator_set a := "leave"; multisig_account_vote_transaction a n b := "vote";
  multisig_account_create_transaction a b := b; multisig_transaction a p := "execute";
  pbo_delegation_pool_set_operator a := "set_operator"; pbo_delegation_pool_unlock a n := "unlock";
  pbo_delegation_pool_withdraw a n := "withdraw"; into_entry_function p := p;
  derive_pbo_pool_address_from a s := a; create_multisig_account_address a n := a + n;
  identifier_from_str := Ok; struct_tag_from_str := Ok;
  debug_address_error e := e; show_address_error e := e;
|}.

Definition ex_proposal : @VerifyProposal ex_cli ex_cmd := {|
  vp_multisig_address := (3 : @Address ex_cli);
  vp_sequence_number := 1; vp_txn_options := ex_options;
  vp_entry_function_args := ("transfer" : @EntryFunctionArguments ex_cli ex_cmd) |}.

Definition ex_stored_item : Value :=
  V_object [("payload", V_object [("vec", V_array [V_string "transfer"])]);
            ("payload_hash", V_object [("vec", V_array [])])].

Lemma proposal_verified_iff_witness :
  is_ok (Multisig.handle_view_api_response ex_proposal
           ("body" : @HttpResponse ex_cli)) = true.
Proof.
  apply (Multisig.proposal_verified_iff ex_proposal
    ("body" : @HttpResponse ex_cli) "body"
    ("transfer" : @MultisigTransactionPayload ex_cli ex_cmd) ("transfer" : @CBytes ex_cli ex_cmd)
    ex_stored_value ex_stored_item eq_refl eq_refl eq_refl eq_refl eq_refl).
  split; [reflexivity|]. exists ("transfer" : @CBytes ex_cli ex_cmd). split; reflexivity.
Defined.
