(* ===== verification/Cli.v ===== *)
(** * The command line tool

    [src/supra/src/main.rs], [lib.rs], [node/mod.rs], [common/verbose.rs],
    [common/stdout_format.rs] and the [Display] implementations of the commands and
    of their results: a command is dispatched to its tool, its result is printed in
    the chosen format, and the command is recorded with its output in the history.

    The tools are those of the other files, each with its part of the machine.  The
    parser of the arguments, the terminal, the history file and the logger are
    parameters, as are the texts that the compiler derives ([Debug], [Serialize])
    and those of other crates. *)

From S2P Require Import Prelude CliTypes RpcClient TxOptions Identity Startup Validator Dkg Genesis Ceremony Export Commands.
From stdpp Require Import base tactics option list gmap strings.
From Stdlib Require Import ZArith Lia Ascii.
Local Open Scope Z_scope.

(** ** Data *)
Inductive StdOutFormat : Type := Format_None | Format_Json | Format_DisplayTrait.

Inductive LogLevel : Type := Log_Off | Log_Info | Log_Debug | Log_Trace | Log_Error | Log_Warn.

(** [tracing::level_filters::LevelFilter]. *)
Inductive LevelFilter : Type := OFF | INFO | DEBUG | TRACE | ERROR | WARN.

Record HistoryTime := { local : string; utc : string }.

Section tools.
Context `{CliEnv} `{!CmdEnv} `{!DkgEnv} `{!ValidatorEnv} `{!ExportEnv} `{!CeremonyEnv}.

Inductive NodeTool : Type :=
| Node_Smr (tool : SmrTool)
| Node_Identity (tool : Rotation.IdentityRotationTool)
| Node_DelegationPool (tool : DelegationPoolTool).

Inductive NodeToolResult : Type :=
| Node_SmrToolResult (r : SmrToolResult)
| Node_IdentityRotationResult (r : IdentityRotationResult)
| Node_DelegationPoolResult (r : DelegationPoolResult).

Inductive SupraTool : Type :=
| Supra_Profile (tool : ProfileTool.ProfileTool)
| Supra_Nidkg (tool : DKGTool)
| Supra_Node (tool : NodeTool)
| Supra_Config (tool : ConfigTool)
| Supra_Move (tool : MoveTool)
| Supra_Data (tool : DatabaseTool)
| Supra_Genesis (tool : GenesisTool)
| Supra_Governance (tool : GovernanceTool).

(** The result of a genesis command is always blank. *)
Inductive SupraToolResult : Type :=
| Result_Profile (r : ProfileToolResult)
| Result_DKG (r : DkgToolResult)
| Result_Node (r : NodeToolResult)
| Result_Config (r : ConfigToolResult)
| Result_Move (r : MoveToolResult)
| Result_Data (r : DatabaseToolResult)
| Result_Genesis.

(** The parts of the machine the tools work on. *)
Record Machine := {
  m_user : Sys World Home;
  m_dkg : Sys Terminal DkgHome;
  m_node : Proc VWorld Empty_set;
  m_files : Files;
  m_ceremony : Sys Net Disk;
}.

Definition set_user (x : Sys World Home) (m : Machine) : Machine :=
  {| m_user := x; m_dkg := m_dkg m; m_node := m_node m; m_files := m_files m;
     m_ceremony := m_ceremony m |}.
Definition set_dkg (x : Sys Terminal DkgHome) (m : Machine) : Machine :=
  {| m_user := m_user m; m_dkg := x; m_node := m_node m; m_files := m_files m;
     m_ceremony := m_ceremony m |}.
Definition set_node (x : Proc VWorld Empty_set) (m : Machine) : Machine :=
  {| m_user := m_user m; m_dkg := m_dkg m; m_node := x; m_files := m_files m;
     m_ceremony := m_ceremony m |}.
Definition set_files (x : Files) (m : Machine) : Machine :=
  {| m_user := m_user m; m_dkg := m_dkg m; m_node := m_node m; m_files := x;
     m_ceremony := m_ceremony m |}.
Definition set_ceremony (x : Sys Net Disk) (m : Machine) : Machine :=
  {| m_user := m_user m; m_dkg := m_dkg m; m_node := m_node m; m_files := m_files m;
     m_ceremony := x |}.
End tools.

(** What the output uses of the compiler, of other crates and of the machine. *)
Class ShellEnv `{CliEnv} `{!CmdEnv} `{!DkgEnv} `{!ValidatorEnv} `{!ExportEnv} `{!CeremonyEnv} : Type := {
  (** Derived [Debug]. *)
  debug_profile_tool : ProfileTool.ProfileTool → string;
  debug_dkg_tool : DKGTool → string;
  debug_node_tool : NodeTool → string;
  debug_config_tool : ConfigTool → string;
  debug_database_tool : DatabaseTool → string;
  debug_genesis_tool : GenesisTool → string;
  debug_multisig_tool : MultisigAccountTool → string;
  debug_info : CliTransactionInfo → string;
  debug_signature : string → string;
  debug_testnet : LocalTestNetConfiguration → string;
  debug_written_path : string → string;
  (** Texts of other crates; the paths of the configuration, with their errors. *)
  show_profiles : CliProfiles → string;
  show_settings : Validator.SmrSettings → string;
  supra_home_path : outcome string string;
  cli_history_path : outcome string string;
  cli_logs_path : outcome string string;
  (** [to_string_pretty] on the value of a result, and [to_string] on a result. *)
  json_pretty : MoveToolResult → outcome SerdeError string;
  json_result : SupraToolResult → outcome SerdeError string;
  json_string : string → outcome SerdeError string;
  (** The terminal, the history file and the clock. *)
  Out : Type;
  now : Out → HistoryTime;
  write_console : string → M Out IoError unit;
  write_file_history : string → M Out IoError unit;
  cli_history : M Out IoError string;
  open_append : string → M Out IoError unit;
  (** The error of [write_fmt] when a [Display] fails; without one it panics. *)
  formatter_error : option IoError;
  (** The logger: a port, and its start. *)
  random_port : M Out IoError Z;
  init_logger : Z → M Out IoError unit;
  setup_hook : Out → Out;
}.

(** ** Texts *)
Module Texts.
Section texts.
Context `{ShellEnv}.
Notation newline := Fetch.newline.

(** [writeln!]. *)
Definition line (s : string) : string := s +:+ newline.

(** A [Display] that may fail with [fmt::Error]. *)
Definition Text : Type := option string.

Definition display_format (f : StdOutFormat) : string :=
  match f with
  | Format_None => "none"
  | Format_Json => "json"
  | Format_DisplayTrait => "display-trait"
  end.

Definition display_time (t : HistoryTime) : string :=
  line ("Local: (" +:+ local t +:+ ")" +:+ String (ascii_of_N 9) " Utc: (" +:+ utc t +:+ ")").

(** *** Commands *)
Definition display_account (tool : AccountTool) : string :=
  match tool with
  | Account_Create _ => "AccountTool::Create"
  | Account_CreateResourceAccount _ _ _ => "AccountTool::CreateResourceAccount"
  | Account_DeriveResourceAccountAddress _ => "AccountTool::CreateResourceAccount"
  | Account_FundWithFaucet _ => "AccountTool::FundWithFaucet"
  | Account_Balance _ _ => "AccountTool::Balance"
  | Account_Transfer _ => "AccountTool::Transfer"
  | Account_DeriveMultiSigAddress _ _ => "AccountTool::DeriveMultiSigAddress"
  end.

Definition display_move_command (tool : MoveToolCommand) : string :=
  match tool with
  | BcsJsonDecode _ => "BcsJsonDecode"
  | BcsJsonEncode _ => "BcsJsonEncode"
  | BuildPublishPayload _ => "BuildPublishPayload"
  | Clean _ => "Clean"
  | Compile _ => "Compile"
  | CompileScript _ => "CompileScript"
  | Coverage _ => "Coverage"
  | Document _ => "Document"
  | Init _ => "Init"
  | Commands.List _ _ => "List"
  | Commands.Show _ _ _ => "Show"
  | Prove _ => "Prove"
  | Publish _ => "Publish"
  | Run _ => "Run"
  | RunScript _ => "RunScript"
  | Commands.Test _ => "Test"
  | View _ _ => "View"
  end.

Definition display_simulate (tool : SimulateMoveToolCommand) : string :=
  "Simulate::" +:+
  match tool with
  | Simulate_Publish _ => "Publish"
  | Simulate_Run _ => "Run"
  | Simulate_RunScript _ => "RunScript"
  | Simulate_Transfer _ => "Transfer"
  end.

Definition display_automation (tool : AutomationCommand) : string :=
  match tool with
  | Commands.Register _ => "Automation::Register"
  | Commands.Cancel _ => "Automation::Cancel"
  end.

Definition display_move (tool : MoveTool) : string :=
  match tool with
  | Tool_Account tool => display_account tool
  | Tool_Tool tool => display_move_command tool
  | Tool_Simulate tool => display_simulate tool
  | Tool_Multisig tool => debug_multisig_tool tool
  | Tool_Automation tool => display_automation tool
  end.

Definition display_governance (_ : GovernanceTool) : string := newline.

Definition display_tool (tool : SupraTool) : string :=
  match tool with
  | Supra_Profile tool => debug_profile_tool tool
  | Supra_Nidkg tool => debug_dkg_tool tool
  | Supra_Node tool => debug_node_tool tool
  | Supra_Config tool => debug_config_tool tool
  | Supra_Move tool => display_move tool
  | Supra_Data tool => debug_database_tool tool
  | Supra_Genesis tool => debug_genesis_tool tool
  | Supra_Governance tool => display_governance tool
  end.

(** *** Results *)
Definition display_profile_result (r : ProfileToolResult) : string :=
  match r with
  | Profile_Blank => ""
  | Profile_Manager m => show_profiles m
  | Profile_Signature s => debug_signature s
  end.

Definition display_dkg_result (r : DkgToolResult) : string :=
  match r with
  | CGEncKeyPairResult res => line ("CGEncKeyPairResult(" +:+ res +:+ ")")
  | DealingResult res => line ("DealingResult(" +:+ res +:+ ")")
  | NodeKeyGenResult res => line ("NodeKeyGenResult(" +:+ res +:+ ")")
  | CommitteeKeyGenResult res => line ("CommitteeKeyGenResult(" +:+ res +:+ ")")
  | OutputThresholdBlsPubKey => newline
  end.

Definition display_smr_result (r : SmrToolResult) : string :=
  match r with SmrSetting s => line (show_settings s) | Smr_Blank => "" end.

Definition display_rotation_result (r : IdentityRotationResult) : string :=
  match r with
  | Result_RotateConsensusKey info | Result_RotateNetworkAddress info => debug_info info
  end.

Definition display_pool_result (r : DelegationPoolResult) : string :=
  match r with
  | Pool_DerivePoolAddress res => res
  | Pool_TransactionInfo info => debug_info info
  end.

Definition display_node_result (r : NodeToolResult) : string :=
  match r with
  | Node_SmrToolResult res => line (display_smr_result res)
  | Node_IdentityRotationResult res => line (display_rotation_result res)
  | Node_DelegationPoolResult res => line (display_pool_result res)
  end.

Definition format_path_result (result : outcome string string) (label : string) : string :=
  match result with
  | Ok path => label +:+ ": " +:+ path
  | Err e => label +:+ ": Error retrieving path - " +:+ e
  | Panic => ""
  end.

Definition display_config_result (r : ConfigToolResult) : string :=
  match r with
  | DisplayConfiguration =>
      line (format_path_result supra_home_path "SUPRA_HOME" +:+ newline +:+
            format_path_result cli_history_path "History" +:+ newline +:+
            format_path_result cli_logs_path "Logs")
  | GenerateConfiguration config => line (debug_testnet config)
  | FileWrittenToDisk path =>
      line ("Serialized OnChainConfig written to disk at path " +:+ debug_written_path path)
  end.

(** [write_pretty_struct]: an error of the serializer is an error of the [Display]. *)
Definition write_pretty_struct (r : MoveToolResult) : Text :=
  match json_pretty r with Ok s => Some (line s) | _ => None end.

Definition display_move_result (r : MoveToolResult) : Text :=
  match r with
  | Move_String res => Some (line res)
  | _ => write_pretty_struct r
  end.

Definition display_data_result (r : DatabaseToolResult) : string :=
  match r with ExportAllResult res | MigrateResult res => line res end.

Definition display_result (r : SupraToolResult) : Text :=
  match r with
  | Result_Profile res => Some (line (display_profile_result res))
  | Result_DKG res => Some (line (display_dkg_result res))
  | Result_Node res => Some (line (display_node_result res))
  | Result_Config res => Some (line (display_config_result res))
  | Result_Move res => line <$> display_move_result res
  | Result_Data res => Some (line (display_data_result res))
  | Result_Genesis => Some (line "")
  end.
End texts.
End Texts.

(** ** Dispatch *)
Module Dispatch.
Section dispatch.
Context `{CliEnv} `{!CmdEnv} `{!DkgEnv} `{!ValidatorEnv} `{!ExportEnv} `{!CeremonyEnv} `{!ConfigEnv}.
Context `{!GenesisEnv} `{!MainnetFiles Disk}.
Local Open Scope rust_scope.
Notation Cmd := (M Machine Stop).

(** A tool on its part of the machine. *)
Definition user {A} (m : M (Sys World Home) Stop A) : Cmd A := rzoom m_user set_user id m.

(** [NodeTool::execute]. *)
Definition execute_node (fuel : nat) (self : NodeTool) : Cmd NodeToolResult :=
  match self with
  | Node_Smr tool =>
      r <- rzoom m_node set_node Failed (Smr.execute tool) ;; rret (Node_SmrToolResult r)
  | Node_Identity cmd =>
      r <- user (Rotation.execute_rotation fuel cmd) ;; rret (Node_IdentityRotationResult r)
  | Node_DelegationPool tool =>
      r <- user (Pool.execute_pool fuel tool) ;; rret (Node_DelegationPoolResult r)
  end.

(** [SupraTool::execute]. *)
Definition execute (fuel : nat) (self : SupraTool) : Cmd SupraToolResult :=
  match self with
  | Supra_Profile tool =>
      r <- user (rmap_err Failed (ProfileTool.execute_profile tool)) ;; rret (Result_Profile r)
  | Supra_Nidkg tool =>
      r <- rzoom m_dkg set_dkg Failed (Dkg.Tool.execute tool) ;; rret (Result_DKG r)
  | Supra_Node tool => r <- execute_node fuel tool ;; rret (Result_Node r)
  | Supra_Config tool =>
      r <- rzoom m_node set_node Failed (quiet (Validator.Config.execute_config tool)) ;; rret (Result_Config r)
  | Supra_Move tool => r <- user (MoveTools.execute_move fuel tool) ;; rret (Result_Move r)
  | Supra_Data tool =>
      r <- rzoom m_files set_files Failed (Export.Tool.execute tool) ;; rret (Result_Data r)
  | Supra_Genesis tool =>
      rzoom m_ceremony set_ceremony Failed
        (Blob.execute (λ args, on_home id (Mainnet.execute args)) tool) ;;
      rret Result_Genesis
  | Supra_Governance tool =>
      r <- user (MoveTools.execute_governance fuel tool) ;; rret (Result_Move r)
  end.
End dispatch.
End Dispatch.

(** ** The tool *)
Module Shell.
Import Texts.
Section shell.
Context `{ShellEnv} `{!ConfigEnv} `{!GenesisEnv} `{!MainnetFiles Disk}.
Local Open Scope rust_scope.
Notation newline := Fetch.newline.

(** *** Logging *)
Definition log_level_of_u8 (value : Z) : LogLevel :=
  if value =? 0 then Log_Off
  else if value =? 1 then Log_Info
  else if value =? 2 then Log_Debug
  else if value =? 3 then Log_Trace
  else if value =? 4 then Log_Error
  else if value =? 5 then Log_Warn
  else Log_Trace.

Definition level_filter (value : LogLevel) : LevelFilter :=
  match value with
  | Log_Off => OFF | Log_Info => INFO | Log_Debug => DEBUG
  | Log_Trace => TRACE | Log_Error => ERROR | Log_Warn => WARN
  end.

(** Both calls are expected to succeed. *)
Definition set_cli_file_logger (_ : LogLevel) : M Out CliError unit :=
  λ w, match random_port w with
       | (w, Ok tokio_console_port) =>
           match init_logger tokio_console_port w with
           | (w, Ok u) => (w, Ok u)
           | (w, _) => (w, Panic)
           end
       | (w, _) => (w, Panic)
       end.

Definition set_panic_hook (_ : LogLevel) : M Out CliError unit := rmodify setup_hook.

(** [CliHistoryWriter::new]. *)
Definition history_writer_new (file_path : string) : M Out CliError unit :=
  rmap_err StdIoError (open_append file_path).

Definition get_cli_history_writer (verbose : option Z) : M Out CliError unit :=
  let log_level := log_level_of_u8 (default 1 verbose) in
  set_cli_file_logger log_level ;;
  set_panic_hook log_level ;;
  path <- rmap_err StdIoError cli_history ;;
  history_writer_new path.

(** *** Output *)

(** [write_fmt]: the pieces one after the other, up to the first that fails. *)
Fixpoint write_fmt (write : string → M Out IoError unit) (pieces : list Text) : M Out IoError unit :=
  match pieces with
  | [] => rret tt
  | None :: _ => match formatter_error with Some e => rfail e | None => rpanic end
  | Some piece :: pieces' => write piece ;; write_fmt write pieces'
  end.

(** [StdOutFormat::dump]. *)
Definition dump (self : StdOutFormat) (json : outcome SerdeError string) (data : Text)
    : M Out CliError unit :=
  match self with
  | Format_None => rret tt
  | Format_Json =>
      text <- rlift (omap_err SerdeJsonError json) ;;
      rmap_err StdIoError (write_fmt write_console [Some text; Some newline])
  | Format_DisplayTrait => rmap_err StdIoError (write_fmt write_console [data; Some newline])
  end.

Definition write_command_history (command : string) (json : outcome SerdeError string) (output : Text)
    (console : StdOutFormat) (file : bool) : M Out CliError unit :=
  time <- rgets now ;;
  dump console json output ;;
  if file then
    rmap_err StdIoError (write_fmt write_file_history [Some (display_time time); Some newline]) ;;
    rmap_err StdIoError (write_fmt write_file_history
      [Some ("CMD:" +:+ newline); Some command; Some (newline +:+ "Output:" +:+ newline);
       output; Some newline])
  else rret tt.

(** *** [SupraCli] *)
Record SupraCli := { cli : SupraTool; log : option Z; stdout : StdOutFormat }.

Record Session := { machine : Machine; out : Out }.

Definition on_out {A} (m : M Out CliError A) : M Session Stop A :=
  rzoom out (λ o t, {| machine := machine t; out := o |}) Failed m.
Definition on_machine {A} (m : M Machine Stop A) : M Session Stop A :=
  rzoom machine (λ x t, {| machine := x; out := out t |}) id m.

(** A command that waits beyond its fuel has not returned, and nothing is written. *)
Definition execute (fuel : nat) (self : SupraCli) : M Session Stop unit :=
  on_out (get_cli_history_writer (log self)) ;;
  let command_display := display_tool (cli self) in
  cli_execution_result <- rtry (on_machine (Dispatch.execute fuel (cli self))) ;;
  match cli_execution_result with
  | inl cli_res =>
      on_out (write_command_history command_display (json_result cli_res) (display_result cli_res)
                (stdout self) true)
  | inr (Failed cli_err) =>
      on_out (write_command_history command_display (json_string (show_cli_error cli_err))
                (Some (show_cli_error cli_err)) Format_None true) ;;
      rfail (Failed cli_err)
  | inr OutOfFuel => rfail OutOfFuel
  end.

(** *** Properties *)

(** The contents of the terminal and of the history file; a write that fails may
    have written a part. *)
Class OutLaws (console history : Out → string) : Prop := {
  console_written text w w' : write_console text w = (w', Ok tt) → console w' = console w +:+ text;
  console_grows text w : ∃ part, console (write_console text w).1 = console w +:+ part;
  console_apart text w : history (write_console text w).1 = history w;
  history_written text w w' :
    write_file_history text w = (w', Ok tt) → history w' = history w +:+ text;
  history_grows text w : ∃ part, history (write_file_history text w).1 = history w +:+ part;
  history_apart text w : console (write_file_history text w).1 = console w;
  (** Opening the file appends nothing, and the logger writes elsewhere. *)
  open_keeps path w : history (open_append path w).1 = history w ∧ console (open_append path w).1 = console w;
  path_keeps w : history (cli_history w).1 = history w ∧ console (cli_history w).1 = console w;
  port_keeps w : history (random_port w).1 = history w ∧ console (random_port w).1 = console w;
  logger_keeps p w : history (init_logger p w).1 = history w ∧ console (init_logger p w).1 = console w;
  hook_keeps w : history (setup_hook w) = history w ∧ console (setup_hook w) = console w;
}.

(** The entry of a command. *)
Definition entry (time : HistoryTime) (command output : string) : string :=
  display_time time +:+ newline +:+ "CMD:" +:+ newline +:+ command +:+ newline +:+
  "Output:" +:+ newline +:+ output +:+ newline.

(** What a successful command prints. *)
Definition printed (f : StdOutFormat) (res : SupraToolResult) : Text :=
  match f with
  | Format_None => Some ""
  | Format_Json => line <$> ok (json_result res)
  | Format_DisplayTrait => line <$> display_result res
  end.

Definition cat (l : list string) : string := foldr String.append "" l.

Lemma write_fmt_view (view : Out → string) write pieces w :
  (∀ text w w', write text w = (w', Ok tt) → view w' = view w +:+ text) →
  (∀ text w, ∃ part, view (write text w).1 = view w +:+ part) →
  let '(w', o) := write_fmt write pieces w in
  (∃ part, view w' = view w +:+ part) ∧
  (o = Ok tt → ∃ texts, pieces = Some <$> texts ∧ view w' = view w +:+ cat texts).
Proof.
  intros Hw Hg. revert w. induction pieces as [|[p|] pieces IH]; intros w; simpl.
  - split; [exists ""; by rewrite string_app_nil_r|]. intros _. exists [].
    split; [done|]. simpl. by rewrite string_app_nil_r.
  - unfold rthen. destruct (Hg p w) as [part Hp].
    destruct (write p w) as [w1 [[]|e|]] eqn:Hwp; [|by split; [exists part|]..].
    apply Hw in Hwp. specialize (IH w1). destruct (write_fmt write pieces w1) as [w' o].
    destruct IH as [[part' Hpart] Hok]. split.
    + exists (p +:+ part'). by rewrite Hpart, Hwp, string_app_assoc.
    + intros Ho. destruct (Hok Ho) as (texts & -> & Hv). exists (p :: texts).
      split; [done|]. change (cat (p :: texts)) with (p +:+ cat texts).
      by rewrite Hv, Hwp, string_app_assoc.
  - destruct formatter_error; (split; [exists ""; by rewrite string_app_nil_r|done]).
Qed.

Lemma write_fmt_apart (view : Out → string) write pieces w :
  (∀ text w, view (write text w).1 = view w) → view (write_fmt write pieces w).1 = view w.
Proof.
  intros Hk. revert w. induction pieces as [|[p|] pieces IH]; intros w; simpl; [done| |].
  - unfold rthen. specialize (Hk p w). destruct (write p w) as [w1 [[]|e|]]; simpl in *; [|done..].
    by rewrite IH.
  - by destruct formatter_error.
Qed.
#[local] Arguments write_fmt : simpl never.

Section recorded.
Context (console history : Out → string) `{!OutLaws console history}.

Lemma history_fmt pieces w :
  let '(w', o) := write_fmt write_file_history pieces w in
  (∃ part, history w' = history w +:+ part) ∧ console w' = console w ∧
  (o = Ok tt → ∃ texts, pieces = Some <$> texts ∧ history w' = history w +:+ cat texts).
Proof.
  pose proof (write_fmt_view history write_file_history pieces w history_written history_grows) as Hv.
  pose proof (write_fmt_apart console write_file_history pieces w history_apart) as Ha.
  destruct (write_fmt _ pieces w) as [w' o]. by destruct Hv.
Qed.

Lemma console_fmt pieces w :
  let '(w', o) := write_fmt write_console pieces w in
  history w' = history w ∧
  (o = Ok tt → ∃ texts, pieces = Some <$> texts ∧ console w' = console w +:+ cat texts).
Proof.
  pose proof (write_fmt_view console write_console pieces w console_written console_grows) as Hv.
  pose proof (write_fmt_apart history write_console pieces w console_apart) as Ha.
  destruct (write_fmt _ pieces w) as [w' o]. by destruct Hv.
Qed.

Lemma opening_keeps verbose w :
  let w' := (get_cli_history_writer verbose w).1 in
  history w' = history w ∧ console w' = console w.
Proof.
  cbv zeta. unfold get_cli_history_writer, set_cli_file_logger, set_panic_hook, history_writer_new.
  unfold rthen, rmap_err, rmodify.
  pose proof (port_keeps w) as [H1' H2']. destruct (random_port w) as [w1 [p|e|]]; [|done..].
  pose proof (logger_keeps p w1) as [H3' H4']. destruct (init_logger p w1) as [w2 [[]|e|]];
    simpl in *; [|split; congruence..].
  pose proof (hook_keeps w2) as [H5' H6']. pose proof (path_keeps (setup_hook w2)) as [H7' H8'].
  destruct (cli_history _) as [w3 [path|e|]]; simpl in *; [|split; congruence..].
  pose proof (open_keeps path w3) as [H9' H10'].
  destruct (open_append path w3) as [w4 o]; simpl in *. split; congruence.
Qed.

Lemma dump_spec f json data w :
  let '(w', o) := dump f json data w in
  history w' = history w ∧
  match o with
  | Ok _ =>
      ∃ text, console w' = console w +:+ text ∧
        match f with
        | Format_None => Some ""
        | Format_Json => line <$> ok json
        | Format_DisplayTrait => line <$> data
        end = Some text
  | Err e => (∃ io, e = StdIoError io) ∨ ∃ s, e = SerdeJsonError s
  | Panic => True
  end.
Proof.
  unfold dump. destruct f; simpl.
  - split; [done|]. exists "". by rewrite string_app_nil_r.
  - unfold rthen, rlift. destruct json as [text|e|]; simpl; [|by eauto..].
    unfold rmap_err. pose proof (console_fmt [Some text; Some newline] w) as Hc.
    destruct (write_fmt _ _ w) as [w' [[]|e|]]; simpl; (split; [by destruct Hc|]); [|by eauto..].
    destruct Hc as [_ (texts & Heq & Hc)]; [done|]. exists (line text). split; [|done].
    destruct texts as [|? [|? [|? ?]]]; simplify_eq/=. rewrite Hc. unfold line, cat. cbn [foldr].
    by rewrite string_app_nil_r.
  - unfold rmap_err. pose proof (console_fmt [data; Some newline] w) as Hc.
    destruct (write_fmt _ _ w) as [w' [[]|e|]]; simpl; (split; [by destruct Hc|]); [|by eauto..].
    destruct Hc as [_ (texts & Heq & Hc)]; [done|].
    destruct texts as [|text [|? [|? ?]]]; simplify_eq/=. exists (line text). split; [|done].
    rewrite Hc. unfold line, cat. cbn [foldr]. by rewrite string_app_nil_r.
Qed.

Lemma command_history_spec command json output f w :
  let '(w', o) := write_command_history command json output f true w in
  (∃ part, history w' = history w +:+ part) ∧
  match o with
  | Ok _ =>
      ∃ text shown, output = Some text ∧
        history w' = history w +:+ entry (now w) command text ∧
        console w' = console w +:+ shown ∧
        match f with
        | Format_None => Some ""
        | Format_Json => line <$> ok json
        | Format_DisplayTrait => line <$> output
        end = Some shown
  | Err e => (∃ io, e = StdIoError io) ∨ ∃ s, e = SerdeJsonError s
  | Panic => True
  end.
Proof.
  unfold write_command_history, rthen at 1 2, rgets. pose proof (dump_spec f json output w) as Hd.
  destruct (dump f json output w) as [w1 [[]|e|]]; destruct Hd as [Hh Hd].
  2,3: split; [exists ""; by rewrite Hh, string_app_nil_r|done].
  destruct Hd as (shown & Hshown & Hf). unfold rthen, rmap_err.
  pose proof (history_fmt [Some (display_time (now w)); Some newline] w1) as H1'.
  destruct (write_fmt _ _ w1) as [w2 [[]|e|]]; destruct H1' as ([p1 Hp1] & Hc1 & Ht1); simpl.
  2,3: split; [exists p1; congruence|by eauto].
  destruct Ht1 as (t1 & He1 & Ht1); [done|].
  destruct t1 as [|? [|? [|? ?]]]; simplify_eq/=.
  match goal with |- context [write_fmt _ ?l w2] => set (pieces := l) end.
  pose proof (history_fmt pieces w2) as H2'.
  destruct (write_fmt _ pieces w2) as [w3 [[]|e|]]; destruct H2' as ([p2 Hp2] & Hc2 & Ht2); simpl.
  all: split; [eexists; by rewrite Hp2, Ht1, Hh, <-string_app_assoc|].
  2,3: by eauto.
  destruct Ht2 as (t2 & He2 & Ht2); [done|]. unfold pieces in He2.
  destruct t2 as [|a [|b [|c [|text [|e [|? ?]]]]]]; simplify_eq/=.
  exists text, shown. split_and!; [done| |by rewrite Hc2, Hc1|done].
  rewrite Ht2, Ht1, Hh. unfold entry, cat. cbn [foldr].
  by rewrite !string_app_nil_r, <-!string_app_assoc.
Qed.

(** C23 The history of the tool.  It is only ever appended to.  If it cannot be
    opened, the command does not run.  Otherwise the command runs once, whatever
    is printed afterwards.  A success of the tool means that the command succeeded,
    that its result was printed in the chosen format, and that the command and its
    result were appended to the history.  An error is the one of the command, with
    nothing printed and the error appended; or it is an error of the output or of
    the history, which hides the outcome of a command that took effect. *)
Theorem command_recorded fuel self t t' o :
  execute fuel self t = (t', o) →
  let ran := Dispatch.execute fuel (cli self) (machine t) in
  (∃ part, history (out t') = history (out t) +:+ part) ∧
  match (get_cli_history_writer (log self) (out t)).2 with
  | Ok _ =>
      machine t' = ran.1 ∧
      match o with
      | Ok _ =>
          ∃ res text shown time, ran.2 = Ok res ∧
            display_result res = Some text ∧ printed (stdout self) res = Some shown ∧
            history (out t') = history (out t) +:+ entry time (display_tool (cli self)) text ∧
            console (out t') = console (out t) +:+ shown
      | Err (Failed e) =>
          (ran.2 = Err (Failed e) ∧ console (out t') = console (out t) ∧
           ∃ time, history (out t')
                   = history (out t) +:+ entry time (display_tool (cli self)) (show_cli_error e)) ∨
          ((∃ io, e = StdIoError io) ∨ (∃ s, e = SerdeJsonError s)) ∧
          (is_ok ran.2 = true ∨ ∃ e', ran.2 = Err (Failed e'))
      | Err OutOfFuel => ran.2 = Err OutOfFuel ∧ history (out t') = history (out t)
      | Panic => True
      end
  | Err e => machine t' = machine t ∧ o = Err (Failed e)
  | Panic => machine t' = machine t ∧ o = Panic
  end.
Proof.
  cbv zeta. unfold execute, rthen at 1, on_out at 1, rzoom at 1.
  destruct (opening_keeps (log self) (out t)) as [Hh Hc].
  destruct (get_cli_history_writer (log self) (out t)) as [w [[]|e|]]; simpl in *.
  2,3: intros [= <- <-]; (split; [exists ""; by rewrite string_app_nil_r|done]).
  unfold rthen at 1, rtry, on_machine, rzoom at 1. simpl.
  destruct (Dispatch.execute fuel (cli self) (machine t)) as [m [res|[e|]|]]; simpl.
  - unfold on_out, rzoom. simpl.
    pose proof (command_history_spec (display_tool (cli self)) (json_result res)
                  (display_result res) (stdout self) w) as Hs.
    destruct (write_command_history _ _ _ _ _ w) as [w' [[]|e|]]; destruct Hs as [[part Hp] Hs];
      intros [= <- <-]; simpl; rewrite <-Hh; (split; [by exists part|]); (split; [done|]); [| |done].
    + destruct Hs as (text & shown & Ht & He & Hsh & Hf). rewrite <-Hc.
      exists res, text, shown, (now w). by split_and!.
    + right. by auto.
  - unfold rthen, on_out, rzoom. simpl.
    pose proof (command_history_spec (display_tool (cli self)) (json_string (show_cli_error e))
                  (Some (show_cli_error e)) Format_None w) as Hs.
    destruct (write_command_history _ _ _ _ _ w) as [w' [[]|e'|]]; destruct Hs as [[part Hp] Hs];
      intros [= <- <-]; simpl; rewrite <-Hh; (split; [by exists part|]); (split; [done|]); [| |done].
    + destruct Hs as (text & shown & [= <-] & He & Hsh & [= <-]). left.
      rewrite string_app_nil_r in Hsh. split_and!; [done|congruence|by exists (now w)].
    + right. eauto.
  - intros [= <- <-]. simpl. split; [exists ""; by rewrite string_app_nil_r|done].
  - intros [= <- <-]. simpl. split; [exists ""; by rewrite string_app_nil_r|done].
Qed.

(** Secret keys are not recorded.  A list of the profiles with their secret keys
    prints them on the terminal, and what the history gets is the time, the
    command and an empty line: nothing that depends on the profiles. *)
Theorem secrets_not_recorded fuel log stdout t t' :
  execute fuel {| cli := Supra_Profile (ProfileTool.List true); log := log; stdout := stdout |} t
    = (t', Ok tt) →
  (∃ time, history (out t') = history (out t) +:+
     entry time (debug_profile_tool (ProfileTool.List true)) newline) ∧
  ∃ u manager password,
    read_or_create true false (m_user (machine t)) = (u, Ok (manager, password)) ∧
    m_user (machine t')
      = {| world := print_line (unsafe_display_string manager) (world u); home := home u |}.
Proof.
  unfold execute, rthen at 1, on_out at 1, rzoom at 1.
  destruct (opening_keeps log (out t)) as [Hh _].
  destruct (get_cli_history_writer _ (out t)) as [w [[]|e|]]; simpl in *; [|done..].
  unfold rthen at 1, rtry, on_machine, rzoom at 1. simpl.
  unfold Dispatch.user, rthen at 1, rzoom at 1, rmap_err at 1. simpl.
  unfold ProfileTool.list_profiles, ProfileTool.println, rmodify, rthen at 1, rmap_err at 1. simpl.
  destruct (read_or_create true false _) as [u [[manager password]|e|]]; simpl.
  - unfold on_out, rzoom. simpl.
    pose proof (command_history_spec (debug_profile_tool (ProfileTool.List true))
                  (json_result (Result_Profile Profile_Blank)) (Some newline) stdout w) as Hs.
    destruct (write_command_history _ _ _ _ _ w) as [w' [[]|e|]]; destruct Hs as [_ Hs];
      intros [= <-]. simpl.
    destruct Hs as (text & shown & [= <-] & He & _). rewrite <-Hh.
    split; [by exists (now w)|]. by exists u, manager, password.
  - unfold rthen. by destruct (on_out _ _) as [? [[]|?|]].
  - done.
Qed.
End recorded.
End shell.
End Shell.
