(* ===== verification/ShellExamples.v ===== *)
(** * The command line tool at concrete data

    The terminal and the history file are strings; the tools are those of the other
    examples. *)

From S2P Require Import Prelude CliTypes RpcClient TxOptions Identity Startup Validator Dkg Genesis Ceremony Export Commands Cli.
From S2P Require Import CliExamples ClientExamples StartupExamples GenesisExamples DkgExamples CeremonyExamples ExportExamples CommandsExamples.
From stdpp Require Import base tactics option list gmap strings.
From Stdlib Require Import ZArith Lia.
Local Open Scope Z_scope.

Definition ex_time : HistoryTime := {| Cli.local := "10:00"; utc := "09:00" |}.

#[export] Instance ex_shell : ShellEnv := {|
  debug_profile_tool _ := "List(ListProfileArgs)"; debug_dkg_tool _ := "dkg"; debug_node_tool _ := "node";
  debug_config_tool _ := "Show"; debug_database_tool _ := "data"; debug_genesis_tool _ := "genesis";
  debug_multisig_tool _ := "multisig"; debug_info _ := "info"; debug_signature s := s;
  debug_testnet _ := "testnet"; debug_written_path p := p;
  show_profiles _ := "profiles"; show_settings _ := "settings";
  supra_home_path := Ok "/home"; cli_history_path := Ok "/home/history"; cli_logs_path := Err "none";
  json_pretty _ := Ok "{}"; json_result _ := Ok "{}"; json_string s := Ok s;
  (** The console and the history. *)
  Out := string * string;
  now _ := ex_time;
  write_console text w := ((w.1 +:+ text, w.2), Ok tt);
  write_file_history text w := ((w.1, w.2 +:+ text), Ok tt);
  cli_history w := (w, Ok "/home/history");
  open_append path w := (w, Ok tt);
  formatter_error := None;
  random_port w := (w, Ok 6669);
  init_logger p w := (w, Ok tt);
  setup_hook w := w;
|}.

Definition ex_console (w : @Out _ _ _ _ _ _ ex_shell) : string := w.1.
Definition ex_history (w : @Out _ _ _ _ _ _ ex_shell) : string := w.2.

#[export] Instance ex_out_laws : Shell.OutLaws ex_console ex_history.
Proof.
  split; try done.
  - by intros text [c h] w' [= <-].
  - intros text w. by exists text.
  - by intros text [c h] w' [= <-].
  - intros text w. by exists text.
Qed.

(** The files of the genesis accounts are missing. *)
#[export] Instance ex_mainnet_files : MainnetFiles (@Disk _ ex_ceremony) := {|
  read_balances_of d := GenesisExamples.ex_read;
  read_multisig_config d p := Ok GenesisExamples.ex_config;
  read_committees d p := Ok None;
  read_consensus_keys d p := Ok [];
  read_pool_schedules d p := Ok ("default", []);
  read_vesting_schedules d p := Ok [];
  vesting_account_cmp := ex_cmp; vesting_pool_config_cmp := ex_cmp; str_cmp := ex_cmp;
  pool_config_cmp := ex_cmp; delegator_account_cmp := ex_cmp; owner_cmp := ex_cmp;
  multisig_account_cmp := ex_cmp;
  write_as_genesis_config c d := (d, Ok tt);
  foundation_accounts_json a := "{}"; FOUNDATION_MULTISIG_ACCOUNTS_JSON := "accounts.json";
  write_file p t d := (d, Ok tt);
|}.

Definition ex_machine : Machine := {|
  m_user := ex_sys;
  m_dkg := {| world := ("password" : @Terminal _ ex_dkg); home := DkgExamples.ex_empty |};
  m_node := ex_validator_proc;
  m_files := (∅ : @Files _ ex_export);
  m_ceremony := CeremonyExamples.ex_start;
|}.

Definition ex_session : Shell.Session := {| Shell.machine := ex_machine; Shell.out := ("", "old ") |}.

Definition ex_show : Shell.SupraCli :=
  {| Shell.cli := Supra_Config Config_Show; Shell.log := None; Shell.stdout := Format_Json |}.

Lemma ex_show_ok : is_ok (Shell.execute 0 ex_show ex_session).2 = true.
Proof. vm_compute. reflexivity. Qed.

Lemma command_recorded_witness :
  ∃ t', Shell.execute 0 ex_show ex_session = (t', Ok tt) ∧
    ex_console (Shell.out t') = "{}" +:+ Fetch.newline ∧
    ∃ time text, ex_history (Shell.out t') = "old " +:+ Shell.entry time "Show" text.
Proof.
  destruct (run_ok _ _ ex_show_ok) as (t' & [] & Hrun). exists t'. split; [exact Hrun|].
  pose proof (Shell.command_recorded ex_console ex_history 0 ex_show ex_session t' (Ok tt) Hrun)
    as [_ Hrec].
  destruct Hrec as (_ & res & text & shown & time & _ & _ & Hshown & Hhist & Hcons).
  split; [|exists time, text; exact Hhist].
  rewrite Hcons. injection Hshown as <-. reflexivity.
Defined.

Definition ex_reveal : Shell.SupraCli :=
  {| Shell.cli := Supra_Profile (ProfileTool.List true); Shell.log := Some 3;
     Shell.stdout := Format_DisplayTrait |}.

Lemma ex_reveal_ok : is_ok (Shell.execute 0 ex_reveal ex_session).2 = true.
Proof. vm_compute. reflexivity. Qed.

Lemma secrets_not_recorded_witness :
  ∃ t' time, Shell.execute 0 ex_reveal ex_session = (t', Ok tt) ∧
    ex_history (Shell.out t')
    = "old " +:+ Shell.entry time "List(ListProfileArgs)" Fetch.newline.
Proof.
  destruct (run_ok _ _ ex_reveal_ok) as (t' & [] & Hrun).
  destruct (Shell.secrets_not_recorded ex_console ex_history 0 (Some 3) Format_DisplayTrait
              ex_session t' Hrun) as [[time Hh] _].
  exists t', time. split; [exact Hrun|exact Hh].
Defined.
